(* ===== verification/_CoqProject ===== *)
-Q . S2P
Prelude.v
Pointers.v
CString.v
Padding.v
MemFns.v
Ports.v
Pic.v
Paging.v
Tlb.v
State.v
Machine.v
VirtMem.v
Pcb.v
Demo.v
Screen.v
Printf.v
FileSystem.v
LibInline.v
FileExamples.v
Rtc.v
ClockRuns.v
Keyboard.v
KeyboardExamples.v
Terminal.v
TerminalExamples.v
Syscalls.v
Process.v
Idt.v
Command.v
Descriptors.v
DescriptorExamples.v
Exec.v
Launch.v
Halt.v
Exceptions.v
UserCalls.v
ProcessExamples.v
Sched.v
Frame.v
FrameCalls.v
SchedStart.v
SchedExamples.v
StartExamples.v
System.v
SystemExamples.v
Waiting.v
WaitingExamples.v
Asm.v
Wrappers.v
Preempt.v
PreemptExamples.v
Traps.v
TrapExamples.v
Nested.v
NestedExamples.v
Boot.v
BootExamples.v
Structs.v
BootCode.v
BootCodeExamples.v
Tests.v
TestExamples.v
