(* ===== verification/Prelude.v ===== *)
(** * BigBrainOS: a verification development of the kernel

    BigBrainOS (src/student-distrib) is a small x86 kernel: it boots under a Multiboot
    loader, shares the processor between three terminals, runs up to six user programs
    from a read-only file system, and offers ten system calls.

    ** The parts of the program, how they interact, and where they are modelled

    The library (lib.c, lib.h).  Strings: CString.v ([strlen], [strncmp], [strcpy],
    [strncpy], [strrev], [itoa], [left_pad]); Padding.v has the theorem on [left_pad].
    Memory: MemFns.v ([memset], [memset_word], [memset_dword], [memcpy], [memmove], from
    their inline assembly).  Both are written over the abstract pointers of Pointers.v, so
    the same text serves user buffers, kernel arrays, locals and literals.  Ports:
    Ports.v ([outb], [inb], with the log of everything that was written and read).
    Screen: Screen.v ([putc], [puts], [clear], scrolling, cursor, [screen_backspace],
    [swap_vid_mem]).  Formatted output: Printf.v.  LibInline.v has what lib.h and lib.c
    offer and nothing calls.

    The devices.  Pic.v is i8259.c, Rtc.v is rtc.c (ClockRuns.v: sequences of calls of all
    programs), Keyboard.v is keyboard.c (scancodes,
    line editor, history, terminal switches), Terminal.v is terminal.c.  Paging.v is
    paging.c with the page walk of the processor; Tlb.v adds the cache of translations,
    with the operations of paging.c as sequences of stores and flushes.

    The state.  State.v has the C structures and globals as records; Machine.v has the
    monad [K] in which the kernel's functions are written, memory accesses through the
    page tables, the interrupt flag and busy waits; VirtMem.v relates mapped blocks of
    memory to Pointers.v; Pcb.v is pcb.c.

    Files.  FileSystem.v is file_system.c: the image as a list of bytes, the files it
    describes, the functions that read it.

    System calls and processes.  Syscalls.v (descriptors, [sys_read], [sys_write],
    [sys_open], [sys_close], [sys_getargs], [sys_vidmap] of system_calls.c) and Process.v
    ([sys_execute], [sys_halt], [blue_screen] of lib.c, the dispatcher of
    interrupt_wrappers.S) hold the definitions.  Their theorems are in Descriptors.v,
    Command.v (parsing), Exec.v (lookup and loading), Launch.v ([sys_execute]), Halt.v
    ([sys_halt]) and UserCalls.v ([sys_getargs], [sys_vidmap]).

    Interrupts.  Idt.v is idt.c with the descriptors of x86_desc.h; Exceptions.v has the
    theorem on the exception handlers.  Sched.v is pit.c; SchedStart.v treats its branch
    that starts a shell.  System.v puts the handlers together: sequences of interrupts and
    output; Waiting.v runs [rtc_read] while they happen.  Frame.v has rules for what a function of the kernel leaves unchanged in every
    state, FrameCalls.v follows them through all system calls and handlers.

    The assembly files.  Asm.v is the processor: registers, stack memory, flags, interrupt
    entry and [iret], with the C functions as the targets of [call].  Wrappers.v is
    interrupt_wrappers.S on it, instruction by instruction.  Preempt.v runs the devices'
    wrappers between the instructions of three programs, Traps.v runs system calls from
    [int $0x80] to [iret], Nested.v whole sequences of programs that start programs and end.

    Booting.  Boot.v is kernel.c with the segment descriptors.  Structs.v has the byte
    layout of the packed structures of file_system.h, x86_desc.h and multiboot.h.
    BootCode.v is x86_desc.S and boot.S.  Tests.v is tests.c.

    The files named Examples (and Demo.v) hold concrete states and apply the theorems to
    them.

    ** What the theorems show

    Paging: every sequence of the driver's operations realises an abstract address map,
    and user mode never loads from or stores to more than the running program's page and
    the screen it asked for; the cache of translations is never observable between two operations.
    Screen: [putc] refines an abstract terminal of 25 rows, [printf] prints what its
    format denotes, backspace undoes a character.  Library: the optimised block functions
    equal byte loops, [itoa] reads back, [left_pad] pads and needs more room than its
    output.  Clock: whatever the programs ask for, the chip runs at a frequency that serves
    all of them and every program has the divisor for its own, and [rtc_read] returns after
    the right number of clock interrupts, whatever else happens meanwhile.  Keyboard and terminal: every scancode edits the
    line as the abstract editor does, and a reader on the displayed terminal gets the line that
    was typed.  File
    system: lookup finds exactly the named entry, reads deliver slices of the file's
    contents.  Descriptors: allocation and release (of the clock's too), reading through a
    descriptor, and what unchecked arguments do.  Processes: [sys_execute] on every path, [sys_halt] of
    started processes and of root shells that hold no open clock descriptor, and that
    programs nest: any sequence of starts and ends is that of a stack of programs, and a
    parent finds its registers and memory as it left them.  Scheduler: a tick
    switches stack, cursor, pages and keyboard; three ticks resume the same process; an
    idle terminal gets a shell, and one whose shell cannot be started stops the scheduler.
    Exceptions: each ends the program that raised it.  Interrupt table: every vector
    of the processor's and the controllers' numbering leads to its handler, and user code
    enters through 0x80 only.

    System: under every interleaving of ticks, keys,
    clock interrupts and output the kernel refines three independent line editors with
    their screens, and (Preempt.v) the programs of the three terminals keep every register
    across every such interleaving.  System calls: behind [int $0x80] a program finds the
    result in EAX and its own EBX, ESI, EDI, EBP, ESP and flags, and a parent continues
    behind its own [int $0x80] when its child has ended.  Boot: from the
    boot loader's jump to [start], through the descriptor table and [entry], to the first
    instruction of the first shell, with every component's invariant established.

    Beside these there are lemmas of their own interest: that no sequence of calls and
    handlers changes the lengths of the kernel's arrays (FrameCalls.v), the sizes of the
    packed structures and that the image is read as these structures (Structs.v), and what
    the checkpoint tests report on the booted kernel (Tests.v).

    Operations on the same data are related by shared lemmas: [screen_frame] says what
    printing leaves alone, [paging_rep] what the tables mean, [mounted] that the image is
    in place, [tty_rep] what a screen shows, [rtc_ok] the clock's invariant.

    ** Integers, loops and waiting

    A w-bit integer is a [Z] with its conversions written out.  Array accesses outside
    bounds, faults, null calls and reads of bytes nobody wrote are values of [err], so a
    theorem that a function returns [Ok] also says that none of this happens.

    [while] loops run under the bound [FUEL] = 2^32 (CString.v), as a binary number: every
    such loop counts with a 32-bit variable or moves a pointer forward, so it cannot take
    more rounds without repeating a state.  A loop that exceeds the bound is [Err
    Diverges]; the theorems give the exact result and hence termination.  Busy waits
    ([rtc_read], [terminal_read]) take the list of interrupts that happen meanwhile; with
    too few of them they are [Blocked].

    ** The boundary of the model

    Parameters stand for what the sources do not determine: where the linker puts the page
    tables ([Layout]), the handlers and the TSS ([linkage]), the tables of x86_desc.S and
    the idle loop ([placement], with the size of [entry]'s stack frame), what
    uninitialised locals and the stack behind arrays hold ([locals], [linkage]), and what
    compiled code leaves in the registers and the stack memory it may use ([residue] in
    Asm.v).  Devices are their port traffic.

    Process control blocks, terminals and the other globals are typed records beside the
    byte memory [k_mem]: a raw store into the kernel's 4 MB does not change them.  The
    stack memory that the wrappers use is a map of its own in Asm.v, and a call of a C
    function may overwrite everything below the stack pointer in its process's 8 kB; the
    overflow of a kernel stack is not modelled.  User programs are not modelled: in
    Preempt.v and Traps.v they are arbitrary changes of the registers between interrupts.
    Kernel code runs without interruption except in busy waits.  In System.v a terminal
    is switched only while the displayed one runs; Keyboard.v ([key_after_switch]) shows
    what happens to a key between a switch and the next tick.

    BootCode.v checks the segment registers when they are loaded.  Asm.v has CS, SS and DS,
    which [sys_execute] loads with the user's data segment; ES, FS and GS are left out there,
    since nothing behind boot.S loads them, and so is the processor's clearing of a data
    segment register on a return to user mode: DS is the user's from the first [iret] on.
    Programs are taken to leave their segment registers alone.  Every segment is flat.  Tlb.v caches whole
    translations, not the upper half of a walk on its own.

    Not modelled: the macros of debug.h (empty, and unused), and prototypes.

    ** Further work

    System calls other than output, and the start of shells, among the interleaved events
    of Preempt.v and Nested.v; the end of processes with an open clock descriptor; the memory of the kernel stacks and the blocks in [k_mem], so that
    overruns become visible. *)

From stdpp Require Import base gmap list numbers strings.
From Stdlib Require Import ZArith Lia.

#[global] Open Scope Z_scope.

(** ** Machine integers

    An integer of C type [uintW_t] is a [Z] in [0, 2^W); an integer of type
    [intW_t] is a [Z] in [-2^(W-1), 2^(W-1)).  The functions below are the
    conversions of C (gcc, i386): reduction modulo [2^W], then reading the
    top bit as a sign. *)

Definition u8 (z : Z) : Z := z mod 2 ^ 8.
Definition u16 (z : Z) : Z := z mod 2 ^ 16.
Definition u32 (z : Z) : Z := z mod 2 ^ 32.
Definition signed (w z : Z) : Z :=
  let m := z mod 2 ^ w in if m <? 2 ^ (w - 1) then m else m - 2 ^ w.
Definition s8 (z : Z) : Z := signed 8 z.
Definition s32 (z : Z) : Z := signed 32 z.

(** The byte range. *)
Definition is_byte (b : Z) : Prop := 0 <= b < 256.

(** [NULL] and [ERROR] of types.h. *)
Definition NULL : Z := 0.
Definition ERROR : Z := -1.

(** ** Results

    Code whose behaviour the C source does not define, that faults, or that
    does not return is a value of [err], never an ordinary result. *)

Inductive err : Type :=
| OutOfBounds (i : Z)     (* an array is indexed outside its bounds *)
| PageFault (a : Z)       (* the address has no present translation *)
| Unwritten (a : Z)       (* a byte nobody has written is read *)
| NullCall                (* a null function pointer is called *)
| BadSelector (s : Z)     (* the processor refuses a segment selector *)
| DivByZero
| NoInput                 (* a port is read and the device has no data left *)
| Blocked                 (* a busy wait outlives the interrupts given *)
| Diverges.               (* a loop does not end *)

Inductive res (A : Type) : Type :=
| Ok (a : A)
| Err (e : err).
Arguments Ok {A} a.
Arguments Err {A} e.

#[global] Instance res_ret : MRet res := fun A => @Ok A.
#[global] Instance res_bind : MBind res := fun A B f m =>
  match m with Ok a => f a | Err e => Err e end.

#[global] Instance err_eq_dec : EqDecision err.
Proof. solve_decision. Defined.
#[global] Instance res_eq_dec {A} `{EqDecision A} : EqDecision (res A).
Proof. solve_decision. Defined.

Definition ok_or {A} (d : A) (r : res A) : A := match r with Ok a => a | Err _ => d end.

Definition is_Ok {A} (r : res A) : Prop := exists a, r = Ok a.

Lemma bind_Ok {A B} (m : res A) (f : A -> res B) b :
  (m ≫= f) = Ok b <-> exists a, m = Ok a /\ f a = Ok b.
Proof.
  destruct m; simpl; split.
  - eauto.
  - by intros (? & [= ->] & ?).
  - discriminate.
  - by intros (? & ? & _).
Qed.

Lemma Ok_bind {A B} (a : A) (f : A -> res B) : (Ok a ≫= f) = f a.
Proof. done. Qed.

Lemma bind_assoc_res {A B C} (m : res A) (f : A -> res B) (g : B -> res C) :
  ((m ≫= f) ≫= g) = (m ≫= fun a => f a ≫= g).
Proof. by destruct m. Qed.

Lemma bind_ret_res {A} (m : res A) : (m ≫= Ok) = m.
Proof. by destruct m. Qed.

(** ** Loops

    A [while] loop is the iteration of a step that either continues with a
    new state ([inl]) or leaves the loop with a result ([inr]).  The number
    of iterations is bounded by a binary number, so that a bound such as
    [2 ^ 32] costs nothing when the loop ends early. *)

Section Loops.
Context {S R : Type}.

Fixpoint iter_pos (p : positive) (f : S -> res (S + R)) (s : S) : res (S + R) :=
  match p with
  | xH => f s
  | xO q =>
      r ← iter_pos q f s;
      match r with inl s' => iter_pos q f s' | inr v => Ok (inr v) end
  | xI q =>
      r ← f s;
      match r with
      | inl s1 =>
          r2 ← iter_pos q f s1;
          match r2 with inl s2 => iter_pos q f s2 | inr v => Ok (inr v) end
      | inr v => Ok (inr v)
      end
  end.

Definition loop (fuel : positive) (f : S -> res (S + R)) (s : S) : res R :=
  r ← iter_pos fuel f s;
  match r with inl _ => Err Diverges | inr v => Ok v end.

(** The loop, run from [s], leaves after [n] continuations with [r]. *)
Inductive runs (f : S -> res (S + R)) : S -> nat -> res R -> Prop :=
| runs_done s v : f s = Ok (inr v) -> runs f s 0 (Ok v)
| runs_err s e : f s = Err e -> runs f s 0 (Err e)
| runs_step s s' n r :
    f s = Ok (inl s') -> runs f s' n r -> runs f s (Datatypes.S n) r.

Fixpoint iter_nat (n : nat) (f : S -> res (S + R)) (s : S) : res (S + R) :=
  match n with
  | O => Ok (inl s)
  | Datatypes.S n =>
      r ← f s;
      match r with inl s' => iter_nat n f s' | inr v => Ok (inr v) end
  end.

Lemma iter_nat_add n m f s :
  iter_nat (n + m) f s =
  (r ← iter_nat n f s;
   match r with inl s' => iter_nat m f s' | inr v => Ok (inr v) end).
Proof.
  revert s; induction n as [|n IH]; intros s; simpl; [done|].
  destruct (f s) as [[s'|v]|e]; simpl; auto.
Qed.

Lemma iter_pos_nat p f s : iter_pos p f s = iter_nat (Pos.to_nat p) f s.
Proof.
  revert s; induction p as [q IH|q IH|]; intros s.
  - rewrite Pos2Nat.inj_xI. simpl (iter_nat _ _ _).
    replace (Pos.to_nat q + (Pos.to_nat q + 0))%nat
      with (Pos.to_nat q + Pos.to_nat q)%nat by lia.
    simpl. destruct (f s) as [[s'|v]|e]; simpl; auto.
    rewrite iter_nat_add, <- IH.
    destruct (iter_pos q f s') as [[s''|v]|e]; simpl; auto.
  - rewrite Pos2Nat.inj_xO.
    replace (2 * Pos.to_nat q)%nat with (Pos.to_nat q + Pos.to_nat q)%nat by lia.
    rewrite iter_nat_add, <- IH. simpl.
    destruct (iter_pos q f s) as [[s''|v]|e]; simpl; auto.
  - change (Pos.to_nat 1) with 1%nat. simpl. by destruct (f s) as [[|]|].
Qed.

Lemma iter_nat_runs f s n r m :
  runs f s n r -> (n < m)%nat ->
  iter_nat m f s = match r with Ok v => Ok (inr v) | Err e => Err e end.
Proof.
  intros H; revert m; induction H as [s v E|s e E|s s' n r E H IH];
    intros [|m] Hm; try lia; simpl; rewrite E; simpl; auto.
  apply IH; lia.
Qed.

(** A run shorter than the bound is the value of the loop. *)
Lemma loop_runs fuel f s n r :
  runs f s n r -> (n < Pos.to_nat fuel)%nat -> loop fuel f s = r.
Proof.
  intros H Hn. unfold loop. rewrite iter_pos_nat, (iter_nat_runs _ _ _ _ _ H Hn).
  by destruct r.
Qed.

Lemma loop_runs_Z fuel f s n r :
  runs f s n r -> Z.of_nat n < Zpos fuel -> loop fuel f s = r.
Proof. intros H Hn. eapply loop_runs; [exact H|lia]. Qed.
End Loops.

(** [for (i = a; i < b; i++) body], with a body that may fail. *)
Section ForLoops.
Context {S : Type}.

Fixpoint for_nat (n : nat) (i : Z) (body : Z -> S -> res S) (s : S) : res S :=
  match n with
  | O => Ok s
  | Datatypes.S n => s' ← body i s; for_nat n (i + 1) body s'
  end.

Definition for_range (a b : Z) (body : Z -> S -> res S) (s : S) : res S :=
  for_nat (Z.to_nat (b - a)) a body s.

Lemma for_nat_app n m i body s :
  for_nat (n + m) i body s =
  (s' ← for_nat n i body s; for_nat m (i + Z.of_nat n) body s').
Proof.
  revert i s; induction n as [|n IH]; intros i s; simpl.
  - f_equal. lia.
  - destruct (body i s) as [s'|e]; simpl; [|done].
    rewrite IH. destruct (for_nat n (i + 1) body s') as [s''|e]; simpl; [|done].
    f_equal. lia.
Qed.

(** Invariant rule: the loop is total and establishes the invariant. *)
Lemma for_range_inv (I : Z -> S -> Prop) a b body s :
  a <= b -> I a s ->
  (forall i s, a <= i < b -> I i s -> exists s', body i s = Ok s' /\ I (i + 1) s') ->
  exists s', for_range a b body s = Ok s' /\ I b s'.
Proof.
  intros Hab HI Hstep. unfold for_range.
  remember (Z.to_nat (b - a)) as n eqn:Hn.
  revert a s Hab HI Hn Hstep. induction n as [|n IH]; intros a s Hab HI Hn Hstep.
  - exists s. split; [done|]. by replace b with a by lia.
  - destruct (Hstep a s) as (s1 & E1 & H1); [lia|done|].
    destruct (IH (a + 1) s1) as (s2 & E2 & H2); [lia|done|lia| |].
    { intros i s' Hi. apply Hstep. lia. }
    exists s2. simpl. by rewrite E1.
Qed.

Lemma for_range_ext a b body1 body2 s :
  (forall i s, a <= i < b -> body1 i s = body2 i s) ->
  for_range a b body1 s = for_range a b body2 s.
Proof.
  unfold for_range. remember (Z.to_nat (b - a)) as n eqn:Hn.
  revert a s Hn. induction n as [|n IH]; intros a s Hn Hext; simpl; [done|].
  rewrite Hext by lia. destruct (body2 a s) as [s'|e]; simpl; [|done].
  apply IH; [lia|]. intros i s'' Hi. apply Hext. lia.
Qed.

Lemma for_range_nil a b body s : b <= a -> for_range a b body s = Ok s.
Proof. intros H. unfold for_range. by replace (Z.to_nat (b - a)) with 0%nat by lia. Qed.

Lemma for_range_cons a b body s :
  a < b -> for_range a b body s = (s' ← body a s; for_range (a + 1) b body s').
Proof.
  intros H. unfold for_range.
  replace (Z.to_nat (b - a)) with (Datatypes.S (Z.to_nat (b - (a + 1)))) by lia. done.
Qed.
End ForLoops.

(** ** Lemmas on machine integers *)

Lemma u8_range z : 0 <= u8 z < 256.
Proof. apply Z.mod_pos_bound. lia. Qed.
Lemma u16_range z : 0 <= u16 z < 2 ^ 16.
Proof. apply Z.mod_pos_bound. lia. Qed.
Lemma u32_range z : 0 <= u32 z < 2 ^ 32.
Proof. apply Z.mod_pos_bound. lia. Qed.
Lemma u8_small z : 0 <= z < 256 -> u8 z = z.
Proof. apply Z.mod_small. Qed.
Lemma u16_small z : 0 <= z < 2 ^ 16 -> u16 z = z.
Proof. apply Z.mod_small. Qed.
Lemma u32_small z : 0 <= z < 2 ^ 32 -> u32 z = z.
Proof. apply Z.mod_small. Qed.
Lemma u32_u32 z : u32 (u32 z) = u32 z.
Proof. apply u32_small, u32_range. Qed.

Lemma signed_small w z :
  0 < w -> - 2 ^ (w - 1) <= z < 2 ^ (w - 1) -> signed w z = z.
Proof.
  intros Hw Hz. unfold signed.
  assert (E : 2 ^ w = 2 * 2 ^ (w - 1)).
  { rewrite <- Z.pow_succ_r by lia. f_equal. lia. }
  destruct (Z_lt_le_dec z 0).
  - replace (z mod 2 ^ w) with (z + 2 ^ w).
    + destruct (Z.ltb_spec (z + 2 ^ w) (2 ^ (w - 1))); lia.
    + apply Z.mod_unique_pos with (-1); lia.
  - rewrite Z.mod_small by lia. destruct (Z.ltb_spec z (2 ^ (w - 1))); lia.
Qed.

Lemma signed_range w z : 0 < w -> - 2 ^ (w - 1) <= signed w z < 2 ^ (w - 1).
Proof.
  intros Hw. unfold signed.
  assert (E : 2 ^ w = 2 * 2 ^ (w - 1)).
  { rewrite <- Z.pow_succ_r by lia. f_equal. lia. }
  assert (0 < 2 ^ (w - 1)) by (apply Z.pow_pos_nonneg; lia).
  pose proof (Z.mod_pos_bound z (2 ^ w) ltac:(lia)).
  destruct (Z.ltb_spec (z mod 2 ^ w) (2 ^ (w - 1))); lia.
Qed.

Lemma s8_small z : -128 <= z < 128 -> s8 z = z.
Proof. intros. apply signed_small; simpl; lia. Qed.
Lemma s32_small z : - 2 ^ 31 <= z < 2 ^ 31 -> s32 z = z.
Proof. intros. apply signed_small; simpl; lia. Qed.

(** Two bytes are the same char exactly when they are the same byte. *)
Lemma s8_inj a b : is_byte a -> is_byte b -> s8 a = s8 b -> a = b.
Proof.
  unfold is_byte, s8, signed. change (2 ^ 8) with 256. change (2 ^ (8 - 1)) with 128.
  intros Ha Hb. rewrite !Z.mod_small by lia.
  destruct (Z.ltb_spec a 128), (Z.ltb_spec b 128); lia.
Qed.

(** ** Bits *)

Lemma testbit_pow2 n i : 0 <= n -> 0 <= i -> Z.testbit (2 ^ n) i = (i =? n).
Proof.
  intros Hn Hi. destruct (Z.eqb_spec i n) as [->|Hne].
  - by apply Z.pow2_bits_true.
  - apply Z.pow2_bits_false. lia.
Qed.

Lemma testbit_u8 z i : 0 <= i -> Z.testbit (u8 z) i = Z.testbit z i && (i <? 8).
Proof.
  intros Hi. unfold u8. destruct (Z.ltb_spec i 8).
  - rewrite Z.mod_pow2_bits_low by lia. by rewrite andb_true_r.
  - rewrite Z.mod_pow2_bits_high by lia. by rewrite andb_false_r.
Qed.

Lemma testbit_u32 z i : 0 <= i -> Z.testbit (u32 z) i = Z.testbit z i && (i <? 32).
Proof.
  intros Hi. unfold u32. destruct (Z.ltb_spec i 32).
  - rewrite Z.mod_pow2_bits_low by lia. by rewrite andb_true_r.
  - rewrite Z.mod_pow2_bits_high by lia. by rewrite andb_false_r.
Qed.

Lemma testbit_high z w i : 0 <= z < 2 ^ w -> w <= i -> Z.testbit z i = false.
Proof.
  intros Hz Hi. destruct (Z_lt_le_dec w 0) as [Hw|Hw].
  { rewrite Z.pow_neg_r in Hz by lia. lia. }
  rewrite <- (Z.mod_small z (2 ^ w)) by lia. by apply Z.mod_pow2_bits_high.
Qed.

(** ** Arrays

    A C array is a list; reading or writing outside it is an error. *)

Definition arr_get {A} (l : list A) (i : Z) : res A :=
  if 0 <=? i then
    match l !! Z.to_nat i with Some x => Ok x | None => Err (OutOfBounds i) end
  else Err (OutOfBounds i).

Definition arr_set {A} (l : list A) (i : Z) (x : A) : res (list A) :=
  if (0 <=? i) && (i <? Z.of_nat (length l)) then Ok (<[Z.to_nat i := x]> l)
  else Err (OutOfBounds i).

Section Arrays.
Context {A : Type}.
Implicit Types (l : list A) (x y : A) (i j : Z).

Lemma arr_get_lookup l i x :
  arr_get l i = Ok x <-> 0 <= i /\ l !! Z.to_nat i = Some x.
Proof.
  unfold arr_get. destruct (Z.leb_spec 0 i).
  - destruct (l !! Z.to_nat i) as [y|] eqn:E; split; [by intros [= ->]|by intros [_ [= ->]]|done|by intros [_ ?]].
  - split; [discriminate|lia].
Qed.

Lemma arr_get_Some l (n : nat) x : l !! n = Some x -> arr_get l (Z.of_nat n) = Ok x.
Proof. intros H. apply arr_get_lookup. rewrite Nat2Z.id. split; [lia|done]. Qed.

Lemma arr_get_total l i :
  0 <= i < Z.of_nat (length l) -> exists x, arr_get l i = Ok x.
Proof.
  intros H. destruct (lookup_lt_is_Some_2 l (Z.to_nat i)) as [x E]; [lia|].
  exists x. apply arr_get_lookup. split; [lia|done].
Qed.

Lemma arr_get_bounds l i x : arr_get l i = Ok x -> 0 <= i < Z.of_nat (length l).
Proof. intros [? H%lookup_lt_Some]%arr_get_lookup. lia. Qed.

Lemma arr_get_oob l i :
  ~ (0 <= i < Z.of_nat (length l)) -> arr_get l i = Err (OutOfBounds i).
Proof.
  intros H. unfold arr_get. destruct (Z.leb_spec 0 i); [|done].
  rewrite (proj2 (lookup_ge_None l (Z.to_nat i))) by lia. done.
Qed.

Lemma arr_set_ok l i x :
  0 <= i < Z.of_nat (length l) -> arr_set l i x = Ok (<[Z.to_nat i := x]> l).
Proof.
  intros H. unfold arr_set.
  by rewrite (proj2 (Z.leb_le 0 i)), (proj2 (Z.ltb_lt i _)) by lia.
Qed.

Lemma arr_set_oob l i x :
  ~ (0 <= i < Z.of_nat (length l)) -> arr_set l i x = Err (OutOfBounds i).
Proof.
  intros H. unfold arr_set.
  destruct (Z.leb_spec 0 i), (Z.ltb_spec i (Z.of_nat (length l))); simpl; auto; lia.
Qed.

Lemma arr_set_inv l i x l' :
  arr_set l i x = Ok l' ->
  0 <= i < Z.of_nat (length l) /\ l' = <[Z.to_nat i := x]> l.
Proof.
  unfold arr_set.
  destruct (Z.leb_spec 0 i), (Z.ltb_spec i (Z.of_nat (length l))); simpl;
    intros [=]; auto.
Qed.

Lemma arr_set_length l i x l' : arr_set l i x = Ok l' -> length l' = length l.
Proof. intros [? ->]%arr_set_inv. by rewrite length_insert. Qed.

Lemma arr_get_insert l i j x :
  0 <= i < Z.of_nat (length l) ->
  arr_get (<[Z.to_nat i := x]> l) j = if i =? j then Ok x else arr_get l j.
Proof.
  intros H. destruct (Z.eqb_spec i j) as [<-|Hne].
  - apply arr_get_lookup. split; [lia|]. apply list_lookup_insert_eq. lia.
  - unfold arr_get. destruct (Z.leb_spec 0 j); [|done].
    rewrite list_lookup_insert_ne by lia. done.
Qed.
End Arrays.

(** ** Strings of bytes *)

Definition bytes_of_string (s : string) : list Z :=
  (fun c => Z.of_N (Ascii.N_of_ascii c)) <$> String.list_ascii_of_string s.

(** ** Automation *)

(** Case analysis on the boolean comparison the goal is stuck on. *)
Ltac case_cmp :=
  match goal with
  | |- context [if ?a <? ?b then _ else _] => destruct (Z.ltb_spec a b)
  | |- context [if ?a <=? ?b then _ else _] => destruct (Z.leb_spec a b)
  | |- context [if ?a =? ?b then _ else _] => destruct (Z.eqb_spec a b)
  end.

(** Opens every successful bind in the hypotheses. *)
Ltac inv_binds :=
  repeat match goal with
  | H : (_ ≫= _) = Ok _ |- _ => apply bind_Ok in H as (? & ? & H)
  | H : Ok _ = Ok _ |- _ => injection H as H; subst
  | H : Err _ = Ok _ |- _ => discriminate H
  | H : mret _ = Ok _ |- _ => injection H as H; subst
  end.

Create HintDb ints.
Create Rewrite HintDb ints.
#[export] Hint Resolve u8_range u16_range u32_range : ints.
#[export] Hint Rewrite u32_u32 : ints.

Create HintDb arrays.
Create Rewrite HintDb arrays.
#[export] Hint Resolve arr_get_Some arr_get_total : arrays.
#[export] Hint Rewrite @length_insert @length_replicate : arrays.
