(* ===== verification/Pointers.v ===== *)
(** * Pointers

    The library functions of lib.c and the file system take [char*]
    arguments that may point into user memory, into an array inside a kernel
    structure, into a stack buffer or at a string literal.  A pointer is
    modelled by what C lets one do with it: compare its numeric address, load
    [p[i]] and store to [p[i]].  Both accesses go through one state [St], so two
    pointers into the same state may alias.

    [Region] and [Separate] are the laws that the correctness theorems of the
    library functions assume; the instances below (arrays, flat memory) and
    the ones of the machine discharge them. *)

From stdpp Require Import base gmap list numbers.
From Stdlib Require Import ZArith Lia.
From S2P Require Import Prelude.

Record ptr (St : Type) : Type := Ptr {
  addr : Z;                          (* the numeric address, as in [p == NULL] *)
  load : St -> Z -> res Z;            (* p[i] *)
  store : St -> Z -> Z -> res St;      (* p[i] = b *)
}.
Arguments Ptr {St}.
Arguments addr {St}.
Arguments load {St}.
Arguments store {St}.

(** [p + n] *)
Definition ptr_add {St} (p : ptr St) (n : Z) : ptr St :=
  {| addr := u32 (addr p + n);
     load := fun o i => load p o (n + i);
     store := fun o i b => store p o (n + i) b |}.

(** [n] consecutive bytes from [p[i]] on. *)
Fixpoint load_list {St} (p : ptr St) (i : Z) (n : nat) (o : St) : res (list Z) :=
  match n with
  | 0%nat => Ok []
  | Datatypes.S n => b ← load p o i; l ← load_list p (i + 1) n o; Ok (b :: l)
  end.

Fixpoint store_list {St} (p : ptr St) (i : Z) (l : list Z) (o : St) : res St :=
  match l with
  | [] => Ok o
  | b :: l => o' ← store p o i b; store_list p (i + 1) l o'
  end.

(** The bytes [bs] are at [p]. *)
Definition holds {St} (p : ptr St) (o : St) (bs : list Z) : Prop :=
  forall (i : nat) b, bs !! i = Some b -> load p o (Z.of_nat i) = Ok b.

(** ** The laws *)

(** In the states of [P], the [n] bytes at [p] are ordinary memory. *)
Class Region {St} (P : St -> Prop) (p : ptr St) (n : Z) : Prop := {
  region_store o i b :
    P o -> 0 <= i < n -> exists o', store p o i b = Ok o' /\ P o';
  region_load_store o i b o' j :
    P o -> 0 <= i < n -> 0 <= j < n -> store p o i b = Ok o' ->
    load p o' j = if i =? j then Ok b else load p o j;
}.

(** Storing into the [n] bytes at [p] leaves the [m] bytes at [q] alone. *)
Class Separate {St} (P : St -> Prop) (p : ptr St) (n : Z) (q : ptr St) (m : Z) : Prop :=
  separate o i b o' j :
    P o -> 0 <= i < n -> 0 <= j < m -> store p o i b = Ok o' ->
    load q o' j = load q o j.

Section Lists.
Context {St : Type}.
Implicit Types (p q : ptr St) (o : St).

Lemma store_list_app p i l1 l2 o :
  store_list p i (l1 ++ l2) o =
  (o' ← store_list p i l1 o; store_list p (i + Z.of_nat (length l1)) l2 o').
Proof.
  revert i o; induction l1 as [|b l1 IH]; intros i o; simpl.
  - f_equal. lia.
  - destruct (store p o i b) as [o'|e]; simpl; [|done].
    rewrite IH. destruct (store_list p (i + 1) l1 o'); simpl; [|done].
    f_equal. lia.
Qed.

Lemma store_list_snoc p i l b o :
  store_list p i (l ++ [b]) o =
  (o' ← store_list p i l o; store p o' (i + Z.of_nat (length l)) b).
Proof.
  rewrite store_list_app. destruct (store_list p i l o) as [o'|e]; simpl; [|done].
  by destruct (store p o' _ b).
Qed.

Lemma load_list_Ok p i n o l :
  load_list p i n o = Ok l <->
  length l = n /\
  forall k b, l !! k = Some b -> load p o (i + Z.of_nat k) = Ok b.
Proof.
  revert i l; induction n as [|n IH]; intros i l; simpl.
  - split.
    + intros [= <-]. split; [done|]. intros k b. by rewrite lookup_nil.
    + by intros [->%nil_length_inv _].
  - split.
    + intros H. inv_binds. rename H0 into Ex. rename H1 into El.
      destruct (proj1 (IH _ _) El) as [Hl Hk].
      split; [simpl; lia|]. intros [|k] b; simpl.
      * intros [= <-]. by rewrite Z.add_0_r.
      * intros Hb. replace (i + Z.of_nat (S k)) with (i + 1 + Z.of_nat k) by lia. eauto.
    + intros [Hl Hk]. destruct l as [|b l]; [done|]. simpl in Hl.
      pose proof (Hk 0%nat b eq_refl) as H0.
      replace (i + Z.of_nat 0) with i in H0 by lia. rewrite H0. simpl.
      rewrite (proj2 (IH (i + 1) l)); [done|]. split; [lia|].
      intros k b' Hb.
      replace (i + 1 + Z.of_nat k) with (i + Z.of_nat (S k)) by lia. by apply Hk.
Qed.

Lemma holds_load_list p o bs : holds p o bs <-> load_list p 0 (length bs) o = Ok bs.
Proof.
  rewrite load_list_Ok. unfold holds. split; [by intros H; split|by intros [_ H]].
Qed.

Lemma holds_app p o l1 l2 :
  holds p o (l1 ++ l2) <->
  holds p o l1 /\ holds (ptr_add p (Z.of_nat (length l1))) o l2.
Proof.
  unfold holds. simpl. split.
  - intros H. split; intros i b Hb.
    + apply H. by apply lookup_app_l_Some.
    + rewrite <- Nat2Z.inj_add. apply H. rewrite lookup_app_r by lia.
      by replace (length l1 + i - length l1)%nat with i by lia.
  - intros [H1 H2] i b [Hb|[Hi Hb]]%lookup_app_Some; [by apply H1|].
    apply H2 in Hb. by replace (Z.of_nat i) with
      (Z.of_nat (length l1) + Z.of_nat (i - length l1)) by lia.
Qed.

(** Storing a list succeeds and reads back; everything else is kept. *)
Lemma store_list_spec (P : St -> Prop) p n i l o :
  Region P p n -> P o -> 0 <= i -> i + Z.of_nat (length l) <= n ->
  exists o', store_list p i l o = Ok o' /\ P o' /\
    forall j, 0 <= j < n ->
      load p o' j =
        match (if i <=? j then l !! Z.to_nat (j - i) else None) with
        | Some b => Ok b
        | None => load p o j
        end.
Proof.
  intros HR. revert i o; induction l as [|b l IH]; intros i o HP Hi Hn; simpl in *.
  - exists o. split; [done|]. split; [done|]. intros j Hj. by destruct (i <=? j).
  - destruct (region_store o i b HP) as (o1 & E1 & HP1); [lia|].
    rewrite E1. simpl.
    destruct (IH (i + 1) o1) as (o2 & E2 & HP2 & H2); [done|lia|lia|].
    exists o2. split; [done|]. split; [done|]. intros j Hj.
    rewrite (H2 j Hj). destruct (Z.leb_spec (i + 1) j).
    + destruct (Z.leb_spec i j); [|lia].
      replace (Z.to_nat (j - i)) with (S (Z.to_nat (j - (i + 1)))) by lia. simpl.
      destruct (l !! _); [done|].
      rewrite (region_load_store o i b o1 j) by (done || lia).
      destruct (Z.eqb_spec i j); [lia|done].
    + rewrite (region_load_store o i b o1 j) by (done || lia).
      destruct (Z.leb_spec i j).
      * replace (Z.to_nat (j - i)) with 0%nat by lia. simpl.
        destruct (Z.eqb_spec i j); [done|lia].
      * destruct (Z.eqb_spec i j); [lia|done].
Qed.

Lemma store_list_separate (P : St -> Prop) p n q m i l o o' j :
  Region P p n -> Separate P p n q m -> P o ->
  0 <= i -> i + Z.of_nat (length l) <= n -> 0 <= j < m ->
  store_list p i l o = Ok o' -> load q o' j = load q o j.
Proof.
  intros HR HS. revert i o; induction l as [|b l IH];
    intros i o HP Hi Hn Hj E; simpl in *.
  - by injection E as ->.
  - destruct (region_store o i b HP) as (o1 & E1 & HP1); [lia|].
    rewrite E1 in E. simpl in E. rewrite (IH (i + 1) o1) by (done || lia).
    by rewrite (separate o i b o1 j) by (done || lia).
Qed.

(** After the store the list is there. *)
Lemma store_list_holds (P : St -> Prop) p n l o o' :
  Region P p n -> P o -> Z.of_nat (length l) <= n ->
  store_list p 0 l o = Ok o' -> holds p o' l.
Proof.
  intros HR HP Hn E. destruct (store_list_spec P p n 0 l o) as (o1 & E1 & _ & H);
    [done..|lia|]. rewrite E1 in E. injection E as <-.
  intros i b Hb. pose proof (lookup_lt_Some _ _ _ Hb). rewrite H by lia.
  destruct (Z.leb_spec 0 (Z.of_nat i)); [|lia].
  by replace (Z.to_nat (Z.of_nat i - 0)) with i by lia; rewrite Hb.
Qed.

(** A relation every store respects is respected by a list of stores. *)
Lemma store_list_frame (R : St -> St -> Prop) `{!PreOrder R} p i l o o' :
  (forall o i b o', store p o i b = Ok o' -> R o o') ->
  store_list p i l o = Ok o' -> R o o'.
Proof.
  intros Hst. revert i o; induction l as [|b l IH]; intros i o E; simpl in E.
  - by injection E as ->.
  - inv_binds. etrans; [by eapply Hst|eauto].
Qed.
End Lists.

(** ** Arrays as pointers

    A pointer to a local array: the state is the array. *)
Definition arr_ptr (a : Z) : ptr (list Z) :=
  {| addr := a; load := arr_get; store := arr_set |}.

(** A string literal: loads only. *)
Definition lit_ptr {St} (a : Z) (l : list Z) : ptr St :=
  {| addr := a; load := fun _ i => arr_get l i;
     store := fun _ i _ => Err (PageFault (a + i)) |}.

(** The left and right component of a product state. *)
Definition ptr_fst {S1 S2} (p : ptr S1) : ptr (S1 * S2) :=
  {| addr := addr p;
     load := fun o i => load p o.1 i;
     store := fun o i b => o1 ← store p o.1 i b; Ok (o1, o.2) |}.
Definition ptr_snd {S1 S2} (p : ptr S2) : ptr (S1 * S2) :=
  {| addr := addr p;
     load := fun o i => load p o.2 i;
     store := fun o i b => o2 ← store p o.2 i b; Ok (o.1, o2) |}.

#[export] Instance arr_region (a n : Z) :
  Region (fun l => n <= Z.of_nat (length l)) (arr_ptr a) n.
Proof.
  split.
  - intros l i b Hl Hi. exists (<[Z.to_nat i := b]> l). simpl.
    rewrite arr_set_ok by lia. split; [done|]. by rewrite length_insert.
  - intros l i b l' j Hl Hi Hj [? ->]%arr_set_inv. simpl. by rewrite arr_get_insert.
Qed.

#[export] Instance fst_region {S1 S2} (P : S1 -> Prop) (Q : S2 -> Prop) (p : ptr S1) n :
  Region P p n -> Region (fun o => P o.1 /\ Q o.2) (ptr_fst p) n.
Proof.
  intros HR. split; simpl.
  - intros [o1 o2] i b [HP HQ] Hi. destruct (region_store o1 i b HP Hi) as (o' & E & HP').
    simpl in *. rewrite E. by eexists.
  - intros [o1 o2] i b o' j [HP HQ] Hi Hj E. simpl in *. inv_binds. simpl.
    by eapply region_load_store.
Qed.

#[export] Instance snd_region {S1 S2} (P : S1 -> Prop) (Q : S2 -> Prop) (p : ptr S2) n :
  Region Q p n -> Region (fun o => P o.1 /\ Q o.2) (ptr_snd p) n.
Proof.
  intros HR. split; simpl.
  - intros [o1 o2] i b [HP HQ] Hi. destruct (region_store o2 i b HQ Hi) as (o' & E & HQ').
    simpl in *. rewrite E. by eexists.
  - intros [o1 o2] i b o' j [HP HQ] Hi Hj E. simpl in *. inv_binds. simpl.
    by eapply region_load_store.
Qed.

(** Stores into one component leave the other alone. *)
#[export] Instance fst_snd_separate {S1 S2} P (p : ptr S1) (q : ptr S2) n m :
  Separate P (ptr_fst p) n (ptr_snd q) m.
Proof. intros o i b o' j _ _ _ E. simpl in *. by inv_binds. Qed.

#[export] Instance snd_fst_separate {S1 S2} P (p : ptr S2) (q : ptr S1) n m :
  Separate P (ptr_snd p) n (ptr_fst q) m.
Proof. intros o i b o' j _ _ _ E. simpl in *. by inv_binds. Qed.

Lemma store_list_fst {S1 S2} (p : ptr S1) i l (o : S1 * S2) :
  store_list (ptr_fst p) i l o = (o1 ← store_list p i l o.1; Ok (o1, o.2)).
Proof.
  revert i o; induction l as [|b l IH]; intros i [o1 o2]; simpl; [done|].
  destruct (store p o1 i b); simpl; [|done]. by rewrite IH.
Qed.

Lemma store_list_snd {S1 S2} (p : ptr S2) i l (o : S1 * S2) :
  store_list (ptr_snd p) i l o = (o2 ← store_list p i l o.2; Ok (o.1, o2)).
Proof.
  revert i o; induction l as [|b l IH]; intros i [o1 o2]; simpl; [done|].
  destruct (store p o2 i b); simpl; [|done]. by rewrite IH.
Qed.

Lemma arr_holds a (l bs : list Z) : take (length bs) l = bs -> holds (arr_ptr a) l bs.
Proof.
  intros H i b Hi. simpl. apply arr_get_Some.
  rewrite <- (lookup_take_lt l (length bs) i) by by eapply lookup_lt_Some. by rewrite H.
Qed.

#[export] Instance lit_separate {St} (P : St -> Prop) p n a l m :
  Separate P p n (lit_ptr a l) m.
Proof. intros o i b o' j _ _ _ _. done. Qed.

Lemma arr_store_list a i (l bs : list Z) :
  0 <= i -> i + Z.of_nat (length bs) <= Z.of_nat (length l) ->
  store_list (arr_ptr a) i bs l =
  Ok (take (Z.to_nat i) l ++ bs ++ drop (Z.to_nat i + length bs) l).
Proof.
  revert i l; induction bs as [|b bs IH]; intros i l Hi Hl; simpl in *.
  - by rewrite Nat.add_0_r, take_drop.
  - rewrite arr_set_ok by lia. simpl.
    rewrite IH by (rewrite ?length_insert; lia).
    replace (Z.to_nat (i + 1)) with (S (Z.to_nat i)) by lia.
    rewrite (take_S_r _ _ b) by (apply list_lookup_insert_eq; lia).
    rewrite <- app_assoc. rewrite take_insert_ge by lia.
    rewrite drop_insert_lt by lia. by rewrite <- Nat.add_succ_comm.
Qed.

(** ** Flat memory

    A byte map over 32-bit addresses; a byte nobody wrote has no value. *)
Definition mem_ptr (a : Z) : ptr (gmap Z Z) :=
  {| addr := a;
     load := fun m i =>
       match m !! u32 (a + i) with
       | Some b => Ok b
       | None => Err (Unwritten (u32 (a + i)))
       end;
     store := fun m i b => Ok (<[u32 (a + i) := b]> m) |}.

#[export] Instance mem_region (a n : Z) :
  Region (fun _ => 0 <= a /\ a + n <= 2 ^ 32) (mem_ptr a) n.
Proof.
  split; simpl; [by eauto|].
  intros m i b m' j Ha Hi Hj [= <-]. rewrite !u32_small by lia.
  destruct (Z.eqb_spec i j) as [->|Hne].
  - by rewrite lookup_insert_eq.
  - rewrite lookup_insert_ne by lia. done.
Qed.

#[export] Instance mem_separate (a n c m : Z) :
  Separate (fun _ => 0 <= a /\ a + n <= 2 ^ 32 /\ 0 <= c /\ c + m <= 2 ^ 32 /\
                     (a + n <= c \/ c + m <= a)) (mem_ptr a) n (mem_ptr c) m.
Proof.
  intros o i b o' j H Hi Hj [= <-]. simpl. rewrite !u32_small by lia.
  by rewrite lookup_insert_ne by lia.
Qed.

(** ** Frames

    [touches p n o o']: [o'] is [o] after some stores into the [n] bytes at
    [p].  What a function promises about everything else follows from it. *)
Definition touches {St} (p : ptr St) (n : Z) : relation St :=
  rtc (fun o o' => exists i b, 0 <= i < n /\ store p o i b = Ok o').

#[export] Instance touches_preorder {St} (p : ptr St) n : PreOrder (touches p n).
Proof. unfold touches. apply _. Qed.

Section Frames.
Context {St : Type} (P : St -> Prop).
Implicit Types (p q : ptr St) (o : St).

Lemma touches_store p n o i b o' :
  0 <= i < n -> store p o i b = Ok o' -> touches p n o o'.
Proof. intros Hi E. apply rtc_once. eauto. Qed.

Lemma touches_store_list p n i l o o' :
  0 <= i -> i + Z.of_nat (length l) <= n ->
  store_list p i l o = Ok o' -> touches p n o o'.
Proof.
  revert i o; induction l as [|b l IH]; intros i o Hi Hn E; simpl in *.
  - by injection E as ->.
  - inv_binds. etrans; [eapply touches_store; [|done]; lia|].
    eapply IH; [| |done]; lia.
Qed.

Lemma touches_weaken p n m o o' : n <= m -> touches p n o o' -> touches p m o o'.
Proof.
  intros Hnm. apply rtc_subrel. intros x y (i & b & Hi & E). exists i, b.
  split; [lia|done].
Qed.

Lemma touches_inv p n o o' : Region P p n -> P o -> touches p n o o' -> P o'.
Proof.
  intros HR HP H. induction H as [|x y z (i & b & Hi & E) _ IH]; [done|].
  apply IH. destruct (region_store x i b HP Hi) as (y' & E' & HP').
  rewrite E in E'. by injection E' as ->.
Qed.

Lemma touches_separate p n q m o o' j :
  Region P p n -> Separate P p n q m -> P o -> touches p n o o' -> 0 <= j < m ->
  load q o' j = load q o j.
Proof.
  intros HR HS HP H Hj. induction H as [|x y z (i & b & Hi & E) _ IH]; [done|].
  rewrite IH.
  - by apply (separate x i b).
  - destruct (region_store x i b HP Hi) as (y' & E' & HP').
    rewrite E in E'. by injection E' as ->.
Qed.

Lemma touches_frame (R : relation St) `{!PreOrder R} p n o o' :
  (forall o i b o', 0 <= i < n -> store p o i b = Ok o' -> R o o') ->
  touches p n o o' -> R o o'.
Proof.
  intros Hst. induction 1 as [|x y z (i & b & Hi & E) _ IH]; [done|].
  etrans; [by eapply Hst|done].
Qed.
End Frames.
