(* ===== verification/CString.v ===== *)
(** * The string functions of lib.c

    [strlen], [strncmp], [strcpy], [strncpy], [strrev], [itoa] and [left_pad],
    translated loop by loop over abstract pointers, and what they compute.
    Bytes are [0..255]; where the source compares or subtracts [int8_t]
    values ([char] is signed on i386) the conversion is written out. *)

From stdpp Require Import base gmap list numbers strings.
From Stdlib Require Import ZArith Lia.
From S2P Require Import Prelude Pointers.

(** No loop below can run [2 ^ 32] times without a 32-bit counter wrapping. *)
Definition FUEL : positive := 4294967296.

(** The string stored in a byte sequence: what precedes the first NUL. *)
Fixpoint c_str (bs : list Z) : list Z :=
  match bs with
  | [] => []
  | b :: bs => if b =? 0 then [] else b :: c_str bs
  end.

(** [static int8_t lookup[] = "0123...XYZ"] in [itoa]. *)
Definition lookup_digits : list Z :=
  bytes_of_string "0123456789ABCDEFGHIJKLMNOPQRSTUVWXYZ" ++ [0].

Section Strings.
Context {St : Type}.
Implicit Types (s dest src buf : ptr St) (o : St).

Definition strlen s o : res Z :=
  loop FUEL (fun len =>
    c ← load s o len;
    if c =? 0 then Ok (inr len) else Ok (inl (u32 (len + 1)))) 0.

Definition strncmp s1 s2 (n : Z) o : res Z :=
  loop FUEL (fun i =>
    if i <? n then
      c1 ← load s1 o i;
      c2 ← load s2 o i;
      if negb (c1 =? c2) || (c1 =? 0) then Ok (inr (s8 c1 - s8 c2))
      else Ok (inl (i + 1))
    else Ok (inr 0)) 0.

Definition strcpy dest src o : res St :=
  r ← loop FUEL (fun '(i, o) =>
    c ← load src o i;
    if negb (c =? 0) then o' ← store dest o i c; Ok (inl (i + 1, o'))
    else Ok (inr (i, o))) (0, o);
  store dest r.2 r.1 0.

Definition strncpy dest src (n : Z) o : res St :=
  r ← loop FUEL (fun '(i, o) =>
    c ← load src o i;
    if negb (c =? 0) && (i <? n) then
      o' ← store dest o i c; Ok (inl (i + 1, o'))
    else Ok (inr (i, o))) (0, o);
  loop FUEL (fun '(i, o) =>
    if i <? n then o' ← store dest o i 0; Ok (inl (i + 1, o'))
    else Ok (inr o)) r.

Definition strrev s o : res St :=
  len ← strlen s o;
  loop FUEL (fun '(b, e, o) =>
    if b <? e then
      tmp ← load s o e;
      c ← load s o b;
      o1 ← store s o e c;
      o2 ← store s o1 b tmp;
      Ok (inl (b + 1, e - 1, o2))
    else Ok (inr o)) (0, s32 (len - 1), o).

Definition itoa (value : Z) buf (radix : Z) o : res St :=
  if value =? 0 then
    o1 ← store buf o 0 48; store buf o1 1 0
  else
    r ← loop FUEL (fun '(newval, k, o) =>
      if 0 <? newval then
        if u32 radix =? 0 then Err DivByZero else
        c ← arr_get lookup_digits (s32 (newval mod u32 radix));
        o' ← store buf o k c;
        Ok (inl (newval / u32 radix, k + 1, o'))
      else Ok (inr (k, o))) (value, 0, o);
    o1 ← store buf r.2 r.1 0;
    strrev buf o1.

Definition left_pad (inp out : ptr St) (len : Z) o : res St :=
  in_len ← strlen inp o;
  if len <=? in_len then
    o1 ← strncpy out inp len o;
    store out o1 len 0
  else
    let offset := s32 (len - in_len) in
    o1 ← for_range 0 offset (fun i o => store out o i 32) o;
    o2 ← strncpy (ptr_add out offset) inp len o1;
    store out o2 len 0.
End Strings.

(** ** Strings in memory *)

Lemma c_str_app_nil l bs : Forall (fun b => b <> 0) l -> c_str (l ++ 0 :: bs) = l.
Proof.
  induction 1 as [|b l Hb _ IH]; simpl; [done|].
  destruct (Z.eqb_spec b 0); [done|]. by rewrite IH.
Qed.

Lemma c_str_nonzero bs : Forall (fun b => b <> 0) (c_str bs).
Proof.
  induction bs as [|b bs IH]; simpl; [constructor|].
  destruct (Z.eqb_spec b 0); by constructor.
Qed.

Lemma c_str_prefix bs : exists tl, bs = c_str bs ++ tl /\ (tl = [] \/ exists t, tl = 0 :: t).
Proof.
  induction bs as [|b bs (tl & E & H)]; simpl; [exists []; auto|].
  destruct (Z.eqb_spec b 0) as [->|]; simpl.
  - exists (0 :: bs). eauto.
  - exists tl. split; [by f_equal|done].
Qed.

Lemma c_str_lookup bs i b : c_str bs !! i = Some b -> bs !! i = Some b /\ b <> 0.
Proof.
  intros H. split.
  - destruct (c_str_prefix bs) as (tl & E & _). rewrite E. by apply lookup_app_l_Some.
  - pose proof (c_str_nonzero bs) as HF. rewrite Forall_lookup in HF. eauto.
Qed.

(** The terminator follows the string unless the bytes end before it. *)
Lemma c_str_end bs :
  (length (c_str bs) < length bs)%nat -> bs !! length (c_str bs) = Some 0.
Proof.
  destruct (c_str_prefix bs) as (tl & E & H). revert E. generalize (c_str bs).
  intros l -> Hl. rewrite length_app in Hl. rewrite lookup_app_r by lia.
  rewrite Nat.sub_diag. destruct H as [->|[t ->]]; simpl in *; [lia|done].
Qed.

Lemma c_str_length bs : (length (c_str bs) <= length bs)%nat.
Proof.
  destruct (c_str_prefix bs) as (tl & E & _). rewrite E at 2. rewrite length_app. lia.
Qed.

Lemma take_c_str n bs : take n (c_str bs) = c_str (take n bs).
Proof.
  revert n; induction bs as [|b bs IH]; intros [|n]; simpl; auto; destruct (b =? 0); simpl;
    auto. by rewrite IH.
Qed.

(** ** [strlen] *)

Section StrlenFacts.
Context {St : Type}.
Implicit Types (s : ptr St) (o : St) (bs : list Z).

Lemma strlen_holds s o bs :
  holds s o bs -> (length (c_str bs) < length bs)%nat ->
  Z.of_nat (length bs) <= 2 ^ 32 ->
  strlen s o = Ok (Z.of_nat (length (c_str bs))).
Proof.
  intros Hh Hend Hb. unfold strlen.
  apply loop_runs_Z with (length (c_str bs)); [|unfold FUEL; lia].
  assert (G : forall n k, (k + n)%nat = length (c_str bs) ->
    runs (fun len => c ← load s o len;
                     if c =? 0 then Ok (inr len) else Ok (inl (u32 (len + 1))))
         (Z.of_nat k) n (Ok (Z.of_nat (length (c_str bs))))).
  { induction n as [|n IH]; intros k Hk.
    - constructor. rewrite (Hh k 0); simpl; [by do 2 f_equal; lia|].
      rewrite <- (c_str_end bs Hend). f_equal. lia.
    - destruct (lookup_lt_is_Some_2 (c_str bs) k) as [c Hc]; [lia|].
      destruct (c_str_lookup _ _ _ Hc) as [Hc' Hne].
      apply runs_step with (Z.of_nat (S k)); [|apply IH; lia].
      rewrite (Hh k c Hc'). simpl. destruct (Z.eqb_spec c 0); [done|].
      rewrite u32_small by lia. do 2 f_equal. lia. }
  apply (G (length (c_str bs)) 0%nat). lia.
Qed.

(** A terminated string has the length it is written with. *)
Lemma strlen_terminated s o (l : list Z) :
  holds s o (l ++ [0]) -> Forall (fun b => b <> 0) l ->
  Z.of_nat (length l) < 2 ^ 32 -> strlen s o = Ok (Z.of_nat (length l)).
Proof.
  intros Hh Hl Hb. rewrite (strlen_holds s o (l ++ [0])); rewrite ?c_str_app_nil; auto;
    rewrite length_app; simpl; lia.
Qed.
End StrlenFacts.

(** ** [strncmp] *)

Section StrncmpFacts.
Context {St : Type}.
Implicit Types (o : St) (bs : list Z).

(** [n] bytes suffice to decide a comparison: either they are all there or
    the string ends before. *)
Definition covers (n : Z) bs : Prop :=
  n <= Z.of_nat (length bs) \/ (length (c_str bs) < length bs)%nat.

Lemma c_str_at bs i a :
  (i <= length (c_str bs))%nat -> bs !! i = Some a ->
  c_str bs !! i = if a =? 0 then None else Some a.
Proof.
  intros Hi Ha. destruct (decide (i = length (c_str bs))) as [->|Hne].
  - rewrite (c_str_end bs) in Ha by (eapply lookup_lt_Some; eauto).
    injection Ha as <-. simpl. by apply lookup_ge_None_2.
  - destruct (lookup_lt_is_Some_2 (c_str bs) i) as [c Hc]; [lia|].
    destruct (c_str_lookup _ _ _ Hc) as [Hc' Hnz].
    rewrite Ha in Hc'. injection Hc' as ->. destruct (Z.eqb_spec c 0); done.
Qed.

Lemma covers_lookup n bs i :
  covers n bs -> (i <= length (c_str bs))%nat -> Z.of_nat i < n ->
  exists a, bs !! i = Some a.
Proof.
  intros Hc Hi Hn. apply lookup_lt_is_Some_2. destruct Hc; lia.
Qed.

(** The two ways a comparison ends. *)
Definition strncmp_result (n : Z) bs1 bs2 (r : Z) : Prop :=
  (take (Z.to_nat n) (c_str bs1) = take (Z.to_nat n) (c_str bs2) /\ r = 0) \/
  exists (i : nat) a b, Z.of_nat i < n /\
    take i (c_str bs1) = take i (c_str bs2) /\
    (i <= length (c_str bs1))%nat /\ (i <= length (c_str bs2))%nat /\
    bs1 !! i = Some a /\ bs2 !! i = Some b /\ a <> b /\ r = s8 a - s8 b.

Lemma strncmp_spec s1 s2 o bs1 bs2 n :
  holds s1 o bs1 -> holds s2 o bs2 -> covers n bs1 -> covers n bs2 ->
  0 <= n < 2 ^ 32 ->
  exists r, strncmp s1 s2 n o = Ok r /\ strncmp_result n bs1 bs2 r.
Proof.
  intros H1 H2 C1 C2 Hn.
  set (step := fun i : Z =>
    if i <? n then
      c1 ← load s1 o i; c2 ← load s2 o i;
      if negb (c1 =? c2) || (c1 =? 0) then Ok (inr (s8 c1 - s8 c2))
      else Ok (inl (i + 1))
    else Ok (inr 0)).
  assert (G : forall m k, Z.of_nat (k + m) = n ->
    (k <= length (c_str bs1))%nat -> (k <= length (c_str bs2))%nat ->
    take k (c_str bs1) = take k (c_str bs2) ->
    exists r cnt, runs step (Z.of_nat k) cnt (Ok r) /\ (cnt <= m)%nat /\
      strncmp_result n bs1 bs2 r).
  { induction m as [|m IH]; intros k Hk L1 L2 Ht.
    - exists 0, 0%nat. split; [|split; [done|]].
      + constructor. unfold step. destruct (Z.ltb_spec (Z.of_nat k) n); [lia|done].
      + left. by replace (Z.to_nat n) with k by lia.
    - destruct (covers_lookup n bs1 k C1 L1) as [a Ha]; [lia|].
      destruct (covers_lookup n bs2 k C2 L2) as [b Hb]; [lia|].
      pose proof (c_str_at _ _ _ L1 Ha) as A1.
      pose proof (c_str_at _ _ _ L2 Hb) as A2.
      assert (Es : step (Z.of_nat k) =
        if negb (a =? b) || (a =? 0) then Ok (inr (s8 a - s8 b))
        else Ok (inl (Z.of_nat k + 1))).
      { unfold step. destruct (Z.ltb_spec (Z.of_nat k) n); [|lia].
        by rewrite (H1 _ _ Ha), (H2 _ _ Hb). }
      destruct (Z.eqb_spec a b) as [->|Hab]; simpl in Es.
      + destruct (Z.eqb_spec b 0) as [->|Hnz].
        * exists (s8 0 - s8 0), 0%nat. split; [by constructor|]. split; [lia|].
          left. split; [|lia]. apply lookup_ge_None_1 in A1, A2.
          rewrite !take_ge by lia. by rewrite !take_ge in Ht by lia.
        * apply lookup_lt_Some in A1 as B1. apply lookup_lt_Some in A2 as B2.
          destruct (IH (S k)) as (r & cnt & Hr & Hcnt & Hres); [lia..| |].
          { rewrite (take_S_r _ _ _ A1), (take_S_r _ _ _ A2). by rewrite Ht. }
          exists r, (S cnt). split; [|split; [lia|done]].
          apply runs_step with (Z.of_nat (S k)); [|done].
          rewrite Es. do 2 f_equal. lia.
      + exists (s8 a - s8 b), 0%nat. split; [by constructor|]. split; [lia|].
        right. exists k, a, b. repeat split; auto. lia. }
  destruct (G (Z.to_nat n) 0%nat) as (r & cnt & Hr & Hcnt & Hres); [lia..|done|].
  exists r. split; [|done]. eapply loop_runs_Z; [exact Hr|]. unfold FUEL. lia.
Qed.

(** The comparison is zero exactly when the first [n] characters agree. *)
Lemma strncmp_zero n bs1 bs2 r :
  Forall is_byte bs1 -> Forall is_byte bs2 -> strncmp_result n bs1 bs2 r ->
  r = 0 <-> take (Z.to_nat n) (c_str bs1) = take (Z.to_nat n) (c_str bs2).
Proof.
  intros F1 F2 [[E ->]|(i & a & b & Hi & _ & L1 & L2 & Ha & Hb & Hne & ->)]; [done|].
  split.
  - intros H. contradict Hne. apply s8_inj; [| |lia].
    + by eapply (Forall_lookup_1 _ bs1).
    + by eapply (Forall_lookup_1 _ bs2).
  - intros H. contradict Hne.
    assert (E : c_str bs1 !! i = c_str bs2 !! i).
    { rewrite <- (lookup_take_lt (c_str bs1) (Z.to_nat n)) by lia.
      rewrite <- (lookup_take_lt (c_str bs2) (Z.to_nat n)) by lia. by rewrite H. }
    rewrite (c_str_at _ _ _ L1 Ha), (c_str_at _ _ _ L2 Hb) in E.
    destruct (Z.eqb_spec a 0), (Z.eqb_spec b 0); congruence.
Qed.
End StrncmpFacts.

(** ** [strcpy] and [strncpy] *)

Section CopyFacts.
Context {St : Type} (P : St -> Prop).
Implicit Types (dest src : ptr St) (o : St) (bs : list Z).

(** The bytes [strncpy] leaves in its destination. *)
Definition strncpy_bytes (n : Z) bs : list Z :=
  let l := take (Z.to_nat n) (c_str bs) in
  l ++ replicate (Z.to_nat n - length l) 0.

Lemma strncpy_bytes_length n bs : length (strncpy_bytes n bs) = Z.to_nat n.
Proof.
  unfold strncpy_bytes. rewrite length_app, length_replicate, length_take. lia.
Qed.

(** The second loop of [strncpy] stores zeros up to [n]. *)
Lemma fill_runs dest n m k o :
  k + Z.of_nat m = n ->
  exists cnt, (cnt <= m)%nat /\
    runs (fun '(i, o) =>
            if i <? n then o' ← store dest o i 0; Ok (inl (i + 1, o'))
            else Ok (inr o)) (k, o) cnt (store_list dest k (replicate m 0) o).
Proof.
  revert k o; induction m as [|m IH]; intros k o Hk.
  - exists 0%nat. split; [done|]. constructor. destruct (Z.ltb_spec k n); [lia|done].
  - simpl. destruct (store dest o k 0) as [o'|e] eqn:E; simpl.
    + destruct (IH (k + 1) o') as (cnt & Hc & Hr); [lia|].
      exists (S cnt). split; [lia|]. apply runs_step with (k + 1, o'); [|done].
      destruct (Z.ltb_spec k n); [by rewrite E|lia].
    + exists 0%nat. split; [lia|]. constructor.
      destruct (Z.ltb_spec k n); [by rewrite E|lia].
Qed.

Section Copy.
Context (dest src : ptr St) (n m : Z) (bs : list Z).
Context `{HR : !Region P dest n} `{HS : !Separate P dest n src m}.
Hypothesis Hbs : Z.of_nat (length bs) <= m.

(** The copying loop, for a test [stop] that holds at [len] and not before. *)
Lemma copy_runs (go : Z -> Z -> bool) (len j k : nat) o :
  (k + j = len)%nat -> Z.of_nat len <= n -> P o -> holds src o bs ->
  (forall (i : nat) c, (i < len)%nat -> bs !! i = Some c -> go c (Z.of_nat i) = true) ->
  (exists c, bs !! len = Some c /\ go c (Z.of_nat len) = false) ->
  exists o', store_list dest (Z.of_nat k) (take j (drop k bs)) o = Ok o' /\
    P o' /\ holds src o' bs /\
    runs (fun '(i, o) =>
            c ← load src o i;
            if go c i then o' ← store dest o i c; Ok (inl (i + 1, o'))
            else Ok (inr (i, o))) (Z.of_nat k, o) j (Ok (Z.of_nat len, o')).
Proof.
  revert k o; induction j as [|j IH]; intros k o Hk Hn HP Hh Hgo (ce & Hce & Hstop).
  - exists o. repeat split; auto. constructor.
    replace (Z.of_nat k) with (Z.of_nat len) by lia.
    rewrite (Hh _ _ Hce). simpl. by rewrite Hstop.
  - destruct (lookup_lt_is_Some_2 bs k) as [c Hc].
    { apply lookup_lt_Some in Hce. lia. }
    destruct (region_store o (Z.of_nat k) c HP) as (o1 & E1 & HP1); [lia|].
    assert (Hh1 : holds src o1 bs).
    { intros i b Hb. pose proof (lookup_lt_Some _ _ _ Hb).
      rewrite (separate (Separate := HS) o (Z.of_nat k) c o1) by (done || lia). auto. }
    destruct (IH (S k) o1) as (o' & E' & HP' & Hh' & Hr); [lia|lia|done|done|done|eauto|].
    exists o'. repeat split; auto.
    + rewrite (drop_S bs c k Hc). simpl. rewrite E1. simpl.
      by replace (Z.of_nat k + 1) with (Z.of_nat (S k)) by lia.
    + apply runs_step with (Z.of_nat (S k), o1); [|done].
      rewrite (Hh _ _ Hc). simpl. rewrite (Hgo k c) by (done || lia).
      rewrite E1. simpl. do 3 f_equal. lia.
Qed.

(** [strncpy] stores the string, cut or zero-padded to [n] bytes.  It looks
    at [src[n]] when the string is longer than [n]. *)
Lemma strncpy_store o :
  0 <= n < 2 ^ 32 -> P o -> holds src o bs -> covers (n + 1) bs ->
  strncpy dest src n o = store_list dest 0 (strncpy_bytes n bs) o.
Proof.
  intros Hn HP Hh Hc. unfold strncpy, strncpy_bytes.
  set (len := length (take (Z.to_nat n) (c_str bs))).
  assert (Hlen : len = Nat.min (Z.to_nat n) (length (c_str bs)))
    by (unfold len; by rewrite length_take).
  destruct (covers_lookup (n + 1) bs len Hc) as [ce Hce]; [lia..|].
  destruct (copy_runs (fun c i => negb (c =? 0) && (i <? n)) len len 0 o)
    as (o1 & E1 & _ & _ & Hr); [lia..|done|done| | |].
  - intros i c Hi Hb. rewrite (proj2 (Z.ltb_lt _ _)) by lia. rewrite andb_true_r.
    pose proof (c_str_at bs i c ltac:(lia) Hb) as Hat.
    destruct (Z.eqb_spec c 0); [|done]. apply lookup_ge_None_1 in Hat. lia.
  - exists ce. split; [done|]. destruct (Z.ltb_spec (Z.of_nat len) n); [|by rewrite andb_false_r].
    rewrite andb_true_r. pose proof (c_str_at bs len ce ltac:(lia) Hce) as Hat.
    destruct (Z.eqb_spec ce 0); [done|]. apply lookup_lt_Some in Hat. lia.
  - rewrite (loop_runs_Z _ _ _ _ _ Hr) by (unfold FUEL; lia). simpl.
    destruct (fill_runs dest n (Z.to_nat n - len) (Z.of_nat len) o1) as (cnt & Hcnt & Hf);
      [lia|].
    rewrite (loop_runs_Z _ _ _ _ _ Hf) by (unfold FUEL; lia).
    rewrite store_list_app. fold len.
    replace (take (Z.to_nat n) (c_str bs)) with (take len (drop 0 bs)).
    + change (Z.of_nat 0) with 0 in E1. rewrite E1. simpl. done.
    + rewrite drop_0. destruct (c_str_prefix bs) as (tl & E & _). rewrite E at 1.
      rewrite take_app_le by lia.
      by rewrite Hlen, <- take_take, (take_ge (c_str bs)) by lia.
Qed.

(** [strcpy] stores the string and its terminator. *)
Lemma strcpy_store o :
  P o -> holds src o bs -> (length (c_str bs) < length bs)%nat ->
  Z.of_nat (length (c_str bs)) < n -> n <= 2 ^ 32 ->
  strcpy dest src o = store_list dest 0 (c_str bs ++ [0]) o.
Proof.
  intros HP Hh Hend Hn Hn32. unfold strcpy.
  destruct (copy_runs (fun c i => negb (c =? 0)) (length (c_str bs))
              (length (c_str bs)) 0 o) as (o1 & E1 & _ & _ & Hr); [lia..|done|done| | |].
  - intros i c Hi Hb. pose proof (c_str_at bs i c ltac:(lia) Hb) as Hat.
    destruct (Z.eqb_spec c 0); [|done]. apply lookup_ge_None_1 in Hat. lia.
  - exists 0. split; [by apply c_str_end|done].
  - rewrite (loop_runs_Z _ _ _ _ _ Hr) by (unfold FUEL; lia). simpl.
    rewrite store_list_snoc.
    replace (c_str bs) with (take (length (c_str bs)) (drop 0 bs)) at 2.
    + change (Z.of_nat 0) with 0 in E1. rewrite E1. done.
    + rewrite drop_0. destruct (c_str_prefix bs) as (tl & E & _). rewrite E at 2.
      apply take_app_length.
Qed.
End Copy.
End CopyFacts.

(** ** [strrev] *)

Section StrrevFacts.
Context {St : Type} (P : St -> Prop).
Context (s : ptr St) (n : Z) (l : list Z).
Context `{HR : !Region P s n}.
Implicit Types (o : St).
Let L : Z := Z.of_nat (length l).

Definition strrev_step : Z * Z * St -> res (Z * Z * St + St) := fun '(b, e, o) =>
  if b <? e then
    tmp ← load s o e; c ← load s o b;
    o1 ← store s o e c; o2 ← store s o1 b tmp;
    Ok (inl (b + 1, e - 1, o2))
  else Ok (inr o).

(** The ends of the string, up to [b], are exchanged. *)
Definition swapped (b : Z) (o0 o : St) : Prop :=
  forall j, 0 <= j < n ->
    load s o j = if ((j <? b) || (L - 1 - b <? j)) && (j <? L)
                 then Ok (l !!! Z.to_nat (L - 1 - j)) else load s o0 j.

Lemma strrev_swap b o0 o :
  holds s o0 l -> L <= n -> P o -> 0 <= b -> 2 * b + 1 < L -> swapped b o0 o ->
  exists o', strrev_step (b, L - 1 - b, o) = Ok (inl (b + 1, L - 1 - (b + 1), o')) /\
    P o' /\ touches s n o o' /\ swapped (b + 1) o0 o'.
Proof.
  intros Hh HL HP Hb Hbe Hsw.
  assert (Hat : forall j, b <= j <= L - 1 - b -> load s o j = Ok (l !!! Z.to_nat j)).
  { intros j Hj. rewrite (Hsw j) by lia.
    rewrite (proj2 (Z.ltb_ge j b)), (proj2 (Z.ltb_ge (L - 1 - b) j)) by lia. simpl.
    replace j with (Z.of_nat (Z.to_nat j)) at 1 by lia. apply Hh.
    apply list_lookup_lookup_total_lt. unfold L in *. lia. }
  unfold strrev_step. rewrite (proj2 (Z.ltb_lt b (L - 1 - b))) by lia.
  rewrite !Hat by lia. simpl.
  destruct (region_store o (L - 1 - b) (l !!! Z.to_nat b) HP) as (o1 & E1 & HP1); [lia|].
  rewrite E1. simpl.
  destruct (region_store o1 b (l !!! Z.to_nat (L - 1 - b)) HP1) as (o2 & E2 & HP2); [lia|].
  rewrite E2. simpl. exists o2. split; [do 4 f_equal; lia|]. split; [done|]. split.
  { etrans; [eapply touches_store; [|exact E1]; lia|].
    eapply touches_store; [|exact E2]; lia. }
  intros j Hj.
  rewrite (region_load_store o1 b _ o2 j HP1) by (done || lia).
  rewrite (region_load_store o (L - 1 - b) _ o1 j HP) by (done || lia).
  rewrite (Hsw j Hj).
  destruct (Z.eqb_spec b j) as [<-|]; [|destruct (Z.eqb_spec (L - 1 - b) j) as [<-|]].
  - rewrite (proj2 (Z.ltb_lt b (b + 1))), (proj2 (Z.ltb_lt b L)) by lia. done.
  - rewrite (proj2 (Z.ltb_lt (L - 1 - (b + 1)) (L - 1 - b))) by lia.
    rewrite orb_true_r, (proj2 (Z.ltb_lt (L - 1 - b) L)) by lia. simpl.
    do 2 f_equal. lia.
  - replace (j <? b + 1) with (j <? b) by (destruct (Z.ltb_spec j b), (Z.ltb_spec j (b + 1)); lia).
    by replace (L - 1 - (b + 1) <? j) with (L - 1 - b <? j)
      by (destruct (Z.ltb_spec (L - 1 - b) j), (Z.ltb_spec (L - 1 - (b + 1)) j); lia).
Qed.

Lemma strrev_runs o0 (m : nat) b o :
  holds s o0 l -> L <= n -> P o -> 0 <= b -> 2 * b + Z.of_nat m = L -> swapped b o0 o ->
  exists o' cnt, runs strrev_step (b, L - 1 - b, o) cnt (Ok o') /\ (cnt <= m)%nat /\
    P o' /\ touches s n o o' /\ swapped L o0 o'.
Proof.
  intros Hh HL. revert b o. induction (lt_wf m) as [m _ IH]. intros b o HP Hb Hm Hsw.
  destruct (Z_lt_le_dec (2 * b + 1) L).
  - destruct (strrev_swap b o0 o) as (o1 & E1 & HP1 & Ht1 & Hsw1); [done..|].
    destruct (IH (m - 2)%nat ltac:(lia) (b + 1) o1) as (o2 & cnt & Hr & Hc & HP2 & Ht2 & Hsw2);
      [done|lia|lia|done|].
    exists o2, (S cnt). split; [by eapply runs_step|]. split; [lia|].
    split; [done|]. split; [by etrans|done].
  - exists o, 0%nat. split.
    { constructor. unfold strrev_step. destruct (Z.ltb_spec b (L - 1 - b)); [lia|done]. }
    split; [lia|]. split; [done|]. split; [done|].
    intros j Hj. rewrite (Hsw j Hj). destruct (Z.ltb_spec j L); [|by rewrite !andb_false_r].
    rewrite !andb_true_r. simpl. destruct (Z.ltb_spec j b), (Z.ltb_spec (L - 1 - b) j); simpl; try done.
    assert (j = b /\ L - 1 - j = j) as [-> ->] by lia.
    replace b with (Z.of_nat (Z.to_nat b)) at 1 by lia. apply Hh.
    apply list_lookup_lookup_total_lt. unfold L in *. lia.
Qed.

(** [strrev] reverses a terminated string in place. *)
Lemma strrev_spec o :
  P o -> holds s o (l ++ [0]) -> Forall (fun b => b <> 0) l -> L < n -> L < 2 ^ 31 ->
  exists o', strrev s o = Ok o' /\ P o' /\ touches s n o o' /\
    holds s o' (reverse l ++ [0]).
Proof.
  intros HP Hh Hl Hn HL. destruct (proj1 (holds_app _ _ _ _) Hh) as [Hh1 Hh0].
  unfold strrev. rewrite (strlen_terminated s o l) by (unfold L in *; done || lia). simpl.
  rewrite s32_small by (unfold L in *; lia).
  destruct (strrev_runs o (length l) 0 o) as (o' & cnt & Hr & Hc & HP' & Ht & Hsw);
    [done|lia|done|lia|done| |].
  { intros j Hj. destruct (Z.ltb_spec j 0), (Z.ltb_spec (L - 1 - 0) j), (Z.ltb_spec j L);
      simpl; lia || done. }
  exists o'. split; [|split; [done|split; [done|]]].
  { replace (L - 1 - 0) with (Z.of_nat (length l) - 1) in Hr by (unfold L; lia).
    eapply loop_runs_Z; [exact Hr|]. unfold FUEL, L in *. lia. }
  intros i b. rewrite lookup_app_Some, length_reverse. intros [Hb|[Hi Hb]].
  - pose proof (lookup_lt_Some _ _ _ Hb) as Hlt. rewrite length_reverse in Hlt.
    rewrite (Hsw (Z.of_nat i)) by (unfold L in *; lia).
    rewrite (proj2 (Z.ltb_lt (Z.of_nat i) L)) by (unfold L; lia). simpl.
    f_equal. rewrite reverse_lookup in Hb by lia. apply list_lookup_total_correct.
    rewrite <- Hb. f_equal. unfold L. lia.
  - apply list_lookup_singleton_Some in Hb as [Hi0 <-].
    assert (i = length l) as -> by lia. rewrite (Hsw (Z.of_nat (length l))) by (unfold L in *; lia).
    fold L. rewrite Z.ltb_irrefl, andb_false_r. apply Hh.
    rewrite lookup_app_r by lia. by rewrite Nat.sub_diag.
Qed.
End StrrevFacts.

(** ** [itoa] *)

(** Reading a numeral back: the value of a digit character and of a numeral. *)
Definition digit_val (c : Z) : Z := if c <? 65 then c - 48 else c - 55.
Definition parse_num (radix : Z) (ds : list Z) : Z :=
  foldl (fun acc c => acc * radix + digit_val c) 0 ds.

(** The characters of the base: '0'..'9', 'A'..'Z', below [radix]. *)
Definition is_digit (radix c : Z) : Prop :=
  (48 <= c <= 57 \/ 65 <= c <= 90) /\ digit_val c < radix.

Lemma digit_lookup d :
  0 <= d < 36 -> exists c, arr_get lookup_digits d = Ok c /\
    (48 <= c <= 57 \/ 65 <= c <= 90) /\ digit_val c = d.
Proof.
  intros Hd.
  assert (G : forallb (fun d =>
    match arr_get lookup_digits d with
    | Ok c => ((48 <=? c) && (c <=? 57) || (65 <=? c) && (c <=? 90)) && (digit_val c =? d)
    | Err _ => false
    end) (seqZ 0 36) = true) by (vm_compute; reflexivity).
  rewrite forallb_forall in G. specialize (G d).
  rewrite <- list_elem_of_In, elem_of_seqZ in G. specialize (G ltac:(lia)).
  destruct (arr_get lookup_digits d) as [c|]; [|done]. exists c. split; [done|lia].
Qed.

Section ItoaFacts.
Context {St : Type} (P : St -> Prop) (buf : ptr St) (n radix : Z).
Context `{HR : !Region P buf n}.
Implicit Types (o : St).
Hypothesis Hradix : 2 <= radix <= 36.

Definition itoa_step : Z * Z * St -> res (Z * Z * St + Z * St) := fun '(newval, k, o) =>
  if 0 <? newval then
    if u32 radix =? 0 then Err DivByZero else
    c ← arr_get lookup_digits (s32 (newval mod u32 radix));
    o' ← store buf o k c;
    Ok (inl (newval / u32 radix, k + 1, o'))
  else Ok (inr (k, o)).

(** The value of digits given lowest place first, as the loop makes them. *)
Definition value_le (ds : list Z) : Z :=
  foldr (fun c acc => digit_val c + radix * acc) 0 ds.

Lemma itoa_runs (m : nat) v k o :
  0 <= v < 2 ^ Z.of_nat m -> P o -> 0 <= k -> k + Z.of_nat m <= n ->
  exists ds o', store_list buf k ds o = Ok o' /\ P o' /\
    runs itoa_step (v, k, o) (length ds) (Ok (k + Z.of_nat (length ds), o')) /\
    (length ds <= m)%nat /\ value_le ds = v /\ Forall (is_digit radix) ds /\
    (v <> 0 -> 1 <= Z.of_nat (length ds) /\ radix ^ (Z.of_nat (length ds) - 1) <= v).
Proof.
  assert (Hu : u32 radix = radix) by (apply u32_small; lia).
  revert v k o; induction m as [|m IH]; intros v k o Hv HP Hk Hn.
  - assert (v = 0) as -> by (simpl in Hv; lia). exists [], o.
    repeat split; auto; try lia. constructor. simpl. do 3 f_equal. lia.
  - destruct (Z.eq_dec v 0) as [->|Hv0].
    { exists [], o. repeat split; auto; try (simpl; lia). constructor. simpl. do 3 f_equal. lia. }
    assert (Hdm := Z.div_mod v radix ltac:(lia)).
    assert (Hmod := Z.mod_pos_bound v radix ltac:(lia)).
    destruct (digit_lookup (v mod radix)) as (c & Ec & Hc & Hdv); [lia|].
    destruct (region_store o k c HP) as (o1 & E1 & HP1); [lia|].
    assert (Hq : 0 <= v / radix < 2 ^ Z.of_nat m).
    { rewrite Nat2Z.inj_succ, Z.pow_succ_r in Hv by lia. split; [apply Z.div_pos; lia|].
      apply Z.div_lt_upper_bound; nia. }
    destruct (IH (v / radix) (k + 1) o1)
      as (ds & o2 & E2 & HP2 & Hr & Hl & Hval & HF & Hlead); [done|done|lia|lia|].
    exists (c :: ds), o2. split; [simpl; by rewrite E1|]. split; [done|]. split.
    { simpl. apply runs_step with (v / radix, k + 1, o1).
      - unfold itoa_step. rewrite (proj2 (Z.ltb_lt 0 v)) by lia. rewrite Hu.
        destruct (Z.eqb_spec radix 0); [lia|]. rewrite s32_small by lia.
        rewrite Ec. simpl. by rewrite E1.
      - by replace (k + Z.of_nat (S (length ds))) with (k + 1 + Z.of_nat (length ds)) by lia. }
    split; [simpl; lia|]. split; [simpl; rewrite Hval, Hdv; lia|].
    split; [constructor; [split; [done|lia]|done]|].
    intros _. split; [simpl; lia|]. simpl length.
    replace (Z.of_nat (S (length ds)) - 1) with (Z.of_nat (length ds)) by lia.
    destruct (Z.eq_dec (v / radix) 0) as [Hz|Hz].
    + destruct ds as [|d ds]; [simpl; lia|]. exfalso. rewrite Hz in Hr.
      inversion Hr as [| |? ? ? ? Hs _]; subst. unfold itoa_step in Hs. simpl in Hs. discriminate.
    + destruct (Hlead Hz) as [H1 H2].
      replace (Z.of_nat (length ds)) with (1 + (Z.of_nat (length ds) - 1)) by lia.
      rewrite Z.pow_add_r, Z.pow_1_r by lia. nia.
Qed.

Lemma parse_reverse ds : parse_num radix (reverse ds) = value_le ds.
Proof.
  unfold parse_num. induction ds as [|c ds IH]; [done|].
  rewrite reverse_cons, foldl_app, IH. simpl. lia.
Qed.

(** The text [itoa] leaves: a numeral of [value] in base [radix], with no
    leading zero. *)
Definition is_numeral (value : Z) (ds : list Z) : Prop :=
  parse_num radix ds = value /\ Forall (is_digit radix) ds /\
  1 <= Z.of_nat (length ds) <= 32 /\
  (value <> 0 -> radix ^ (Z.of_nat (length ds) - 1) <= value) /\
  (value = 0 -> ds = [48]).

Lemma is_digit_nonzero ds : Forall (is_digit radix) ds -> Forall (fun b => b <> 0) ds.
Proof. intros H. eapply Forall_impl; [exact H|]. unfold is_digit. intros c. lia. Qed.

Lemma itoa_spec value o :
  0 <= value < 2 ^ 32 -> P o -> 33 <= n ->
  exists o' ds, itoa value buf radix o = Ok o' /\ P o' /\ touches buf n o o' /\
    holds buf o' (ds ++ [0]) /\ is_numeral value ds.
Proof.
  intros Hv HP Hn. unfold itoa. destruct (Z.eqb_spec value 0) as [->|Hnz].
  - destruct (store_list_spec P buf n 0 [48; 0] o) as (o' & E & HP' & _);
      [done..|simpl; lia|].
    exists o', [48]. simpl in E. change (0 + 1) with 1 in E.
    assert (E' : (o1 ← store buf o 0 48; store buf o1 1 0) = Ok o').
    { destruct (store buf o 0 48); simpl in *; [|done]. by destruct (store buf a 1 0). }
    split; [done|]. split; [done|]. split; [|split].
    + eapply (touches_store_list buf n 0 [48; 0]); [lia|simpl; lia|exact E].
    + eapply (store_list_holds P buf n [48; 0] o); [done|done|simpl; lia|exact E].
    + unfold is_numeral. repeat split; auto; try (simpl; lia).
      repeat constructor; unfold digit_val; simpl; lia.
  - destruct (itoa_runs 32 value 0 o) as (ds & o1 & E1 & HP1 & Hr & Hl & Hval & HF & Hlead);
      [done|done|lia|lia|]. destruct (Hlead Hnz) as [Hl1 Hl2].
    fold itoa_step. rewrite (loop_runs_Z _ _ _ _ _ Hr) by (unfold FUEL; lia). simpl.
    destruct (region_store o1 (0 + Z.of_nat (length ds)) 0 HP1) as (o2 & E2 & HP2); [lia|].
    simpl in E2. rewrite E2. simpl.
    assert (E : store_list buf 0 (ds ++ [0]) o = Ok o2).
    { rewrite store_list_snoc, E1. exact E2. }
    destruct (strrev_spec P buf n ds o2) as (o3 & E3 & HP3 & Ht3 & Hh3); [done| | |lia|lia|].
    { eapply (store_list_holds P buf n _ o); [done|done|rewrite length_app; simpl; lia|done]. }
    { by apply is_digit_nonzero. }
    exists o3, (reverse ds). split; [done|]. split; [done|]. split; [|split; [done|]].
    + etrans; [|done]. eapply touches_store_list; [| |exact E]; rewrite ?length_app; simpl; lia.
    + unfold is_numeral. rewrite parse_reverse, length_reverse. repeat split; auto; try lia.
      by apply Forall_reverse.
Qed.
End ItoaFacts.

(** ** Numerals are unique *)

Section Numerals.
Context (radix : Z).
Hypothesis Hradix : 2 <= radix <= 36.

Lemma parse_snoc ds c : parse_num radix (ds ++ [c]) = parse_num radix ds * radix + digit_val c.
Proof. unfold parse_num. by rewrite foldl_app. Qed.

Lemma is_digit_val c : is_digit radix c -> 0 <= digit_val c < radix.
Proof. unfold is_digit, digit_val. destruct (Z.ltb_spec c 65); lia. Qed.

Lemma digit_val_inj c d :
  is_digit radix c -> is_digit radix d -> digit_val c = digit_val d -> c = d.
Proof.
  unfold is_digit, digit_val. destruct (Z.ltb_spec c 65), (Z.ltb_spec d 65); lia.
Qed.

Lemma parse_range ds :
  Forall (is_digit radix) ds -> 0 <= parse_num radix ds < radix ^ Z.of_nat (length ds).
Proof.
  induction ds as [|c ds IH] using rev_ind; [done|]. rewrite Forall_app, parse_snoc, length_app.
  intros [H Hc]. apply Forall_singleton, is_digit_val in Hc. specialize (IH H). simpl.
  rewrite Nat2Z.inj_add, Z.pow_add_r by lia. change (Z.of_nat 1) with 1. rewrite Z.pow_1_r. nia.
Qed.

Lemma parse_inj ds1 ds2 :
  Forall (is_digit radix) ds1 -> Forall (is_digit radix) ds2 -> length ds1 = length ds2 ->
  parse_num radix ds1 = parse_num radix ds2 -> ds1 = ds2.
Proof.
  revert ds2. induction ds1 as [|c ds1 IH] using rev_ind; intros ds2 H1 H2 Hl E.
  { by destruct ds2. }
  destruct ds2 as [|d ds2 _] using rev_ind; [rewrite length_app in Hl; simpl in Hl; lia|].
  rewrite !parse_snoc in E. rewrite !length_app in Hl. simpl in Hl.
  apply Forall_app in H1 as [H1 Hc], H2 as [H2 Hd].
  rewrite Forall_singleton in Hc, Hd.
  pose proof (is_digit_val c Hc). pose proof (is_digit_val d Hd).
  assert (parse_num radix ds1 = parse_num radix ds2 /\ digit_val c = digit_val d) as [Ep Ev]
    by (apply (Z.div_mod_unique radix); lia).
  rewrite (IH ds2) by (done || lia). by rewrite (digit_val_inj c d).
Qed.

Lemma numeral_unique v ds1 ds2 : is_numeral radix v ds1 -> is_numeral radix v ds2 -> ds1 = ds2.
Proof.
  intros (P1 & D1 & L1 & N1 & Z1) (P2 & D2 & L2 & N2 & Z2).
  destruct (Z.eq_dec v 0) as [E|E]; [by rewrite Z1, Z2|]. specialize (N1 E). specialize (N2 E).
  pose proof (parse_range ds1 D1) as R1. pose proof (parse_range ds2 D2) as R2.
  rewrite P1 in R1. rewrite P2 in R2. apply parse_inj; [done|done| |congruence].
  assert (Z.of_nat (length ds1) - 1 < Z.of_nat (length ds2))
    by (apply (Z.pow_lt_mono_r_iff radix); lia).
  assert (Z.of_nat (length ds2) - 1 < Z.of_nat (length ds1))
    by (apply (Z.pow_lt_mono_r_iff radix); lia). lia.
Qed.

Lemma numeral_bytes v ds : is_numeral radix v ds -> Forall (fun b => is_byte b /\ b <> 0) ds.
Proof.
  intros (_ & H & _). eapply Forall_impl; [exact H|]. unfold is_digit, is_byte. intros c. lia.
Qed.
End Numerals.

Section ItoaClaim.
Context {St : Type} (P : St -> Prop) (buf : ptr St) (n radix : Z).

(** [itoa] and reading back: for every 32-bit value and every radix from 2 to
    36 it terminates, writes only into its buffer (33 bytes suffice), and leaves
    there a terminated numeral without leading zeros that denotes the value;
    there is only one such numeral. *)
Lemma itoa_reads_back value o :
  Region P buf n -> 2 <= radix <= 36 -> 0 <= value < 2 ^ 32 -> P o -> 33 <= n ->
  exists o' ds, itoa value buf radix o = Ok o' /\ touches buf n o o' /\
    holds buf o' (ds ++ [0]) /\ parse_num radix ds = value /\
    forall ds', is_numeral radix value ds' -> ds' = ds.
Proof.
  intros HR Hr Hv HP Hn. destruct (itoa_spec P buf n radix Hr value o Hv HP Hn) as (o' & ds & E & _ & Ht & Hh & Hnum).
  exists o', ds. split; [done|]. split; [done|]. split; [done|]. split; [apply Hnum|].
  intros ds' Hds'. by apply (numeral_unique radix Hr value).
Qed.
End ItoaClaim.

Lemma itoa_reads_back_witness :
  exists o' ds, itoa 255 (arr_ptr 0) 16 (replicate 33 0) = Ok o' /\
    holds (arr_ptr 0) o' (ds ++ [0]) /\ parse_num 16 ds = 255.
Proof.
  destruct (itoa_reads_back (fun l => 33 <= Z.of_nat (length l)) (arr_ptr 0) 33 16 255 (replicate 33 0))
    as (o' & ds & E & _ & H & Hp & _).
  - apply arr_region.
  - lia.
  - lia.
  - simpl. lia.
  - lia.
  - exists o', ds. split; [exact E|]. split; [exact H|exact Hp].
Defined.
