(* ===== verification/Padding.v ===== *)
(** * Padding (lib.c: [left_pad])

    What [left_pad] leaves in its output buffer, and how much room it needs there:
    the copy of the short string is padded to the full length again, behind the
    spaces. *)

From stdpp Require Import base gmap list numbers.
From Stdlib Require Import ZArith Lia.
From S2P Require Import Prelude Pointers CString.

(** A string shorter than the limit is stored with its padding, as far as the buffer
    reaches. *)
Lemma strncpy_short {St} (P : St -> Prop) (dest src : ptr St) (r m n : Z) (l : list Z) o :
  Region P dest r -> Separate P dest r src m -> Z.of_nat (length l) < m -> Z.of_nat (length l) <= r ->
  Z.of_nat (length l) < n < 2 ^ 32 -> P o -> holds src o (l ++ [0]) -> Forall (fun b => b <> 0) l ->
  strncpy dest src n o = store_list dest 0 (l ++ replicate (Z.to_nat n - length l) 0) o.
Proof.
  intros HR HS Hm Hr Hn HP Hh Hl. unfold strncpy. set (len := length l) in *.
  assert (Z.of_nat (length (l ++ [0])) <= m) as Hm' by (rewrite length_app; simpl; lia).
  destruct (copy_runs P dest src r m (l ++ [0]) Hm' (fun c i => negb (c =? 0) && (i <? n)) len len 0 o)
    as (o1 & E1 & _ & _ & Hrun); auto.
  - intros i c Hi Hc. rewrite lookup_app_l in Hc by done. rewrite (proj2 (Z.ltb_lt _ _)) by lia.
    pose proof (Forall_lookup_1 _ _ _ _ Hl Hc) as Hne. cbv beta in Hne.
    by rewrite (proj2 (Z.eqb_neq _ _) Hne).
  - exists 0. split; [|done]. rewrite lookup_app_r by done. by rewrite Nat.sub_diag.
  - rewrite (loop_runs_Z _ _ _ _ _ Hrun) by (unfold FUEL; lia). rewrite Ok_bind.
    destruct (fill_runs dest n (Z.to_nat n - len) (Z.of_nat len) o1) as (cnt & Hcnt & Hf); [lia|].
    rewrite (loop_runs_Z _ _ _ _ _ Hf) by (unfold FUEL; lia). rewrite store_list_app. fold len.
    rewrite drop_0 in E1. unfold len in E1 at 1. rewrite take_app_length in E1. change (Z.of_nat 0) with 0 in E1. rewrite E1. done.
Qed.

(** Part of a region, from [p + d] on. *)
Lemma region_add {St} (P : St -> Prop) (p : ptr St) n d :
  Region P p n -> 0 <= d -> Region P (ptr_add p d) (n - d).
Proof.
  intros HR Hd. split; simpl.
  - intros o i b HP Hi. apply (region_store o (d + i) b HP). lia.
  - intros o i b o' j HP Hi Hj E. rewrite (region_load_store o (d + i) b o' (d + j) HP) by (done || lia).
    destruct (Z.eqb_spec i j) as [->|]; [by rewrite Z.eqb_refl|]. by rewrite (proj2 (Z.eqb_neq _ _)) by lia.
Qed.

Lemma separate_add {St} (P : St -> Prop) (p q : ptr St) n m d :
  Separate P p n q m -> 0 <= d -> Separate P (ptr_add p d) (n - d) q m.
Proof. intros HS Hd o i b o' j HP Hi Hj E. apply (HS o (d + i) b o' j HP); [lia|done|exact E]. Qed.

Lemma store_list_add {St} (p : ptr St) d i l o :
  store_list (ptr_add p d) i l o = store_list p (d + i) l o.
Proof.
  revert i o. induction l as [|b l IH]; intros i o; simpl; [done|].
  destruct (store p o (d + i) b); simpl; [|done]. rewrite IH. f_equal. lia.
Qed.

(** Storing more than an array holds stops at its end. *)
Lemma arr_store_list_oob a i (l bs : list Z) :
  0 <= i <= Z.of_nat (length l) -> Z.of_nat (length l) < i + Z.of_nat (length bs) ->
  store_list (arr_ptr a) i bs l = Err (OutOfBounds (Z.of_nat (length l))).
Proof.
  revert i l. induction bs as [|b bs IH]; intros i l Hi Hb; simpl in *; [lia|].
  destruct (Z.eq_dec i (Z.of_nat (length l))) as [->|Hne].
  - by rewrite arr_set_oob by lia.
  - rewrite arr_set_ok by lia. simpl. rewrite IH; rewrite length_insert; [done|lia|lia].
Qed.

(** The loop that stores the spaces. *)
Lemma spaces_stored {St} (p : ptr St) (n : nat) o :
  for_range 0 (Z.of_nat n) (fun i o => store p o i 32) o = store_list p 0 (replicate n 32) o.
Proof.
  enough (forall m i o, for_range i (i + Z.of_nat m) (fun i o => store p o i 32) o = store_list p i (replicate m 32) o)
    as H by apply (H n 0).
  induction m as [|m IH]; intros i x; simpl.
  - by rewrite for_range_nil by lia.
  - rewrite for_range_cons by lia. destruct (store p x i 32) as [x'|e]; simpl; [|done].
    rewrite <- IH. f_equal. lia.
Qed.

Section LeftPad.
Context (a b len : Z) (l rest out : list Z).
Hypothesis Hl : Forall (fun c => c <> 0) l.
Hypothesis Hlen : 0 <= len < 2 ^ 31.

(** A call with two local arrays: the string [l] in the first one. *)
Definition pad : res (list Z * list Z) :=
  left_pad (ptr_fst (arr_ptr a)) (ptr_snd (arr_ptr b)) len (l ++ 0 :: rest, out).

Let n : Z := Z.of_nat (length l).
Let inp : list Z := l ++ 0 :: rest.

Lemma pad_in_holds (o : list Z) : holds (ptr_fst (arr_ptr a)) (inp, o) (l ++ [0]).
Proof.
  intros i x Hi. simpl. apply arr_get_Some. unfold inp. change (0 :: rest) with ([0] ++ rest).
  rewrite app_assoc. by apply lookup_app_l_Some.
Qed.

Lemma pad_unfold : n < 2 ^ 32 ->
  pad = if len <=? n then
          o1 ← strncpy (ptr_snd (arr_ptr b)) (ptr_fst (arr_ptr a)) len (inp, out);
          store (ptr_snd (arr_ptr b)) o1 len 0
        else
          o1 ← store_list (ptr_snd (arr_ptr b)) 0 (replicate (Z.to_nat (len - n)) 32) (inp, out);
          o2 ← strncpy (ptr_add (ptr_snd (arr_ptr b)) (len - n)) (ptr_fst (arr_ptr a)) len o1;
          store (ptr_snd (arr_ptr b)) o2 len 0.
Proof.
  intros Hn. unfold pad, left_pad. fold inp.
  rewrite (strlen_terminated _ _ l (pad_in_holds out) Hl Hn), Ok_bind. fold n.
  destruct (Z.leb_spec len n); [done|]. cbv zeta. rewrite s32_small by (unfold n in *; lia).
  rewrite <- (Z2Nat.id (len - n)) at 1 by lia. by rewrite spaces_stored.
Qed.

(** The copy behind the spaces: [len] bytes from [len - n] on. *)
Lemma pad_copy o : n < len -> len <= Z.of_nat (length o) ->
  strncpy (ptr_add (ptr_snd (arr_ptr b)) (len - n)) (ptr_fst (arr_ptr a)) len (inp, o) =
    (o' ← store_list (arr_ptr b) (len - n) (l ++ replicate (Z.to_nat (len - n)) 0) o; Ok (inp, o')).
Proof.
  intros Hn Ho.
  rewrite (strncpy_short (fun o => True /\ len <= Z.of_nat (length o.2)) _ _ (len - (len - n)) (n + 1) len l).
  - replace (Z.to_nat len - length l)%nat with (Z.to_nat (len - n)) by (unfold n; lia).
    rewrite store_list_add, Z.add_0_r, store_list_snd. done.
  - apply region_add; [apply (snd_region (fun _ => True) (fun o => len <= Z.of_nat (length o))), arr_region|lia].
  - apply separate_add; [apply _|lia].
  - unfold n. lia.
  - unfold n. lia.
  - unfold n in *. lia.
  - done.
  - apply pad_in_holds.
  - done.
Qed.

(** A string that fills the field. *)
Lemma pad_long : n < 2 ^ 32 -> len <= n -> len < Z.of_nat (length out) ->
  pad = Ok (inp, take (Z.to_nat len) l ++ 0 :: drop (Z.to_nat (len + 1)) out).
Proof.
  intros Hn H Ho. rewrite (pad_unfold Hn), (proj2 (Z.leb_le _ _) H).
  assert (strncpy_bytes len (l ++ [0]) = take (Z.to_nat len) l) as E.
  { unfold strncpy_bytes. rewrite c_str_app_nil, length_take by done.
    replace (Z.to_nat len - _)%nat with 0%nat by (unfold n in *; lia). apply app_nil_r. }
  pose proof (snd_region (fun _ : list Z => True) (fun o => len <= Z.of_nat (length o)) (arr_ptr b) len _) as HR.
  rewrite (strncpy_store _ (ptr_snd (arr_ptr b)) (ptr_fst (arr_ptr a)) len (n + 1) (l ++ [0])); auto.
  - rewrite E. pose proof (store_list_snoc (ptr_snd (arr_ptr b)) 0 (take (Z.to_nat len) l) 0 (inp, out)) as S.
    rewrite length_take, Nat.min_l, Z.add_0_l, Z2Nat.id in S by (unfold n in *; lia). rewrite <- S.
    rewrite store_list_snd, arr_store_list by (rewrite ?length_app, ?length_take; simpl; unfold n in *; lia).
    rewrite length_app, length_take, Nat.min_l by (unfold n in *; lia). cbn [mbind res_bind fst snd length take app].
    rewrite <- app_assoc. simpl. by replace (Z.to_nat (len + 1)) with (Z.to_nat len + 1)%nat by lia.
  - rewrite length_app. unfold n. simpl. lia.
  - lia.
  - split; [done|]. simpl. lia.
  - apply pad_in_holds.
  - left. rewrite length_app. unfold n in *. simpl. lia.
Qed.

(** A shorter one: all that is stored, in one list. *)
Lemma pad_short : n < len -> len <= Z.of_nat (length out) ->
  pad = (o ← store_list (arr_ptr b) 0
      (replicate (Z.to_nat (len - n)) 32 ++ l ++ replicate (Z.to_nat (len - n)) 0) out;
    o ← arr_set o len 0; Ok (inp, o)).
Proof.
  intros H Ho. rewrite pad_unfold, (proj2 (Z.leb_gt _ _) H) by lia.
  rewrite store_list_snd, store_list_app, length_replicate. cbn [fst snd].
  pose proof (store_list_spec (fun o => len <= Z.of_nat (length o)) (arr_ptr b) len 0 (replicate (Z.to_nat (len - n)) 32) out
    (arr_region b len) Ho ltac:(lia)) as (o1 & E1 & Ho1 & _); [rewrite length_replicate; unfold n in *; lia|].
  rewrite E1, !Ok_bind, (pad_copy o1 H Ho1), Z.add_0_l, Z2Nat.id by lia.
  by destruct (store_list (arr_ptr b) (len - n) _ o1).
Qed.
End LeftPad.

(** [left_pad]: a string that fills the field is cut to it; a shorter one is moved to the right end of
    the field behind spaces; both end in a terminator.  The copy of a shorter string is padded with zeros to
    the whole field again, [len] bytes from where it starts, so that the output needs room for them: with the
    [len + 1] bytes that the field and its terminator take, a string two or more characters short is written
    past the end of the buffer. *)
Lemma left_pad_pads a b len (l rest out : list Z) :
  Forall (fun c => c <> 0) l -> 0 <= len < 2 ^ 31 -> Z.of_nat (length l) < 2 ^ 32 ->
  let n := Z.of_nat (length l) in
  (len <= n -> len < Z.of_nat (length out) ->
    pad a b len l rest out = Ok (l ++ 0 :: rest, take (Z.to_nat len) l ++ 0 :: drop (Z.to_nat (len + 1)) out)) /\
  (n < len -> 2 * len - n <= Z.of_nat (length out) ->
    pad a b len l rest out = Ok (l ++ 0 :: rest, replicate (Z.to_nat (len - n)) 32 ++ l ++
      0 :: replicate (Z.to_nat (len - n) - 1) 0 ++ drop (Z.to_nat (2 * len - n)) out)) /\
  (n + 2 <= len -> Z.of_nat (length out) = len + 1 -> pad a b len l rest out = Err (OutOfBounds (len + 1))).
Proof.
  intros Hl Hlen Hn n. split; [|split]; intros H Ho.
  - by apply pad_long.
  - rewrite pad_short by (done || lia). fold n.
    rewrite arr_store_list by (rewrite ?length_app, ?length_replicate; unfold n in *; lia).
    rewrite Ok_bind, !length_app, !length_replicate. change (Z.to_nat 0) with 0%nat.
    rewrite take_0, app_nil_l, <- !app_assoc.
    replace (0 + (Z.to_nat (len - n) + (length l + Z.to_nat (len - n))))%nat with (Z.to_nat (2 * len - n))
      by (unfold n in *; lia).
    replace (replicate (Z.to_nat (len - n)) 0) with (0 :: replicate (Z.to_nat (len - n) - 1) 0)
      by (rewrite <- replicate_S; f_equal; lia).
    set (o := replicate (Z.to_nat (len - n)) 32 ++ _).
    assert (o !! Z.to_nat len = Some 0) as Hz.
    { unfold o. rewrite lookup_app_r by (rewrite length_replicate; unfold n; lia).
      rewrite length_replicate, lookup_app_r by (unfold n; lia).
      by replace (Z.to_nat len - _ - _)%nat with 0%nat by (unfold n in *; lia). }
    rewrite arr_set_ok by (apply lookup_lt_Some in Hz; lia). rewrite Ok_bind, list_insert_id by done.
    done.
  - rewrite pad_short by (done || lia). fold n.
    rewrite arr_store_list_oob by (rewrite ?length_app, ?length_replicate; unfold n in *; lia). by rewrite Ho.
Qed.

(** "57" in a field of 4 with room, and "5" in a field of 9 without. *)
Lemma left_pad_pads_witness :
  pad 0 0 4 [53; 55] [9] (replicate 7 7) = Ok ([53; 55; 0; 9], [32; 32; 53; 55; 0; 0; 7]) /\
  pad 0 0 9 [53] [] (replicate 10 7) = Err (OutOfBounds 10).
Proof.
  split.
  - refine (proj1 (proj2 (left_pad_pads 0 0 4 [53; 55] [9] (replicate 7 7) _ _ _)) _ _); [|simpl; lia..].
    repeat constructor; discriminate.
  - refine (proj2 (proj2 (left_pad_pads 0 0 9 [53] [] (replicate 10 7) _ _ _)) _ _); [|simpl; lia..].
    repeat constructor; discriminate.
Defined.
