(* ===== verification/MemFns.v ===== *)
(** * The memory functions of lib.c

    [memset], [memset_word], [memset_dword], [memcpy] and [memmove] are
    inline assembly in the source.  The definitions below follow the
    instructions: the byte loop up to a 4-byte boundary of the destination,
    the [rep stosl]/[rep movsl] over whole words and the byte loop over the
    rest.  The offset [k] stands for the distance of %edi (and %esi) from the
    start of the operand; the alignment test looks at the real address.

    The theorems show that the three-phase routines store exactly what a plain
    byte loop stores, whatever the alignment, and that [memmove] is right for
    every overlap. *)

From stdpp Require Import base gmap list numbers.
From Stdlib Require Import ZArith Lia.
From S2P Require Import Prelude Pointers CString.

(** The [w] bytes of a register, lowest first. *)
Fixpoint le_bytes (w : nat) (v : Z) : list Z :=
  match w with
  | 0%nat => []
  | S w => u8 v :: le_bytes w (Z.shiftr v 8)
  end.

Section MemFns.
Context {St : Type}.
Implicit Types (s dest src : ptr St) (o : St).

Definition aligned4 (a : Z) : bool := Z.land (u32 a) 3 =? 0.

Definition memset s (c n : Z) o : res St :=
  let c := Z.land c 255 in
  let eax := u32 (Z.lor (Z.lor (Z.lor (Z.shiftl c 24) (Z.shiftl c 16)) (Z.shiftl c 8)) c) in
  (* .memset_top *)
  r ← loop FUEL (fun '(k, ecx, o) =>
    if ecx =? 0 then Ok (inr (k, ecx, o))
    else if aligned4 (addr s + k) then Ok (inr (k, ecx, o))
    else o' ← store s o k (u8 eax); Ok (inl (k + 1, ecx - 1, o'))) (0, n, o);
  let '(k, ecx, o) := r in
  if ecx =? 0 then Ok o else
  (* .memset_aligned *)
  let edx := Z.land ecx 3 in
  let ecx := Z.shiftr ecx 2 in
  o ← for_range 0 ecx (fun j o => store_list s (k + 4 * j) (le_bytes 4 eax) o) o;
  (* .memset_bottom *)
  for_range 0 edx (fun j o => store s o (k + 4 * ecx + j) (u8 eax)) o.

Definition memset_word s (c n : Z) o : res St :=
  for_range 0 n (fun j o => store_list s (2 * j) (le_bytes 2 c) o) o.

Definition memset_dword s (c n : Z) o : res St :=
  for_range 0 n (fun j o => store_list s (4 * j) (le_bytes 4 c) o) o.

Definition memcpy dest src (n : Z) o : res St :=
  (* .memcpy_top *)
  r ← loop FUEL (fun '(k, ecx, o) =>
    if ecx =? 0 then Ok (inr (k, ecx, o))
    else if aligned4 (addr dest + k) then Ok (inr (k, ecx, o))
    else al ← load src o k; o' ← store dest o k al; Ok (inl (k + 1, ecx - 1, o')))
    (0, n, o);
  let '(k, ecx, o) := r in
  if ecx =? 0 then Ok o else
  (* .memcpy_aligned *)
  let edx := Z.land ecx 3 in
  let ecx := Z.shiftr ecx 2 in
  o ← for_range 0 ecx (fun j o =>
        w ← load_list src (k + 4 * j) 4 o; store_list dest (k + 4 * j) w o) o;
  (* .memcpy_bottom *)
  for_range 0 edx (fun j o =>
    al ← load src o (k + 4 * ecx + j); store dest o (k + 4 * ecx + j) al) o.

(** [memmove] also returns the direction flag it leaves behind. *)
Definition memmove dest src (n : Z) o : res (St * bool) :=
  if addr dest <=? addr src then
    o' ← for_range 0 n (fun j o => b ← load src o j; store dest o j b) o;
    Ok (o', false)
  else
    o' ← for_range 0 n (fun j o =>
           b ← load src o (n - 1 - j); store dest o (n - 1 - j) b) o;
    Ok (o', true).
End MemFns.

(** ** The three phases of a block operation *)

Section Phases.
Context {St : Type}.
Implicit Types (s : ptr St) (o : St).

(** A loop over words is one list of stores. *)
Lemma for_nat_words s (w : list Z) (d : Z) (m : nat) k j o :
  d = Z.of_nat (length w) ->
  for_nat m j (fun j o => store_list s (k + d * j) w o) o =
  store_list s (k + d * j) (concat (replicate m w)) o.
Proof.
  intros ->. revert j o; induction m as [|m IH]; intros j o; [done|].
  simpl. rewrite store_list_app.
  destruct (store_list s (k + _ * j) w o) as [o'|e]; simpl; [|done].
  rewrite IH. f_equal. lia.
Qed.

Lemma concat_replicate_replicate {A} (m n : nat) (x : A) :
  concat (replicate m (replicate n x)) = replicate (m * n) x.
Proof. induction m as [|m IH]; simpl; [done|]. by rewrite IH, replicate_add. Qed.

(** A loop over single bytes, as a loop over words of length one. *)
Lemma for_nat_bytes s b (m : nat) k j o :
  for_nat m j (fun j o => store s o (k + j) b) o = store_list s (k + j) (replicate m b) o.
Proof.
  revert j o; induction m as [|m IH]; intros j o; [done|]. simpl.
  destruct (store s o (k + j) b) as [o'|e]; simpl; [|done].
  rewrite IH. f_equal. lia.
Qed.

(** The byte loop of the head stops at a boundary or at the end. *)
Lemma memset_head s b (m : nat) k o :
  exists h cnt, (cnt <= h <= m)%nat /\
    runs (fun '(k, ecx, o) =>
        if ecx =? 0 then Ok (inr (k, ecx, o))
        else if aligned4 (addr s + k) then Ok (inr (k, ecx, o))
        else o' ← store s o k b; Ok (inl (k + 1, ecx - 1, o')))
      (k, Z.of_nat m, o) cnt
      (o' ← store_list s k (replicate h b) o;
       Ok (k + Z.of_nat h, Z.of_nat (m - h), o')).
Proof.
  revert k o; induction m as [|m IH]; intros k o.
  { exists 0%nat, 0%nat. split; [lia|]. constructor. simpl. by rewrite Z.add_0_r. }
  destruct (aligned4 (addr s + k)) eqn:Ha.
  { exists 0%nat, 0%nat. split; [lia|]. constructor.
    destruct (Z.eqb_spec (Z.of_nat (S m)) 0); [lia|]. rewrite Ha. simpl.
    by rewrite Z.add_0_r. }
  destruct (store s o k b) as [o1|e] eqn:E.
  - destruct (IH (k + 1) o1) as (h & cnt & Hc & Hr). exists (S h), (S cnt).
    split; [lia|]. apply runs_step with (k + 1, Z.of_nat m, o1).
    + destruct (Z.eqb_spec (Z.of_nat (S m)) 0); [lia|]. rewrite Ha, E. simpl.
      do 4 f_equal. lia.
    + simpl. rewrite E. simpl. revert Hr.
      by replace (k + 1 + Z.of_nat h) with (k + Z.of_nat (S h)) by lia.
  - exists 1%nat, 0%nat. split; [lia|]. simpl. rewrite E. constructor.
    destruct (Z.eqb_spec (Z.of_nat (S m)) 0); [lia|]. by rewrite Ha, E.
Qed.
End Phases.

(** ** [memset] *)

(** The replicated register holds the byte four times. *)
Lemma memset_register c :
  let b := Z.land c 255 in
  let eax := u32 (Z.lor (Z.lor (Z.lor (Z.shiftl b 24) (Z.shiftl b 16)) (Z.shiftl b 8)) b) in
  u8 eax = u8 c /\ le_bytes 4 eax = replicate 4 (u8 c).
Proof.
  intros b eax. assert (Hb : b = u8 c)
    by (unfold b; change 255 with (Z.ones 8); by rewrite Z.land_ones by lia).
  assert (G : forallb (fun b =>
    let eax := u32 (Z.lor (Z.lor (Z.lor (Z.shiftl b 24) (Z.shiftl b 16)) (Z.shiftl b 8)) b) in
    (u8 eax =? b) && bool_decide (le_bytes 4 eax = replicate 4 b)) (seqZ 0 256) = true)
    by (vm_compute; reflexivity).
  rewrite forallb_forall in G. specialize (G b).
  rewrite <- list_elem_of_In, elem_of_seqZ in G.
  specialize (G ltac:(rewrite Hb; pose proof (u8_range c); lia)).
  fold eax in G. apply andb_prop in G as [G1 G2]. rewrite bool_decide_eq_true in G2.
  rewrite <- Hb. split; [lia|done].
Qed.

Lemma quad_split (n : nat) :
  let ecx := Z.of_nat n in
  exists q r : nat, Z.shiftr ecx 2 = Z.of_nat q /\ Z.land ecx 3 = Z.of_nat r /\ n = (4 * q + r)%nat.
Proof.
  intros ecx. rewrite Z.shiftr_div_pow2 by lia. change 3 with (Z.ones 2).
  rewrite Z.land_ones by lia. change (2 ^ 2) with 4.
  exists (Z.to_nat (ecx / 4)), (Z.to_nat (ecx mod 4)).
  pose proof (Z.mod_pos_bound ecx 4 ltac:(lia)).
  pose proof (Z.div_pos ecx 4 ltac:(lia) ltac:(lia)).
  pose proof (Z.div_mod ecx 4 ltac:(lia)). lia.
Qed.

Section MemsetFacts.
Context {St : Type}.
Implicit Types (s : ptr St) (o : St).

(** [memset], whatever the alignment of its operand, does what a plain
    byte loop does: it stores the low byte of [c] at [s[0]], ..., [s[n-1]], in
    this order, and nothing else. *)
Lemma memset_fills s c n o :
  0 <= n < 2 ^ 32 -> memset s c n o = store_list s 0 (replicate (Z.to_nat n) (u8 c)) o.
Proof.
  intros Hn. unfold memset. destruct (memset_register c) as [E1 E4]. cbv zeta in E1, E4.
  rewrite E1, E4.
  destruct (memset_head s (u8 c) (Z.to_nat n) 0 o) as (h & cnt & Hc & Hr).
  replace (Z.of_nat (Z.to_nat n)) with n in Hr by lia.
  rewrite (loop_runs_Z _ _ _ _ _ Hr) by (unfold FUEL; lia).
  set (rest := (Z.to_nat n - h)%nat).
  replace (Z.to_nat n) with (h + rest)%nat by lia. rewrite replicate_add, store_list_app.
  destruct (store_list s 0 (replicate h (u8 c)) o) as [o1|e]; cbn [mbind res_bind]; [|done].
  rewrite length_replicate.
  destruct (quad_split rest) as (q & r & Eq & Er & Erest). cbv zeta in Eq, Er.
  destruct (Z.eqb_spec (Z.of_nat rest) 0) as [Hz|Hz].
  { replace rest with 0%nat by lia. done. }
  rewrite Eq, Er, Erest, replicate_add, store_list_app. unfold for_range.
  rewrite !Z.sub_0_r, !Nat2Z.id.
  rewrite (for_nat_words s (replicate 4 (u8 c)) 4 q) by done.
  rewrite concat_replicate_replicate. rewrite (Nat.mul_comm q 4), Z.mul_0_r, Z.add_0_r.
  match goal with |- context [store_list s ?k ?l o1] =>
    destruct (store_list s k l o1) as [o2|e] end; cbn [mbind res_bind]; [|done].
  rewrite for_nat_bytes, length_replicate. f_equal. lia.
Qed.

Lemma memset_word_store s c n o :
  0 <= n -> memset_word s c n o =
  store_list s 0 (concat (replicate (Z.to_nat n) (le_bytes 2 c))) o.
Proof.
  intros Hn. unfold memset_word, for_range. rewrite Z.sub_0_r.
  by rewrite (for_nat_words s (le_bytes 2 c) 2 (Z.to_nat n) 0).
Qed.

Lemma memset_dword_store s c n o :
  0 <= n -> memset_dword s c n o =
  store_list s 0 (concat (replicate (Z.to_nat n) (le_bytes 4 c))) o.
Proof.
  intros Hn. unfold memset_dword, for_range. rewrite Z.sub_0_r.
  by rewrite (for_nat_words s (le_bytes 4 c) 4 (Z.to_nat n) 0).
Qed.
End MemsetFacts.

(** ** [memcpy] *)

Section MemcpyFacts.
Context {St : Type} (P : St -> Prop) (dest src : ptr St) (bs : list Z).
Let n : Z := Z.of_nat (length bs).
Context `{HR : !Region P dest n} `{HS : !Separate P dest n src n}.
Implicit Types (o : St).

Definition good o : Prop := P o /\ holds src o bs.

(** Copying a slice of the source keeps the source. *)
Lemma copy_slice (m k : nat) o :
  (k + m <= length bs)%nat -> good o ->
  exists o', store_list dest (Z.of_nat k) (take m (drop k bs)) o = Ok o' /\ good o' /\
    load_list src (Z.of_nat k) m o = Ok (take m (drop k bs)).
Proof.
  intros Hk [HP Hh].
  assert (Hl : length (take m (drop k bs)) = m) by (rewrite length_take, length_drop; lia).
  destruct (store_list_spec P dest n (Z.of_nat k) (take m (drop k bs)) o)
    as (o' & E & HP' & _); [done..|lia|unfold n; lia|].
  exists o'. split; [done|]. split; [split; [done|]|].
  - intros i b Hb. pose proof (lookup_lt_Some _ _ _ Hb).
    rewrite (store_list_separate P dest n src n (Z.of_nat k) (take m (drop k bs)) o o');
      auto; unfold n; lia.
  - apply load_list_Ok. split; [done|]. intros i b.
    rewrite lookup_take_Some. intros [Hb _]. rewrite lookup_drop in Hb.
    rewrite <- Nat2Z.inj_add. by apply Hh.
Qed.

Lemma take_drop_slice (a m k : nat) :
  take (a + m) (drop k bs) = take a (drop k bs) ++ take m (drop (k + a) bs).
Proof. by rewrite <- take_take_drop, drop_drop. Qed.

Lemma memcpy_head (m k : nat) o :
  (k + m <= length bs)%nat -> good o ->
  exists h cnt o', (cnt <= h <= m)%nat /\
    store_list dest (Z.of_nat k) (take h (drop k bs)) o = Ok o' /\ good o' /\
    runs (fun '(k, ecx, o) =>
        if ecx =? 0 then Ok (inr (k, ecx, o))
        else if aligned4 (addr dest + k) then Ok (inr (k, ecx, o))
        else al ← load src o k; o' ← store dest o k al; Ok (inl (k + 1, ecx - 1, o')))
      (Z.of_nat k, Z.of_nat m, o) cnt
      (Ok (Z.of_nat (k + h), Z.of_nat (m - h), o')).
Proof.
  revert k o; induction m as [|m IH]; intros k o Hk Hg.
  { exists 0%nat, 0%nat, o. split; [lia|]. do 2 (split; [done|]). constructor. simpl.
    by rewrite Nat.add_0_r. }
  destruct (aligned4 (addr dest + Z.of_nat k)) eqn:Ha.
  { exists 0%nat, 0%nat, o. split; [lia|]. do 2 (split; [done|]). constructor.
    destruct (Z.eqb_spec (Z.of_nat (S m)) 0); [lia|]. rewrite Ha.
    by rewrite Nat.add_0_r, Nat.sub_0_r. }
  destruct (copy_slice 1 k o) as (o1 & E1 & Hg1 & L1); [lia|done|].
  destruct (lookup_lt_is_Some_2 bs k) as [b Hb]; [lia|].
  rewrite (drop_S bs b k Hb) in E1, L1. simpl in E1, L1.
  apply bind_Ok in E1 as (o1' & E1 & [= ->]). apply bind_Ok in L1 as (b' & L1 & [= ->]).
  destruct (IH (S k) o1) as (h & cnt & o' & Hc & E & Hg' & Hr); [lia|done|].
  exists (S h), (S cnt), o'. split; [lia|]. split; [|split; [done|]].
  - rewrite (drop_S bs b k Hb). simpl. rewrite E1. simpl.
    by replace (Z.of_nat k + 1) with (Z.of_nat (S k)) by lia.
  - apply runs_step with (Z.of_nat (S k), Z.of_nat m, o1).
    + destruct (Z.eqb_spec (Z.of_nat (S m)) 0); [lia|]. rewrite Ha, L1. simpl.
      rewrite E1. simpl. do 4 f_equal; lia.
    + revert Hr. by replace (k + S h)%nat with (S k + h)%nat by lia.
Qed.

(** The word loop and the tail loop copy slices of [d] bytes. *)
Lemma memcpy_blocks (d m j k : nat) (body : Z -> St -> res St) o :
  (k + d * (j + m) <= length bs)%nat -> good o ->
  (forall i o, body i o =
     (w ← load_list src (Z.of_nat k + Z.of_nat d * i) d o;
      store_list dest (Z.of_nat k + Z.of_nat d * i) w o)) ->
  exists o', store_list dest (Z.of_nat (k + d * j)) (take (d * m) (drop (k + d * j) bs)) o = Ok o' /\
    good o' /\ for_nat m (Z.of_nat j) body o = Ok o'.
Proof.
  intros Hk Hg Hbody. revert j o Hk Hg; induction m as [|m IH]; intros j o Hk Hg.
  { exists o. by rewrite Nat.mul_0_r. }
  destruct (copy_slice d (k + d * j) o) as (o1 & E1 & Hg1 & L1); [lia|done|].
  destruct (IH (S j) o1) as (o2 & E2 & Hg2 & F2); [lia|done|].
  exists o2. split; [|split; [done|]].
  - replace (d * S m)%nat with (d + d * m)%nat by lia.
    rewrite take_drop_slice, store_list_app, E1. simpl.
    rewrite length_take, length_drop. revert E2.
    replace (k + d * S j)%nat with (k + d * j + d)%nat by lia.
    by replace (Z.of_nat (k + d * j) + Z.of_nat (d `min` (length bs - (k + d * j))))
      with (Z.of_nat (k + d * j + d)) by lia.
  - simpl. rewrite Hbody.
    replace (Z.of_nat k + Z.of_nat d * Z.of_nat j) with (Z.of_nat (k + d * j)) by lia.
    rewrite L1. simpl. rewrite E1. simpl.
    by replace (Z.of_nat j + 1) with (Z.of_nat (S j)) by lia.
Qed.

(** [memcpy] of [n] bytes between separate objects stores the [n] bytes. *)
Lemma memcpy_store o :
  P o -> holds src o bs -> n < 2 ^ 32 ->
  memcpy dest src n o = store_list dest 0 bs o.
Proof.
  intros HP Hh Hn. unfold memcpy.
  destruct (memcpy_head (length bs) 0 o) as (h & cnt & o1 & Hc & E1 & Hg1 & Hr);
    [lia|by split|].
  change (Z.of_nat 0) with 0 in Hr, E1. change (0 + h)%nat with h in Hr.
  rewrite (loop_runs_Z _ _ _ _ _ Hr) by (unfold FUEL, n in *; lia). cbn [mbind res_bind].
  rewrite drop_0 in E1. set (rest := (length bs - h)%nat) in *.
  assert (Ebs : store_list dest 0 bs o = store_list dest (Z.of_nat h) (drop h bs) o1).
  { rewrite <- (take_drop h bs) at 1. rewrite store_list_app, E1. simpl.
    rewrite length_take. do 2 f_equal. lia. }
  rewrite Ebs. destruct (quad_split rest) as (q & r & Eq & Er & Erest). cbv zeta in Eq, Er.
  destruct (Z.eqb_spec (Z.of_nat rest) 0) as [Hz|Hz].
  { by rewrite drop_ge by lia. }
  rewrite Eq, Er. unfold for_range. rewrite !Z.sub_0_r, !Nat2Z.id.
  destruct (memcpy_blocks 4 q 0 h (fun j o =>
    w ← load_list src (Z.of_nat h + 4 * j) 4 o; store_list dest (Z.of_nat h + 4 * j) w o) o1)
    as (o2 & E2 & Hg2 & F2); [lia|done|done|].
  change (Z.of_nat 0) with 0 in F2. rewrite F2. cbn [mbind res_bind].
  rewrite Nat.mul_0_r, Nat.add_0_r in E2.
  destruct (memcpy_blocks 1 r 0 (h + 4 * q) (fun j o =>
    al ← load src o (Z.of_nat h + 4 * Z.of_nat q + j);
    store dest o (Z.of_nat h + 4 * Z.of_nat q + j) al) o2) as (o3 & E3 & Hg3 & F3);
    [lia|done| |].
  { intros i o'. replace (Z.of_nat (h + 4 * q) + Z.of_nat 1 * i)
      with (Z.of_nat h + 4 * Z.of_nat q + i) by lia. cbn [load_list].
    destruct (load src o' _) as [b|]; simpl; [|done].
    match goal with |- ?x = _ => by destruct x end. }
  change (Z.of_nat 0) with 0 in F3. rewrite F3.
  rewrite Nat.mul_0_r, Nat.add_0_r, Nat.mul_1_l in E3.
  rewrite <- (take_drop (4 * q) (drop h bs)), store_list_app, E2. simpl.
  rewrite length_take, length_drop, drop_drop, <- E3.
  rewrite (take_ge (drop (h + 4 * q) bs)) by (rewrite length_drop; lia).
  f_equal. lia.
Qed.
End MemcpyFacts.

(** ** [memmove] *)

Section MemmoveFacts.
Implicit Types (m : gmap Z Z).

(** [m'] is [m] with the bytes [[d + lo, d + hi)] taken from [[s + lo, s + hi)]. *)
Definition moved (d s lo hi : Z) m m' : Prop :=
  forall x, m' !! x = if (d + lo <=? x) && (x <? d + hi) then m !! (s + (x - d)) else m !! x.

Lemma moved_nil d s k m : moved d s k k m m.
Proof.
  intros x. destruct (Z.leb_spec (d + k) x), (Z.ltb_spec x (d + k)); simpl; lia || done.
Qed.

Lemma moved_step d s lo hi k m m1 b :
  moved d s lo hi m m1 -> m !! (s + k) = Some b ->
  (k = hi /\ lo <= hi \/ k = lo - 1 /\ lo <= hi) ->
  moved d s (Z.min k lo) (Z.max (k + 1) hi) m (<[d + k := b]> m1).
Proof.
  intros Hm Hb Hk x. destruct (Z.eq_dec x (d + k)) as [->|Hne].
  - rewrite lookup_insert_eq.
    rewrite (proj2 (Z.leb_le _ _)), (proj2 (Z.ltb_lt _ _)) by lia. simpl.
    rewrite <- Hb. f_equal. lia.
  - rewrite lookup_insert_ne by lia. rewrite (Hm x).
    destruct (Z.leb_spec (d + lo) x), (Z.ltb_spec x (d + hi)),
      (Z.leb_spec (d + Z.min k lo) x), (Z.ltb_spec x (d + Z.max (k + 1) hi));
      simpl; lia || done.
Qed.

(** [memmove] is right for every overlap: each of the [n] destination bytes
    gets the source byte as it was before the call, every other byte keeps its
    value, and no access faults.  When the source lies below the destination it
    returns with the direction flag set ([std] without [cld]). *)
Lemma memmove_moves d s n m :
  0 <= d -> d + n <= 2 ^ 32 -> 0 <= s -> s + n <= 2 ^ 32 -> 0 <= n ->
  (forall i, 0 <= i < n -> is_Some (m !! (s + i))) ->
  exists m', memmove (mem_ptr d) (mem_ptr s) n m = Ok (m', s <? d) /\ moved d s 0 n m m'.
Proof.
  intros Hd Hdn Hs Hsn Hn Hsome. unfold memmove. simpl addr.
  destruct (Z.leb_spec d s) as [Hds|Hds].
  - destruct (for_range_inv (fun j m' => moved d s 0 j m m') 0 n
      (fun j o => b ← load (mem_ptr s) o j; store (mem_ptr d) o j b) m)
      as (m' & E & Hm'); [done|apply moved_nil| |].
    + intros j m1 Hj Hm1. destruct (Hsome j Hj) as [b Hb].
      assert (Hb1 : m1 !! (s + j) = Some b).
      { rewrite (Hm1 (s + j)). destruct (Z.ltb_spec (s + j) (d + j)); [lia|].
        by rewrite andb_false_r. }
      exists (<[d + j := b]> m1). cbn. rewrite !u32_small, Hb1 by lia. split; [done|].
      pose proof (moved_step d s 0 j j m m1 b Hm1 Hb ltac:(lia)) as Hst.
      by replace (Z.min j 0) with 0 in Hst by lia; replace (Z.max (j + 1) j) with (j + 1) in Hst by lia.
    + exists m'. rewrite E. simpl. split; [|done].
      by rewrite (proj2 (Z.ltb_ge s d)) by lia.
  - destruct (for_range_inv (fun j m' => moved d s (n - j) n m m') 0 n
      (fun j o => b ← load (mem_ptr s) o (n - 1 - j); store (mem_ptr d) o (n - 1 - j) b) m)
      as (m' & E & Hm'); [done|rewrite Z.sub_0_r; apply moved_nil| |].
    + intros j m1 Hj Hm1. destruct (Hsome (n - 1 - j)) as [b Hb]; [lia|].
      assert (Hb1 : m1 !! (s + (n - 1 - j)) = Some b).
      { rewrite (Hm1 (s + (n - 1 - j))).
        destruct (Z.leb_spec (d + (n - j)) (s + (n - 1 - j))); [lia|done]. }
      exists (<[d + (n - 1 - j) := b]> m1). cbn. rewrite !u32_small, Hb1 by lia. split; [done|].
      pose proof (moved_step d s (n - j) n (n - 1 - j) m m1 b Hm1 Hb ltac:(lia)) as Hst.
      replace (Z.min (n - 1 - j) (n - j)) with (n - (j + 1)) in Hst by lia.
      by replace (Z.max (n - 1 - j + 1) n) with n in Hst by lia.
    + exists m'. rewrite E. simpl. split; [by rewrite (proj2 (Z.ltb_lt s d)) by lia|].
      by replace (n - n) with 0 in Hm' by lia.
Qed.
End MemmoveFacts.

Section MemcpyClaim.
Context {St : Type} (P : St -> Prop) (dest src : ptr St) (bs : list Z).

(** [memcpy] between objects that do not overlap, whatever the alignment of
    the destination (head bytes, words, tail bytes), stores the [n] source bytes
    in order and nothing else. *)
Lemma memcpy_copies o :
  Region P dest (Z.of_nat (length bs)) ->
  Separate P dest (Z.of_nat (length bs)) src (Z.of_nat (length bs)) ->
  P o -> holds src o bs -> Z.of_nat (length bs) < 2 ^ 32 ->
  memcpy dest src (Z.of_nat (length bs)) o = store_list dest 0 bs o.
Proof. intros HR HS. by apply (memcpy_store P dest src bs). Qed.
End MemcpyClaim.

Lemma memset_fills_witness :
  memset (arr_ptr 3) 7 6 [0; 0; 0; 0; 0; 0; 9] = Ok [7; 7; 7; 7; 7; 7; 9].
Proof. rewrite (memset_fills (arr_ptr 3) 7 6 [0; 0; 0; 0; 0; 0; 9]); [reflexivity|lia]. Defined.

Lemma memcpy_copies_witness :
  memcpy (ptr_fst (arr_ptr 1)) (ptr_snd (arr_ptr 8)) 6 ([0; 0; 0; 0; 0; 0; 9], [1; 2; 3; 4; 5; 6])
    = Ok ([1; 2; 3; 4; 5; 6; 9], [1; 2; 3; 4; 5; 6]).
Proof.
  change 6 with (Z.of_nat (length [1; 2; 3; 4; 5; 6])) at 1.
  rewrite (memcpy_copies (fun o => 6 <= Z.of_nat (length o.1) /\ True) (ptr_fst (arr_ptr 1))
    (ptr_snd (arr_ptr 8)) [1; 2; 3; 4; 5; 6] ([0; 0; 0; 0; 0; 0; 9], [1; 2; 3; 4; 5; 6])).
  - reflexivity.
  - apply (fst_region (fun o => 6 <= Z.of_nat (length o)) (fun _ => True)), arr_region.
  - apply fst_snd_separate.
  - split; [simpl; lia|exact I].
  - intros i b Hi. apply arr_get_Some, Hi.
  - simpl. lia.
Defined.

(** Two overlapping blocks of three bytes. *)
Lemma memmove_moves_witness :
  exists m', memmove (mem_ptr 11) (mem_ptr 10) 3 {[10 := 1; 11 := 2; 12 := 3]} = Ok (m', true) /\
    m' !! 11 = Some 1 /\ m' !! 12 = Some 2 /\ m' !! 13 = Some 3.
Proof.
  destruct (memmove_moves 11 10 3 {[10 := 1; 11 := 2; 12 := 3]}) as (m' & E & H).
  - lia.
  - lia.
  - lia.
  - lia.
  - lia.
  - intros i Hi. assert (i = 0 \/ i = 1 \/ i = 2) as [-> | [-> | ->]] by lia; by eexists.
  - exists m'. split; [exact E|]. split; [exact (H 11)|]. split; [exact (H 12)|exact (H 13)].
Defined.
