(* ===== verification/Ports.v ===== *)
(** * Port I/O

    The devices are outside the program: what the kernel does to them is the
    sequence of bytes it writes to ports and reads from them, and what they do
    to the kernel is the bytes its reads return.  [outb] and [inb] are the
    inline functions of lib.h. *)

From stdpp Require Import base list numbers.
From Stdlib Require Import ZArith Lia.
From S2P Require Import Prelude.

Inductive io_event : Type :=
| Out (port data : Z)
| In (port data : Z).

#[global] Instance io_event_eq_dec : EqDecision io_event.
Proof. solve_decision. Defined.

Record ports : Type := {
  io_log : list io_event;   (* everything the ports have seen, oldest first *)
  io_in : list Z;           (* the bytes the next reads return *)
}.

Definition outb (data port : Z) (io : ports) : ports :=
  {| io_log := io_log io ++ [Out (u16 port) (u8 data)]; io_in := io_in io |}.

Definition inb (port : Z) (io : ports) : res (Z * ports) :=
  match io_in io with
  | [] => Err NoInput
  | b :: bs => Ok (u8 b, {| io_log := io_log io ++ [In (u16 port) (u8 b)]; io_in := bs |})
  end.

(** The byte last written to a port. *)
Definition last_out (port : Z) (log : list io_event) : option Z :=
  foldl (fun acc e =>
    match e with Out p d => if p =? port then Some d else acc | In _ _ => acc end)
    None log.

Lemma last_out_snoc port log p d :
  last_out port (log ++ [Out p d]) = if p =? port then Some d else last_out port log.
Proof. unfold last_out. by rewrite foldl_app. Qed.

Lemma io_log_outb data port io :
  io_log (outb data port io) = io_log io ++ [Out (u16 port) (u8 data)].
Proof. done. Qed.

#[export] Hint Rewrite last_out_snoc io_log_outb : ints.
