(* ===== verification/Pic.v ===== *)
(** * The interrupt controller driver (i8259.c)

    State: the two mask bytes the driver keeps, and the ports.  The abstract
    view is the set of masked IRQ lines 0..15; [enable_irq] and [disable_irq]
    remove and add one line, and in every reachable state the byte last written
    to each controller's data port is the driver's own mask, so the masks the
    driver keeps are the masks the hardware uses. *)

From stdpp Require Import base list numbers relations.
From Stdlib Require Import ZArith Lia.
From S2P Require Import Prelude Ports.

(** i8259.h *)
Definition MASTER_PIC_CMD : Z := 0x20.
Definition MASTER_PIC_DATA : Z := 0x21.
Definition SLAVE_PIC_CMD : Z := 0xA0.
Definition SLAVE_PIC_DATA : Z := 0xA1.
Definition ICW1 : Z := 0x11.
Definition ICW2_MASTER : Z := 0x20.
Definition ICW2_SLAVE : Z := 0x28.
Definition ICW3_MASTER : Z := 0x04.
Definition ICW3_SLAVE : Z := 0x02.
Definition ICW4 : Z := 0x01.
Definition MASTER_INIT_MASK : Z := 0xFB.
Definition SLAVE_INIT_MASK : Z := 0xFF.
Definition INTR_MASK : Z := 0xFF.
Definition SLAVE_ON_MASTER : Z := 0x02.
Definition MAX_IRQ : Z := 15.
Definition PIC_MAX_IRQ : Z := 8.
Definition EOI : Z := 0x60.

Record pic : Type := { master_mask : Z; slave_mask : Z }.

Definition i8259_init (s : pic * ports) : pic * ports :=
  let io := s.2 in
  let io := outb INTR_MASK MASTER_PIC_DATA io in
  let io := outb INTR_MASK SLAVE_PIC_DATA io in
  let io := outb ICW1 MASTER_PIC_CMD io in
  let io := outb ICW1 SLAVE_PIC_CMD io in
  let io := outb ICW2_MASTER MASTER_PIC_DATA io in
  let io := outb ICW2_SLAVE SLAVE_PIC_DATA io in
  let io := outb ICW3_MASTER MASTER_PIC_DATA io in
  let io := outb ICW3_SLAVE SLAVE_PIC_DATA io in
  let io := outb ICW4 MASTER_PIC_DATA io in
  let io := outb ICW4 SLAVE_PIC_DATA io in
  let io := outb MASTER_INIT_MASK MASTER_PIC_DATA io in
  let io := outb SLAVE_INIT_MASK SLAVE_PIC_DATA io in
  ({| master_mask := MASTER_INIT_MASK; slave_mask := SLAVE_INIT_MASK |}, io).

Definition enable_irq (irq_num : Z) (s : pic * ports) : pic * ports :=
  if (irq_num <? 0) || (MAX_IRQ <? irq_num) then s
  else if irq_num <? PIC_MAX_IRQ then
    let mask := u8 (Z.shiftl 1 irq_num) in
    let mask := u8 (Z.lnot mask) in
    let m := u8 (Z.land (master_mask s.1) mask) in
    ({| master_mask := m; slave_mask := slave_mask s.1 |}, outb m MASTER_PIC_DATA s.2)
  else
    let mask := u8 (Z.shiftl 1 (irq_num - PIC_MAX_IRQ)) in
    let mask := u8 (Z.lnot mask) in
    let m := u8 (Z.land (slave_mask s.1) mask) in
    ({| master_mask := master_mask s.1; slave_mask := m |}, outb m SLAVE_PIC_DATA s.2).

Definition disable_irq (irq_num : Z) (s : pic * ports) : pic * ports :=
  if (irq_num <? 0) || (MAX_IRQ <? irq_num) then s
  else if irq_num <? PIC_MAX_IRQ then
    let mask := u8 (Z.shiftl 1 irq_num) in
    let m := u8 (Z.lor (master_mask s.1) mask) in
    ({| master_mask := m; slave_mask := slave_mask s.1 |}, outb m MASTER_PIC_DATA s.2)
  else
    let mask := u8 (Z.shiftl 1 (irq_num - PIC_MAX_IRQ)) in
    let m := u8 (Z.lor (slave_mask s.1) mask) in
    ({| master_mask := master_mask s.1; slave_mask := m |}, outb m SLAVE_PIC_DATA s.2).

Definition send_eoi (irq_num : Z) (io : ports) : ports :=
  if (irq_num <? 0) || (MAX_IRQ <? irq_num) then io
  else if irq_num <? PIC_MAX_IRQ then
    outb (Z.lor irq_num EOI) MASTER_PIC_CMD io
  else
    let io := outb (Z.lor (irq_num - PIC_MAX_IRQ) EOI) SLAVE_PIC_CMD io in
    outb (Z.lor SLAVE_ON_MASTER EOI) MASTER_PIC_CMD io.

(** ** The abstract view *)

(** IRQ line [i] is masked. *)
Definition masked (p : pic) (i : Z) : bool :=
  if i <? PIC_MAX_IRQ then Z.testbit (master_mask p) i
  else Z.testbit (slave_mask p) (i - PIC_MAX_IRQ).

Definition pic_wf (p : pic) : Prop := is_byte (master_mask p) /\ is_byte (slave_mask p).

Lemma testbit_clear m i j :
  is_byte m -> 0 <= i < 8 -> 0 <= j < 8 ->
  Z.testbit (u8 (Z.land m (u8 (Z.lnot (u8 (Z.shiftl 1 i)))))) j =
  if i =? j then false else Z.testbit m j.
Proof.
  intros Hm Hi Hj. rewrite testbit_u8, Z.land_spec, testbit_u8, Z.lnot_spec, testbit_u8 by lia.
  rewrite Z.shiftl_1_l, testbit_pow2 by lia.
  rewrite (proj2 (Z.ltb_lt j 8)), !andb_true_r by lia. rewrite Z.eqb_sym.
  destruct (i =? j); simpl; [by rewrite andb_false_r|by rewrite andb_true_r].
Qed.

Lemma testbit_set m i j :
  is_byte m -> 0 <= i < 8 -> 0 <= j < 8 ->
  Z.testbit (u8 (Z.lor m (u8 (Z.shiftl 1 i)))) j = if i =? j then true else Z.testbit m j.
Proof.
  intros Hm Hi Hj. rewrite testbit_u8, Z.lor_spec, testbit_u8 by lia.
  rewrite Z.shiftl_1_l, testbit_pow2 by lia.
  rewrite (proj2 (Z.ltb_lt j 8)), !andb_true_r by lia. rewrite Z.eqb_sym.
  destruct (i =? j); simpl; [by rewrite orb_true_r|by rewrite orb_false_r].
Qed.

(** Both operations at once: [enable_irq] clears and [disable_irq] sets the one
    line, every other line keeps its state. *)
Lemma enable_irq_masked irq s j :
  pic_wf s.1 -> 0 <= irq <= MAX_IRQ -> 0 <= j <= MAX_IRQ ->
  masked (enable_irq irq s).1 j = if irq =? j then false else masked s.1 j.
Proof.
  unfold masked, enable_irq, MAX_IRQ, PIC_MAX_IRQ. intros [Hm Hs] Hi Hj.
  destruct (Z.ltb_spec irq 0); [lia|]. destruct (Z.ltb_spec 15 irq); [lia|]. cbn [orb].
  destruct (Z.ltb_spec irq 8), (Z.ltb_spec j 8); cbn [fst snd master_mask slave_mask].
  - by rewrite testbit_clear by (done || lia).
  - by destruct (Z.eqb_spec irq j); [lia|].
  - by destruct (Z.eqb_spec irq j); [lia|].
  - rewrite testbit_clear by (done || lia).
    by destruct (Z.eqb_spec (irq - 8) (j - 8)), (Z.eqb_spec irq j); try lia.
Qed.

Lemma disable_irq_masked irq s j :
  pic_wf s.1 -> 0 <= irq <= MAX_IRQ -> 0 <= j <= MAX_IRQ ->
  masked (disable_irq irq s).1 j = if irq =? j then true else masked s.1 j.
Proof.
  unfold masked, disable_irq, MAX_IRQ, PIC_MAX_IRQ. intros [Hm Hs] Hi Hj.
  destruct (Z.ltb_spec irq 0); [lia|]. destruct (Z.ltb_spec 15 irq); [lia|]. cbn [orb].
  destruct (Z.ltb_spec irq 8), (Z.ltb_spec j 8); cbn [fst snd master_mask slave_mask].
  - by rewrite testbit_set by (done || lia).
  - by destruct (Z.eqb_spec irq j); [lia|].
  - by destruct (Z.eqb_spec irq j); [lia|].
  - rewrite testbit_set by (done || lia).
    by destruct (Z.eqb_spec (irq - 8) (j - 8)), (Z.eqb_spec irq j); try lia.
Qed.

Lemma u8_byte z : is_byte (u8 z).
Proof. apply u8_range. Qed.

Lemma enable_irq_wf irq s : pic_wf s.1 -> pic_wf (enable_irq irq s).1.
Proof.
  intros [Hm Hs]. unfold enable_irq, pic_wf.
  destruct (_ || _); [done|]. destruct (irq <? PIC_MAX_IRQ); simpl; auto using u8_byte.
Qed.

Lemma disable_irq_wf irq s : pic_wf s.1 -> pic_wf (disable_irq irq s).1.
Proof.
  intros [Hm Hs]. unfold disable_irq, pic_wf.
  destruct (_ || _); [done|]. destruct (irq <? PIC_MAX_IRQ); simpl; auto using u8_byte.
Qed.

(** ** Reachable states *)

Inductive pic_step : pic * ports -> pic * ports -> Prop :=
| step_enable irq s : 0 <= irq -> pic_step s (enable_irq irq s)
| step_disable irq s : 0 <= irq -> pic_step s (disable_irq irq s)
| step_eoi irq p io : 0 <= irq -> pic_step (p, io) (p, send_eoi irq io)
| step_other p io port data :
    u16 port <> MASTER_PIC_DATA -> u16 port <> SLAVE_PIC_DATA ->
    pic_step (p, io) (p, outb data port io).

(** The driver's masks are bytes and are what the data ports last received. *)
Definition pic_inv (s : pic * ports) : Prop :=
  pic_wf s.1 /\
  last_out MASTER_PIC_DATA (io_log s.2) = Some (master_mask s.1) /\
  last_out SLAVE_PIC_DATA (io_log s.2) = Some (slave_mask s.1).

Lemma i8259_init_inv s : pic_inv (i8259_init s).
Proof.
  unfold i8259_init, pic_inv, pic_wf, is_byte. simpl snd. simpl fst.
  split; [vm_compute; intuition discriminate|].
  autorewrite with ints. done.
Qed.

Lemma pic_step_inv s s' : pic_step s s' -> pic_inv s -> pic_inv s'.
Proof.
  destruct 1 as [irq [p io] Hi|irq [p io] Hi|irq p io Hi|p io port data H1 H2];
    intros ((Hm & Hs) & Lm & Ls); unfold pic_inv, pic_wf in *; simpl in *.
  - unfold enable_irq; simpl. destruct (_ || _); [done|].
    destruct (irq <? PIC_MAX_IRQ); simpl; autorewrite with ints; simpl;
      rewrite (u8_small (u8 _)) by apply u8_range; auto using u8_byte.
  - unfold disable_irq; simpl. destruct (_ || _); [done|].
    destruct (irq <? PIC_MAX_IRQ); simpl; autorewrite with ints; simpl;
      rewrite (u8_small (u8 _)) by apply u8_range; auto using u8_byte.
  - unfold send_eoi. destruct (_ || _); [done|].
    destruct (irq <? PIC_MAX_IRQ); autorewrite with ints; done.
  - autorewrite with ints.
    by destruct (Z.eqb_spec (u16 port) MASTER_PIC_DATA), (Z.eqb_spec (u16 port) SLAVE_PIC_DATA).
Qed.

(** In every state reached from [i8259_init] by the driver's operations and
    by writes to other ports, the masks the driver keeps are bytes and are the
    bytes the two controllers last received on their data ports. *)
Lemma pic_masks_agree s0 s :
  rtc pic_step (i8259_init s0) s -> pic_inv s.
Proof.
  intros H. assert (G : pic_inv (i8259_init s0)) by apply i8259_init_inv.
  revert G. induction H as [|x y z Hxy _ IH]; [done|]. intros G.
  apply IH. by eapply pic_step_inv.
Qed.

(** The keyboard's line enabled after a boot, and an end-of-interrupt sent. *)
Lemma pic_masks_agree_witness :
  let s0 := ({| master_mask := 0; slave_mask := 0 |}, {| io_log := []; io_in := [] |}) in
  let s := enable_irq 1 (i8259_init s0) in
  pic_inv (s.1, send_eoi 1 s.2).
Proof.
  intros s0 s. apply (pic_masks_agree s0).
  apply (rtc_l _ _ s).
  - apply step_enable. discriminate.
  - apply (rtc_l _ _ (s.1, send_eoi 1 s.2)).
    + apply (step_eoi 1 s.1 s.2). discriminate.
    + apply rtc_refl.
Defined.
