(* ===== verification/Paging.v ===== *)
(** * Paging (paging.c, paging.h, en_paging.S)

    The page directory and the two page tables are arrays of 32-bit entries;
    the bit-field members of [page_dir_entry_t] and [page_table_entry_t] are
    read and written with [get_field] and [set_field].  [translate] is the
    i386 page walk (4 MB pages with CR4.PSE), so that the effect of the
    driver's updates is stated as what addresses mean afterwards;
    [translate_store] adds the read/write bit, which a store in user mode needs.  There is no
    TLB in the model: every function that changes a live entry ends in
    [flush_TLB], after which the hardware reads the tables again. *)

From stdpp Require Import base gmap list numbers.
From Stdlib Require Import ZArith Lia.
From S2P Require Import Prelude.

(** ** Bit fields *)

Definition get_field (v lo w : Z) : Z := Z.land (Z.shiftr v lo) (Z.ones w).
Definition set_field (v lo w x : Z) : Z :=
  Z.lor (Z.land v (Z.lnot (Z.shiftl (Z.ones w) lo))) (Z.shiftl (Z.land x (Z.ones w)) lo).

Lemma testbit_ones w i : 0 <= w -> 0 <= i -> Z.testbit (Z.ones w) i = (i <? w).
Proof. intros Hw Hi. rewrite Z.testbit_ones by lia. by rewrite (proj2 (Z.leb_le 0 i)) by lia. Qed.

Lemma testbit_get_field v lo w i :
  0 <= lo -> 0 <= w -> 0 <= i ->
  Z.testbit (get_field v lo w) i = Z.testbit v (i + lo) && (i <? w).
Proof.
  intros. unfold get_field. by rewrite Z.land_spec, Z.shiftr_spec, testbit_ones by lia.
Qed.

Lemma testbit_set_field v lo w x i :
  0 <= lo -> 0 <= w -> 0 <= i ->
  Z.testbit (set_field v lo w x) i =
  if (lo <=? i) && (i <? lo + w) then Z.testbit x (i - lo) else Z.testbit v i.
Proof.
  intros Hlo Hw Hi. unfold set_field.
  rewrite Z.lor_spec, Z.land_spec, Z.lnot_spec, !Z.shiftl_spec by lia.
  destruct (Z.leb_spec lo i).
  - rewrite Z.land_spec, testbit_ones by lia.
    destruct (Z.ltb_spec i (lo + w)), (Z.ltb_spec (i - lo) w); try lia; simpl;
      by rewrite ?andb_false_r, ?andb_true_r, ?orb_false_r.
  - rewrite !(Z.testbit_neg_r _ (i - lo)) by lia. simpl.
    by rewrite andb_true_r, orb_false_r.
Qed.

(** A part of a field just written. *)
Lemma get_set_field_sub v lo w x d w' :
  0 <= lo -> 0 <= w' -> 0 <= d -> d + w' <= w ->
  get_field (set_field v lo w x) (lo + d) w' = get_field x d w'.
Proof.
  intros. apply Z.bits_inj'. intros i Hi.
  rewrite !testbit_get_field, testbit_set_field by lia.
  destruct (Z.ltb_spec i w'); [|by rewrite !andb_false_r].
  rewrite (proj2 (Z.leb_le _ _)), (proj2 (Z.ltb_lt _ _)) by lia. simpl.
  f_equal. f_equal. lia.
Qed.

Lemma get_set_field_same v lo w x :
  0 <= lo -> 0 <= w -> get_field (set_field v lo w x) lo w = x mod 2 ^ w.
Proof.
  intros. replace lo with (lo + 0) at 2 by lia. rewrite get_set_field_sub by lia.
  unfold get_field. by rewrite Z.shiftr_0_r, Z.land_ones by lia.
Qed.

(** Fields that do not meet are independent. *)
Lemma get_set_field_other v lo w x lo' w' :
  0 <= lo -> 0 <= w -> 0 <= lo' -> 0 <= w' -> (lo + w <= lo' \/ lo' + w' <= lo) ->
  get_field (set_field v lo w x) lo' w' = get_field v lo' w'.
Proof.
  intros. apply Z.bits_inj'. intros i Hi.
  rewrite !testbit_get_field, testbit_set_field by lia.
  destruct (Z.ltb_spec i w'); [|by rewrite !andb_false_r].
  by destruct (Z.leb_spec lo (i + lo')), (Z.ltb_spec (i + lo') (lo + w)); simpl; try lia.
Qed.

Lemma get_field_range v lo w : 0 <= w -> 0 <= get_field v lo w < 2 ^ w.
Proof.
  intros. unfold get_field. rewrite Z.land_ones by lia. apply Z.mod_pos_bound.
  apply Z.pow_pos_nonneg; lia.
Qed.

Lemma get_field_div v lo w : 0 <= lo -> 0 <= w -> get_field v lo w = (v / 2 ^ lo) mod 2 ^ w.
Proof. intros. unfold get_field. by rewrite Z.land_ones, Z.shiftr_div_pow2 by lia. Qed.

(** Members of [page_dir_entry_t] and [page_table_entry_t]; both have the flag
    bits at the same places, [page_size] is in directory entries only. *)
Definition present (e : Z) : bool := get_field e 0 1 =? 1.
Definition read_write (e : Z) : bool := get_field e 1 1 =? 1.
Definition user_supervisor (e : Z) : bool := get_field e 2 1 =? 1.
Definition page_size (e : Z) : bool := get_field e 7 1 =? 1.
Definition address (e : Z) : Z := get_field e 12 20.
Definition set_present (b e : Z) : Z := set_field e 0 1 b.
Definition set_read_write (b e : Z) : Z := set_field e 1 1 b.
Definition set_user_supervisor (b e : Z) : Z := set_field e 2 1 b.
Definition set_page_size (b e : Z) : Z := set_field e 7 1 b.
Definition set_address (a e : Z) : Z := set_field e 12 20 a.

(** ** State *)

(** paging.h *)
Definition DIR_SIZE : Z := 1024.
Definition TABLE_SIZE : Z := 1024.
Definition MEM_START : Z := 0.
Definition KERNEL_MEM_START : Z := 0x400000.
Definition _4_MB : Z := 0x400000.
Definition ALIGN_SIZE : Z := 12.
Definition VIDEO : Z := 0xB8000.
Definition USER_PROGRAM_PD_IDX : Z := 32.
Definition _128_MB : Z := 0x8000000.
Definition _132_MB : Z := 0x8400000.

(** Where the linker puts the tables: [__attribute__((aligned(PAGE_SIZE)))]
    objects of the kernel image. *)
Class Layout : Type := {
  page_directory_addr : Z;
  page_table_addr : Z;
  vidmem_page_table_addr : Z;
  page_table_aligned : 0 <= page_table_addr < 2 ^ 32 /\ page_table_addr mod 4096 = 0;
  vidmem_page_table_aligned :
    0 <= vidmem_page_table_addr < 2 ^ 32 /\ vidmem_page_table_addr mod 4096 = 0;
  tables_distinct : page_table_addr <> vidmem_page_table_addr;
}.

Record paging : Type := {
  cr0_pg : bool;            (* CR0.PG *)
  cr4_pse : bool;           (* CR4.PSE *)
  cr3 : Z;
  page_directory : list Z;
  page_table : list Z;
  vidmem_page_table : list Z;
}.

Section Ops.
Context `{L : Layout}.

Definition set_pd (l : list Z) (s : paging) : paging :=
  {| cr0_pg := cr0_pg s; cr4_pse := cr4_pse s; cr3 := cr3 s; page_directory := l;
     page_table := page_table s; vidmem_page_table := vidmem_page_table s |}.
Definition set_pt (l : list Z) (s : paging) : paging :=
  {| cr0_pg := cr0_pg s; cr4_pse := cr4_pse s; cr3 := cr3 s;
     page_directory := page_directory s;
     page_table := l; vidmem_page_table := vidmem_page_table s |}.
Definition set_vpt (l : list Z) (s : paging) : paging :=
  {| cr0_pg := cr0_pg s; cr4_pse := cr4_pse s; cr3 := cr3 s;
     page_directory := page_directory s;
     page_table := page_table s; vidmem_page_table := l |}.

(** [page_directory[i]], [page_table[i]] and [vidmem_page_table[i]] changed by [f]. *)
Definition upd_pd (i : Z) (f : Z -> Z) (s : paging) : res paging :=
  e ← arr_get (page_directory s) i;
  l ← arr_set (page_directory s) i (f e); Ok (set_pd l s).
Definition upd_pt (i : Z) (f : Z -> Z) (s : paging) : res paging :=
  e ← arr_get (page_table s) i;
  l ← arr_set (page_table s) i (f e); Ok (set_pt l s).
Definition upd_vpt (i : Z) (f : Z -> Z) (s : paging) : res paging :=
  e ← arr_get (vidmem_page_table s) i;
  l ← arr_set (vidmem_page_table s) i (f e); Ok (set_vpt l s).

(** en_paging.S *)
Definition enable_paging (page_dir_ptr : Z) (s : paging) : paging :=
  {| cr0_pg := true; cr4_pse := true; cr3 := page_dir_ptr;
     page_directory := page_directory s;
     page_table := page_table s; vidmem_page_table := vidmem_page_table s |}.

Definition init_paging (s : paging) : res paging :=
  s ← for_range 0 DIR_SIZE (fun i s =>
    s ← upd_pd i (fun _ => set_read_write 1 0) s;
    upd_pt i (fun _ => set_read_write 1 (set_address (MEM_START + i) 0)) s) s;
  s ← upd_pd 0 (fun e =>
    set_address (Z.shiftr page_table_addr ALIGN_SIZE) (set_present 1 e)) s;
  s ← upd_pd 1 (fun e =>
    set_address (Z.shiftr KERNEL_MEM_START ALIGN_SIZE)
      (set_page_size 1 (set_present 1 e))) s;
  let vid_mem_offset := Z.shiftr VIDEO ALIGN_SIZE in
  s ← upd_pt vid_mem_offset (set_present 1) s;
  s ← upd_pt (vid_mem_offset + 1) (set_present 1) s;
  s ← upd_pt (vid_mem_offset + 2) (set_present 1) s;
  s ← upd_pt (vid_mem_offset + 3) (set_present 1) s;
  Ok (enable_paging page_directory_addr s).

Definition enable_program_page (process_num : Z) (s : paging) : res paging :=
  let pd_index := s32 (process_num + 2) in
  upd_pd USER_PROGRAM_PD_IDX (fun e =>
    set_address (Z.shiftr (s32 (pd_index * _4_MB)) ALIGN_SIZE)
      (set_user_supervisor 1 (set_page_size 1 (set_present 1 e)))) s.

Definition change_vidmem (process_num : Z) (s : paging) : res paging :=
  let vid_mem_offset := Z.shiftr VIDEO ALIGN_SIZE in
  let vid_buffer := s32 (vid_mem_offset + 1 + process_num) in
  s ← upd_pt vid_mem_offset (set_address vid_buffer) s;
  upd_vpt 0 (set_address vid_buffer) s.

Definition get_vidmem (s : paging) : res (Z * paging) :=
  s ← upd_vpt 0 (fun _ =>
    set_address (Z.shiftr VIDEO ALIGN_SIZE)
      (set_user_supervisor 1 (set_present 1 (set_read_write 1 0)))) s;
  s ← upd_pd (USER_PROGRAM_PD_IDX + 1) (fun e =>
    set_address (Z.shiftr vidmem_page_table_addr ALIGN_SIZE)
      (set_user_supervisor 1 (set_present 1 e))) s;
  Ok (_132_MB, s).

(** ** The page walk *)

(** The page table a directory entry points to, when it is one of ours. *)
Definition table_at (a : Z) (s : paging) : option (list Z) :=
  if a =? Z.shiftr page_table_addr 12 then Some (page_table s)
  else if a =? Z.shiftr vidmem_page_table_addr 12 then Some (vidmem_page_table s)
  else None.

(** An access is allowed: the entry is present and, in user mode, marked for users. *)
Definition allows (user : bool) (e : Z) : bool :=
  present e && (negb user || user_supervisor e).

Definition translate (user : bool) (s : paging) (va : Z) : option Z :=
  if negb (cr0_pg s) then Some va
  else if negb (cr3 s =? page_directory_addr) then None
  else
    pde ← page_directory s !! Z.to_nat (va / 2 ^ 22);
    if negb (allows user pde) then None
    else if page_size pde && cr4_pse s then
      Some (get_field pde 22 10 * 2 ^ 22 + va mod 2 ^ 22)
    else
      t ← table_at (address pde) s;
      pte ← t !! Z.to_nat ((va / 2 ^ 12) mod 2 ^ 10);
      if negb (allows user pte) then None
      else Some (address pte * 2 ^ 12 + va mod 2 ^ 12).

(** The entries on the way to [va] are all marked for writing. *)
Definition marked_writable (s : paging) (va : Z) : bool :=
  match page_directory s !! Z.to_nat (va / 2 ^ 22) with
  | None => false
  | Some pde =>
      read_write pde &&
      ((page_size pde && cr4_pse s) ||
       match t ← table_at (address pde) s; t !! Z.to_nat ((va / 2 ^ 12) mod 2 ^ 10) with
       | Some pte => read_write pte
       | None => false
       end)
  end.

(** Where a store goes.  The write marks bind user mode only: the kernel leaves CR0.WP
    clear. *)
Definition translate_store (user : bool) (s : paging) (va : Z) : option Z :=
  pa ← translate user s va;
  if user && cr0_pg s && negb (marked_writable s va) then None else Some pa.
End Ops.

(** ** What the setters do to each member *)

Ltac solve_field :=
  intros; unfold present, read_write, user_supervisor, page_size, address, set_present,
    set_read_write, set_user_supervisor, set_page_size, set_address;
  first [ rewrite get_set_field_same by lia; reflexivity
        | rewrite get_set_field_other by lia; reflexivity ].

Lemma present_set_present e : present (set_present 1 e) = true.
Proof. solve_field. Qed.
Lemma user_supervisor_set_present b e : user_supervisor (set_present b e) = user_supervisor e.
Proof. solve_field. Qed.
Lemma page_size_set_present b e : page_size (set_present b e) = page_size e.
Proof. solve_field. Qed.
Lemma address_set_present b e : address (set_present b e) = address e.
Proof. solve_field. Qed.
Lemma present_set_read_write b e : present (set_read_write b e) = present e.
Proof. solve_field. Qed.
Lemma user_supervisor_set_read_write b e : user_supervisor (set_read_write b e) = user_supervisor e.
Proof. solve_field. Qed.
Lemma page_size_set_read_write b e : page_size (set_read_write b e) = page_size e.
Proof. solve_field. Qed.
Lemma address_set_read_write b e : address (set_read_write b e) = address e.
Proof. solve_field. Qed.
Lemma present_set_user_supervisor b e : present (set_user_supervisor b e) = present e.
Proof. solve_field. Qed.
Lemma user_supervisor_set_user_supervisor e : user_supervisor (set_user_supervisor 1 e) = true.
Proof. solve_field. Qed.
Lemma page_size_set_user_supervisor b e : page_size (set_user_supervisor b e) = page_size e.
Proof. solve_field. Qed.
Lemma address_set_user_supervisor b e : address (set_user_supervisor b e) = address e.
Proof. solve_field. Qed.
Lemma present_set_page_size b e : present (set_page_size b e) = present e.
Proof. solve_field. Qed.
Lemma user_supervisor_set_page_size b e : user_supervisor (set_page_size b e) = user_supervisor e.
Proof. solve_field. Qed.
Lemma page_size_set_page_size e : page_size (set_page_size 1 e) = true.
Proof. solve_field. Qed.
Lemma address_set_page_size b e : address (set_page_size b e) = address e.
Proof. solve_field. Qed.
Lemma present_set_address b e : present (set_address b e) = present e.
Proof. solve_field. Qed.
Lemma user_supervisor_set_address b e : user_supervisor (set_address b e) = user_supervisor e.
Proof. solve_field. Qed.
Lemma page_size_set_address b e : page_size (set_address b e) = page_size e.
Proof. solve_field. Qed.
Lemma address_set_address a e : address (set_address a e) = a mod 2 ^ 20.
Proof. solve_field. Qed.
Lemma read_write_set_present b e : read_write (set_present b e) = read_write e.
Proof. solve_field. Qed.
Lemma read_write_set_read_write e : read_write (set_read_write 1 e) = true.
Proof. solve_field. Qed.
Lemma read_write_set_user_supervisor b e : read_write (set_user_supervisor b e) = read_write e.
Proof. solve_field. Qed.
Lemma read_write_set_page_size b e : read_write (set_page_size b e) = read_write e.
Proof. solve_field. Qed.
Lemma read_write_set_address a e : read_write (set_address a e) = read_write e.
Proof. solve_field. Qed.
Lemma frame_set_address a e : get_field (set_address a e) 22 10 = get_field a 10 10.
Proof. apply (get_set_field_sub e 12 20 a 10 10); lia. Qed.

Create Rewrite HintDb fields.
#[export] Hint Rewrite
  present_set_present user_supervisor_set_present page_size_set_present
  address_set_present present_set_read_write user_supervisor_set_read_write
  page_size_set_read_write address_set_read_write present_set_user_supervisor
  user_supervisor_set_user_supervisor page_size_set_user_supervisor address_set_user_supervisor
  present_set_page_size user_supervisor_set_page_size page_size_set_page_size
  address_set_page_size present_set_address user_supervisor_set_address
  page_size_set_address address_set_address
  read_write_set_present read_write_set_read_write read_write_set_user_supervisor
  read_write_set_page_size read_write_set_address frame_set_address : fields.

(** ** The memory map

    What the tables mean: [prog] is the process whose 4 MB frame is at 128 MB,
    [vid] the physical page behind the video address, [uvid] the page a program
    has been given at 132 MB by [sys_vidmap]. *)

Definition VIDEO_PAGE : Z := 0xB8.

Definition user_map (prog uvid : option Z) (va : Z) : option Z :=
  if (_128_MB <=? va) && (va <? _132_MB) then
    (fun p => (p + 2) * _4_MB + (va - _128_MB)) <$> prog
  else if (_132_MB <=? va) && (va <? _132_MB + 4096) then
    (fun f => f * 4096 + (va - _132_MB)) <$> uvid
  else None.

Definition memory_map (user : bool) (prog : option Z) (vid : Z) (uvid : option Z)
    (va : Z) : option Z :=
  if user then user_map prog uvid va
  else if (VIDEO <=? va) && (va <? VIDEO + 4096) then Some (vid * 4096 + (va - VIDEO))
  else if (VIDEO + 4096 <=? va) && (va <? VIDEO + 4 * 4096) then Some va
  else if (KERNEL_MEM_START <=? va) && (va <? 2 * _4_MB) then Some va
  else user_map prog uvid va.

Section Rep.
Context `{L : Layout}.

(** The directory entry at each index, for the map [prog], [uvid]. *)
Definition pde_ok (prog uvid : option Z) (i : nat) (e : Z) : Prop :=
  if bool_decide (i = 0%nat) then
    present e = true /\ user_supervisor e = false /\ page_size e = false /\
    address e = Z.shiftr page_table_addr 12
  else if bool_decide (i = 1%nat) then
    present e = true /\ user_supervisor e = false /\ page_size e = true /\
    get_field e 22 10 = 1
  else if bool_decide (i = 32%nat) then
    match prog with
    | Some p => present e = true /\ user_supervisor e = true /\ page_size e = true /\
                get_field e 22 10 = p + 2
    | None => present e = false
    end
  else if bool_decide (i = 33%nat) then
    page_size e = false /\
    match uvid with
    | Some _ => present e = true /\ user_supervisor e = true /\
                address e = Z.shiftr vidmem_page_table_addr 12
    | None => present e = false
    end
  else present e = false.

Definition pte_ok (vid : Z) (i : nat) (e : Z) : Prop :=
  if bool_decide (i = 0xB8%nat) then
    present e = true /\ user_supervisor e = false /\ address e = vid
  else if bool_decide (0xB9 <= i <= 0xBB)%nat then
    present e = true /\ user_supervisor e = false /\ address e = Z.of_nat i
  else present e = false.

Definition vpte_ok (uvid : option Z) (i : nat) (e : Z) : Prop :=
  if bool_decide (i = 0%nat) then
    match uvid with
    | Some f => present e = true /\ user_supervisor e = true /\ address e = f
    | None => True
    end
  else present e = false.

Record paging_rep (s : paging) (prog : option Z) (vid : Z) (uvid : option Z) : Prop := {
  rep_pg : cr0_pg s = true;
  rep_pse : cr4_pse s = true;
  rep_cr3 : cr3 s = page_directory_addr;
  rep_pd_len : length (page_directory s) = 1024%nat;
  rep_pt_len : length (page_table s) = 1024%nat;
  rep_vpt_len : length (vidmem_page_table s) = 1024%nat;
  rep_pd i e : page_directory s !! i = Some e -> pde_ok prog uvid i e;
  rep_pt i e : page_table s !! i = Some e -> pte_ok vid i e;
  rep_vpt i e : vidmem_page_table s !! i = Some e -> vpte_ok uvid i e;
}.

Lemma table_at_page_table s : table_at (Z.shiftr page_table_addr 12) s = Some (page_table s).
Proof. unfold table_at. by rewrite Z.eqb_refl. Qed.

Lemma table_at_vidmem s :
  table_at (Z.shiftr vidmem_page_table_addr 12) s = Some (vidmem_page_table s).
Proof.
  unfold table_at. rewrite Z.eqb_refl.
  destruct (Z.eqb_spec (Z.shiftr vidmem_page_table_addr 12) (Z.shiftr page_table_addr 12))
    as [E|]; [|done].
  exfalso. rewrite !Z.shiftr_div_pow2 in E by lia. change (2 ^ 12) with 4096 in E.
  pose proof page_table_aligned as [? H1]. pose proof vidmem_page_table_aligned as [? H2].
  apply tables_distinct. pose proof (Z.div_mod page_table_addr 4096 ltac:(lia)).
  pose proof (Z.div_mod vidmem_page_table_addr 4096 ltac:(lia)). lia.
Qed.

Lemma page_split va k : 0 <= k -> va = va / 2 ^ k * 2 ^ k + va mod 2 ^ k.
Proof.
  intros Hk. assert (0 < 2 ^ k) by (apply Z.pow_pos_nonneg; lia).
  pose proof (Z.div_mod va (2 ^ k)). lia.
Qed.

(** Which 4 MB region and which page an address is in. *)
Lemma region_index va i : 0 <= i -> va / 2 ^ 22 = i <-> i * _4_MB <= va < (i + 1) * _4_MB.
Proof.
  intros Hi. unfold _4_MB. change (2 ^ 22) with 0x400000.
  pose proof (Z.div_mod va 0x400000 ltac:(lia)).
  pose proof (Z.mod_pos_bound va 0x400000 ltac:(lia)). lia.
Qed.

Lemma page_index va : 0 <= va < _4_MB -> (va / 2 ^ 12) mod 2 ^ 10 = va / 4096.
Proof.
  intros H. unfold _4_MB in H. change (2 ^ 12) with 4096. change (2 ^ 10) with 1024.
  apply Z.mod_small. split; [apply Z.div_pos; lia|apply Z.div_lt_upper_bound; lia].
Qed.

Lemma page_index_region va i :
  0 <= i -> va / 2 ^ 22 = i -> (va / 2 ^ 12) mod 2 ^ 10 = (va - i * _4_MB) / 4096.
Proof.
  intros Hi H%region_index; [|done]. rewrite <- (page_index (va - i * _4_MB)) by (unfold _4_MB in *; lia).
  unfold _4_MB. change (2 ^ 12) with 4096. change (2 ^ 10) with 1024.
  replace (va - i * 0x400000) with (va + - i * 1024 * 4096) by lia.
  rewrite Z.div_add by lia. replace (va / 4096 + - i * 1024) with (va / 4096 + (- i) * 1024) by lia.
  by rewrite Z.mod_add by lia.
Qed.

Lemma user_map_outside prog uvid va i :
  0 <= i -> va / 2 ^ 22 = i -> i <> 32 -> i <> 33 -> user_map prog uvid va = None.
Proof.
  intros Hi H%region_index H32 H33; [|done]. unfold user_map, _128_MB, _132_MB, _4_MB in *.
  destruct (Z.leb_spec 0x8000000 va), (Z.ltb_spec va 0x8400000); simpl; try lia;
  destruct (Z.leb_spec 0x8400000 va), (Z.ltb_spec va (0x8400000 + 4096)); simpl; done || lia.
Qed.

Lemma user_map_Some prog uvid va pa :
  user_map prog uvid va = Some pa ->
  (exists p, prog = Some p /\ _128_MB <= va < _132_MB /\ pa = (p + 2) * _4_MB + (va - _128_MB)) \/
  (exists f, uvid = Some f /\ _132_MB <= va < _132_MB + 4096 /\ pa = f * 4096 + (va - _132_MB)).
Proof.
  unfold user_map. destruct (Z.leb_spec _128_MB va), (Z.ltb_spec va _132_MB); cbn [andb].
  { intros (p & -> & ->)%fmap_Some. left. by exists p. }
  all: destruct (Z.leb_spec _132_MB va), (Z.ltb_spec va (_132_MB + 4096)); cbn [andb]; try done.
  all: intros (f & -> & ->)%fmap_Some; right; by exists f.
Qed.

Section Walk.
Context (s : paging) (prog : option Z) (vid : Z) (uvid : option Z).
Hypothesis R : paging_rep s prog vid uvid.

Lemma translate_pde user va :
  0 <= va < 2 ^ 32 ->
  exists pde, pde_ok prog uvid (Z.to_nat (va / 2 ^ 22)) pde /\
    translate user s va =
      if negb (allows user pde) then None
      else if page_size pde then Some (get_field pde 22 10 * 2 ^ 22 + va mod 2 ^ 22)
      else
        t ← table_at (address pde) s;
        pte ← t !! Z.to_nat ((va / 2 ^ 12) mod 2 ^ 10);
        if negb (allows user pte) then None
        else Some (address pte * 2 ^ 12 + va mod 2 ^ 12).
Proof.
  intros Hva. destruct (lookup_lt_is_Some_2 (page_directory s) (Z.to_nat (va / 2 ^ 22)))
    as [pde E].
  { rewrite (rep_pd_len _ _ _ _ R).
    assert (0 <= va / 2 ^ 22 < 1024)
      by (split; [apply Z.div_pos; lia|apply Z.div_lt_upper_bound; lia]). lia. }
  exists pde. split; [by eapply rep_pd|]. unfold translate.
  rewrite (rep_pg _ _ _ _ R), (rep_cr3 _ _ _ _ R), Z.eqb_refl, E. simpl.
  by rewrite (rep_pse _ _ _ _ R), andb_true_r.
Qed.

(** The first 4 MB: only the video pages, and only for the kernel. *)
Lemma translate_low user va :
  0 <= va < _4_MB -> translate user s va = memory_map user prog vid uvid va.
Proof.
  intros Hva. assert (Hi : va / 2 ^ 22 = 0) by (apply region_index; lia).
  destruct (translate_pde user va) as (pde & Hpde & ->); [unfold _4_MB in Hva; lia|].
  rewrite Hi in Hpde. simpl in Hpde. destruct Hpde as (Hp & Hu & Hs & Ha).
  assert (Hum : user_map prog uvid va = None) by (by eapply user_map_outside).
  unfold memory_map, allows. rewrite Hp, Hu, Hs, Ha, Hum. destruct user; [done|]. simpl.
  rewrite table_at_page_table. simpl. rewrite page_index by done.
  destruct (lookup_lt_is_Some_2 (page_table s) (Z.to_nat (va / 4096))) as [pte E].
  { rewrite (rep_pt_len _ _ _ _ R). unfold _4_MB in Hva.
    assert (va / 4096 < 1024) by (apply Z.div_lt_upper_bound; lia). lia. }
  rewrite E. simpl. pose proof (rep_pt _ _ _ _ R _ _ E) as Hpte. unfold pte_ok in Hpte.
  change (2 ^ 12) with 4096. pose proof (Z.div_mod va 4096 ltac:(lia)) as Hdm.
  pose proof (Z.mod_pos_bound va 4096 ltac:(lia)) as Hmod.
  unfold VIDEO, KERNEL_MEM_START, _4_MB in *.
  destruct (Z.leb_spec 0x400000 va); [lia|]. simpl.
  case_bool_decide as Hb1; [|case_bool_decide as Hb2]; simpl in *.
  - destruct Hpte as (-> & _ & ->). simpl.
    destruct (Z.leb_spec 0xB8000 va), (Z.ltb_spec va (0xB8000 + 4096)); simpl; try lia.
    f_equal. lia.
  - destruct Hpte as (-> & _ & ->). simpl.
    destruct (Z.leb_spec 0xB8000 va), (Z.ltb_spec va (0xB8000 + 4096)); simpl; try lia.
    destruct (Z.leb_spec (0xB8000 + 4096) va), (Z.ltb_spec va (0xB8000 + 4 * 4096));
      simpl; try lia. f_equal. lia.
  - rewrite Hpte. simpl.
    destruct (Z.leb_spec 0xB8000 va), (Z.ltb_spec va (0xB8000 + 4096)); simpl; try lia;
    destruct (Z.leb_spec (0xB8000 + 4096) va), (Z.ltb_spec va (0xB8000 + 4 * 4096));
      simpl; lia || done.
Qed.

(** The region [sys_vidmap] hands out: one page. *)
Lemma translate_vidmap user va :
  va / 2 ^ 22 = 33 -> translate user s va = user_map prog uvid va.
Proof.
  intros Hi. assert (Hr := proj1 (region_index va 33 ltac:(lia)) Hi).
  destruct (translate_pde user va) as (pde & Hpde & ->); [unfold _4_MB in Hr; lia|].
  rewrite Hi in Hpde. simpl in Hpde. destruct Hpde as (Hs & Hpde).
  unfold user_map, allows, _128_MB, _132_MB, _4_MB in *. rewrite Hs.
  destruct (Z.ltb_spec va 0x8400000); [lia|]. rewrite andb_false_r.
  destruct (Z.leb_spec 0x8400000 va); [|lia]. simpl.
  destruct uvid as [f|] eqn:Ef.
  - destruct Hpde as (Hp & Hu & Ha). rewrite Hp, Hu, orb_true_r, Ha, table_at_vidmem. simpl.
    rewrite (page_index_region va 33) by lia. unfold _4_MB.
    set (d := va - 33 * 0x400000) in *.
    assert (Hd : 0 <= d < 0x400000) by lia.
    destruct (lookup_lt_is_Some_2 (vidmem_page_table s) (Z.to_nat (d / 4096))) as [pte E].
    { rewrite (rep_vpt_len _ _ _ _ R).
      assert (d / 4096 < 1024) by (apply Z.div_lt_upper_bound; lia). lia. }
    rewrite E. simpl. pose proof (rep_vpt _ _ _ _ R _ _ E) as Hv. unfold vpte_ok in Hv.
    pose proof (Z.div_mod d 4096 ltac:(lia)). pose proof (Z.mod_pos_bound d 4096 ltac:(lia)).
    assert (Hm : va mod 2 ^ 12 = d mod 4096).
    { change (2 ^ 12) with 4096. replace va with (d + 33 * 1024 * 4096) by lia.
      by rewrite Z.mod_add by lia. }
    rewrite Hm. case_bool_decide as Hb1.
    + destruct Hv as (-> & -> & ->). simpl. rewrite orb_true_r. simpl.
      destruct (Z.ltb_spec va (0x8400000 + 4096)); [|lia]. simpl. f_equal. lia.
    + rewrite Hv. simpl. destruct (Z.ltb_spec va (0x8400000 + 4096)); [lia|done].
  - rewrite Hpde. simpl. by destruct (va <? _).
Qed.

(** The walk computes the memory map. *)
Lemma translate_map user va :
  0 <= va < 2 ^ 32 -> translate user s va = memory_map user prog vid uvid va.
Proof.
  intros Hva. destruct (Z_lt_le_dec va _4_MB) as [Hlow|Hhigh]; [apply translate_low; lia|].
  assert (Hmm : memory_map user prog vid uvid va =
    if negb user && (va <? 2 * _4_MB) then Some va else user_map prog uvid va).
  { unfold memory_map, VIDEO, KERNEL_MEM_START, _4_MB in *. destruct user; [done|]. simpl.
    destruct (Z.ltb_spec va (0xB8000 + 4096)); [lia|]. rewrite andb_false_r.
    destruct (Z.ltb_spec va (0xB8000 + 4 * 4096)); [lia|]. rewrite andb_false_r.
    by destruct (Z.leb_spec 0x400000 va); [|lia]. }
  rewrite Hmm.
  assert (Hi0 : 0 <= va / 2 ^ 22) by (apply Z.div_pos; lia).
  pose proof (proj1 (region_index va _ Hi0) eq_refl) as Hr.
  destruct (Z.eq_dec (va / 2 ^ 22) 33) as [Hi|H33].
  { rewrite translate_vidmap by done. unfold _4_MB in *.
    destruct (Z.ltb_spec va (2 * 0x400000)); [lia|]. by rewrite andb_false_r. }
  destruct (translate_pde user va) as (pde & Hpde & ->); [done|].
  unfold pde_ok, allows in *.
  rewrite bool_decide_eq_false_2 in Hpde by (unfold _4_MB in *; lia).
  case_bool_decide as Hb1; [|case_bool_decide as Hb32].
  - destruct Hpde as (-> & -> & -> & ->). rewrite orb_false_r.
    assert (va / 2 ^ 22 = 1) as Hi by lia. rewrite Hi in Hr.
    assert (user_map prog uvid va = None) as ->
      by (apply (user_map_outside prog uvid va 1); lia).
    unfold _4_MB in *. destruct (Z.ltb_spec va (2 * 0x400000)); [|lia].
    rewrite andb_true_r. destruct user; [done|]. simpl. f_equal.
    pose proof (page_split va 22 ltac:(lia)). change (2 ^ 22) with 0x400000 in *. lia.
  - assert (va / 2 ^ 22 = 32) as Hi by lia. rewrite Hi in Hr.
    unfold user_map, _128_MB, _132_MB, _4_MB in *.
    destruct (Z.ltb_spec va (2 * 0x400000)); [lia|]. rewrite andb_false_r.
    destruct (Z.leb_spec 0x8000000 va), (Z.ltb_spec va 0x8400000); try lia. simpl.
    destruct prog as [p|].
    + destruct Hpde as (-> & -> & -> & ->). rewrite orb_true_r. simpl. f_equal.
      pose proof (page_split va 22 ltac:(lia)). change (2 ^ 22) with 0x400000 in *. lia.
    + by rewrite Hpde.
  - rewrite bool_decide_eq_false_2 in Hpde by lia. rewrite Hpde. simpl.
    assert (user_map prog uvid va = None) as -> by (apply (user_map_outside prog uvid va (va / 2 ^ 22)); lia).
    unfold _4_MB in *. destruct (Z.ltb_spec va (2 * 0x400000)); [lia|]. by rewrite andb_false_r.
Qed.
End Walk.
End Rep.

(** ** The operations on the memory map *)

Section MapOps.
Context `{L : Layout}.
Implicit Types (s : paging).

Lemma upd_pd_ok i f s :
  0 <= i < Z.of_nat (length (page_directory s)) ->
  exists e, page_directory s !! Z.to_nat i = Some e /\
    upd_pd i f s = Ok (set_pd (<[Z.to_nat i := f e]> (page_directory s)) s).
Proof.
  intros Hi. destruct (arr_get_total _ _ Hi) as [e E]. exists e.
  split; [by apply arr_get_lookup in E as [_ ?]|].
  unfold upd_pd. rewrite E. simpl. by rewrite arr_set_ok.
Qed.

Lemma upd_pt_ok i f s :
  0 <= i < Z.of_nat (length (page_table s)) ->
  exists e, page_table s !! Z.to_nat i = Some e /\
    upd_pt i f s = Ok (set_pt (<[Z.to_nat i := f e]> (page_table s)) s).
Proof.
  intros Hi. destruct (arr_get_total _ _ Hi) as [e E]. exists e.
  split; [by apply arr_get_lookup in E as [_ ?]|].
  unfold upd_pt. rewrite E. simpl. by rewrite arr_set_ok.
Qed.

Lemma upd_vpt_ok i f s :
  0 <= i < Z.of_nat (length (vidmem_page_table s)) ->
  exists e, vidmem_page_table s !! Z.to_nat i = Some e /\
    upd_vpt i f s = Ok (set_vpt (<[Z.to_nat i := f e]> (vidmem_page_table s)) s).
Proof.
  intros Hi. destruct (arr_get_total _ _ Hi) as [e E]. exists e.
  split; [by apply arr_get_lookup in E as [_ ?]|].
  unfold upd_vpt. rewrite E. simpl. by rewrite arr_set_ok.
Qed.

Lemma insert_lookup_cases {A} (l : list A) (k i : nat) x e :
  <[k := x]> l !! i = Some e -> (i = k /\ e = x) \/ (i <> k /\ l !! i = Some e).
Proof. rewrite list_lookup_insert_Some. intros [(-> & -> & _)|[Hne Hl]]; [by left|by right]. Qed.

(** [enable_program_page] puts the frame of [p] at 128 MB and nothing else. *)
Lemma enable_program_page_rep s prog vid uvid p :
  paging_rep s prog vid uvid -> 0 <= p < 500 ->
  exists s', enable_program_page p s = Ok s' /\ paging_rep s' (Some p) vid uvid.
Proof.
  intros [? ? ? Hpd Hpt Hvp Rd Rt Rv] Hp. unfold enable_program_page, USER_PROGRAM_PD_IDX.
  destruct (upd_pd_ok 32 (fun e =>
    set_address (Z.shiftr (s32 (s32 (p + 2) * _4_MB)) ALIGN_SIZE)
      (set_user_supervisor 1 (set_page_size 1 (set_present 1 e)))) s) as (e & Ee & ->);
    [lia|].
  eexists. split; [done|]. split; simpl; rewrite ?length_insert; auto.
  intros i e' [[-> ->]|[Hne Hl]]%insert_lookup_cases.
  - unfold pde_ok. change (Z.to_nat 32) with 32%nat. simpl. autorewrite with fields.
    repeat split; auto. unfold _4_MB, ALIGN_SIZE. rewrite !s32_small by (rewrite ?s32_small; lia).
    rewrite get_field_div, Z.shiftr_div_pow2 by lia.
    change 0x400000 with (2 ^ 10 * 2 ^ 12). rewrite Z.mul_assoc, Z.div_mul by lia.
    rewrite Z.div_mul by lia. apply Z.mod_small. lia.
  - pose proof (Rd i e' Hl) as H'. unfold pde_ok in *. change (Z.to_nat 32) with 32%nat in Hne.
    by rewrite (bool_decide_eq_false_2 (i = 32%nat)) in * by done.
Qed.

(** [change_vidmem] redirects the video address to page [0xB9 + q]. *)
Lemma change_vidmem_rep s prog vid uvid q :
  paging_rep s prog vid uvid -> -1 <= q < 1000 ->
  exists s', change_vidmem q s = Ok s' /\
    paging_rep s' prog (VIDEO_PAGE + 1 + q) ((fun _ => VIDEO_PAGE + 1 + q) <$> uvid).
Proof.
  intros [? ? ? Hpd Hpt Hvp Rd Rt Rv] Hq. unfold change_vidmem.
  change (Z.shiftr VIDEO ALIGN_SIZE) with VIDEO_PAGE. unfold VIDEO_PAGE in *.
  rewrite s32_small by lia. set (vb := 0xB8 + 1 + q) in *.
  destruct (upd_pt_ok 0xB8 (set_address vb) s) as (e & Ee & ->); [lia|]. simpl.
  match goal with |- context [upd_vpt 0 ?f ?s1] =>
    destruct (upd_vpt_ok 0 f s1) as (e2 & Ee2 & ->); [simpl; lia|] end.
  simpl in Ee2. eexists. split; [done|].
  assert (Hvb : vb mod 2 ^ 20 = vb) by (apply Z.mod_small; unfold vb; lia).
  split; simpl; rewrite ?length_insert; auto.
  - intros i e' Hl. specialize (Rd i e' Hl). unfold pde_ok in *. by destruct uvid.
  - intros i e' [[-> ->]|[Hne Hl]]%insert_lookup_cases.
    + specialize (Rt _ _ Ee). unfold pte_ok in *. simpl in *. autorewrite with fields.
      rewrite Hvb. by destruct Rt as (-> & -> & _).
    + specialize (Rt i e' Hl). unfold pte_ok in *.
      by rewrite (bool_decide_eq_false_2 (i = 0xB8%nat)) in * by (intros ->; done).
  - intros i e' [[-> ->]|[Hne Hl]]%insert_lookup_cases.
    + specialize (Rv _ _ Ee2). unfold vpte_ok in *. simpl in *.
      destruct uvid; [|done]. simpl. autorewrite with fields.
      rewrite Hvb. by destruct Rv as (-> & -> & _).
    + specialize (Rv i e' Hl). unfold vpte_ok in *.
      by rewrite (bool_decide_eq_false_2 (i = 0%nat)) in * by (intros ->; done).
Qed.

(** [get_vidmem] gives programs the screen page at 132 MB. *)
Lemma get_vidmem_rep s prog vid uvid :
  paging_rep s prog vid uvid ->
  exists s', get_vidmem s = Ok (_132_MB, s') /\ paging_rep s' prog vid (Some VIDEO_PAGE).
Proof.
  intros [? ? ? Hpd Hpt Hvp Rd Rt Rv]. unfold get_vidmem, USER_PROGRAM_PD_IDX.
  match goal with |- context [upd_vpt 0 ?f ?s1] =>
    destruct (upd_vpt_ok 0 f s1) as (e & Ee & ->); [lia|] end. cbn [mbind res_bind].
  match goal with |- context [upd_pd ?i ?f ?s1] =>
    destruct (upd_pd_ok i f s1) as (e2 & Ee2 & ->); [simpl; lia|] end. cbn [mbind res_bind].
  simpl in Ee2. eexists. split; [done|]. split; simpl; rewrite ?length_insert; auto.
  - intros i e' [[-> ->]|[Hne Hl]]%insert_lookup_cases.
    + specialize (Rd _ _ Ee2). unfold pde_ok in *. change (Z.to_nat (32 + 1)) with 33%nat in *.
      change (Pos.to_nat 33) with 33%nat in *. simpl in *.
      autorewrite with fields. destruct Rd as [-> _]. repeat split.
      unfold ALIGN_SIZE. rewrite Z.shiftr_div_pow2 by lia. apply Z.mod_small.
      pose proof vidmem_page_table_aligned as [? _].
      split; [apply Z.div_pos; lia|apply Z.div_lt_upper_bound; lia].
    + specialize (Rd i e' Hl). unfold pde_ok in *. change (Z.to_nat (32 + 1)) with 33%nat in Hne.
      change (Pos.to_nat 33) with 33%nat in Hne.
      by rewrite (bool_decide_eq_false_2 (i = 33%nat)) in * by done.
  - intros i e' [[-> ->]|[Hne Hl]]%insert_lookup_cases.
    + unfold vpte_ok. simpl. autorewrite with fields. done.
    + specialize (Rv i e' Hl). unfold vpte_ok in *.
      by rewrite (bool_decide_eq_false_2 (i = 0%nat)) in * by (intros ->; done).
Qed.

(** The clearing loop of [init_paging], up to entry [i]. *)
Definition cleared (s0 : paging) (i : Z) (s : paging) : Prop :=
  length (page_directory s) = 1024%nat /\ length (page_table s) = 1024%nat /\
  vidmem_page_table s = vidmem_page_table s0 /\
  (forall (j : nat) e, Z.of_nat j < i -> page_directory s !! j = Some e ->
     e = set_read_write 1 0) /\
  (forall (j : nat) e, Z.of_nat j < i -> page_table s !! j = Some e ->
     e = set_read_write 1 (set_address (MEM_START + Z.of_nat j) 0)).

Lemma init_paging_clear s :
  length (page_directory s) = 1024%nat -> length (page_table s) = 1024%nat ->
  exists s', for_range 0 DIR_SIZE (fun i s =>
    s ← upd_pd i (fun _ => set_read_write 1 0) s;
    upd_pt i (fun _ => set_read_write 1 (set_address (MEM_START + i) 0)) s) s = Ok s' /\
    cleared s 1024 s'.
Proof.
  intros H1 H2. apply (for_range_inv (cleared s)); [unfold DIR_SIZE; lia| |].
  { repeat split; auto; intros; lia. }
  intros i s1 Hi (L1 & L2 & Hv & Hd & Ht). unfold DIR_SIZE in Hi.
  destruct (upd_pd_ok i (fun _ => set_read_write 1 0) s1) as (e & Ee & ->); [lia|]. simpl.
  match goal with |- context [upd_pt i ?f ?s2] =>
    destruct (upd_pt_ok i f s2) as (e2 & Ee2 & ->); [simpl; lia|] end.
  eexists. split; [done|]. unfold cleared. simpl. rewrite !length_insert.
  repeat split; auto; intros j e' Hj [[Hji ->]|[Hne Hl]]%insert_lookup_cases; auto.
  - eapply Hd; [|done]. lia.
  - do 3 f_equal. lia.
  - eapply Ht; [|done]. lia.
Qed.

Lemma set_read_write_entry :
  present (set_read_write 1 0) = false /\ user_supervisor (set_read_write 1 0) = false /\
  page_size (set_read_write 1 0) = false.
Proof. done. Qed.

(** After [init_paging] the kernel sees the four video pages and its own 4 MB;
    programs see nothing. *)
Lemma init_paging_rep s :
  length (page_directory s) = 1024%nat -> length (page_table s) = 1024%nat ->
  vidmem_page_table s = replicate 1024 0 ->
  exists s', init_paging s = Ok s' /\ paging_rep s' None VIDEO_PAGE None.
Proof.
  intros H1 H2 H3. unfold init_paging. cbv zeta.
  change (Z.shiftr VIDEO ALIGN_SIZE) with 0xB8.
  destruct (init_paging_clear s H1 H2) as (s1 & -> & L1 & L2 & Hv & Hd & Ht).
  cbn [mbind res_bind].
  repeat match goal with
  | |- context [upd_pd ?i ?f ?s1] => let e := fresh "e" in let E := fresh "E" in
      destruct (upd_pd_ok i f s1) as (e & E & ->); [simpl; rewrite ?length_insert; lia|];
      simpl in E; cbn [mbind res_bind]
  | |- context [upd_pt ?i ?f ?s1] => let e := fresh "e" in let E := fresh "E" in
      destruct (upd_pt_ok i f s1) as (e & E & ->); [simpl; rewrite ?length_insert; lia|];
      simpl in E; cbn [mbind res_bind]
  end.
  eexists. split; [done|].
  split; simpl; rewrite ?length_insert; auto.
  - rewrite Hv, H3. apply length_replicate.
  - intros i e' [[-> ->]|[N1 [[-> ->]|[N0 Hl]]%insert_lookup_cases]]%insert_lookup_cases.
    + apply insert_lookup_cases in E0 as [[? _]|[_ E0]]; [done|].
      apply Hd in E0 as ->; [|lia]. unfold pde_ok. simpl. by autorewrite with fields.
    + apply Hd in E as ->; [|lia]. unfold pde_ok. simpl. autorewrite with fields.
      repeat split. unfold ALIGN_SIZE. rewrite Z.shiftr_div_pow2 by lia. apply Z.mod_small.
      pose proof page_table_aligned as [? _].
      split; [apply Z.div_pos; lia|apply Z.div_lt_upper_bound; lia].
    + assert (Hlt := lookup_lt_Some _ _ _ Hl). apply Hd in Hl as ->; [|lia].
      unfold pde_ok. change (Pos.to_nat 1) with 1%nat in N1.
      rewrite !(bool_decide_eq_false_2 (i = 0%nat)), !(bool_decide_eq_false_2 (i = 1%nat)) by done.
      by repeat case_bool_decide.
  - intros i e' Hl. assert (Hlt := lookup_lt_Some _ _ _ Hl). rewrite !length_insert in Hlt.
    assert (Hold : forall (j : nat) e, page_table s1 !! j = Some e ->
      present e = false /\ user_supervisor e = false /\ address e = Z.of_nat j).
    { intros j ej Hj. assert (Hjl := lookup_lt_Some _ _ _ Hj). apply Ht in Hj as ->; [|lia].
      autorewrite with fields. repeat split. unfold MEM_START. apply Z.mod_small. lia. }
    repeat match goal with
    | H : <[_ := _]> _ !! _ = Some _ |- _ =>
        apply insert_lookup_cases in H as [[H ->]|[? H]]; try (simpl in H; lia)
    end; subst; unfold pte_ok;
    repeat match goal with
    | H : page_table s1 !! _ = Some _ |- _ => apply Hold in H as (? & ? & ?)
    end; repeat case_bool_decide; autorewrite with fields; auto; lia.
  - intros i e'. rewrite Hv, H3, lookup_replicate. intros [-> Hi].
    unfold vpte_ok. by case_bool_decide.
Qed.
End MapOps.

(** ** Runs of the paging operations *)

(** The operations the rest of the kernel calls. *)
Inductive paging_op : Type :=
| OpProgram (process_num : Z)   (* enable_program_page *)
| OpVideo (process_num : Z)     (* change_vidmem *)
| OpVidmap.                     (* get_vidmem *)

(** The process numbers and terminal numbers (-1 for the display) in use. *)
Definition op_ok (o : paging_op) : Prop :=
  match o with
  | OpProgram p => 0 <= p < 6
  | OpVideo q => -1 <= q < 3
  | OpVidmap => True
  end.

Definition run_op `{L : Layout} (o : paging_op) (s : paging) : res paging :=
  match o with
  | OpProgram p => enable_program_page p s
  | OpVideo q => change_vidmem q s
  | OpVidmap => r ← get_vidmem s; Ok r.2
  end.

Fixpoint run_ops `{L : Layout} (os : list paging_op) (s : paging) : res paging :=
  match os with
  | [] => Ok s
  | o :: os => s ← run_op o s; run_ops os s
  end.

(** The abstract map: the program's frame, the page behind the video address and
    the page given to the program. *)
Definition map_state : Type := option Z * Z * option Z.

Definition map_op (o : paging_op) (m : map_state) : map_state :=
  let '(prog, vid, uvid) := m in
  match o with
  | OpProgram p => (Some p, vid, uvid)
  | OpVideo q => (prog, VIDEO_PAGE + 1 + q, (fun _ => VIDEO_PAGE + 1 + q) <$> uvid)
  | OpVidmap => (prog, vid, Some VIDEO_PAGE)
  end.

Definition map_init : map_state := (None, VIDEO_PAGE, None).

(** The tables before [init_paging]: zero-initialised globals, paging off. *)
Definition bss_paging : paging :=
  {| cr0_pg := false; cr4_pse := false; cr3 := 0;
     page_directory := replicate 1024 0; page_table := replicate 1024 0;
     vidmem_page_table := replicate 1024 0 |}.

Section Runs.
Context `{L : Layout}.

Lemma run_op_rep o s prog vid uvid :
  op_ok o -> paging_rep s prog vid uvid ->
  exists s', run_op o s = Ok s' /\
    let '(prog', vid', uvid') := map_op o (prog, vid, uvid) in paging_rep s' prog' vid' uvid'.
Proof.
  intros Ho H. destruct o; simpl in *.
  - eapply enable_program_page_rep; [done|lia].
  - eapply change_vidmem_rep; [done|lia].
  - destruct (get_vidmem_rep _ _ _ _ H) as (s' & -> & H'). by exists s'.
Qed.

Lemma run_ops_rep os s m :
  Forall op_ok os -> (let '(prog, vid, uvid) := m in paging_rep s prog vid uvid) ->
  exists s', run_ops os s = Ok s' /\
    let '(prog, vid, uvid) := foldl (fun m o => map_op o m) m os in
    paging_rep s' prog vid uvid.
Proof.
  intros Hos. revert s m; induction Hos as [|o os Ho Hos IH]; intros s [[prog vid] uvid] H.
  - by exists s.
  - destruct (run_op_rep o s prog vid uvid Ho H) as (s1 & E & H1). simpl. rewrite E.
    cbn [mbind res_bind]. by apply IH.
Qed.

Lemma init_bss : exists s, init_paging bss_paging = Ok s /\ paging_rep s None VIDEO_PAGE None.
Proof. apply init_paging_rep; done. Qed.

(** (C1) [init_paging] on the zero-initialised tables, followed by any
    sequence of [enable_program_page], [change_vidmem] and [get_vidmem],
    succeeds, and in the tables it leaves, the processor's page walk computes,
    for user and supervisor accesses to every address, the three-component
    abstract map. *)
Theorem paging_refines_map os :
  Forall op_ok os ->
  exists s, (s0 ← init_paging bss_paging; run_ops os s0) = Ok s /\
    forall user va, 0 <= va < 2 ^ 32 ->
      let '(prog, vid, uvid) := foldl (fun m o => map_op o m) map_init os in
      translate user s va = memory_map user prog vid uvid va.
Proof.
  intros Hos. destruct init_bss as (s0 & -> & H0). cbn [mbind res_bind].
  destruct (run_ops_rep os s0 map_init Hos H0) as (s & E & H).
  exists s. split; [done|]. intros user va Hva.
  destruct (foldl _ _ os) as [[prog vid] uvid]. by apply translate_map.
Qed.

(** *** Write marks *)

(** The program's entries are marked for writing: the whole directory, and the entry of
    the screen once it is there. *)
Record rw_ok (s : paging) : Prop := {
  rw_pd i e : page_directory s !! i = Some e -> read_write e = true;
  rw_vpt e : vidmem_page_table s !! 0%nat = Some e -> present e = true -> read_write e = true;
}.

Lemma rw_init s0 s : vidmem_page_table s0 = replicate 1024 0 -> init_paging s0 = Ok s ->
  length (page_directory s0) = 1024%nat -> length (page_table s0) = 1024%nat -> rw_ok s.
Proof.
  intros Hv E L1 L2. unfold init_paging in E. cbv zeta in E. change (Z.shiftr VIDEO ALIGN_SIZE) with 0xB8 in E.
  destruct (init_paging_clear s0 L1 L2) as (s1 & E1 & D1 & D2 & Hv1 & Hd & _). rewrite E1 in E.
  cbn [mbind res_bind] in E.
  repeat match type of E with
  | context [upd_pd ?i ?f ?s2] => let e := fresh "e" in let Q := fresh "Q" in
      destruct (upd_pd_ok i f s2) as (e & Q & R); [simpl; rewrite ?length_insert; lia|];
      rewrite R in E; clear R; simpl in Q; cbn [mbind res_bind] in E
  | context [upd_pt ?i ?f ?s2] => let e := fresh "e" in let Q := fresh "Q" in
      destruct (upd_pt_ok i f s2) as (e & Q & R); [simpl; rewrite ?length_insert; lia|];
      rewrite R in E; clear R Q; cbn [mbind res_bind] in E
  end.
  injection E as <-. assert (forall j e, page_directory s1 !! j = Some e -> read_write e = true) as H1.
  { intros j x Hj. assert (Hl := lookup_lt_Some _ _ _ Hj). apply Hd in Hj as ->; [done|lia]. }
  split; simpl.
  - intros i x [[-> ->]|[_ [[-> ->]|[_ Hl]]%insert_lookup_cases]]%insert_lookup_cases; eauto.
    + apply insert_lookup_cases in Q0 as [[? _]|[_ Q0]]; [done|]. autorewrite with fields. eauto.
    + autorewrite with fields. eauto.
  - intros x. rewrite Hv1, Hv, lookup_replicate. by intros [-> _].
Qed.

Lemma rw_op o s s' : rw_ok s -> run_op o s = Ok s' -> length (page_directory s) = 1024%nat ->
  length (page_table s) = 1024%nat -> length (vidmem_page_table s) = 1024%nat -> rw_ok s'.
Proof.
  intros [Hd Hv] E L1 L2 L3. destruct o as [p|q|]; simpl in E.
  - unfold enable_program_page, USER_PROGRAM_PD_IDX in E.
    match type of E with upd_pd ?i ?f _ = _ => destruct (upd_pd_ok i f s) as (e & Q & R); [lia|] end.
    rewrite R in E. injection E as <-. split; simpl; [|done].
    intros i x [[-> ->]|[_ Hl]]%insert_lookup_cases; [autorewrite with fields|]; eauto.
  - unfold change_vidmem in E. cbv zeta in E. change (Z.shiftr VIDEO ALIGN_SIZE) with 0xB8 in E.
    match type of E with context [upd_pt ?i ?f _] => destruct (upd_pt_ok i f s) as (e & _ & R); [lia|] end.
    rewrite R in E. cbn [mbind res_bind] in E. clear R.
    match type of E with upd_vpt ?i ?f ?s1 = _ => destruct (upd_vpt_ok i f s1) as (e2 & Q & R); [simpl; lia|] end.
    rewrite R in E. injection E as <-. split; simpl; [done|].
    intros x [[_ ->]|[? Hl]]%insert_lookup_cases; [|done]. autorewrite with fields. eauto.
  - unfold get_vidmem, USER_PROGRAM_PD_IDX in E.
    match type of E with context [upd_vpt ?i ?f _] => destruct (upd_vpt_ok i f s) as (e & _ & R); [lia|] end.
    rewrite R in E. cbn [mbind res_bind] in E. clear R.
    match type of E with context [upd_pd ?i ?f ?s1] => destruct (upd_pd_ok i f s1) as (e2 & Q & R); [simpl; lia|] end.
    rewrite R in E. injection E as <-. split; simpl.
    + intros i x [[-> ->]|[_ Hl]]%insert_lookup_cases; [autorewrite with fields|]; eauto.
    + intros x [[_ ->]|[? Hl]]%insert_lookup_cases; [|done]. by autorewrite with fields.
Qed.

(** Where user mode may read it may write. *)
Lemma user_writes s prog vid uvid va :
  paging_rep s prog vid uvid -> rw_ok s -> 0 <= va < 2 ^ 32 -> translate_store true s va = translate true s va.
Proof.
  intros R [Hd Hv] Hva. unfold translate_store. destruct (translate true s va) as [pa|] eqn:Et; [|done]. simpl.
  rewrite (rep_pg _ _ _ _ R). cbn [andb]. enough (marked_writable s va = true) as -> by done.
  assert (user_map prog uvid va = Some pa) as Hm
    by (change (memory_map true prog vid uvid va = Some pa); by rewrite <- (translate_map _ _ _ _ R)).
  destruct (lookup_lt_is_Some_2 (page_directory s) (Z.to_nat (va / 2 ^ 22))) as [pde E].
  { rewrite (rep_pd_len _ _ _ _ R).
    assert (va / 2 ^ 22 < 1024) by (apply Z.div_lt_upper_bound; lia). pose proof (Z.div_pos va (2 ^ 22)). lia. }
  unfold marked_writable. rewrite E, (Hd _ _ E), (rep_pse _ _ _ _ R). cbn [andb].
  pose proof (rep_pd _ _ _ _ R _ _ E) as Hp. apply user_map_Some in Hm as [(p & -> & Hr & _)|(f & -> & Hr & _)].
  - assert (va / 2 ^ 22 = 32) as Hi by (apply region_index; unfold _128_MB, _132_MB, _4_MB in *; lia).
    rewrite Hi in Hp. simpl in Hp. by destruct Hp as (_ & _ & -> & _).
  - assert (va / 2 ^ 22 = 33) as Hi by (apply region_index; unfold _132_MB, _4_MB in *; lia).
    rewrite Hi in Hp. simpl in Hp. destruct Hp as (-> & Hpr & Hu & ->). rewrite table_at_vidmem. simpl.
    rewrite (page_index_region va 33) by (done || lia). unfold _132_MB, _4_MB in *.
    replace (Z.to_nat ((va - 33 * 0x400000) / 4096)) with 0%nat
      by (symmetry; apply Z2Nat.inj_iff with (m := 0); Z.to_euclidean_division_equations; lia).
    destruct (lookup_lt_is_Some_2 (vidmem_page_table s) 0) as [pte Ep]; [rewrite (rep_vpt_len _ _ _ _ R); lia|].
    rewrite Ep. apply (Hv _ Ep). by destruct (rep_vpt _ _ _ _ R _ _ Ep) as [-> _].
Qed.

Lemma run_ops_rw os s prog vid uvid s' :
  Forall op_ok os -> paging_rep s prog vid uvid -> rw_ok s -> run_ops os s = Ok s' -> rw_ok s'.
Proof.
  intros Hos. revert s prog vid uvid. induction Hos as [|o os Ho Hos IH]; intros s prog vid uvid R W E.
  - by injection E as <-.
  - destruct (run_op_rep o s prog vid uvid Ho R) as (s1 & E1 & R1). simpl in E. rewrite E1 in E.
    cbn [mbind res_bind] in E. destruct (map_op o (prog, vid, uvid)) as [[prog' vid'] uvid'].
    apply (IH s1 prog' vid' uvid' R1); [|done]. by apply (rw_op o s); [done|done|apply R..].
Qed.

(** *** Isolation *)

(** The process the last [enable_program_page] of a run named. *)
Definition last_program (os : list paging_op) : option Z :=
  foldl (fun r o => match o with OpProgram p => Some p | _ => r end) None os.

(** The map the operations build, component by component. *)
Lemma map_ops_program os m :
  (foldl (fun m o => map_op o m) m os).1.1 =
  foldl (fun r o => match o with OpProgram p => Some p | _ => r end) m.1.1 os.
Proof.
  revert m. induction os as [|o os IH]; intros [[prog vid] uvid]; [done|]. cbn [foldl]. rewrite IH. by destruct o.
Qed.

Lemma map_ops_screen os m f :
  Forall op_ok os -> (forall g, m.2 = Some g -> VIDEO_PAGE <= g < VIDEO_PAGE + 4) ->
  (foldl (fun m o => map_op o m) m os).2 = Some f ->
  VIDEO_PAGE <= f < VIDEO_PAGE + 4 /\ (OpVidmap ∈ os \/ is_Some m.2).
Proof.
  intros Hos. revert m. induction Hos as [|o os Ho Hos IH]; intros [[prog vid] uvid] Hm; cbn [foldl].
  { simpl. intros ->. split; [by apply Hm|right; by exists f]. }
  intros E. destruct (IH (map_op o (prog, vid, uvid))) as [Hf Ho']; [|done|].
  - intros g. destruct o; simpl in *; [by apply Hm| |intros [= <-]; unfold VIDEO_PAGE; lia].
    destruct uvid; simpl; [intros [= <-]; lia|done].
  - split; [done|]. destruct Ho' as [?|[g Hg]]; [left; by right|]. destruct o; simpl in *.
    + right. by exists g.
    + right. destruct uvid; [by eexists|done].
    + left. by left.
Qed.

Lemma last_program_ok os p : Forall op_ok os -> last_program os = Some p -> 0 <= p < 6.
Proof.
  unfold last_program. assert (forall q : Z, None = Some q -> 0 <= q < 6) as Hn by done.
  revert Hn. generalize (@None Z). intros r Hr Hos. revert r Hr. induction Hos as [|o os Ho _ IH]; intros r Hr; simpl; [apply Hr|].
  apply IH. destruct o; simpl in *; [by intros q [= <-]|done|done].
Qed.

(** (C2) Programs are isolated.  After [init_paging] and any sequence of page operations, whatever
    address user mode loads from or stores to, the physical address is at the same offset of the 4 MB
    frame of the process the last [enable_program_page] named, or in one of the four video pages,
    through the page at 132 MB and only after a [get_vidmem]; hence never in the kernel's 4 MB and
    never in the frame of another process.  The whole of the program's own page can be written. *)
Theorem user_isolation os :
  Forall op_ok os ->
  exists s, (s0 ← init_paging bss_paging; run_ops os s0) = Ok s /\
    (forall va pa, 0 <= va < 2 ^ 32 ->
      translate true s va = Some pa \/ translate_store true s va = Some pa ->
      ((exists p, last_program os = Some p /\ _128_MB <= va < _132_MB /\ pa = (p + 2) * _4_MB + (va - _128_MB)) \/
       (OpVidmap ∈ os /\ _132_MB <= va < _132_MB + 4096 /\ VIDEO_PAGE * 4096 <= pa < (VIDEO_PAGE + 4) * 4096)) /\
      ~ (KERNEL_MEM_START <= pa < KERNEL_MEM_START + _4_MB) /\
      forall q, 0 <= q -> last_program os <> Some q -> ~ ((q + 2) * _4_MB <= pa < (q + 3) * _4_MB)) /\
    forall p va, last_program os = Some p -> _128_MB <= va < _132_MB ->
      translate_store true s va = Some ((p + 2) * _4_MB + (va - _128_MB)).
Proof.
  intros Hos. destruct init_bss as (s0 & E0 & R0).
  assert (rw_ok s0) as W0 by by apply (rw_init bss_paging).
  rewrite E0. cbn [mbind res_bind]. destruct (run_ops_rep os s0 map_init Hos R0) as (s & E & R).
  pose proof (run_ops_rw os s0 _ _ _ s Hos R0 W0 E) as W. exists s. split; [done|].
  pose proof (map_ops_program os map_init) as Hprog. cbn [fst map_init] in Hprog. fold (last_program os) in Hprog.
  pose proof (fun f => map_ops_screen os map_init f Hos) as Hscr.
  destruct (foldl (fun m o => map_op o m) map_init os) as [[prog vid] uvid]. cbn [fst snd] in *. subst prog.
  split.
  - intros va pa Hva Ht. rewrite (user_writes s _ vid uvid) in Ht by done.
    assert (user_map (last_program os) uvid va = Some pa) as Hm.
    { change (memory_map true (last_program os) vid uvid va = Some pa).
      rewrite <- (translate_map _ _ _ _ R true va Hva). by destruct Ht. }
    clear Ht. apply user_map_Some in Hm as [(p & Hp & Hr & ->)|(f & -> & Hr & ->)].
    + pose proof (last_program_ok os p Hos Hp) as Hp6. split; [left; exists p; exact (conj Hp (conj Hr eq_refl))|].
      unfold KERNEL_MEM_START, _128_MB, _132_MB, _4_MB in *. split; [lia|]. intros q Hq Hne.
      assert (q <> p) by congruence. lia.
    + destruct (Hscr f) as [Hf [Hin|[? ?]]]; [done|done| |done].
      unfold KERNEL_MEM_START, VIDEO_PAGE, _132_MB, _4_MB in *.
      split; [right; split; [exact Hin|lia]|]. split; [lia|]. intros q Hq _. lia.
  - intros p va Hp Hva. assert (0 <= va < 2 ^ 32) by (unfold _128_MB, _132_MB in Hva; lia).
    rewrite (user_writes s _ vid uvid), (translate_map _ _ _ _ R) by done.
    cbn [memory_map]. unfold user_map. rewrite (proj2 (Z.leb_le _ va)), (proj2 (Z.ltb_lt va _)) by lia.
    by rewrite Hp.
Qed.
End Runs.

(** An example layout of the tables. *)
Definition demo_layout : Layout.
Proof. refine {| page_directory_addr := 0x410000; page_table_addr := 0x411000;
  vidmem_page_table_addr := 0x412000 |}; done. Defined.

Definition demo_paging : paging :=
  ok_or bss_paging (init_paging (L := demo_layout) bss_paging).

Lemma demo_paging_rep : paging_rep (L := demo_layout) demo_paging None VIDEO_PAGE None.
Proof. unfold demo_paging. by destruct (init_bss (L := demo_layout)) as (s & -> & H). Qed.

(** The map after a program is started, its terminal shown and the screen mapped. *)
Lemma paging_refines_map_witness :
  exists s, (s0 ← init_paging (L := demo_layout) bss_paging;
      run_ops (L := demo_layout) [OpProgram 1; OpVideo 2; OpVidmap; OpVideo (-1)] s0) = Ok s /\
    translate (L := demo_layout) true s 0x8048000 = Some 0xC48000.
Proof.
  destruct (paging_refines_map (L := demo_layout) [OpProgram 1; OpVideo 2; OpVidmap; OpVideo (-1)])
    as (s & E & H).
  { repeat constructor; simpl; lia. }
  exists s. split; [exact E|]. rewrite (H true 0x8048000) by lia. reflexivity.
Defined.

(** Process 3 after process 1, with the screen mapped: it reaches its own frame and no other. *)
Lemma user_isolation_witness :
  exists s, (s0 ← init_paging (L := demo_layout) bss_paging;
      run_ops (L := demo_layout) [OpProgram 1; OpVidmap; OpVideo 2; OpProgram 3] s0) = Ok s /\
    translate_store (L := demo_layout) true s 0x8048000 = Some 0x1448000 /\
    forall va, 0 <= va < 2 ^ 32 -> translate (L := demo_layout) true s va <> Some 0xC48000.
Proof.
  destruct (user_isolation (L := demo_layout) [OpProgram 1; OpVidmap; OpVideo 2; OpProgram 3]) as (s & E & H & Hw).
  { repeat constructor; simpl; lia. }
  exists s. split; [exact E|]. split.
  - exact (Hw 3 0x8048000 eq_refl ltac:(unfold _128_MB, _132_MB; lia)).
  - intros va Hva Et. destruct (H va 0xC48000 Hva (or_introl Et)) as (_ & _ & Hq).
    apply (Hq 1); [lia|discriminate|unfold _4_MB; lia].
Defined.
