(* ===== verification/Tlb.v ===== *)
(** * The translation cache (lib.h: [flush_TLB]; paging.c)

    Paging.v looks at the tables after an operation.  The processor caches
    translations: it may read an entry of the tables at any time, keep the result and
    use it until the cache is flushed, even when the tables have changed since.  Here
    the operations of paging.c are the sequences of single stores they consist of,
    with the flush at their end, and the cache fills and drops entries at any moment
    between two of them.  The theorem says that this is not observable: whenever no
    operation is under way every access is translated as the tables say, and the
    kernel's own 4 MB are translated the same at every moment. *)

From stdpp Require Import base gmap list numbers relations.
From Stdlib Require Import ZArith Lia.
From S2P Require Import Prelude Paging.

(** ** The operations as stores *)

Inductive statement : Type :=
| WPd (i : Z) (f : Z -> Z)   (* page_directory[i].member = ... *)
| WPt (i : Z) (f : Z -> Z)
| WVpt (i : Z) (f : Z -> Z)
| FlushTLB.

(** The cache, for a virtual page: the physical address of its first byte, and whether programs
    may use it. *)
Abbreviation tlb := (gmap Z (Z * bool)).

Section Statements.
Context `{L : Layout}.

(** CR3 is loaded with its own value; what that does to the cache is below. *)
Definition flush_TLB (s : paging) : paging :=
  {| cr0_pg := cr0_pg s; cr4_pse := cr4_pse s; cr3 := cr3 s; page_directory := page_directory s;
     page_table := page_table s; vidmem_page_table := vidmem_page_table s |}.

Lemma flush_TLB_tables s : flush_TLB s = s.
Proof. by destruct s. Qed.

Definition do_statement (w : statement) (s : paging) : res paging :=
  match w with
  | WPd i f => upd_pd i f s
  | WPt i f => upd_pt i f s
  | WVpt i f => upd_vpt i f s
  | FlushTLB => Ok (flush_TLB s)
  end.

Fixpoint do_statements (ws : list statement) (s : paging) : res paging :=
  match ws with
  | [] => Ok s
  | w :: ws => s ← do_statement w s; do_statements ws s
  end.

Definition statements (o : paging_op) : list statement :=
  match o with
  | OpProgram process_num =>
      let pd_index := s32 (process_num + 2) in
      [WPd USER_PROGRAM_PD_IDX (set_present 1);
       WPd USER_PROGRAM_PD_IDX (set_page_size 1);
       WPd USER_PROGRAM_PD_IDX (set_user_supervisor 1);
       WPd USER_PROGRAM_PD_IDX (set_address (Z.shiftr (s32 (pd_index * _4_MB)) ALIGN_SIZE));
       FlushTLB]
  | OpVideo process_num =>
      let vid_mem_offset := Z.shiftr VIDEO ALIGN_SIZE in
      let vid_buffer := s32 (vid_mem_offset + 1 + process_num) in
      [WPt vid_mem_offset (set_address vid_buffer);
       WVpt 0 (set_address vid_buffer);
       FlushTLB]
  | OpVidmap =>
      [WVpt 0 (fun _ => 0);
       WVpt 0 (set_read_write 1);
       WVpt 0 (set_present 1);
       WVpt 0 (set_user_supervisor 1);
       WVpt 0 (set_address (Z.shiftr VIDEO ALIGN_SIZE));
       WPd (USER_PROGRAM_PD_IDX + 1) (set_present 1);
       WPd (USER_PROGRAM_PD_IDX + 1) (set_user_supervisor 1);
       WPd (USER_PROGRAM_PD_IDX + 1) (set_address (Z.shiftr vidmem_page_table_addr ALIGN_SIZE));
       FlushTLB]
  end.

(** ** The processor with its cache *)

Record tstate : Type := TState {
  ts_tables : paging;
  ts_tlb : tlb;
  ts_code : list statement;   (* what the operation under way has left *)
  ts_todo : list paging_op;
}.

(** An access: a cached translation is used, whatever the tables say now. *)
Definition access (user : bool) (t : tstate) (va : Z) : option Z :=
  match ts_tlb t !! (va / 4096) with
  | Some (pa, us) => if user && negb us then None else Some (pa + va mod 4096)
  | None => translate user (ts_tables t) va
  end.

Inductive tstep : tstate -> tstate -> Prop :=
| t_fill s c code todo n pa :
    0 <= n < 2 ^ 20 -> translate false s (n * 4096) = Some pa ->
    tstep (TState s c code todo)
      (TState s (<[n := (pa, bool_decide (is_Some (translate true s (n * 4096))))]> c) code todo)
| t_evict s c code todo n : tstep (TState s c code todo) (TState s (delete n c) code todo)
| t_call s c o todo : tstep (TState s c [] (o :: todo)) (TState s c (statements o) todo)
| t_store s c w code todo s' :
    w <> FlushTLB -> do_statement w s = Ok s' -> tstep (TState s c (w :: code) todo) (TState s' c code todo)
| t_flush s c code todo : tstep (TState s c (FlushTLB :: code) todo) (TState (flush_TLB s) ∅ code todo).
End Statements.

(** ** Translations page by page *)

Section Pages.
Context `{L : Layout}.
Implicit Types (s : paging) (c : tlb).

Lemma page_base va : let b := va / 4096 * 4096 in
  va = b + va mod 4096 /\ b / 2 ^ 22 = va / 2 ^ 22 /\ b mod 2 ^ 22 + va mod 4096 = va mod 2 ^ 22 /\
  (b / 2 ^ 12) mod 2 ^ 10 = (va / 2 ^ 12) mod 2 ^ 10 /\ b mod 2 ^ 12 = 0 /\ b / 4096 = va / 4096.
Proof.
  intros b. unfold b. change (2 ^ 22) with (4096 * 1024). change (2 ^ 12) with 4096. change (2 ^ 10) with 1024.
  rewrite <- !Z.div_div, !Z.div_mul, !Z.mod_mul by lia.
  repeat split; Z.to_euclidean_division_equations; lia.
Qed.

(** The walk translates pages. *)
Lemma translate_page user s va :
  translate user s va = (fun pa => pa + va mod 4096) <$> translate user s (va / 4096 * 4096).
Proof.
  destruct (page_base va) as (E0 & E1 & E2 & E3 & E4 & _). unfold translate. rewrite E1, E3, E4.
  destruct (negb (cr0_pg s)); [simpl; by rewrite <- E0|]. destruct (negb (cr3 s =? _)); [done|].
  destruct (page_directory s !! _) as [pde|]; [|done]. simpl. destruct (negb (allows user pde)); [done|].
  destruct (page_size pde && cr4_pse s); [simpl; f_equal; lia|].
  destruct (table_at (address pde) s) as [t|]; [|done]. simpl. destruct (t !! _) as [pte|]; [|done]. simpl.
  destruct (negb (allows user pte)); [done|]. simpl. f_equal. change (2 ^ 12) with 4096. lia.
Qed.

(** What programs may use the kernel may use too, at the same address. *)
Lemma allows_user e : allows true e = true -> allows false e = true.
Proof. unfold allows. simpl. by intros [-> _]%andb_prop. Qed.

Lemma translate_user s va pa : translate true s va = Some pa -> translate false s va = Some pa.
Proof.
  unfold translate. destruct (negb (cr0_pg s)); [done|]. destruct (negb (cr3 s =? _)); [done|].
  destruct (page_directory s !! _) as [pde|]; [|done]. simpl.
  destruct (allows true pde) eqn:A; [|done]. rewrite (allows_user _ A). simpl.
  destruct (page_size pde && cr4_pse s); [done|].
  destruct (table_at (address pde) s) as [t|]; [|done]. simpl. destruct (t !! _) as [pte|]; [|done]. simpl.
  destruct (allows true pte) eqn:B; [|done]. by rewrite (allows_user _ B).
Qed.

(** The entry of the cache for page [n] is what the tables say. *)
Definition agrees s (n : Z) (e : Z * bool) : Prop :=
  translate false s (n * 4096) = Some e.1 /\ e.2 = bool_decide (is_Some (translate true s (n * 4096))).

Definition coherent s c : Prop := forall n e, c !! n = Some e -> agrees s n e.

(** An entry that agrees gives the translation of every address of its page. *)
Lemma agrees_access s c code todo user va :
  (forall e, c !! (va / 4096) = Some e -> agrees s (va / 4096) e) ->
  access user (TState s c code todo) va = translate user s va.
Proof.
  intros H. unfold access. cbn [ts_tlb ts_tables]. destruct (c !! (va / 4096)) as [[pa us]|]; [|done].
  destruct (H _ eq_refl) as [E1 E2]. cbn [fst snd] in *. rewrite (translate_page user).
  destruct user; simpl; [|by rewrite E1].
  destruct (translate true s (va / 4096 * 4096)) as [pa'|] eqn:Et.
  - pose proof (translate_user _ _ _ Et) as Ef. rewrite E1 in Ef. injection Ef as <-. by rewrite E2.
  - by rewrite E2.
Qed.

(** ** The stores make up the operations *)

(** Two updates of an entry are one. *)
Ltac upd_twice l :=
  match goal with |- context [arr_get l ?i] =>
    destruct (decide (0 <= i < Z.of_nat (length l))) as [Hi|Hi]; [|by rewrite arr_get_oob by done];
    let e := fresh "e" in let E := fresh "E" in
    destruct (arr_get_total _ _ Hi) as [e E]; rewrite E, !Ok_bind, !arr_set_ok by done; rewrite !Ok_bind;
    cbn [page_directory page_table vidmem_page_table set_pd set_pt set_vpt];
    rewrite arr_get_insert by done; rewrite Z.eqb_refl, Ok_bind, arr_set_ok by (rewrite ?length_insert; done);
    by rewrite !Ok_bind, list_insert_insert_eq
  end.

Lemma upd_pd_twice i f g s : (s ← upd_pd i f s; upd_pd i g s) = upd_pd i (fun e => g (f e)) s.
Proof. unfold upd_pd. upd_twice (page_directory s). Qed.
Lemma upd_pt_twice i f g s : (s ← upd_pt i f s; upd_pt i g s) = upd_pt i (fun e => g (f e)) s.
Proof. unfold upd_pt. upd_twice (page_table s). Qed.
Lemma upd_vpt_twice i f g s : (s ← upd_vpt i f s; upd_vpt i g s) = upd_vpt i (fun e => g (f e)) s.
Proof. unfold upd_vpt. upd_twice (vidmem_page_table s). Qed.

Lemma bind_assoc {A B C} (m : res A) (f : A -> res B) (g : B -> res C) :
  (a ← m; b ← f a; g b) = (b ← (a ← m; f a); g b).
Proof. by destruct m. Qed.

Lemma bind_ret {A} (m : res A) : (a ← m; Ok a) = m.
Proof. by destruct m. Qed.

Lemma bind_flush (m : res paging) : (s ← m; Ok (flush_TLB s)) = m.
Proof. destruct m as [s|]; [|done]. cbn. by rewrite flush_TLB_tables. Qed.

(** The statements of an operation are the operation. *)
Lemma statements_run o s : do_statements (statements o) s = run_op o s.
Proof.
  destruct o; cbn [statements do_statements do_statement run_op].
  - unfold enable_program_page. by rewrite !bind_assoc, !upd_pd_twice, bind_flush, bind_ret.
  - unfold change_vidmem. by rewrite !bind_assoc, bind_flush, bind_ret.
  - unfold get_vidmem. rewrite !bind_assoc, !upd_vpt_twice.
    destruct (upd_vpt 0 _ s) as [s1|]; [|done]. rewrite !Ok_bind, !upd_pd_twice, bind_flush, bind_ret.
    by destruct (upd_pd (USER_PROGRAM_PD_IDX + 1) _ s1).
Qed.
End Pages.

(** ** The kernel's own memory *)

Section Kernel.
Context `{L : Layout}.
Implicit Types (s : paging) (c : tlb).

(** What the translation of the kernel's 4 MB depends on. *)
Record kernel_page s : Prop := {
  kp_pg : cr0_pg s = true;
  kp_cr3 : cr3 s = page_directory_addr;
  kp_pse : cr4_pse s = true;
  kp_entry : exists e, page_directory s !! 1%nat = Some e /\ present e = true /\ user_supervisor e = false /\
    page_size e = true /\ get_field e 22 10 = 1;
}.

Lemma kernel_page_translate s user va :
  kernel_page s -> KERNEL_MEM_START <= va < 2 * _4_MB -> translate user s va = if user then None else Some va.
Proof.
  intros [Hpg Hcr Hps (e & He & Hp & Hu & Hs & Hf)] Hva. unfold KERNEL_MEM_START, _4_MB in Hva. unfold translate.
  rewrite Hpg, Hcr, Z.eqb_refl. assert (va / 2 ^ 22 = 1) as -> by (symmetry; apply (Z.div_unique _ _ _ (va - 2 ^ 22)); lia).
  change (Z.to_nat 1) with 1%nat. cbn [negb]. rewrite He. simpl. unfold allows. rewrite Hp, Hu, Hs, Hps, Hf.
  destruct user; [done|]. simpl. f_equal. Z.to_euclidean_division_equations. lia.
Qed.

Lemma rep_kernel_page s prog vid uvid : paging_rep s prog vid uvid -> kernel_page s.
Proof.
  intros []. split; auto. destruct (lookup_lt_is_Some_2 (page_directory s) 1) as [e He]; [lia|].
  exists e. split; [done|]. specialize (rep_pd _ _ He). unfold pde_ok in rep_pd.
  rewrite (bool_decide_eq_false_2 (1%nat = 0%nat)), (bool_decide_eq_true_2 (1%nat = 1%nat)) in rep_pd by done.
  tauto.
Qed.

(** The statements leave the kernel's entry alone. *)
Definition apart (w : statement) : Prop := match w with WPd i _ => 2 <= i | _ => True end.

Lemma statements_apart o : Forall apart (statements o).
Proof. destruct o; repeat constructor; done. Qed.

Lemma do_statement_kernel w s s' : apart w -> do_statement w s = Ok s' -> kernel_page s -> kernel_page s'.
Proof.
  intros Ha E [Hpg Hcr Hps He].
  assert (cr0_pg s' = cr0_pg s /\ cr3 s' = cr3 s /\ cr4_pse s' = cr4_pse s /\
    page_directory s' !! 1%nat = page_directory s !! 1%nat) as (E1 & E2 & E3 & E4).
  { destruct w; simpl in *; unfold upd_pd, upd_pt, upd_vpt in E; inv_binds; try done.
    repeat split. simpl. match goal with H : arr_set _ _ _ = Ok _ |- _ => apply arr_set_inv in H as [? ->] end.
    by rewrite list_lookup_insert_ne by lia. }
  split; by rewrite ?E1, ?E2, ?E3, ?E4.
Qed.
End Kernel.

(** ** Transparency *)

Section Transparent.
Context `{L : Layout} (s0 : paging) (prog : option Z) (vid : Z) (uvid : option Z) (os : list paging_op).
Hypothesis R : paging_rep s0 prog vid uvid.
Hypothesis Hos : Forall op_ok os.

(** Nothing is cached and nothing has been done. *)
Definition started : tstate := TState s0 ∅ [] os.

(** The map after the operations [l]. *)
Definition map_after (l : list paging_op) : map_state := foldl (fun m o => map_op o m) (prog, vid, uvid) l.

(** Between operations the tables are those of the operations done and the cache
    agrees with them; inside one, what is left of it ends in the flush. *)
Record tlb_inv (t : tstate) : Prop := {
  ti_kernel : kernel_page (ts_tables t);
  ti_cached n e : ts_tlb t !! n = Some e -> KERNEL_MEM_START <= n * 4096 < 2 * _4_MB -> e = (n * 4096, false);
  ti_apart : Forall apart (ts_code t);
  ti_run : exists past, run_ops past s0 = Ok (ts_tables t) /\ ts_code t = [] /\ os = past ++ ts_todo t /\
      coherent (ts_tables t) (ts_tlb t) \/
    exists o s1, run_ops past s0 = Ok s1 /\ os = past ++ o :: ts_todo t /\
      do_statements (ts_code t) (ts_tables t) = run_op o s1 /\ last (ts_code t) = Some FlushTLB;
}.

Lemma run_ops_app l1 l2 s : run_ops (l1 ++ l2) s = (s ← run_ops l1 s; run_ops l2 s).
Proof. revert s. induction l1 as [|x l IH]; intros s; simpl; [done|]. destruct (run_op x s); simpl; [apply IH|done]. Qed.

Lemma tlb_inv_started : tlb_inv started.
Proof.
  split; simpl; [by eapply rep_kernel_page|done|done|]. exists []. left. do 3 (split; [done|]).
  intros n e. by rewrite lookup_empty.
Qed.

Lemma last_cons_flush w code : last (w :: code) = Some FlushTLB ->
  (code = [] /\ w = FlushTLB) \/ last code = Some FlushTLB.
Proof. destruct code as [|x code]; [intros [= ->]; by left|by right]. Qed.

Lemma tlb_inv_step t t' : tlb_inv t -> tstep t t' -> tlb_inv t'.
Proof.
  intros [Hk Hc Ha (past & Hr)] St.
  destruct St as [s c code todo n pa Hn Et|s c code todo n|s c o todo|s c w code todo s' Hw Ew|s c code todo];
    cbn [ts_tables ts_tlb ts_code ts_todo] in *.
  - split; cbn [ts_tables ts_tlb ts_code ts_todo]; auto.
    + intros m e [[<- <-]|[_ Hm]]%lookup_insert_Some Hr'; [|by apply Hc]. rewrite (kernel_page_translate s false) in Et by done.
      rewrite (kernel_page_translate s true) by done. by injection Et as <-.
    + exists past. destruct Hr as [(E & -> & Eo & Hco)|Hr]; [left|by right]. do 3 (split; [done|]).
      intros m e [[<- <-]|[_ Hm]]%lookup_insert_Some; [by split|by apply Hco].
  - split; cbn [ts_tables ts_tlb ts_code ts_todo]; auto.
    + intros m e [_ Hm]%lookup_delete_Some. by apply Hc.
    + exists past. destruct Hr as [(E & -> & Eo & Hco)|Hr]; [left|by right]. do 3 (split; [done|]).
      intros m e [_ Hm]%lookup_delete_Some. by apply Hco.
  - split; cbn [ts_tables ts_tlb ts_code ts_todo]; auto using statements_apart.
    exists past. right. destruct Hr as [(E & _ & Eo & _)|(? & ? & _ & _ & _ & [=])]. exists o, s. do 2 (split; [done|]).
    split; [apply statements_run|]. by destruct o.
  - inversion Ha as [|? ? Ha1 Ha2]; subst. split; cbn [ts_tables ts_tlb ts_code ts_todo]; auto.
    + by eapply do_statement_kernel.
    + exists past. right. destruct Hr as [(_ & [=] & _)|(o & s1 & E & Eo & Ed & El)]. exists o, s1. do 2 (split; [done|]).
      cbn [do_statements] in Ed. rewrite Ew in Ed. split; [exact Ed|].
      apply last_cons_flush in El as [[_ ?]|?]; done.
  - inversion Ha as [|? ? Ha1 Ha2]; subst. split; cbn [ts_tables ts_tlb ts_code ts_todo];
      rewrite ?flush_TLB_tables; auto; [by intros n e|].
    destruct Hr as [(_ & [=] & _)|(o & s1 & E & Eo & Ed & El)]. cbn [do_statements do_statement] in Ed. rewrite Ok_bind, flush_TLB_tables in Ed.
    apply last_cons_flush in El as [[-> _]|El].
    + exists (past ++ [o]). left. rewrite run_ops_app, E, Ok_bind. cbn [run_ops]. rewrite <- Ed. do 2 (split; [done|]).
      split; [by rewrite <- app_assoc|]. intros n e. by rewrite lookup_empty.
    + exists past. right. by exists o, s1.
Qed.

Lemma tlb_inv_reachable t : rtc tstep started t -> tlb_inv t.
Proof.
  revert t. refine (rtc_ind_r tlb_inv started tlb_inv_started _). intros t t' _ St I. by eapply tlb_inv_step.
Qed.

(** The stores of an operation run to their end. *)
Lemma statements_end code s c todo s' :
  do_statements code s = Ok s' -> exists c', rtc tstep (TState s c code todo) (TState s' c' [] todo).
Proof.
  revert s c. induction code as [|w code IH]; intros s c E; cbn [do_statements] in E.
  - injection E as <-. by exists c.
  - apply Prelude.bind_Ok in E as (s1 & E1 & E2).
    destruct w; try (destruct (IH s1 c E2) as (c' & H); exists c'; eapply rtc_l; [by apply t_store|exact H]).
    injection E1 as <-. destruct (IH (flush_TLB s) ∅ E2) as (c' & H). exists c'. eapply rtc_l; [apply t_flush|exact H].
Qed.

Lemma operations_end l s c s' :
  run_ops l s = Ok s' -> exists c', rtc tstep (TState s c [] l) (TState s' c' [] []).
Proof.
  revert s c. induction l as [|o l IH]; intros s c E; cbn [run_ops] in E.
  - injection E as <-. by exists c.
  - apply Prelude.bind_Ok in E as (s1 & E1 & E2). rewrite <- statements_run in E1.
    destruct (statements_end _ _ c l _ E1) as (c1 & H1). destruct (IH s1 c1 E2) as (c' & H2). exists c'.
    eapply rtc_l; [apply t_call|]. by etrans.
Qed.

(** The map after some of the operations is the one of the tables. *)
Lemma past_map past rest s : os = past ++ rest -> run_ops past s0 = Ok s ->
  forall user va, 0 <= va < 2 ^ 32 ->
    translate user s va = let '(prog, vid, uvid) := map_after past in memory_map user prog vid uvid va.
Proof.
  intros -> E user va Hva. apply Forall_app in Hos as [Hp _].
  destruct (run_ops_rep past s0 (prog, vid, uvid) Hp R) as (s' & E' & H). rewrite E in E'. injection E' as <-.
  unfold map_after. destruct (foldl _ _ past) as [[prog' vid'] uvid']. by apply translate_map.
Qed.
End Transparent.

Section TlbClaims.
Context `{L : Layout}.

(** (C3) The translation cache is not observable.  The operations of paging.c run as the single stores they
    consist of, and between any two of them the processor may cache what the tables say at that moment,
    half-written entries included, and may drop what it has cached.  Whenever no operation is under way,
    every access of the kernel and of programs, through the cache or not, is translated by the abstract map
    of the operations done; at every moment, also inside an operation, the kernel's own 4 MB are translated
    to themselves and are closed to programs; and the operations can always be completed. *)
Theorem tlb_transparent s prog vid uvid os t :
  paging_rep s prog vid uvid -> Forall op_ok os -> rtc tstep (started s os) t ->
  (forall user va, KERNEL_MEM_START <= va < 2 * _4_MB -> access user t va = if user then None else Some va) /\
  (ts_code t = [] -> exists past, os = past ++ ts_todo t /\ forall user va, 0 <= va < 2 ^ 32 ->
    access user t va = let '(prog, vid, uvid) := map_after prog vid uvid past in memory_map user prog vid uvid va) /\
  exists t', rtc tstep t t' /\ ts_code t' = [] /\ ts_todo t' = [].
Proof.
  intros R Hos Hr. destruct (tlb_inv_reachable s prog vid uvid os R t Hr) as [Hk Hc Ha (past & Hrun)].
  destruct t as [st c code todo]. cbn [ts_tables ts_tlb ts_code ts_todo] in *. split; [|split].
  - intros user va Hva. rewrite agrees_access; [by apply kernel_page_translate|]. intros e He.
    destruct (page_base va) as (E0 & _ & _ & _ & _ & _). pose proof (Z.mod_pos_bound va 4096 ltac:(lia)).
    assert (KERNEL_MEM_START <= va / 4096 * 4096 < 2 * _4_MB) as Hr'.
    { unfold KERNEL_MEM_START, _4_MB in *. Z.to_euclidean_division_equations. lia. }
    rewrite (Hc _ _ He Hr'). split; [by apply (kernel_page_translate st false)|].
    by rewrite (kernel_page_translate st true).
  - intros ->. destruct Hrun as [(E & _ & Eo & Hco)|(? & ? & _ & _ & _ & [=])]. exists past. split; [done|].
    intros user va Hva. rewrite agrees_access by (intros e; apply Hco). by apply (past_map s prog vid uvid os R Hos past todo).
  - destruct (run_ops_rep os s (prog, vid, uvid) Hos R) as (sf & Ef & _).
    destruct Hrun as [(E & -> & -> & _)|(o & s1 & E & -> & Ed & _)].
    + rewrite run_ops_app, E in Ef. destruct (operations_end todo st c sf Ef) as (c' & H). by eexists.
    + rewrite run_ops_app, E in Ef. cbn [mbind res_bind run_ops] in Ef. rewrite <- Ed in Ef.
      apply Prelude.bind_Ok in Ef as (s2 & E1 & E2).
      destruct (statements_end _ _ c todo _ E1) as (c1 & H1). destruct (operations_end todo s2 c1 sf E2) as (c2 & H2).
      eexists. split; [by etrans|done].
Qed.
End TlbClaims.

(** Process 1 is mapped: its program's first page is then in its frame. *)
Lemma tlb_transparent_witness :
  exists t, rtc (tstep (L := demo_layout)) (started demo_paging [OpProgram 1]) t /\ ts_todo t = [] /\
    access (L := demo_layout) true t 0x8048000 = Some 0xC48000 /\ access (L := demo_layout) true t 0x400000 = None.
Proof.
  assert (Forall op_ok [OpProgram 1]) as Hos by (repeat constructor; simpl; lia).
  destruct (tlb_transparent (L := demo_layout) demo_paging None VIDEO_PAGE None [OpProgram 1] (started demo_paging [OpProgram 1])
    demo_paging_rep Hos (rtc_refl _ _)) as (_ & _ & t & Hr & Hc & Ht).
  destruct (tlb_transparent (L := demo_layout) demo_paging None VIDEO_PAGE None [OpProgram 1] t demo_paging_rep Hos Hr)
    as (Hk & Hb & _). destruct (Hb Hc) as (past & E & Ha). rewrite Ht, app_nil_r in E. subst past.
  exists t. split; [exact Hr|]. split; [exact Ht|]. split.
  - rewrite (Ha true 0x8048000) by lia. reflexivity.
  - apply (Hk true). unfold KERNEL_MEM_START, _4_MB. lia.
Defined.

(** Without the flush the cache shows: a program's page that was cached for process 1 is
    still used after the entry has been changed for process 2. *)
Example stale_without_flush :
  exists s1 s2 c, run_op (L := demo_layout) (OpProgram 1) demo_paging = Ok s1 /\
    run_op (L := demo_layout) (OpProgram 2) s1 = Ok s2 /\ coherent (L := demo_layout) s1 c /\
    access (L := demo_layout) true (TState s2 c [] []) 0x8048000 = Some 0xC48000 /\
    translate (L := demo_layout) true s2 0x8048000 = Some 0x1048000.
Proof.
  destruct (enable_program_page_rep (L := demo_layout) demo_paging None VIDEO_PAGE None 1 demo_paging_rep) as (s1 & E1 & R1); [lia|].
  destruct (enable_program_page_rep (L := demo_layout) s1 (Some 1) VIDEO_PAGE None 2 R1) as (s2 & E2 & R2); [lia|].
  exists s1, s2, {[0x8048 := (0xC48000, true)]}. split; [exact E1|]. split; [exact E2|]. split; [|split].
  - intros n e [<- <-]%lookup_singleton_Some. split; simpl;
      rewrite !(translate_map (L := demo_layout) _ _ _ _ R1) by lia; reflexivity.
  - reflexivity.
  - rewrite (translate_map (L := demo_layout) _ _ _ _ R2) by lia. reflexivity.
Qed.
