(* ===== verification/State.v ===== *)
(** * The kernel's state

    The C structures and global variables of the kernel as records, one field
    per member, with a setter [set_<member>] for each.  Memory the kernel
    reaches through raw addresses (video memory, user pages, the file system
    image) is the byte map [k_mem], indexed by physical address; the kernel's
    own objects are typed records beside it. *)

From stdpp Require Import base gmap list numbers.
From Stdlib Require Import ZArith Lia.
From S2P Require Import Prelude Pointers Ports Pic Paging.

(** pcb.c: the five file operations tables, as the values of a [fot_t*]. *)
Inductive fot : Type := rtc_fot | file_fot | dir_fot | stdin_fot | stdout_fot.

#[global] Instance fot_eq_dec : EqDecision fot.
Proof. solve_decision. Defined.

(** keyboard.h: the state of one terminal *)
Record terminal_state : Type := {
  typing : list Z;   (* currently being typed *)
  typed : list Z;   (* what was typed before enter was hit *)
  buffer_updated : Z;   (* something was entered *)
  written_bytes : Z;   (* how many bytes were typed *)
  buf_len : Z;   (* length of the typing buffer *)
  screen_x_save : Z;
  screen_y_save : Z;
  prog_par_pid : Z;   (* parent of the program running in the terminal *)
  prog_curr_pid : Z;   (* program running in the terminal *)
  history : list Z;   (* the previously typed command *)
}.

Definition set_typing (x : list Z) (t : terminal_state) : terminal_state :=
  {| typing := x; typed := typed t; buffer_updated := buffer_updated t;
     written_bytes := written_bytes t; buf_len := buf_len t;
     screen_x_save := screen_x_save t; screen_y_save := screen_y_save t;
     prog_par_pid := prog_par_pid t; prog_curr_pid := prog_curr_pid t;
     history := history t |}.
Definition set_typed (x : list Z) (t : terminal_state) : terminal_state :=
  {| typing := typing t; typed := x; buffer_updated := buffer_updated t;
     written_bytes := written_bytes t; buf_len := buf_len t;
     screen_x_save := screen_x_save t; screen_y_save := screen_y_save t;
     prog_par_pid := prog_par_pid t; prog_curr_pid := prog_curr_pid t;
     history := history t |}.
Definition set_buffer_updated (x : Z) (t : terminal_state) : terminal_state :=
  {| typing := typing t; typed := typed t; buffer_updated := x;
     written_bytes := written_bytes t; buf_len := buf_len t;
     screen_x_save := screen_x_save t; screen_y_save := screen_y_save t;
     prog_par_pid := prog_par_pid t; prog_curr_pid := prog_curr_pid t;
     history := history t |}.
Definition set_written_bytes (x : Z) (t : terminal_state) : terminal_state :=
  {| typing := typing t; typed := typed t; buffer_updated := buffer_updated t;
     written_bytes := x; buf_len := buf_len t; screen_x_save := screen_x_save t;
     screen_y_save := screen_y_save t; prog_par_pid := prog_par_pid t;
     prog_curr_pid := prog_curr_pid t; history := history t |}.
Definition set_buf_len (x : Z) (t : terminal_state) : terminal_state :=
  {| typing := typing t; typed := typed t; buffer_updated := buffer_updated t;
     written_bytes := written_bytes t; buf_len := x; screen_x_save := screen_x_save t;
     screen_y_save := screen_y_save t; prog_par_pid := prog_par_pid t;
     prog_curr_pid := prog_curr_pid t; history := history t |}.
Definition set_screen_x_save (x : Z) (t : terminal_state) : terminal_state :=
  {| typing := typing t; typed := typed t; buffer_updated := buffer_updated t;
     written_bytes := written_bytes t; buf_len := buf_len t; screen_x_save := x;
     screen_y_save := screen_y_save t; prog_par_pid := prog_par_pid t;
     prog_curr_pid := prog_curr_pid t; history := history t |}.
Definition set_screen_y_save (x : Z) (t : terminal_state) : terminal_state :=
  {| typing := typing t; typed := typed t; buffer_updated := buffer_updated t;
     written_bytes := written_bytes t; buf_len := buf_len t;
     screen_x_save := screen_x_save t; screen_y_save := x;
     prog_par_pid := prog_par_pid t; prog_curr_pid := prog_curr_pid t;
     history := history t |}.
Definition set_prog_par_pid (x : Z) (t : terminal_state) : terminal_state :=
  {| typing := typing t; typed := typed t; buffer_updated := buffer_updated t;
     written_bytes := written_bytes t; buf_len := buf_len t;
     screen_x_save := screen_x_save t; screen_y_save := screen_y_save t;
     prog_par_pid := x; prog_curr_pid := prog_curr_pid t; history := history t |}.
Definition set_prog_curr_pid (x : Z) (t : terminal_state) : terminal_state :=
  {| typing := typing t; typed := typed t; buffer_updated := buffer_updated t;
     written_bytes := written_bytes t; buf_len := buf_len t;
     screen_x_save := screen_x_save t; screen_y_save := screen_y_save t;
     prog_par_pid := prog_par_pid t; prog_curr_pid := x; history := history t |}.
Definition set_history (x : list Z) (t : terminal_state) : terminal_state :=
  {| typing := typing t; typed := typed t; buffer_updated := buffer_updated t;
     written_bytes := written_bytes t; buf_len := buf_len t;
     screen_x_save := screen_x_save t; screen_y_save := screen_y_save t;
     prog_par_pid := prog_par_pid t; prog_curr_pid := prog_curr_pid t; history := x |}.

(** the globals of keyboard.h *)
Record terms : Type := {
  terminals : list terminal_state;
  curr_ter : Z;   (* the terminal on display *)
  curr_process : Z;   (* the terminal whose process runs *)
}.

Definition set_terminals (x : list terminal_state) (ts : terms) : terms :=
  {| terminals := x; curr_ter := curr_ter ts; curr_process := curr_process ts |}.
Definition set_curr_ter (x : Z) (ts : terms) : terms :=
  {| terminals := terminals ts; curr_ter := x; curr_process := curr_process ts |}.
Definition set_curr_process (x : Z) (ts : terms) : terms :=
  {| terminals := terminals ts; curr_ter := curr_ter ts; curr_process := x |}.

(** the globals of keyboard.c *)
Record kbd : Type := {
  shift_pressed : Z;
  control_pressed : Z;
  caps_lock_on : Z;
  alt_pressed : Z;
}.

Definition set_shift_pressed (x : Z) (kb : kbd) : kbd :=
  {| shift_pressed := x; control_pressed := control_pressed kb;
     caps_lock_on := caps_lock_on kb; alt_pressed := alt_pressed kb |}.
Definition set_control_pressed (x : Z) (kb : kbd) : kbd :=
  {| shift_pressed := shift_pressed kb; control_pressed := x;
     caps_lock_on := caps_lock_on kb; alt_pressed := alt_pressed kb |}.
Definition set_caps_lock_on (x : Z) (kb : kbd) : kbd :=
  {| shift_pressed := shift_pressed kb; control_pressed := control_pressed kb;
     caps_lock_on := x; alt_pressed := alt_pressed kb |}.
Definition set_alt_pressed (x : Z) (kb : kbd) : kbd :=
  {| shift_pressed := shift_pressed kb; control_pressed := control_pressed kb;
     caps_lock_on := caps_lock_on kb; alt_pressed := x |}.

(** the statics of lib.c and [on_screen] of lib.h *)
Record screen : Type := {
  screen_x : Z;
  screen_y : Z;
  on_screen : Z;
}.

Definition set_screen_x (x : Z) (sc : screen) : screen :=
  {| screen_x := x; screen_y := screen_y sc; on_screen := on_screen sc |}.
Definition set_screen_y (x : Z) (sc : screen) : screen :=
  {| screen_x := screen_x sc; screen_y := x; on_screen := on_screen sc |}.
Definition set_on_screen (x : Z) (sc : screen) : screen :=
  {| screen_x := screen_x sc; screen_y := screen_y sc; on_screen := x |}.

(** pcb.h: a file descriptor table entry *)
Record fdt_entry : Type := {
  fot_ptr : option fot;   (* file operations table, None for NULL *)
  inode_idx : Z;
  file_position : Z;
  enabled : Z;
  is_data_file : Z;
}.

Definition set_fot_ptr (x : option fot) (fe : fdt_entry) : fdt_entry :=
  {| fot_ptr := x; inode_idx := inode_idx fe; file_position := file_position fe;
     enabled := enabled fe; is_data_file := is_data_file fe |}.
Definition set_inode_idx (x : Z) (fe : fdt_entry) : fdt_entry :=
  {| fot_ptr := fot_ptr fe; inode_idx := x; file_position := file_position fe;
     enabled := enabled fe; is_data_file := is_data_file fe |}.
Definition set_file_position (x : Z) (fe : fdt_entry) : fdt_entry :=
  {| fot_ptr := fot_ptr fe; inode_idx := inode_idx fe; file_position := x;
     enabled := enabled fe; is_data_file := is_data_file fe |}.
Definition set_enabled (x : Z) (fe : fdt_entry) : fdt_entry :=
  {| fot_ptr := fot_ptr fe; inode_idx := inode_idx fe; file_position := file_position fe;
     enabled := x; is_data_file := is_data_file fe |}.
Definition set_is_data_file (x : Z) (fe : fdt_entry) : fdt_entry :=
  {| fot_ptr := fot_ptr fe; inode_idx := inode_idx fe; file_position := file_position fe;
     enabled := enabled fe; is_data_file := x |}.

(** pcb.h: a process control block *)
Record pcb : Type := {
  pid : Z;
  par_pid : Z;
  par_pcb_ptr : Z;   (* address of the parent's block *)
  fdt : list fdt_entry;
  args : list Z;
  arg_len : Z;
  par_esp : Z;
  par_ebp : Z;
  esp : Z;   (* saved by the scheduler *)
  ebp : Z;
  prog_freq : Z;   (* RTC frequency the program asked for *)
  count : Z;
  divisor : Z;   (* higher_freq / prog_freq *)
}.

Definition set_pid (x : Z) (pc : pcb) : pcb :=
  {| pid := x; par_pid := par_pid pc; par_pcb_ptr := par_pcb_ptr pc; fdt := fdt pc;
     args := args pc; arg_len := arg_len pc; par_esp := par_esp pc;
     par_ebp := par_ebp pc; esp := esp pc; ebp := ebp pc; prog_freq := prog_freq pc;
     count := count pc; divisor := divisor pc |}.
Definition set_par_pid (x : Z) (pc : pcb) : pcb :=
  {| pid := pid pc; par_pid := x; par_pcb_ptr := par_pcb_ptr pc; fdt := fdt pc;
     args := args pc; arg_len := arg_len pc; par_esp := par_esp pc;
     par_ebp := par_ebp pc; esp := esp pc; ebp := ebp pc; prog_freq := prog_freq pc;
     count := count pc; divisor := divisor pc |}.
Definition set_par_pcb_ptr (x : Z) (pc : pcb) : pcb :=
  {| pid := pid pc; par_pid := par_pid pc; par_pcb_ptr := x; fdt := fdt pc;
     args := args pc; arg_len := arg_len pc; par_esp := par_esp pc;
     par_ebp := par_ebp pc; esp := esp pc; ebp := ebp pc; prog_freq := prog_freq pc;
     count := count pc; divisor := divisor pc |}.
Definition set_fdt (x : list fdt_entry) (pc : pcb) : pcb :=
  {| pid := pid pc; par_pid := par_pid pc; par_pcb_ptr := par_pcb_ptr pc; fdt := x;
     args := args pc; arg_len := arg_len pc; par_esp := par_esp pc;
     par_ebp := par_ebp pc; esp := esp pc; ebp := ebp pc; prog_freq := prog_freq pc;
     count := count pc; divisor := divisor pc |}.
Definition set_args (x : list Z) (pc : pcb) : pcb :=
  {| pid := pid pc; par_pid := par_pid pc; par_pcb_ptr := par_pcb_ptr pc; fdt := fdt pc;
     args := x; arg_len := arg_len pc; par_esp := par_esp pc; par_ebp := par_ebp pc;
     esp := esp pc; ebp := ebp pc; prog_freq := prog_freq pc; count := count pc;
     divisor := divisor pc |}.
Definition set_arg_len (x : Z) (pc : pcb) : pcb :=
  {| pid := pid pc; par_pid := par_pid pc; par_pcb_ptr := par_pcb_ptr pc; fdt := fdt pc;
     args := args pc; arg_len := x; par_esp := par_esp pc; par_ebp := par_ebp pc;
     esp := esp pc; ebp := ebp pc; prog_freq := prog_freq pc; count := count pc;
     divisor := divisor pc |}.
Definition set_par_esp (x : Z) (pc : pcb) : pcb :=
  {| pid := pid pc; par_pid := par_pid pc; par_pcb_ptr := par_pcb_ptr pc; fdt := fdt pc;
     args := args pc; arg_len := arg_len pc; par_esp := x; par_ebp := par_ebp pc;
     esp := esp pc; ebp := ebp pc; prog_freq := prog_freq pc; count := count pc;
     divisor := divisor pc |}.
Definition set_par_ebp (x : Z) (pc : pcb) : pcb :=
  {| pid := pid pc; par_pid := par_pid pc; par_pcb_ptr := par_pcb_ptr pc; fdt := fdt pc;
     args := args pc; arg_len := arg_len pc; par_esp := par_esp pc; par_ebp := x;
     esp := esp pc; ebp := ebp pc; prog_freq := prog_freq pc; count := count pc;
     divisor := divisor pc |}.
Definition set_esp (x : Z) (pc : pcb) : pcb :=
  {| pid := pid pc; par_pid := par_pid pc; par_pcb_ptr := par_pcb_ptr pc; fdt := fdt pc;
     args := args pc; arg_len := arg_len pc; par_esp := par_esp pc;
     par_ebp := par_ebp pc; esp := x; ebp := ebp pc; prog_freq := prog_freq pc;
     count := count pc; divisor := divisor pc |}.
Definition set_ebp (x : Z) (pc : pcb) : pcb :=
  {| pid := pid pc; par_pid := par_pid pc; par_pcb_ptr := par_pcb_ptr pc; fdt := fdt pc;
     args := args pc; arg_len := arg_len pc; par_esp := par_esp pc;
     par_ebp := par_ebp pc; esp := esp pc; ebp := x; prog_freq := prog_freq pc;
     count := count pc; divisor := divisor pc |}.
Definition set_prog_freq (x : Z) (pc : pcb) : pcb :=
  {| pid := pid pc; par_pid := par_pid pc; par_pcb_ptr := par_pcb_ptr pc; fdt := fdt pc;
     args := args pc; arg_len := arg_len pc; par_esp := par_esp pc;
     par_ebp := par_ebp pc; esp := esp pc; ebp := ebp pc; prog_freq := x;
     count := count pc; divisor := divisor pc |}.
Definition set_count (x : Z) (pc : pcb) : pcb :=
  {| pid := pid pc; par_pid := par_pid pc; par_pcb_ptr := par_pcb_ptr pc; fdt := fdt pc;
     args := args pc; arg_len := arg_len pc; par_esp := par_esp pc;
     par_ebp := par_ebp pc; esp := esp pc; ebp := ebp pc; prog_freq := prog_freq pc;
     count := x; divisor := divisor pc |}.
Definition set_divisor (x : Z) (pc : pcb) : pcb :=
  {| pid := pid pc; par_pid := par_pid pc; par_pcb_ptr := par_pcb_ptr pc; fdt := fdt pc;
     args := args pc; arg_len := arg_len pc; par_esp := par_esp pc;
     par_ebp := par_ebp pc; esp := esp pc; ebp := ebp pc; prog_freq := prog_freq pc;
     count := count pc; divisor := x |}.

(** the process table: [used_pids] and the blocks, by address *)
Record procs : Type := {
  used_pids : list Z;
  pcbs : gmap Z pcb;
}.

Definition set_used_pids (x : list Z) (pr : procs) : procs :=
  {| used_pids := x; pcbs := pcbs pr |}.
Definition set_pcbs (x : gmap Z pcb) (pr : procs) : procs :=
  {| used_pids := used_pids pr; pcbs := x |}.

(** the globals of rtc.c *)
Record rtc_state : Type := {
  higher_freq : Z;
  rtc_interrupt_flags : list Z;
}.

Definition set_higher_freq (x : Z) (rs : rtc_state) : rtc_state :=
  {| higher_freq := x; rtc_interrupt_flags := rtc_interrupt_flags rs |}.
Definition set_rtc_interrupt_flags (x : list Z) (rs : rtc_state) : rtc_state :=
  {| higher_freq := higher_freq rs; rtc_interrupt_flags := x |}.

(** the members of [tss] the kernel writes *)
Record tss_state : Type := {
  ss0 : Z;
  esp0 : Z;
  ldt_segment_selector : Z;
}.

Definition set_ss0 (x : Z) (tt : tss_state) : tss_state :=
  {| ss0 := x; esp0 := esp0 tt; ldt_segment_selector := ldt_segment_selector tt |}.
Definition set_esp0 (x : Z) (tt : tss_state) : tss_state :=
  {| ss0 := ss0 tt; esp0 := x; ldt_segment_selector := ldt_segment_selector tt |}.
Definition set_ldt_segment_selector (x : Z) (tt : tss_state) : tss_state :=
  {| ss0 := ss0 tt; esp0 := esp0 tt; ldt_segment_selector := x |}.

(** the globals of file_system.c *)
Record fs_state : Type := {
  file_system_addr : Z;
  boot_block : Z;
  dir_entries : Z;
  num_dir_entries : Z;
  inodes : Z;
  num_inodes : Z;
  data_blocks : Z;
  num_data_blocks : Z;
}.

Definition set_file_system_addr (x : Z) (fs : fs_state) : fs_state :=
  {| file_system_addr := x; boot_block := boot_block fs; dir_entries := dir_entries fs;
     num_dir_entries := num_dir_entries fs; inodes := inodes fs;
     num_inodes := num_inodes fs; data_blocks := data_blocks fs;
     num_data_blocks := num_data_blocks fs |}.
Definition set_boot_block (x : Z) (fs : fs_state) : fs_state :=
  {| file_system_addr := file_system_addr fs; boot_block := x;
     dir_entries := dir_entries fs; num_dir_entries := num_dir_entries fs;
     inodes := inodes fs; num_inodes := num_inodes fs; data_blocks := data_blocks fs;
     num_data_blocks := num_data_blocks fs |}.
Definition set_dir_entries (x : Z) (fs : fs_state) : fs_state :=
  {| file_system_addr := file_system_addr fs; boot_block := boot_block fs;
     dir_entries := x; num_dir_entries := num_dir_entries fs; inodes := inodes fs;
     num_inodes := num_inodes fs; data_blocks := data_blocks fs;
     num_data_blocks := num_data_blocks fs |}.
Definition set_num_dir_entries (x : Z) (fs : fs_state) : fs_state :=
  {| file_system_addr := file_system_addr fs; boot_block := boot_block fs;
     dir_entries := dir_entries fs; num_dir_entries := x; inodes := inodes fs;
     num_inodes := num_inodes fs; data_blocks := data_blocks fs;
     num_data_blocks := num_data_blocks fs |}.
Definition set_inodes (x : Z) (fs : fs_state) : fs_state :=
  {| file_system_addr := file_system_addr fs; boot_block := boot_block fs;
     dir_entries := dir_entries fs; num_dir_entries := num_dir_entries fs; inodes := x;
     num_inodes := num_inodes fs; data_blocks := data_blocks fs;
     num_data_blocks := num_data_blocks fs |}.
Definition set_num_inodes (x : Z) (fs : fs_state) : fs_state :=
  {| file_system_addr := file_system_addr fs; boot_block := boot_block fs;
     dir_entries := dir_entries fs; num_dir_entries := num_dir_entries fs;
     inodes := inodes fs; num_inodes := x; data_blocks := data_blocks fs;
     num_data_blocks := num_data_blocks fs |}.
Definition set_data_blocks (x : Z) (fs : fs_state) : fs_state :=
  {| file_system_addr := file_system_addr fs; boot_block := boot_block fs;
     dir_entries := dir_entries fs; num_dir_entries := num_dir_entries fs;
     inodes := inodes fs; num_inodes := num_inodes fs; data_blocks := x;
     num_data_blocks := num_data_blocks fs |}.
Definition set_num_data_blocks (x : Z) (fs : fs_state) : fs_state :=
  {| file_system_addr := file_system_addr fs; boot_block := boot_block fs;
     dir_entries := dir_entries fs; num_dir_entries := num_dir_entries fs;
     inodes := inodes fs; num_inodes := num_inodes fs; data_blocks := data_blocks fs;
     num_data_blocks := x |}.

(** the registers the kernel's inline assembly looks at *)
Record cpu : Type := {
  eflags : Z;
  r_esp : Z;
  r_ebp : Z;
}.

Definition set_eflags (x : Z) (c : cpu) : cpu :=
  {| eflags := x; r_esp := r_esp c; r_ebp := r_ebp c |}.
Definition set_r_esp (x : Z) (c : cpu) : cpu :=
  {| eflags := eflags c; r_esp := x; r_ebp := r_ebp c |}.
Definition set_r_ebp (x : Z) (c : cpu) : cpu :=
  {| eflags := eflags c; r_esp := r_esp c; r_ebp := x |}.

(** everything *)
Record kernel : Type := {
  k_mem : gmap Z Z;   (* physical memory *)
  k_pg : paging;
  k_scr : screen;
  k_ter : terms;
  k_kbd : kbd;
  k_pic : pic;
  k_io : ports;
  k_rtc : rtc_state;
  k_proc : procs;
  k_tss : tss_state;
  k_fs : fs_state;
  k_cpu : cpu;
}.

Definition set_k_mem (x : gmap Z Z) (k : kernel) : kernel :=
  {| k_mem := x; k_pg := k_pg k; k_scr := k_scr k; k_ter := k_ter k; k_kbd := k_kbd k;
     k_pic := k_pic k; k_io := k_io k; k_rtc := k_rtc k; k_proc := k_proc k;
     k_tss := k_tss k; k_fs := k_fs k; k_cpu := k_cpu k |}.
Definition set_k_pg (x : paging) (k : kernel) : kernel :=
  {| k_mem := k_mem k; k_pg := x; k_scr := k_scr k; k_ter := k_ter k; k_kbd := k_kbd k;
     k_pic := k_pic k; k_io := k_io k; k_rtc := k_rtc k; k_proc := k_proc k;
     k_tss := k_tss k; k_fs := k_fs k; k_cpu := k_cpu k |}.
Definition set_k_scr (x : screen) (k : kernel) : kernel :=
  {| k_mem := k_mem k; k_pg := k_pg k; k_scr := x; k_ter := k_ter k; k_kbd := k_kbd k;
     k_pic := k_pic k; k_io := k_io k; k_rtc := k_rtc k; k_proc := k_proc k;
     k_tss := k_tss k; k_fs := k_fs k; k_cpu := k_cpu k |}.
Definition set_k_ter (x : terms) (k : kernel) : kernel :=
  {| k_mem := k_mem k; k_pg := k_pg k; k_scr := k_scr k; k_ter := x; k_kbd := k_kbd k;
     k_pic := k_pic k; k_io := k_io k; k_rtc := k_rtc k; k_proc := k_proc k;
     k_tss := k_tss k; k_fs := k_fs k; k_cpu := k_cpu k |}.
Definition set_k_kbd (x : kbd) (k : kernel) : kernel :=
  {| k_mem := k_mem k; k_pg := k_pg k; k_scr := k_scr k; k_ter := k_ter k; k_kbd := x;
     k_pic := k_pic k; k_io := k_io k; k_rtc := k_rtc k; k_proc := k_proc k;
     k_tss := k_tss k; k_fs := k_fs k; k_cpu := k_cpu k |}.
Definition set_k_pic (x : pic) (k : kernel) : kernel :=
  {| k_mem := k_mem k; k_pg := k_pg k; k_scr := k_scr k; k_ter := k_ter k;
     k_kbd := k_kbd k; k_pic := x; k_io := k_io k; k_rtc := k_rtc k; k_proc := k_proc k;
     k_tss := k_tss k; k_fs := k_fs k; k_cpu := k_cpu k |}.
Definition set_k_io (x : ports) (k : kernel) : kernel :=
  {| k_mem := k_mem k; k_pg := k_pg k; k_scr := k_scr k; k_ter := k_ter k;
     k_kbd := k_kbd k; k_pic := k_pic k; k_io := x; k_rtc := k_rtc k; k_proc := k_proc k;
     k_tss := k_tss k; k_fs := k_fs k; k_cpu := k_cpu k |}.
Definition set_k_rtc (x : rtc_state) (k : kernel) : kernel :=
  {| k_mem := k_mem k; k_pg := k_pg k; k_scr := k_scr k; k_ter := k_ter k;
     k_kbd := k_kbd k; k_pic := k_pic k; k_io := k_io k; k_rtc := x; k_proc := k_proc k;
     k_tss := k_tss k; k_fs := k_fs k; k_cpu := k_cpu k |}.
Definition set_k_proc (x : procs) (k : kernel) : kernel :=
  {| k_mem := k_mem k; k_pg := k_pg k; k_scr := k_scr k; k_ter := k_ter k;
     k_kbd := k_kbd k; k_pic := k_pic k; k_io := k_io k; k_rtc := k_rtc k; k_proc := x;
     k_tss := k_tss k; k_fs := k_fs k; k_cpu := k_cpu k |}.
Definition set_k_tss (x : tss_state) (k : kernel) : kernel :=
  {| k_mem := k_mem k; k_pg := k_pg k; k_scr := k_scr k; k_ter := k_ter k;
     k_kbd := k_kbd k; k_pic := k_pic k; k_io := k_io k; k_rtc := k_rtc k;
     k_proc := k_proc k; k_tss := x; k_fs := k_fs k; k_cpu := k_cpu k |}.
Definition set_k_fs (x : fs_state) (k : kernel) : kernel :=
  {| k_mem := k_mem k; k_pg := k_pg k; k_scr := k_scr k; k_ter := k_ter k;
     k_kbd := k_kbd k; k_pic := k_pic k; k_io := k_io k; k_rtc := k_rtc k;
     k_proc := k_proc k; k_tss := k_tss k; k_fs := x; k_cpu := k_cpu k |}.
Definition set_k_cpu (x : cpu) (k : kernel) : kernel :=
  {| k_mem := k_mem k; k_pg := k_pg k; k_scr := k_scr k; k_ter := k_ter k;
     k_kbd := k_kbd k; k_pic := k_pic k; k_io := k_io k; k_rtc := k_rtc k;
     k_proc := k_proc k; k_tss := k_tss k; k_fs := k_fs k; k_cpu := x |}.

