(* ===== verification/Machine.v ===== *)
(** * The machine under the kernel

    The state monad in which the kernel's functions are written, memory
    accesses through the page tables, port I/O, the interrupt flag, and access
    to the terminal array and the process control blocks.  A function of type
    [K A] takes the kernel state to a result and a new state, or to an error
    ([err]) where the C code faults or has no defined behaviour. *)

From stdpp Require Import base gmap list numbers.
From Stdlib Require Import ZArith Lia.
From S2P Require Import Prelude Pointers Ports Pic Paging State.

Definition K (A : Type) : Type := kernel -> res (A * kernel).

#[global] Instance K_ret : MRet K := fun A a k => Ok (a, k).
#[global] Instance K_bind : MBind K := fun A B f m k =>
  match m k with Ok (a, k') => f a k' | Err e => Err e end.

Definition gets {A} (f : kernel -> A) : K A := fun k => Ok (f k, k).
Definition modify (f : kernel -> kernel) : K unit := fun k => Ok (tt, f k).
Definition throw {A} (e : err) : K A := fun _ => Err e.
Definition lift {A} (r : res A) : K A := fun k => a ← r; Ok (a, k).
Definition when (b : bool) (m : K unit) : K unit := if b then m else mret tt.

(** The state a computation leaves. *)
Definition exec {A} (m : K A) (k : kernel) : kernel :=
  match m k with Ok (_, k') => k' | Err _ => k end.

(** A [for] loop whose body is a kernel computation. *)
Definition kfor (a b : Z) (body : Z -> K unit) : K unit := fun k =>
  k' ← for_range a b (fun i k => r ← body i k; Ok r.2) k; Ok (tt, k').

(** The computation [m] of a component's own state, run on the part of the
    kernel state that [get] and [set] select. *)
Definition on {S A} (get : kernel -> S) (set : S -> kernel -> kernel)
    (m : S -> res (A * S)) : K A := fun k =>
  r ← m (get k); Ok (r.1, set r.2 k).

Lemma K_bind_Ok {A B} (m : K A) (f : A -> K B) k a k' :
  m k = Ok (a, k') -> (m ≫= f) k = f a k'.
Proof. intros H. unfold mbind, K_bind. by rewrite H. Qed.

Lemma K_bind_inv {A B} (m : K A) (f : A -> K B) k b k' :
  (m ≫= f) k = Ok (b, k') -> exists a k1, m k = Ok (a, k1) /\ f a k1 = Ok (b, k').
Proof. unfold mbind, K_bind. destruct (m k) as [[a k1]|]; [eauto|done]. Qed.

(** The loops of the kernel that have an invariant. *)
Lemma kfor_inv (I : Z -> kernel -> Prop) a b (body : Z -> K unit) k :
  a <= b -> I a k ->
  (forall i k, a <= i < b -> I i k -> exists k', body i k = Ok (tt, k') /\ I (i + 1) k') ->
  exists k', kfor a b body k = Ok (tt, k') /\ I b k'.
Proof.
  intros Hab HI Hs. unfold kfor.
  destruct (for_range_inv I a b (fun i k => r ← body i k; Ok r.2) k) as (k' & E & HI'); auto.
  - intros i k1 Hi H1. destruct (Hs i k1 Hi H1) as (k2 & E2 & H2).
    exists k2. by rewrite E2.
  - exists k'. by rewrite E.
Qed.

(** A loop without a body. *)
Lemma idle_loop a b k : a <= b -> kfor a b (fun _ => mret tt) k = Ok (tt, k).
Proof.
  intros H. destruct (kfor_inv (fun _ k' => k' = k) a b (fun _ => mret tt) k H eq_refl) as (k' & E & ->); [|done].
  intros i k' _ ->. by exists k.
Qed.

(** ** Ports and the interrupt flag *)

Definition kout (data port : Z) : K unit := modify (fun k => set_k_io (outb data port (k_io k)) k).
Definition kin (port : Z) : K Z := on k_io set_k_io (inb port).

Definition kenable_irq (irq : Z) : K unit := modify (fun k =>
  let r := enable_irq irq (k_pic k, k_io k) in set_k_io r.2 (set_k_pic r.1 k)).
Definition kdisable_irq (irq : Z) : K unit := modify (fun k =>
  let r := disable_irq irq (k_pic k, k_io k) in set_k_io r.2 (set_k_pic r.1 k)).
Definition ksend_eoi (irq : Z) : K unit := modify (fun k => set_k_io (send_eoi irq (k_io k)) k).

Definition IF_BIT : Z := 9.
Definition set_flags (f : Z) : K unit := modify (fun k => set_k_cpu (set_eflags f (k_cpu k)) k).
(** lib.h: [cli_and_save], [sti], [restore_flags]. *)
Definition cli_and_save : K Z := fun k =>
  let f := eflags (k_cpu k) in
  Ok (f, set_k_cpu (set_eflags (Z.clearbit f IF_BIT) (k_cpu k)) k).
Definition sti : K unit := modify (fun k =>
  set_k_cpu (set_eflags (Z.setbit (eflags (k_cpu k)) IF_BIT) (k_cpu k)) k).
Definition restore_flags (flags : Z) : K unit := set_flags flags.

(** ** Terminals and process control blocks *)

Definition NUM_TERMINALS : Z := 3.

Definition get_terminal (i : Z) : K terminal_state := fun k =>
  t ← arr_get (terminals (k_ter k)) i; Ok (t, k).

(** [terminals[i]] changed by [f]. *)
Definition upd_terminal (i : Z) (f : terminal_state -> terminal_state) : K unit := fun k =>
  t ← arr_get (terminals (k_ter k)) i;
  l ← arr_set (terminals (k_ter k)) i (f t);
  Ok (tt, set_k_ter (set_terminals l (k_ter k)) k).

Lemma get_terminal_ok i k t :
  0 <= i -> terminals (k_ter k) !! Z.to_nat i = Some t -> get_terminal i k = Ok (t, k).
Proof.
  intros Hi Ht. unfold get_terminal. by rewrite (proj2 (arr_get_lookup _ _ _) (conj Hi Ht)).
Qed.

Lemma upd_terminal_ok i f k t :
  0 <= i -> terminals (k_ter k) !! Z.to_nat i = Some t ->
  upd_terminal i f k =
    Ok (tt, set_k_ter (set_terminals (<[Z.to_nat i := f t]> (terminals (k_ter k))) (k_ter k)) k).
Proof.
  intros Hi Ht. unfold upd_terminal.
  rewrite (proj2 (arr_get_lookup _ _ _) (conj Hi Ht)). apply lookup_lt_Some in Ht.
  cbn [mbind res_bind]. by rewrite arr_set_ok by lia.
Qed.

(** [*p] for a [pcb_t* p]. *)
Definition get_pcb (p : Z) : K pcb := fun k =>
  match pcbs (k_proc k) !! p with Some b => Ok (b, k) | None => Err (PageFault p) end.

Definition upd_pcb (p : Z) (f : pcb -> pcb) : K unit := fun k =>
  match pcbs (k_proc k) !! p with
  | Some b => Ok (tt, set_k_proc (set_pcbs (<[p := f b]> (pcbs (k_proc k))) (k_proc k)) k)
  | None => Err (PageFault p)
  end.

(** ** Waiting

    [while (!cond) ;] with interrupts on: between two tests of the condition the
    machine takes an interrupt or runs other processes.  What it does is given as
    the list of computations that happen while the loop spins; a loop whose
    condition is still false when the list is over has not come out yet. *)
Fixpoint wait_until (cond : kernel -> res bool) (irqs : list (K unit)) : K (list (K unit)) :=
  fun k =>
    b ← cond k;
    if (b : bool) then Ok (irqs, k)
    else
      match irqs with
      | [] => Err Blocked
      | irq :: irqs => r ← irq k; wait_until cond irqs r.2
      end.

Section Memory.
Context `{L : Layout}.

(** Supervisor accesses through the page tables. *)
Definition vload (k : kernel) (a : Z) : res Z :=
  match translate false (k_pg k) (u32 a) with
  | None => Err (PageFault (u32 a))
  | Some pa => match k_mem k !! pa with Some b => Ok b | None => Err (Unwritten pa) end
  end.

Definition vstore (k : kernel) (a b : Z) : res kernel :=
  match translate false (k_pg k) (u32 a) with
  | None => Err (PageFault (u32 a))
  | Some pa => Ok (set_k_mem (<[pa := b]> (k_mem k)) k)
  end.

(** A pointer holding the address [a]. *)
Definition vptr (a : Z) : ptr kernel :=
  {| addr := a;
     load := fun k i => vload k (a + i);
     store := fun k i b => vstore k (a + i) b |}.

Definition kload (a : Z) : K Z := fun k => b ← vload k a; Ok (b, k).
Definition kstore (a b : Z) : K unit := fun k => k' ← vstore k a b; Ok (tt, k').
End Memory.

(** ** Running a computation

    [kcbn] runs the primitives at the head of a kernel computation; [kstep]
    passes a part whose result an equation gives. *)

Section Run.
Context {A B C : Type}.
Implicit Types (k : kernel) (f : A -> K B).

Lemma run_gets (g : kernel -> A) f k : (gets g ≫= f) k = f (g k) k.
Proof. done. Qed.
Lemma run_modify (g : kernel -> kernel) (m : K B) k : (modify g;; m) k = m (g k).
Proof. done. Qed.
Lemma run_mret (a : A) f k : (mret a ≫= f) k = f a k.
Proof. done. Qed.
Lemma run_throw e f k : ((throw e : K A) ≫= f) k = Err e.
Proof. done. Qed.
Lemma run_lift (a : A) f k : (lift (Ok a) ≫= f) k = f a k.
Proof. done. Qed.
Lemma run_assoc (m : K A) f (g : B -> K C) k :
  ((m ≫= f) ≫= g) k = (m ≫= (fun a => f a ≫= g)) k.
Proof. unfold mbind, K_bind. by destruct (m k) as [[??]|]. Qed.
Lemma run_when_true (m : K unit) k : when true m k = m k.
Proof. done. Qed.
Lemma run_when_false (m : K unit) k : when false m k = Ok (tt, k).
Proof. done. Qed.
Lemma run_when_true_bind (m : K unit) (m' : K B) k : (when true m;; m') k = (m;; m') k.
Proof. done. Qed.
Lemma run_when_false_bind (m : K unit) (m' : K B) k : (when false m;; m') k = m' k.
Proof. done. Qed.
Lemma run_last_gets (g : kernel -> A) k : gets g k = Ok (g k, k).
Proof. done. Qed.
Lemma run_last_modify (g : kernel -> kernel) k : modify g k = Ok (tt, g k).
Proof. done. Qed.
Lemma run_last_mret (a : A) k : (mret a : K A) k = Ok (a, k).
Proof. done. Qed.
Lemma run_cli (f : Z -> K B) k :
  (cli_and_save ≫= f) k =
    f (eflags (k_cpu k)) (set_k_cpu (set_eflags (Z.clearbit (eflags (k_cpu k)) IF_BIT) (k_cpu k)) k).
Proof. done. Qed.
End Run.

Lemma run_kin {B} port b bs k (f : Z -> K B) :
  io_in (k_io k) = b :: bs ->
  (kin port ≫= f) k = f (u8 b) (set_k_io
    {| io_log := io_log (k_io k) ++ [In (u16 port) (u8 b)]; io_in := bs |} k).
Proof. intros H. unfold mbind at 1, K_bind, kin, on, inb. by rewrite H. Qed.

Create Rewrite HintDb krun.
#[export] Hint Rewrite @run_gets @run_modify @run_mret @run_throw @run_lift @run_assoc
  @run_when_true @run_when_false @run_when_true_bind @run_when_false_bind
  @run_cli @run_last_gets @run_last_modify @run_last_mret : krun.

Ltac kcbn := repeat (progress (autorewrite with krun; cbv beta)).
Ltac kstep H := rewrite (K_bind_Ok _ _ _ _ _ H); cbv beta.
