(* ===== verification/VirtMem.v ===== *)
(** * Blocks of virtual memory

    A block of addresses that the page tables map to consecutive physical bytes
    is an object of Pointers.v: the string and block functions, proved there for
    every such object, then apply to the kernel's raw addresses. *)

From stdpp Require Import base gmap list numbers.
From Stdlib Require Import ZArith Lia.
From S2P Require Import Prelude Pointers Ports Pic Paging State Machine CString MemFns.

(** The bytes [bs] written at physical address [pa]. *)
Fixpoint put_bytes (pa : Z) (bs : list Z) (m : gmap Z Z) : gmap Z Z :=
  match bs with
  | [] => m
  | b :: bs => put_bytes (pa + 1) bs (<[pa := b]> m)
  end.

(** The bytes [bs] are at physical address [pa]. *)
Definition bytes_at (m : gmap Z Z) (pa : Z) (bs : list Z) : Prop :=
  forall (i : nat) b, bs !! i = Some b -> m !! (pa + Z.of_nat i) = Some b.

Lemma lookup_put_bytes pa bs m a :
  put_bytes pa bs m !! a =
    match (if pa <=? a then bs !! Z.to_nat (a - pa) else None) with
    | Some b => Some b
    | None => m !! a
    end.
Proof.
  revert pa m; induction bs as [|b bs IH]; intros pa m; simpl.
  - by destruct (pa <=? a).
  - rewrite IH. destruct (Z.leb_spec (pa + 1) a).
    + rewrite (proj2 (Z.leb_le pa a)) by lia.
      replace (Z.to_nat (a - pa)) with (S (Z.to_nat (a - (pa + 1)))) by lia. simpl.
      destruct (bs !! _); [done|]. by rewrite lookup_insert_ne by lia.
    + destruct (Z.leb_spec pa a).
      * replace a with pa by lia. rewrite lookup_insert_eq.
        by replace (Z.to_nat (pa - pa)) with 0%nat by lia.
      * by rewrite lookup_insert_ne by lia.
Qed.

Lemma lookup_put_bytes_out pa bs m a :
  ~ (pa <= a < pa + Z.of_nat (length bs)) -> put_bytes pa bs m !! a = m !! a.
Proof.
  intros H. rewrite lookup_put_bytes. destruct (Z.leb_spec pa a); [|done].
  by rewrite lookup_ge_None_2 by lia.
Qed.

Lemma bytes_at_put pa bs m : bytes_at (put_bytes pa bs m) pa bs.
Proof.
  intros i b Hi. rewrite lookup_put_bytes, (proj2 (Z.leb_le _ _)) by lia.
  replace (Z.to_nat (pa + Z.of_nat i - pa)) with i by lia. by rewrite Hi.
Qed.

Lemma bytes_at_put_other pa bs m qa cs :
  pa + Z.of_nat (length bs) <= qa \/ qa + Z.of_nat (length cs) <= pa ->
  bytes_at m qa cs -> bytes_at (put_bytes pa bs m) qa cs.
Proof.
  intros Hd H i b Hi. pose proof (lookup_lt_Some _ _ _ Hi).
  rewrite lookup_put_bytes_out by lia. auto.
Qed.

(** Every block of defined bytes holds some list. *)
Lemma bytes_at_exists m pa n :
  (forall i, 0 <= i < Z.of_nat n -> is_Some (m !! (pa + i))) ->
  exists bs, length bs = n /\ bytes_at m pa bs.
Proof.
  induction n as [|n IH]; intros H.
  - exists []. split; [done|]. intros i b Hi. done.
  - destruct IH as (bs & Hl & Hb); [intros i Hi; apply H; lia|].
    destruct (H (Z.of_nat n)) as [c Hc]; [lia|].
    exists (bs ++ [c]). rewrite length_app. simpl. split; [lia|]. intros i b Hi.
    destruct (decide (i < n)%nat).
    + rewrite lookup_app_l in Hi by lia. auto.
    + rewrite lookup_app_r in Hi by lia. apply lookup_lt_Some in Hi as Hlt. simpl in Hlt.
      replace (i - length bs)%nat with 0%nat in Hi by lia. simpl in Hi. simplify_eq.
      by replace i with (length bs) by lia.
Qed.

Section Blocks.
Context `{L : Layout}.
Implicit Types (pg : paging).

(** The [n] addresses from [a] are mapped to the physical bytes from [pa]. *)
Definition maps pg (a pa n : Z) : Prop :=
  forall i, 0 <= i < n -> translate false pg (u32 (a + i)) = Some (pa + i).

Lemma maps_sub pg a pa n i m :
  maps pg a pa n -> 0 <= i -> i + m <= n -> maps pg (a + i) (pa + i) m.
Proof.
  intros H Hi Hm j Hj. rewrite <- !Z.add_assoc. apply H. lia.
Qed.

Lemma vload_maps k a pa n i b :
  maps (k_pg k) a pa n -> 0 <= i < n -> k_mem k !! (pa + i) = Some b -> vload k (a + i) = Ok b.
Proof. intros H Hi Hb. unfold vload. by rewrite (H i Hi), Hb. Qed.

Lemma vstore_maps k a pa n i b :
  maps (k_pg k) a pa n -> 0 <= i < n ->
  vstore k (a + i) b = Ok (set_k_mem (<[pa + i := b]> (k_mem k)) k).
Proof. intros H Hi. unfold vstore. by rewrite (H i Hi). Qed.

Lemma vptr_region pg a pa n :
  maps pg a pa n -> Region (fun k => k_pg k = pg) (vptr a) n.
Proof.
  intros H. split; simpl.
  - intros k i b <- Hi. rewrite (vstore_maps k a pa n i b H Hi). by eexists.
  - intros k i b k' j <- Hi Hj. rewrite (vstore_maps k a pa n i b H Hi). intros [= <-].
    unfold vload. simpl. rewrite (H j Hj). destruct (Z.eqb_spec i j) as [->|Hne].
    + by rewrite lookup_insert_eq.
    + by rewrite lookup_insert_ne by lia.
Qed.

Lemma vptr_separate pg a pa n c qa m :
  maps pg a pa n -> maps pg c qa m -> pa + n <= qa \/ qa + m <= pa ->
  Separate (fun k => k_pg k = pg) (vptr a) n (vptr c) m.
Proof.
  intros H1 H2 Hd k i b k' j <- Hi Hj. simpl.
  rewrite (vstore_maps k a pa n i b H1 Hi). intros [= <-].
  unfold vload. simpl. rewrite (H2 j Hj). by rewrite lookup_insert_ne by lia.
Qed.

Lemma vptr_holds k a pa n bs :
  maps (k_pg k) a pa n -> Z.of_nat (length bs) <= n -> bytes_at (k_mem k) pa bs ->
  holds (vptr a) k bs.
Proof.
  intros H Hn Hb i b Hi. simpl. pose proof (lookup_lt_Some _ _ _ Hi).
  eapply vload_maps; [done|lia|auto].
Qed.

Lemma vptr_store_list k a pa n i bs :
  maps (k_pg k) a pa n -> 0 <= i -> i + Z.of_nat (length bs) <= n ->
  store_list (vptr a) i bs k = Ok (set_k_mem (put_bytes (pa + i) bs (k_mem k)) k).
Proof.
  revert i k; induction bs as [|b bs IH]; intros i k H Hi Hn; simpl in *.
  - by destruct k.
  - rewrite (vstore_maps k a pa n i b H) by lia. simpl.
    rewrite IH by (done || lia). simpl. by rewrite Z.add_assoc.
Qed.

(** [memcpy] between two blocks. *)
Lemma vmemcpy k a pa c qa n bs :
  maps (k_pg k) a pa n -> maps (k_pg k) c qa n -> pa + n <= qa \/ qa + n <= pa ->
  Z.of_nat (length bs) = n -> n < 2 ^ 32 -> bytes_at (k_mem k) qa bs ->
  memcpy (vptr a) (vptr c) n k = Ok (set_k_mem (put_bytes pa bs (k_mem k)) k).
Proof.
  intros H1 H2 Hd <- Hlt Hb.
  rewrite (@memcpy_store _ (fun k' => k_pg k' = k_pg k) _ _ bs
    (vptr_region _ _ _ _ H1) (vptr_separate _ _ _ _ _ _ _ H1 H2 Hd)); [|done| |done].
  - rewrite (vptr_store_list k a pa (Z.of_nat (length bs))) by (done || lia).
    by rewrite Z.add_0_r.
  - eapply vptr_holds; [exact H2|lia|done].
Qed.

(** The kernel's own 4 MB, and the program page. *)
Lemma kernel_maps pg prog vid uvid a n :
  paging_rep pg prog vid uvid -> KERNEL_MEM_START <= a -> a + n <= 2 * _4_MB -> maps pg a a n.
Proof.
  unfold KERNEL_MEM_START, _4_MB. intros R Ha Hn i Hi. rewrite u32_small by lia.
  rewrite (translate_map _ _ _ _ R) by lia. unfold memory_map, VIDEO, KERNEL_MEM_START, _4_MB.
  rewrite (proj2 (Z.ltb_ge (a + i) (0xB8000 + 4096))), (proj2 (Z.ltb_ge (a + i) (0xB8000 + 4 * 4096))) by lia.
  rewrite !andb_false_r.
  by rewrite (proj2 (Z.leb_le 0x400000 (a + i))), (proj2 (Z.ltb_lt (a + i) (2 * 0x400000))) by lia.
Qed.

Lemma user_maps pg p vid uvid a n :
  paging_rep pg (Some p) vid uvid -> _128_MB <= a -> a + n <= _132_MB ->
  maps pg a ((p + 2) * _4_MB + (a - _128_MB)) n.
Proof.
  unfold _128_MB, _132_MB, _4_MB. intros R Ha Hn i Hi. rewrite u32_small by lia.
  rewrite (translate_map _ _ _ _ R) by lia.
  unfold memory_map, user_map, VIDEO, KERNEL_MEM_START, _4_MB, _128_MB, _132_MB.
  rewrite (proj2 (Z.ltb_ge (a + i) (0xB8000 + 4096))), (proj2 (Z.ltb_ge (a + i) (0xB8000 + 4 * 4096))),
    (proj2 (Z.ltb_ge (a + i) (2 * 0x400000))) by lia. rewrite !andb_false_r.
  rewrite (proj2 (Z.leb_le 0x8000000 (a + i))), (proj2 (Z.ltb_lt (a + i) 0x8400000)) by lia.
  simpl. f_equal. lia.
Qed.

(** The page [sys_vidmap] hands out. *)
Lemma vidmap_maps pg prog vid f a n :
  paging_rep pg prog vid (Some f) -> _132_MB <= a -> a + n <= _132_MB + 4096 ->
  maps pg a (f * 4096 + (a - _132_MB)) n.
Proof.
  unfold _132_MB. intros R Ha Hn i Hi. rewrite u32_small by lia. rewrite (translate_map _ _ _ _ R) by lia.
  unfold memory_map, user_map, VIDEO, KERNEL_MEM_START, _4_MB, _128_MB, _132_MB.
  rewrite (proj2 (Z.ltb_ge (a + i) (0xB8000 + 4096))), (proj2 (Z.ltb_ge (a + i) (0xB8000 + 4 * 4096))),
    (proj2 (Z.ltb_ge (a + i) (2 * 0x400000))), (proj2 (Z.ltb_ge (a + i) 0x8400000)) by lia. rewrite !andb_false_r.
  rewrite (proj2 (Z.leb_le 0x8400000 (a + i))), (proj2 (Z.ltb_lt (a + i) (0x8400000 + 4096))) by lia.
  simpl. f_equal. lia.
Qed.

Lemma vptr_store_shift a d i l k : store_list (vptr a) (d + i) l k = store_list (vptr (a + d)) i l k.
Proof.
  revert i k. induction l as [|b l IH]; intros i k; [done|]. simpl. rewrite Z.add_assoc.
  destruct (vstore k (a + d + i) b); simpl; [|done]. rewrite <- IH. f_equal. lia.
Qed.

(** The video address, and the three pages behind it that keep the screens of
    terminals that are not on display. *)
Lemma video_maps pg prog vid uvid :
  paging_rep pg prog vid uvid -> maps pg VIDEO (vid * 4096) 4096.
Proof.
  unfold VIDEO. intros R i Hi. rewrite u32_small by lia.
  rewrite (translate_map _ _ _ _ R) by lia. unfold memory_map, VIDEO.
  rewrite (proj2 (Z.leb_le _ _)), (proj2 (Z.ltb_lt _ _)) by lia. simpl. f_equal. lia.
Qed.

Lemma backing_maps pg prog vid uvid t :
  paging_rep pg prog vid uvid -> 0 <= t < 3 ->
  maps pg (VIDEO + (t + 1) * 4096) ((VIDEO_PAGE + 1 + t) * 4096) 4096.
Proof.
  unfold VIDEO, VIDEO_PAGE. intros R Ht i Hi. rewrite u32_small by lia.
  rewrite (translate_map _ _ _ _ R) by lia. unfold memory_map, VIDEO.
  rewrite (proj2 (Z.ltb_ge _ (0xB8000 + 4096))), andb_false_r by lia.
  rewrite (proj2 (Z.leb_le (0xB8000 + 4096) _)), (proj2 (Z.ltb_lt _ (0xB8000 + 4 * 4096))) by lia.
  simpl. f_equal. lia.
Qed.
End Blocks.
