(* ===== verification/Pcb.v ===== *)
(** * Process control blocks (pcb.c)

    A block sits at the bottom of its process's 8 KB kernel stack: [get_curr_pcb]
    masks the stack pointer, [get_pcb_by_pid] computes the address from the
    process number.  The theorem of this file is that they agree. *)

From stdpp Require Import base gmap list numbers.
From Stdlib Require Import ZArith Lia.
From S2P Require Import Prelude Pointers Ports Pic Paging State Machine.

Definition FDT_MAX_ENTRIES : Z := 8.
Definition BUF_LEN : Z := 128.
Definition _8MB : Z := 0x800000.
Definition _8KB : Z := 0x2000.
Definition PCB_8KB_MASK : Z := 0x007FE000.

Definition not_allowed : K Z := mret ERROR.

Definition get_curr_pcb : K Z := gets (fun k => Z.land (r_esp (k_cpu k)) PCB_8KB_MASK).

(** The argument is an [int8_t]. *)
Definition get_pcb_by_pid (pid : Z) : Z :=
  let pid := s8 pid in
  if pid =? -1 then NULL else _8MB - (pid + 1) * _8KB.

(** The kernel stack of process [p]: 8 KB, the first process's at the top. *)
Definition on_stack_of (p esp : Z) : Prop :=
  _8MB - (p + 1) * _8KB <= esp < _8MB - p * _8KB.

Lemma mask_8KB esp : 0 <= esp < _8MB -> Z.land esp PCB_8KB_MASK = esp / _8KB * _8KB.
Proof.
  unfold _8MB, _8KB. intros H. change PCB_8KB_MASK with (Z.shiftl (Z.ones 10) 13).
  change 0x2000 with (2 ^ 13). rewrite <- Z.shiftl_mul_pow2, <- Z.shiftr_div_pow2 by lia.
  apply Z.bits_inj'. intros n Hn. rewrite Z.land_spec.
  destruct (Z.ltb_spec n 13).
  - rewrite !Z.shiftl_spec_low by lia. apply andb_false_r.
  - rewrite !Z.shiftl_spec, Z.shiftr_spec by lia. replace (n - 13 + 13) with n by lia.
    rewrite (testbit_ones 10 (n - 13)) by lia. destruct (Z.ltb_spec (n - 13) 10); [apply andb_true_r|].
    rewrite andb_false_r. symmetry. apply (testbit_high esp 23); [|lia].
    change (2 ^ 23) with 0x800000. lia.
Qed.

Lemma curr_pcb_addr p k :
  0 <= p < 127 -> on_stack_of p (r_esp (k_cpu k)) ->
  get_curr_pcb k = Ok (get_pcb_by_pid p, k).
Proof.
  unfold on_stack_of. intros Hp H. unfold get_curr_pcb, gets.
  rewrite mask_8KB by (unfold _8MB, _8KB in *; lia). do 2 f_equal.
  unfold get_pcb_by_pid. rewrite s8_small by lia. destruct (Z.eqb_spec p (-1)); [lia|].
  unfold _8MB, _8KB in *. rewrite <- (Z.div_unique_pos _ 0x2000 (1023 - p)
    (r_esp (k_cpu k) - 0x2000 * (1023 - p))); lia.
Qed.

(** The blocks of different processes are at different addresses. *)
Lemma pcb_by_pid_inj p q :
  0 <= p < 127 -> 0 <= q < 127 -> get_pcb_by_pid p = get_pcb_by_pid q -> p = q.
Proof.
  intros Hp Hq. unfold get_pcb_by_pid. rewrite !s8_small by lia.
  destruct (Z.eqb_spec p (-1)), (Z.eqb_spec q (-1)); unfold _8MB, _8KB; lia.
Qed.

Lemma pcb_not_null p : 0 <= p < 127 -> get_pcb_by_pid p <> NULL.
Proof.
  intros Hp. unfold get_pcb_by_pid. rewrite s8_small by lia.
  destruct (Z.eqb_spec p (-1)); unfold NULL, _8MB, _8KB; lia.
Qed.

Lemma get_pcb_ok p k b : pcbs (k_proc k) !! p = Some b -> get_pcb p k = Ok (b, k).
Proof. intros H. unfold get_pcb. by rewrite H. Qed.

Lemma upd_pcb_ok p f k b :
  pcbs (k_proc k) !! p = Some b ->
  upd_pcb p f k = Ok (tt, set_k_proc (set_pcbs (<[p := f b]> (pcbs (k_proc k))) (k_proc k)) k).
Proof. intros H. unfold upd_pcb. by rewrite H. Qed.

(** On every kernel stack, and at every depth of it, [get_curr_pcb] finds
    the block [get_pcb_by_pid] computes for that process, and different
    processes have different blocks. *)
Lemma curr_pcb_is_own p k :
  0 <= p < 127 -> on_stack_of p (r_esp (k_cpu k)) ->
  get_curr_pcb k = Ok (get_pcb_by_pid p, k) /\
  forall q, 0 <= q < 127 -> q <> p -> get_pcb_by_pid q <> get_pcb_by_pid p.
Proof.
  intros Hp H. split; [by apply curr_pcb_addr|].
  intros q Hq Hne E. by apply Hne, pcb_by_pid_inj.
Qed.
