(* ===== verification/Demo.v ===== *)
(** * A concrete kernel state

    The state the examples start from: the globals as the loader leaves them,
    paging as [init_paging] leaves it, and memory for the four video pages. *)

From stdpp Require Import base gmap list numbers.
From Stdlib Require Import ZArith Lia.
From S2P Require Import Prelude Pointers Ports Pic Paging State Machine VirtMem Pcb.

Definition bss_fdt_entry : fdt_entry :=
  {| fot_ptr := None; inode_idx := 0; file_position := 0; enabled := 0; is_data_file := 0 |}.

Definition bss_pcb : pcb :=
  {| pid := 0; par_pid := 0; par_pcb_ptr := 0; fdt := replicate 8 bss_fdt_entry;
     args := replicate 128 0; arg_len := 0; par_esp := 0; par_ebp := 0; esp := 0; ebp := 0;
     prog_freq := 0; count := 0; divisor := 0 |}.

Definition demo_pcbs : gmap Z pcb :=
  list_to_map ((fun p => (get_pcb_by_pid p, bss_pcb)) <$> seqZ 0 6).

Definition bss_terminal : terminal_state :=
  {| typing := replicate 128 0; typed := replicate 128 0; buffer_updated := 0;
     written_bytes := 0; buf_len := 0; screen_x_save := 0; screen_y_save := 0;
     prog_par_pid := -1; prog_curr_pid := -1; history := replicate 128 0 |}.

Definition demo_state : kernel :=
  {| k_mem := put_bytes (VIDEO_PAGE * 4096) (replicate (Z.to_nat (4 * 4096)) 0) ∅;
     k_pg := demo_paging;
     k_scr := {| screen_x := 0; screen_y := 0; on_screen := 1 |};
     k_ter := {| terminals := replicate 3 bss_terminal; curr_ter := 0; curr_process := 0 |};
     k_kbd := {| shift_pressed := 0; control_pressed := 0; caps_lock_on := 0; alt_pressed := 0 |};
     k_pic := {| master_mask := 0xF8; slave_mask := 0xFE |};
     k_io := {| io_log := []; io_in := [] |};
     k_rtc := {| higher_freq := 1024; rtc_interrupt_flags := replicate 3 0 |};
     k_proc := {| used_pids := replicate 6 0; pcbs := demo_pcbs |};
     k_tss := {| ss0 := 0; esp0 := 0; ldt_segment_selector := 0 |};
     k_fs := {| file_system_addr := 0; boot_block := 0; dir_entries := 0; num_dir_entries := 0;
                inodes := 0; num_inodes := 0; data_blocks := 0; num_data_blocks := 0 |};
     k_cpu := {| eflags := 0x202; r_esp := 0x800000; r_ebp := 0x800000 |} |}.


Lemma curr_pcb_is_own_witness :
  get_curr_pcb (set_k_cpu (set_r_esp 0x7FDF00 (k_cpu demo_state)) demo_state)
    = Ok (get_pcb_by_pid 1, set_k_cpu (set_r_esp 0x7FDF00 (k_cpu demo_state)) demo_state).
Proof.
  apply (curr_pcb_is_own 1 (set_k_cpu (set_r_esp 0x7FDF00 (k_cpu demo_state)) demo_state)).
  - split; reflexivity || discriminate.
  - unfold on_stack_of, _8MB, _8KB. simpl. lia.
Defined.
