(* ===== verification/Screen.v ===== *)
(** * The text screen (lib.c)

    [putc], [puts], [clear], [scroll_up], the cursor functions,
    [screen_backspace] and [swap_vid_mem].  All of them go through the video
    address 0xB8000, which the page table points at the physical page of the
    running terminal.

    The abstract screen is 25 rows of 80 cells and a cursor; [putc] on the
    machine is shown to do what [tty_putc] does on the abstract screen, to never
    fault and to touch nothing but the 4000 bytes of its own page, the two cursor
    variables, the cursor saved for its terminal and the VGA ports. *)

From stdpp Require Import base gmap list numbers strings.
From Stdlib Require Import ZArith Lia.
From S2P Require Import Prelude Pointers Ports Pic Paging State Machine VirtMem CString MemFns Pcb Demo.

(** lib.c, lib.h *)
Definition NUM_COLS : Z := 80.
Definition NUM_ROWS : Z := 25.
Definition ATTRIB : Z := 0x7.
Definition CHAR_SPACE : Z := 32.
Definition PAGE_SIZE : Z := 4096.
Definition VGA_MISC_PORT_LOW : Z := 0x3D4.
Definition VGA_MISC_PORT_HIGH : Z := 0x3D5.
Definition BITMASK_8 : Z := 0xFF.
Definition HIGHER_8_BIT_SHIFT : Z := 8.
Definition CURSOR_LOCATION_LOW_REG : Z := 0x0F.
Definition CURSOR_LOCATION_HIGH_REG : Z := 0x0E.
(** [video_mem] points at [VIDEO]. *)
Definition video_mem : Z := VIDEO.

Section Screen.
Context `{L : Layout}.

Definition put_x (x : Z) : K unit := modify (fun k => set_k_scr (set_screen_x x (k_scr k)) k).
Definition put_y (y : Z) : K unit := modify (fun k => set_k_scr (set_screen_y y (k_scr k)) k).
Definition get_x : K Z := gets (fun k => screen_x (k_scr k)).
Definition get_y : K Z := gets (fun k => screen_y (k_scr k)).

(** [video_mem + ((NUM_COLS * y + x) << 1)] *)
Definition cell_addr (y x : Z) : Z := video_mem + Z.shiftl (NUM_COLS * y + x) 1.

Definition clear : K unit :=
  kfor 0 (NUM_ROWS * NUM_COLS) (fun i =>
    kstore (video_mem + Z.shiftl i 1) CHAR_SPACE;;
    kstore (video_mem + Z.shiftl i 1 + 1) ATTRIB).

Definition update_cursor (x y : Z) : K unit :=
  let pos := u16 (y * NUM_COLS + x) in
  kout CURSOR_LOCATION_LOW_REG VGA_MISC_PORT_LOW;;
  kout (u8 (Z.land pos BITMASK_8)) VGA_MISC_PORT_HIGH;;
  kout CURSOR_LOCATION_HIGH_REG VGA_MISC_PORT_LOW;;
  kout (u8 (Z.land (Z.shiftr pos HIGHER_8_BIT_SHIFT) BITMASK_8)) VGA_MISC_PORT_HIGH.

Definition set_cursor : K unit :=
  cp ← gets (fun k => curr_process (k_ter k));
  x ← get_x;
  upd_terminal cp (set_screen_x_save x);;
  y ← get_y;
  upd_terminal cp (set_screen_y_save y);;
  os ← gets (fun k => on_screen (k_scr k));
  when (negb (os =? 0)) (update_cursor x y).

Definition restore_cursor (x y : Z) : K unit := put_x x;; put_y y.

Definition reset_cursor : K unit :=
  put_x 0;; put_y 0;;
  cp ← gets (fun k => curr_process (k_ter k));
  upd_terminal cp (set_screen_x_save 0);;
  upd_terminal cp (set_screen_y_save 0).

Definition get_cursor_pos : K Z :=
  y ← get_y; x ← get_x; mret (y * NUM_COLS + x).

Definition scroll_up : K unit :=
  kfor 0 (NUM_ROWS - 1) (fun y =>
    kfor 0 NUM_COLS (fun x =>
      c ← kload (cell_addr (y + 1) x);
      kstore (cell_addr y x) c;;
      a ← kload (cell_addr (y + 1) x + 1);
      kstore (cell_addr y x + 1) a));;
  let y := NUM_ROWS - 1 in
  kfor 0 NUM_COLS (fun x =>
    kstore (cell_addr y x) CHAR_SPACE;;
    kstore (cell_addr y x + 1) ATTRIB).

(** The statements [putc] has twice: to the start of the next row. *)
Definition next_row : K unit :=
  y ← get_y; put_y (y + 1);;
  y ← get_y;
  when (y =? NUM_ROWS) (scroll_up;; y ← get_y; put_y (y - 1));;
  put_x 0.

(** A character at the cursor. *)
Definition put_cell (c : Z) : K unit :=
  y ← get_y; x ← get_x;
  kstore (cell_addr y x) c;;
  kstore (cell_addr y x + 1) ATTRIB.

Definition putc (c : Z) : K unit :=
  flags ← cli_and_save;
  (if (c =? 10) || (c =? 13) then next_row
   else
     x ← get_x;
     when (x =? NUM_COLS) next_row;;
     put_cell c;;
     x ← get_x; put_x (x + 1));;
  set_cursor;;
  restore_flags flags.

(** [puts]: characters up to the terminator; the result is their number. *)
Definition puts (s : ptr kernel) : K Z := fun k =>
  loop FUEL (fun '(index, k) =>
    c ← load s k index;
    if c =? 0 then Ok (inr (index, k))
    else r ← putc (u8 c) k; Ok (inl (index + 1, r.2))) (0, k).

(** The characters of a list, one after the other. *)
Fixpoint put_string (s : list Z) : K unit :=
  match s with
  | [] => mret tt
  | c :: s => putc c;; put_string s
  end.

Definition screen_backspace : K unit :=
  x ← get_x; y ← get_y;
  if (x =? 0) && (y =? 0) then mret tt
  else
    when (x =? 0) (put_y (y - 1);; put_x NUM_COLS);;
    x ← get_x; put_x (x - 1);;
    put_cell CHAR_SPACE;;
    os ← gets (fun k => on_screen (k_scr k));
    when (negb (os =? 0)) set_cursor.

Definition swap_vid_mem (old new : Z) : K unit := fun k =>
  k ← memcpy (vptr (video_mem + (old + 1) * PAGE_SIZE)) (vptr video_mem) PAGE_SIZE k;
  k ← memcpy (vptr video_mem) (vptr (video_mem + (new + 1) * PAGE_SIZE)) PAGE_SIZE k;
  Ok (tt, k).

Definition test_interrupts : K unit :=
  kfor 0 (NUM_ROWS * NUM_COLS) (fun i =>
    b ← kload (video_mem + Z.shiftl i 1);
    kstore (video_mem + Z.shiftl i 1) (u8 (b + 1))).
End Screen.

(** ** The abstract screen *)

(** A cell is a character and its attribute. *)
Record tty : Type := Tty { rows : list (list (Z * Z)); cx : Z; cy : Z }.

Definition blank_row : list (Z * Z) := replicate 80 (CHAR_SPACE, ATTRIB).

Definition tty_next_row (t : tty) : tty :=
  if cy t + 1 =? NUM_ROWS then Tty (drop 1 (rows t) ++ [blank_row]) 0 (NUM_ROWS - 1)
  else Tty (rows t) 0 (cy t + 1).

Definition tty_set_cell (v : Z * Z) (t : tty) : tty :=
  Tty (alter (fun r => <[Z.to_nat (cx t) := v]> r) (Z.to_nat (cy t)) (rows t)) (cx t) (cy t).

Definition tty_putc (c : Z) (t : tty) : tty :=
  if (c =? 10) || (c =? 13) then tty_next_row t
  else
    let t := if cx t =? NUM_COLS then tty_next_row t else t in
    let t := tty_set_cell (c, ATTRIB) t in
    Tty (rows t) (cx t + 1) (cy t).

Definition tty_backspace (t : tty) : tty :=
  if (cx t =? 0) && (cy t =? 0) then t
  else
    let t := if cx t =? 0 then Tty (rows t) NUM_COLS (cy t - 1) else t in
    tty_set_cell (CHAR_SPACE, ATTRIB) (Tty (rows t) (cx t - 1) (cy t)).

(** The cursor of the VGA: the index register at 0x3D4 selects which byte of the
    position a write to 0x3D5 sets. *)
Definition crtc_step (s : Z * Z * Z) (e : io_event) : Z * Z * Z :=
  let '(idx, hi, lo) := s in
  match e with
  | Out p d =>
      if p =? VGA_MISC_PORT_LOW then (d, hi, lo)
      else if p =? VGA_MISC_PORT_HIGH then
        if idx =? CURSOR_LOCATION_HIGH_REG then (idx, d, lo)
        else if idx =? CURSOR_LOCATION_LOW_REG then (idx, hi, d) else s
      else s
  | In _ _ => s
  end.

Definition hw_cursor (log : list io_event) : Z :=
  let '(_, hi, lo) := foldl crtc_step (0, 0, 0) log in 256 * hi + lo.

(** ** What the screen functions leave alone *)

Definition vga_event (e : io_event) : Prop :=
  exists d, e = Out VGA_MISC_PORT_LOW d \/ e = Out VGA_MISC_PORT_HIGH d.

Definition strip_cursor (t : terminal_state) : terminal_state :=
  set_screen_x_save 0 (set_screen_y_save 0 t).

Record screen_frame (vid : Z) (k k' : kernel) : Prop := {
  fr_mem a : ~ (vid * 4096 <= a < vid * 4096 + 4000) -> k_mem k' !! a = k_mem k !! a;
  fr_pg : k_pg k' = k_pg k;
  fr_on : on_screen (k_scr k') = on_screen (k_scr k);
  fr_ct : curr_ter (k_ter k') = curr_ter (k_ter k);
  fr_cp : curr_process (k_ter k') = curr_process (k_ter k);
  fr_strip : strip_cursor <$> terminals (k_ter k') = strip_cursor <$> terminals (k_ter k);
  fr_other i : i <> Z.to_nat (curr_process (k_ter k)) ->
    terminals (k_ter k') !! i = terminals (k_ter k) !! i;
  fr_kbd : k_kbd k' = k_kbd k;
  fr_pic : k_pic k' = k_pic k;
  fr_rtc : k_rtc k' = k_rtc k;
  fr_proc : k_proc k' = k_proc k;
  fr_tss : k_tss k' = k_tss k;
  fr_fs : k_fs k' = k_fs k;
  fr_cpu : k_cpu k' = k_cpu k;
  fr_in : io_in (k_io k') = io_in (k_io k);
  fr_log : exists l, io_log (k_io k') = io_log (k_io k) ++ l /\ Forall vga_event l;
}.

#[export] Instance screen_frame_preorder vid : PreOrder (screen_frame vid).
Proof.
  split.
  - intros k. split; auto. exists []. by rewrite app_nil_r.
  - intros k1 k2 k3 A B. destruct A, B. split; try congruence.
    + intros a Ha. rewrite fr_mem1, fr_mem0; auto.
    + intros i Hi. rewrite fr_other1, fr_other0; auto. by rewrite fr_cp0.
    + destruct fr_log0 as (l1 & E1 & F1), fr_log1 as (l2 & E2 & F2).
      exists (l1 ++ l2). rewrite E2, E1, app_assoc. split; [done|by apply Forall_app].
Qed.

(** ** The refinement relation *)

Section Refine.
Context `{L : Layout}.

Definition shows (k : kernel) (vid : Z) (rs : list (list (Z * Z))) : Prop :=
  length rs = 25%nat /\ Forall (fun r => length r = 80%nat) rs /\
  forall (y x : nat) r c a, rs !! y = Some r -> r !! x = Some (c, a) ->
    k_mem k !! (vid * 4096 + 2 * (80 * Z.of_nat y + Z.of_nat x)) = Some c /\
    k_mem k !! (vid * 4096 + 2 * (80 * Z.of_nat y + Z.of_nat x) + 1) = Some a.

(** The kernel state [k] shows the abstract screen [t] on physical page [vid]. *)
Record tty_rep (k : kernel) (vid : Z) (t : tty) : Prop := {
  tr_map : exists prog uvid, paging_rep (k_pg k) prog vid uvid;
  tr_shows : shows k vid (rows t);
  tr_x : screen_x (k_scr k) = cx t;
  tr_y : screen_y (k_scr k) = cy t;
  tr_xr : 0 <= cx t <= NUM_COLS;
  tr_yr : 0 <= cy t < NUM_ROWS;
  tr_cp : 0 <= curr_process (k_ter k) < 3;
  tr_len : length (terminals (k_ter k)) = 3%nat;
}.

Lemma video_translate pg prog vid uvid off :
  paging_rep pg prog vid uvid -> 0 <= off < 4096 ->
  translate false pg (u32 (video_mem + off)) = Some (vid * 4096 + off).
Proof.
  intros R Hoff. unfold video_mem, VIDEO. rewrite u32_small by lia.
  rewrite (translate_map _ _ _ _ R) by lia. unfold memory_map, VIDEO.
  rewrite (proj2 (Z.leb_le _ _)), (proj2 (Z.ltb_lt _ _)) by lia. simpl. f_equal. lia.
Qed.

Lemma kstore_video k prog vid uvid off b :
  paging_rep (k_pg k) prog vid uvid -> 0 <= off < 4096 ->
  kstore (video_mem + off) b k = Ok (tt, set_k_mem (<[vid * 4096 + off := b]> (k_mem k)) k).
Proof. intros R Hoff. unfold kstore, vstore. by rewrite (video_translate _ _ _ _ _ R). Qed.

Lemma kload_video k prog vid uvid off b :
  paging_rep (k_pg k) prog vid uvid -> 0 <= off < 4096 ->
  k_mem k !! (vid * 4096 + off) = Some b -> kload (video_mem + off) k = Ok (b, k).
Proof.
  intros R Hoff Hb. unfold kload, vload. rewrite (video_translate _ _ _ _ _ R) by done.
  by rewrite Hb.
Qed.

Lemma cell_addr_eq y x : cell_addr y x = video_mem + 2 * (80 * y + x).
Proof. unfold cell_addr, NUM_COLS. rewrite Z.shiftl_mul_pow2 by lia. lia. Qed.

(** A store to the screen is within its frame. *)
Lemma frame_store k vid off b :
  0 <= off < 4000 -> screen_frame vid k (set_k_mem (<[vid * 4096 + off := b]> (k_mem k)) k).
Proof.
  intros Hoff. split; simpl; auto.
  - intros a Ha. rewrite lookup_insert_ne by lia. done.
  - exists []. by rewrite app_nil_r.
Qed.

(** ** Scrolling *)

Section Scroll.
Context (k0 : kernel) (prog : option Z) (vid : Z) (uvid : option Z).
Hypothesis R : paging_rep (k_pg k0) prog vid uvid.
Hypothesis Hmem : forall off, 0 <= off < 4000 -> is_Some (k_mem k0 !! (vid * 4096 + off)).
Let B : Z := vid * 4096.

(** The first [j] bytes hold what was 160 bytes (one row) further on. *)
Definition shifted (j : Z) (k : kernel) : Prop :=
  k = set_k_mem (k_mem k) k0 /\
  forall a, k_mem k !! a =
    if (B <=? a) && (a <? B + j) then k_mem k0 !! (a + 160) else k_mem k0 !! a.

Lemma shifted_pg j k : shifted j k -> k_pg k = k_pg k0.
Proof. intros [-> _]. done. Qed.

(** One byte further: load it from the row below and store it. *)
Lemma shifted_step j k :
  0 <= j < 3840 -> shifted j k ->
  exists b, kload (video_mem + (j + 160)) k = Ok (b, k) /\
    exists k', kstore (video_mem + j) b k = Ok (tt, k') /\ shifted (j + 1) k'.
Proof.
  intros Hj Hs. pose proof (shifted_pg _ _ Hs) as Hpg. destruct Hs as [Hk Hm].
  destruct (Hmem (j + 160)) as [b Hb]; [lia|]. exists b. split.
  { eapply (kload_video k prog vid uvid); [by rewrite Hpg|lia|]. rewrite Hm.
    fold B. destruct (Z.ltb_spec (B + (j + 160)) (B + j)); [lia|].
    by rewrite andb_false_r. }
  eexists. split; [eapply (kstore_video k prog vid uvid); [by rewrite Hpg|lia]|].
  split; [simpl; rewrite Hk; done|]. intros a. simpl. fold B.
  destruct (Z.eq_dec a (B + j)) as [->|Hne].
  - rewrite lookup_insert_eq. rewrite (proj2 (Z.leb_le _ _)), (proj2 (Z.ltb_lt _ _)) by lia.
    simpl. rewrite <- Hb. by replace (B + j + 160) with (vid * 4096 + (j + 160)) by (unfold B; lia).
  - rewrite lookup_insert_ne by lia. rewrite Hm.
    destruct (Z.leb_spec B a), (Z.ltb_spec a (B + j)), (Z.ltb_spec a (B + (j + 1)));
      simpl; lia || done.
Qed.

Lemma scroll_copy k :
  shifted 0 k -> exists k', kfor 0 (NUM_ROWS - 1) (fun y =>
    kfor 0 NUM_COLS (fun x =>
      c ← kload (cell_addr (y + 1) x);
      kstore (cell_addr y x) c;;
      a ← kload (cell_addr (y + 1) x + 1);
      kstore (cell_addr y x + 1) a)) k = Ok (tt, k') /\ shifted 3840 k'.
Proof.
  intros H0. destruct (kfor_inv (fun y => shifted (160 * y)) 0 (NUM_ROWS - 1) (fun y =>
    kfor 0 NUM_COLS (fun x =>
      c ← kload (cell_addr (y + 1) x);
      kstore (cell_addr y x) c;;
      a ← kload (cell_addr (y + 1) x + 1);
      kstore (cell_addr y x + 1) a)) k) as (k' & E & H'); [unfold NUM_ROWS; lia|done| |eauto].
  unfold NUM_ROWS, NUM_COLS. intros y k1 Hy H1.
  replace (160 * (y + 1)) with (160 * y + 2 * 80) by lia.
  apply (kfor_inv (fun x => shifted (160 * y + 2 * x))); [lia|by rewrite Z.add_0_r|].
  intros x k2 Hx H2. rewrite !cell_addr_eq.
  destruct (shifted_step (160 * y + 2 * x) k2) as (c & Ec & k3 & Ek3 & H3); [lia|done|].
  replace (2 * (80 * (y + 1) + x)) with (160 * y + 2 * x + 160) by lia.
  replace (2 * (80 * y + x)) with (160 * y + 2 * x) by lia.
  kstep Ec. kstep Ek3.
  destruct (shifted_step (160 * y + 2 * x + 1) k3) as (a & Ea & k4 & Ek4 & H4); [lia|done|].
  replace (video_mem + (160 * y + 2 * x + 160) + 1)
    with (video_mem + (160 * y + 2 * x + 1 + 160)) by lia.
  kstep Ea. exists k4.
  replace (video_mem + (160 * y + 2 * x) + 1) with (video_mem + (160 * y + 2 * x + 1)) by lia.
  split; [done|]. by replace (160 * y + 2 * (x + 1)) with (160 * y + 2 * x + 1 + 1) by lia.
Qed.

(** The last row is blanked up to byte [j]. *)
Definition blanked (j : Z) (k : kernel) : Prop :=
  k = set_k_mem (k_mem k) k0 /\
  forall a, k_mem k !! a =
    if (B + 3840 <=? a) && (a <? B + 3840 + j) then
      Some (if Z.even (a - B) then CHAR_SPACE else ATTRIB)
    else if (B <=? a) && (a <? B + 3840) then k_mem k0 !! (a + 160) else k_mem k0 !! a.

Lemma blanked_step j k b :
  0 <= j < 160 -> b = (if Z.even j then CHAR_SPACE else ATTRIB) -> blanked j k ->
  exists k', kstore (video_mem + (3840 + j)) b k = Ok (tt, k') /\ blanked (j + 1) k'.
Proof.
  intros Hj -> [Hk Hm]. eexists. split.
  { eapply (kstore_video k prog vid uvid); [by rewrite Hk|lia]. }
  split; [simpl; rewrite Hk; done|]. intros a. simpl. fold B.
  destruct (Z.eq_dec a (B + (3840 + j))) as [->|Hne].
  - rewrite lookup_insert_eq. rewrite (proj2 (Z.leb_le _ _)), (proj2 (Z.ltb_lt _ _)) by lia.
    simpl. replace (B + (3840 + j) - B) with (j + 2 * 1920) by lia.
    by rewrite Z.even_add_mul_2.
  - rewrite lookup_insert_ne by lia. rewrite Hm.
    destruct (Z.leb_spec (B + 3840) a), (Z.ltb_spec a (B + 3840 + j)),
      (Z.ltb_spec a (B + 3840 + (j + 1))); simpl; lia || done.
Qed.

Lemma scroll_up_mem :
  exists k', scroll_up k0 = Ok (tt, k') /\ blanked 160 k'.
Proof.
  destruct (scroll_copy k0) as (k1 & E1 & Hk1 & Hm1).
  { split; [by destruct k0|]. intros a.
    destruct (Z.leb_spec B a), (Z.ltb_spec a (B + 0)); simpl; lia || done. }
  unfold scroll_up. rewrite (K_bind_Ok _ _ _ _ _ E1). cbv beta zeta.
  replace 160 with (2 * NUM_COLS) by (unfold NUM_COLS; lia).
  apply (kfor_inv (fun x => blanked (2 * x))); [unfold NUM_COLS; lia| |].
  { split; [done|]. intros a. rewrite (Hm1 a).
    by destruct (Z.leb_spec (B + 3840) a), (Z.ltb_spec a (B + 3840 + 2 * 0)); simpl; try lia. }
  unfold NUM_COLS, NUM_ROWS. intros x k2 Hx H2. rewrite cell_addr_eq.
  replace (2 * (80 * (25 - 1) + x)) with (3840 + 2 * x) by lia.
  destruct (blanked_step (2 * x) k2 CHAR_SPACE) as (k3 & E3 & H3); [lia| |done|].
  { by rewrite Z.even_mul. }
  kstep E3. replace (video_mem + (3840 + 2 * x) + 1) with (video_mem + (3840 + (2 * x + 1))) by lia.
  replace (2 * (x + 1)) with (2 * x + 1 + 1) by lia.
  apply blanked_step; [lia| |done]. by rewrite Z.even_add, Z.even_mul.
Qed.
End Scroll.

Lemma shows_bytes k vid rs off :
  shows k vid rs -> 0 <= off < 4000 -> is_Some (k_mem k !! (vid * 4096 + off)).
Proof.
  intros (Hl & Hr & H) Hoff.
  assert (0 <= off / 160 < 25) by (split; [apply Z.div_pos|apply Z.div_lt_upper_bound]; lia).
  pose proof (Z.div_mod off 160 ltac:(lia)) as E1.
  pose proof (Z.mod_pos_bound off 160 ltac:(lia)) as E2.
  pose proof (Z.div_mod (off mod 160) 2 ltac:(lia)) as E3.
  pose proof (Z.mod_pos_bound (off mod 160) 2 ltac:(lia)) as E4.
  set (y := off / 160) in *. set (m := off mod 160) in *.
  destruct (lookup_lt_is_Some_2 rs (Z.to_nat y)) as [r Er]; [lia|].
  pose proof (proj1 (Forall_lookup _ _) Hr _ _ Er) as Hlr. simpl in Hlr.
  destruct (lookup_lt_is_Some_2 r (Z.to_nat (m / 2))) as [[c a] Ec]; [lia|].
  destruct (H _ _ _ _ _ Er Ec) as [Hc Ha]. rewrite !Z2Nat.id in Hc, Ha by lia.
  destruct (Z.eq_dec (m mod 2) 0).
  - exists c. rewrite <- Hc. f_equal. lia.
  - exists a. rewrite <- Ha. f_equal. lia.
Qed.

Lemma scroll_up_spec k prog vid uvid rs :
  paging_rep (k_pg k) prog vid uvid -> shows k vid rs ->
  exists k', scroll_up k = Ok (tt, k') /\ k' = set_k_mem (k_mem k') k /\
    shows k' vid (drop 1 rs ++ [blank_row]) /\ screen_frame vid k k'.
Proof.
  intros R Hs. destruct (scroll_up_mem k prog vid uvid R) as (k' & E & Hk & Hm).
  { intros. eapply shows_bytes; eauto. }
  exists k'. split; [done|]. split; [done|]. destruct Hs as (Hl & Hr & H). split.
  - split; [rewrite length_app, length_drop, Hl; done|]. split.
    { apply Forall_app. split; [by apply Forall_drop|]. by repeat constructor. }
    intros y x r c a Er Ec.
    assert (x < 80)%nat as Hx.
    { assert (Forall (fun r => length r = 80%nat) (drop 1 rs ++ [blank_row])) as HF.
      { apply Forall_app. split; [by apply Forall_drop|]. by repeat constructor. }
      pose proof (proj1 (Forall_lookup _ _) HF _ _ Er) as Hlr. simpl in Hlr.
      apply lookup_lt_Some in Ec. lia. }
    rewrite !Hm. destruct (decide (y < 24)%nat) as [Hy|Hy].
    + rewrite lookup_app_l, lookup_drop in Er by (rewrite length_drop, Hl; lia).
      destruct (H _ _ _ _ _ Er Ec) as [Hc Ha].
      destruct (Z.leb_spec (vid * 4096 + 3840) (vid * 4096 + 2 * (80 * Z.of_nat y + Z.of_nat x))); [lia|].
      destruct (Z.leb_spec (vid * 4096 + 3840) (vid * 4096 + 2 * (80 * Z.of_nat y + Z.of_nat x) + 1)); [lia|].
      rewrite !(proj2 (Z.leb_le _ _)), !(proj2 (Z.ltb_lt _ _)) by lia. simpl.
      rewrite <- Hc, <- Ha. split; f_equal; lia.
    + assert (y = 24%nat) as ->.
      { apply lookup_lt_Some in Er. rewrite length_app, length_drop, Hl in Er. simpl in Er. lia. }
      rewrite lookup_app_r, length_drop, Hl in Er by (rewrite length_drop, Hl; lia).
      simpl in Er. simplify_eq. unfold blank_row in Ec. apply lookup_replicate in Ec as [Ec _].
      simplify_eq.
      split; (rewrite (proj2 (Z.leb_le _ _)), (proj2 (Z.ltb_lt _ _)) by lia; cbn [andb]).
      * replace (_ - _) with (0 + 2 * (80 * Z.of_nat 24 + Z.of_nat x)) by lia.
        by rewrite Z.even_add_mul_2.
      * replace (_ - _) with (1 + 2 * (80 * Z.of_nat 24 + Z.of_nat x)) by lia.
        by rewrite Z.even_add_mul_2.
  - rewrite Hk. split; simpl; auto.
    + intros a Ha. rewrite Hm.
      destruct (Z.leb_spec (vid * 4096 + 3840) a), (Z.ltb_spec a (vid * 4096 + 3840 + 160)),
        (Z.leb_spec (vid * 4096) a), (Z.ltb_spec a (vid * 4096 + 3840)); simpl; lia || done.
    + exists []. by rewrite app_nil_r.
Qed.

(** ** Characters and the cursor *)

Lemma shows_set_cell k prog vid uvid t c a :
  paging_rep (k_pg k) prog vid uvid -> shows k vid (rows t) ->
  0 <= cx t < NUM_COLS -> 0 <= cy t < NUM_ROWS ->
  exists k', (kstore (cell_addr (cy t) (cx t)) c;; kstore (cell_addr (cy t) (cx t) + 1) a) k
      = Ok (tt, k') /\ k' = set_k_mem (k_mem k') k /\
    shows k' vid (rows (tty_set_cell (c, a) t)) /\ screen_frame vid k k'.
Proof.
  unfold NUM_COLS, NUM_ROWS. intros R (Hl & Hr & H) Hx Hy. rewrite cell_addr_eq.
  set (off := 2 * (80 * cy t + cx t)). assert (0 <= off < 3999) by lia.
  pose proof (kstore_video k prog vid uvid off c R ltac:(lia)) as E1.
  set (k1 := set_k_mem _ k) in E1.
  assert (paging_rep (k_pg k1) prog vid uvid) as R1 by done.
  pose proof (kstore_video k1 prog vid uvid (off + 1) a R1 ltac:(lia)) as E2.
  rewrite Z.add_assoc in E2. eexists. split; [kstep E1; exact E2|]. split; [done|]. split.
  - split; [simpl; by rewrite length_alter|]. split.
    { apply Forall_alter; [done|]. intros r _ Hlr. by rewrite length_insert. }
    intros y x r c' a' Er Ec. simpl in Er |- *.
    destruct (decide (y = Z.to_nat (cy t))) as [->|Hne].
    + rewrite list_lookup_alter_eq in Er. apply fmap_Some in Er as (r0 & Er0 & ->).
      pose proof (proj1 (Forall_lookup _ _) Hr _ _ Er0) as Hlr. simpl in Hlr.
      destruct (decide (x = Z.to_nat (cx t))) as [->|Hnx].
      * rewrite list_lookup_insert_eq in Ec by lia. simplify_eq. rewrite !Z2Nat.id by lia.
        fold off. split; [rewrite lookup_insert_ne by lia; by rewrite lookup_insert_eq|].
        by rewrite <- Z.add_assoc, lookup_insert_eq.
      * rewrite list_lookup_insert_ne in Ec by done.
        destruct (H _ _ _ _ _ Er0 Ec) as [Hc Ha]. rewrite !lookup_insert_ne by lia. done.
    + rewrite list_lookup_alter_ne in Er by done.
      pose proof (proj1 (Forall_lookup _ _) Hr _ _ Er) as Hlr. simpl in Hlr.
      pose proof (lookup_lt_Some _ _ _ Ec).
      destruct (H _ _ _ _ _ Er Ec) as [Hc Ha]. rewrite !lookup_insert_ne by lia. done.
  - etrans; [apply (frame_store k vid off c); lia|].
    apply (frame_store k1 vid (off + 1) a). lia.
Qed.

(** [update_cursor] writes to the VGA ports only, and what it writes puts the
    hardware cursor where it should be. *)
Lemma update_cursor_spec x y k :
  exists l, update_cursor x y k =
      Ok (tt, set_k_io {| io_log := io_log (k_io k) ++ l; io_in := io_in (k_io k) |} k) /\
    Forall vga_event l /\
    (0 <= x <= NUM_COLS -> 0 <= y < NUM_ROWS ->
      hw_cursor (io_log (k_io k) ++ l) = y * NUM_COLS + x).
Proof.
  unfold update_cursor, kout. kcbn. eexists. split; [|split].
  - unfold outb. simpl. rewrite <- !app_assoc. reflexivity.
  - simpl. unfold vga_event. repeat constructor; eauto.
  - intros Hx Hy. unfold hw_cursor. rewrite foldl_app.
    destruct (foldl crtc_step (0, 0, 0) (io_log (k_io k))) as [[i0 h0] l0]. simpl.
    unfold NUM_COLS, NUM_ROWS, HIGHER_8_BIT_SHIFT, BITMASK_8 in *.
    set (p := y * 80 + x). assert (0 <= p < 2 ^ 16) by lia.
    rewrite (u16_small p) by done. change 255 with (Z.ones 8). rewrite !Z.land_ones by lia.
    rewrite Z.shiftr_div_pow2 by lia. change (2 ^ 8) with 256. unfold u8.
    change (2 ^ 8) with 256. rewrite !Zmod_mod.
    rewrite (Z.mod_small (p / 256)) by (split; [apply Z.div_pos|apply Z.div_lt_upper_bound]; lia).
    pose proof (Z.div_mod p 256 ltac:(lia)). lia.
Qed.

(** What [set_cursor] does: the cursor is saved for the running terminal and,
    when that terminal is on display, sent to the VGA. *)
Definition cursor_saved (k : kernel) : Prop :=
  exists t, terminals (k_ter k) !! Z.to_nat (curr_process (k_ter k)) = Some t /\
    screen_x_save t = screen_x (k_scr k) /\ screen_y_save t = screen_y (k_scr k).

Lemma set_cursor_spec k vid :
  0 <= curr_process (k_ter k) < 3 -> length (terminals (k_ter k)) = 3%nat ->
  exists k', set_cursor k = Ok (tt, k') /\ screen_frame vid k k' /\
    k_mem k' = k_mem k /\ k_scr k' = k_scr k /\ cursor_saved k' /\
    (on_screen (k_scr k) <> 0 -> forall x y, x = screen_x (k_scr k) -> y = screen_y (k_scr k) ->
      0 <= x <= NUM_COLS -> 0 <= y < NUM_ROWS ->
      hw_cursor (io_log (k_io k')) = y * NUM_COLS + x).
Proof.
  intros Hcp Hlen.
  destruct (lookup_lt_is_Some_2 (terminals (k_ter k)) (Z.to_nat (curr_process (k_ter k))))
    as [t Ht]; [lia|].
  unfold set_cursor, get_x, get_y. kcbn.
  kstep (upd_terminal_ok _ (set_screen_x_save (screen_x (k_scr k))) k t (proj1 Hcp) Ht).
  kcbn. erewrite K_bind_Ok; [|apply (upd_terminal_ok _ _ _ (set_screen_x_save (screen_x (k_scr k)) t));
    [lia|simpl; apply list_lookup_insert_eq; lia]].
  kcbn. cbn [k_ter set_k_ter k_scr terminals set_terminals]. rewrite list_insert_insert_eq.
  set (t' := set_screen_y_save _ _). set (k1 := set_k_ter _ _).
  assert (screen_frame vid k k1) as F1.
  { split; simpl; auto.
    - rewrite list_fmap_insert. apply list_insert_id. by rewrite list_lookup_fmap, Ht.
    - intros i Hi. by rewrite list_lookup_insert_ne.
    - exists []. by rewrite app_nil_r. }
  assert (cursor_saved k1) as C1.
  { exists t'. simpl. split; [apply list_lookup_insert_eq; lia|done]. }
  destruct (Z.eqb_spec (on_screen (k_scr k)) 0) as [E0|E0]; kcbn.
  { exists k1. repeat (split; [done|]). done. }
  destruct (update_cursor_spec (screen_x (k_scr k)) (screen_y (k_scr k)) k1)
    as (l & E & Hv & Hw). rewrite E. eexists. split; [reflexivity|].
  split; [|split; [done|split; [done|split; [done|]]]].
  - etrans; [exact F1|]. split; simpl; auto. by exists l.
  - intros _ x y -> -> Hx Hy. by apply Hw.
Qed.

Lemma rep_frame k k' vid t t' :
  tty_rep k vid t -> screen_frame vid k k' -> shows k' vid (rows t') ->
  screen_x (k_scr k') = cx t' -> screen_y (k_scr k') = cy t' ->
  0 <= cx t' <= NUM_COLS -> 0 <= cy t' < NUM_ROWS -> tty_rep k' vid t'.
Proof.
  intros H F. destruct H, F. split; rewrite ?fr_pg0, ?fr_cp0; auto.
  apply (f_equal length) in fr_strip0. rewrite !length_fmap in fr_strip0. congruence.
Qed.

Lemma frame_scr k vid sc :
  on_screen sc = on_screen (k_scr k) -> screen_frame vid k (set_k_scr sc k).
Proof. intros H. split; simpl; auto. exists []. by rewrite app_nil_r. Qed.

Lemma frame_flags vid k k' f :
  screen_frame vid (set_k_cpu (set_eflags f (k_cpu k)) k) k' ->
  screen_frame vid k (set_k_cpu (set_eflags (eflags (k_cpu k)) (k_cpu k')) k').
Proof. intros F. destruct F. simpl in *. split; simpl; auto. rewrite fr_cpu0. by destruct (k_cpu k). Qed.

Lemma next_row_spec k vid t :
  tty_rep k vid t ->
  exists k', next_row k = Ok (tt, k') /\ tty_rep k' vid (tty_next_row t) /\ screen_frame vid k k'.
Proof.
  intros H. pose proof H as []. destruct tr_map0 as (prog & uvid & R).
  unfold next_row, get_y, put_y, put_x. kcbn. simpl. rewrite tr_y0.
  set (k1 := set_k_scr _ k).
  assert (screen_frame vid k k1) as F1 by by apply frame_scr.
  unfold tty_next_row, NUM_COLS, NUM_ROWS in *.
  destruct (Z.eqb_spec (cy t + 1) 25) as [E|E]; kcbn.
  - destruct (scroll_up_spec k1 prog vid uvid (rows t)) as (k2 & E2 & Hk2 & Hs2 & F2); [done|done|].
    kstep E2. kcbn. eexists. split; [reflexivity|].
    assert (screen_y (k_scr k2) = 25) as Hy2 by (rewrite Hk2; simpl; lia).
    set (k3 := set_k_scr _ _).
    assert (screen_frame vid k k3) as F3.
    { etrans; [etrans; [exact F1|exact F2]|]. unfold k3. etrans; [|by apply frame_scr].
      by apply frame_scr. }
    split; [|done]. apply (rep_frame k _ _ t); try done; simpl; unfold NUM_COLS, NUM_ROWS; lia.
  - eexists. split; [reflexivity|]. set (k3 := set_k_scr _ _).
    assert (screen_frame vid k k3) as F3.
    { etrans; [exact F1|]. by apply frame_scr. }
    split; [|done]. apply (rep_frame k _ _ t); try done; simpl; unfold NUM_COLS, NUM_ROWS; lia.
Qed.

Lemma put_cell_spec k vid t c :
  tty_rep k vid t -> cx t < NUM_COLS ->
  exists k', put_cell c k = Ok (tt, k') /\
    tty_rep k' vid (tty_set_cell (c, ATTRIB) t) /\ screen_frame vid k k'.
Proof.
  intros H Hx. pose proof H as []. destruct tr_map0 as (prog & uvid & R).
  unfold put_cell, get_x, get_y. kcbn. rewrite tr_x0, tr_y0.
  destruct (shows_set_cell k prog vid uvid t c ATTRIB) as (k' & E & Hk & Hs & F); auto; [lia|].
  exists k'. split; [done|]. split; [|done].
  apply (rep_frame k _ _ t); auto; rewrite Hk; simpl; auto.
Qed.

(** The whole of [putc] before the cursor is stored. *)
Lemma putc_body k vid t c :
  tty_rep k vid t ->
  exists k', (if (c =? 10) || (c =? 13) then next_row
    else x ← get_x; when (x =? NUM_COLS) next_row;; put_cell c;; x ← get_x; put_x (x + 1)) k
    = Ok (tt, k') /\ tty_rep k' vid (tty_putc c t) /\ screen_frame vid k k'.
Proof.
  intros H. unfold tty_putc. destruct ((c =? 10) || (c =? 13)); [by apply next_row_spec|].
  assert (exists k1, when (cx t =? NUM_COLS) next_row k = Ok (tt, k1) /\
    tty_rep k1 vid (if cx t =? NUM_COLS then tty_next_row t else t) /\ screen_frame vid k k1)
    as (k1 & E1 & H1 & F1).
  { destruct (cx t =? NUM_COLS); [by apply next_row_spec|]. exists k. by split. }
  set (t1 := if cx t =? NUM_COLS then _ else _) in *.
  assert (cx t1 < NUM_COLS) as Hx1.
  { subst t1. pose proof (tr_xr _ _ _ H).
    destruct (Z.eqb_spec (cx t) NUM_COLS); [|lia]. unfold tty_next_row.
    by destruct (cy t + 1 =? NUM_ROWS). }
  destruct (put_cell_spec k1 vid t1 c H1 Hx1) as (k2 & E2 & H2 & F2).
  unfold get_x, put_x. kcbn. rewrite (tr_x _ _ _ H). kstep E1. kstep E2. kcbn.
  eexists. split; [reflexivity|]. set (k3 := set_k_scr _ _).
  assert (screen_frame vid k2 k3) as F3 by by apply frame_scr.
  split; [|by rewrite F1, F2].
  pose proof H2 as []. apply (rep_frame k2 _ _ (tty_set_cell (c, ATTRIB) t1)); auto.
  - simpl. by rewrite tr_x0.
  - simpl in *. pose proof (tr_xr _ _ _ H1). lia.
Qed.

Lemma putc_rep k vid t c :
  tty_rep k vid t ->
  exists k', putc c k = Ok (tt, k') /\ tty_rep k' vid (tty_putc c t) /\
    screen_frame vid k k' /\ cursor_saved k' /\
    (on_screen (k_scr k) <> 0 ->
      hw_cursor (io_log (k_io k')) = cy (tty_putc c t) * NUM_COLS + cx (tty_putc c t)).
Proof.
  intros H. unfold putc. rewrite run_cli. cbv beta.
  set (f := eflags (k_cpu k)). set (k0 := set_k_cpu (set_eflags (Z.clearbit f IF_BIT) (k_cpu k)) k).
  assert (tty_rep k0 vid t) as H0 by by destruct H.
  destruct (putc_body k0 vid t c H0) as (k1 & E1 & H1 & F1). kstep E1.
  pose proof H1 as [].
  destruct (set_cursor_spec k1 vid) as (k2 & E2 & F2 & Hm & Hs & Hc & Hw); [done|done|].
  kstep E2. unfold restore_flags, set_flags. kcbn. eexists. split; [reflexivity|].
  assert (screen_frame vid k (set_k_cpu (set_eflags f (k_cpu k2)) k2)) as F.
  { apply (frame_flags _ _ _ (Z.clearbit f IF_BIT)). fold k0. by rewrite F1. }
  split; [|split; [done|split; [done|]]].
  - apply (rep_frame k _ _ t); simpl; auto; [|by rewrite Hs|by rewrite Hs].
    destruct tr_shows0 as (? & ? & ?). split; [done|split; [done|]]. simpl. by rewrite Hm.
  - intros Hon. apply Hw; auto. by rewrite (fr_on _ _ _ F1).
Qed.

(** ** Clearing *)

Definition blank_screen : list (list (Z * Z)) := replicate 25 blank_row.

(** The first [j] bytes of the page are blank. *)
Definition cleared_to (k0 : kernel) (vid j : Z) (k : kernel) : Prop :=
  k = set_k_mem (k_mem k) k0 /\
  forall a, k_mem k !! a =
    if (vid * 4096 <=? a) && (a <? vid * 4096 + j) then
      Some (if Z.even (a - vid * 4096) then CHAR_SPACE else ATTRIB)
    else k_mem k0 !! a.

Lemma cleared_step k0 vid j b k :
  maps (k_pg k0) VIDEO (vid * 4096) 4096 -> 0 <= j < 4000 ->
  b = (if Z.even j then CHAR_SPACE else ATTRIB) -> cleared_to k0 vid j k ->
  exists k', kstore (video_mem + j) b k = Ok (tt, k') /\ cleared_to k0 vid (j + 1) k'.
Proof.
  intros R Hj -> [Hk Hm]. eexists. split.
  { unfold kstore. rewrite (vstore_maps k VIDEO (vid * 4096) 4096); [done|by rewrite Hk|lia]. }
  split; [simpl; rewrite Hk; done|]. intros a. simpl.
  destruct (Z.eq_dec a (vid * 4096 + j)) as [->|Hne].
  - rewrite lookup_insert_eq, (proj2 (Z.leb_le _ _)), (proj2 (Z.ltb_lt _ _)) by lia.
    simpl. by replace (vid * 4096 + j - vid * 4096) with j by lia.
  - rewrite lookup_insert_ne by lia. rewrite Hm.
    destruct (Z.leb_spec (vid * 4096) a), (Z.ltb_spec a (vid * 4096 + j)),
      (Z.ltb_spec a (vid * 4096 + (j + 1))); simpl; lia || done.
Qed.

Lemma clear_maps k vid :
  maps (k_pg k) VIDEO (vid * 4096) 4096 ->
  exists k', clear k = Ok (tt, k') /\ k' = set_k_mem (k_mem k') k /\
    shows k' vid blank_screen /\ screen_frame vid k k'.
Proof.
  intros R. unfold clear, NUM_ROWS, NUM_COLS.
  destruct (kfor_inv (fun i => cleared_to k vid (2 * i)) 0 (25 * 80) (fun i =>
    kstore (video_mem + Z.shiftl i 1) CHAR_SPACE;;
    kstore (video_mem + Z.shiftl i 1 + 1) ATTRIB) k) as (k' & E & Hk & Hm); [lia| | |].
  - split; [by destruct k|]. intros a.
    destruct (Z.leb_spec (vid * 4096) a), (Z.ltb_spec a (vid * 4096 + 2 * 0)); simpl; lia || done.
  - intros i k1 Hi H1. rewrite Z.shiftl_mul_pow2 by lia. change (2 ^ 1) with 2.
    rewrite (Z.mul_comm i 2), <- Z.add_assoc.
    destruct (cleared_step k vid (2 * i) CHAR_SPACE k1) as (k2 & E2 & H2);
      [done|lia|by rewrite Z.even_mul|done|].
    kstep E2. replace (2 * (i + 1)) with (2 * i + 1 + 1) by lia.
    apply (cleared_step k vid); [done|lia|by rewrite Z.even_add, Z.even_mul|done].
  - exists k'. split; [done|]. split; [done|]. split.
    + split; [done|]. split; [by apply Forall_replicate|].
      intros y x r c a [-> Hy]%lookup_replicate [E2 Hx]%lookup_replicate. simplify_eq.
      rewrite !Hm. split; (rewrite (proj2 (Z.leb_le _ _)), (proj2 (Z.ltb_lt _ _)) by lia; cbn [andb]).
      * replace (_ - _) with (0 + 2 * (80 * Z.of_nat y + Z.of_nat x)) by lia.
        by rewrite Z.even_add_mul_2.
      * replace (_ - _) with (1 + 2 * (80 * Z.of_nat y + Z.of_nat x)) by lia.
        by rewrite Z.even_add_mul_2.
    + rewrite Hk. split; simpl; auto; [|exists []; by rewrite app_nil_r].
      intros a Ha. rewrite Hm.
      destruct (Z.leb_spec (vid * 4096) a), (Z.ltb_spec a (vid * 4096 + 2 * (25 * 80)));
        simpl; lia || done.
Qed.

Lemma clear_spec k prog vid uvid :
  paging_rep (k_pg k) prog vid uvid ->
  exists k', clear k = Ok (tt, k') /\ k' = set_k_mem (k_mem k') k /\
    shows k' vid blank_screen /\ screen_frame vid k k'.
Proof. intros R. eapply clear_maps, video_maps, R. Qed.

(** [reset_cursor] moves the cursor to the top left corner. *)
Lemma reset_cursor_spec k vid :
  0 <= curr_process (k_ter k) < 3 -> length (terminals (k_ter k)) = 3%nat ->
  exists k', reset_cursor k = Ok (tt, k') /\ screen_frame vid k k' /\ k_mem k' = k_mem k /\
    screen_x (k_scr k') = 0 /\ screen_y (k_scr k') = 0.
Proof.
  intros Hcp Hlen.
  destruct (lookup_lt_is_Some_2 (terminals (k_ter k)) (Z.to_nat (curr_process (k_ter k))))
    as [t Ht]; [lia|].
  unfold reset_cursor, put_x, put_y. kcbn. set (k1 := set_k_scr _ _).
  change (curr_process (k_ter k1)) with (curr_process (k_ter k)).
  kstep (upd_terminal_ok _ (set_screen_x_save 0) k1 t (proj1 Hcp) Ht). set (k2 := set_k_ter _ k1).
  assert (terminals (k_ter k2) !! Z.to_nat (curr_process (k_ter k)) = Some (set_screen_x_save 0 t)) as Ht2
    by (simpl; apply list_lookup_insert_eq; lia).
  rewrite (upd_terminal_ok _ (set_screen_y_save 0) k2 _ (proj1 Hcp) Ht2).
  eexists. split; [done|]. split; [|done]. split; simpl; auto.
  - rewrite list_insert_insert_eq, list_fmap_insert. apply list_insert_id. by rewrite list_lookup_fmap, Ht.
  - intros i Hi. by rewrite !list_lookup_insert_ne.
  - exists []. by rewrite app_nil_r.
Qed.

(** ** Backspace *)

Lemma tty_backspace_range t :
  0 <= cx t <= NUM_COLS -> 0 <= cy t < NUM_ROWS ->
  0 <= cx (tty_backspace t) <= NUM_COLS /\ 0 <= cy (tty_backspace t) < NUM_ROWS.
Proof.
  unfold tty_backspace, NUM_COLS, NUM_ROWS. intros Hx Hy.
  destruct (Z.eqb_spec (cx t) 0), (Z.eqb_spec (cy t) 0); simpl; lia.
Qed.

Lemma screen_backspace_rep k vid t :
  tty_rep k vid t ->
  exists k', screen_backspace k = Ok (tt, k') /\ tty_rep k' vid (tty_backspace t) /\
    screen_frame vid k k' /\ (cursor_saved k -> on_screen (k_scr k) <> 0 -> cursor_saved k').
Proof.
  intros H. pose proof H as []. unfold screen_backspace, get_x, get_y. kcbn.
  rewrite tr_x0, tr_y0. unfold tty_backspace.
  destruct ((cx t =? 0) && (cy t =? 0)) eqn:E0; [exists k; by split|].
  set (t1 := if cx t =? 0 then _ else _).
  assert (exists k1, when (cx t =? 0) (put_y (cy t - 1);; put_x NUM_COLS) k = Ok (tt, k1) /\
    tty_rep k1 vid t1 /\ screen_frame vid k k1 /\ 0 < cx t1) as (k1 & E1 & H1 & F1 & Hx1).
  { subst t1. destruct (Z.eqb_spec (cx t) 0) as [Ex|Ex]; simpl in E0.
    - apply Z.eqb_neq in E0. unfold put_x, put_y. kcbn. eexists. split; [reflexivity|].
      assert (screen_frame vid k (set_k_scr (set_screen_x NUM_COLS (k_scr
        (set_k_scr (set_screen_y (cy t - 1) (k_scr k)) k)))
          (set_k_scr (set_screen_y (cy t - 1) (k_scr k)) k))) as F.
      { etrans; by apply frame_scr. }
      split; [|split; [done|simpl; unfold NUM_COLS; lia]].
      apply (rep_frame k _ _ t); auto; simpl; unfold NUM_COLS, NUM_ROWS in *; lia.
    - exists k. split; [done|]. split; [done|]. split; [done|lia]. }
  kstep E1. unfold put_x. kcbn. rewrite (tr_x _ _ _ H1).
  set (k2 := set_k_scr _ k1). set (t2 := Tty (rows t1) (cx t1 - 1) (cy t1)).
  assert (screen_frame vid k1 k2) as F2 by by apply frame_scr.
  assert (tty_rep k2 vid t2) as H2.
  { pose proof H1 as []. apply (rep_frame k1 _ _ t1); auto; simpl; lia. }
  destruct (put_cell_spec k2 vid t2 CHAR_SPACE H2) as (k3 & E3 & H3 & F3).
  { simpl. pose proof (tr_xr _ _ _ H1). lia. }
  kstep E3. kcbn. fold t2.
  assert (screen_frame vid k k3) as F13 by by rewrite F1, F2.
  destruct (Z.eqb_spec (on_screen (k_scr k3)) 0) as [Hoff|_]; kcbn.
  { exists k3. split; [done|]. split; [done|]. split; [done|]. by rewrite (fr_on _ _ _ F13) in Hoff. }
  pose proof H3 as []. destruct (set_cursor_spec k3 vid) as (k4 & E4 & F4 & Hm & Hs & Hc & _); auto.
  exists k4. split; [done|]. split; [|split; [by rewrite F13|done]].
  apply (rep_frame k3 _ _ (tty_set_cell (CHAR_SPACE, ATTRIB) t2)); auto; [|by rewrite Hs|by rewrite Hs].
  destruct tr_shows1 as (? & ? & ?). split; [done|split; [done|]]. simpl. by rewrite Hm.
Qed.

Lemma put_string_rep s k vid t :
  tty_rep k vid t ->
  exists k', put_string s k = Ok (tt, k') /\
    tty_rep k' vid (foldl (fun t c => tty_putc c t) t s) /\ screen_frame vid k k'.
Proof.
  revert k t. induction s as [|c s IH]; intros k t H.
  - exists k. by split.
  - destruct (putc_rep k vid t c H) as (k1 & E1 & H1 & F1 & _).
    destruct (IH k1 _ H1) as (k2 & E2 & H2 & F2).
    exists k2. split; [simpl; by kstep E1|]. split; [done|]. by rewrite F1.
Qed.
End Refine.

(** ** The screen functions refine the abstract screen *)

Section Claims.
Context `{L : Layout}.

Definition puts_step (s : ptr kernel) : Z * kernel -> res (Z * kernel + Z * kernel) :=
  fun '(index, k) =>
    c ← load s k index;
    if c =? 0 then Ok (inr (index, k))
    else r ← putc (u8 c) k; Ok (inl (index + 1, r.2)).

(** The loop of [puts] over the rest [l] of the string [pre ++ l]. *)
Lemma puts_runs s l pre k0 vid k t :
  (forall k', screen_frame vid k0 k' -> holds s k' (pre ++ l ++ [0])) ->
  Forall (fun b => is_byte b /\ b <> 0) l ->
  screen_frame vid k0 k -> tty_rep k vid t ->
  exists k', runs (puts_step s) (Z.of_nat (length pre), k) (length l)
      (Ok (Z.of_nat (length pre + length l), k')) /\
    tty_rep k' vid (foldl (fun t c => tty_putc c t) t l) /\ screen_frame vid k0 k'.
Proof.
  revert pre k t. induction l as [|c l IH]; intros pre k t Hs Hb F H; simpl in *.
  - exists k. split; [|done]. constructor. unfold puts_step.
    rewrite (Hs k F (length pre) 0) by by rewrite list_lookup_middle. simpl.
    by rewrite Nat.add_0_r.
  - inversion Hb as [|?? [Hc Hnz] Hb']; subst.
    destruct (putc_rep k vid t c H) as (k1 & E1 & H1 & F1 & _).
    destruct (IH (pre ++ [c]) k1 (tty_putc c t)) as (k' & R & H' & F'); [|done|by rewrite F|done|].
    { intros k' F'. rewrite <- app_assoc. by apply Hs. }
    exists k'. split; [|done]. rewrite length_app in R. simpl in R.
    eapply runs_step; [|replace (length pre + S (length l))%nat
      with (length pre + 1 + length l)%nat by lia; exact R].
    unfold puts_step. rewrite (Hs k F (length pre) c) by by rewrite list_lookup_middle. simpl.
    destruct (Z.eqb_spec c 0); [done|]. rewrite u8_small by (unfold is_byte in Hc; lia).
    rewrite E1. simpl. do 3 f_equal. lia.
Qed.

Lemma puts_rep s l k vid t :
  tty_rep k vid t ->
  (forall k', screen_frame vid k k' -> holds s k' (l ++ [0])) ->
  Forall (fun b => is_byte b /\ b <> 0) l -> Z.of_nat (length l) < 2 ^ 31 ->
  exists k', puts s k = Ok (Z.of_nat (length l), k') /\
    tty_rep k' vid (foldl (fun t c => tty_putc c t) t l) /\ screen_frame vid k k'.
Proof.
  intros H Hs Hb Hl.
  destruct (puts_runs s l [] k vid k t) as (k' & R & H' & F); [done|done|done|done|].
  exists k'. split; [|done]. unfold puts.
  apply (loop_runs_Z _ (puts_step s)) with (1 := R). unfold FUEL. lia.
Qed.

(** [puts] of a terminated string that the screen does not overlay prints
    exactly its characters: it terminates without a fault, returns their
    number, and the screen and the cursor become those of the abstract screen
    after the same characters; nothing outside the 4000 bytes of the
    terminal's own page, its saved cursor and the VGA ports changes. *)
Lemma puts_refines s l k vid t :
  tty_rep k vid t ->
  (forall k', screen_frame vid k k' -> holds s k' (l ++ [0])) ->
  Forall (fun b => is_byte b /\ b <> 0) l -> Z.of_nat (length l) < 2 ^ 31 ->
  exists k', puts s k = Ok (Z.of_nat (length l), k') /\
    tty_rep k' vid (foldl (fun t c => tty_putc c t) t l) /\ screen_frame vid k k'.
Proof. apply puts_rep. Qed.

(** (C15) One [putc] does what the abstract screen does (new line, wrap at column
    80, scroll at the last row), never faults, restores the interrupt flag,
    saves the new cursor for the running terminal and, when that terminal is on
    display, leaves the hardware cursor at the same place. *)
Theorem putc_refines c k vid t :
  tty_rep k vid t ->
  exists k', putc c k = Ok (tt, k') /\ tty_rep k' vid (tty_putc c t) /\
    screen_frame vid k k' /\ cursor_saved k' /\
    (on_screen (k_scr k) <> 0 ->
      hw_cursor (io_log (k_io k')) = cy (tty_putc c t) * NUM_COLS + cx (tty_putc c t)).
Proof. apply putc_rep. Qed.

Lemma alter_insert_same (r : list (Z * Z)) i (v w : Z * Z) :
  r !! i = Some w -> <[i := w]> (<[i := v]> r) = r.
Proof. intros H. rewrite list_insert_insert_eq. by apply list_insert_id. Qed.

Lemma tty_backspace_putc c t r :
  c <> 10 -> c <> 13 -> 0 <= cx t < NUM_COLS ->
  rows t !! Z.to_nat (cy t) = Some r -> r !! Z.to_nat (cx t) = Some (CHAR_SPACE, ATTRIB) ->
  tty_backspace (tty_putc c t) = t.
Proof.
  intros H1 H2 Hx Hr Hc. unfold tty_putc.
  rewrite (proj2 (Z.eqb_neq c 10) H1), (proj2 (Z.eqb_neq c 13) H2). simpl.
  rewrite (proj2 (Z.eqb_neq (cx t) NUM_COLS)) by lia. unfold tty_backspace. simpl.
  rewrite (proj2 (Z.eqb_neq (cx t + 1) 0)) by lia. simpl.
  unfold tty_set_cell. simpl. replace (cx t + 1 - 1) with (cx t) by lia.
  destruct t as [rs x y]. simpl in *. f_equal. apply list_eq. intros i.
  destruct (decide (i = Z.to_nat y)) as [->|Hne].
  - rewrite !list_lookup_alter_eq, Hr. simpl. f_equal. by apply alter_insert_same.
  - by rewrite !list_lookup_alter_ne by done.
Qed.

(** [screen_backspace] undoes [putc]: after a printable character put on a
    blank cell, it leaves the screen and the cursor as they were. *)
Lemma backspace_undoes_putc c k vid t r :
  tty_rep k vid t -> c <> 10 -> c <> 13 -> cx t < NUM_COLS ->
  rows t !! Z.to_nat (cy t) = Some r -> r !! Z.to_nat (cx t) = Some (CHAR_SPACE, ATTRIB) ->
  exists k', (putc c;; screen_backspace) k = Ok (tt, k') /\ tty_rep k' vid t /\
    screen_frame vid k k'.
Proof.
  intros H H1 H2 Hx Hr Hc. destruct (putc_rep k vid t c H) as (k1 & E1 & R1 & F1 & _).
  destruct (screen_backspace_rep k1 vid _ R1) as (k2 & E2 & R2 & F2 & _).
  exists k2. split; [by kstep E1|]. split; [|by rewrite F1].
  rewrite (tty_backspace_putc c t r) in R2; auto. pose proof (tr_xr _ _ _ H). lia.
Qed.
End Claims.

(** ** A machine whose screen is clear *)

Definition demo_kernel : kernel :=
  exec (clear (L := demo_layout)) demo_state.

Definition clear_tty : tty := Tty blank_screen 0 0.

Lemma demo_kernel_rep : tty_rep (L := demo_layout) demo_kernel VIDEO_PAGE clear_tty.
Proof.
  unfold demo_kernel, exec. destruct (clear_spec (L := demo_layout) demo_state None VIDEO_PAGE None
    demo_paging_rep) as (k & -> & Hk & Hs & F).
  rewrite Hk. split; simpl; auto; try (unfold NUM_COLS, NUM_ROWS; lia).
  exists None, None. apply demo_paging_rep.
Qed.

Lemma puts_refines_witness :
  exists k', puts (L := demo_layout) (lit_ptr 0x400000 (bytes_of_string "ok"%string ++ [0])) demo_kernel
    = Ok (2, k') /\
    tty_rep (L := demo_layout) k' VIDEO_PAGE
      (foldl (fun t c => tty_putc c t) clear_tty (bytes_of_string "ok"%string)).
Proof.
  destruct (puts_refines (L := demo_layout) (lit_ptr 0x400000 (bytes_of_string "ok"%string ++ [0]))
    (bytes_of_string "ok"%string) demo_kernel VIDEO_PAGE clear_tty) as (k' & E & H & _).
  - exact demo_kernel_rep.
  - intros k' _ i b Hi. by apply arr_get_Some.
  - unfold is_byte. repeat constructor; done.
  - reflexivity.
  - exists k'. by split.
Defined.

Lemma putc_refines_witness :
  exists k', putc (L := demo_layout) 65 demo_kernel = Ok (tt, k') /\
    tty_rep (L := demo_layout) k' VIDEO_PAGE (tty_putc 65 clear_tty).
Proof.
  destruct (putc_refines (L := demo_layout) 65 demo_kernel VIDEO_PAGE clear_tty demo_kernel_rep)
    as (k' & E & H & _). exists k'. by split.
Defined.

Lemma backspace_undoes_putc_witness :
  exists k', (putc (L := demo_layout) 65;; screen_backspace (L := demo_layout)) demo_kernel
    = Ok (tt, k') /\ tty_rep (L := demo_layout) k' VIDEO_PAGE clear_tty.
Proof.
  destruct (backspace_undoes_putc (L := demo_layout) 65 demo_kernel VIDEO_PAGE clear_tty blank_row)
    as (k' & E & H & _); [exact demo_kernel_rep|done..|]. exists k'. by split.
Defined.
