(* ===== verification/Printf.v ===== *)
(** * Formatted output (lib.c: [printf], [print_all_ascii])

    The format string is a pointer, the variable arguments a list of 32-bit words
    (or pointers, for [%s]) in the order they are on the stack.  [rendered] says
    what a format with its arguments should print; [printf] is shown to put
    exactly those characters on the screen. *)

From stdpp Require Import base gmap list numbers strings.
From Stdlib Require Import ZArith Lia.
From S2P Require Import Prelude Pointers Ports Pic Paging State Machine VirtMem CString MemFns.
From S2P Require Import Pcb Demo Screen.

(** A variable argument. *)
Inductive arg : Type :=
| ANum (v : Z)
| AStr (p : ptr kernel).

Definition HEX_BASE_VAL : Z := 16.

Section Printf.
Context `{L : Layout}.

(** The 32-bit word of an argument, and the argument as a [char*]. *)
Definition arg_word (a : arg) : Z :=
  match a with ANum v => v | AStr p => addr p end.
Definition arg_str (a : arg) : ptr kernel :=
  match a with ANum v => vptr v | AStr p => p end.

(** [*esp]; reading past the arguments reads whatever the stack holds. *)
Definition next_arg (args : list arg) : res (arg * list arg) :=
  match args with [] => Err (OutOfBounds 0) | a :: args => Ok (a, args) end.

(** [puts] of a local array. *)
Definition puts_local (sp : Z) (l : list Z) (from : Z) : K unit :=
  puts (ptr_add (lit_ptr sp l) from);; mret tt.

(** The conversions; [conv_buf] is what the local buffer holds on entry. *)
Definition print_hex (sp : Z) (conv_buf : list Z) (v : Z) : K unit := fun k =>
  l ← itoa v (arr_ptr sp) 16 conv_buf; puts_local sp l 0 k.

Definition print_hex_alternate (sp : Z) (conv_buf : list Z) (v : Z) : K unit := fun k =>
  l ← itoa v (ptr_add (arr_ptr sp) 8) 16 conv_buf;
  starting_index ← strlen (ptr_add (arr_ptr sp) 8) l;
  l ← for_range starting_index 8 (fun i l => arr_set l i 48) l;
  puts_local sp l starting_index k.

Definition print_unsigned (sp : Z) (conv_buf : list Z) (v : Z) : K unit := fun k =>
  l ← itoa v (arr_ptr sp) 10 conv_buf; puts_local sp l 0 k.

Definition print_signed (sp : Z) (conv_buf : list Z) (v : Z) : K unit := fun k =>
  let value := s32 v in
  if value <? 0 then
    l ← arr_set conv_buf 0 45;
    l ← itoa (u32 (- value)) (ptr_add (arr_ptr sp) 1) 10 l;
    puts_local sp l 0 k
  else
    l ← itoa (u32 value) (arr_ptr sp) 10 conv_buf; puts_local sp l 0 k.

(** The inner switch: the character [c] after [%] and [#]s. *)
Definition conversion (sp : Z) (conv_buf : list Z) (alternate c : Z) (args : list arg) :
    K (list arg) :=
  if c =? 37 then putc 37;; mret args
  else if c =? 120 then
    a ← lift (next_arg args);
    (if alternate =? 0 then print_hex sp (take 64 conv_buf) (arg_word a.1)
     else print_hex_alternate sp (take 64 conv_buf) (arg_word a.1));;
    mret a.2
  else if c =? 117 then
    a ← lift (next_arg args); print_unsigned sp (take 36 conv_buf) (arg_word a.1);; mret a.2
  else if c =? 100 then
    a ← lift (next_arg args); print_signed sp (take 36 conv_buf) (arg_word a.1);; mret a.2
  else if c =? 99 then
    a ← lift (next_arg args); putc (u8 (arg_word a.1));; mret a.2
  else if c =? 115 then
    a ← lift (next_arg args); puts (arg_str a.1);; mret a.2
  else mret args.

(** From [%] to the conversion character: each [#] sets [alternate]. *)
Definition skip_flags (format : ptr kernel) (i : Z) (k : kernel) : res (Z * Z * Z) :=
  loop FUEL (fun '(i, alternate) =>
    c ← load format k i;
    if c =? 35 then Ok (inl (i + 1, 1)) else Ok (inr (i, alternate, c))) (i, 0).

(** One turn of the loop of [printf], from character [i] of the format. *)
Definition printf_step (sp : Z) (junk : Z -> list Z) (format : ptr kernel) :
    Z * list arg * kernel -> res (Z * list arg * kernel + Z * kernel) :=
  fun '(i, args, k) =>
    c ← load format k i;
    if c =? 0 then Ok (inr (i, k))
    else if c =? 37 then
      f ← skip_flags format (i + 1) k;
      let '(j, alternate, c) := f in
      r ← conversion sp (junk i) alternate c args k;
      Ok (inl (j + 1, r.1, r.2))
    else
      r ← putc c k; Ok (inl (i + 1, args, r.2)).

(** [junk i] is the uninitialised memory of the buffer at character [i]. *)
Definition printf (junk : Z -> list Z) (format : ptr kernel) (args : list arg) : K Z := fun k =>
  loop FUEL (printf_step (r_esp (k_cpu k)) junk format) (0, args, k).

(** A string literal of the program. *)
Definition literal (s : string) : ptr kernel := lit_ptr 0x400000 (bytes_of_string s ++ [0]).

Definition print_all_ascii (junk : Z -> list Z) : K unit :=
  kfor 0 HEX_BASE_VAL (fun i =>
    printf junk (literal "%d: ") [ANum (i * HEX_BASE_VAL)];;
    kfor 0 HEX_BASE_VAL (fun j => putc (u8 (i * HEX_BASE_VAL + j)));;
    putc 10).
End Printf.

(** ** What a format should print *)

Section Rendered.
Context `{L : Layout}.

(** [rendered vid k fmt args out]: the characters [out] are what [fmt] with
    [args] stands for.  A string argument is one that the screen does not
    overlay. *)
Inductive rendered (vid : Z) (k : kernel) : list Z -> list arg -> list Z -> Prop :=
| r_end args : rendered vid k [] args []
| r_char c fmt args out :
    is_byte c -> c <> 0 -> c <> 37 ->
    rendered vid k fmt args out -> rendered vid k (c :: fmt) args (c :: out)
| r_percent fmt args out :
    rendered vid k fmt args out -> rendered vid k (37 :: 37 :: fmt) args (37 :: out)
| r_hex v ds fmt args out :
    0 <= v < 2 ^ 32 -> is_numeral 16 v ds ->
    rendered vid k fmt args out -> rendered vid k (37 :: 120 :: fmt) (ANum v :: args) (ds ++ out)
| r_hex8 v ds fmt args out :
    0 <= v < 2 ^ 32 -> is_numeral 16 v ds ->
    rendered vid k fmt args out ->
    rendered vid k (37 :: 35 :: 120 :: fmt) (ANum v :: args)
      (replicate (8 - length ds) 48 ++ ds ++ out)
| r_unsigned v ds fmt args out :
    0 <= v < 2 ^ 32 -> is_numeral 10 v ds ->
    rendered vid k fmt args out -> rendered vid k (37 :: 117 :: fmt) (ANum v :: args) (ds ++ out)
| r_signed v ds fmt args out :
    0 <= v < 2 ^ 31 -> is_numeral 10 v ds ->
    rendered vid k fmt args out -> rendered vid k (37 :: 100 :: fmt) (ANum v :: args) (ds ++ out)
| r_negative v ds fmt args out :
    2 ^ 31 <= v < 2 ^ 32 -> is_numeral 10 (2 ^ 32 - v) ds ->
    rendered vid k fmt args out ->
    rendered vid k (37 :: 100 :: fmt) (ANum v :: args) (45 :: ds ++ out)
| r_chr v fmt args out :
    rendered vid k fmt args out ->
    rendered vid k (37 :: 99 :: fmt) (ANum v :: args) (u8 v :: out)
| r_str p l fmt args out :
    (forall k', screen_frame vid k k' -> holds p k' (l ++ [0])) ->
    Forall (fun b => is_byte b /\ b <> 0) l -> Z.of_nat (length l) < 2 ^ 31 ->
    rendered vid k fmt args out -> rendered vid k (37 :: 115 :: fmt) (AStr p :: args) (l ++ out).
End Rendered.

(** ** [printf] prints what it should *)

Section PrintfSpec.
Context `{L : Layout}.

(** The screen after the characters [out]. *)
Abbreviation tty_puts := (foldl (fun t c => tty_putc c t)).

(** A computation prints [out]. *)
Definition prints (vid : Z) (t : tty) (out : list Z) (k : kernel) (m : K unit) : Prop :=
  exists k', m k = Ok (tt, k') /\ tty_rep k' vid (tty_puts t out) /\ screen_frame vid k k'.

Lemma puts_local_prints sp l from k vid t ds :
  tty_rep k vid t -> holds (ptr_add (arr_ptr sp) from) l (ds ++ [0]) ->
  Forall (fun b => is_byte b /\ b <> 0) ds -> Z.of_nat (length ds) < 2 ^ 31 ->
  prints vid t ds k (puts_local sp l from).
Proof.
  intros H Hh Hb Hl. destruct (puts_rep (ptr_add (lit_ptr sp l) from) ds k vid t H) as (k' & E & R & F).
  - intros k' _ i b Hi. apply (Hh i b Hi).
  - done.
  - done.
  - exists k'. split; [|done]. unfold puts_local. by kstep E.
Qed.

Lemma arr_region_add sp d n :
  0 <= d -> Region (fun l : list Z => d + n <= Z.of_nat (length l)) (ptr_add (arr_ptr sp) d) n.
Proof.
  intros Hd. destruct (arr_region sp (d + n)) as [R1 R2]. split; simpl in *.
  - intros l i b Hl Hi. apply (R1 l (d + i) b); lia.
  - intros l i b l' j Hl Hi Hj E. rewrite (R2 l (d + i) b l' (d + j)) by (done || lia).
    destruct (Z.eqb_spec (d + i) (d + j)), (Z.eqb_spec i j); done || lia.
Qed.

(** [itoa] into the local buffer from index [d] on. *)
Lemma itoa_local sp d l v radix :
  0 <= d -> d + 33 <= Z.of_nat (length l) -> 2 <= radix <= 36 -> 0 <= v < 2 ^ 32 ->
  exists l' ds, itoa v (ptr_add (arr_ptr sp) d) radix l = Ok l' /\
    holds (ptr_add (arr_ptr sp) d) l' (ds ++ [0]) /\ is_numeral radix v ds /\
    length l' = length l /\ (forall i, 0 <= i < d -> arr_get l' i = arr_get l i).
Proof.
  intros Hd Hl Hr Hv. pose proof (arr_region_add sp d 33 Hd) as HR.
  destruct (itoa_spec (fun l : list Z => d + 33 <= Z.of_nat (length l)) (ptr_add (arr_ptr sp) d) 33
    radix Hr v l Hv Hl ltac:(lia))
    as (l' & ds & E & _ & T & Hh & Hn).
  exists l', ds. split; [done|]. split; [done|]. split; [done|].
  set (keeps := fun l l' : list Z => length l' = length l /\
    forall i, 0 <= i < d -> arr_get l' i = arr_get l i).
  assert (PreOrder keeps) as HPre.
  { split; [done|]. intros x y z [L1 G1] [L2 G2]. split; [congruence|].
    intros i Hi. by rewrite G2, G1. }
  apply (touches_frame keeps (ptr_add (arr_ptr sp) d) 33); [|done].
  - intros x i b x' Hi Es. simpl in Es. pose proof (arr_set_length _ _ _ _ Es) as Hlen.
    split; [done|]. intros j Hj. apply arr_set_inv in Es as [Hb ->].
    rewrite arr_get_insert by done. destruct (Z.eqb_spec (d + i) j); [lia|done].
Qed.

Lemma ptr_add_0 sp l bs : holds (ptr_add (arr_ptr sp) 0) l bs <-> holds (arr_ptr sp) l bs.
Proof. unfold holds. simpl. split; intros H i b Hb; specialize (H i b Hb); by rewrite ?Z.add_0_l in *. Qed.

(** [itoa] at the start of the buffer, and the digits printed. *)
Lemma print_number sp l v radix k vid t ds :
  tty_rep k vid t -> (36 <= length l)%nat -> 2 <= radix <= 36 -> 0 <= v < 2 ^ 32 ->
  is_numeral radix v ds ->
  prints vid t ds k (fun k => l ← itoa v (arr_ptr sp) radix l; puts_local sp l 0 k).
Proof.
  intros H Hl Hr Hv Hn. pose proof (arr_region sp 33) as HR.
  assert (33 <= Z.of_nat (length l)) as Hl33 by lia.
  destruct (itoa_spec (fun l : list Z => 33 <= Z.of_nat (length l)) (arr_ptr sp) 33
    radix Hr v l Hv Hl33 ltac:(lia))
    as (l' & ds' & E & _ & _ & Hh & Hn').
  rewrite (numeral_unique radix Hr v ds ds' Hn Hn') in *. rewrite <- ptr_add_0 in Hh.
  destruct (puts_local_prints sp l' 0 k vid t ds' H Hh) as (k' & E' & R & F).
  - by eapply numeral_bytes.
  - destruct Hn' as (_ & _ & ? & _). lia.
  - exists k'. split; [|done]. by rewrite E, Ok_bind.
Qed.

Lemma print_signed_prints sp l v k vid t out :
  tty_rep k vid t -> (36 <= length l)%nat ->
  (0 <= v < 2 ^ 31 /\ is_numeral 10 v out \/
   2 ^ 31 <= v < 2 ^ 32 /\ exists ds, is_numeral 10 (2 ^ 32 - v) ds /\ out = 45 :: ds) ->
  prints vid t out k (print_signed sp l v).
Proof.
  intros H Hl [[Hv Hn]|[Hv (ds & Hn & ->)]]; unfold print_signed.
  - destruct (print_number sp l v 10 k vid t out) as (k' & E & R & F); [done|done|lia|lia|done|].
    exists k'. split; [|done]. rewrite s32_small by lia.
    rewrite (proj2 (Z.ltb_ge v 0)) by lia. by rewrite u32_small by lia.
  - assert (s32 v = v - 2 ^ 32) as Es.
    { unfold s32, signed. rewrite (Z.mod_small v) by lia. case_cmp; lia. }
    destruct l as [|c l]; [simpl in Hl; lia|]. simpl in Hl.
    destruct (itoa_local sp 1 (45 :: l) (2 ^ 32 - v) 10) as (l' & ds' & E & Hh & Hn' & Hlen & G);
      [lia|simpl; lia|lia|lia|].
    rewrite (numeral_unique 10 ltac:(lia) _ ds ds' Hn Hn').
    destruct (puts_local_prints sp l' 0 k vid t (45 :: ds') H) as (k' & E' & R & F).
    + apply ptr_add_0. intros i b Hi. destruct i as [|i]; simpl in Hi.
      * injection Hi as <-. change (arr_get l' 0 = Ok 45). rewrite (G 0) by lia. done.
      * specialize (Hh i b Hi). cbn [load ptr_add arr_ptr] in Hh |- *. rewrite <- Hh. f_equal. lia.
    + constructor; [unfold is_byte; lia|]. by eapply (numeral_bytes 10).
    + destruct Hn' as (_ & _ & ? & _). simpl. lia.
    + exists k'. split; [|done]. cbv zeta. rewrite Es, (proj2 (Z.ltb_lt _ 0)) by lia.
      rewrite arr_set_ok by (simpl; lia). rewrite Ok_bind. simpl (<[_ := _]> _).
      replace (u32 (- (v - 2 ^ 32))) with (2 ^ 32 - v) by (rewrite u32_small; lia).
      rewrite E, Ok_bind. done.
Qed.

(** A number below 2^32 has at most eight hexadecimal digits. *)
Lemma hex_length v ds : 0 <= v < 2 ^ 32 -> is_numeral 16 v ds -> (1 <= length ds <= 8)%nat.
Proof.
  intros Hv (_ & _ & Hl & Hnz & Hz). destruct (Z.eq_dec v 0) as [E|E].
  - rewrite (Hz E). simpl. lia.
  - specialize (Hnz E). assert (Z.of_nat (length ds) - 1 < 8); [|lia].
    apply (Z.pow_lt_mono_r_iff 16); [lia|lia|]. change (16 ^ 8) with (2 ^ 32). lia.
Qed.

(** The zeros in front of an eight-digit number. *)
Lemma zero_fill (l : list Z) (n : Z) :
  0 <= n <= 8 -> 8 <= Z.of_nat (length l) ->
  exists l', for_range n 8 (fun i l => arr_set l i 48) l = Ok l' /\ length l' = length l /\
    forall i, arr_get l' i = if (n <=? i) && (i <? 8) then Ok 48 else arr_get l i.
Proof.
  intros Hn Hl.
  destruct (for_range_inv (fun j l' => length l' = length l /\
    forall i, arr_get l' i = if (n <=? i) && (i <? j) then Ok 48 else arr_get l i)
    n 8 (fun i l => arr_set l i 48) l) as (l' & E & Hl' & G); [lia| | |by eauto].
  - split; [done|]. intros i. destruct (Z.leb_spec n i), (Z.ltb_spec i n); simpl; lia || done.
  - intros i l1 Hi (Hl1 & G1). rewrite arr_set_ok by lia. eexists. split; [done|].
    rewrite length_insert. split; [done|]. intros j. rewrite arr_get_insert, G1 by lia.
    destruct (Z.eqb_spec i j), (Z.leb_spec n j), (Z.ltb_spec j i), (Z.ltb_spec j (i + 1)); simpl; lia || done.
Qed.

Lemma print_hex_alternate_prints sp l v k vid t ds :
  tty_rep k vid t -> (64 <= length l)%nat -> 0 <= v < 2 ^ 32 -> is_numeral 16 v ds ->
  prints vid t (replicate (8 - length ds) 48 ++ ds) k (print_hex_alternate sp l v).
Proof.
  intros H Hl Hv Hn. destruct (itoa_local sp 8 l v 16) as (l' & ds' & E & Hh & Hn' & Hlen & _); [lia..|].
  rewrite (numeral_unique 16 ltac:(lia) _ ds ds' Hn Hn').
  pose proof (hex_length v ds' Hv Hn') as H8.
  pose proof (numeral_bytes 16 v ds' Hn') as Hb.
  destruct (zero_fill l' (Z.of_nat (length ds'))) as (l2 & E2 & Hl2 & G2); [lia|lia|].
  destruct (puts_local_prints sp l2 (Z.of_nat (length ds')) k vid t
    (replicate (8 - length ds') 48 ++ ds') H) as (k' & E' & R & F).
  - intros i b Hi. simpl. rewrite G2. rewrite <- app_assoc in Hi.
    destruct (decide (i < 8 - length ds')%nat) as [Hlt|Hge].
    + rewrite lookup_app_l in Hi by (rewrite length_replicate; lia).
      apply lookup_replicate in Hi as [-> _].
      by rewrite (proj2 (Z.leb_le _ _)), (proj2 (Z.ltb_lt _ _)) by lia.
    + rewrite lookup_app_r in Hi by (rewrite length_replicate; lia).
      rewrite length_replicate in Hi. specialize (Hh _ _ Hi). simpl in Hh.
      rewrite (proj2 (Z.ltb_ge (Z.of_nat (length ds') + Z.of_nat i) 8)), andb_false_r by lia.
      rewrite <- Hh. f_equal. lia.
  - apply Forall_app. split; [|done]. apply Forall_replicate. unfold is_byte. lia.
  - rewrite length_app, length_replicate. lia.
  - exists k'. split; [|done]. unfold print_hex_alternate. rewrite E, Ok_bind.
    rewrite (strlen_terminated _ _ ds').
    + rewrite Ok_bind, E2, Ok_bind. done.
    + done.
    + eapply Forall_impl; [exact Hb|]. by intros ? [].
    + lia.
Qed.

Lemma prints_app vid t o1 o2 k (m1 m2 : K unit) :
  prints vid t o1 k m1 ->
  (forall k', screen_frame vid k k' -> tty_rep k' vid (tty_puts t o1) ->
    prints vid (tty_puts t o1) o2 k' m2) ->
  prints vid t (o1 ++ o2) k (m1;; m2).
Proof.
  intros (k1 & E1 & R1 & F1) H2. destruct (H2 k1 F1 R1) as (k2 & E2 & R2 & F2).
  exists k2. split; [by kstep E1|]. rewrite foldl_app. split; [done|]. by rewrite F1.
Qed.

Lemma putc_prints vid t c k : tty_rep k vid t -> prints vid t [c] k (putc c).
Proof. intros H. destruct (putc_rep k vid t c H) as (k' & E & R & F & _). by exists k'. Qed.

(** *** One turn of the loop *)

Section Turns.
Context (sp : Z) (junk : Z -> list Z) (format : ptr kernel).
Hypothesis Hjunk : forall i, (64 <= length (junk i))%nat.

Lemma skip_none i k c : load format k i = Ok c -> c <> 35 -> skip_flags format i k = Ok (i, 0, c).
Proof.
  intros E Hc. unfold skip_flags. eapply (loop_runs_Z _ _ _ 0); [|done].
  constructor. rewrite E, Ok_bind. by rewrite (proj2 (Z.eqb_neq c 35)).
Qed.

Lemma skip_hash i k c :
  load format k i = Ok 35 -> load format k (i + 1) = Ok c -> c <> 35 ->
  skip_flags format i k = Ok (i + 1, 1, c).
Proof.
  intros E0 E1 Hc. unfold skip_flags. eapply (loop_runs_Z _ _ _ 1); [|done].
  eapply runs_step; [by rewrite E0, Ok_bind|]. constructor. rewrite E1, Ok_bind.
  by rewrite (proj2 (Z.eqb_neq c 35)).
Qed.

Lemma percent_turn i c args args' k k' :
  load format k i = Ok 37 -> load format k (i + 1) = Ok c -> c <> 35 ->
  conversion sp (junk i) 0 c args k = Ok (args', k') ->
  printf_step sp junk format (i, args, k) = Ok (inl (i + 2, args', k')).
Proof.
  intros E0 E1 Hc E. unfold printf_step. rewrite E0, Ok_bind. cbn [Z.eqb].
  rewrite (skip_none _ _ _ E1 Hc), Ok_bind. cbv beta iota. rewrite E, Ok_bind. cbn [fst snd Z.eqb Pos.eqb].
  do 4 f_equal. lia.
Qed.

Lemma percent_hash_turn i c args args' k k' :
  load format k i = Ok 37 -> load format k (i + 1) = Ok 35 -> load format k (i + 2) = Ok c ->
  c <> 35 -> conversion sp (junk i) 1 c args k = Ok (args', k') ->
  printf_step sp junk format (i, args, k) = Ok (inl (i + 3, args', k')).
Proof.
  intros E0 E1 E2 Hc E. unfold printf_step. rewrite E0, Ok_bind. cbn [Z.eqb].
  replace (i + 2) with (i + 1 + 1) in E2 by lia.
  rewrite (skip_hash _ _ _ E1 E2 Hc), Ok_bind. cbv beta iota. rewrite E, Ok_bind.
  cbn [fst snd Z.eqb Pos.eqb]. do 4 f_equal. lia.
Qed.

(** A conversion that prints [o] for the argument [a]. *)
Definition converts (vid : Z) (t : tty) (k : kernel) (i alternate c : Z)
    (args args' : list arg) (o : list Z) : Prop :=
  exists k', conversion sp (junk i) alternate c args k = Ok (args', k') /\
    tty_rep k' vid (tty_puts t o) /\ screen_frame vid k k'.

Lemma arg_conversion vid t k o a args (m : arg -> K unit) :
  prints vid t o k (m a) ->
  exists k', (a ← lift (next_arg (a :: args)); m a.1;; mret a.2) k = Ok (args, k') /\
    tty_rep k' vid (tty_puts t o) /\ screen_frame vid k k'.
Proof.
  intros (k' & E & R & F). exists k'. split; [|done]. simpl next_arg. kcbn. cbn [fst snd].
  by kstep E.
Qed.

Lemma hex_converts vid t k i v ds args :
  tty_rep k vid t -> 0 <= v < 2 ^ 32 -> is_numeral 16 v ds ->
  converts vid t k i 0 120 (ANum v :: args) args ds.
Proof.
  intros H Hv Hn. unfold converts, conversion; cbn [Z.eqb Pos.eqb]; apply (arg_conversion vid t k ds (ANum v) args
    (fun a => print_hex sp (take 64 (junk i)) (arg_word a))).
  apply print_number; [done|rewrite length_take; pose proof (Hjunk i); lia|lia|done|done].
Qed.

Lemma hex8_converts vid t k i v ds args :
  tty_rep k vid t -> 0 <= v < 2 ^ 32 -> is_numeral 16 v ds ->
  converts vid t k i 1 120 (ANum v :: args) args (replicate (8 - length ds) 48 ++ ds).
Proof.
  intros H Hv Hn. unfold converts, conversion; cbn [Z.eqb Pos.eqb]; apply (arg_conversion vid t k _ (ANum v) args
    (fun a => print_hex_alternate sp (take 64 (junk i)) (arg_word a))).
  apply print_hex_alternate_prints; [done|rewrite length_take; pose proof (Hjunk i); lia|done|done].
Qed.

Lemma unsigned_converts vid t k i v ds args :
  tty_rep k vid t -> 0 <= v < 2 ^ 32 -> is_numeral 10 v ds ->
  converts vid t k i 0 117 (ANum v :: args) args ds.
Proof.
  intros H Hv Hn. unfold converts, conversion; cbn [Z.eqb Pos.eqb]; apply (arg_conversion vid t k ds (ANum v) args
    (fun a => print_unsigned sp (take 36 (junk i)) (arg_word a))).
  apply print_number; [done|rewrite length_take; pose proof (Hjunk i); lia|lia|done|done].
Qed.

Lemma signed_converts vid t k i v out args :
  tty_rep k vid t ->
  (0 <= v < 2 ^ 31 /\ is_numeral 10 v out \/
   2 ^ 31 <= v < 2 ^ 32 /\ exists ds, is_numeral 10 (2 ^ 32 - v) ds /\ out = 45 :: ds) ->
  converts vid t k i 0 100 (ANum v :: args) args out.
Proof.
  intros H Hv. unfold converts, conversion; cbn [Z.eqb Pos.eqb]; apply (arg_conversion vid t k out (ANum v) args
    (fun a => print_signed sp (take 36 (junk i)) (arg_word a))).
  apply print_signed_prints; [done|rewrite length_take; pose proof (Hjunk i); lia|done].
Qed.

Lemma chr_converts vid t k i v args :
  tty_rep k vid t -> converts vid t k i 0 99 (ANum v :: args) args [u8 v].
Proof.
  intros H. unfold converts, conversion; cbn [Z.eqb Pos.eqb]; apply (arg_conversion vid t k _ (ANum v) args (fun a => putc (u8 (arg_word a)))).
  by apply putc_prints.
Qed.

Lemma str_converts vid t k i p l args :
  tty_rep k vid t -> (forall k', screen_frame vid k k' -> holds p k' (l ++ [0])) ->
  Forall (fun b => is_byte b /\ b <> 0) l -> Z.of_nat (length l) < 2 ^ 31 ->
  converts vid t k i 0 115 (AStr p :: args) args l.
Proof.
  intros H Hp Hb Hl. destruct (puts_rep p l k vid t H Hp Hb Hl) as (k' & E & R & F).
  exists k'. split; [|done]. unfold conversion; cbn [Z.eqb Pos.eqb]. simpl next_arg. kcbn. cbn [fst snd arg_str]. by kstep E.
Qed.

Lemma percent_converts vid t k i args :
  tty_rep k vid t -> converts vid t k i 0 37 args args [37].
Proof.
  intros H. destruct (putc_prints vid t 37 k H) as (k' & E & R & F).
  exists k'. split; [|done]. unfold conversion; cbn [Z.eqb Pos.eqb]. by kstep E.
Qed.
(** *** The loop *)

Context (vid : Z) (k0 : kernel).

(** The loop from character [length pre] of the format on. *)
Definition run_from (pre fmt : list Z) (args : list arg) (out : list Z) : Prop :=
  forall k t, screen_frame vid k0 k -> tty_rep k vid t ->
    (forall k', screen_frame vid k0 k' -> holds format k' (pre ++ fmt ++ [0])) ->
    exists k' n, (n <= length fmt)%nat /\
      runs (printf_step sp junk format) (Z.of_nat (length pre), args, k) n
        (Ok (Z.of_nat (length pre + length fmt), k')) /\
      tty_rep k' vid (tty_puts t out) /\ screen_frame vid k0 k'.

Lemma holds_at pre l fmt k (i : nat) b :
  holds format k (pre ++ (l ++ fmt) ++ [0]) -> l !! i = Some b ->
  load format k (Z.of_nat (length pre) + Z.of_nat i) = Ok b.
Proof.
  intros H Hi. rewrite <- Nat2Z.inj_add. apply H.
  rewrite lookup_app_r by lia. replace (length pre + i - length pre)%nat with i by lia.
  rewrite <- app_assoc. apply lookup_app_l_Some. done.
Qed.

(** A turn over the characters [l], then the rest. *)
Lemma turn_then pre l fmt args args' o out :
  l <> [] ->
  (forall k t, screen_frame vid k0 k -> tty_rep k vid t ->
    holds format k (pre ++ (l ++ fmt) ++ [0]) ->
    exists k', printf_step sp junk format (Z.of_nat (length pre), args, k) =
        Ok (inl (Z.of_nat (length pre) + Z.of_nat (length l), args', k')) /\
      tty_rep k' vid (tty_puts t o) /\ screen_frame vid k k') ->
  (forall pre, run_from pre fmt args' out) ->
  run_from pre (l ++ fmt) args (o ++ out).
Proof.
  intros Hl Hturn IH k t F H Hh.
  destruct (Hturn k t F H (Hh k F)) as (k1 & E1 & R1 & F1).
  destruct (IH (pre ++ l) k1 (tty_puts t o)) as (k2 & n & Hn & R2 & H2 & F2);
    [by rewrite F|done|intros k' F'; rewrite <- app_assoc, (app_assoc l); by apply Hh|].
  exists k2, (S n). rewrite length_app in R2 |- *. split; [destruct l; [done|simpl; lia]|].
  split; [|by rewrite foldl_app].
  eapply runs_step; [exact E1|].
  rewrite <- Nat2Z.inj_add.
  by replace (length pre + (length l + length fmt))%nat
    with (length pre + length l + length fmt)%nat by lia.
Qed.

Lemma converts_turn pre c fmt args args' o out :
  c <> 35 ->
  (forall k t i, screen_frame vid k0 k -> tty_rep k vid t -> converts vid t k i 0 c args args' o) ->
  (forall pre, run_from pre fmt args' out) ->
  run_from pre (37 :: c :: fmt) args (o ++ out).
Proof.
  intros Hc Hconv IH. apply (turn_then pre [37; c] fmt args args'); [done| |done].
  intros k t F H Hh. destruct (Hconv k t (Z.of_nat (length pre)) F H) as (k' & E & R & F').
  exists k'. split; [|done]. change (Z.of_nat (length [37; c])) with 2.
  apply (percent_turn _ c); [|by apply (holds_at pre [37; c] fmt k 1)|done|done].
  rewrite <- (Z.add_0_r (Z.of_nat (length pre))). by apply (holds_at pre [37; c] fmt k 0).
Qed.

Lemma printf_runs fmt args out :
  rendered vid k0 fmt args out -> forall pre, run_from pre fmt args out.
Proof.
  induction 1 as [args|c fmt args out Hb Hz Hp _ IH|fmt args out _ IH|v ds fmt args out Hv Hn _ IH
    |v ds fmt args out Hv Hn _ IH|v ds fmt args out Hv Hn _ IH|v ds fmt args out Hv Hn _ IH
    |v ds fmt args out Hv Hn _ IH|v fmt args out _ IH|p l fmt args out Hp Hb Hl _ IH]; intros pre.
  - intros k t F H Hh. exists k, 0%nat. split; [lia|]. split; [|done]. constructor.
    unfold printf_step. rewrite (Hh k F (length pre) 0) by (rewrite app_nil_l; by rewrite list_lookup_middle).
    rewrite Ok_bind. simpl length. rewrite Nat.add_0_r. done.
  - apply (turn_then pre [c] fmt args args [c]); [done| |done]. intros k t F H Hh.
    destruct (putc_prints vid t c k H) as (k' & E & R & F'). exists k'. split; [|done].
    pose proof (holds_at pre [c] fmt k 0 c Hh eq_refl) as El. rewrite Z.add_0_r in El.
    unfold printf_step. rewrite El, Ok_bind.
    rewrite (proj2 (Z.eqb_neq c 0)), (proj2 (Z.eqb_neq c 37)) by done. by rewrite E, Ok_bind.
  - apply (converts_turn pre 37 fmt args args [37]); [done| |done].
    intros. by apply percent_converts.
  - apply (converts_turn pre 120 fmt (ANum v :: args) args); [done| |done]. intros. by apply hex_converts.
  - rewrite app_assoc.
    apply (turn_then pre [37; 35; 120] fmt (ANum v :: args) args); [done| |done]. intros k t F H Hh.
    destruct (hex8_converts vid t k (Z.of_nat (length pre)) v ds args H Hv Hn) as (k' & E & R & F').
    exists k'. split; [|done]. change (Z.of_nat (length [37; 35; 120])) with 3.
    apply (percent_hash_turn _ 120); [|by apply (holds_at pre [37; 35; 120] fmt k 1)
      |by apply (holds_at pre [37; 35; 120] fmt k 2)|done|done].
    rewrite <- (Z.add_0_r (Z.of_nat (length pre))). by apply (holds_at pre [37; 35; 120] fmt k 0).
  - apply (converts_turn pre 117 fmt (ANum v :: args) args); [done| |done]. intros. by apply unsigned_converts.
  - apply (converts_turn pre 100 fmt (ANum v :: args) args); [done| |done]. intros. apply signed_converts; auto.
  - apply (converts_turn pre 100 fmt _ args (45 :: ds)); [done| |done]. intros.
    apply signed_converts; eauto.
  - apply (converts_turn pre 99 fmt _ args [u8 v]); [done| |done]. intros. by apply chr_converts.
  - apply (converts_turn pre 115 fmt (AStr p :: args) args); [done| |done]. intros k t i F H.
    apply str_converts; auto. intros k' F'. apply Hp. by rewrite F.
Qed.
End Turns.

Lemma printf_rep junk format fmt args out k vid t :
  (forall i, (64 <= length (junk i))%nat) -> tty_rep k vid t ->
  rendered vid k fmt args out -> Z.of_nat (length fmt) < 2 ^ 31 ->
  (forall k', screen_frame vid k k' -> holds format k' (fmt ++ [0])) ->
  exists k', printf junk format args k = Ok (Z.of_nat (length fmt), k') /\
    tty_rep k' vid (tty_puts t out) /\ screen_frame vid k k'.
Proof.
  intros Hj H Hr Hl Hh.
  destruct (printf_runs (r_esp (k_cpu k)) junk format Hj vid k fmt args out Hr [] k t)
    as (k' & n & Hn & R & H' & F'); [done|done|done|].
  exists k'. split; [|done]. unfold printf. apply (loop_runs_Z _ _ _ _ _ R). unfold FUEL. lia.
Qed.

(** A literal's characters are always there. *)
Lemma literal_holds s k : holds (literal s) k (bytes_of_string s ++ [0]).
Proof. intros i b Hi. by apply arr_get_Some. Qed.

(** (C34) [printf] prints exactly what its format and arguments stand for:
    ordinary characters, percent signs, hexadecimal with and without padding to
    eight digits, unsigned and signed decimal numbers (numerals that read back
    as the value, without leading zeros), characters and strings.  It
    terminates without a fault, returns the length of the format, and changes
    nothing outside the screen. *)
Theorem printf_prints junk format fmt args out k vid t :
  (forall i, (64 <= length (junk i))%nat) -> tty_rep k vid t ->
  rendered vid k fmt args out -> Z.of_nat (length fmt) < 2 ^ 31 ->
  (forall k', screen_frame vid k k' -> holds format k' (fmt ++ [0])) ->
  exists k', printf junk format args k = Ok (Z.of_nat (length fmt), k') /\
    tty_rep k' vid (tty_puts t out) /\ screen_frame vid k k'.
Proof. apply printf_rep. Qed.
End PrintfSpec.

(** [printf("#%d: %#x", -2, 0xE)] *)
Lemma printf_prints_witness :
  exists k', printf (L := demo_layout) (fun _ => replicate 64 0)
      (literal "#%d: %#x") [ANum 0xFFFFFFFE; ANum 14] demo_kernel = Ok (8, k') /\
    tty_rep (L := demo_layout) k' VIDEO_PAGE
      (foldl (fun t c => tty_putc c t) clear_tty (bytes_of_string "#-2: 0000000E")).
Proof.
  destruct (printf_prints (L := demo_layout) (fun _ => replicate 64 0) (literal "#%d: %#x")
    (bytes_of_string "#%d: %#x") [ANum 0xFFFFFFFE; ANum 14] (bytes_of_string "#-2: 0000000E")
    demo_kernel VIDEO_PAGE clear_tty) as (k' & E & H & _).
  - intros _. reflexivity || (simpl; lia).
  - exact demo_kernel_rep.
  - apply r_char; [by split|done|done|].
    apply (r_negative VIDEO_PAGE demo_kernel 0xFFFFFFFE [50] _ [ANum 14] (bytes_of_string ": 0000000E"));
      [lia| |].
    { split; [done|]. split; [by repeat constructor|]. repeat split; simpl; lia || discriminate. }
    apply r_char; [by split|done|done|]. apply r_char; [by split|done|done|].
    apply (r_hex8 VIDEO_PAGE demo_kernel 14 [69] [] [] []); [lia| |constructor].
    split; [done|]. split; [by repeat constructor|]. repeat split; simpl; lia || discriminate.
  - reflexivity.
  - intros k' _. apply literal_holds.
  - exists k'. by split.
Defined.

(** A format that ends in a percent sign is read past its end: after the
    sign, [printf] steps over the terminator without looking at it. *)
Lemma printf_percent_overruns `{L : Layout} junk k :
  printf junk (literal "%") [] k = Err (OutOfBounds 2).
Proof.
  unfold printf. apply (loop_runs_Z _ _ _ 1); [|done].
  apply runs_step with (2, [], k); [|by constructor].
  by apply (percent_turn _ _ _ 0 0).
Qed.
