(* ===== verification/FileSystem.v ===== *)
(** * The read-only file system (file_system.c)

    The image a boot loader leaves in memory: a boot block with the directory,
    one block per inode, then the data blocks.  The functions that read it are
    written over [mem], the pointer to each absolute address, and over the
    pointer of the caller's buffer, so that the same text serves buffers of user
    programs and local variables of the kernel.

    The specification describes the image as a list of bytes and its files as
    the byte strings its inodes describe ([file_contents]): [read_data] is shown
    to copy the requested slice of that string, and successive [file_read]s to
    deliver the file from beginning to end. *)

From stdpp Require Import base gmap list numbers strings.
From Stdlib Require Import ZArith Lia.
From S2P Require Import Prelude Pointers Ports Pic Paging State Machine VirtMem CString MemFns.
From S2P Require Import Pcb Demo.

Definition BLOCK_SIZE_BYTES : Z := 4096.
Definition DIR_ENTRY_SIZE_BYTES : Z := 64.
Definition DATA_BLOCK : Z := 1023.
Definition FILE_NAME_SIZE : Z := 32.

(** Offsets of the members of [boot_block_t], [dir_entry_t] and [inode_t]. *)
Definition BOOT_NUM_INODES : Z := 4.
Definition BOOT_NUM_DATA_BLOCKS : Z := 8.
Definition BOOT_DIR_ENTRIES : Z := 64.
Definition DENTRY_FILE_TYPE : Z := 32.
Definition DENTRY_INODE_NUM : Z := 36.
Definition INODE_DATA_BLOCK_INDICES : Z := 4.

(** A little-endian number. *)
Fixpoint from_le (bs : list Z) : Z :=
  match bs with [] => 0 | b :: bs => b + 256 * from_le bs end.

(** ** Reading the image *)

Section Reading.
Context {St : Type} (mem : Z -> ptr St).
Implicit Types (fs : fs_state) (buf : ptr St) (o : St).

Definition load32 (a : Z) o : res Z :=
  l ← load_list (mem a) 0 4 o; Ok (from_le l).

Definition init_fs (file_system_start_addr : Z) o : res fs_state :=
  let a := file_system_start_addr in
  nd ← load32 a o;
  ni ← load32 (u32 (a + BOOT_NUM_INODES)) o;
  nb ← load32 (u32 (a + BOOT_NUM_DATA_BLOCKS)) o;
  Ok {| file_system_addr := a; boot_block := a;
        dir_entries := u32 (a + BOOT_DIR_ENTRIES); num_dir_entries := s32 nd;
        inodes := u32 (a + BLOCK_SIZE_BYTES); num_inodes := s32 ni;
        data_blocks := u32 (a + BLOCK_SIZE_BYTES * (s32 ni + 1));
        num_data_blocks := s32 nb |}.

(** [&dir_entries[index]] *)
Definition dentry_addr fs (index : Z) : Z :=
  u32 (dir_entries fs + DIR_ENTRY_SIZE_BYTES * index).

Definition read_dentry_by_index fs (index : Z) (dir_entry : ptr St) o : res (Z * St) :=
  if u32 (num_dir_entries fs) <? index then Ok (-1, o)
  else
    o ← memcpy dir_entry (mem (dentry_addr fs index)) DIR_ENTRY_SIZE_BYTES o;
    Ok (0, o).

Definition read_dentry_by_name fs (fname dir_entry : ptr St) o : res (Z * St) :=
  len ← strlen fname o;
  if FILE_NAME_SIZE <? s32 len then Ok (-1, o)
  else
    i ← loop FUEL (fun i =>
      if i <? num_dir_entries fs then
        c ← strncmp fname (mem (dentry_addr fs i)) FILE_NAME_SIZE o;
        if c =? 0 then Ok (inr i) else Ok (inl (i + 1))
      else Ok (inr i)) 0;
    if num_dir_entries fs =? i then Ok (-1, o)
    else
      o ← memcpy dir_entry (mem (dentry_addr fs i)) DIR_ENTRY_SIZE_BYTES o;
      Ok (0, o).

(** [&inodes[inode]] and [data_blocks[node->data_block_indices[idx]]] *)
Definition inode_addr fs (inode : Z) : Z := u32 (inodes fs + BLOCK_SIZE_BYTES * inode).

Definition block_addr fs (node idx : Z) o : res Z :=
  b ← load32 (u32 (node + INODE_DATA_BLOCK_INDICES + 4 * idx)) o;
  Ok (u32 (data_blocks fs + BLOCK_SIZE_BYTES * b)).

(** The body of the loop of [read_data]; its last case falls through. *)
Definition read_step fs (curr_node : Z) buf (length : Z) :
    Z * Z * Z * Z * Z * St -> res (Z * Z * Z * Z * Z * St + Z * St) :=
  fun '(num_bytes_read, file_seek, idx, off, data_addr, o) =>
  if num_bytes_read <? length then
    len ← load32 curr_node o;
    if len <=? file_seek then Ok (inr (num_bytes_read, o))
    else
      s ← (if off =? BLOCK_SIZE_BYTES then
             a ← block_addr fs curr_node (u32 (idx + 1)) o;
             Ok (u32 (idx + 1), 0, a)
           else Ok (idx, off, data_addr));
      let '(idx, off, data_addr) := s in
      b ← load (mem data_addr) o 0;
      o ← store buf o num_bytes_read b;
      Ok (inl (u32 (num_bytes_read + 1), u32 (file_seek + 1), idx, off + 1,
               u32 (data_addr + 1), o))
  else Ok (inr (num_bytes_read, o)).

Definition read_data fs (inode offset : Z) buf (length : Z) o : res (Z * St) :=
  if u32 (num_inodes fs) <=? inode then Ok (ERROR, o)
  else
    let curr_node := inode_addr fs inode in
    let data_block_idx := offset / BLOCK_SIZE_BYTES in
    let data_block_offset := offset mod BLOCK_SIZE_BYTES in
    a ← block_addr fs curr_node data_block_idx o;
    let data_addr := u32 (a + data_block_offset) in
    r ← loop FUEL (read_step fs curr_node buf length) (0, offset, data_block_idx, data_block_offset, data_addr, o);
    Ok (s32 r.1, r.2).

Definition get_file_size fs (inode_idx : Z) o : res Z :=
  len ← load32 (inode_addr fs inode_idx) o; Ok (s32 len).

Definition get_num_dir_entries fs : Z := num_dir_entries fs.
End Reading.

(** ** The file operations *)

Section FileOps.
Context `{L : Layout}.

(** A local variable of the kernel beside its state. *)
Definition vptr1 {A} (a : Z) : ptr (kernel * A) := ptr_fst (vptr a).

Definition file_system_init (file_system_start_addr : Z) : K unit := fun k =>
  fs ← init_fs vptr file_system_start_addr k; Ok (tt, set_k_fs fs k).

Definition file_open (filename : Z) : K Z := mret 0.
Definition file_close (fd : Z) : K Z := mret 0.
Definition file_write (fd buf nbytes : Z) : K Z := mret (-1).
Definition dir_open (filename : Z) : K Z := mret 0.
Definition dir_close (fd : Z) : K Z := mret 0.
Definition dir_write (fd buf nbytes : Z) : K Z := mret (-1).

(** [pcb->fdt[fd]] *)
Definition get_fdt (p fd : Z) : K fdt_entry := fun k =>
  r ← get_pcb p k; e ← arr_get (fdt r.1) fd; Ok (e, k).
Definition upd_fdt (p fd : Z) (f : fdt_entry -> fdt_entry) : K unit := fun k =>
  r ← get_pcb p k;
  e ← arr_get (fdt r.1) fd;
  l ← arr_set (fdt r.1) fd (f e);
  upd_pcb p (set_fdt l) k.

Definition file_read (fd buf nbytes : Z) : K Z :=
  file_pcb ← get_curr_pcb;
  e ← get_fdt file_pcb fd;
  rd ← (fun k => read_data vptr (k_fs k) (inode_idx e) (file_position e) (vptr buf) (u32 nbytes) k);
  upd_fdt file_pcb fd (fun e => set_file_position (u32 (file_position e + rd)) e);;
  mret rd.

(** [curr_dir] and [file_name_buf] are uninitialised locals: [junk] is what
    they hold on entry, [r_esp] where they are. *)
Definition dir_read (junk : list Z * list Z) (fd buf nbytes : Z) : K Z :=
  num_dir ← gets (fun k => get_num_dir_entries (k_fs k));
  pcb ← get_curr_pcb;
  e ← get_fdt pcb fd;
  let dir_pos := s32 (file_position e) in
  if num_dir <=? dir_pos then mret 0
  else
    sp ← gets (fun k => r_esp (k_cpu k));
    d ← (fun k =>
      r ← read_dentry_by_index vptr1 (k_fs k) (u32 dir_pos) (ptr_snd (arr_ptr sp)) (k, junk.1);
      Ok ((r.1, r.2.2), r.2.1));
    if d.1 =? -1 then mret (-1)
    else
      (fun k =>
        o ← strncpy (vptr1 buf) (ptr_snd (arr_ptr sp)) FILE_NAME_SIZE (k, d.2);
        Ok (tt, o.1));;
      upd_fdt pcb fd (fun e => set_file_position (u32 (file_position e + 1)) e);;
      lift (
        o ← strncpy (ptr_fst (arr_ptr sp)) (ptr_snd (arr_ptr sp)) FILE_NAME_SIZE (junk.2, d.2);
        o ← store (ptr_fst (arr_ptr sp)) o FILE_NAME_SIZE 0;
        n ← strlen (ptr_fst (arr_ptr sp)) o;
        Ok (s32 n)).
End FileOps.

(** ** Images *)

Section Image.
Implicit Types (img : list Z).

Definition img_u32 img (a : Z) : Z := from_le (take 4 (drop (Z.to_nat a) img)).

Definition img_dentries img : Z := img_u32 img 0.
Definition img_inodes img : Z := img_u32 img BOOT_NUM_INODES.
Definition img_blocks img : Z := img_u32 img BOOT_NUM_DATA_BLOCKS.

(** The 64 bytes of a directory entry. *)
Definition img_dentry img (i : Z) : list Z :=
  take 64 (drop (Z.to_nat (BOOT_DIR_ENTRIES + 64 * i)) img).

Definition inode_off (i : Z) : Z := 4096 * (1 + i).
Definition inode_len img (i : Z) : Z := img_u32 img (inode_off i).
Definition inode_block img (i j : Z) : Z := img_u32 img (inode_off i + 4 + 4 * j).
Definition block_off img (b : Z) : Z := 4096 * (1 + img_inodes img + b).

(** Byte [j] of file [i], and the file. *)
Definition file_byte_off img (i j : Z) : Z :=
  block_off img (inode_block img i (j / 4096)) + j mod 4096.
Definition file_contents img (i : Z) : list Z :=
  (fun j => default 0 (img !! Z.to_nat (file_byte_off img i j))) <$> seqZ 0 (inode_len img i).

(** An image is well-formed when its parts fit, as the tool that builds it
    guarantees: the counts give its size, and every block a file uses exists. *)
Record image_wf img : Prop := {
  iw_bytes : Forall is_byte img;
  iw_size : Z.of_nat (length img) = 4096 * (1 + img_inodes img + img_blocks img);
  iw_dentries : img_dentries img <= 63;
  iw_len i : 0 <= i < img_inodes img -> inode_len img i <= 1023 * 4096;
  iw_block i j : 0 <= i < img_inodes img -> 0 <= j -> 4096 * j < inode_len img i ->
    inode_block img i j < img_blocks img;
}.

Lemma from_le_range bs : Forall is_byte bs -> 0 <= from_le bs < 256 ^ Z.of_nat (length bs).
Proof.
  induction 1 as [|b bs Hb _ IH]; simpl; [done|]. unfold is_byte in Hb.
  rewrite Nat2Z.inj_succ, Z.pow_succ_r by lia. lia.
Qed.

Lemma img_u32_range img a : Forall is_byte img -> 0 <= img_u32 img a < 2 ^ 32.
Proof.
  intros H. unfold img_u32. set (l := take 4 _).
  assert (Forall is_byte l) as Hl by by apply Forall_take, Forall_drop.
  assert (length l <= 4)%nat by (unfold l; rewrite length_take; lia).
  pose proof (from_le_range l Hl) as [H1 H2]. split; [done|].
  assert (256 ^ Z.of_nat (length l) <= 256 ^ 4) by (apply Z.pow_le_mono_r; lia).
  change (256 ^ 4) with (2 ^ 32) in *. lia.
Qed.

Lemma length_file_contents img i :
  Forall is_byte img -> Z.of_nat (length (file_contents img i)) = inode_len img i.
Proof.
  intros H. unfold file_contents. rewrite length_fmap, length_seqZ.
  pose proof (img_u32_range img (inode_off i) H). unfold inode_len in *. lia.
Qed.

Lemma file_contents_lookup img i (j : nat) :
  Z.of_nat j < inode_len img i ->
  file_contents img i !! j = Some (default 0 (img !! Z.to_nat (file_byte_off img i (Z.of_nat j)))).
Proof.
  intros Hj. unfold file_contents. rewrite list_lookup_fmap, lookup_seqZ_lt by lia.
  simpl. by rewrite Z.add_0_l.
Qed.

(** In a well-formed image every byte of a file is a byte of the image. *)
Lemma file_byte_in img i j :
  image_wf img -> 0 <= i < img_inodes img -> 0 <= j < inode_len img i ->
  0 <= file_byte_off img i j < Z.of_nat (length img).
Proof.
  intros W Hi Hj. pose proof (Z.mod_pos_bound j 4096 ltac:(lia)).
  assert (0 <= j / 4096) by (apply Z.div_pos; lia).
  pose proof (Z.mul_div_le j 4096 ltac:(lia)).
  pose proof (iw_block _ W i (j / 4096) Hi ltac:(lia) ltac:(lia)).
  pose proof (img_u32_range img (inode_off i + 4 + 4 * (j / 4096)) (iw_bytes _ W)).
  pose proof (img_u32_range img BOOT_NUM_INODES (iw_bytes _ W)).
  rewrite (iw_size _ W). unfold file_byte_off, block_off, inode_block, img_inodes in *. lia.
Qed.
End Image.

(** ** The functions on an image *)

(** Pointers to absolute addresses that differ by an offset. *)
Class Flat {St} (mem : Z -> ptr St) : Prop :=
  flat a j o i : load (mem (a + j)) o i = load (mem a) o (j + i).

Section Spec.
Context {St : Type} (mem : Z -> ptr St) `{FL : !Flat mem}.
Context (img : list Z) (start : Z).
Hypothesis W : image_wf img.
Hypothesis Hstart : 0 <= start /\ start + Z.of_nat (length img) < 2 ^ 32.
Implicit Types (o : St).

Definition image_at o : Prop := holds (mem start) o img.

(** The globals [file_system_init] computes. *)
Definition image_fs : fs_state :=
  {| file_system_addr := start; boot_block := start;
     dir_entries := start + 64; num_dir_entries := img_dentries img;
     inodes := start + 4096; num_inodes := img_inodes img;
     data_blocks := start + 4096 * (img_inodes img + 1);
     num_data_blocks := img_blocks img |}.

Lemma counts : 0 <= img_inodes img /\ 0 <= img_blocks img /\
  1 + img_inodes img + img_blocks img <= 2 ^ 20 /\ 0 <= img_dentries img <= 63.
Proof.
  pose proof (img_u32_range img BOOT_NUM_INODES (iw_bytes _ W)).
  pose proof (img_u32_range img BOOT_NUM_DATA_BLOCKS (iw_bytes _ W)).
  pose proof (img_u32_range img 0 (iw_bytes _ W)).
  pose proof (iw_size _ W). pose proof (iw_dentries _ W).
  unfold img_inodes, img_blocks, img_dentries in *. lia.
Qed.

Lemma load_image o a b :
  image_at o -> 0 <= a -> img !! Z.to_nat a = Some b -> load (mem (start + a)) o 0 = Ok b.
Proof.
  intros H Ha Hb. rewrite flat, Z.add_0_r. rewrite <- (Z2Nat.id a) by lia. by apply H.
Qed.

Lemma holds_image o a n :
  image_at o -> 0 <= a -> holds (mem (start + a)) o (take n (drop (Z.to_nat a) img)).
Proof.
  intros H Ha i b Hi. rewrite flat.
  apply lookup_take_Some in Hi as [Hi _]. rewrite lookup_drop in Hi.
  rewrite <- (Z2Nat.id a), <- Nat2Z.inj_add by lia. by apply H.
Qed.

Lemma load32_image o a :
  image_at o -> 0 <= a -> a + 4 <= Z.of_nat (length img) ->
  load32 mem (u32 (start + a)) o = Ok (img_u32 img a).
Proof.
  intros H Ha Hl. unfold load32. rewrite u32_small by lia.
  pose proof (holds_image o a 4 H Ha) as Hh.
  apply holds_load_list in Hh. rewrite length_take, length_drop in Hh.
  replace (4 `min` (length img - Z.to_nat a))%nat with 4%nat in Hh by lia. by rewrite Hh.
Qed.

Lemma init_fs_image o : image_at o -> init_fs mem start o = Ok image_fs.
Proof.
  intros H. pose proof counts. pose proof (iw_size _ W).
  unfold init_fs. pose proof (load32_image o 0 H) as E0. rewrite Z.add_0_r, u32_small in E0 by lia.
  rewrite E0 by lia. cbn [mbind res_bind].
  rewrite !load32_image by (unfold BOOT_NUM_INODES, BOOT_NUM_DATA_BLOCKS; lia || done).
  cbn [mbind res_bind]. fold (img_inodes img) (img_blocks img) (img_dentries img).
  unfold image_fs, BLOCK_SIZE_BYTES, BOOT_DIR_ENTRIES. rewrite !s32_small by lia.
  rewrite !u32_small by lia. done.
Qed.

(** *** The directory *)

Definition dentry_name (i : Z) : list Z := c_str (take 32 (img_dentry img i)).

Lemma dentry_addr_image i :
  0 <= i < 63 -> dentry_addr image_fs i = start + (BOOT_DIR_ENTRIES + 64 * i).
Proof.
  intros Hi. pose proof counts. pose proof (iw_size _ W).
  unfold dentry_addr, DIR_ENTRY_SIZE_BYTES, BOOT_DIR_ENTRIES. simpl.
  rewrite u32_small by lia. lia.
Qed.

Lemma length_dentry i : 0 <= i < 63 -> length (img_dentry img i) = 64%nat.
Proof.
  intros Hi. pose proof counts. pose proof (iw_size _ W). unfold img_dentry, BOOT_DIR_ENTRIES.
  rewrite length_take, length_drop. lia.
Qed.

Lemma holds_dentry o i :
  image_at o -> 0 <= i < 63 -> holds (mem (dentry_addr image_fs i)) o (img_dentry img i).
Proof.
  intros H Hi. rewrite dentry_addr_image by done. apply holds_image; [done|].
  unfold BOOT_DIR_ENTRIES. lia.
Qed.

Section Directory.
Context (P : St -> Prop) (d : ptr St).
Context `{HR : !Region P d 64} `{HS : !Separate P d 64 (mem start) (Z.of_nat (length img))}.

Lemma dentry_separate i : 0 <= i < 63 -> Separate P d 64 (mem (dentry_addr image_fs i)) 64.
Proof.
  intros Hi o j b o' k HP Hj Hk E. pose proof counts. pose proof (iw_size _ W).
  rewrite dentry_addr_image by done. rewrite !flat. unfold BOOT_DIR_ENTRIES.
  apply (HS o j b o'); [done|done|lia|done].
Qed.

Lemma copy_dentry o i :
  P o -> image_at o -> 0 <= i < 63 ->
  memcpy d (mem (dentry_addr image_fs i)) DIR_ENTRY_SIZE_BYTES o
    = store_list d 0 (img_dentry img i) o.
Proof.
  intros HP H Hi. pose proof (length_dentry i Hi) as Hl.
  unfold DIR_ENTRY_SIZE_BYTES. pose proof (dentry_separate i Hi) as HS'.
  replace 64 with (Z.of_nat (length (img_dentry img i))) in HR, HS' |- * by lia.
  apply (memcpy_store P d _ (img_dentry img i) o HP (holds_dentry o i H Hi)). lia.
Qed.

Lemma read_dentry_by_index_image index o :
  P o -> image_at o -> 0 <= index < 2 ^ 32 -> index < 63 ->
  read_dentry_by_index mem image_fs index d o =
    if img_dentries img <? index then Ok (-1, o)
    else o' ← store_list d 0 (img_dentry img index) o; Ok (0, o').
Proof.
  intros HP H Hi H63. pose proof counts. unfold read_dentry_by_index.
  change (num_dir_entries image_fs) with (img_dentries img). rewrite u32_small by lia.
  destruct (Z.ltb_spec (img_dentries img) index); [reflexivity|].
  rewrite (copy_dentry o index HP H) by lia. reflexivity.
Qed.

Context (fname : ptr St) (l : list Z) (o : St).
Hypothesis HP : P o.
Hypothesis HI : image_at o.
Hypothesis Hname : holds fname o (l ++ [0]).
Hypothesis Hl : Forall (fun b => is_byte b /\ b <> 0) l.

Lemma nonzero_name : Forall (fun b => b <> 0) l.
Proof. eapply Forall_impl; [exact Hl|]. by intros ? []. Qed.

(** The comparison of the search loop. *)
Lemma match_dentry i :
  (length l <= 32)%nat -> 0 <= i < 63 ->
  exists r, strncmp fname (mem (dentry_addr image_fs i)) FILE_NAME_SIZE o = Ok r /\
    (r = 0 <-> dentry_name i = l).
Proof.
  intros H32 Hi. pose proof (length_dentry i Hi) as Hld.
  destruct (strncmp_spec fname (mem (dentry_addr image_fs i)) o (l ++ [0]) (img_dentry img i)
    FILE_NAME_SIZE) as (r & E & Hr); [done|by apply holds_dentry| | |done|].
  - right. rewrite c_str_app_nil by apply nonzero_name. rewrite length_app. simpl. lia.
  - left. unfold FILE_NAME_SIZE. lia.
  - exists r. split; [done|]. rewrite (strncmp_zero FILE_NAME_SIZE (l ++ [0]) (img_dentry img i));
      [|apply Forall_app; split; [eapply Forall_impl; [exact Hl|by intros ? []]|by repeat constructor]
       |by apply Forall_take, Forall_drop, (iw_bytes _ W)|done].
    rewrite c_str_app_nil by apply nonzero_name. unfold dentry_name, FILE_NAME_SIZE.
    change (Z.to_nat 32) with 32%nat. rewrite <- take_c_str, (take_ge l) by lia.
    split; intros E'; congruence.
Qed.

(** The search loop stops at the first entry with the name, or at the end. *)
Lemma search_runs (m : nat) i :
  (length l <= 32)%nat -> 0 <= i -> i + Z.of_nat m = img_dentries img ->
  exists j (n : nat), i <= j <= img_dentries img /\ (n <= m)%nat /\
    (forall j', i <= j' < j -> dentry_name j' <> l) /\
    (j < img_dentries img -> dentry_name j = l) /\
    runs (fun i =>
      if i <? num_dir_entries image_fs then
        c ← strncmp fname (mem (dentry_addr image_fs i)) FILE_NAME_SIZE o;
        if c =? 0 then Ok (inr i) else Ok (inl (i + 1))
      else Ok (inr i)) i n (Ok j).
Proof.
  intros H32. pose proof counts as (_ & _ & _ & Hnd). revert i.
  induction m as [|m IH]; intros i Hi Hm; change (num_dir_entries image_fs) with (img_dentries img) in *.
  - exists i, 0%nat. split; [lia|]. split; [lia|]. split; [lia|]. split; [lia|].
    constructor. by rewrite (proj2 (Z.ltb_ge i _)) by lia.
  - destruct (match_dentry i H32 ltac:(lia)) as (r & E & Hr).
    destruct (Z.eqb_spec r 0) as [->|Hne].
    + exists i, 0%nat. split; [lia|]. split; [lia|]. split; [lia|]. split; [tauto|].
      constructor. rewrite (proj2 (Z.ltb_lt i _)) by lia. by rewrite E.
    + destruct (IH (i + 1) ltac:(lia) ltac:(lia)) as (j & n & Hj & Hn & Hno & Hyes & R).
      exists j, (S n). split; [lia|]. split; [lia|]. split; [|split; [done|]].
      * intros j' Hj'. destruct (Z.eq_dec j' i) as [->|]; [tauto|apply Hno; lia].
      * eapply runs_step; [|exact R]. rewrite (proj2 (Z.ltb_lt i _)) by lia. rewrite E, Ok_bind.
        by rewrite (proj2 (Z.eqb_neq r 0)).
Qed.

Lemma read_dentry_by_name_image :
  Z.of_nat (length l) < 2 ^ 31 ->
  exists r o', read_dentry_by_name mem image_fs fname d o = Ok (r, o') /\
    ((exists i, r = 0 /\ 0 <= i < img_dentries img /\ dentry_name i = l /\
        (forall j, 0 <= j < i -> dentry_name j <> l) /\
        store_list d 0 (img_dentry img i) o = Ok o') \/
     (r = -1 /\ o' = o /\ forall j, 0 <= j < img_dentries img -> dentry_name j <> l)).
Proof.
  intros Hlen. pose proof counts as (_ & _ & _ & Hnd).
  unfold read_dentry_by_name. rewrite (strlen_terminated fname o l) by
    (done || lia || apply nonzero_name).
  rewrite Ok_bind, s32_small by lia. unfold FILE_NAME_SIZE at 1.
  destruct (Z.ltb_spec 32 (Z.of_nat (length l))) as [Hlong|Hshort].
  - exists (-1), o. split; [reflexivity|]. right. split; [reflexivity|]. split; [reflexivity|].
    intros j Hj E. apply (f_equal length) in E. pose proof (length_dentry j ltac:(lia)) as Hd.
    pose proof (c_str_length (take 32 (img_dentry img j))) as Hc.
    unfold dentry_name in E. rewrite length_take, Hd in Hc. lia.
  - destruct (search_runs (Z.to_nat (img_dentries img)) 0) as (i & n & Hi & Hn & Hno & Hyes & R); [lia..|].
    rewrite (loop_runs_Z _ _ _ _ _ R), Ok_bind by (unfold FUEL; lia).
    change (num_dir_entries image_fs) with (img_dentries img).
    destruct (Z.eqb_spec (img_dentries img) i) as [Heq|Hne].
    + exists (-1), o. split; [reflexivity|]. right. rewrite Heq. by auto.
    + destruct (store_list_spec P d 64 0 (img_dentry img i) o) as (o' & Eo & _);
        [done|done|lia|rewrite length_dentry; lia|].
      rewrite (copy_dentry o i HP HI), Eo, Ok_bind by lia. exists 0, o'. split; [reflexivity|].
      left. exists i. split; [reflexivity|]. split; [lia|]. split; [apply Hyes; lia|]. by auto.
Qed.
End Directory.

(** *** [read_data] *)

Lemma inode_addr_image i :
  0 <= i < img_inodes img -> inode_addr image_fs i = start + inode_off i.
Proof.
  intros Hi. pose proof counts. pose proof (iw_size _ W). unfold inode_addr, inode_off. simpl.
  unfold BLOCK_SIZE_BYTES. rewrite u32_small by lia. lia.
Qed.

Lemma block_addr_image o i j :
  image_at o -> 0 <= i < img_inodes img -> 0 <= j < 1023 ->
  block_addr mem image_fs (start + inode_off i) j o =
    Ok (u32 (start + block_off img (inode_block img i j))).
Proof.
  intros H Hi Hj. pose proof counts. pose proof (iw_size _ W). unfold block_addr.
  unfold INODE_DATA_BLOCK_INDICES. rewrite <- !Z.add_assoc.
  rewrite load32_image by (unfold inode_off; lia || done). cbn [mbind res_bind].
  do 2 f_equal. unfold block_off, BLOCK_SIZE_BYTES, inode_block. simpl. rewrite <- (Z.add_assoc (inode_off i)). lia.
Qed.

Section Slice.
Context (P : St -> Prop) (buf : ptr St) (inode length0 cap : Z).
Context `{HR : !Region P buf cap}
        `{HS : !Separate P buf cap (mem start) (Z.of_nat (length img))}.
Hypothesis Hi : 0 <= inode < img_inodes img.
Hypothesis Hlen : 0 <= length0 < 2 ^ 32.

Local Abbreviation step := (read_step mem image_fs (start + inode_off inode) buf length0).

(** Where the loop stands after reading up to byte [seek]. *)
Definition cursor_ok (seek idx off a : Z) : Prop :=
  0 <= idx < 1023 /\ 0 <= off <= 4096 /\ 4096 * idx + off = seek /\
  (seek < inode_len img inode -> off < 4096 ->
    a = start + block_off img (inode_block img inode idx) + off).

Lemma image_kept o i b o' :
  P o -> image_at o -> 0 <= i < cap -> store buf o i b = Ok o' -> image_at o'.
Proof.
  intros HP H Hil E j c Hj. pose proof (lookup_lt_Some _ _ _ Hj).
  rewrite (separate o i b o' (Z.of_nat j)) by (done || lia). by apply H.
Qed.

(** One byte of the file. *)
Lemma read_step_byte n seek idx off a o :
  P o -> image_at o -> 0 <= n < length0 -> n < cap -> 0 <= seek < inode_len img inode ->
  cursor_ok seek idx off a ->
  exists b o' idx' off' a', file_contents img inode !! Z.to_nat seek = Some b /\
    store buf o n b = Ok o' /\ P o' /\ image_at o' /\ cursor_ok (seek + 1) idx' off' a' /\
    step (n, seek, idx, off, a, o) = Ok (inl (n + 1, seek + 1, idx', off', a', o')).
Proof.
  intros HP H Hn Hcap Hseek (Hidx & Hoff & Hpos & Ha). pose proof counts. pose proof (iw_size _ W).
  pose proof (iw_len _ W inode Hi) as Hmax.
  assert (exists idx' off' a', (if off =? BLOCK_SIZE_BYTES then
               a ← block_addr mem image_fs (start + inode_off inode) (u32 (idx + 1)) o;
               Ok (u32 (idx + 1), 0, a)
             else Ok (idx, off, a)) = Ok (idx', off', a') /\
    0 <= idx' < 1023 /\ 0 <= off' < 4096 /\ 4096 * idx' + off' = seek /\
    a' = start + block_off img (inode_block img inode idx') + off')
    as (idx' & off' & a' & Es & Hidx' & Hoff' & Hpos' & Ha').
  { unfold BLOCK_SIZE_BYTES. destruct (Z.eqb_spec off 4096) as [->|Hne].
    - rewrite u32_small by lia.
      rewrite block_addr_image by (done || lia). cbn [mbind res_bind].
      do 3 eexists. split; [reflexivity|]. split; [lia|]. split; [lia|]. split; [lia|].
      pose proof (file_byte_in img inode seek W Hi Hseek) as Hin.
      unfold file_byte_off in Hin.
      rewrite <- (Z.div_unique_pos seek 4096 (idx + 1) 0) in Hin by lia.
      rewrite <- (Z.mod_unique_pos seek 4096 (idx + 1) 0) in Hin by lia.
      rewrite u32_small by lia. lia.
    - exists idx, off, a. split; [done|]. repeat split; lia. }
  pose proof (file_byte_in img inode seek W Hi Hseek) as Hin.
  assert (file_byte_off img inode seek = block_off img (inode_block img inode idx') + off') as Hfb.
  { unfold file_byte_off. rewrite <- (Z.div_unique_pos seek 4096 idx' off') by lia.
    by rewrite <- (Z.mod_unique_pos seek 4096 idx' off') by lia. }
  rewrite Hfb in Hin.
  destruct (lookup_lt_is_Some_2 img (Z.to_nat (block_off img (inode_block img inode idx') + off')))
    as [b Hb]; [lia|].
  assert (0 <= n < cap) as Hnc by lia. destruct (region_store o n b HP Hnc) as (o' & Eo & HP').
  exists b, o', idx', (off' + 1), (a' + 1).
  rewrite file_contents_lookup, Z2Nat.id, Hfb, Hb by lia.
  split; [done|]. split; [done|]. split; [done|]. split; [exact (image_kept o n b o' HP H Hnc Eo)|]. split.
  { split; [done|]. split; [lia|]. split; [lia|]. intros _ _. lia. }
  unfold read_step. rewrite (proj2 (Z.ltb_lt n length0)) by lia.
  rewrite Es.
  rewrite <- (u32_small (start + inode_off inode)) at 1 by (unfold inode_off; lia).
  rewrite load32_image by (unfold inode_off; lia || done). cbn [mbind res_bind].
  fold (inode_len img inode). rewrite (proj2 (Z.leb_gt _ seek)) by lia. cbv beta iota.
  replace a' with (start + (block_off img (inode_block img inode idx') + off')) by lia.
  rewrite (load_image o _ b H) by (lia || done).
  cbn [mbind res_bind]. rewrite Eo. cbn [mbind res_bind].
  rewrite !u32_small by lia. done.
Qed.
Lemma read_step_end n seek idx off a o :
  image_at o -> n = length0 \/ inode_len img inode <= seek ->
  step (n, seek, idx, off, a, o) = Ok (inr (n, o)).
Proof.
  intros H Hend. pose proof counts. pose proof (iw_size _ W). unfold read_step.
  destruct (Z.ltb_spec n length0); [|done].
  rewrite <- (u32_small (start + inode_off inode)) at 1 by (unfold inode_off; lia).
  rewrite load32_image by (unfold inode_off; lia || done). cbn [mbind res_bind].
  fold (inode_len img inode). by rewrite (proj2 (Z.leb_le _ seek)) by lia.
Qed.

Lemma read_runs rest n seek idx off a o :
  P o -> image_at o -> 0 <= n <= length0 -> 0 <= seek -> cursor_ok seek idx off a ->
  rest = take (Z.to_nat (length0 - n)) (drop (Z.to_nat seek) (file_contents img inode)) ->
  n + Z.of_nat (length rest) <= cap ->
  exists o', store_list buf n rest o = Ok o' /\ P o' /\ image_at o' /\
    runs step (n, seek, idx, off, a, o) (length rest)
      (Ok (n + Z.of_nat (length rest), o')).
Proof.
  pose proof (length_file_contents img inode (iw_bytes _ W)) as Hfl.
  revert n seek idx off a o. induction rest as [|b rest IH];
    intros n seek idx off a o HP H Hn Hseek Hc Hr Hcap.
  - exists o. split; [done|]. split; [done|]. split; [done|]. constructor. simpl.
    rewrite Z.add_0_r. apply read_step_end; [done|].
    apply (f_equal length) in Hr. rewrite length_take, length_drop in Hr. simpl in Hr. lia.
  - pose proof (f_equal length Hr) as Hl. rewrite length_take, length_drop in Hl. simpl in Hl.
    destruct (read_step_byte n seek idx off a o HP H ltac:(lia) ltac:(simpl in Hcap; lia) ltac:(lia) Hc)
      as (b' & o1 & idx' & off' & a' & Hb & Eo & HP1 & H1 & Hc1 & Es).
    rewrite (drop_S _ b') in Hr by done.
    replace (Z.to_nat (length0 - n)) with (S (Z.to_nat (length0 - (n + 1)))) in Hr by lia.
    simpl in Hr. injection Hr as -> Hr.
    replace (S (Z.to_nat seek)) with (Z.to_nat (seek + 1)) in Hr by lia.
    destruct (IH (n + 1) (seek + 1) idx' off' a' o1) as (o2 & E2 & HP2 & H2 & R2);
      [done|done|lia|lia|done|done|simpl in Hcap; lia|].
    exists o2. cbn [store_list]. rewrite Eo. cbn [mbind res_bind]. split; [done|].
    split; [done|]. split; [done|]. cbn [length].
    replace (n + Z.of_nat (S (length rest))) with (n + 1 + Z.of_nat (length rest)) by lia.
    eapply runs_step; [exact Es|exact R2].
Qed.

(** [read_data] stores the slice of the file the caller asked for and
    returns its length. *)
Lemma read_data_image offset o :
  P o -> image_at o -> 0 <= offset < 1023 * 4096 ->
  let data := take (Z.to_nat length0) (drop (Z.to_nat offset) (file_contents img inode)) in
  Z.of_nat (length data) <= cap ->
  exists o', read_data mem image_fs inode offset buf length0 o
      = Ok (Z.of_nat (length data), o') /\
    store_list buf 0 data o = Ok o' /\ P o' /\ image_at o'.
Proof.
  intros HP H Hoff data Hcap. pose proof counts. pose proof (iw_size _ W).
  pose proof (length_file_contents img inode (iw_bytes _ W)) as Hfl.
  pose proof (iw_len _ W inode Hi) as Hmax.
  assert (0 <= offset / 4096 < 1023) as Hq
    by (split; [apply Z.div_pos; lia|apply Z.div_lt_upper_bound; lia]).
  pose proof (Z.mod_pos_bound offset 4096 ltac:(lia)) as Hm.
  pose proof (Z.div_mod offset 4096 ltac:(lia)) as Hdm.
  set (a := u32 (u32 (start + block_off img (inode_block img inode (offset / 4096))) + offset mod 4096)).
  destruct (read_runs data 0 offset (offset / 4096) (offset mod 4096) a o)
    as (o' & E & HP' & H' & R); [done|done|lia|lia| |by rewrite Z.sub_0_r|lia|].
  { split; [done|]. split; [lia|]. split; [lia|]. intros Hlt _. subst a.
    pose proof (file_byte_in img inode offset W Hi ltac:(lia)) as Hin.
    unfold file_byte_off in Hin.
    pose proof (img_u32_range img (inode_off inode + 4 + 4 * (offset / 4096)) (iw_bytes _ W)) as Hb.
    fold (inode_block img inode (offset / 4096)) in Hb. unfold block_off in *.
    rewrite (u32_small (start + _)) by lia. rewrite u32_small by lia. lia. }
  exists o'. split; [|done]. unfold read_data. simpl (num_inodes image_fs).
  rewrite u32_small by lia. rewrite (proj2 (Z.leb_gt _ inode)) by lia. cbv zeta.
  rewrite inode_addr_image by done. change (offset / BLOCK_SIZE_BYTES) with (offset / 4096).
  change (offset mod BLOCK_SIZE_BYTES) with (offset mod 4096).
  rewrite block_addr_image, Ok_bind by done. fold a.
  erewrite loop_runs_Z; [|exact R|].
  - cbn [mbind res_bind fst snd]. rewrite s32_small; [done|].
    assert (Z.of_nat (length data) <= inode_len img inode)
      by (subst data; rewrite length_take, length_drop; lia). lia.
  - subst data. rewrite length_take. unfold FUEL. lia.
Qed.
End Slice.
End Spec.

(** ** The kernel's files *)

#[export] Instance vptr_flat `{L : Layout} : Flat (vptr (L := L)).
Proof. intros a j k i. simpl. by rewrite Z.add_assoc. Qed.

#[export] Instance mem_ptr_flat : Flat mem_ptr.
Proof. intros a j k i. simpl. by rewrite Z.add_assoc. Qed.

Section Descriptors.
Implicit Types (k : kernel).

(** The descriptor [fd] of the running process. *)
Definition fd_is k (p fd : Z) (b : pcb) (e : fdt_entry) : Prop :=
  Z.land (r_esp (k_cpu k)) PCB_8KB_MASK = p /\ pcbs (k_proc k) !! p = Some b /\
  0 <= fd /\ fdt b !! Z.to_nat fd = Some e.

Lemma curr_pcb_fd k p fd b e : fd_is k p fd b e -> get_curr_pcb k = Ok (p, k).
Proof. by intros [<- _]. Qed.

Lemma get_fdt_ok k p fd b e : fd_is k p fd b e -> get_fdt p fd k = Ok (e, k).
Proof.
  intros (_ & Hb & Hfd & He). unfold get_fdt. rewrite (get_pcb_ok p k b Hb). simpl.
  by rewrite (proj2 (arr_get_lookup _ _ _) (conj Hfd He)).
Qed.

(** The kernel after [fdt[fd]] became [f e]. *)
Definition fdt_updated k (p fd : Z) (b : pcb) (e : fdt_entry) : kernel :=
  set_k_proc (set_pcbs (<[p := set_fdt (<[Z.to_nat fd := e]> (fdt b)) b]> (pcbs (k_proc k)))
    (k_proc k)) k.

Lemma upd_fdt_ok k p fd b e f :
  fd_is k p fd b e -> upd_fdt p fd f k = Ok (tt, fdt_updated k p fd b (f e)).
Proof.
  intros (_ & Hb & Hfd & He). unfold upd_fdt. rewrite (get_pcb_ok p k b Hb). simpl.
  rewrite (proj2 (arr_get_lookup _ _ _) (conj Hfd He)). simpl.
  apply lookup_lt_Some in He. rewrite arr_set_ok by lia. simpl.
  by rewrite (upd_pcb_ok p _ k b Hb).
Qed.

Lemma fdt_updated_is k p fd b e e' :
  fd_is k p fd b e ->
  fd_is (fdt_updated k p fd b e') p fd (set_fdt (<[Z.to_nat fd := e']> (fdt b)) b) e'.
Proof.
  intros (Hc & Hb & Hfd & He). split; [|split; [|split]]; simpl; auto.
  - by rewrite lookup_insert_eq.
  - apply list_lookup_insert_eq. by eapply lookup_lt_Some.
Qed.
End Descriptors.

Section KernelFiles.
Context `{L : Layout}.
Context (img : list Z) (start ipa : Z).
Hypothesis W : image_wf img.
Hypothesis Hstart : 0 <= start /\ start + Z.of_nat (length img) < 2 ^ 32.
Implicit Types (k : kernel).

(** The image is mounted: the globals describe it and its bytes are in the
    block of physical memory at [ipa]. *)
Record mounted k : Prop := {
  mt_fs : k_fs k = image_fs img start;
  mt_maps : maps (k_pg k) start ipa (Z.of_nat (length img));
  mt_bytes : bytes_at (k_mem k) ipa img;
}.

Lemma mounted_image k : mounted k -> image_at vptr img start k.
Proof. intros []. eapply vptr_holds; eauto. lia. Qed.

(** A buffer of [n] bytes in another part of memory. *)
Record buffer k (buf pa n : Z) : Prop := {
  bf_maps : maps (k_pg k) buf pa n;
  bf_apart : pa + n <= ipa \/ ipa + Z.of_nat (length img) <= pa;
}.

(** The buffer holds what is read, not necessarily what is asked for. *)
Lemma read_data_upto k inode offset buf pa n cap :
  mounted k -> buffer k buf pa cap -> 0 <= inode < img_inodes img ->
  0 <= n < 2 ^ 32 -> 0 <= offset < 1023 * 4096 ->
  let data := take (Z.to_nat n) (drop (Z.to_nat offset) (file_contents img inode)) in
  Z.of_nat (length data) <= cap ->
  read_data vptr (k_fs k) inode offset (vptr buf) n k =
    Ok (Z.of_nat (length data), set_k_mem (put_bytes pa data (k_mem k)) k).
Proof.
  intros M B Hi Hn Hoff data Hcap. pose proof M as []. pose proof B as [].
  pose proof (vptr_region _ _ _ _ bf_maps0) as HR.
  pose proof (vptr_separate _ _ _ _ _ _ _ bf_maps0 mt_maps0 bf_apart0) as HS.
  destruct (read_data_image vptr img start W Hstart (fun k' => k_pg k' = k_pg k) (vptr buf)
    inode n cap Hi Hn offset k) as (k' & E & Es & _); [done|by apply mounted_image|done|done|].
  rewrite mt_fs0. fold data in E, Es. rewrite E. do 2 f_equal.
  rewrite (vptr_store_list k buf pa cap) in Es by (done || lia).
  rewrite Z.add_0_r in Es. congruence.
Qed.

Lemma read_data_kernel k inode offset buf pa n :
  mounted k -> buffer k buf pa n -> 0 <= inode < img_inodes img ->
  0 <= n < 2 ^ 32 -> 0 <= offset < 1023 * 4096 ->
  let data := take (Z.to_nat n) (drop (Z.to_nat offset) (file_contents img inode)) in
  read_data vptr (k_fs k) inode offset (vptr buf) n k =
    Ok (Z.of_nat (length data), set_k_mem (put_bytes pa data (k_mem k)) k).
Proof.
  intros M B Hi Hn Hoff data. apply (read_data_upto k inode offset buf pa n n); auto.
  rewrite length_take. lia.
Qed.

(** What [file_read] does: the bytes at the file position, and the position
    moved behind them. *)
Lemma file_read_spec k p fd b e buf pa n :
  mounted k -> buffer k buf pa n -> fd_is k p fd b e ->
  0 <= inode_idx e < img_inodes img -> 0 <= n < 2 ^ 31 ->
  0 <= file_position e <= inode_len img (inode_idx e) -> inode_len img (inode_idx e) < 1023 * 4096 ->
  let data := take (Z.to_nat n)
    (drop (Z.to_nat (file_position e)) (file_contents img (inode_idx e))) in
  file_read fd buf n k =
    Ok (Z.of_nat (length data),
        fdt_updated (set_k_mem (put_bytes pa data (k_mem k)) k) p fd b
          (set_file_position (file_position e + Z.of_nat (length data)) e)).
Proof.
  intros M B F Hi Hn Hpos Hlen data. unfold file_read.
  kstep (curr_pcb_fd k p fd b e F). kstep (get_fdt_ok k p fd b e F). rewrite u32_small by lia.
  pose proof (read_data_kernel k (inode_idx e) (file_position e) buf pa n M B Hi
    ltac:(lia) ltac:(lia)) as E. fold data in E.
  rewrite (K_bind_Ok (fun k => read_data _ _ _ _ _ _ k) _ k _ _ E). cbv beta.
  assert (fd_is (set_k_mem (put_bytes pa data (k_mem k)) k) p fd b e) as F' by done.
  kstep (upd_fdt_ok _ p fd b e (fun e0 => set_file_position
    (u32 (file_position e0 + Z.of_nat (length data))) e0) F'). kcbn.
  rewrite u32_small; [done|].
  pose proof (length_file_contents img (inode_idx e) (iw_bytes _ W)).
  subst data. rewrite length_take, length_drop. lia.
Qed.

(** *** The directory file *)

Lemma vptr1_flat : Flat (vptr1 (L := L) (A := list Z)).
Proof. intros a j k i. simpl. by rewrite Z.add_assoc. Qed.

Lemma dentry_read k i sp junk :
  mounted k -> 0 <= i < img_dentries img -> length junk = 64%nat ->
  read_dentry_by_index vptr1 (k_fs k) i (ptr_snd (arr_ptr sp)) (k, junk) =
    Ok (0, (k, img_dentry img i)).
Proof.
  intros M Hi Hj. pose proof (counts img start W Hstart) as (_ & _ & _ & Hnd).
  assert (Region (fun o => k_pg o.1 = k_pg k /\ 64 <= Z.of_nat (length o.2))
    (ptr_snd (S1 := kernel) (arr_ptr sp)) 64) as HR by
    exact (snd_region (fun k' => k_pg k' = k_pg k) _ _ _ (arr_region sp 64)).
  rewrite (mt_fs _ M).
  rewrite (@read_dentry_by_index_image _ vptr1 vptr1_flat img start W Hstart
    (fun o => k_pg o.1 = k_pg k /\ 64 <= Z.of_nat (length o.2)) (ptr_snd (arr_ptr sp)) HR
    (snd_fst_separate _ _ _ _ _)); [|simpl; split; [done|lia]| |lia|lia].
  - rewrite (proj2 (Z.ltb_ge _ i)) by lia. rewrite store_list_snd. simpl snd.
    pose proof (length_dentry img start W Hstart i ltac:(lia)) as Hl.
    rewrite arr_store_list, Hl by lia. rewrite !Ok_bind. simpl fst.
    change (Z.to_nat 0) with 0%nat. rewrite take_0, (drop_ge junk) by lia.
    by rewrite app_nil_l, app_nil_r.
  - intros j b Hb. exact (mounted_image k M j b Hb).
Qed.

(** A name copied out of a directory entry: 32 bytes, zero-padded. *)
Definition name_bytes (i : Z) : list Z := strncpy_bytes FILE_NAME_SIZE (img_dentry img i).

Lemma name_bytes_c_str i :
  0 <= i < 63 -> c_str (name_bytes i ++ [0]) = dentry_name img i.
Proof.
  intros Hi. unfold name_bytes, strncpy_bytes, dentry_name, FILE_NAME_SIZE.
  change (Z.to_nat 32) with 32%nat. cbv zeta. rewrite take_c_str.
  set (l := c_str (take 32 (img_dentry img i))). rewrite <- app_assoc.
  assert (Forall (fun b => b <> 0) l) by apply c_str_nonzero.
  destruct (32 - length l)%nat; simpl; by rewrite c_str_app_nil.
Qed.

Lemma strncpy_name_user k i buf pa sp :
  buffer k buf pa 32 -> 0 <= i < 63 ->
  strncpy (vptr1 buf) (ptr_snd (arr_ptr sp)) FILE_NAME_SIZE (k, img_dentry img i) =
    Ok (set_k_mem (put_bytes pa (name_bytes i) (k_mem k)) k, img_dentry img i).
Proof.
  intros B Hi. pose proof (length_dentry img start W Hstart i Hi) as Hl.
  pose proof (fst_region _ (fun _ : list Z => True) _ _ (vptr_region _ _ _ _ (bf_maps _ _ _ _ B))) as HR.
  unfold vptr1. rewrite (strncpy_store _ _ _ FILE_NAME_SIZE 64 (img_dentry img i) (HR := HR)); [|lia|done|done| |].
  - rewrite store_list_fst. simpl fst. simpl snd.
    rewrite (vptr_store_list k buf pa 32); [|apply B|lia|rewrite strncpy_bytes_length; done].
    by rewrite Ok_bind, Z.add_0_r.
  - intros j b Hb. simpl. by apply arr_get_Some.
  - left. unfold FILE_NAME_SIZE. lia.
Qed.

Lemma name_length i sp junk :
  0 <= i < 63 -> length junk = 33%nat ->
  (o ← strncpy (ptr_fst (arr_ptr sp)) (ptr_snd (arr_ptr sp)) FILE_NAME_SIZE (junk, img_dentry img i);
   o ← store (ptr_fst (arr_ptr sp)) o FILE_NAME_SIZE 0;
   n ← strlen (ptr_fst (arr_ptr sp)) o; Ok (s32 n))
  = Ok (Z.of_nat (length (dentry_name img i))).
Proof.
  intros Hi Hj. pose proof (length_dentry img start W Hstart i Hi) as Hl.
  assert (Region (fun o : list Z * list Z => 32 <= Z.of_nat (length o.1) /\ True)
    (ptr_fst (arr_ptr sp)) 32) as HR by exact (fst_region _ (fun _ => True) _ _ (arr_region sp 32)).
  rewrite (strncpy_store _ _ _ FILE_NAME_SIZE 64 (img_dentry img i) (HR := HR));
    [|lia|done|simpl; split; [lia|done]| |].
  2: { intros j b Hb. simpl. by apply arr_get_Some. }
  2: { left. unfold FILE_NAME_SIZE. lia. }
  rewrite store_list_fst. simpl fst. simpl snd. fold (name_bytes i).
  assert (length (name_bytes i) = 32%nat) as Hnl by apply strncpy_bytes_length.
  rewrite arr_store_list, Hnl by lia. rewrite !Ok_bind.
  change (Z.to_nat 0) with 0%nat. rewrite take_0, app_nil_l. change (0 + 32)%nat with 32%nat.
  destruct (drop 32 junk) as [|c rest] eqn:Ed.
  { apply (f_equal length) in Ed. rewrite length_drop in Ed. simpl in Ed. lia. }
  destruct rest; [|apply (f_equal length) in Ed; rewrite length_drop in Ed; simpl in Ed; lia].
  simpl store. rewrite arr_set_ok by (rewrite length_app; simpl; unfold FILE_NAME_SIZE; lia).
  rewrite !Ok_bind. change (Z.to_nat FILE_NAME_SIZE) with 32%nat.
  rewrite insert_app_r_alt, Hnl by lia. change (<[(32 - 32)%nat := 0]> [c]) with [0].
  rewrite (strlen_holds _ _ (name_bytes i ++ [0])).
  - rewrite Ok_bind, name_bytes_c_str by done. rewrite s32_small; [done|].
    unfold dentry_name. pose proof (c_str_length (take 32 (img_dentry img i))) as Hc.
    rewrite length_take in Hc. lia.
  - intros j b Hb. simpl. by apply arr_get_Some.
  - rewrite name_bytes_c_str by done. unfold dentry_name.
    pose proof (c_str_length (take 32 (img_dentry img i))) as Hc.
    rewrite length_take in Hc. rewrite length_app. simpl. lia.
  - rewrite length_app. simpl. lia.
Qed.

Lemma dir_read_entry k p fd b e buf pa nbytes junk :
  mounted k -> buffer k buf pa 32 -> fd_is k p fd b e ->
  length junk.1 = 64%nat -> length junk.2 = 33%nat ->
  0 <= file_position e < img_dentries img ->
  dir_read junk fd buf nbytes k =
    Ok (Z.of_nat (length (dentry_name img (file_position e))),
        fdt_updated (set_k_mem (put_bytes pa (name_bytes (file_position e)) (k_mem k)) k) p fd b
          (set_file_position (file_position e + 1) e)).
Proof.
  intros M B F J1 J2 Hpos. pose proof (counts img start W Hstart) as (_ & _ & _ & Hnd).
  unfold dir_read. kcbn. kstep (curr_pcb_fd k p fd b e F). kstep (get_fdt_ok k p fd b e F).
  rewrite (mt_fs _ M). unfold get_num_dir_entries.
  change (num_dir_entries (image_fs img start)) with (img_dentries img).
  rewrite s32_small by lia. rewrite (proj2 (Z.leb_gt _ (file_position e))) by lia. kcbn.
  set (sp := r_esp (k_cpu k)). rewrite u32_small by lia.
  pose proof (dentry_read k (file_position e) sp junk.1 M ltac:(lia) J1) as E1.
  erewrite K_bind_Ok; [|rewrite E1; reflexivity]. cbv beta. cbn [fst snd].
  change (0 =? -1) with false. cbv iota.
  pose proof (strncpy_name_user k (file_position e) buf pa sp B ltac:(lia)) as E2.
  erewrite K_bind_Ok; [|rewrite E2; reflexivity]. cbv beta. cbn [fst snd].
  set (k1 := set_k_mem _ k). assert (fd_is k1 p fd b e) as F1 by done.
  kstep (upd_fdt_ok k1 p fd b e (fun e0 => set_file_position (u32 (file_position e0 + 1)) e0) F1).
  unfold lift. rewrite (name_length (file_position e) sp junk.2) by (done || lia). rewrite Ok_bind.
  by rewrite u32_small by lia.
Qed.

Lemma dir_read_end k p fd b e buf nbytes junk :
  mounted k -> fd_is k p fd b e -> img_dentries img <= file_position e < 2 ^ 31 ->
  dir_read junk fd buf nbytes k = Ok (0, k).
Proof.
  intros M F Hpos. pose proof (counts img start W Hstart) as (_ & _ & _ & Hnd).
  unfold dir_read. kcbn. kstep (curr_pcb_fd k p fd b e F). kstep (get_fdt_ok k p fd b e F).
  rewrite (mt_fs _ M). unfold get_num_dir_entries.
  change (num_dir_entries (image_fs img start)) with (img_dentries img).
  rewrite s32_small by lia. by rewrite (proj2 (Z.leb_le _ (file_position e))) by lia.
Qed.

(** *** Reading a file in pieces *)

(** A program that calls [read] with the sizes [ns] and keeps what it gets. *)
Fixpoint read_chunks (fd buf : Z) (ns : list Z) : K (list Z) :=
  match ns with
  | [] => mret []
  | n :: ns =>
      rd ← file_read fd buf n;
      l ← (fun k => l ← load_list (vptr buf) 0 (Z.to_nat rd) k; Ok (l, k));
      ls ← read_chunks fd buf ns;
      mret (l ++ ls)
  end.

Definition total (ns : list Z) : Z := foldr Z.add 0 ns.

Lemma mounted_put k pa data n :
  mounted k -> Z.of_nat (length data) <= n ->
  pa + n <= ipa \/ ipa + Z.of_nat (length img) <= pa ->
  mounted (set_k_mem (put_bytes pa data (k_mem k)) k).
Proof. intros [] Hn Hd. split; auto. simpl. apply bytes_at_put_other; [lia|done]. Qed.

Lemma read_chunks_spec ns k p fd b e buf pa cap :
  mounted k -> buffer k buf pa cap -> fd_is k p fd b e ->
  0 <= inode_idx e < img_inodes img -> 0 <= cap < 2 ^ 31 -> Forall (fun n => 0 <= n <= cap) ns ->
  0 <= file_position e <= inode_len img (inode_idx e) -> inode_len img (inode_idx e) < 1023 * 4096 ->
  exists k', read_chunks fd buf ns k =
    Ok (take (Z.to_nat (total ns)) (drop (Z.to_nat (file_position e)) (file_contents img (inode_idx e))), k').
Proof.
  intros M B F Hi Hcap Hns Hpos Hlen. revert k b e M B F Hi Hpos Hlen.
  induction Hns as [|n ns Hn Hns IH]; intros k b e M B F Hi Hpos Hlen.
  { exists k. simpl. done. }
  assert (buffer k buf pa n) as Bn.
  { destruct B. split; [|lia]. intros i Hin. apply bf_maps0. lia. }
  pose proof (file_read_spec k p fd b e buf pa n M Bn F Hi ltac:(lia) Hpos Hlen) as E.
  set (data := take (Z.to_nat n) _) in E.
  pose proof (length_file_contents img (inode_idx e) (iw_bytes _ W)) as Hfl.
  assert (length data = Nat.min (Z.to_nat n) (length (file_contents img (inode_idx e)) -
    Z.to_nat (file_position e))) as Hdl by (unfold data; by rewrite length_take, length_drop).
  set (k1 := set_k_mem (put_bytes pa data (k_mem k)) k) in E.
  assert (mounted k1) as M1 by (apply (mounted_put k pa data n); [done|lia|apply Bn]).
  set (e1 := set_file_position (file_position e + Z.of_nat (length data)) e) in E.
  destruct (IH (fdt_updated k1 p fd b e1) (set_fdt (<[Z.to_nat fd := e1]> (fdt b)) b) e1) as (k' & E');
    [by destruct M1|by destruct B|by apply fdt_updated_is with (e := e)|done|simpl; lia|done|].
  exists k'. simpl. kstep E. change (fdt_updated _ _ _ _ _) with (fdt_updated k1 p fd b e1).
  assert (load_list (vptr buf) 0 (length data) (fdt_updated k1 p fd b e1) = Ok data) as El.
  { apply holds_load_list. eapply vptr_holds; [apply Bn|lia|apply bytes_at_put]. }
  rewrite Nat2Z.id. erewrite K_bind_Ok; [|cbv beta; rewrite El; reflexivity]. cbv beta.
  kstep E'. kcbn. do 2 f_equal. simpl.
  assert (0 <= total ns) as Htot.
  { clear -Hns Hcap. induction Hns; simpl; lia. }
  rewrite !Z2Nat.inj_add, Nat2Z.id by lia. rewrite <- !drop_drop. unfold data at 1.
  set (rest := drop (Z.to_nat (file_position e)) (file_contents img (inode_idx e))) in *.
  rewrite <- (take_drop (Z.to_nat n) rest) at 3.
  assert (drop (length data) rest = drop (Z.to_nat n) rest) as ->.
  { unfold data. rewrite length_take. destruct (Nat.le_gt_cases (Z.to_nat n) (length rest)).
    - by rewrite Nat.min_l.
    - rewrite Nat.min_r by lia. by rewrite !drop_ge by lia. }
  rewrite take_app. f_equal.
  - rewrite take_take. f_equal. lia.
  - destruct (Nat.le_gt_cases (Z.to_nat n) (length rest)).
    + rewrite length_take, Nat.min_l by lia. f_equal. lia.
    + rewrite (drop_ge rest) by lia. by rewrite !take_nil.
Qed.
End KernelFiles.

(** ** The properties of the file system *)

Section FsClaims.
Context {St : Type} (mem : Z -> ptr St) `{FL : !Flat mem} (P : St -> Prop).

(** (C16) [read_data] on a well-formed image, for every inode number and length and every offset
    that the 1023 block numbers of an inode can name: an inode the image does not have gives -1
    and nothing is stored; otherwise it terminates without a fault, stores into the buffer
    exactly the slice of the file from the offset on, cut at the end of the file or at the
    length asked for, and returns the number of bytes stored. *)
Theorem read_data_slice img start buf inode offset n o :
  image_wf img -> 0 <= start /\ start + Z.of_nat (length img) < 2 ^ 32 ->
  Region P buf n -> Separate P buf n (mem start) (Z.of_nat (length img)) ->
  0 <= inode -> 0 <= n < 2 ^ 32 -> 0 <= offset < 1023 * 4096 ->
  P o -> image_at mem img start o ->
  init_fs mem start o = Ok (image_fs img start) /\
  (img_inodes img <= inode -> read_data mem (image_fs img start) inode offset buf n o = Ok (-1, o)) /\
  (inode < img_inodes img ->
    let data := take (Z.to_nat n) (drop (Z.to_nat offset) (file_contents img inode)) in
    exists o', read_data mem (image_fs img start) inode offset buf n o = Ok (Z.of_nat (length data), o') /\
      store_list buf 0 data o = Ok o').
Proof.
  intros W Hs HR HS Hi Hn Hoff HP HI. split; [by apply init_fs_image|]. split.
  - intros Hge. pose proof (counts img start W Hs). unfold read_data.
    change (num_inodes (image_fs img start)) with (img_inodes img).
    rewrite u32_small by lia. by rewrite (proj2 (Z.leb_le _ inode)).
  - intros Hlt data. destruct (read_data_image mem img start W Hs P buf inode n n (conj Hi Hlt) Hn offset o)
      as (o' & E & Es & _); auto; [rewrite length_take; lia|]. by exists o'.
Qed.

(** The block number of the offset is read before the offset is compared with the file's length, and
    whatever the length asked for: behind the inode when the offset is not below 1023 blocks. *)
Lemma read_data_indexes_first fs inode offset buf n o e :
  inode < u32 (num_inodes fs) ->
  block_addr mem fs (inode_addr fs inode) (offset / BLOCK_SIZE_BYTES) o = Err e ->
  read_data mem fs inode offset buf n o = Err e.
Proof. intros Hi E. unfold read_data. rewrite (proj2 (Z.leb_gt _ inode)) by lia. cbv zeta. by rewrite E. Qed.

(** (C17) [read_dentry_by_name] finds a file exactly when an entry of the
    directory carries the name: on success the first such entry is copied out
    and the result is 0, otherwise the result is -1 and nothing is stored.  Names
    longer than 32 characters are never found. *)
Theorem read_dentry_by_name_finds img start fname d l o :
  image_wf img -> 0 <= start /\ start + Z.of_nat (length img) < 2 ^ 32 ->
  Region P d 64 -> Separate P d 64 (mem start) (Z.of_nat (length img)) ->
  P o -> image_at mem img start o ->
  holds fname o (l ++ [0]) -> Forall (fun b => is_byte b /\ b <> 0) l ->
  Z.of_nat (length l) < 2 ^ 31 ->
  exists r o', read_dentry_by_name mem (image_fs img start) fname d o = Ok (r, o') /\
    ((exists i, r = 0 /\ 0 <= i < img_dentries img /\ dentry_name img i = l /\
        (forall j, 0 <= j < i -> dentry_name img j <> l) /\
        store_list d 0 (img_dentry img i) o = Ok o') \/
     (r = -1 /\ o' = o /\ forall j, 0 <= j < img_dentries img -> dentry_name img j <> l)).
Proof. intros. by eapply (read_dentry_by_name_image mem img start). Qed.

(** [read_dentry_by_index] refuses indices beyond the directory but
    accepts the index one past its last entry, for which it returns 0 and
    copies whatever the boot block holds there. *)
Lemma read_dentry_by_index_bounds img start d index o :
  image_wf img -> 0 <= start /\ start + Z.of_nat (length img) < 2 ^ 32 ->
  Region P d 64 -> Separate P d 64 (mem start) (Z.of_nat (length img)) ->
  P o -> image_at mem img start o -> 0 <= index < 63 ->
  read_dentry_by_index mem (image_fs img start) index d o =
    if bool_decide (index <= img_dentries img)
    then o' ← store_list d 0 (img_dentry img index) o; Ok (0, o')
    else Ok (-1, o).
Proof.
  intros W Hs HR HS HP HI Hi.
  rewrite (read_dentry_by_index_image mem img start W Hs P d index o) by (done || lia).
  by destruct (Z.ltb_spec (img_dentries img) index); case_bool_decide; try lia.
Qed.
End FsClaims.

Section FileClaims.
Context `{L : Layout}.

(** Successive [file_read]s deliver a file in order and without gaps or
    repetitions: whatever sizes a program asks for, what it collects is the file
    from its position on, cut at the sum of the sizes. *)
Theorem file_read_sequence img start ipa ns k p fd b e buf pa cap :
  image_wf img -> 0 <= start /\ start + Z.of_nat (length img) < 2 ^ 32 ->
  mounted img start ipa k -> buffer img ipa k buf pa cap -> fd_is k p fd b e ->
  0 <= inode_idx e < img_inodes img -> 0 <= cap < 2 ^ 31 -> Forall (fun n => 0 <= n <= cap) ns ->
  0 <= file_position e <= inode_len img (inode_idx e) -> inode_len img (inode_idx e) < 1023 * 4096 ->
  exists k', read_chunks fd buf ns k =
    Ok (take (Z.to_nat (total ns))
          (drop (Z.to_nat (file_position e)) (file_contents img (inode_idx e))), k').
Proof. intros. by eapply (read_chunks_spec img start ipa). Qed.

(** (C35) [dir_read] lists the directory: while the position is on an entry it
    stores the entry's 32-byte name, whatever number of bytes was asked for,
    returns the length of the name and moves to the next entry; past the last
    entry it returns 0 and changes nothing. *)
Theorem dir_read_lists img start ipa k p fd b e buf pa nbytes junk :
  image_wf img -> 0 <= start /\ start + Z.of_nat (length img) < 2 ^ 32 ->
  mounted img start ipa k -> buffer img ipa k buf pa 32 -> fd_is k p fd b e ->
  length junk.1 = 64%nat -> length junk.2 = 33%nat -> 0 <= file_position e < 2 ^ 31 ->
  dir_read junk fd buf nbytes k =
    if bool_decide (file_position e < img_dentries img) then
      Ok (Z.of_nat (length (dentry_name img (file_position e))),
          fdt_updated (set_k_mem (put_bytes pa (name_bytes img (file_position e)) (k_mem k)) k)
            p fd b (set_file_position (file_position e + 1) e))
    else Ok (0, k).
Proof.
  intros W Hs M B F J1 J2 Hpos. case_bool_decide as Hd.
  - apply (dir_read_entry img start ipa); auto; lia.
  - apply (dir_read_end img start ipa W Hs k p fd b e); auto; lia.
Qed.

(** A [file_read] whose descriptor names an inode the image does not have
    returns -1, and moves the file position back by one. *)
Lemma file_read_error k p fd b e buf nbytes :
  fd_is k p fd b e -> u32 (num_inodes (k_fs k)) <= inode_idx e ->
  file_read fd buf nbytes k =
    Ok (-1, fdt_updated k p fd b (set_file_position (u32 (file_position e - 1)) e)).
Proof.
  intros F Hi. unfold file_read. kstep (curr_pcb_fd k p fd b e F).
  kstep (get_fdt_ok k p fd b e F).
  assert (read_data vptr (k_fs k) (inode_idx e) (file_position e) (vptr buf) (u32 nbytes) k
    = Ok (ERROR, k)) as E.
  { unfold read_data. by rewrite (proj2 (Z.leb_le _ (inode_idx e))). }
  rewrite (K_bind_Ok (fun k => read_data _ _ _ _ _ _ k) _ k _ _ E). cbv beta.
  kstep (upd_fdt_ok k p fd b e (fun e0 => set_file_position (u32 (file_position e0 + ERROR)) e0) F).
  done.
Qed.
End FileClaims.
