(* ===== verification/LibInline.v ===== *)
(** * The rest of lib.h and lib.c

    What nothing else calls: the port accesses of two and four bytes, [cli], and the
    loop without a body [rtc_interrupt]. *)

From stdpp Require Import base gmap list numbers.
From Stdlib Require Import ZArith Lia.
From S2P Require Import Prelude Pointers CString MemFns Ports Pic Paging State Machine VirtMem Pcb Demo Screen FileSystem.

(** ** Ports *)

Definition inw (port : Z) (io : ports) : res (Z * ports) :=
  '(b, io) ← inb port io;
  '(c, io) ← inb (port + 1) io;
  Ok (b + 256 * c, io).

Definition inl (port : Z) (io : ports) : res (Z * ports) :=
  '(b, io) ← inb port io;
  '(c, io) ← inb (port + 1) io;
  '(d, io) ← inb (port + 2) io;
  '(e, io) ← inb (port + 3) io;
  Ok (b + 256 * (c + 256 * (d + 256 * e)), io).

Definition outw (data port : Z) (io : ports) : ports :=
  outb (Z.shiftr (u32 data) 8) (port + 1) (outb data port io).

Definition outl (data port : Z) (io : ports) : ports :=
  outb (Z.shiftr (u32 data) 24) (port + 3) (outb (Z.shiftr (u32 data) 16) (port + 2)
    (outb (Z.shiftr (u32 data) 8) (port + 1) (outb data port io))).

(** ** Flags and loops *)

Definition cli : K unit := modify (fun k => set_k_cpu (set_eflags (Z.clearbit (eflags (k_cpu k)) IF_BIT) (k_cpu k)) k).

(** The only statement of the body is commented out. *)
Definition rtc_interrupt : K unit := kfor 0 (NUM_ROWS * NUM_COLS) (fun _ => mret tt).

(** It ends and changes nothing. *)
Lemma rtc_interrupt_idle k : rtc_interrupt k = Ok (tt, k).
Proof. apply idle_loop. unfold NUM_ROWS, NUM_COLS. lia. Qed.

(** The bytes that [outl] writes, lowest first, are those [inl] puts together. *)
Lemma outl_bytes data port io :
  io_log (outl data port io) = io_log io ++
    ((fun i => Out (u16 (port + Z.of_nat i)) (nth i (le_bytes 4 (u32 data)) 0)) <$> seq 0 4).
Proof.
  unfold outl, outb. cbn [io_log]. rewrite <- !app_assoc. f_equal. simpl. rewrite Z.add_0_r.
  rewrite !Z.shiftr_shiftr by lia. unfold u8, u32. f_equal. f_equal.
  rewrite Z.mod_mod_divide; [done|]. by exists (2 ^ 24).
Qed.

Lemma inl_reads data port bs io :
  io_in io = le_bytes 4 (u32 data) ++ bs -> exists io', inl port io = Ok (u32 data, io') /\ io_in io' = bs.
Proof.
  intros E. unfold inl, inb. rewrite E. simpl. eexists {| io_log := _; io_in := bs |}. split; [|done]. do 2 f_equal.
  rewrite !Z.shiftr_shiftr by lia. pose proof (u32_range data). unfold u8. rewrite !Z.shiftr_div_pow2 by lia.
  Z.to_euclidean_division_equations. lia.
Qed.

(** [cli_and_save] and [restore_flags] around [cli] leave the flags as they were. *)
Lemma flags_restored k : (flags ← cli_and_save; cli;; restore_flags flags) k = Ok (tt, k).
Proof. by destruct k as [??????????? []]. Qed.
