(* ===== verification/FileExamples.v ===== *)
(** * A small file system image

    One file, [hello], of five bytes, in an image of three blocks; the theorems
    of FileSystem.v applied to it. *)

From stdpp Require Import base gmap list numbers strings.
From Stdlib Require Import ZArith Lia.
From S2P Require Import Prelude Pointers Ports Pic Paging State Machine VirtMem CString MemFns.
From S2P Require Import Pcb Demo FileSystem.

Definition zeros (n : Z) : list Z := replicate (Z.to_nat n) 0.
Definition word (n : Z) : list Z := le_bytes 4 n.

Definition hello : list Z := bytes_of_string "hello"%string.
Definition world : list Z := bytes_of_string "world"%string.

Definition demo_img : list Z :=
  (word 1 ++ word 1 ++ word 1 ++ zeros 52 ++
   hello ++ zeros 27 ++ word 2 ++ word 0 ++ zeros 24 ++ zeros 3968) ++
  (word 5 ++ word 0 ++ zeros 4088) ++
  (world ++ zeros 4091).

Lemma zeros_bytes n : Forall is_byte (zeros n).
Proof. unfold zeros, is_byte. by apply Forall_replicate. Qed.

Lemma demo_img_length : Z.of_nat (length demo_img) = 12288.
Proof. unfold demo_img, zeros. rewrite !length_app, !length_replicate. simpl length. lia. Qed.

Lemma demo_img_counts :
  img_dentries demo_img = 1 /\ img_inodes demo_img = 1 /\ img_blocks demo_img = 1.
Proof. by repeat split. Qed.

Lemma demo_inode : inode_len demo_img 0 = 5 /\ inode_block demo_img 0 0 = 0.
Proof. by repeat split. Qed.

Lemma demo_img_wf : image_wf demo_img.
Proof.
  destruct demo_img_counts as (E1 & E2 & E3), demo_inode as (E4 & E5).
  split; rewrite ?E1, ?E2, ?E3.
  - unfold demo_img. rewrite !Forall_app.
    repeat split; try apply zeros_bytes; unfold is_byte; repeat constructor; done.
  - rewrite demo_img_length. done.
  - done.
  - intros i Hi. replace i with 0 by lia. rewrite E4. lia.
  - intros i j Hi Hj. replace i with 0 by lia. rewrite E4. intros Hlt.
    replace j with 0 by lia. rewrite E5. lia.
Qed.

Lemma demo_contents : file_contents demo_img 0 = world.
Proof. by vm_compute. Qed.

Lemma demo_name : dentry_name demo_img 0 = hello.
Proof. by vm_compute. Qed.

#[local] Opaque demo_img.

(** ** In flat memory *)

Definition demo_start : Z := 0x500000.
Definition demo_mem : gmap Z Z := put_bytes demo_start demo_img ∅.

Lemma put_image img start m :
  0 <= start -> start + Z.of_nat (length img) < 2 ^ 32 ->
  image_at mem_ptr img start (put_bytes start img m).
Proof.
  intros Hs Hl i b Hi. cbn [load mem_ptr]. pose proof (lookup_lt_Some _ _ _ Hi).
  rewrite u32_small by lia. by rewrite (bytes_at_put start img m i b Hi).
Qed.

Lemma demo_bounds : 0 <= demo_start /\ demo_start + Z.of_nat (length demo_img) < 2 ^ 32.
Proof. rewrite demo_img_length. unfold demo_start. lia. Qed.

Lemma demo_mem_image : image_at mem_ptr demo_img demo_start demo_mem.
Proof. apply put_image; apply demo_bounds. Qed.

Lemma flat_region (a n : Z) :
  0 <= a -> a + n <= 2 ^ 32 -> Region (fun _ : gmap Z Z => True) (mem_ptr a) n.
Proof.
  intros Ha Hn. destruct (mem_region a n) as [R1 R2]. split.
  - intros o i b _ Hi. destruct (R1 o i b) as (o' & E & _); [lia|done|]. by exists o'.
  - intros o i b o' j _ Hi Hj. apply R2; [lia|done|done].
Qed.

Lemma flat_separate (a n c m : Z) :
  0 <= a -> a + n <= 2 ^ 32 -> 0 <= c -> c + m <= 2 ^ 32 -> a + n <= c \/ c + m <= a ->
  Separate (fun _ : gmap Z Z => True) (mem_ptr a) n (mem_ptr c) m.
Proof.
  intros Ha Hn Hc Hm Hd o i b o' j _. apply (mem_separate a n c m o i b o' j). lia.
Qed.

(** Reading three bytes from offset 1 of the file [hello]. *)
Lemma read_data_slice_witness :
  exists o', read_data mem_ptr (image_fs demo_img demo_start) 0 1 (mem_ptr 0x8048000) 3 demo_mem
    = Ok (3, o') /\ store_list (mem_ptr 0x8048000) 0 (bytes_of_string "orl"%string) demo_mem = Ok o'.
Proof.
  pose proof demo_img_length as Hl.
  destruct (read_data_slice mem_ptr (fun _ => True) demo_img demo_start (mem_ptr 0x8048000) 0 1 3 demo_mem)
    as (_ & _ & H).
  - exact demo_img_wf.
  - exact demo_bounds.
  - apply flat_region; lia.
  - apply flat_separate; unfold demo_start; lia.
  - lia.
  - lia.
  - lia.
  - exact I.
  - exact demo_mem_image.
  - destruct H as (o' & E & Es); [rewrite (proj1 (proj2 demo_img_counts)); lia|].
    rewrite demo_contents in E, Es. exists o'. split; [exact E|exact Es].
Defined.

Lemma read_dentry_by_name_finds_witness :
  exists o', read_dentry_by_name mem_ptr (image_fs demo_img demo_start)
      (lit_ptr 0x400000 (hello ++ [0])) (mem_ptr 0x8048000) demo_mem = Ok (0, o').
Proof.
  pose proof demo_img_length as Hl.
  destruct (read_dentry_by_name_finds mem_ptr (fun _ => True) demo_img demo_start
    (lit_ptr 0x400000 (hello ++ [0])) (mem_ptr 0x8048000) hello demo_mem) as (r & o' & E & H).
  - exact demo_img_wf.
  - exact demo_bounds.
  - apply flat_region; lia.
  - apply flat_separate; unfold demo_start; lia.
  - exact I.
  - exact demo_mem_image.
  - intros i b Hb. by apply arr_get_Some.
  - unfold is_byte. repeat constructor; done.
  - reflexivity.
  - destruct H as [(i & -> & _)|(_ & _ & Hno)]; [by exists o'|].
    exfalso. apply (Hno 0); [rewrite (proj1 demo_img_counts); lia|exact demo_name].
Defined.

(** The directory has one entry: index 1 is still accepted, index 2 is not. *)
Lemma read_dentry_by_index_bounds_witness :
  (exists o', read_dentry_by_index mem_ptr (image_fs demo_img demo_start) 1 (mem_ptr 0x8048000) demo_mem
    = Ok (0, o')) /\
  read_dentry_by_index mem_ptr (image_fs demo_img demo_start) 2 (mem_ptr 0x8048000) demo_mem
    = Ok (-1, demo_mem).
Proof.
  pose proof demo_img_length as Hl.
  assert (forall index, 0 <= index < 63 ->
    read_dentry_by_index mem_ptr (image_fs demo_img demo_start) index (mem_ptr 0x8048000) demo_mem =
      if bool_decide (index <= img_dentries demo_img)
      then o' ← store_list (mem_ptr 0x8048000) 0 (img_dentry demo_img index) demo_mem; Ok (0, o')
      else Ok (-1, demo_mem)) as H.
  { intros index Hi. apply (read_dentry_by_index_bounds mem_ptr (fun _ => True)); auto.
    - exact demo_img_wf.
    - exact demo_bounds.
    - apply flat_region; lia.
    - apply flat_separate; unfold demo_start; lia.
    - exact demo_mem_image. }
  rewrite !H by lia. rewrite (proj1 demo_img_counts). split; [|reflexivity].
  destruct (store_list_spec (fun _ => True) (mem_ptr 0x8048000) 64 0 (img_dentry demo_img 1) demo_mem)
    as (o' & E & _).
  - apply flat_region; lia.
  - exact I.
  - lia.
  - rewrite (length_dentry demo_img demo_start demo_img_wf demo_bounds); lia.
  - exists o'. change (bool_decide (1 <= 1)) with true. cbv iota. rewrite E. reflexivity.
Defined.

(** ** In the kernel *)

Definition demo_user_paging : paging :=
  ok_or demo_paging (enable_program_page 0 demo_paging).

Lemma demo_user_paging_rep :
  paging_rep (L := demo_layout) demo_user_paging (Some 0) VIDEO_PAGE None.
Proof.
  unfold demo_user_paging.
  by destruct (enable_program_page_rep (L := demo_layout) demo_paging None VIDEO_PAGE None 0
    demo_paging_rep) as (s & -> & H); [lia|].
Qed.

(** Descriptor 2 of the first process is the file, at its beginning. *)
Definition demo_entry : fdt_entry :=
  {| fot_ptr := Some file_fot; inode_idx := 0; file_position := 0; enabled := 1; is_data_file := 1 |}.
Definition demo_file_pcb : pcb := set_fdt (<[2%nat := demo_entry]> (fdt bss_pcb)) bss_pcb.

Definition demo_fs_kernel : kernel :=
  set_k_mem demo_mem (set_k_pg demo_user_paging (set_k_fs (image_fs demo_img demo_start)
    (set_k_proc {| used_pids := [1; 0; 0; 0; 0; 0]; pcbs := {[0x7FE000 := demo_file_pcb]} |}
      (set_k_cpu {| eflags := 0x202; r_esp := 0x7FFF00; r_ebp := 0x7FFF00 |} demo_state)))).

Lemma demo_mounted : mounted (L := demo_layout) demo_img demo_start demo_start demo_fs_kernel.
Proof.
  split; [done| |].
  - eapply (kernel_maps (L := demo_layout)); [exact demo_user_paging_rep| |];
      rewrite ?demo_img_length; unfold KERNEL_MEM_START, demo_start, _4_MB; lia.
  - exact (bytes_at_put demo_start demo_img ∅).
Qed.

Lemma demo_buffer : buffer (L := demo_layout) demo_img demo_start demo_fs_kernel 0x8048000 0x848000 128.
Proof.
  split; [|rewrite demo_img_length; unfold demo_start; lia].
  exact (user_maps (L := demo_layout) demo_user_paging 0 VIDEO_PAGE None 0x8048000 128
    demo_user_paging_rep ltac:(done) ltac:(done)).
Qed.

Lemma demo_fd : fd_is demo_fs_kernel 0x7FE000 2 demo_file_pcb demo_entry.
Proof. by repeat split. Qed.

Lemma file_read_sequence_witness :
  exists k', read_chunks (L := demo_layout) 2 0x8048000 [2; 2; 4] demo_fs_kernel = Ok (world, k').
Proof.
  destruct (file_read_sequence (L := demo_layout) demo_img demo_start demo_start [2; 2; 4]
    demo_fs_kernel 0x7FE000 2 demo_file_pcb demo_entry 0x8048000 0x848000 128) as (k' & E).
  - exact demo_img_wf.
  - exact demo_bounds.
  - exact demo_mounted.
  - exact demo_buffer.
  - exact demo_fd.
  - rewrite (proj1 (proj2 demo_img_counts)). simpl. lia.
  - lia.
  - repeat constructor; lia.
  - simpl. rewrite (proj1 demo_inode). lia.
  - simpl. rewrite (proj1 demo_inode). lia.
  - exists k'. rewrite E. simpl inode_idx. rewrite demo_contents. reflexivity.
Defined.

Lemma dir_read_lists_witness :
  exists k', dir_read (L := demo_layout) (zeros 64, zeros 33) 2 0x8048000 0 demo_fs_kernel = Ok (5, k').
Proof.
  eexists. rewrite (dir_read_lists (L := demo_layout) demo_img demo_start demo_start demo_fs_kernel
    0x7FE000 2 demo_file_pcb demo_entry 0x8048000 0x848000 0 (zeros 64, zeros 33)).
  - simpl file_position. rewrite (proj1 demo_img_counts), demo_name. reflexivity.
  - exact demo_img_wf.
  - exact demo_bounds.
  - exact demo_mounted.
  - destruct demo_buffer as [H1 H2]. split; [intros i Hi; apply H1; lia|lia].
  - exact demo_fd.
  - reflexivity.
  - reflexivity.
  - simpl. lia.
Defined.

Lemma file_read_error_witness :
  exists k', file_read (L := demo_layout) 2 0x8048000 4
    (set_k_fs (k_fs demo_state) demo_fs_kernel) = Ok (-1, k').
Proof.
  eexists. apply (file_read_error (L := demo_layout) (set_k_fs (k_fs demo_state) demo_fs_kernel)
    0x7FE000 2 demo_file_pcb demo_entry).
  - split; [reflexivity|]. split; [reflexivity|]. split; [discriminate|reflexivity].
  - discriminate.
Defined.
