(* ===== verification/Rtc.v ===== *)
(** * The real-time clock (rtc.c)

    One clock, shared: the hardware runs at the highest frequency any program
    asked for ([higher_freq]) and each program counts down its own [divisor]
    interrupts in [rtc_read].  The invariant [rtc_ok] says that this gives every
    program the frequency it asked for; the file shows that every operation
    preserves it and that the rate sent to the chip is the one for [higher_freq].
    ClockRuns.v follows runs of the operations; Waiting.v treats [rtc_read]. *)

From stdpp Require Import base gmap list numbers.
From Stdlib Require Import ZArith Lia.
From S2P Require Import Prelude Pointers Ports Pic Paging State Machine VirtMem CString MemFns.
From S2P Require Import Pcb Demo FileSystem.

Definition RTC_CMD : Z := 0x70.
Definition RTC_DATA : Z := 0x71.
Definition RTC_REG_A : Z := 0x0A.
Definition RTC_REG_B : Z := 0x0B.
Definition RTC_REG_C : Z := 0x0C.
Definition RTC_DISABLE_NMI : Z := 0x80.
Definition RTC_ENABLE_PI : Z := 0x40.
Definition RTC_IRQ_NUM : Z := 8.
Definition RTC_START_FREQ : Z := 2.
Definition RTC_MAX_FREQ : Z := 1024.
Definition RTC_MIN_FREQ : Z := 2.
Definition RTC_POW_OFFSET : Z := 2.
Definition RTC_POW_MAX : Z := 11.
Definition RTC_POW_START : Z := 15.
Definition HIGH_4_BITMASK : Z := 0xF0.
Definition MAX_PROCESSES : Z := 6.

Section Rtc.
Context `{L : Layout}.

Definition get_higher_freq : K Z := gets (fun k => higher_freq (k_rtc k)).
Definition put_higher_freq (f : Z) : K unit := modify (fun k => set_k_rtc (set_higher_freq f (k_rtc k)) k).

(** [rtc_interrupt_flags[i]] *)
Definition put_flag (i v : Z) : K unit := fun k =>
  l ← arr_set (rtc_interrupt_flags (k_rtc k)) i v;
  Ok (tt, set_k_rtc (set_rtc_interrupt_flags l (k_rtc k)) k).

(** The loop that looks for the rate: the first [i] with [freq >> i] zero. *)
Fixpoint find_rate (n : nat) (i freq : Z) : Z :=
  match n with
  | 0%nat => RTC_POW_START
  | S n => if Z.shiftr freq i =? 0 then u8 (RTC_POW_START - i + RTC_POW_OFFSET)
           else find_rate n (i + 1) freq
  end.

Definition rtc_set_frequency (freq : Z) : K unit :=
  let rate := find_rate (Z.to_nat (RTC_POW_MAX - RTC_POW_OFFSET + 1)) RTC_POW_OFFSET freq in
  let masked_rate := Z.land rate 0x0F in
  kout (Z.lor RTC_REG_A RTC_DISABLE_NMI) RTC_CMD;;
  prevA ← kin RTC_DATA;
  kout (Z.lor RTC_REG_A RTC_DISABLE_NMI) RTC_CMD;;
  kout (Z.lor (Z.land prevA HIGH_4_BITMASK) masked_rate) RTC_DATA.

Definition init_rtc : K unit :=
  flags ← cli_and_save;
  kout (Z.lor RTC_REG_B RTC_DISABLE_NMI) RTC_CMD;;
  prevB ← kin RTC_DATA;
  kout (Z.lor RTC_REG_B RTC_DISABLE_NMI) RTC_CMD;;
  kout (Z.lor prevB RTC_ENABLE_PI) RTC_DATA;;
  kfor 0 NUM_TERMINALS (fun i => put_flag i 0);;
  rtc_set_frequency RTC_START_FREQ;;
  restore_flags flags.

Definition RT_handler : K unit :=
  kout RTC_REG_C RTC_CMD;;
  kin RTC_DATA;;
  kfor 0 NUM_TERMINALS (fun i => put_flag i 1);;
  ksend_eoi RTC_IRQ_NUM.

(** [terminals[curr_process].prog_curr_pid] *)
Definition curr_pid : K Z :=
  cp ← gets (fun k => curr_process (k_ter k));
  t ← get_terminal cp; mret (prog_curr_pid t).

Definition rtc_open (filename : Z) : K Z :=
  pid ← curr_pid;
  if pid =? -1 then mret 0
  else
    upd_pcb (get_pcb_by_pid pid) (set_prog_freq 0);;
    f ← get_higher_freq;
    rtc_set_frequency f;;
    mret 0.

(** [used_pids[i]] *)
Definition get_used (i : Z) : K Z := fun k =>
  u ← arr_get (used_pids (k_proc k)) i; Ok (u, k).

(** The loop that recomputes the divisors of the processes in use. *)
Definition update_divisors : K unit :=
  kfor 0 MAX_PROCESSES (fun i =>
    u ← get_used i;
    when (negb (u =? 0)) (
      let p := get_pcb_by_pid i in
      b ← get_pcb p;
      hf ← get_higher_freq;
      when (0 <? prog_freq b) (upd_pcb p (set_divisor (hf / prog_freq b))))).

(** The loop that looks for the highest frequency in use, from process [i] on. *)
Fixpoint max_freq (n : nat) (i max_requested_freq : Z) : K Z :=
  match n with
  | 0%nat => mret max_requested_freq
  | S n =>
      u ← get_used i;
      if u =? 0 then max_freq n (i + 1) max_requested_freq
      else
        b ← get_pcb (get_pcb_by_pid i);
        max_freq n (i + 1) (if max_requested_freq <? prog_freq b then prog_freq b
                            else max_requested_freq)
  end.

Definition rtc_close (fd : Z) : K Z :=
  max_requested_freq ← max_freq (Z.to_nat MAX_PROCESSES) 0 RTC_START_FREQ;
  put_higher_freq max_requested_freq;;
  hf ← get_higher_freq;
  rtc_set_frequency hf;;
  update_divisors;;
  mret 0.

Definition load_word (a : Z) : K Z := fun k => v ← load32 vptr a k; Ok (v, k).

Definition rtc_write (fd buf nbytes : Z) : K Z :=
  if buf =? NULL then mret ERROR
  else if negb (nbytes =? 4) then mret ERROR
  else
    v ← load_word buf;
    let freq := s32 v in
    if (RTC_MAX_FREQ <? freq) || (freq <? RTC_MIN_FREQ) then mret ERROR
    else if negb (Z.land freq (freq - 1) =? 0) then mret ERROR
    else
      pid ← curr_pid;
      if pid =? -1 then mret 0
      else
        let p := get_pcb_by_pid pid in
        upd_pcb p (set_prog_freq (u32 freq));;
        hf ← get_higher_freq;
        (if hf <? u32 freq then
           put_higher_freq (u32 freq);; update_divisors
         else upd_pcb p (set_divisor (hf / u32 freq)));;
        hf ← get_higher_freq;
        rtc_set_frequency hf;;
        mret 0.

(** The inner loop of [rtc_read] waits for the flag of the running terminal. *)
Definition flag_set (k : kernel) : res bool :=
  f ← arr_get (rtc_interrupt_flags (k_rtc k)) (curr_process (k_ter k)); Ok (f =? 1).

(** The outer loop; every turn takes at least one interrupt. *)
Fixpoint rtc_wait (fuel : nat) (p : Z) (irqs : list (K unit)) : K (list (K unit)) :=
  match fuel with
  | 0%nat => throw Diverges
  | S fuel =>
      cp ← gets (fun k => curr_process (k_ter k));
      put_flag cp 0;;
      irqs ← wait_until flag_set irqs;
      upd_pcb p (fun b => set_count (u32 (count b - 1)) b);;
      b ← get_pcb p;
      if 0 <? count b then rtc_wait fuel p irqs else mret irqs
  end.

(** The result carries the interrupts that have not happened yet. *)
Definition rtc_read (irqs : list (K unit)) (fd buf nbytes : Z) : K (Z * list (K unit)) :=
  pid ← curr_pid;
  if pid =? -1 then mret (0, irqs)
  else
    let p := get_pcb_by_pid pid in
    b ← get_pcb p;
    if prog_freq b =? 0 then mret (0, irqs)
    else
      upd_pcb p (fun b => set_count (divisor b) b);;
      sti;;
      irqs ← rtc_wait (S (length irqs)) p irqs;
      mret (0, irqs).
End Rtc.

(** ** Frequencies *)

(** The frequencies of the clock: the powers of two from 2 to 1024. *)
Definition is_freq (f : Z) : Prop := exists m, 1 <= m <= 10 /\ f = 2 ^ m.

Lemma freq_check f :
  RTC_MIN_FREQ <= f <= RTC_MAX_FREQ -> Z.land f (f - 1) = 0 <-> is_freq f.
Proof.
  unfold RTC_MIN_FREQ, RTC_MAX_FREQ. intros Hf.
  assert (G : forallb (fun f => Bool.eqb (Z.land f (f - 1) =? 0)
    (existsb (fun m => f =? 2 ^ m) (seqZ 1 10))) (seqZ 2 1023) = true) by (vm_compute; reflexivity).
  rewrite forallb_forall in G. specialize (G f).
  rewrite <- list_elem_of_In, elem_of_seqZ in G. specialize (G ltac:(lia)).
  apply eqb_prop in G. rewrite <- Z.eqb_eq, G, existsb_exists. unfold is_freq.
  split; intros (m & H1 & H2); exists m.
  - rewrite <- list_elem_of_In, elem_of_seqZ in H1. lia.
  - rewrite <- list_elem_of_In, elem_of_seqZ. split; [lia|]. by apply Z.eqb_eq.
Qed.

Lemma freq_range f : is_freq f -> 2 <= f <= 1024.
Proof.
  intros (m & Hm & ->). change 2 with (2 ^ 1) at 1. change 1024 with (2 ^ 10).
  split; apply Z.pow_le_mono_r; lia.
Qed.

(** A frequency divides every frequency that is not below it. *)
Lemma freq_divides f g : is_freq f -> is_freq g -> f <= g -> g / f * f = g.
Proof.
  intros (m & Hm & ->) (n & Hn & ->) Hle. apply Z.pow_le_mono_r_iff in Hle; [|lia..].
  rewrite <- Z.pow_sub_r, <- Z.pow_add_r by lia. f_equal. lia.
Qed.

(** The frequency the chip derives from the low bits of register A. *)
Definition chip_freq (reg_a : Z) : Z := 2 ^ 15 / 2 ^ (Z.land reg_a 0x0F - 1).

(** The bytes that reached register A: the index written to port 0x70 (without the
    NMI bit) selects the register that port 0x71 writes. *)
Definition reg_a_step (s : Z * Z) (e : io_event) : Z * Z :=
  match e with
  | Out p d =>
      if p =? RTC_CMD then (Z.land d 0x7F, s.2)
      else if (p =? RTC_DATA) && (s.1 =? RTC_REG_A) then (s.1, d) else s
  | In _ _ => s
  end.
Definition reg_a (log : list io_event) : Z := (foldl reg_a_step (0, 0) log).2.

Definition rate_byte (prevA f : Z) : Z :=
  Z.lor (Z.land (u8 prevA) HIGH_4_BITMASK)
    (Z.land (find_rate (Z.to_nat (RTC_POW_MAX - RTC_POW_OFFSET + 1)) RTC_POW_OFFSET f) 0x0F).

Lemma rate_byte_freq prevA f :
  is_freq f -> is_byte (rate_byte prevA f) /\ chip_freq (rate_byte prevA f) = f /\
    Z.land (rate_byte prevA f) HIGH_4_BITMASK = Z.land (u8 prevA) HIGH_4_BITMASK.
Proof.
  intros (m & Hm & ->). unfold rate_byte. pose proof (u8_range prevA) as Hu.
  set (a := u8 prevA) in *. clearbody a.
  assert (G : forallb (fun a => forallb (fun m =>
    let b := Z.lor (Z.land a HIGH_4_BITMASK)
      (Z.land (find_rate (Z.to_nat (RTC_POW_MAX - RTC_POW_OFFSET + 1)) RTC_POW_OFFSET (2 ^ m)) 0x0F) in
    (0 <=? b) && (b <? 256) && (chip_freq b =? 2 ^ m) &&
    (Z.land b HIGH_4_BITMASK =? Z.land a HIGH_4_BITMASK)) (seqZ 1 10)) (seqZ 0 256) = true)
    by (vm_compute; reflexivity).
  rewrite forallb_forall in G. specialize (G a). rewrite <- list_elem_of_In, elem_of_seqZ in G.
  specialize (G ltac:(lia)). rewrite forallb_forall in G. specialize (G m).
  rewrite <- list_elem_of_In, elem_of_seqZ in G. specialize (G ltac:(lia)).
  cbv zeta in G. unfold is_byte. lia.
Qed.

Section RtcSpec.
Context `{L : Layout}.

Lemma rtc_set_frequency_spec f k b bs :
  is_freq f -> io_in (k_io k) = b :: bs ->
  exists log, rtc_set_frequency f k = Ok (tt, set_k_io {| io_log := log; io_in := bs |} k) /\
    chip_freq (reg_a log) = f.
Proof.
  intros Hf Hin. unfold rtc_set_frequency. cbv zeta. unfold kout. kcbn.
  erewrite run_kin by exact Hin. kcbn. eexists. split; [reflexivity|].
  destruct (rate_byte_freq b f Hf) as (Hb & Hc & _).
  unfold reg_a. cbn [outb k_io set_k_io io_log io_in]. rewrite !foldl_app.
  cbn [foldl reg_a_step]. fold (rate_byte b f).
  change (u16 RTC_CMD) with RTC_CMD. change (u16 RTC_DATA) with RTC_DATA.
  change (RTC_CMD =? RTC_CMD) with true. change (RTC_DATA =? RTC_CMD) with false.
  change (RTC_DATA =? RTC_DATA) with true. cbn [fst snd andb].
  change (Z.land (u8 (Z.lor RTC_REG_A RTC_DISABLE_NMI)) 127 =? RTC_REG_A) with true.
  cbn [snd]. by rewrite u8_small.
Qed.

(** ** The invariant *)

Definition used (k : kernel) (i : Z) : Prop :=
  exists u, used_pids (k_proc k) !! Z.to_nat i = Some u /\ u <> 0.

(** The divisor of a program gives it the frequency it asked for. *)
Definition served (hf : Z) (b : pcb) : Prop :=
  prog_freq b = 0 \/ (is_freq (prog_freq b) /\ divisor b * prog_freq b = hf).

Record rtc_ok (k : kernel) : Prop := {
  ro_freq : is_freq (higher_freq (k_rtc k));
  ro_flags : length (rtc_interrupt_flags (k_rtc k)) = 3%nat;
  ro_used : length (used_pids (k_proc k)) = 6%nat;
  ro_pcbs i : 0 <= i < MAX_PROCESSES -> used k i ->
    exists b, pcbs (k_proc k) !! get_pcb_by_pid i = Some b /\ served (higher_freq (k_rtc k)) b;
}.

(** Only the blocks change. *)
Definition with_pcbs (m : gmap Z pcb) (k : kernel) : kernel :=
  set_k_proc (set_pcbs m (k_proc k)) k.

Definition divisor_for (hf : Z) (b : pcb) : pcb :=
  if 0 <? prog_freq b then set_divisor (hf / prog_freq b) b else b.

(** The first [n] processes have been updated. *)
Definition updated_to (k0 : kernel) (hf n : Z) (k : kernel) : Prop :=
  k = with_pcbs (pcbs (k_proc k)) k0 /\
  (forall i, 0 <= i < MAX_PROCESSES -> i < n -> used k0 i ->
    pcbs (k_proc k) !! get_pcb_by_pid i = divisor_for hf <$> pcbs (k_proc k0) !! get_pcb_by_pid i) /\
  (forall a, (forall i, 0 <= i < n -> used k0 i -> a <> get_pcb_by_pid i) ->
    pcbs (k_proc k) !! a = pcbs (k_proc k0) !! a).

Lemma update_divisors_spec k :
  length (used_pids (k_proc k)) = 6%nat ->
  (forall i, 0 <= i < MAX_PROCESSES -> used k i ->
    is_Some (pcbs (k_proc k) !! get_pcb_by_pid i)) ->
  exists k', update_divisors k = Ok (tt, k') /\ updated_to k (higher_freq (k_rtc k)) MAX_PROCESSES k'.
Proof.
  intros Hu Hp. unfold MAX_PROCESSES in *.
  apply (kfor_inv (updated_to k (higher_freq (k_rtc k)))); [done| |].
  { split; [by destruct k as [????????[]]|]. split; [lia|done]. }
  intros i k1 Hi (Hk & H1 & H2).
  assert (used_pids (k_proc k1) = used_pids (k_proc k)) as Hused by by rewrite Hk.
  assert (higher_freq (k_rtc k1) = higher_freq (k_rtc k)) as Hhf by by rewrite Hk.
  destruct (lookup_lt_is_Some_2 (used_pids (k_proc k)) (Z.to_nat i)) as [u Eu]; [lia|].
  assert (get_used i k1 = Ok (u, k1)) as Eg.
  { unfold get_used. rewrite Hused. by rewrite (proj2 (arr_get_lookup _ _ _) (conj (proj1 Hi) Eu)). }
  kstep Eg. destruct (Z.eqb_spec u 0) as [->|Hnz]; kcbn.
  { exists k1. split; [done|]. split; [done|]. split.
    - intros j Hj Hlt Huj. apply H1; [done| |done]. assert (j <> i); [|lia].
      intros ->. destruct Huj as (u & Eu' & Hu'). congruence.
    - intros a Ha. apply H2. intros j Hj. apply Ha. lia. }
  assert (used k i) as Hui by (exists u; done).
  destruct (Hp i ltac:(lia) Hui) as [b Eb].
  assert (pcbs (k_proc k1) !! get_pcb_by_pid i = Some b) as Eb1.
  { rewrite H2; [done|]. intros j Hj _ E. apply pcb_by_pid_inj in E; lia. }
  kstep (get_pcb_ok _ _ _ Eb1). unfold get_higher_freq. kcbn. rewrite Hhf.
  assert (Hother : forall a, (forall j, 0 <= j < i + 1 -> used k j -> a <> get_pcb_by_pid j) ->
    pcbs (k_proc k1) !! a = pcbs (k_proc k) !! a /\ a <> get_pcb_by_pid i).
  { intros a Ha. split; [apply H2; intros j Hj; apply Ha; lia|apply Ha; [lia|done]]. }
  assert (Hprev : forall j, 0 <= j < 6 -> j < i + 1 -> j <> i -> used k j ->
    pcbs (k_proc k1) !! get_pcb_by_pid j =
      divisor_for (higher_freq (k_rtc k)) <$> pcbs (k_proc k) !! get_pcb_by_pid j /\
    get_pcb_by_pid i <> get_pcb_by_pid j).
  { intros j Hj Hlt Hne Huj. split; [apply H1; [done|lia|done]|].
    intros E. apply pcb_by_pid_inj in E; lia. }
  destruct (Z.ltb_spec 0 (prog_freq b)) as [Hf|Hf]; kcbn.
  - rewrite (upd_pcb_ok _ _ _ _ Eb1). eexists. split; [done|]. split; [|split]; simpl.
    + rewrite Hk. done.
    + intros j Hj Hlt Huj. destruct (Z.eq_dec j i) as [->|Hne].
      * rewrite lookup_insert_eq, Eb. simpl. unfold divisor_for.
        by rewrite (proj2 (Z.ltb_lt 0 _)).
      * destruct (Hprev j Hj Hlt Hne Huj) as [Ej Hd]. by rewrite lookup_insert_ne.
    + intros a Ha. destruct (Hother a Ha). by rewrite lookup_insert_ne.
  - exists k1. split; [done|]. split; [done|]. split.
    + intros j Hj Hlt Huj. destruct (Z.eq_dec j i) as [->|Hne].
      * rewrite Eb1, Eb. simpl. unfold divisor_for. by rewrite (proj2 (Z.ltb_ge 0 _)).
      * by apply Hprev.
    + intros a Ha. by apply Hother.
Qed.

(** Updating the divisors serves every program again. *)
Lemma divisor_for_served hf b :
  is_freq hf -> (prog_freq b = 0 \/ is_freq (prog_freq b) /\ prog_freq b <= hf) ->
  served hf (divisor_for hf b).
Proof.
  intros Hh [H0|[Hf Hle]]; unfold divisor_for.
  - rewrite H0. simpl. by left.
  - pose proof (freq_range _ Hf). rewrite (proj2 (Z.ltb_lt 0 _)) by lia. right. simpl.
    split; [done|]. by apply freq_divides.
Qed.

Lemma served_le hf b :
  is_freq hf -> served hf b -> prog_freq b = 0 \/ is_freq (prog_freq b) /\ prog_freq b <= hf.
Proof.
  intros Hh [H|[Hf E]]; [by left|right]. split; [done|].
  pose proof (freq_range _ Hf). pose proof (freq_range _ Hh). assert (0 < divisor b) by nia. nia.
Qed.

(** The process that runs, and its block. *)
Record running (k : kernel) (p : Z) (b : pcb) : Prop := {
  rn_cp : 0 <= curr_process (k_ter k);
  rn_pid : exists t, terminals (k_ter k) !! Z.to_nat (curr_process (k_ter k)) = Some t /\
    prog_curr_pid t = p;
  rn_range : 0 <= p < MAX_PROCESSES;
  rn_used : used k p;
  rn_pcb : pcbs (k_proc k) !! get_pcb_by_pid p = Some b;
}.

Lemma curr_pid_ok k p b : running k p b -> curr_pid k = Ok (p, k).
Proof.
  intros [H1 (t & Et & Hp) _ _ _]. unfold curr_pid. kcbn.
  kstep (get_terminal_ok _ _ _ H1 Et). kcbn. by rewrite Hp.
Qed.

(** Changing the frequency of the running program to one that is not above
    [hf], and its divisor with it. *)
Lemma served_update k p b b' :
  rtc_ok k -> running k p b -> served (higher_freq (k_rtc k)) b' ->
  rtc_ok (with_pcbs (<[get_pcb_by_pid p := b']> (pcbs (k_proc k))) k).
Proof.
  intros [] [] Hs. split; simpl; auto. intros i Hi Hu.
  destruct (Z.eq_dec i p) as [->|Hne].
  - exists b'. by rewrite lookup_insert_eq.
  - rewrite lookup_insert_ne; [by apply ro_pcbs0|].
    unfold MAX_PROCESSES in *. intros E. apply pcb_by_pid_inj in E; lia.
Qed.

Lemma updated_rtc_ok k hf k' :
  is_freq hf -> length (rtc_interrupt_flags (k_rtc k)) = 3%nat ->
  length (used_pids (k_proc k)) = 6%nat -> higher_freq (k_rtc k) = hf ->
  (forall i, 0 <= i < MAX_PROCESSES -> used k i -> exists b,
    pcbs (k_proc k) !! get_pcb_by_pid i = Some b /\
    (prog_freq b = 0 \/ is_freq (prog_freq b) /\ prog_freq b <= hf)) ->
  updated_to k hf MAX_PROCESSES k' -> rtc_ok k'.
Proof.
  intros Hf Hfl Hu <- Hb (Hk & H1 & H2). rewrite Hk. split; simpl; auto.
  intros i Hi Hui. destruct (Hb i Hi Hui) as (b & Eb & Hle).
  exists (divisor_for (higher_freq (k_rtc k)) b). split; [|by apply divisor_for_served].
  rewrite H1 by (done || lia). by rewrite Eb.
Qed.

(** What a clock operation may change: the port traffic, the shared frequency and the divisors. *)
Record redivided (k k' : kernel) : Prop := {
  rd_state : exists io hf m, k' = set_k_io io (set_k_rtc (set_higher_freq hf (k_rtc k)) (with_pcbs m k));
  rd_blocks a : set_divisor 0 <$> pcbs (k_proc k') !! a = set_divisor 0 <$> pcbs (k_proc k) !! a;
}.

Lemma updated_blocks k hf k' a :
  updated_to k hf MAX_PROCESSES k' -> length (used_pids (k_proc k)) = 6%nat ->
  set_divisor 0 <$> pcbs (k_proc k') !! a = set_divisor 0 <$> pcbs (k_proc k) !! a.
Proof.
  intros (_ & H1 & H2) Hu. unfold MAX_PROCESSES in *.
  destruct (list_find (fun i => a = get_pcb_by_pid i) (seqZ 0 6)) as [[j i]|] eqn:E.
  - apply list_find_Some in E as (Hi & -> & _). apply lookup_seqZ in Hi as [-> Hj].
    destruct (lookup_lt_is_Some_2 (used_pids (k_proc k)) j) as [u Eu]; [lia|].
    destruct (decide (u = 0)) as [->|Hne].
    + rewrite H2; [done|]. intros i Hi (u & Eu' & Hne) E. apply pcb_by_pid_inj in E as <-; [|lia..].
      rewrite Z.add_0_l, Nat2Z.id in Eu'. congruence.
    + rewrite H1; [|lia|lia|exists u; by rewrite Z.add_0_l, Nat2Z.id].
      destruct (pcbs (k_proc k) !! _) as [b|]; [|done]. simpl. f_equal. unfold divisor_for. by destruct (0 <? _).
  - apply list_find_None in E. rewrite H2; [done|]. intros i Hi _.
    apply (proj1 (list.Forall_forall _ _) E i), elem_of_seqZ. lia.
Qed.

(** *** [rtc_open] *)

Lemma rtc_ok_io k io : rtc_ok k -> rtc_ok (set_k_io io k).
Proof. by intros []. Qed.

Lemma rtc_open_spec k p b f c cs :
  rtc_ok k -> running k p b -> io_in (k_io k) = c :: cs ->
  exists log, rtc_open f k = Ok (0, set_k_io {| io_log := log; io_in := cs |}
      (with_pcbs (<[get_pcb_by_pid p := set_prog_freq 0 b]> (pcbs (k_proc k))) k)) /\
    chip_freq (reg_a log) = higher_freq (k_rtc k) /\
    rtc_ok (with_pcbs (<[get_pcb_by_pid p := set_prog_freq 0 b]> (pcbs (k_proc k))) k).
Proof.
  intros Hok Hrun Hin. pose proof Hok as []. pose proof Hrun as []. unfold rtc_open.
  kstep (curr_pid_ok k p b Hrun). rewrite (proj2 (Z.eqb_neq p (-1))) by lia.
  kstep (upd_pcb_ok _ (set_prog_freq 0) _ _ rn_pcb0). unfold get_higher_freq. kcbn. set (k1 := set_k_proc _ k).
  destruct (rtc_set_frequency_spec (higher_freq (k_rtc k1)) k1 c cs ro_freq0 Hin) as (log & E & Hc).
  exists log. split; [by kstep E|]. split; [exact Hc|]. apply (served_update k p b); [done|done|by left].
Qed.

(** *** [rtc_write] *)

(** The checks of [rtc_write], passed. *)
Lemma rtc_write_enters k p b buf fd v :
  running k p b -> buf <> NULL -> load32 vptr buf k = Ok v -> is_freq v ->
  let P := get_pcb_by_pid p in
  rtc_write fd buf 4 k =
    (hf ← get_higher_freq;
     (if hf <? v then put_higher_freq v;; update_divisors else upd_pcb P (set_divisor (hf / v)));;
     hf ← get_higher_freq; rtc_set_frequency hf;; mret 0)
    (with_pcbs (<[P := set_prog_freq v b]> (pcbs (k_proc k))) k).
Proof.
  intros Hrun Hbuf Hv Hf P. pose proof (freq_range _ Hf) as Hvr. pose proof Hrun as [].
  unfold rtc_write. rewrite (proj2 (Z.eqb_neq buf NULL)) by done. change (negb (4 =? 4)) with false.
  cbv iota. erewrite K_bind_Ok; [|unfold load_word; rewrite Hv; reflexivity]. cbv beta zeta.
  rewrite s32_small by lia. rewrite (proj2 (Z.ltb_ge _ v)), (proj2 (Z.ltb_ge v _))
    by (unfold RTC_MIN_FREQ, RTC_MAX_FREQ; lia). cbn [orb].
  rewrite (proj2 (freq_check v ltac:(unfold RTC_MIN_FREQ, RTC_MAX_FREQ; lia)) Hf).
  change (negb (0 =? 0)) with false. cbv iota. kstep (curr_pid_ok k p b Hrun).
  rewrite (proj2 (Z.eqb_neq p (-1))) by lia. rewrite u32_small by lia.
  by kstep (upd_pcb_ok _ (set_prog_freq v) _ _ rn_pcb0).
Qed.

(** A frequency above the shared one: it becomes the shared one. *)
Lemma rtc_write_raises k p b buf fd v c cs :
  rtc_ok k -> running k p b -> buf <> NULL -> load32 vptr buf k = Ok v -> is_freq v ->
  io_in (k_io k) = c :: cs -> higher_freq (k_rtc k) < v ->
  exists k' b', rtc_write fd buf 4 k = Ok (0, k') /\ rtc_ok k' /\ running k' p b' /\
    prog_freq b' = v /\ divisor b' * v = v /\ higher_freq (k_rtc k') = v /\
    chip_freq (reg_a (io_log (k_io k'))) = v /\ io_in (k_io k') = cs /\
    redivided (with_pcbs (<[get_pcb_by_pid p := set_prog_freq v b]> (pcbs (k_proc k))) k) k'.
Proof.
  intros Hok Hrun Hbuf Hv Hf Hin Hlt. rewrite (rtc_write_enters k p b) with (v := v) by done.
  pose proof (freq_range _ Hf) as Hvr. pose proof Hok as []. pose proof Hrun as []. set (k1 := with_pcbs _ k).
  assert (pcbs (k_proc k1) !! get_pcb_by_pid p = Some (set_prog_freq v b)) as Eb1
    by by (simpl; rewrite lookup_insert_eq).
  unfold get_higher_freq. kcbn. rewrite (proj2 (Z.ltb_lt _ _) (Hlt : higher_freq (k_rtc k1) < v)).
  unfold put_higher_freq. kcbn. set (k2 := set_k_rtc _ k1).
  assert (forall i, 0 <= i < MAX_PROCESSES -> used k2 i -> exists b,
    pcbs (k_proc k2) !! get_pcb_by_pid i = Some b /\
    (prog_freq b = 0 \/ is_freq (prog_freq b) /\ prog_freq b <= v)) as Hall.
  { intros i Hi Hu. destruct (Z.eq_dec i p) as [->|Hne].
    - eexists. split; [exact Eb1|]. right. simpl. split; [done|lia].
    - destruct (ro_pcbs0 i Hi Hu) as (bi & Ei & Hs). exists bi. split.
      + simpl. rewrite lookup_insert_ne; [done|]. unfold MAX_PROCESSES in *.
        intros E. apply pcb_by_pid_inj in E; lia.
      + destruct (served_le _ _ ro_freq0 Hs) as [?|[? ?]]; [by left|right; split; [done|lia]]. }
  destruct (update_divisors_spec k2) as (k3 & E3 & U3); [done| |].
  { intros i Hi Hu. destruct (Hall i Hi Hu) as (bi & Ei & _). by exists bi. }
  kstep E3. kcbn. pose proof (updated_rtc_ok k2 v k3 Hf ro_flags0 ro_used0 eq_refl Hall U3) as Hok3.
  pose proof (fun a => updated_blocks k2 v k3 a U3 ro_used0) as Hbl.
  destruct U3 as (Hk3 & U1 & _). assert (higher_freq (k_rtc k3) = v) as Hh3 by by rewrite Hk3.
  destruct (rtc_set_frequency_spec v k3 c cs Hf) as (log & E4 & Hc); [by rewrite Hk3|].
  rewrite Hh3. kstep E4. eexists _, (divisor_for v (set_prog_freq v b)). split; [done|].
  split; [by apply rtc_ok_io|]. split.
  - assert (pcbs (k_proc k3) !! get_pcb_by_pid p = Some (divisor_for v (set_prog_freq v b))) as Ep.
    { rewrite U1; [|done|unfold MAX_PROCESSES in *; lia|done]. change (pcbs (k_proc k2)) with (pcbs (k_proc k1)). by rewrite Eb1. }
    rewrite Hk3 in Ep |- *. by split.
  - unfold divisor_for. simpl. rewrite (proj2 (Z.ltb_lt 0 v)) by lia. simpl. rewrite Hh3.
    split; [done|]. split; [by apply freq_divides|]. split; [done|]. split; [done|]. split; [done|].
    split; [|exact Hbl]. rewrite Hk3. by eexists _, v, _.
Qed.

(** One that divides the shared one: the caller counts more interrupts. *)
Lemma rtc_write_divides k p b buf fd v c cs :
  rtc_ok k -> running k p b -> buf <> NULL -> load32 vptr buf k = Ok v -> is_freq v ->
  io_in (k_io k) = c :: cs -> v <= higher_freq (k_rtc k) ->
  exists k' b', rtc_write fd buf 4 k = Ok (0, k') /\ rtc_ok k' /\ running k' p b' /\
    prog_freq b' = v /\ divisor b' * v = higher_freq (k_rtc k) /\ higher_freq (k_rtc k') = higher_freq (k_rtc k) /\
    chip_freq (reg_a (io_log (k_io k'))) = higher_freq (k_rtc k) /\ io_in (k_io k') = cs /\
    redivided (with_pcbs (<[get_pcb_by_pid p := set_prog_freq v b]> (pcbs (k_proc k))) k) k'.
Proof.
  intros Hok Hrun Hbuf Hv Hf Hin Hge. rewrite (rtc_write_enters k p b) with (v := v) by done.
  pose proof (freq_range _ Hf) as Hvr. pose proof Hok as []. pose proof Hrun as []. set (k1 := with_pcbs _ k).
  assert (pcbs (k_proc k1) !! get_pcb_by_pid p = Some (set_prog_freq v b)) as Eb1
    by by (simpl; rewrite lookup_insert_eq).
  unfold get_higher_freq. kcbn. change (higher_freq (k_rtc k1)) with (higher_freq (k_rtc k)).
  set (hf := higher_freq (k_rtc k)) in *. rewrite (proj2 (Z.ltb_ge _ _) Hge).
  kstep (upd_pcb_ok _ (set_divisor (hf / v)) _ _ Eb1). set (k2 := set_k_proc _ k1). kcbn.
  change (higher_freq (k_rtc k2)) with hf.
  destruct (rtc_set_frequency_spec hf k2 c cs ro_freq0) as (log & E4 & Hc); [done|].
  kstep E4. eexists _, (set_divisor (hf / v) (set_prog_freq v b)). split; [done|].
  assert (k2 = with_pcbs (<[get_pcb_by_pid p := set_divisor (hf / v) (set_prog_freq v b)]>
    (pcbs (k_proc k))) k) as Hk2.
  { unfold k2, k1, with_pcbs. simpl. by rewrite insert_insert_eq. }
  assert (hf / v * v = hf) as Hd by by apply freq_divides.
  split; [|split].
  - apply rtc_ok_io. rewrite Hk2. apply (served_update k p b); [done|done|]. right. by split.
  - rewrite Hk2. split; try done. simpl. by rewrite lookup_insert_eq.
  - do 5 (split; [done|]). split.
    + exists {| io_log := log; io_in := cs |}, hf, (pcbs (k_proc k2)). by destruct k as [???????[]????].
    + intros a. simpl. destruct (decide (a = get_pcb_by_pid p)) as [->|Hne].
      * by rewrite !lookup_insert_eq.
      * by rewrite !lookup_insert_ne.
Qed.

Lemma rtc_write_spec k p b buf fd v c cs :
  rtc_ok k -> running k p b -> buf <> NULL -> load32 vptr buf k = Ok v -> is_freq v ->
  io_in (k_io k) = c :: cs ->
  exists k' b', rtc_write fd buf 4 k = Ok (0, k') /\ rtc_ok k' /\ running k' p b' /\
    prog_freq b' = v /\ divisor b' * v = higher_freq (k_rtc k') /\
    higher_freq (k_rtc k') = Z.max (higher_freq (k_rtc k)) v /\
    chip_freq (reg_a (io_log (k_io k'))) = higher_freq (k_rtc k') /\ io_in (k_io k') = cs /\
    redivided (with_pcbs (<[get_pcb_by_pid p := set_prog_freq v b]> (pcbs (k_proc k))) k) k'.
Proof.
  intros Hok Hrun Hbuf Hv Hf Hin. destruct (Z_lt_le_dec (higher_freq (k_rtc k)) v) as [H|H].
  - destruct (rtc_write_raises k p b buf fd v c cs) as (k' & b' & E & Hok' & Hr & Hp & Hd & Hh & Hc & Hi & Hrd); auto.
    exists k', b'. rewrite Hh, Z.max_r by lia. auto 12.
  - destruct (rtc_write_divides k p b buf fd v c cs) as (k' & b' & E & Hok' & Hr & Hp & Hd & Hh & Hc & Hi & Hrd); auto.
    exists k', b'. rewrite Hh, Z.max_l by lia. auto 12.
Qed.

(** *** Interrupts *)

Lemma put_flag_ok i v k :
  0 <= i < Z.of_nat (length (rtc_interrupt_flags (k_rtc k))) ->
  put_flag i v k = Ok (tt, set_k_rtc (set_rtc_interrupt_flags
    (<[Z.to_nat i := v]> (rtc_interrupt_flags (k_rtc k))) (k_rtc k)) k).
Proof. intros Hi. unfold put_flag. by rewrite arr_set_ok. Qed.

Lemma all_flags v k :
  length (rtc_interrupt_flags (k_rtc k)) = 3%nat ->
  kfor 0 NUM_TERMINALS (fun i => put_flag i v) k =
    Ok (tt, set_k_rtc (set_rtc_interrupt_flags [v; v; v] (k_rtc k)) k).
Proof.
  intros Hl. destruct k as [m pg sc ter kb pc io [hf fl] pr ts fs cp]. simpl in Hl.
  by destruct fl as [|a [|b [|c [|]]]].
Qed.

(** A clock interrupt sets every terminal's flag. *)
Lemma RT_handler_spec k c cs :
  io_in (k_io k) = c :: cs -> length (rtc_interrupt_flags (k_rtc k)) = 3%nat ->
  exists log, RT_handler k = Ok (tt, set_k_io {| io_log := log; io_in := cs |}
    (set_k_rtc (set_rtc_interrupt_flags [1; 1; 1] (k_rtc k)) k)).
Proof.
  intros Hin Hl. unfold RT_handler, kout. kcbn. erewrite run_kin by exact Hin. cbv beta.
  erewrite K_bind_Ok by (by apply all_flags). unfold ksend_eoi. kcbn.
  unfold send_eoi. simpl. by repeat case_match; eexists.
Qed.

(** *** [rtc_close] *)

Lemma max_freq_spec k (n : nat) i m :
  rtc_ok k -> is_freq m -> 0 <= i -> i + Z.of_nat n <= MAX_PROCESSES ->
  exists m', max_freq n i m k = Ok (m', k) /\ is_freq m' /\ m <= m' /\
    (forall j b, i <= j < i + Z.of_nat n -> used k j ->
      pcbs (k_proc k) !! get_pcb_by_pid j = Some b -> prog_freq b <= m') /\
    (m' = m \/ exists j b, i <= j < i + Z.of_nat n /\ used k j /\
      pcbs (k_proc k) !! get_pcb_by_pid j = Some b /\ prog_freq b = m').
Proof.
  intros Hok. pose proof Hok as []. unfold MAX_PROCESSES in *. revert i m.
  induction n as [|n IH]; intros i m Hm Hi Hn; cbn [max_freq].
  { exists m. split; [done|]. split; [done|]. split; [lia|]. split; [lia|by left]. }
  destruct (lookup_lt_is_Some_2 (used_pids (k_proc k)) (Z.to_nat i)) as [u Eu]; [lia|].
  assert (get_used i k = Ok (u, k)) as Eg
    by (unfold get_used; by rewrite (proj2 (arr_get_lookup _ _ _) (conj Hi Eu))).
  kstep Eg. destruct (Z.eqb_spec u 0) as [->|Hu].
  - destruct (IH (i + 1) m Hm ltac:(lia) ltac:(lia)) as (m' & E & Hf & Hle & Hall & Hex).
    exists m'. split; [done|]. split; [done|]. split; [done|]. split.
    + intros j b Hj Huj Eb. apply (Hall j b); [|done|done]. assert (j <> i); [|lia].
      intros ->. destruct Huj as (u & Eu' & Hu'). congruence.
    + destruct Hex as [->|(j & b & Hj & Huj & Eb & <-)]; [by left|right]. exists j, b.
      split; [lia|done].
  - assert (used k i) as Hui by (exists u; done).
    destruct (ro_pcbs0 i ltac:(lia) Hui) as (b & Eb & Hs).
    kstep (get_pcb_ok _ _ _ Eb). set (m1 := if m <? prog_freq b then _ else _).
    assert (is_freq m1 /\ m <= m1 /\ prog_freq b <= m1 /\ (m1 = m \/ m1 = prog_freq b)) as (Hf1 & Hl1 & Hb1 & Hor).
    { unfold m1. destruct (Z.ltb_spec m (prog_freq b)).
      - destruct (served_le _ _ ro_freq0 Hs) as [H0|[Hfb _]]; [|by repeat split; [done|lia|lia|right]].
        pose proof (freq_range _ Hm). lia.
      - by repeat split; [done|lia|lia|left]. }
    destruct (IH (i + 1) m1 Hf1 ltac:(lia) ltac:(lia)) as (m' & E & Hf & Hle & Hall & Hex).
    exists m'. split; [done|]. split; [done|]. split; [lia|]. split.
    + intros j bj Hj Huj Ej. destruct (Z.eq_dec j i) as [->|Hne]; [|apply (Hall j); [lia|done|done]].
      rewrite Eb in Ej. injection Ej as <-. lia.
    + destruct Hex as [->|(j & bj & Hj & Huj & Ej & <-)].
      * destruct Hor as [->|Hor]; [by left|right]. exists i, b. split; [lia|done].
      * right. exists j, bj. split; [lia|done].
Qed.

(** [rtc_close] sets the shared frequency to the highest one a process in
    use has asked for (2 Hz when none has), on the chip as well, and keeps every
    such process served. *)
Lemma rtc_close_spec k fd c cs :
  rtc_ok k -> io_in (k_io k) = c :: cs ->
  exists k', rtc_close fd k = Ok (0, k') /\ rtc_ok k' /\
    chip_freq (reg_a (io_log (k_io k'))) = higher_freq (k_rtc k') /\
    (forall j b, 0 <= j < MAX_PROCESSES -> used k j ->
      pcbs (k_proc k) !! get_pcb_by_pid j = Some b -> prog_freq b <= higher_freq (k_rtc k')) /\
    (higher_freq (k_rtc k') = RTC_START_FREQ \/ exists j b, 0 <= j < MAX_PROCESSES /\ used k j /\
      pcbs (k_proc k) !! get_pcb_by_pid j = Some b /\ prog_freq b = higher_freq (k_rtc k')) /\
    RTC_START_FREQ <= higher_freq (k_rtc k') /\ io_in (k_io k') = cs /\ redivided k k'.
Proof.
  intros Hok Hin. pose proof Hok as [].
  destruct (max_freq_spec k (Z.to_nat MAX_PROCESSES) 0 RTC_START_FREQ) as (m & E & Hf & Hm & Hall & Hex);
    [done|by exists 1|lia|unfold MAX_PROCESSES; lia|].
  rewrite Z2Nat.id in Hall, Hex by (unfold MAX_PROCESSES; lia).
  unfold rtc_close. kstep E. unfold put_higher_freq, get_higher_freq. kcbn.
  set (k1 := set_k_rtc _ k). change (higher_freq (k_rtc k1)) with m.
  destruct (rtc_set_frequency_spec m k1 c cs Hf Hin) as (log & E2 & Hc). kstep E2.
  set (k2 := set_k_io _ k1).
  assert (forall i, 0 <= i < MAX_PROCESSES -> used k2 i -> exists b,
    pcbs (k_proc k2) !! get_pcb_by_pid i = Some b /\
    (prog_freq b = 0 \/ is_freq (prog_freq b) /\ prog_freq b <= m)) as Hserved.
  { intros i Hi Hu. destruct (ro_pcbs0 i Hi Hu) as (b & Eb & Hs). exists b. split; [done|].
    destruct (served_le _ _ ro_freq0 Hs) as [?|[? _]]; [by left|right]. split; [done|].
    by apply (Hall i). }
  destruct (update_divisors_spec k2) as (k3 & E3 & U3); [done| |].
  { intros i Hi Hu. destruct (Hserved i Hi Hu) as (b & Eb & _). by exists b. }
  pose proof (updated_rtc_ok k2 m k3 Hf ro_flags0 ro_used0 eq_refl Hserved U3) as Hok3.
  pose proof (fun a => updated_blocks k2 m k3 a U3 ro_used0) as Hbl.
  kstep E3. exists k3. destruct U3 as (Hk3 & _). split; [done|]. split; [done|].
  split; [by rewrite Hk3|]. split; [by rewrite Hk3|]. split; [by rewrite Hk3|]. split; [by rewrite Hk3|].
  split; [by rewrite Hk3|]. split; [|exact Hbl]. rewrite Hk3. by eexists _, m, _.
Qed.

(** Everything else [rtc_write] refuses with -1 and without any effect: a
    null buffer, a size other than four bytes, and every word that is not a
    power of two between 2 and 1024. *)
Lemma rtc_write_rejects k fd buf nbytes v :
  (buf <> NULL -> nbytes = 4 -> load32 vptr buf k = Ok v /\ ~ is_freq (s32 v)) ->
  rtc_write fd buf nbytes k = Ok (ERROR, k).
Proof.
  intros H. unfold rtc_write. destruct (Z.eqb_spec buf NULL) as [|Hb]; [done|].
  destruct (Z.eqb_spec nbytes 4) as [Hn|]; [|done]. destruct (H Hb Hn) as [Hv Hf].
  cbn [negb]. erewrite K_bind_Ok; [|unfold load_word; rewrite Hv; reflexivity]. cbv beta zeta.
  destruct (Z.ltb_spec RTC_MAX_FREQ (s32 v)); [done|].
  destruct (Z.ltb_spec (s32 v) RTC_MIN_FREQ); [done|]. cbn [orb].
  destruct (Z.eqb_spec (Z.land (s32 v) (s32 v - 1)) 0) as [E|]; [|done].
  exfalso. apply Hf, freq_check; [lia|done].
Qed.

End RtcSpec.

(** ** An example: process 1 runs in terminal 0 *)

Definition demo_rtc_kernel (b : pcb) : kernel :=
  set_k_mem (put_bytes 0x500000 [64; 0; 0; 0] ∅)
  (set_k_io {| io_log := []; io_in := [0x26; 0; 0] |}
  (set_k_ter {| terminals := set_prog_curr_pid 1 bss_terminal :: replicate 2 bss_terminal;
                curr_ter := 0; curr_process := 0 |}
  (set_k_proc {| used_pids := [0; 1; 0; 0; 0; 0]; pcbs := {[get_pcb_by_pid 1 := b]} |} demo_state))).

Lemma demo_rtc_used b i : 0 <= i < MAX_PROCESSES -> used (demo_rtc_kernel b) i -> i = 1.
Proof.
  intros Hi (u & Eu & Hu). unfold MAX_PROCESSES in Hi.
  assert (i = 0 \/ i = 1 \/ i = 2 \/ i = 3 \/ i = 4 \/ i = 5) as Hc by lia.
  destruct Hc as [-> | [-> | [-> | [-> | [-> | ->]]]]]; try done; injection Eu as <-; done.
Qed.

Lemma demo_rtc_ok b : served 1024 b -> rtc_ok (demo_rtc_kernel b).
Proof.
  intros Hs. split; [by exists 10|done|done|]. intros i Hi Hu. rewrite (demo_rtc_used b i Hi Hu). by exists b.
Qed.

Lemma demo_rtc_running b : running (demo_rtc_kernel b) 1 b.
Proof. split; [done|by eexists|done|by exists 1|done]. Qed.

Lemma load32_block `{L : Layout} k a pa bs :
  maps (k_pg k) a pa 4 -> length bs = 4%nat -> bytes_at (k_mem k) pa bs ->
  load32 vptr a k = Ok (from_le bs).
Proof.
  intros Hm Hl Hb. unfold load32.
  pose proof (vptr_holds k a pa 4 bs Hm ltac:(lia) Hb) as Hh.
  apply holds_load_list in Hh. rewrite Hl in Hh. by rewrite Hh.
Qed.

Lemma demo_rtc_word b : load32 (vptr (L := demo_layout)) 0x500000 (demo_rtc_kernel b) = Ok 64.
Proof.
  apply (load32_block (L := demo_layout) (demo_rtc_kernel b) 0x500000 0x500000 [64; 0; 0; 0]);
    [|done|apply bytes_at_put].
  apply (kernel_maps (L := demo_layout) _ None VIDEO_PAGE None);
    [exact demo_paging_rep|unfold KERNEL_MEM_START; lia|unfold _4_MB; lia].
Qed.

Lemma rtc_write_rejects_witness :
  rtc_write (L := demo_layout) 2 0x500000 3 (demo_rtc_kernel bss_pcb) = Ok (-1, demo_rtc_kernel bss_pcb).
Proof.
  apply (rtc_write_rejects (L := demo_layout) (demo_rtc_kernel bss_pcb) 2 0x500000 3 0).
  intros _ H. discriminate H.
Defined.

Lemma rtc_close_demo :
  exists k', rtc_close 2 (demo_rtc_kernel bss_pcb) = Ok (0, k') /\ rtc_ok k'.
Proof.
  destruct (rtc_close_spec (demo_rtc_kernel bss_pcb) 2 0x26 [0; 0]) as (k' & E & H & _).
  - apply demo_rtc_ok. left. reflexivity.
  - reflexivity.
  - exists k'. split; [exact E|exact H].
Defined.
