(* ===== verification/ClockRuns.v ===== *)
(** * The shared clock under any sequence of calls (rtc.c)

    The programs of the three terminals open, set and close the clock in any order.  The
    abstract clock keeps what each process asked for and the frequency the chip runs at;
    the kernel's variables, the divisors in the blocks and the rate register of the chip
    are shown to follow it. *)

From stdpp Require Import base gmap list numbers.
From Stdlib Require Import ZArith Lia.
From S2P Require Import Prelude Pointers Ports Pic Paging State Machine VirtMem CString MemFns.
From S2P Require Import Pcb Demo FileSystem Rtc.

(** ** The abstract clock *)

(** A call of the clock: of the program in terminal [cl_ter], when register A reads [cl_reg_a]. *)
Inductive clock_op : Type :=
| ClOpen (filename : Z)
| ClWrite (fd buf nbytes : Z)
| ClClose (fd : Z).

Record clock_call : Type := ClCall {
  cl_ter : Z;
  cl_reg_a : Z;
  cl_op : clock_op;
}.

(** What the processes asked for (0: nothing), and the frequency of the chip. *)
Record clock_state : Type := ClState {
  requests : Z -> Z;
  chip : Z;
}.

Definition freq_dec (f : Z) : bool := existsb (fun m => f =? 2 ^ m) (seqZ 1 10).

Section Abstract.
Context (proc_of : Z -> Z).   (* the process of each terminal *)
Context (in_use : list Z).    (* the processes in use *)
Context (word_at : Z -> Z).   (* the word at an address *)

(** The frequency a call asks for, when it is one of the clock's. *)
Definition asked (o : clock_op) : option Z :=
  match o with
  | ClWrite _ buf nbytes =>
      if negb (buf =? NULL) && (nbytes =? 4) && freq_dec (s32 (word_at buf)) then Some (s32 (word_at buf)) else None
  | _ => None
  end.

Definition put_request (p v : Z) (r : Z -> Z) : Z -> Z := fun q => if q =? p then v else r q.

Definition clock_step (s : clock_state) (c : clock_call) : clock_state :=
  let p := proc_of (cl_ter c) in
  match cl_op c with
  | ClOpen _ => ClState (put_request p 0 (requests s)) (chip s)
  | ClWrite _ _ _ =>
      match asked (cl_op c) with
      | Some v => ClState (put_request p v (requests s)) (Z.max (chip s) v)
      | None => s
      end
  | ClClose _ => ClState (requests s) (foldr Z.max RTC_START_FREQ (requests s <$> in_use))
  end.

Definition clock_run (cs : list clock_call) : clock_state := foldl clock_step (ClState (fun _ => 0) RTC_START_FREQ) cs.

(** Every frequency somebody asked for. *)
Definition all_asked (cs : list clock_call) : list Z := omap (fun c => asked (cl_op c)) cs.

(** Facts about the maximum. *)
Lemma max_upper d l x : x ∈ l -> x <= foldr Z.max d l.
Proof. induction 1 as [|y z l _ IH]; simpl; lia. Qed.
Lemma max_lower d l : d <= foldr Z.max d l.
Proof. induction l; simpl; lia. Qed.
Lemma max_elem d l : foldr Z.max d l = d \/ foldr Z.max d l ∈ l.
Proof.
  induction l as [|y l IH]; [by left|]. simpl. destruct (Z.max_spec y (foldr Z.max d l)) as [[_ ->]|[_ ->]].
  - destruct IH as [->|IH]; [by left|right; by right].
  - right. left.
Qed.

(** The chip's frequency was asked for by somebody, or is the one it started with, and so is
    every request. *)
Lemma clock_run_asked cs :
  chip (clock_run cs) ∈ RTC_START_FREQ :: all_asked cs /\
  forall p, requests (clock_run cs) p = 0 \/ requests (clock_run cs) p ∈ all_asked cs.
Proof.
  unfold clock_run, all_asked. induction cs as [|[t ra o] cs [IH1 IH2]] using rev_ind.
  { split; [by left|by left]. }
  rewrite foldl_app, omap_app. cbn [foldl omap list_omap cl_op]. set (s := foldl clock_step _ cs) in *.
  set (l := omap _ cs) in *. unfold clock_step. cbn [cl_op cl_ter]. destruct o as [f|fd buf n|fd].
  - cbn [asked]. rewrite app_nil_r. split; [done|]. intros p. cbn [requests]. unfold put_request.
    destruct (p =? proc_of t); [by left|apply IH2].
  - destruct (asked (ClWrite fd buf n)) as [v|]; [|by rewrite app_nil_r]. cbn [requests chip]. split.
    + rewrite app_comm_cons, elem_of_app.
      destruct (Z.max_spec (chip s) v) as [[_ ->]|[_ ->]]; [right; by left|by left].
    + intros p. unfold put_request. rewrite elem_of_app. destruct (p =? proc_of t); [right; right; by left|].
      destruct (IH2 p) as [?|?]; [by left|right; by left].
  - cbn [asked]. rewrite app_nil_r. cbn [requests chip]. split; [|apply IH2].
    pose proof (max_lower RTC_START_FREQ (requests s <$> in_use)) as Hl. unfold RTC_START_FREQ in Hl at 1.
    destruct (max_elem RTC_START_FREQ (requests s <$> in_use)) as [->|H]; [by left|].
    apply list_elem_of_fmap in H as (p & E & _). rewrite E in *. right. destruct (IH2 p); [lia|done].
Qed.

(** ** The kernel *)

Section Kernel.
Context `{L : Layout}.
Implicit Types (k : kernel) (s : clock_state).

(** The terminal gets its turn, and its program makes the call. *)
Definition make_call (c : clock_call) : K Z :=
  modify (fun k => set_k_io {| io_log := io_log (k_io k); io_in := [cl_reg_a c] |}
    (set_k_ter (set_curr_process (cl_ter c) (k_ter k)) k));;
  match cl_op c with
  | ClOpen filename => rtc_open filename
  | ClWrite fd buf nbytes => rtc_write fd buf nbytes
  | ClClose fd => rtc_close fd
  end.

Fixpoint make_calls (cs : list clock_call) : K unit :=
  match cs with [] => mret tt | c :: cs => make_call c;; make_calls cs end.

(** The processes are those the abstract clock knows. *)
Record ready k : Prop := {
  rd_use i : 0 <= i < MAX_PROCESSES -> used k i <-> i ∈ in_use;
  rd_range : Forall (fun i => 0 <= i < MAX_PROCESSES) in_use;
  rd_ter t : 0 <= t < 3 -> exists tm, terminals (k_ter k) !! Z.to_nat t = Some tm /\
    prog_curr_pid tm = proc_of t /\ proc_of t ∈ in_use;
}.

Record clock_rep k s : Prop := {
  cr_ok : rtc_ok k;
  cr_freq : higher_freq (k_rtc k) = chip s;
  cr_chip : chip_freq (reg_a (io_log (k_io k))) = chip s;
  cr_req i : i ∈ in_use -> exists b, pcbs (k_proc k) !! get_pcb_by_pid i = Some b /\ prog_freq b = requests s i;
}.

(** The program may pass any pointer it can read, to any word. *)
Definition call_ok k (c : clock_call) : Prop :=
  0 <= cl_ter c < 3 /\
  match cl_op c with
  | ClWrite _ buf nbytes => buf <> NULL -> nbytes = 4 -> load32 vptr buf k = Ok (word_at buf) /\ 0 <= word_at buf < 2 ^ 32
  | _ => True
  end.

Lemma freq_dec_spec f : freq_dec f = true <-> is_freq f.
Proof.
  unfold freq_dec, is_freq. rewrite existsb_exists. split; intros (m & H1 & H2); exists m.
  - rewrite <- list_elem_of_In, elem_of_seqZ in H1. lia.
  - rewrite <- list_elem_of_In, elem_of_seqZ. split; [lia|]. by apply Z.eqb_eq.
Qed.

(** The state in which the call starts. *)
Definition turn (c : clock_call) k : kernel :=
  set_k_io {| io_log := io_log (k_io k); io_in := [cl_reg_a c] |} (set_k_ter (set_curr_process (cl_ter c) (k_ter k)) k).

Lemma turn_rep c k s : clock_rep k s -> clock_rep (turn c k) s.
Proof. by intros [[] ???]; split; [split|..]. Qed.

Lemma turn_ready c k : ready k -> ready (turn c k).
Proof. by intros []; split. Qed.

Lemma turn_running c k s : clock_rep k s -> ready k -> 0 <= cl_ter c < 3 ->
  exists b, running (turn c k) (proc_of (cl_ter c)) b /\ prog_freq b = requests s (proc_of (cl_ter c)).
Proof.
  intros [] [] Ht. destruct (rd_ter0 _ Ht) as (tm & Htm & Hp & Hin). destruct (cr_req0 _ Hin) as (b & Hb & Hf).
  pose proof (proj1 (list.Forall_forall _ _) rd_range0 _ Hin) as Hr. cbv beta in Hr.
  exists b. split; [|done]. split; simpl; [lia|by exists tm|done|by apply rd_use0|done].
Qed.

(** An operation that redivides keeps the processes, and what they asked for. *)
Lemma redivided_ready k k' : redivided k k' -> ready k -> ready k'.
Proof. intros [(io & hf & m & ->) _] []. by split. Qed.

Lemma redivided_load k k' a : redivided k k' -> load32 vptr a k' = load32 vptr a k.
Proof. by intros [(io & hf & m & ->) _]. Qed.

Lemma redivided_freq k k' a : redivided k k' ->
  prog_freq <$> pcbs (k_proc k') !! a = prog_freq <$> pcbs (k_proc k) !! a.
Proof.
  intros [_ H]. specialize (H a). apply (f_equal (fmap prog_freq)) in H. rewrite <- !option_fmap_compose in H. exact H.
Qed.

(** One process asks for something else; [m] are the blocks then. *)
Lemma put_request_rep k k' s p v b h :
  rtc_ok k' -> higher_freq (k_rtc k') = h -> chip_freq (reg_a (io_log (k_io k'))) = h ->
  clock_rep k s -> ready k -> p ∈ in_use ->
  redivided (with_pcbs (<[get_pcb_by_pid p := set_prog_freq v b]> (pcbs (k_proc k))) k) k' ->
  clock_rep k' (ClState (put_request p v (requests s)) h).
Proof.
  intros Hok Hh Hc [] [] Hp Hrd. split; [done|done|done|]. intros i Hi.
  pose proof (redivided_freq _ _ (get_pcb_by_pid i) Hrd) as E. simpl in E |- *. unfold put_request.
  pose proof (proj1 (list.Forall_forall _ _) rd_range0) as Hr. pose proof (Hr i Hi) as Hir. pose proof (Hr p Hp) as Hpr.
  unfold MAX_PROCESSES in *. destruct (Z.eqb_spec i p) as [->|Hne].
  - rewrite lookup_insert_eq in E. apply fmap_Some in E as (b' & Hb' & E). by exists b'.
  - rewrite lookup_insert_ne in E by (intros Q; apply pcb_by_pid_inj in Q; lia).
    destruct (cr_req0 i Hi) as (bi & Hbi & Hf). rewrite Hbi in E. apply fmap_Some in E as (b' & Hb' & E).
    exists b'. split; [done|]. simpl. congruence.
Qed.

(** The highest request, as the loop of [rtc_close] finds it. *)
Lemma highest_request k s h :
  clock_rep k s -> ready k -> RTC_START_FREQ <= h ->
  (forall j b, 0 <= j < MAX_PROCESSES -> used k j -> pcbs (k_proc k) !! get_pcb_by_pid j = Some b -> prog_freq b <= h) ->
  (h = RTC_START_FREQ \/ exists j b, 0 <= j < MAX_PROCESSES /\ used k j /\
    pcbs (k_proc k) !! get_pcb_by_pid j = Some b /\ prog_freq b = h) ->
  h = foldr Z.max RTC_START_FREQ (requests s <$> in_use).
Proof.
  intros [] [] Hlo Hup Hex. set (l := requests s <$> in_use). pose proof (max_lower RTC_START_FREQ l) as H1.
  assert (foldr Z.max RTC_START_FREQ l <= h) as H2.
  { destruct (max_elem RTC_START_FREQ l) as [->|Hin]; [done|].
    apply list_elem_of_fmap in Hin as (i & -> & Hi). destruct (cr_req0 i Hi) as (b & Hb & <-).
    pose proof (proj1 (list.Forall_forall _ _) rd_range0 _ Hi) as Hr. by apply (Hup i b Hr); [apply rd_use0|]. }
  destruct Hex as [->|(j & b & Hj & Hu & Hb & E)]; [lia|].
  apply rd_use0 in Hu; [|done]. destruct (cr_req0 j Hu) as (b' & Hb' & Hf). simplify_eq.
  pose proof (max_upper RTC_START_FREQ l (requests s j)) as H3.
  ospecialize (H3 _); [by apply list_elem_of_fmap_2|]. lia.
Qed.

Lemma make_call_rep c k s :
  clock_rep k s -> ready k -> call_ok k c ->
  exists v k', make_call c k = Ok (v, k') /\ clock_rep k' (clock_step s c) /\ ready k' /\
    forall a, load32 vptr a k' = load32 vptr a k.
Proof.
  intros R Rd [Ht Hc]. unfold make_call. kcbn. fold (turn c k).
  destruct (turn_running c k s R Rd Ht) as (b & Hrun & Hfreq). apply (turn_rep c) in R. apply (turn_ready c) in Rd.
  assert (forall a, load32 vptr a (turn c k) = load32 vptr a k) as Hld by done.
  assert (io_in (k_io (turn c k)) = [cl_reg_a c]) as Hin by done.
  set (k1 := turn c k) in *. clearbody k1. set (p := proc_of (cl_ter c)) in *.
  assert (p ∈ in_use) as Hp by (destruct (rd_ter _ Rd _ Ht) as (? & _ & _ & Hi); exact Hi).
  unfold clock_step. fold p. pose proof (cr_ok _ _ R) as Ro. destruct (cl_op c) as [f|fd buf n|fd].
  - destruct (rtc_open_spec k1 p b f _ _ Ro Hrun Hin) as (log & E & Hch & Ro'). eexists 0, _. split; [exact E|].
    assert (redivided (with_pcbs (<[get_pcb_by_pid p := set_prog_freq 0 b]> (pcbs (k_proc k1))) k1)
      (set_k_io {| io_log := log; io_in := [] |} (with_pcbs (<[get_pcb_by_pid p := set_prog_freq 0 b]> (pcbs (k_proc k1))) k1))) as Hrd.
    { split; [|done]. eexists _, (higher_freq (k_rtc k1)), _. by destruct k1 as [???????[]????]. }
    split; [|split; [by apply (redivided_ready _ _ Hrd); destruct Rd|done]].
    rewrite (cr_freq _ _ R) in Hch. apply (put_request_rep k1 _ s p 0 b); auto; [by apply rtc_ok_io|apply R].
  - unfold asked. destruct (freq_dec (s32 (word_at buf))) eqn:Ef; cycle 1.
    { rewrite andb_false_r. exists (-1), k1. split; [|done]. apply (rtc_write_rejects _ _ _ _ (word_at buf)).
      intros Hb Hn. destruct (Hc Hb Hn) as [Hw _]. rewrite Hld. split; [done|]. intros Hf%freq_dec_spec. congruence. }
    rewrite andb_true_r. destruct (Z.eqb_spec buf NULL) as [->|Hb]; cbn [negb andb].
    { exists (-1), k1. split; [|done]. by apply (rtc_write_rejects _ _ _ _ 0). }
    destruct (Z.eqb_spec n 4) as [->|Hn]; cycle 1.
    { exists (-1), k1. split; [|done]. by apply (rtc_write_rejects _ _ _ _ 0). }
    apply freq_dec_spec in Ef. destruct (Hc Hb eq_refl) as [Hw Hr]. pose proof (freq_range _ Ef) as Hfr.
    assert (s32 (word_at buf) = word_at buf) as Es.
    { unfold s32, signed in *. cbv zeta in *. rewrite Z.mod_small in * by lia.
      destruct (Z.ltb_spec (word_at buf) (2 ^ (32 - 1))); [done|lia]. }
    rewrite Es in *. rewrite <- Hld in Hw.
    destruct (rtc_write_spec k1 p b buf fd (word_at buf) _ _ Ro Hrun Hb Hw Ef Hin)
      as (k' & b' & E & Ro' & _ & _ & _ & Hh & Hch & _ & Hrd).
    exists 0, k'. split; [exact E|]. rewrite (cr_freq _ _ R) in Hh. split; [|split].
    + by apply (put_request_rep k1 k' s p (word_at buf) b); auto; rewrite <- Hh.
    + apply (redivided_ready _ _ Hrd). by destruct Rd.
    + intros a. by rewrite (redivided_load _ _ a Hrd), <- Hld.
  - destruct (rtc_close_spec k1 fd _ _ Ro Hin) as (k' & E & Ro' & Hch & Hup & Hex & Hlo & _ & Hrd).
    exists 0, k'. split; [exact E|]. rewrite (highest_request k1 s _ R Rd Hlo Hup Hex) in *.
    split; [|split; [by apply (redivided_ready _ _ Hrd)|intros a; by rewrite (redivided_load _ _ a Hrd)]].
    split; [done| |done|].
    + by apply (highest_request k1 s).
    + intros i Hi. destruct (cr_req _ _ R i Hi) as (bi & Hbi & Hf).
      pose proof (redivided_freq _ _ (get_pcb_by_pid i) Hrd) as E'. rewrite Hbi in E'.
      apply fmap_Some in E' as (b' & Hb' & E'). exists b'. split; [done|]. simpl. congruence.
Qed.

Lemma make_calls_rep cs k s :
  clock_rep k s -> ready k -> Forall (call_ok k) cs ->
  exists k', make_calls cs k = Ok (tt, k') /\ clock_rep k' (foldl clock_step s cs) /\ ready k'.
Proof.
  revert k s. induction cs as [|c cs IH]; intros k s R Rd Hc; [by exists k|]. inversion_clear Hc as [|?? Hc1 Hcs].
  destruct (make_call_rep c k s R Rd Hc1) as (v & k1 & E1 & R1 & Rd1 & Hld).
  destruct (IH k1 _ R1 Rd1) as (k' & E & R' & Rd').
  { apply (list.Forall_impl (call_ok k)); [done|]. intros [t ra o] [Ht Ho]. split; [done|].
    destruct o; [done| |done]. cbn [cl_op] in *. by rewrite Hld. }
  exists k'. split; [cbn [make_calls]; by kstep E1|by split].
Qed.

(** (C30) The clock serves every program.  From the state in which it runs at its 2 Hz and nobody has asked
    for anything, whatever sequence of opens, writes (of any word, with any size) and closes the programs of
    the three terminals make: no call faults; the chip's rate register is at the shared frequency, which
    follows the abstract clock (a valid write raises it to the frequency asked for, a close sets it to the
    highest request of the processes in use, nothing else changes it) and is one that was asked for, or 2 Hz;
    every process has its last request, which is not above the shared frequency, and the divisor with
    which it gets exactly that. *)
Theorem clock_serves_requests cs k :
  clock_rep k (ClState (fun _ => 0) RTC_START_FREQ) -> ready k -> Forall (call_ok k) cs ->
  exists k', make_calls cs k = Ok (tt, k') /\
    let s := clock_run cs in
    higher_freq (k_rtc k') = chip s /\ chip_freq (reg_a (io_log (k_io k'))) = chip s /\
    chip s ∈ RTC_START_FREQ :: all_asked cs /\
    forall i, i ∈ in_use -> exists b, pcbs (k_proc k') !! get_pcb_by_pid i = Some b /\
      prog_freq b = requests s i /\ requests s i <= chip s /\
      (requests s i = 0 \/ requests s i ∈ all_asked cs /\ divisor b * requests s i = chip s).
Proof.
  intros R Rd Hc. destruct (make_calls_rep cs k _ R Rd Hc) as (k' & E & R' & Rd').
  fold (clock_run cs) in R'. destruct (clock_run_asked cs) as [Ha1 Ha2]. exists k'. split; [done|]. intros s.
  pose proof R' as [[] Hh Hch Hq]. split; [done|]. split; [done|]. split; [done|]. intros i Hi.
  destruct (Hq i Hi) as (b & Hb & Hf). exists b. split; [done|]. split; [done|]. fold s in Hf, Hh.
  pose proof (proj1 (list.Forall_forall _ _) (rd_range _ Rd') _ Hi) as Hr. cbv beta in Hr.
  destruct (ro_pcbs i Hr (proj2 (rd_use _ Rd' i Hr) Hi)) as (b' & Hb' & Hs). assert (b' = b) as -> by congruence.
  pose proof (freq_range _ ro_freq) as Hfr. rewrite Hh in *. split.
  - destruct (served_le _ _ ro_freq Hs) as [H0|[_ Hle]]; lia.
  - destruct (Ha2 i) as [H0|Hin]; [by left|].
    destruct Hs as [H0|[_ Hd]]; [left; congruence|right]. split; [done|]. by rewrite <- Hf.
Qed.
End Kernel.
End Abstract.

(** ** An example: process 1 runs in every terminal's turn *)

Definition demo_clock_kernel : kernel :=
  set_k_io {| io_log := [Out RTC_CMD 0x8A; Out RTC_DATA 0x2F]; io_in := [] |}
  (set_k_rtc {| higher_freq := 2; rtc_interrupt_flags := [0; 0; 0] |}
  (set_k_ter {| terminals := replicate 3 (set_prog_curr_pid 1 bss_terminal); curr_ter := 0; curr_process := 0 |}
  (demo_rtc_kernel bss_pcb))).

Lemma load32_set `{L : Layout} io rtc ter a k :
  load32 vptr a (set_k_io io (set_k_rtc rtc (set_k_ter ter k))) = load32 vptr a k.
Proof. done. Qed.

Lemma demo_clock_word : load32 (vptr (L := demo_layout)) 0x500000 demo_clock_kernel = Ok 64.
Proof. unfold demo_clock_kernel. rewrite load32_set. apply demo_rtc_word. Qed.

(** It opens the clock, asks for 64 Hz, passes a null pointer, and closes it: 64 Hz stay. *)
Lemma clock_serves_requests_witness :
  exists k', make_calls (L := demo_layout)
      [ClCall 0 0x2F (ClOpen 0); ClCall 0 0x2F (ClWrite 2 0x500000 4); ClCall 1 0x2F (ClWrite 2 0 4); ClCall 2 0x2F (ClClose 2)]
      demo_clock_kernel = Ok (tt, k') /\
    chip_freq (reg_a (io_log (k_io k'))) = 64.
Proof.
  destruct (clock_serves_requests (fun _ => 1) [1] (fun _ => 64) (L := demo_layout)
    [ClCall 0 0x2F (ClOpen 0); ClCall 0 0x2F (ClWrite 2 0x500000 4); ClCall 1 0x2F (ClWrite 2 0 4); ClCall 2 0x2F (ClClose 2)]
    demo_clock_kernel) as (k' & E & _ & Hc & _).
  - split; [|reflexivity|reflexivity|].
    + split; [exists 1; split; [lia|reflexivity]|reflexivity|reflexivity|]. intros i Hi Hu.
      rewrite (demo_rtc_used bss_pcb i Hi Hu). exists bss_pcb. split; [reflexivity|left; reflexivity].
    + intros i ->%list_elem_of_singleton. exists bss_pcb. by split.
  - split.
    + intros i Hi. rewrite list_elem_of_singleton. split; [exact (demo_rtc_used bss_pcb i Hi)|].
      intros ->. by exists 1.
    + repeat constructor; unfold MAX_PROCESSES; lia.
    + intros t Ht. exists (set_prog_curr_pid 1 bss_terminal). split; [|split; [reflexivity|by left]].
      assert (t = 0 \/ t = 1 \/ t = 2) as [-> | [-> | ->]] by lia; reflexivity.
  - constructor; [split; simpl; lia|]. constructor.
    { split; [simpl; lia|]. intros _ _. split; [exact demo_clock_word|lia]. }
    constructor; [|constructor; [split; simpl; lia|constructor]].
    split; [simpl; lia|]. intros Hn. by destruct Hn.
  - exists k'. split; [exact E|exact Hc].
Defined.
