(* ===== verification/Keyboard.v ===== *)
(** * The keyboard (keyboard.c)

    [KB_handler] turns scancodes into the line being typed in the terminal on
    display, into its screen, and into terminal switches.  The arrays of a
    terminal ([typing], [typed], [history]) are zero-padded lines; the abstract
    editor [ed] keeps the lines themselves, and the handler is shown to do to them
    what [ed_key] does, for every scancode.  A terminal switch is shown to preserve
    the contents of all three terminals' screens. *)

From stdpp Require Import base gmap list numbers.
From Stdlib Require Import ZArith Lia.
From S2P Require Import Prelude Pointers Ports Pic Paging State Machine VirtMem CString MemFns.
From S2P Require Import Pcb Demo Screen.

(** keyboard.h *)
Definition BUF_SIZE : Z := 128.
Definition KB_IRQ_NUM : Z := 1.
Definition KB_DATA : Z := 0x60.
Definition KB_KEY_DOWN_MASK : Z := 0x80.
Definition KB_KEY_DOWN_UNMASK : Z := 0x7f.
Definition NUM_KEYS : Z := 128.
Definition L_SHIFT_DOWN : Z := 0x2A.
Definition L_SHIFT_UP : Z := 0xAA.
Definition R_SHIFT_DOWN : Z := 0x36.
Definition R_SHIFT_UP : Z := 0xB6.
Definition L_CTRL_DOWN : Z := 0x1D.
Definition L_CTRL_UP : Z := 0x9D.
Definition L_ALT_DOWN : Z := 0x38.
Definition L_ALT_UP : Z := 0xB8.
Definition CAPS_DOWN : Z := 0x3A.
Definition UP_ARROW_DOWN : Z := 0x48.
Definition L_KEY_DOWN : Z := 0x26.
Definition F1_KEY_DOWN : Z := 0x3B.
Definition F2_KEY_DOWN : Z := 0x3C.
Definition F3_KEY_DOWN : Z := 0x3D.
Definition CHAR_BACKSPACE : Z := 8.
Definition CHAR_NEWLINE : Z := 10.
Definition CHAR_NON_PRINTABLE : Z := 0.

(** The scancode tables; entries that are not written are 0. *)
Definition kbdus : list Z :=
  [0; 0; 49; 50; 51; 52; 53; 54; 55; 56; 57; 48; 45; 61; 8; 9; 113; 119; 101; 114; 116;
   121; 117; 105; 111; 112; 91; 93; 10; 0; 97; 115; 100; 102; 103; 104; 106; 107; 108;
   59; 39; 96; 0; 92; 122; 120; 99; 118; 98; 110; 109; 44; 46; 47; 0; 42; 0; 32; 0; 0;
   0; 0; 0; 0; 0; 0; 0; 0; 0; 0; 0; 0; 0; 0; 45; 0; 0; 0; 43; 0; 0; 0; 0; 0; 0; 0; 0; 0;
   0; 0] ++ replicate 38 0.

Definition shift_kbdus : list Z :=
  [0; 0; 33; 64; 35; 36; 37; 94; 38; 42; 40; 41; 95; 43; 8; 9; 81; 87; 69; 82; 84; 89;
   85; 73; 79; 80; 123; 125; 10; 0; 65; 83; 68; 70; 71; 72; 74; 75; 76; 58; 34; 126; 0;
   124; 90; 88; 67; 86; 66; 78; 77; 60; 62; 63; 0; 42; 0; 32; 0; 0; 0; 0; 0; 0; 0; 0; 0;
   0; 0; 0; 0; 0; 0; 0; 45; 0; 0; 0; 43; 0; 0; 0; 0; 0; 0; 0; 0; 0; 0; 0] ++ replicate 38 0.

Definition caps_kbdus : list Z :=
  [0; 0; 49; 50; 51; 52; 53; 54; 55; 56; 57; 48; 45; 61; 8; 9; 81; 87; 69; 82; 84; 89;
   85; 73; 79; 80; 91; 93; 10; 0; 65; 83; 68; 70; 71; 72; 74; 75; 76; 59; 39; 96; 0; 92;
   90; 88; 67; 86; 66; 78; 77; 44; 46; 47; 0; 42; 0; 32; 0; 0; 0; 0; 0; 0; 0; 0; 0; 0;
   0; 0; 0; 0; 0; 0; 45; 0; 0; 0; 43; 0; 0; 0; 0; 0; 0; 0; 0; 0; 0; 0] ++ replicate 38 0.

Section Keyboard.
Context `{L : Layout}.

Definition get_curr_ter : K Z := gets (fun k => curr_ter (k_ter k)).

(** [terminals[curr_ter].<array>[i]], for the array a getter and a setter name. *)
Definition ter_get (get : terminal_state -> list Z) (i : Z) : K Z :=
  ct ← get_curr_ter; t ← get_terminal ct; lift (arr_get (get t) i).
Definition ter_set (get : terminal_state -> list Z)
    (set : list Z -> terminal_state -> terminal_state) (i v : Z) : K unit :=
  ct ← get_curr_ter; t ← get_terminal ct;
  l ← lift (arr_set (get t) i v); upd_terminal ct (set l).
(** [terminals[curr_ter].buf_len] *)
Definition get_buf_len : K Z := ct ← get_curr_ter; t ← get_terminal ct; mret (buf_len t).
Definition put_buf_len (v : Z) : K unit := ct ← get_curr_ter; upd_terminal ct (set_buf_len v).

Definition retype_buffer : K unit := fun k =>
  loop FUEL (fun '(i, k) =>
    n ← get_buf_len k;
    if i <? n.1 then
      c ← ter_get typing i k;
      r ← putc (u8 c.1) c.2;
      Ok (inl (i + 1, r.2))
    else Ok (inr (tt, k))) (0, k).

Definition print_char (c : Z) : K unit :=
  n ← get_buf_len;
  if BUF_SIZE - 1 <=? n then mret tt
  else
    put_buf_len (n + 1);;
    ter_set typing set_typing n c;;
    putc (u8 c).

Definition control_l : K unit :=
  flags ← cli_and_save;
  clear;;
  reset_cursor;;
  set_cursor;;
  retype_buffer;;
  restore_flags flags.

Definition backspace : K unit :=
  n ← get_buf_len;
  when (negb (n =? 0)) (
    screen_backspace;;
    n ← get_buf_len;
    put_buf_len (n - 1);;
    n ← get_buf_len;
    ter_set typing set_typing n 0).

Definition enter_key : K unit :=
  n ← get_buf_len;
  kfor n BUF_SIZE (fun i => ter_set typing set_typing i 0);;
  kfor 0 BUF_SIZE (fun i =>
    c ← ter_get typing i;
    ter_set typed set_typed i c;;
    c ← ter_get typing i;
    ter_set history set_history i c;;
    ter_set typing set_typing i 0);;
  n ← get_buf_len;
  ct ← get_curr_ter;
  upd_terminal ct (set_written_bytes (n + 1));;
  put_buf_len 0;;
  upd_terminal ct (set_buffer_updated 1);;
  putc 10.

Definition clear_buffer : K unit :=
  kfor 0 BUF_SIZE (fun i => ter_set typed set_typed i 0).

Definition get_character_code (scancode : Z) : K Z :=
  kb ← gets k_kbd;
  lift (arr_get
    (if negb (shift_pressed kb =? 0) then shift_kbdus
     else if negb (caps_lock_on kb =? 0) then caps_kbdus else kbdus)
    (Z.land scancode KB_KEY_DOWN_UNMASK)).

(** lib.h: the delay in a terminal switch. *)
Definition SLEEP_TIME : Z := 10000000.
Definition wait_slightly : K unit := kfor 0 SLEEP_TIME (fun _ => mret tt).

Definition switch_ter (old new : Z) : K Z :=
  swap_vid_mem old new;;
  on k_pg set_k_pg (fun pg => pg ← change_vidmem old pg; Ok (tt, pg));;
  modify (fun k => set_k_ter (set_curr_ter new (k_ter k)) k);;
  wait_slightly;;
  t ← get_terminal new;
  update_cursor (screen_x_save t) (screen_y_save t);;
  mret 0.

Definition put_kbd (f : kbd -> kbd) : K unit := modify (fun k => set_k_kbd (f (k_kbd k)) k).

Definition switch_terminal_or_return (n : Z) : K unit :=
  ct ← get_curr_ter;
  when (negb (ct =? n)) (switch_ter ct n;; mret tt).

(** The history: the typed characters are erased and the last line is put back. *)
Definition up_arrow : K unit :=
  b_len ← get_buf_len;
  kfor 0 b_len (fun _ => backspace);;
  kfor 0 BUF_SIZE (fun i => c ← ter_get history i; ter_set typing set_typing i c);;
  ct ← get_curr_ter; t ← get_terminal ct;
  n ← lift (strlen (arr_ptr 0) (history t));
  put_buf_len (s32 n);;
  retype_buffer.

(** The key a scancode stands for, when it is not a modifier. *)
Definition character_key (scancode : Z) : K unit :=
  c ← get_character_code scancode;
  if c =? CHAR_BACKSPACE then backspace
  else if c =? CHAR_NEWLINE then enter_key
  else if c =? CHAR_NON_PRINTABLE then mret tt
  else print_char c.

Definition key_down (scancode : Z) : K unit :=
  kb ← gets k_kbd;
  if negb (control_pressed kb =? 0) && (scancode =? L_KEY_DOWN) then control_l
  else if negb (alt_pressed kb =? 0) && (scancode =? F1_KEY_DOWN) then switch_terminal_or_return 0
  else if negb (alt_pressed kb =? 0) && (scancode =? F2_KEY_DOWN) then switch_terminal_or_return 1
  else if negb (alt_pressed kb =? 0) && (scancode =? F3_KEY_DOWN) then switch_terminal_or_return 2
  else character_key scancode.

(** Every path of the handler ends with the end-of-interrupt. *)
Definition KB_handler : K unit :=
  scancode ← kin KB_DATA;
  when (scancode =? UP_ARROW_DOWN) up_arrow;;
  (if (scancode =? L_SHIFT_DOWN) || (scancode =? R_SHIFT_DOWN) then put_kbd (set_shift_pressed 1)
   else if (scancode =? L_SHIFT_UP) || (scancode =? R_SHIFT_UP) then put_kbd (set_shift_pressed 0)
   else if scancode =? L_CTRL_DOWN then put_kbd (set_control_pressed 1)
   else if scancode =? L_CTRL_UP then put_kbd (set_control_pressed 0)
   else if scancode =? L_ALT_DOWN then put_kbd (set_alt_pressed 1)
   else if scancode =? L_ALT_UP then put_kbd (set_alt_pressed 0)
   else if scancode =? CAPS_DOWN then
     put_kbd (fun kb => set_caps_lock_on (if caps_lock_on kb =? 0 then 1 else 0) kb)
   else when (Z.land scancode KB_KEY_DOWN_MASK =? 0) (key_down scancode));;
  ksend_eoi KB_IRQ_NUM.
End Keyboard.

(** ** The line editor *)

(** A terminal's line being typed, its last line, and what [enter] handed over. *)
Record ed : Type := Ed {
  e_line : list Z;
  e_hist : list Z;
  e_typed : list Z;
  e_written : Z;
  e_updated : Z;
}.

Definition pad (l : list Z) : list Z := l ++ replicate (128 - length l) 0.

(** A line: at most 127 characters, none of them NUL. *)
Definition line_ok (l : list Z) : Prop :=
  (length l <= 127)%nat /\ Forall (fun b => is_byte b /\ b <> 0) l.

Record ed_rep (t : terminal_state) (e : ed) : Prop := {
  er_typing : typing t = pad (e_line e);
  er_len : buf_len t = Z.of_nat (length (e_line e));
  er_hist : history t = pad (e_hist e);
  er_typed : typed t = e_typed e;
  er_typed_len : length (e_typed e) = 128%nat;
  er_written : written_bytes t = e_written e;
  er_updated : buffer_updated t = e_updated e;
  er_line_ok : line_ok (e_line e);
  er_hist_ok : line_ok (e_hist e);
}.

(** The screen after a list of characters, and after [n] backspaces. *)
Definition tty_puts (t : tty) (l : list Z) : tty := foldl (fun t c => tty_putc c t) t l.
Definition tty_erase (n : nat) (t : tty) : tty := Nat.iter n tty_backspace t.

(** The keys of the editor. *)
Definition ed_char (c : Z) (s : ed * tty) : ed * tty :=
  let '(e, t) := s in
  if bool_decide (length (e_line e) < 127)%nat then
    (Ed (e_line e ++ [c]) (e_hist e) (e_typed e) (e_written e) (e_updated e), tty_putc c t)
  else (e, t).

Definition ed_backspace (s : ed * tty) : ed * tty :=
  let '(e, t) := s in
  if bool_decide (e_line e = []) then (e, t)
  else (Ed (take (length (e_line e) - 1) (e_line e)) (e_hist e) (e_typed e) (e_written e) (e_updated e),
        tty_backspace t).

Definition ed_enter (s : ed * tty) : ed * tty :=
  let '(e, t) := s in
  (Ed [] (e_line e) (pad (e_line e)) (Z.of_nat (length (e_line e)) + 1) 1, tty_putc 10 t).

Definition ed_up (s : ed * tty) : ed * tty :=
  let '(e, t) := s in
  (Ed (e_hist e) (e_hist e) (e_typed e) (e_written e) (e_updated e),
   tty_puts (tty_erase (length (e_line e)) t) (e_hist e)).

Definition ed_clear (s : ed * tty) : ed * tty :=
  let '(e, t) := s in (e, tty_puts (Tty blank_screen 0 0) (e_line e)).

Lemma length_pad l : (length l <= 128)%nat -> length (pad l) = 128%nat.
Proof. intros H. unfold pad. rewrite length_app, length_replicate. lia. Qed.

Lemma pad_lookup_char l i : (i < length l)%nat -> pad l !! i = l !! i.
Proof. intros H. unfold pad. by apply lookup_app_l. Qed.

Lemma pad_lookup_zero l i : (length l <= i < 128)%nat -> pad l !! i = Some 0.
Proof.
  intros H. unfold pad. rewrite lookup_app_r by lia. rewrite lookup_replicate. lia.
Qed.

Lemma pad_snoc l c : (length l < 128)%nat -> <[length l := c]> (pad l) = pad (l ++ [c]).
Proof.
  intros H. unfold pad. rewrite insert_app_r_alt, Nat.sub_diag, length_app by lia. simpl length.
  replace (128 - length l)%nat with (S (128 - (length l + 1))) by lia. simpl.
  by rewrite <- app_assoc.
Qed.

Lemma pad_drop_last l c : (length l < 128)%nat -> <[length l := 0]> (pad (l ++ [c])) = pad l.
Proof.
  intros H. rewrite <- pad_snoc by done. rewrite list_insert_insert_eq. apply list_insert_id.
  apply pad_lookup_zero. lia.
Qed.

(** ** The terminal on display *)

Section Terminal.
Context `{L : Layout}.

(** The terminal [c] is on display and is [t]. *)
Record ter_at (k : kernel) (c : Z) (t : terminal_state) : Prop := {
  ta_range : 0 <= c < 3;
  ta_ter : curr_ter (k_ter k) = c;
  ta_at : terminals (k_ter k) !! Z.to_nat c = Some t;
}.

Definition with_ter (k : kernel) (c : Z) (t : terminal_state) : kernel :=
  set_k_ter (set_terminals (<[Z.to_nat c := t]> (terminals (k_ter k))) (k_ter k)) k.

Lemma with_ter_at k c t t' : ter_at k c t -> ter_at (with_ter k c t') c t'.
Proof.
  intros []. split; [done|done|]. simpl. apply list_lookup_insert_eq. by eapply lookup_lt_Some.
Qed.

Lemma with_ter_with k c t t' : with_ter (with_ter k c t) c t' = with_ter k c t'.
Proof. unfold with_ter. simpl. by rewrite list_insert_insert_eq. Qed.

Lemma with_ter_id k c t : ter_at k c t -> with_ter k c t = k.
Proof.
  intros []. unfold with_ter. rewrite list_insert_id by done. by destruct k as [???[]].
Qed.

Lemma upd_terminal_at k c t f : ter_at k c t -> upd_terminal c f k = Ok (tt, with_ter k c (f t)).
Proof. intros []. apply upd_terminal_ok; [lia|done]. Qed.

Lemma get_terminal_at k c t : ter_at k c t -> get_terminal c k = Ok (t, k).
Proof. intros []. apply get_terminal_ok; [lia|done]. Qed.

Lemma get_buf_len_at k c t : ter_at k c t -> get_buf_len k = Ok (buf_len t, k).
Proof.
  intros H. unfold get_buf_len, get_curr_ter. kcbn. rewrite (ta_ter _ _ _ H).
  by kstep (get_terminal_at k c t H).
Qed.

Lemma put_buf_len_at k c t v :
  ter_at k c t -> put_buf_len v k = Ok (tt, with_ter k c (set_buf_len v t)).
Proof.
  intros H. unfold put_buf_len, get_curr_ter. kcbn. rewrite (ta_ter _ _ _ H).
  by apply upd_terminal_at.
Qed.

Lemma ter_get_at k c t get i v :
  ter_at k c t -> get t !! Z.to_nat i = Some v -> 0 <= i -> ter_get get i k = Ok (v, k).
Proof.
  intros H Hv Hi. unfold ter_get, get_curr_ter. kcbn. rewrite (ta_ter _ _ _ H).
  kstep (get_terminal_at k c t H). unfold lift.
  by rewrite (proj2 (arr_get_lookup _ _ _) (conj Hi Hv)).
Qed.

Lemma ter_set_at k c t get set i v :
  ter_at k c t -> 0 <= i < Z.of_nat (length (get t)) ->
  ter_set get set i v k = Ok (tt, with_ter k c (set (<[Z.to_nat i := v]> (get t)) t)).
Proof.
  intros H Hi. unfold ter_set, get_curr_ter. kcbn. rewrite (ta_ter _ _ _ H).
  kstep (get_terminal_at k c t H). rewrite arr_set_ok by done. kcbn. by apply upd_terminal_at.
Qed.

Lemma cursor_saved_with_ter k c t0 t' :
  ter_at k c t0 -> screen_x_save t' = screen_x_save t0 -> screen_y_save t' = screen_y_save t0 ->
  cursor_saved k -> cursor_saved (with_ter k c t').
Proof.
  intros [Hc _ H0] Hx Hy (t & Ht & Ex & Ey). unfold cursor_saved. simpl.
  destruct (decide (Z.to_nat c = Z.to_nat (curr_process (k_ter k)))) as [E|E].
  - rewrite <- E in *. exists t'. rewrite list_lookup_insert_eq by (by eapply lookup_lt_Some).
    assert (t0 = t) as -> by congruence. split; [done|]. by rewrite Hx, Hy.
  - exists t. by rewrite list_lookup_insert_ne.
Qed.

(** Screen functions leave the lines alone. *)
Lemma ter_at_frame k k' vid c t :
  ter_at k c t -> screen_frame vid k k' ->
  exists t', ter_at k' c t' /\ strip_cursor t' = strip_cursor t.
Proof.
  intros [] F. pose proof (fr_strip _ _ _ F) as Es.
  assert (strip_cursor <$> terminals (k_ter k') !! Z.to_nat c = Some (strip_cursor t)) as E.
  { rewrite <- list_lookup_fmap, Es, list_lookup_fmap, ta_at0. done. }
  apply fmap_Some in E as (t' & E & Et). exists t'. split; [|done].
  split; [done|by rewrite (fr_ct _ _ _ F)|done].
Qed.

Lemma ed_rep_strip t t' e : strip_cursor t' = strip_cursor t -> ed_rep t e -> ed_rep t' e.
Proof.
  intros E []. destruct t, t'. unfold strip_cursor in E. cbn in *. simplify_eq. by split.
Qed.

Lemma tty_rep_with_ter k vid tt0 c t : tty_rep k vid tt0 -> tty_rep (with_ter k c t) vid tt0.
Proof.
  intros []. split; auto. simpl. by rewrite length_insert.
Qed.
End Terminal.

Section Keys.
Context `{L : Layout}.
Context (p vid : Z).   (* the terminal whose process runs, and the page its screen is on *)

(** A change of terminal [c] that keeps its process, and its cursor when another runs. *)
Definition kept (c : Z) (t t' : terminal_state) : Prop :=
  prog_curr_pid t' = prog_curr_pid t /\
  (Z.to_nat c <> Z.to_nat p -> screen_x_save t' = screen_x_save t /\ screen_y_save t' = screen_y_save t).

(** What the keys of the editor leave alone; of the running terminal they change the saved
    cursor. *)
Record ed_frame (c : Z) (k k' : kernel) : Prop := {
  ef_mem a : ~ (vid * 4096 <= a < vid * 4096 + 4000) -> k_mem k' !! a = k_mem k !! a;
  ef_pg : k_pg k' = k_pg k;
  ef_on : on_screen (k_scr k') = on_screen (k_scr k);
  ef_ct : curr_ter (k_ter k') = curr_ter (k_ter k);
  ef_cp : curr_process (k_ter k') = curr_process (k_ter k);
  ef_other i : i <> Z.to_nat c -> i <> Z.to_nat p -> terminals (k_ter k') !! i = terminals (k_ter k) !! i;
  ef_strip i : i <> Z.to_nat c ->
    strip_cursor <$> terminals (k_ter k') !! i = strip_cursor <$> terminals (k_ter k) !! i;
  ef_keep t : terminals (k_ter k) !! Z.to_nat c = Some t ->
    exists t', terminals (k_ter k') !! Z.to_nat c = Some t' /\ kept c t t';
  ef_kbd : k_kbd k' = k_kbd k;
  ef_pic : k_pic k' = k_pic k;
  ef_rtc : k_rtc k' = k_rtc k;
  ef_proc : k_proc k' = k_proc k;
  ef_tss : k_tss k' = k_tss k;
  ef_fs : k_fs k' = k_fs k;
  ef_cpu : k_cpu k' = k_cpu k;
  ef_in : io_in (k_io k') = io_in (k_io k);
}.

#[local] Instance ed_frame_preorder c : PreOrder (ed_frame c).
Proof.
  split.
  - intros k. split; try done. intros t Ht. by exists t.
  - intros k1 k2 k3 A B. destruct A, B. split; try congruence.
    + intros a Ha. rewrite ef_mem1, ef_mem0; auto.
    + intros i Hi Hp. rewrite ef_other1, ef_other0; auto.
    + intros i Hi. rewrite ef_strip1, ef_strip0; auto.
    + intros t Ht. destruct (ef_keep0 t Ht) as (t1 & Ht1 & P1 & S1). destruct (ef_keep1 t1 Ht1) as (t2 & Ht2 & P2 & S2).
      exists t2. split; [done|]. split; [congruence|]. intros Hp. destruct (S1 Hp), (S2 Hp). split; congruence.
Qed.


(** Terminal [c] is on display and its line is that of [s]; the screen of [s] is the one the
    running terminal [p] has on page [vid]. *)
Record kb_rep (k : kernel) (c : Z) (s : ed * tty) : Prop := {
  kr_ter : exists t, ter_at k c t /\ ed_rep t s.1;
  kr_cp : curr_process (k_ter k) = p;
  kr_tty : tty_rep k vid s.2;
  kr_saved : cursor_saved k;
  kr_on : on_screen (k_scr k) <> 0;
}.

Lemma frame_ed k k' c :
  curr_process (k_ter k) = p -> screen_frame vid k k' -> ed_frame c k k'.
Proof.
  intros Hcp []. split; auto.
  - intros i _ Hi. apply fr_other. congruence.
  - intros i _. pose proof (f_equal (fun l => l !! i) fr_strip) as E. by rewrite !list_lookup_fmap in E.
  - intros t Ht. pose proof (f_equal (fun l => l !! Z.to_nat c) fr_strip) as E.
    rewrite !list_lookup_fmap, Ht in E. simpl in E. apply fmap_Some in E as (t' & Ht' & Es).
    exists t'. split; [done|]. split.
    + change (prog_curr_pid (strip_cursor t') = prog_curr_pid (strip_cursor t)). by rewrite Es.
    + intros Hc. rewrite fr_other in Ht' by congruence. simplify_eq. done.
Qed.

Lemma with_ter_frame k c t0 t' : ter_at k c t0 -> kept c t0 t' -> ed_frame c k (with_ter k c t').
Proof.
  intros [_ _ H0] Hk. split; try done; try (intros i Hi; simpl; by rewrite list_lookup_insert_ne).
  intros t Ht. assert (t = t0) as -> by congruence. exists t'. split; [|done]. simpl.
  apply list_lookup_insert_eq. by eapply lookup_lt_Some.
Qed.

(** A change of the terminal that keeps it an editor. *)
Lemma kb_rep_with_ter k c e e' t t0 t' :
  kb_rep k c (e, t) -> ter_at k c t0 -> ed_rep t' e' ->
  screen_x_save t' = screen_x_save t0 -> screen_y_save t' = screen_y_save t0 ->
  kb_rep (with_ter k c t') c (e', t).
Proof.
  intros [_ Hcp Htty Hs Hon] Ht Hr Hx Hy. split; [|done|by apply tty_rep_with_ter| |done].
  - exists t'. split; [by eapply with_ter_at|done].
  - by apply (cursor_saved_with_ter k c t0).
Qed.

(** A screen function that refines a change of the abstract screen. *)
Lemma kb_rep_screen k k' c e t t' :
  kb_rep k c (e, t) -> tty_rep k' vid t' -> screen_frame vid k k' -> cursor_saved k' ->
  kb_rep k' c (e, t').
Proof.
  intros [(t0 & Ht & He) Hcp _ _ Hon] Htty F Hs.
  split; [|by rewrite (fr_cp _ _ _ F)|done|done|by rewrite (fr_on _ _ _ F)].
  destruct (ter_at_frame k k' vid c t0 Ht F) as (t1 & Ht1 & Es).
  exists t1. split; [done|]. by eapply ed_rep_strip.
Qed.

(** [m] does to the editor what [f] does. *)
Definition does (f : ed * tty -> ed * tty) (c : Z) (m : K unit) : Prop :=
  forall k s, kb_rep k c s ->
    exists k', m k = Ok (tt, k') /\ kb_rep k' c (f s) /\ ed_frame c k k'.

Lemma putc_does v c : does (fun s => (s.1, tty_putc v s.2)) c (putc v).
Proof.
  intros k [e t] H. destruct (putc_rep k vid t v (kr_tty _ _ _ H)) as (k' & E & R & F & Hs & _).
  exists k'. split; [done|]. split; [by eapply kb_rep_screen|]. apply frame_ed; [apply H|done].
Qed.

Lemma screen_backspace_does c : does (fun s => (s.1, tty_backspace s.2)) c screen_backspace.
Proof.
  intros k [e t] H. destruct (screen_backspace_rep k vid t (kr_tty _ _ _ H)) as (k' & E & R & F & Hs).
  pose proof (Hs (kr_saved _ _ _ H) (kr_on _ _ _ H)) as Hs'. exists k'. split; [done|]. split; [by eapply kb_rep_screen|]. apply frame_ed; [apply H|done].
Qed.

Lemma does_seq f g c m1 m2 : does f c m1 -> does g c m2 -> does (fun s => g (f s)) c (m1;; m2).
Proof.
  intros H1 H2 k s H. destruct (H1 k s H) as (k1 & E1 & R1 & F1).
  destruct (H2 k1 (f s) R1) as (k2 & E2 & R2 & F2). exists k2. split; [by kstep E1|].
  split; [done|]. by rewrite F1.
Qed.

Lemma print_char_does v c :
  is_byte v -> v <> 0 -> does (ed_char v) c (print_char v).
Proof.
  intros Hb Hz k [e t] H. pose proof H as [(t0 & Ht & He) _ _ _ _]. pose proof He as []. simpl in *.
  unfold print_char. kstep (get_buf_len_at k c t0 Ht). rewrite er_len0.
  unfold ed_char, BUF_SIZE. case_bool_decide as Hl.
  - destruct (Z.leb_spec (128 - 1) (Z.of_nat (length (e_line e)))); [lia|].
    kstep (put_buf_len_at k c t0 (Z.of_nat (length (e_line e)) + 1) Ht).
    set (t1 := set_buf_len _ t0). pose proof (with_ter_at k c t0 t1 Ht) as Ht1.
    assert (typing t1 = pad (e_line e)) as Hty by done.
    erewrite K_bind_Ok; [|apply (ter_set_at _ c t1 typing set_typing); [done|]]; cycle 1.
    { rewrite Hty, length_pad by lia. lia. }
    cbv beta. rewrite with_ter_with, Hty, Nat2Z.id, pad_snoc by lia.
    rewrite u8_small by (unfold is_byte in Hb; lia).
    set (t2 := set_typing _ t1).
    assert (kb_rep (with_ter k c t2) c
      (Ed (e_line e ++ [v]) (e_hist e) (e_typed e) (e_written e) (e_updated e), t)) as H2.
    { apply (kb_rep_with_ter k c e _ t t0); [done|done| |done|done]. split; simpl; auto.
      - rewrite length_app. simpl. lia.
      - destruct er_line_ok0. split; [rewrite length_app; simpl; lia|].
        apply Forall_app. split; [done|by constructor]. }
    destruct (putc_does v c _ _ H2) as (k' & E & R & F). exists k'. split; [done|].
    split; [done|]. etrans; [|done]. by apply (with_ter_frame k c t0).
  - destruct (Z.leb_spec (128 - 1) (Z.of_nat (length (e_line e)))); [|lia]. exists k. by split.
Qed.

Lemma backspace_does c : does ed_backspace c backspace.
Proof.
  intros k [e t] H. pose proof H as [(t0 & Ht & He) _ _ _ _]. pose proof He as []. simpl in *.
  unfold backspace. kstep (get_buf_len_at k c t0 Ht). rewrite er_len0.
  unfold ed_backspace. case_bool_decide as Hl.
  { rewrite Hl. exists k. by split. }
  destruct (e_line e) as [|x l _] eqn:El using rev_ind; [done|]. clear Hl.
  rewrite length_app in *. simpl length in *.
  rewrite (proj2 (Z.eqb_neq _ 0)) by lia. kcbn.
  destruct (screen_backspace_does c k (e, t) H) as (k1 & E1 & R1 & F1). kstep E1.
  destruct R1 as [(t1 & Ht1 & He1) Hcp1 Htty1 Hs1 Hon1]. pose proof He1 as []. simpl in *.
  rewrite El in *. rewrite length_app in er_len1. simpl length in er_len1.
  kstep (get_buf_len_at k1 c t1 Ht1).
  kstep (put_buf_len_at k1 c t1 (buf_len t1 - 1) Ht1). set (t2 := set_buf_len _ t1).
  pose proof (with_ter_at k1 c t1 t2 Ht1) as Ht2. kstep (get_buf_len_at _ c t2 Ht2).
  assert (typing t2 = pad (l ++ [x])) as Hty by done.
  assert (buf_len t2 = Z.of_nat (length l)) as Hbl by (simpl; lia). rewrite Hbl.
  destruct er_line_ok0 as [Hlen Hbytes]. rewrite length_app in Hlen. simpl in Hlen.
  rewrite (ter_set_at _ c t2 typing set_typing); [|done|rewrite Hty, length_pad by (rewrite length_app; simpl; lia); lia].
  rewrite with_ter_with, Hty, Nat2Z.id, pad_drop_last by lia. eexists. split; [done|].
  replace (length l + 1 - 1)%nat with (length l) by lia. rewrite take_app_length. split.
  - apply (kb_rep_with_ter k1 c e _ _ t1); [split; [by exists t1|done..]|done| |done|done].
    split; simpl; auto.
    + split; [lia|]. by apply Forall_app in Hbytes as [? _].
  - etrans; [exact F1|by apply (with_ter_frame k1 c t1)].
Qed.

(** *** Enter *)

(** The first [i] elements of [l1], the rest of [l2]. *)
Definition mix (i : Z) (l1 l2 : list Z) : list Z := take (Z.to_nat i) l1 ++ drop (Z.to_nat i) l2.

Lemma length_mix i l1 l2 : length l1 = length l2 -> length (mix i l1 l2) = length l2.
Proof. intros H. unfold mix. rewrite length_app, length_take, length_drop. lia. Qed.

Lemma mix_step i l1 l2 x :
  0 <= i -> length l1 = length l2 -> l1 !! Z.to_nat i = Some x ->
  <[Z.to_nat i := x]> (mix i l1 l2) = mix (i + 1) l1 l2.
Proof.
  intros Hi Hl Hx. unfold mix. pose proof (lookup_lt_Some _ _ _ Hx).
  replace (Z.to_nat (i + 1)) with (S (Z.to_nat i)) by lia.
  rewrite insert_app_r_alt by (rewrite length_take; lia). rewrite length_take, Nat.min_l, Nat.sub_diag by lia.
  destruct (lookup_lt_is_Some_2 l2 (Z.to_nat i)) as [y Hy]; [lia|].
  rewrite (drop_S l2 y) by done. simpl. rewrite (take_S_r l1 _ x) by done. by rewrite <- app_assoc.
Qed.

Lemma mix_lookup i l1 l2 : 0 <= i -> length l1 = length l2 -> mix i l1 l2 !! Z.to_nat i = l2 !! Z.to_nat i.
Proof.
  intros Hi Hl. unfold mix. destruct (decide (Z.to_nat i < length l2)%nat).
  - rewrite lookup_app_r by (rewrite length_take; lia).
    rewrite length_take, Nat.min_l, Nat.sub_diag, lookup_drop by lia. f_equal. lia.
  - rewrite !lookup_ge_None_2; [done|lia|]. rewrite length_app, length_take, length_drop. lia.
Qed.

Lemma mix_0 l1 l2 : mix 0 l1 l2 = l2.
Proof. done. Qed.

Lemma mix_all l1 l2 : length l1 = length l2 -> mix (Z.of_nat (length l2)) l1 l2 = l1.
Proof.
  intros H. unfold mix. rewrite Nat2Z.id, drop_all, <- H, firstn_all. apply app_nil_r.
Qed.

(** Clearing what is already clear. *)
Lemma enter_fill k c t e :
  ter_at k c t -> ed_rep t e ->
  kfor (buf_len t) BUF_SIZE (fun i => ter_set typing set_typing i 0) k = Ok (tt, k).
Proof.
  intros Ht []. unfold BUF_SIZE. destruct er_line_ok0 as [Hl _].
  destruct (kfor_inv (fun _ k' => k' = k) (buf_len t) 128
    (fun i => ter_set typing set_typing i 0) k) as (k' & E & ->); [lia|done| |done].
  intros i k' Hi ->. exists k. split; [|done].
  rewrite (ter_set_at k c t typing set_typing i 0 Ht); [|rewrite er_typing0, length_pad; lia].
  rewrite list_insert_id; [|rewrite er_typing0; apply pad_lookup_zero; lia].
  do 2 f_equal. replace (set_typing (typing t) t) with t by by destruct t. by apply with_ter_id.
Qed.

(** The terminal while its line is handed over. *)
Definition handing (i : Z) (T : list Z) (t : terminal_state) : terminal_state :=
  set_typing (mix i (replicate (length T) 0) T)
    (set_history (mix i T (history t)) (set_typed (mix i T (typed t)) t)).

Lemma enter_copy k c t :
  ter_at k c t -> length (typing t) = 128%nat -> length (typed t) = 128%nat ->
  length (history t) = 128%nat ->
  kfor 0 BUF_SIZE (fun i =>
    c ← ter_get typing i;
    ter_set typed set_typed i c;;
    c ← ter_get typing i;
    ter_set history set_history i c;;
    ter_set typing set_typing i 0) k
  = Ok (tt, with_ter k c (handing 128 (typing t) t)).
Proof.
  intros Ht L1 L2 L3. set (T := typing t) in *.
  destruct (kfor_inv (fun i k' => k' = with_ter k c (handing i T t)) 0 BUF_SIZE (fun i =>
    c ← ter_get typing i;
    ter_set typed set_typed i c;;
    c ← ter_get typing i;
    ter_set history set_history i c;;
    ter_set typing set_typing i 0) k) as (k' & E & ->); [done| | |done].
  { unfold handing. rewrite !mix_0. replace (set_typing _ _) with t by by destruct t.
    symmetry. by apply with_ter_id. }
  intros i k' Hi ->. unfold BUF_SIZE in Hi.
  destruct (lookup_lt_is_Some_2 T (Z.to_nat i)) as [x Hx]; [lia|].
  assert (forall t', typing t' = mix i (replicate (length T) 0) T -> typing t' !! Z.to_nat i = Some x) as Hg.
  { intros t' ->. rewrite mix_lookup; [done|lia|by rewrite length_replicate]. }
  set (t1 := handing i T t). pose proof (with_ter_at k c t t1 Ht) as Ht1.
  kstep (ter_get_at _ c t1 typing i x Ht1 (Hg t1 eq_refl) (proj1 Hi)).
  erewrite K_bind_Ok; [|apply (ter_set_at _ c t1 typed set_typed i x Ht1);
    simpl; rewrite length_mix by congruence; lia]. cbv beta. rewrite with_ter_with.
  set (t2 := set_typed _ t1). pose proof (with_ter_at k c t t2 Ht) as Ht2.
  kstep (ter_get_at _ c t2 typing i x Ht2 (Hg t2 eq_refl) (proj1 Hi)).
  erewrite K_bind_Ok; [|apply (ter_set_at _ c t2 history set_history i x Ht2);
    simpl; rewrite length_mix by congruence; lia]. cbv beta. rewrite with_ter_with.
  set (t3 := set_history _ t2). pose proof (with_ter_at k c t t3 Ht) as Ht3.
  rewrite (ter_set_at _ c t3 typing set_typing i 0 Ht3);
    [|simpl; rewrite length_mix by (by rewrite length_replicate); lia].
  rewrite with_ter_with. eexists. split; [done|]. f_equal.
  unfold t3, t2, t1, handing. simpl.
  rewrite (mix_step i T (typed t) x), (mix_step i T (history t) x) by (done || lia || congruence).
  rewrite (mix_step i (replicate (length T) 0) T 0); [done|lia|by rewrite length_replicate|].
  apply lookup_replicate. split; [done|lia].
Qed.

Lemma enter_key_does c : does ed_enter c enter_key.
Proof.
  intros k [e t] H. pose proof H as [(t0 & Ht & He) _ _ _ _]. pose proof He as []. simpl in *.
  destruct er_line_ok0 as [Hl Hb]. pose proof (proj1 er_hist_ok0) as Hh.
  assert (length (typing t0) = 128%nat) as L1 by (rewrite er_typing0, length_pad; lia).
  assert (length (history t0) = 128%nat) as L2 by (rewrite er_hist0, length_pad; lia).
  assert (length (typed t0) = 128%nat) as L3 by congruence.
  unfold enter_key. kstep (get_buf_len_at k c t0 Ht). kstep (enter_fill k c t0 e Ht He).
  kstep (enter_copy k c t0 Ht L1 L3 L2).
  assert (handing 128 (typing t0) t0 = set_typing (replicate 128 0)
    (set_history (pad (e_line e)) (set_typed (pad (e_line e)) t0))) as ->.
  { unfold handing. rewrite er_typing0.
    assert (forall l1 l2, length l1 = length l2 -> length l2 = 128%nat -> mix 128 l1 l2 = l1) as Hm.
    { intros l1 l2 E1 E2. change 128 with (Z.of_nat 128). rewrite <- E2. by apply mix_all. }
    rewrite er_typing0 in L1. rewrite L1, !Hm; rewrite ?length_replicate; congruence. }
  set (t1 := set_typing _ _). pose proof (with_ter_at k c t0 t1 Ht) as Ht1.
  kstep (get_buf_len_at _ c t1 Ht1). unfold get_curr_ter. kcbn. rewrite (ta_ter _ _ _ Ht1).
  kstep (upd_terminal_at _ c t1 (set_written_bytes (buf_len t1 + 1)) Ht1). rewrite with_ter_with.
  set (t2 := set_written_bytes _ t1). pose proof (with_ter_at k c t0 t2 Ht) as Ht2.
  kstep (put_buf_len_at _ c t2 0 Ht2). rewrite with_ter_with.
  set (t3 := set_buf_len 0 t2). pose proof (with_ter_at k c t0 t3 Ht) as Ht3.
  kstep (upd_terminal_at _ c t3 (set_buffer_updated 1) Ht3). rewrite with_ter_with.
  assert (kb_rep (with_ter k c (set_buffer_updated 1 t3)) c
    (Ed [] (e_line e) (pad (e_line e)) (Z.of_nat (length (e_line e)) + 1) 1, t)) as H4.
  { apply (kb_rep_with_ter k c e _ t t0); [done|done| |done|done]. split; simpl; auto.
    - rewrite length_pad; lia.
    - by rewrite er_len0.
    - split; [simpl; lia|constructor].
    - by split. }
  destruct (putc_does 10 c _ _ H4) as (k' & E & R & F). exists k'. split; [done|]. split; [done|].
  etrans; [|done]. by apply (with_ter_frame k c t0).
Qed.

(** *** Retyping, clearing and the history *)

Definition retype_step : Z * kernel -> res (Z * kernel + unit * kernel) := fun '(i, k) =>
  n ← get_buf_len k;
  if i <? n.1 then
    c ← ter_get typing i k;
    r ← putc (u8 c.1) c.2;
    Ok (inl (i + 1, r.2))
  else Ok (inr (tt, k)).

Lemma retype_runs c e (n : nat) k i t :
  kb_rep k c (e, t) -> (i + n = length (e_line e))%nat ->
  exists k', runs retype_step (Z.of_nat i, k) n (Ok (tt, k')) /\
    kb_rep k' c (e, tty_puts t (drop i (e_line e))) /\ ed_frame c k k'.
Proof.
  revert i k t. induction n as [|n IH]; intros i k t H Hi; pose proof H as [(t0 & Ht & He) _ _ _ _];
    pose proof He as []; simpl in *.
  - exists k. rewrite drop_ge by lia. split; [|by split]. constructor. unfold retype_step.
    rewrite (get_buf_len_at k c t0 Ht), Ok_bind. cbn [fst]. rewrite er_len0.
    by rewrite (proj2 (Z.ltb_ge _ _)) by lia.
  - destruct (lookup_lt_is_Some_2 (e_line e) i) as [x Hx]; [lia|].
    destruct (putc_does x c k (e, t) H) as (k1 & E1 & R1 & F1).
    destruct (IH (S i) k1 (tty_putc x t) R1 ltac:(lia)) as (k2 & R & R2 & F2).
    exists k2. split; [|split; [|by rewrite F1]].
    + eapply runs_step; [|exact R]. unfold retype_step.
      rewrite (get_buf_len_at k c t0 Ht), Ok_bind. cbn [fst]. rewrite er_len0.
      rewrite (proj2 (Z.ltb_lt _ _)) by lia.
      rewrite (ter_get_at k c t0 typing (Z.of_nat i) x); [|done| |lia].
      * rewrite Ok_bind. cbn [fst snd]. destruct er_line_ok0 as [_ Hb].
        destruct (proj1 (Forall_lookup _ _) Hb _ _ Hx) as [Hbx _]. unfold is_byte in Hbx.
        rewrite u8_small by lia. rewrite E1, Ok_bind. cbn [snd]. do 3 f_equal. lia.
      * rewrite er_typing0, Nat2Z.id, pad_lookup_char; [done|lia].
    + by rewrite (drop_S _ x i Hx).
Qed.

Lemma retype_buffer_does c : does (fun s => (s.1, tty_puts s.2 (e_line s.1))) c retype_buffer.
Proof.
  intros k [e t] H. destruct (retype_runs c e (length (e_line e)) k 0 t H eq_refl) as (k' & R & H' & F).
  exists k'. split; [|done]. unfold retype_buffer. apply (loop_runs_Z _ retype_step _ _ _ R).
  pose proof H as [(t0 & _ & He) _ _ _ _]. pose proof (proj1 (er_line_ok _ _ He)). simpl in *.
  unfold FUEL. lia.
Qed.

(** [n] backspaces on a line of at least [n] characters. *)
Lemma erase_does c (n : nat) k e t :
  kb_rep k c (e, t) -> n = length (e_line e) ->
  exists k', kfor 0 (Z.of_nat n) (fun _ => backspace) k = Ok (tt, k') /\
    kb_rep k' c (Ed [] (e_hist e) (e_typed e) (e_written e) (e_updated e), tty_erase n t) /\
    ed_frame c k k'.
Proof.
  intros H Hn.
  destruct (kfor_inv (fun i k' =>
    kb_rep k' c (Ed (take (n - Z.to_nat i) (e_line e)) (e_hist e) (e_typed e) (e_written e) (e_updated e),
      tty_erase (Z.to_nat i) t) /\ ed_frame c k k') 0 (Z.of_nat n) (fun _ => backspace) k)
    as (k' & E & R & F).
  - lia.
  - split; [|done]. rewrite Nat.sub_0_r, Hn, firstn_all. by destruct e.
  - intros i k1 Hi [R1 F1]. destruct (backspace_does c k1 _ R1) as (k2 & E2 & R2 & F2).
    exists k2. split; [done|]. split; [|by rewrite F1].
    unfold ed_backspace in R2. cbn [e_line e_hist e_typed e_written e_updated] in R2.
    rewrite bool_decide_eq_false_2 in R2.
    + replace (Z.to_nat (i + 1)) with (S (Z.to_nat i)) by lia.
      rewrite length_take, Nat.min_l, take_take in R2 by lia.
      by replace (Nat.min (n - Z.to_nat i - 1) (n - Z.to_nat i))
        with (n - S (Z.to_nat i))%nat in R2 by lia.
    + intros E. apply (f_equal length) in E. rewrite length_take in E. simpl in E. lia.
  - exists k'. split; [done|]. rewrite Nat2Z.id, Nat.sub_diag, take_0 in R. by split.
Qed.

(** The last line is copied into the line. *)
Lemma history_copy k c t :
  ter_at k c t -> length (typing t) = 128%nat -> length (history t) = 128%nat ->
  kfor 0 BUF_SIZE (fun i => c ← ter_get history i; ter_set typing set_typing i c) k
    = Ok (tt, with_ter k c (set_typing (history t) t)).
Proof.
  intros Ht L1 L2.
  destruct (kfor_inv (fun i k' => k' = with_ter k c (set_typing (mix i (history t) (typing t)) t))
    0 BUF_SIZE (fun i => c ← ter_get history i; ter_set typing set_typing i c) k)
    as (k' & E & ->); [done| | |].
  - rewrite mix_0. replace (set_typing _ _) with t by by destruct t. symmetry. by apply with_ter_id.
  - intros i k' Hi ->. unfold BUF_SIZE in Hi. set (t1 := set_typing _ t).
    pose proof (with_ter_at k c t t1 Ht) as Ht1.
    destruct (lookup_lt_is_Some_2 (history t) (Z.to_nat i)) as [x Hx]; [lia|].
    kstep (ter_get_at _ c t1 history i x Ht1 Hx (proj1 Hi)).
    rewrite (ter_set_at _ c t1 typing set_typing i x Ht1);
      [|simpl; rewrite length_mix by congruence; lia].
    rewrite with_ter_with. eexists. split; [done|]. f_equal. unfold t1. simpl.
    by rewrite (mix_step i (history t) (typing t) x) by (done || lia || congruence).
  - rewrite E. do 4 f_equal. unfold BUF_SIZE. change 128 with (Z.of_nat 128). rewrite <- L1.
    apply mix_all. congruence.
Qed.

Lemma up_arrow_does c : does ed_up c up_arrow.
Proof.
  intros k [e t] H. pose proof H as [(t0 & Ht & He) _ _ _ _]. unfold up_arrow.
  kstep (get_buf_len_at k c t0 Ht). rewrite (er_len _ _ He). simpl fst.
  destruct (erase_does c (length (e_line e)) k e t H eq_refl) as (k1 & E1 & R1 & F1). kstep E1.
  destruct R1 as [(t1 & Ht1 & He1) Hcp1 Htty1 Hs1 Hon1]. pose proof He1 as []. simpl in *.
  destruct er_hist_ok0 as [Hh Hhb].
  assert (length (typing t1) = 128%nat) as L1 by by rewrite er_typing0.
  assert (length (history t1) = 128%nat) as L2 by (rewrite er_hist0, length_pad; lia).
  kstep (history_copy k1 c t1 Ht1 L1 L2). set (t2 := set_typing _ t1).
  pose proof (with_ter_at k1 c t1 t2 Ht1) as Ht2.
  unfold get_curr_ter. kcbn. rewrite (ta_ter _ _ _ Ht2). kstep (get_terminal_at _ c t2 Ht2).
  assert (strlen (arr_ptr 0) (history t2) = Ok (Z.of_nat (length (e_hist e)))) as Es.
  { assert (c_str (pad (e_hist e)) = e_hist e) as Ec.
    { unfold pad. replace (128 - length (e_hist e))%nat with (S (127 - length (e_hist e))) by lia.
      simpl. apply c_str_app_nil. eapply Forall_impl; [|exact Hhb]. by intros ? []. }
    change (history t2) with (history t1). rewrite er_hist0.
    rewrite (strlen_holds (arr_ptr 0) (pad (e_hist e)) (pad (e_hist e))); rewrite ?Ec; [done| | |].
    - intros i b Hb. by apply arr_get_Some.
    - rewrite length_pad; lia.
    - rewrite length_pad; lia. }
  rewrite Es. kcbn. rewrite s32_small by lia.
  kstep (put_buf_len_at _ c t2 (Z.of_nat (length (e_hist e))) Ht2). rewrite with_ter_with.
  assert (kb_rep (with_ter k1 c (set_buf_len (Z.of_nat (length (e_hist e))) t2)) c
    (Ed (e_hist e) (e_hist e) (e_typed e) (e_written e) (e_updated e), tty_erase (length (e_line e)) t)) as R3.
  { apply (kb_rep_with_ter k1 c _ _ _ t1 _ ltac:(split; [by exists t1|done..]) Ht1); [|done|done].
    split; simpl; auto; by split. }
  destruct (retype_buffer_does c _ _ R3) as (k' & E & R & F). exists k'. split; [done|].
  split; [done|]. rewrite F1. etrans; [|exact F]. by apply (with_ter_frame k1 c t1).
Qed.

Lemma ed_frame_flags c k k' f :
  ed_frame c (set_k_cpu (set_eflags f (k_cpu k)) k) k' ->
  ed_frame c k (set_k_cpu (set_eflags (eflags (k_cpu k)) (k_cpu k')) k').
Proof.
  intros []. split; simpl in *; auto. rewrite ef_cpu0. by destruct (k_cpu k).
Qed.

Lemma kb_rep_cpu k c s v : kb_rep k c s -> kb_rep (set_k_cpu v k) c s.
Proof. intros [(t & [] & He) Hcp [] Hs Hon]. split; [exists t; by split|done|by split|done|done]. Qed.

Lemma control_l_does c : does ed_clear c control_l.
Proof.
  intros k [e t] H. unfold control_l. rewrite run_cli. cbv beta.
  set (k0 := set_k_cpu (set_eflags (Z.clearbit (eflags (k_cpu k)) IF_BIT) (k_cpu k)) k).
  assert (kb_rep k0 c (e, t)) as H0 by by apply kb_rep_cpu.
  destruct (tr_map _ _ _ (kr_tty _ _ _ H0)) as (prog & uvid & R).
  destruct (clear_spec k0 prog vid uvid R) as (k1 & E1 & Hk1 & S1 & F1). kstep E1.
  pose proof (tr_len _ _ _ (kr_tty _ _ _ H0)) as Hlen0. pose proof (tr_cp _ _ _ (kr_tty _ _ _ H0)) as Hcp0.
  destruct (reset_cursor_spec k1 vid) as (k2 & E2 & F2 & M2 & X2 & Y2);
    [by rewrite Hk1|by rewrite Hk1|]. kstep E2.
  assert (screen_frame vid k0 k2) as F02 by by rewrite F1.
  assert (length (terminals (k_ter k2)) = 3%nat) as L2.
  { pose proof (f_equal length (fr_strip _ _ _ F02)) as E. by rewrite !length_fmap, Hlen0 in E. }
  destruct (set_cursor_spec k2 vid) as (k3 & E3 & F3 & M3 & S3 & C3 & _);
    [by rewrite (fr_cp _ _ _ F02)|done|]. kstep E3.
  assert (screen_frame vid k0 k3) as F03 by by rewrite F02.
  assert (kb_rep k3 c (e, Tty blank_screen 0 0)) as H3.
  { eapply kb_rep_screen; [exact H0| |done|done].
    eapply rep_frame; [exact (kr_tty _ _ _ H0)|done| |by rewrite S3|by rewrite S3
      |unfold NUM_COLS; simpl; lia|unfold NUM_ROWS; simpl; lia].
    destruct S1 as (A1 & A2 & A3). split; [done|]. split; [done|]. by rewrite M3, M2. }
  destruct (retype_buffer_does c k3 _ H3) as (k4 & E4 & H4 & F4). kstep E4.
  unfold restore_flags, set_flags. kcbn. eexists. split; [reflexivity|].
  split; [by apply kb_rep_cpu|].
  apply (ed_frame_flags c k k4 (Z.clearbit (eflags (k_cpu k)) IF_BIT)). fold k0.
  etrans; [|exact F4]. apply frame_ed; [apply H0|done].
Qed.

(** ** The handler *)

(** The modifiers, as the handler tests them. *)
Record mods : Type := Mods { m_shift : bool; m_ctrl : bool; m_alt : bool; m_caps : bool }.

Definition mods_of (kb : kbd) : mods :=
  Mods (negb (shift_pressed kb =? 0)) (negb (control_pressed kb =? 0))
    (negb (alt_pressed kb =? 0)) (negb (caps_lock_on kb =? 0)).

Definition key_code (m : mods) (sc : Z) : Z :=
  default 0 ((if m_shift m then shift_kbdus else if m_caps m then caps_kbdus else kbdus)
    !! Z.to_nat (Z.land sc 0x7f)).

Definition is_switch (m : mods) (sc : Z) : bool :=
  m_alt m && ((sc =? F1_KEY_DOWN) || (sc =? F2_KEY_DOWN) || (sc =? F3_KEY_DOWN)).

(** What a scancode does to the modifiers. *)
Definition mods_key (sc : Z) (m : mods) : mods :=
  if (sc =? L_SHIFT_DOWN) || (sc =? R_SHIFT_DOWN) then Mods true (m_ctrl m) (m_alt m) (m_caps m)
  else if (sc =? L_SHIFT_UP) || (sc =? R_SHIFT_UP) then Mods false (m_ctrl m) (m_alt m) (m_caps m)
  else if sc =? L_CTRL_DOWN then Mods (m_shift m) true (m_alt m) (m_caps m)
  else if sc =? L_CTRL_UP then Mods (m_shift m) false (m_alt m) (m_caps m)
  else if sc =? L_ALT_DOWN then Mods (m_shift m) (m_ctrl m) true (m_caps m)
  else if sc =? L_ALT_UP then Mods (m_shift m) (m_ctrl m) false (m_caps m)
  else if sc =? CAPS_DOWN then Mods (m_shift m) (m_ctrl m) (m_alt m) (negb (m_caps m))
  else m.

Definition is_modifier (sc : Z) : bool :=
  existsb (Z.eqb sc) [L_SHIFT_DOWN; R_SHIFT_DOWN; L_SHIFT_UP; R_SHIFT_UP; L_CTRL_DOWN; L_CTRL_UP;
    L_ALT_DOWN; L_ALT_UP; CAPS_DOWN].

(** What a scancode does to the editor: nothing for modifiers and for keys that
    are released, the history, a cleared screen, or the character of the key. *)
Definition ed_key (sc : Z) (m : mods) (s : ed * tty) : ed * tty :=
  if is_modifier sc || (128 <=? sc) then s
  else if sc =? UP_ARROW_DOWN then ed_up s
  else if m_ctrl m && (sc =? L_KEY_DOWN) then ed_clear s
  else if is_switch m sc then s
  else
    let c := key_code m sc in
    if c =? 8 then ed_backspace s
    else if c =? 10 then ed_enter s
    else if c =? 0 then s
    else ed_char c s.

Lemma scancode_bits sc : 0 <= sc < 256 ->
  (Z.land sc KB_KEY_DOWN_MASK =? 0) = negb (128 <=? sc) /\
  0 <= Z.land sc KB_KEY_DOWN_UNMASK < 128.
Proof.
  intros H.
  assert (G : forallb (fun sc => Bool.eqb (Z.land sc KB_KEY_DOWN_MASK =? 0) (negb (128 <=? sc)) &&
    (0 <=? Z.land sc KB_KEY_DOWN_UNMASK) && (Z.land sc KB_KEY_DOWN_UNMASK <? 128)) (seqZ 0 256) = true)
    by (vm_compute; reflexivity).
  rewrite forallb_forall in G. specialize (G sc).
  rewrite <- list_elem_of_In, elem_of_seqZ in G. specialize (G ltac:(lia)).
  rewrite !andb_true_iff in G. destruct G as [[G1 G2] G3]. split; [by apply eqb_prop in G1|lia].
Qed.

Definition table (m : mods) : list Z :=
  if m_shift m then shift_kbdus else if m_caps m then caps_kbdus else kbdus.

Lemma table_ok m : length (table m) = 128%nat /\ Forall is_byte (table m) /\
  table m !! Z.to_nat UP_ARROW_DOWN = Some 0.
Proof.
  assert (forall l, forallb (fun b => (0 <=? b) && (b <? 256)) l = true -> Forall is_byte l) as Hb.
  { intros l. induction l as [|x l IH]; simpl; intros H; [constructor|].
    apply andb_true_iff in H as [H1 H2]. constructor; [unfold is_byte; lia|auto]. }
  unfold table. destruct (m_shift m), (m_caps m); (split; [done|]); (split; [|done]);
    apply Hb; vm_compute; reflexivity.
Qed.

Lemma get_character_code_ok sc k :
  0 <= sc < 256 ->
  get_character_code sc k = Ok (key_code (mods_of (k_kbd k)) sc, k) /\
  is_byte (key_code (mods_of (k_kbd k)) sc).
Proof.
  intros Hsc. destruct (scancode_bits sc Hsc) as [_ Hi].
  destruct (table_ok (mods_of (k_kbd k))) as (Hl & Hb & _).
  destruct (lookup_lt_is_Some_2 (table (mods_of (k_kbd k))) (Z.to_nat (Z.land sc KB_KEY_DOWN_UNMASK)))
    as [v Hv]; [lia|].
  assert (key_code (mods_of (k_kbd k)) sc = v) as ->.
  { unfold key_code. fold (table (mods_of (k_kbd k))). change 0x7f with KB_KEY_DOWN_UNMASK. by rewrite Hv. }
  split; [|by eapply (Forall_lookup_1 _ _ _ _ Hb)].
  unfold get_character_code. kcbn. unfold lift.
  change (if negb (shift_pressed (k_kbd k) =? 0) then shift_kbdus
    else if negb (caps_lock_on (k_kbd k) =? 0) then caps_kbdus else kbdus)
    with (table (mods_of (k_kbd k))).
  by rewrite (proj2 (arr_get_lookup _ _ _) (conj (proj1 Hi) Hv)).
Qed.

(** A key that is not a modifier, pressed. *)
Definition char_key (m : mods) (sc : Z) (s : ed * tty) : ed * tty :=
  let c := key_code m sc in
  if c =? 8 then ed_backspace s
  else if c =? 10 then ed_enter s
  else if c =? 0 then s
  else ed_char c s.

Lemma character_key_does sc k c s :
  0 <= sc < 256 -> kb_rep k c s ->
  exists k', character_key sc k = Ok (tt, k') /\ ed_frame c k k' /\
    kb_rep k' c (char_key (mods_of (k_kbd k)) sc s).
Proof.
  intros Hsc H. destruct (get_character_code_ok sc k Hsc) as [E Hb]. unfold character_key. kstep E.
  unfold char_key, CHAR_BACKSPACE, CHAR_NEWLINE, CHAR_NON_PRINTABLE.
  set (v := key_code _ _) in *. destruct (Z.eqb_spec v 8).
  { destruct (backspace_does c k s H) as (k' & ? & ? & ?). by exists k'. }
  destruct (Z.eqb_spec v 10).
  { destruct (enter_key_does c k s H) as (k' & ? & ? & ?). by exists k'. }
  destruct (Z.eqb_spec v 0).
  { exists k. by split. }
  destruct (print_char_does v c Hb n1 k s H) as (k' & ? & ? & ?). by exists k'.
Qed.

Lemma key_down_does sc k c s :
  0 <= sc < 256 -> kb_rep k c s -> is_switch (mods_of (k_kbd k)) sc = false ->
  exists k', key_down sc k = Ok (tt, k') /\ ed_frame c k k' /\
    kb_rep k' c (if m_ctrl (mods_of (k_kbd k)) && (sc =? L_KEY_DOWN) then ed_clear s
                 else char_key (mods_of (k_kbd k)) sc s).
Proof.
  intros Hsc H Hs. unfold key_down. kcbn. unfold is_switch in Hs.
  cbn [m_alt m_ctrl mods_of] in *. destruct (negb (control_pressed (k_kbd k) =? 0) && _) eqn:Ec.
  { destruct (control_l_does c k s H) as (k' & ? & ? & ?). by exists k'. }
  destruct (negb (alt_pressed (k_kbd k) =? 0)); cbn [andb] in *.
  - apply orb_false_iff in Hs as [[-> ->]%orb_false_iff ->]. by apply character_key_does.
  - by apply character_key_does.
Qed.

Lemma kb_rep_io k c s io : kb_rep k c s -> kb_rep (set_k_io io k) c s.
Proof. intros [(t & [] & He) Hcp [] Hs Hon]. split; [exists t; by split|done|by split|done|done]. Qed.

Lemma kb_rep_kbd k c s kb : kb_rep k c s -> kb_rep (set_k_kbd kb k) c s.
Proof. intros [(t & [] & He) Hcp [] Hs Hon]. split; [exists t; by split|done|by split|done|done]. Qed.

(** The handler between reading the scancode and the end-of-interrupt. *)
Definition kb_body (sc : Z) : K unit :=
  when (sc =? UP_ARROW_DOWN) up_arrow;;
  (if (sc =? L_SHIFT_DOWN) || (sc =? R_SHIFT_DOWN) then put_kbd (set_shift_pressed 1)
   else if (sc =? L_SHIFT_UP) || (sc =? R_SHIFT_UP) then put_kbd (set_shift_pressed 0)
   else if sc =? L_CTRL_DOWN then put_kbd (set_control_pressed 1)
   else if sc =? L_CTRL_UP then put_kbd (set_control_pressed 0)
   else if sc =? L_ALT_DOWN then put_kbd (set_alt_pressed 1)
   else if sc =? L_ALT_UP then put_kbd (set_alt_pressed 0)
   else if sc =? CAPS_DOWN then
     put_kbd (fun kb => set_caps_lock_on (if caps_lock_on kb =? 0 then 1 else 0) kb)
   else when (Z.land sc KB_KEY_DOWN_MASK =? 0) (key_down sc)).

(** The keys: the editor changes and the modifiers do not. *)
Lemma kb_body_key sc k c s :
  0 <= sc < 256 -> kb_rep k c s -> is_modifier sc = false ->
  is_switch (mods_of (k_kbd k)) sc = false ->
  exists k', kb_body sc k = Ok (tt, k') /\ ed_frame c k k' /\
    kb_rep k' c (ed_key sc (mods_of (k_kbd k)) s).
Proof.
  intros Hsc H Hm Hsw. destruct (scancode_bits sc Hsc) as [Hbit _].
  unfold is_modifier in Hm. cbn [existsb] in Hm. rewrite !orb_false_iff in Hm.
  destruct Hm as (M1 & M2 & M3 & M4 & M5 & M6 & M7 & M8 & M9 & _).
  unfold kb_body, ed_key, is_modifier. cbn [existsb].
  rewrite M1, M2, M3, M4, M5, M6, M7, M8, M9, Hbit, Hsw. cbn [orb].
  destruct (Z.leb_spec 128 sc) as [Hup|Hdown]; cbn [negb].
  - rewrite (proj2 (Z.eqb_neq sc UP_ARROW_DOWN)) by (unfold UP_ARROW_DOWN; lia). kcbn.
    exists k. by split.
  - destruct (Z.eqb_spec sc UP_ARROW_DOWN) as [->|Hne].
    + kcbn. destruct (up_arrow_does c k s H) as (k1 & E1 & R1 & F1). kstep E1. kcbn.
      destruct (key_down_does UP_ARROW_DOWN k1 c (ed_up s)) as (k2 & E2 & F2 & R2);
        [done|done|by rewrite (ef_kbd _ _ _ F1)|].
      exists k2. split; [done|]. split; [by rewrite F1|].
      change (UP_ARROW_DOWN =? L_KEY_DOWN) with false in R2. rewrite andb_false_r in R2.
      unfold char_key, key_code in R2. fold (table (mods_of (k_kbd k1))) in R2.
      change (Z.land UP_ARROW_DOWN 0x7f) with UP_ARROW_DOWN in R2.
      rewrite (proj2 (proj2 (table_ok (mods_of (k_kbd k1))))) in R2. exact R2.
    + kcbn. destruct (key_down_does sc k c s Hsc H Hsw) as (k2 & E2 & F2 & R2). by exists k2.
Qed.

(** The modifiers: the editor does not change. *)
Lemma kb_body_modifier sc k :
  is_modifier sc = true ->
  exists kb, kb_body sc k = Ok (tt, set_k_kbd kb k) /\ mods_of kb = mods_key sc (mods_of (k_kbd k)).
Proof.
  intros Hm. unfold is_modifier in Hm. cbn [existsb] in Hm.
  assert ((sc =? UP_ARROW_DOWN) = false) as Hu.
  { destruct (Z.eqb_spec sc UP_ARROW_DOWN) as [->|]; done. }
  unfold kb_body, mods_key. rewrite Hu. kcbn.
  destruct ((sc =? L_SHIFT_DOWN) || (sc =? R_SHIFT_DOWN)) eqn:E1; [by eexists|].
  destruct ((sc =? L_SHIFT_UP) || (sc =? R_SHIFT_UP)) eqn:E2; [by eexists|].
  destruct (sc =? L_CTRL_DOWN) eqn:E3; [by eexists|].
  destruct (sc =? L_CTRL_UP) eqn:E4; [by eexists|].
  destruct (sc =? L_ALT_DOWN) eqn:E5; [by eexists|].
  destruct (sc =? L_ALT_UP) eqn:E6; [by eexists|].
  destruct (sc =? CAPS_DOWN) eqn:E7.
  - eexists. split; [done|]. unfold mods_of. simpl.
    by destruct (caps_lock_on (k_kbd k) =? 0).
  - exfalso. apply orb_false_iff in E1 as [E1 E1'], E2 as [E2 E2'].
    by rewrite E1, E1', E2, E2' in Hm.
Qed.

Lemma ed_key_modifier sc m s : is_modifier sc = true -> ed_key sc m s = s.
Proof. intros H. unfold ed_key. by rewrite H. Qed.

Lemma mods_key_other sc m : is_modifier sc = false -> mods_key sc m = m.
Proof.
  intros Hm. unfold is_modifier in Hm. cbn [existsb] in Hm. rewrite !orb_false_iff in Hm.
  destruct Hm as (M1 & M2 & M3 & M4 & M5 & M6 & M7 & M8 & M9 & _). unfold mods_key.
  by rewrite M1, M2, M3, M4, M5, M6, M7, M8, M9.
Qed.

Lemma KB_handler_unfold k sc rest :
  io_in (k_io k) = sc :: rest -> 0 <= sc < 256 ->
  KB_handler k = (kb_body sc;; ksend_eoi KB_IRQ_NUM)
    (set_k_io {| io_log := io_log (k_io k) ++ [In KB_DATA sc]; io_in := rest |} k).
Proof.
  intros Hin Hsc. unfold KB_handler. rewrite (run_kin _ _ _ _ _ Hin), u8_small by done.
  unfold kb_body. by rewrite run_assoc.
Qed.

Lemma KB_handler_rep k c s sc rest :
  kb_rep k c s -> io_in (k_io k) = sc :: rest -> 0 <= sc < 256 ->
  is_switch (mods_of (k_kbd k)) sc = false ->
  exists k', KB_handler k = Ok (tt, k') /\
    kb_rep k' c (ed_key sc (mods_of (k_kbd k)) s) /\
    mods_of (k_kbd k') = mods_key sc (mods_of (k_kbd k)) /\
    io_in (k_io k') = rest /\
    (exists log, io_log (k_io k') = log ++ [Out MASTER_PIC_CMD 0x61]) /\
    ed_frame c (set_k_kbd (k_kbd k') (set_k_io (k_io k') k)) k'.
Proof.
  intros H Hin Hsc Hsw. rewrite (KB_handler_unfold k sc rest Hin Hsc).
  set (k1 := set_k_io _ k). assert (kb_rep k1 c s) as H1 by by apply kb_rep_io.
  destruct (is_modifier sc) eqn:Em.
  - destruct (kb_body_modifier sc k1 Em) as (kb & E & Hmods). kstep E.
    eexists. split; [done|]. split; [|split; [done|]].
    + rewrite ed_key_modifier by done. by apply kb_rep_io, kb_rep_kbd.
    + split; [done|]. split; [by eexists|done].
  - destruct (kb_body_key sc k1 c s Hsc H1 Em Hsw) as (k2 & E & F & R). kstep E.
    eexists. split; [done|]. split; [by apply kb_rep_io|].
    split; [rewrite mods_key_other by done; exact (f_equal mods_of (ef_kbd _ _ _ F))|].
    split; [apply (ef_in _ _ _ F)|]. split; [by eexists|]. destruct F. by split.
Qed.

(** (C14) The keyboard handler is the line editor: for every scancode that does
    not switch terminals, the line of the terminal [c] on display, its last line, the
    line handed to its program and the screen the running terminal [p] has on page [vid]
    change exactly as the abstract editor says (characters up to 127, backspace, enter,
    history, clear, modifiers, released keys).  The handler never faults, acknowledges
    the interrupt, touches no page table and no process, no memory outside the page, no
    third terminal, and of [p] only the saved cursor when [p] is not [c]. *)
Theorem KB_handler_edits k c s sc rest :
  kb_rep k c s -> io_in (k_io k) = sc :: rest -> 0 <= sc < 256 ->
  is_switch (mods_of (k_kbd k)) sc = false ->
  exists k', KB_handler k = Ok (tt, k') /\
    kb_rep k' c (ed_key sc (mods_of (k_kbd k)) s) /\
    mods_of (k_kbd k') = mods_key sc (mods_of (k_kbd k)) /\
    io_in (k_io k') = rest /\
    (exists log, io_log (k_io k') = log ++ [Out MASTER_PIC_CMD 0x61]) /\
    (forall i, i <> Z.to_nat c -> i <> Z.to_nat p -> terminals (k_ter k') !! i = terminals (k_ter k) !! i) /\
    (p <> c -> 0 <= p -> 0 <= c ->
      strip_cursor <$> terminals (k_ter k') !! Z.to_nat p = strip_cursor <$> terminals (k_ter k) !! Z.to_nat p) /\
    (forall a, ~ (vid * 4096 <= a < vid * 4096 + 4000) -> k_mem k' !! a = k_mem k !! a) /\
    k_pg k' = k_pg k /\ k_proc k' = k_proc k /\ k_cpu k' = k_cpu k.
Proof.
  intros H Hin Hsc Hsw.
  destruct (KB_handler_rep k c s sc rest H Hin Hsc Hsw) as (k' & E & R & Hm & Hr & Hl & []).
  exists k'. do 5 (split; [done|]). split; [done|]. split; [|by repeat split].
  intros. apply ef_strip0. lia.
Qed.
End Keys.

(** The terminal on display is the one that runs. *)
Abbreviation kb_here k c s := (kb_rep c VIDEO_PAGE k c s).

(** ** Switching terminals *)

(** The page that holds the screen of terminal [t] when [ct] is on display. *)
Definition page_of (ct t : Z) : Z := if t =? ct then VIDEO_PAGE else VIDEO_PAGE + 1 + t.

(** The screens of the three terminals. *)
Definition screens (k : kernel) (ct : Z) (S : Z -> list Z) : Prop :=
  forall t, 0 <= t < 3 -> length (S t) = 4096%nat /\ bytes_at (k_mem k) (page_of ct t * 4096) (S t).

Section Switch.
Context `{L : Layout}.

Lemma swap_vid_mem_spec k prog uvid old new S :
  paging_rep (k_pg k) prog VIDEO_PAGE uvid -> 0 <= old < 3 -> 0 <= new < 3 -> old <> new ->
  screens k old S ->
  exists k', swap_vid_mem old new k = Ok (tt, k') /\ k' = set_k_mem (k_mem k') k /\ screens k' new S /\
    forall a, ~ (VIDEO_PAGE * 4096 <= a < (VIDEO_PAGE + 4) * 4096) -> k_mem k' !! a = k_mem k !! a.
Proof.
  intros R Ho Hn Hne HS. pose proof (video_maps _ _ _ _ R) as Mv.
  pose proof (backing_maps _ _ _ _ old R Ho) as Mo. pose proof (backing_maps _ _ _ _ new R Hn) as Mn.
  destruct (HS old Ho) as [Lo Bo]. destruct (HS new Hn) as [Ln Bn].
  unfold page_of in Bo, Bn. rewrite Z.eqb_refl in Bo.
  rewrite (proj2 (Z.eqb_neq new old)) in Bn by done.
  unfold swap_vid_mem, video_mem, PAGE_SIZE, VIDEO_PAGE in *.
  rewrite (vmemcpy k _ _ _ _ 4096 (S old) Mo Mv) by (done || lia). rewrite Ok_bind.
  set (k1 := set_k_mem _ k).
  assert (bytes_at (k_mem k1) ((0xB8 + 1 + new) * 4096) (S new)) as Bn1.
  { apply bytes_at_put_other; [lia|done]. }
  rewrite (vmemcpy k1 _ _ _ _ 4096 (S new) Mv Mn) by (done || lia). rewrite Ok_bind.
  eexists. split; [done|]. split; [done|]. split.
  - intros t Ht. destruct (HS t Ht) as [Lt Bt]. split; [done|]. unfold page_of, VIDEO_PAGE in *. simpl.
    destruct (Z.eqb_spec t new) as [->|Htn]; [apply bytes_at_put|].
    apply bytes_at_put_other; [lia|]. destruct (Z.eqb_spec t old) as [->|Hto]; [apply bytes_at_put|].
    apply bytes_at_put_other; [lia|done].
  - intros a Ha. simpl. rewrite !lookup_put_bytes_out by lia. done.
Qed.

Lemma change_vidmem_kernel k prog vid uvid q :
  paging_rep (k_pg k) prog vid uvid -> -1 <= q < 1000 ->
  exists pg, on k_pg set_k_pg (fun pg => pg ← change_vidmem q pg; Ok (tt, pg)) k = Ok (tt, set_k_pg pg k) /\
    paging_rep pg prog (VIDEO_PAGE + 1 + q) ((fun _ => VIDEO_PAGE + 1 + q) <$> uvid).
Proof.
  intros R Hq. destruct (change_vidmem_rep _ _ _ _ q R Hq) as (pg & E & R').
  exists pg. split; [|done]. unfold on. rewrite E. done.
Qed.

Lemma wait_slightly_idle k : wait_slightly k = Ok (tt, k).
Proof. apply idle_loop. unfold SLEEP_TIME. lia. Qed.
#[local] Opaque wait_slightly.

(** Switching, with everything it leaves alone. *)
Lemma switch_ter_rep k prog uvid old new S tn :
  paging_rep (k_pg k) prog VIDEO_PAGE uvid -> 0 <= old < 3 -> 0 <= new < 3 -> old <> new ->
  screens k old S -> terminals (k_ter k) !! Z.to_nat new = Some tn ->
  exists m pg io, switch_ter old new k =
      Ok (0, set_k_io io (set_k_ter (set_curr_ter new (k_ter k)) (set_k_pg pg (set_k_mem m k)))) /\
    screens (set_k_mem m k) new S /\
    (forall a, ~ (VIDEO_PAGE * 4096 <= a < (VIDEO_PAGE + 4) * 4096) -> m !! a = k_mem k !! a) /\
    (exists uvid', paging_rep pg prog (page_of new old) uvid') /\ io_in io = io_in (k_io k) /\
    (0 <= screen_x_save tn <= NUM_COLS -> 0 <= screen_y_save tn < NUM_ROWS ->
      hw_cursor (io_log io) = screen_y_save tn * NUM_COLS + screen_x_save tn).
Proof.
  intros R Ho Hn Hne HS Htn.
  destruct (swap_vid_mem_spec k prog uvid old new S R Ho Hn Hne HS) as (k1 & E1 & Hk1 & HS1 & Hm1).
  unfold switch_ter. kstep E1.
  destruct (change_vidmem_kernel k1 prog VIDEO_PAGE uvid old) as (pg & E2 & R2);
    [by rewrite Hk1|lia|]. kstep E2. kcbn. set (k3 := set_k_ter _ _).
  erewrite (K_bind_Ok wait_slightly) by apply wait_slightly_idle. cbv beta.
  assert (terminals (k_ter k3) = terminals (k_ter k)) as Ht by by (simpl; rewrite Hk1).
  rewrite <- Ht in Htn. kstep (get_terminal_ok new k3 tn (proj1 Hn) Htn).
  destruct (update_cursor_spec (screen_x_save tn) (screen_y_save tn) k3) as (l & E4 & _ & Hw).
  kstep E4. exists (k_mem k1), pg. eexists. split.
  { unfold k3. rewrite Hk1. cbn. reflexivity. }
  assert (k_io k3 = k_io k) as Hio by by (simpl; rewrite Hk1). rewrite Hio in Hw.
  split; [exact HS1|]. split; [exact Hm1|]. split; [|split; [|exact Hw]].
  - eexists. unfold page_of. rewrite (proj2 (Z.eqb_neq old new)) by done. exact R2.
  - done.
Qed.


(** Between a switch and the next timer interrupt the display ([new]) is
    not the running terminal ([old]) although the keyboard is still on: a
    character typed then goes into the line of [new] but is drawn on the page of
    [old], and the displayed page does not show it. *)
Lemma key_after_switch k old new tn e t v :
  0 <= old < 3 -> old <> new -> curr_process (k_ter k) = old ->
  ter_at k new tn -> ed_rep tn e -> (length (e_line e) < 127)%nat ->
  tty_rep k (page_of new old) t -> is_byte v -> v <> 0 ->
  exists k' tn', print_char v k = Ok (tt, k') /\ ter_at k' new tn' /\
    typing tn' = pad (e_line e ++ [v]) /\
    tty_rep k' (page_of new old) (tty_putc v t) /\
    forall a, VIDEO_PAGE * 4096 <= a < (VIDEO_PAGE + 1) * 4096 -> k_mem k' !! a = k_mem k !! a.
Proof.
  intros Ho Hne Hcp Ht He Hl Htty Hb Hz. pose proof He as [].
  unfold print_char. kstep (get_buf_len_at k new tn Ht). rewrite er_len0. unfold BUF_SIZE.
  destruct (Z.leb_spec (128 - 1) (Z.of_nat (length (e_line e)))); [lia|].
  kstep (put_buf_len_at k new tn (Z.of_nat (length (e_line e)) + 1) Ht).
  set (t1 := set_buf_len _ tn). pose proof (with_ter_at k new tn t1 Ht) as Ht1.
  assert (typing t1 = pad (e_line e)) as Hty by done.
  erewrite K_bind_Ok; [|apply (ter_set_at _ new t1 typing set_typing); [done|]]; cycle 1.
  { rewrite Hty, length_pad by lia. lia. }
  cbv beta. rewrite with_ter_with, Hty, Nat2Z.id, pad_snoc, u8_small by (unfold is_byte in Hb; lia).
  set (t2 := set_typing _ t1). pose proof (with_ter_at k new tn t2 Ht) as Ht2.
  destruct (putc_rep (with_ter k new t2) (page_of new old) t v) as (k' & E & R & F & _);
    [by apply tty_rep_with_ter|].
  exists k', t2. split; [done|]. split; [|split; [done|split; [done|]]].
  - destruct Ht2. split; [done|by rewrite (fr_ct _ _ _ F)|].
    rewrite (fr_other _ _ _ F); [done|]. simpl. rewrite Hcp. lia.
  - intros a Ha. rewrite (fr_mem _ _ _ F); [done|]. unfold page_of, VIDEO_PAGE in *.
    rewrite (proj2 (Z.eqb_neq old new)) by done. lia.
Qed.
End Switch.

