(* ===== verification/KeyboardExamples.v ===== *)
(** * The keyboard on concrete states

    The theorems of Keyboard.v applied to the kernel state of Demo.v with its
    screen cleared. *)

From stdpp Require Import base gmap list numbers.
From Stdlib Require Import ZArith Lia.
From S2P Require Import Prelude Pointers Ports Pic Paging State Machine VirtMem CString MemFns.
From S2P Require Import Pcb Demo Screen Keyboard.

Definition demo_editor : ed := Ed [] [] (replicate 128 0) 0 0.

Lemma bss_ed_rep : ed_rep bss_terminal demo_editor.
Proof. split; try done; split; [simpl; lia|constructor|simpl; lia|constructor]. Qed.

(** A state whose screen has just been cleared. *)
Lemma cleared_rep k prog vid uvid :
  paging_rep (L := demo_layout) (k_pg k) prog vid uvid ->
  screen_x (k_scr k) = 0 -> screen_y (k_scr k) = 0 ->
  0 <= curr_process (k_ter k) < 3 -> length (terminals (k_ter k)) = 3%nat ->
  tty_rep (L := demo_layout) (exec (clear (L := demo_layout)) k) vid clear_tty /\
  exec (clear (L := demo_layout)) k = set_k_mem (k_mem (exec (clear (L := demo_layout)) k)) k.
Proof.
  intros R Hx Hy Hc Hl. unfold exec.
  destruct (clear_spec (L := demo_layout) k prog vid uvid R) as (k' & -> & Hk & Hs & F).
  split; [|done]. rewrite Hk. split; simpl; auto; try (unfold NUM_COLS, NUM_ROWS; lia).
  by exists prog, uvid.
Qed.

Lemma cleared_kb_rep k prog uvid io :
  paging_rep (L := demo_layout) (k_pg k) prog VIDEO_PAGE uvid ->
  screen_x (k_scr k) = 0 -> screen_y (k_scr k) = 0 ->
  curr_ter (k_ter k) = 0 -> curr_process (k_ter k) = 0 ->
  terminals (k_ter k) = replicate 3 bss_terminal -> on_screen (k_scr k) <> 0 ->
  kb_rep (L := demo_layout) 0 VIDEO_PAGE (set_k_io io (exec (clear (L := demo_layout)) k)) 0 (demo_editor, clear_tty) /\
  exists m, set_k_io io (exec (clear (L := demo_layout)) k) = set_k_io io (set_k_mem m k).
Proof.
  intros R Hx Hy Hct Hcp Ht Hon. destruct (cleared_rep k prog VIDEO_PAGE uvid) as [Hr Hk]; auto;
    [lia|by rewrite Ht|]. set (k1 := exec _ k) in *. clearbody k1.
  split; [|exists (k_mem k1); by rewrite Hk at 1]. apply kb_rep_io. split; [|by rewrite Hk|done| |by rewrite Hk].
  - exists bss_terminal. split; [|exact bss_ed_rep]. rewrite Hk. split; [lia|done|]. simpl. by rewrite Ht.
  - exists bss_terminal. rewrite Hk. simpl. by rewrite Ht, Hcp.
Qed.

Definition demo_key (sc : Z) : kernel := set_k_io {| io_log := []; io_in := [sc] |} demo_kernel.

Lemma demo_key_rep sc :
  kb_rep (L := demo_layout) 0 VIDEO_PAGE (demo_key sc) 0 (demo_editor, clear_tty) /\
  exists m, demo_key sc = set_k_io {| io_log := []; io_in := [sc] |} (set_k_mem m demo_state).
Proof.
  unfold demo_key, demo_kernel.
  apply (cleared_kb_rep demo_state None None); [exact demo_paging_rep|reflexivity..|discriminate].
Qed.

(** The key A is typed. *)
Lemma KB_handler_edits_witness :
  exists k', KB_handler (L := demo_layout) (demo_key 0x1E) = Ok (tt, k') /\
    kb_rep (L := demo_layout) 0 VIDEO_PAGE k' 0
      (Ed [97] [] (replicate 128 0) 0 0, tty_putc 97 clear_tty).
Proof.
  generalize (demo_key_rep 0x1E). generalize (demo_key 0x1E). intros k (R & m & Hk).
  destruct (KB_handler_edits (L := demo_layout) 0 VIDEO_PAGE k 0 (demo_editor, clear_tty) 0x1E [])
    as (k' & E & H & _).
  - exact R.
  - rewrite Hk. reflexivity.
  - lia.
  - rewrite Hk. reflexivity.
  - exists k'. split; [exact E|]. rewrite Hk in H. exact H.
Defined.

Definition demo_screens (t : Z) : list Z := replicate (Z.to_nat 4096) 0.

Lemma zero_screens k :
  (forall a, VIDEO_PAGE * 4096 <= a < (VIDEO_PAGE + 4) * 4096 -> k_mem k !! a = Some 0) ->
  screens k 0 demo_screens.
Proof.
  intros H t Ht. split; [unfold demo_screens; by rewrite length_replicate|].
  intros i b [-> Hi]%lookup_replicate. rewrite H; [done|].
  unfold page_of, VIDEO_PAGE. destruct (t =? 0); lia.
Qed.

Lemma demo_screens_ok : screens demo_state 0 demo_screens.
Proof.
  apply zero_screens. intros a Ha. unfold demo_state, k_mem. rewrite lookup_put_bytes.
  unfold VIDEO_PAGE in *. rewrite (proj2 (Z.leb_le _ _)) by lia.
  by rewrite (lookup_replicate_2 _ 0) by lia.
Qed.


(** Terminal 2 on display while terminal 0 runs. *)
Definition demo_switched : kernel :=
  exec (clear (L := demo_layout))
    (set_k_pg (ok_or demo_paging (change_vidmem 0 demo_paging))
      (set_k_ter (set_curr_ter 2 (k_ter demo_state)) demo_state)).

Lemma demo_switched_rep :
  tty_rep (L := demo_layout) demo_switched (page_of 2 0) clear_tty /\
  k_ter demo_switched = set_curr_ter 2 (k_ter demo_state).
Proof.
  destruct (change_vidmem_rep (L := demo_layout) _ _ _ _ 0 demo_paging_rep) as (pg & E & R); [lia|].
  unfold demo_switched. rewrite E. cbn [ok_or].
  destruct (cleared_rep (set_k_pg pg (set_k_ter (set_curr_ter 2 (k_ter demo_state)) demo_state))
    None (page_of 2 0) None) as [Hr Hk]; [exact R|done|done|simpl; lia|done|].
  split; [exact Hr|]. by rewrite Hk.
Qed.

Lemma key_after_switch_witness :
  exists k' tn', print_char (L := demo_layout) 97 demo_switched = Ok (tt, k') /\ ter_at k' 2 tn' /\
    typing tn' = pad [97] /\ tty_rep (L := demo_layout) k' (page_of 2 0) (tty_putc 97 clear_tty).
Proof.
  generalize demo_switched_rep. generalize demo_switched. intros k [R Ht].
  destruct (key_after_switch (L := demo_layout) k 0 2 bss_terminal demo_editor clear_tty 97)
    as (k' & tn & E & H1 & H2 & H3 & _).
  - lia.
  - discriminate.
  - rewrite Ht. reflexivity.
  - split; [lia| |]; rewrite Ht; reflexivity.
  - exact bss_ed_rep.
  - simpl. lia.
  - exact R.
  - unfold is_byte. lia.
  - discriminate.
  - exists k', tn. split; [exact E|]. split; [exact H1|]. split; [exact H2|exact H3].
Defined.
