(* ===== verification/Terminal.v ===== *)
(** * The terminal driver (terminal.c)

    [terminal_read] waits for the line the keyboard handler hands over and copies
    it to the program; [terminal_write] prints, replacing the shell's prompt.  The
    main theorem runs the driver against the handler: what the program reads is
    the line the editor of Keyboard.v had when enter was pressed. *)

From stdpp Require Import base gmap list numbers.
From Stdlib Require Import ZArith Lia.
From S2P Require Import Prelude Pointers Ports Pic Paging State Machine VirtMem CString MemFns.
From S2P Require Import Pcb Demo Screen Keyboard FileSystem.

(** The two prompts of [terminal_write]: "391OS> " and the one that replaces it. *)
Definition prompt : list Z := [51; 57; 49; 79; 83; 62; 32].
Definition BBprompt : list Z :=
  [0xF4; 32; 91; 66; 105; 103; 66; 114; 97; 105; 110; 79; 83; 93; 32; 10; 0xF5; 32; 0xAF; 32].

Section Terminal.
Context `{L : Layout}.

Definition terminal_open (filename : Z) : K Z := mret 0.
Definition terminal_close (fd : Z) : K Z := mret 0.

(** [terminals[curr_process]] *)
Definition running_terminal : K terminal_state :=
  cp ← gets (fun k => curr_process (k_ter k)); get_terminal cp.

(** The condition [terminal_read] spins on. *)
Definition line_ready (k : kernel) : res bool :=
  t ← arr_get (terminals (k_ter k)) (curr_process (k_ter k)); Ok (negb (buffer_updated t =? 0)).

(** The loop that turns the first NUL of [final_buf] into a newline. *)
Definition newline_step (nbytes : Z) (s : Z * list Z) : res (Z * list Z + list Z) :=
  let '(i, b) := s in
  if i <? nbytes then
    c ← arr_get b i;
    if c =? 0 then b' ← arr_set b i CHAR_NEWLINE; Ok (inr b') else Ok (inl (i + 1, b))
  else Ok (inr b).

(** [final_buf] is a local array of [nbytes] bytes; [junk] is what it holds on
    entry.  [memcpy] returns its destination, which is not NULL here. *)
Definition terminal_read (junk : list Z) (irqs : list (K unit)) (fd buf nbytes : Z) :
    K (Z * list (K unit)) :=
  if buf =? NULL then mret (ERROR, irqs)
  else
    let nbytes := if BUF_SIZE <? nbytes then BUF_SIZE else nbytes in
    sp ← gets (fun k => r_esp (k_cpu k));
    sti;;
    cp ← gets (fun k => curr_process (k_ter k));
    upd_terminal cp (set_buffer_updated 0);;
    irqs ← wait_until line_ready irqs;
    t ← running_terminal;
    final_buf ← lift (
      o ← memcpy (ptr_fst (arr_ptr sp)) (ptr_snd (arr_ptr 0)) (u32 nbytes)
            (resize (Z.to_nat nbytes) 0 junk, typed t);
      b ← arr_set o.1 (nbytes - 1) 0;
      loop FUEL (newline_step nbytes) (0, b));
    clear_buffer;;
    (fun k =>
      o ← memcpy (vptr1 buf) (ptr_snd (arr_ptr sp)) (u32 nbytes) (k, final_buf); Ok (tt, o.1));;
    t ← running_terminal;
    mret (written_bytes t, irqs).

(** The loop over the caller's bytes. *)
Definition write_step (buf nbytes : Z) (s : Z * kernel) : res (Z * kernel + unit * kernel) :=
  let '(i, k) := s in
  if i <? nbytes then
    c ← load (vptr buf) k i;
    if c =? 0 then Ok (inl (i + 1, k))
    else
      c ← load (vptr buf) k i;
      r ← putc (u8 c) k; Ok (inl (i + 1, r.2))
  else Ok (inr (tt, k)).

Definition terminal_write (fd buf nbytes : Z) : K Z :=
  if buf =? NULL then mret ERROR
  else
    n ← lift (strlen (lit_ptr 0 (prompt ++ [0])) tt);
    c ← ((fun k => c ← strncmp (vptr buf) (lit_ptr 0 (prompt ++ [0])) n k; Ok (c, k)) : K Z);
    if c =? 0 then
      n ← lift (strlen (lit_ptr 0 (BBprompt ++ [0])) tt);
      kfor 0 (s32 n) (fun i => c ← lift (arr_get (BBprompt ++ [0]) i); putc (u8 c));;
      mret (s32 n)
    else
      ((fun k => loop FUEL (write_step buf nbytes) (0, k)) : K unit);;
      mret nbytes.
End Terminal.

(** ** Typing *)

Abbreviation ENTER := 0x1C.

(** A sequence of scancodes, from the modifiers [m] and the editor [s]. *)
Definition ed_step (ms : mods * (ed * tty)) (sc : Z) : mods * (ed * tty) :=
  (mods_key sc ms.1, ed_key sc ms.1 ms.2).
Definition ed_keys (scs : list Z) (ms : mods * (ed * tty)) : mods * (ed * tty) :=
  foldl ed_step ms scs.

(** Scancodes that neither switch terminals nor end the line. *)
Fixpoint plain_keys (m : mods) (scs : list Z) : bool :=
  match scs with
  | [] => true
  | sc :: scs =>
      (0 <=? sc) && (sc <? 256) && negb (sc =? ENTER) && negb (is_switch m sc) &&
      plain_keys (mods_key sc m) scs
  end.

(** What [terminal_read] stores for a line [l] in a buffer of [n] bytes. *)
Definition line_for (n : nat) (l : list Z) : list Z :=
  take (n - 1) l ++ [10] ++ replicate (n - 1 - length l) 0.

(** No other key ends the line. *)
Lemma key_code_enter m sc : 0 <= sc < 128 -> key_code m sc = 10 <-> sc = ENTER.
Proof.
  intros H. assert (forall l : list Z, (length l = 128)%nat ->
    forallb (fun i => Bool.eqb (default 0 (l !! i) =? 10) (i =? 28)%nat) (seq 0 128) = true ->
    default 0 (l !! Z.to_nat (Z.land sc 0x7f)) = 10 <-> sc = ENTER) as G.
  { intros l Hl Hc. change 0x7f with (Z.ones 7). rewrite Z.land_ones by lia.
    rewrite Z.mod_small by (simpl; lia). rewrite forallb_forall in Hc.
    specialize (Hc (Z.to_nat sc)). rewrite in_seq in Hc. specialize (Hc ltac:(lia)).
    apply Bool.eqb_prop in Hc. rewrite <- Z.eqb_eq, Hc, Nat.eqb_eq. lia. }
  unfold key_code. destruct (m_shift m), (m_caps m); apply G; vm_compute; reflexivity.
Qed.

Lemma ed_key_updated sc m s :
  0 <= sc < 256 -> sc <> ENTER -> e_updated (ed_key sc m s).1 = e_updated s.1.
Proof.
  intros Hsc Hne. destruct s as [e t]. unfold ed_key.
  destruct (is_modifier sc || (128 <=? sc)) eqn:E1; [done|].
  apply orb_false_iff in E1 as [_ E1%Z.leb_gt].
  destruct (sc =? UP_ARROW_DOWN); [done|]. destruct (m_ctrl m && _); [done|].
  destruct (is_switch m sc); [done|]. destruct (key_code m sc =? 8).
  { simpl. by case_bool_decide. }
  destruct (Z.eqb_spec (key_code m sc) 10) as [Hk|].
  { by apply key_code_enter in Hk; [|lia]. }
  destruct (key_code m sc =? 0); [done|]. simpl. by case_bool_decide.
Qed.

Lemma ed_key_enter m s : ed_key ENTER m s = ed_enter s.
Proof.
  unfold ed_key. change (is_modifier ENTER || (128 <=? ENTER)) with false. cbv iota.
  change (ENTER =? UP_ARROW_DOWN) with false. change (ENTER =? L_KEY_DOWN) with false.
  assert (is_switch m ENTER = false) as ->.
  { unfold is_switch. change (_ || _) with false. apply andb_false_r. }
  rewrite andb_false_r. cbv iota zeta.
  by rewrite (proj2 (key_code_enter m ENTER ltac:(lia)) eq_refl).
Qed.

(** [final_buf] before the newline is put in, and after. *)
Lemma final_buf_zeroed (n : nat) l :
  (0 < n <= 128)%nat -> line_ok l ->
  <[(n - 1)%nat := 0]> (take n (pad l)) =
    take (n - 1) l ++ replicate (n - length (take (n - 1) l)) 0.
Proof.
  intros Hn [Hl _]. apply list_eq. intros i.
  destruct (decide (i < n)%nat) as [Hi|Hi]; cycle 1.
  { rewrite !lookup_ge_None_2; [done| |];
      rewrite ?length_insert, ?length_app, ?length_replicate, ?length_take, ?length_pad by lia; lia. }
  destruct (decide (i = n - 1)%nat) as [->|Hne].
  - rewrite list_lookup_insert_eq by (rewrite length_take, length_pad by lia; lia).
    rewrite lookup_app_r by (rewrite length_take; lia). symmetry. apply lookup_replicate.
    rewrite length_take. split; [done|lia].
  - rewrite list_lookup_insert_ne, lookup_take_lt by lia.
    destruct (decide (i < length l)%nat).
    + rewrite pad_lookup_char, lookup_app_l, lookup_take_lt by (rewrite ?length_take; lia). done.
    + rewrite pad_lookup_zero, lookup_app_r by (rewrite ?length_take; lia). symmetry.
      apply lookup_replicate. rewrite length_take. split; [done|lia].
Qed.

Lemma newline_runs n (pre l rest : list Z) :
  Forall (fun b => is_byte b /\ b <> 0) l -> Z.of_nat (length (pre ++ l)) < n ->
  runs (newline_step n) (Z.of_nat (length pre), pre ++ l ++ 0 :: rest) (length l)
    (Ok (pre ++ l ++ 10 :: rest)).
Proof.
  intros Hl. revert pre. induction Hl as [|b l [_ Hb] _ IH]; intros pre Hn.
  - rewrite app_nil_r in Hn. apply runs_done. unfold newline_step.
    rewrite (proj2 (Z.ltb_lt _ _)) by lia. simpl app.
    rewrite (arr_get_Some _ _ 0) by (rewrite lookup_app_r, Nat.sub_diag by lia; done).
    rewrite Ok_bind. simpl (0 =? 0). cbv iota.
    rewrite arr_set_ok by (rewrite length_app; simpl; lia). rewrite Ok_bind, Nat2Z.id.
    by rewrite insert_app_r_alt, Nat.sub_diag by lia.
  - apply runs_step with (s' := (Z.of_nat (length (pre ++ [b])), (pre ++ [b]) ++ l ++ 0 :: rest)).
    + unfold newline_step. rewrite length_app in Hn. simpl in Hn.
      rewrite (proj2 (Z.ltb_lt _ _)) by lia.
      rewrite (arr_get_Some _ _ b) by (rewrite lookup_app_r, Nat.sub_diag by lia; done).
      rewrite Ok_bind. rewrite (proj2 (Z.eqb_neq b 0)) by done. cbv iota.
      rewrite length_app, <- app_assoc. simpl. do 3 f_equal. lia.
    + replace (pre ++ (b :: l) ++ 10 :: rest) with ((pre ++ [b]) ++ l ++ 10 :: rest)
        by by rewrite <- app_assoc.
      apply IH. rewrite <- app_assoc. done.
Qed.

Lemma final_buf_ok sp n l junk :
  0 < n <= 128 -> line_ok l ->
  (o ← memcpy (ptr_fst (arr_ptr sp)) (ptr_snd (arr_ptr 0)) (u32 n) (resize (Z.to_nat n) 0 junk, pad l);
   b ← arr_set o.1 (n - 1) 0;
   loop FUEL (newline_step n) (0, b)) = Ok (line_for (Z.to_nat n) l).
Proof.
  intros Hn Hok. pose proof Hok as [Hl Hb].
  assert (Z.of_nat (length (take (Z.to_nat n) (pad l))) = n) as Hlen
    by (rewrite length_take, length_pad by lia; lia).
  rewrite u32_small by lia. rewrite <- Hlen at 1.
  rewrite (@memcpy_store _ (fun o => n <= Z.of_nat (length o.1) /\ True) _ _ (take (Z.to_nat n) (pad l)));
    [|rewrite Hlen; apply (fst_region (fun o => n <= Z.of_nat (length o)) (fun _ => True)), arr_region
     |apply _|simpl; rewrite length_resize; lia| |lia].
  - rewrite store_list_fst. simpl fst. simpl snd.
    rewrite arr_store_list by (rewrite ?length_resize; lia). rewrite !Ok_bind. cbn [fst].
    rewrite drop_ge by (rewrite length_resize; lia). simpl. rewrite app_nil_r.
    rewrite arr_set_ok by lia. rewrite Ok_bind.
    replace (Z.to_nat (n - 1)) with (Z.to_nat n - 1)%nat by lia.
    rewrite final_buf_zeroed by (done || lia).
    set (t := take _ l). assert (length t < Z.to_nat n)%nat as Ht by (unfold t; rewrite length_take; lia).
    replace (Z.to_nat n - length t)%nat with (S (Z.to_nat n - 1 - length t)) by lia. simpl replicate.
    apply (loop_runs_Z FUEL _ _ (length t)); [|unfold FUEL; lia].
    replace (line_for (Z.to_nat n) l) with (t ++ 10 :: replicate (Z.to_nat n - 1 - length t) 0).
    + apply (newline_runs n [] t); [by apply Forall_take|simpl; lia].
    + unfold line_for. fold t. simpl. do 3 f_equal. unfold t. rewrite length_take. lia.
  - intros i b Hi. simpl. apply arr_get_Some. rewrite lookup_take_Some in Hi. apply Hi.
Qed.

Section Reading.
Context `{L : Layout}.

Lemma line_ready_rep k c s :
  kb_here k c s -> line_ready k = Ok (negb (e_updated s.1 =? 0)).
Proof.
  intros [(t & [Hc Hct Ht] & []) Hcp _ _ _]. unfold line_ready. rewrite Hcp.
  rewrite (proj2 (arr_get_lookup _ _ _) (conj (proj1 Hc) Ht)). simpl. by rewrite er_updated.
Qed.

Lemma wait_step k c s irqs r k1 :
  kb_here k c s -> e_updated s.1 = 0 -> KB_handler k = Ok (r, k1) ->
  wait_until line_ready (KB_handler :: irqs) k = wait_until line_ready irqs k1.
Proof.
  intros H Hu E. cbn [wait_until]. rewrite (line_ready_rep k c s H), Hu, Ok_bind.
  by rewrite E, Ok_bind.
Qed.

Lemma wait_done k c s irqs :
  kb_here k c s -> e_updated s.1 <> 0 -> wait_until line_ready irqs k = Ok (irqs, k).
Proof.
  intros H Hu. assert ((e_updated s.1 =? 0) = false) as Hf by by apply Z.eqb_neq.
  destruct irqs; cbn [wait_until]; by rewrite (line_ready_rep k c s H), Hf, Ok_bind.
Qed.

(** The wait ends with the enter key, and what happened is the editor's work. *)
Lemma wait_typing pre k c s rest irqs :
  kb_here k c s -> io_in (k_io k) = pre ++ ENTER :: rest ->
  plain_keys (mods_of (k_kbd k)) pre = true -> e_updated s.1 = 0 ->
  exists k', wait_until line_ready (replicate (S (length pre)) KB_handler ++ irqs) k = Ok (irqs, k') /\
    kb_here k' c (ed_enter (ed_keys pre (mods_of (k_kbd k), s)).2) /\ io_in (k_io k') = rest /\
    (forall i, i <> Z.to_nat c -> terminals (k_ter k') !! i = terminals (k_ter k) !! i) /\
    k_pg k' = k_pg k /\ k_proc k' = k_proc k /\ k_cpu k' = k_cpu k.
Proof.
  revert k s. induction pre as [|sc pre IH]; intros k s H Hin Hp Hu; cbn [length replicate app].
  - destruct (KB_handler_rep c VIDEO_PAGE k c s ENTER rest H Hin) as (k' & E & R & Hm & Hi & _ & F);
      [lia|unfold is_switch; change (_ || _) with false; apply andb_false_r|].
    rewrite ed_key_enter in R. exists k'. split; [|split; [done|split; [done|]]; destruct F; split; [intros i Hne; by apply ef_other|done]].
    rewrite (wait_step k c s irqs tt k' H Hu E). apply (wait_done k' c _ irqs R). by destruct s.
  - cbn [plain_keys] in Hp. rewrite !andb_true_iff, !negb_true_iff in Hp.
    destruct Hp as [[[[H1 H2] H3] H4] H5].
    destruct (KB_handler_rep c VIDEO_PAGE k c s sc (pre ++ ENTER :: rest) H Hin)
      as (k1 & E & R & Hm & Hi & _ & F); [lia|done|].
    destruct (IH k1 (ed_key sc (mods_of (k_kbd k)) s) R Hi) as (k' & E' & R' & Hi' & Ho' & Hg' & Hp' & Hc').
    { by rewrite Hm. }
    { rewrite ed_key_updated by lia. done. }
    exists k'. split; [by rewrite (wait_step k c s _ tt k1 H Hu E)|].
    rewrite Hm in R'. split; [exact R'|]. split; [done|].
    destruct F. split; [intros i Hne; by rewrite Ho', ef_other by done|]. rewrite Hg', Hp', Hc'. done.
Qed.

(** [clear_buffer] zeroes the line that was handed over. *)
Lemma clear_buffer_rep k c e t :
  kb_here k c (e, t) ->
  exists t', clear_buffer k = Ok (tt, with_ter k c t') /\
    written_bytes t' = e_written e /\
    kb_here (with_ter k c t') c
      (Ed (e_line e) (e_hist e) (replicate 128 0) (e_written e) (e_updated e), t).
Proof.
  intros H. pose proof H as [(t0 & Ht & He) _ _ _ _]. cbn [fst] in He. pose proof He as [].
  unfold clear_buffer, BUF_SIZE.
  destruct (kfor_inv (fun i k' => k' = with_ter k c
      (set_typed (replicate (Z.to_nat i) 0 ++ drop (Z.to_nat i) (e_typed e)) t0))
    0 128 (fun i => ter_set typed set_typed i 0) k) as (k' & E & ->); [lia| | |].
  - rewrite drop_0. simpl. rewrite <- er_typed. replace (set_typed _ t0) with t0 by by destruct t0.
    by rewrite (with_ter_id k c t0 Ht).
  - intros i k' Hi ->. set (l := replicate (Z.to_nat i) 0 ++ _).
    assert (length l = 128%nat) as Hl.
    { unfold l. rewrite length_app, length_replicate, length_drop. lia. }
    eexists. split; [apply (ter_set_at _ c (set_typed l t0) typed set_typed);
      [by eapply with_ter_at|simpl; lia]|].
    rewrite with_ter_with. f_equal. change (typed (set_typed l t0)) with l.
    
    change (set_typed (<[Z.to_nat i := 0]> l) (set_typed l t0)) with (set_typed (<[Z.to_nat i := 0]> l) t0).
    f_equal. unfold l.
    rewrite insert_app_r_alt by (rewrite length_replicate; lia).
    rewrite length_replicate, Nat.sub_diag, Z2Nat.inj_add, Nat.add_1_r by lia.
    rewrite replicate_S_end, <- app_assoc. f_equal.
    destruct (lookup_lt_is_Some_2 (e_typed e) (Z.to_nat i)) as [x Hx]; [lia|].
    by rewrite (drop_S _ _ _ Hx).
  - eexists. split; [exact E|]. split; [done|].
    eapply kb_rep_with_ter; [exact H|exact Ht| |done|done]. rewrite drop_ge, app_nil_r by lia.
    by split.
Qed.
End Reading.

Section ReadClaim.
Context `{L : Layout}.

(** Memory outside the screen may change. *)
Lemma kb_rep_mem k c s m :
  (forall a, VIDEO_PAGE * 4096 <= a < VIDEO_PAGE * 4096 + 4096 -> m !! a = k_mem k !! a) ->
  kb_here k c s -> kb_here (set_k_mem m k) c s.
Proof.
  intros Hm [(t & [] & He) Hcp [? (S1 & S2 & S3) ? ? ? ? ? ?] Hs Hon].
  split; [exists t; by split|done| |done|done]. split; try done. split; [done|]. split; [done|].
  intros y x r ch a Hy Hx. pose proof (lookup_lt_Some _ _ _ Hy). pose proof (lookup_lt_Some _ _ _ Hx).
  rewrite (Forall_lookup_1 _ _ _ _ S2 Hy) in *. simpl. rewrite !Hm by lia. eauto.
Qed.

Lemma running_terminal_rep k c s :
  kb_here k c s -> exists t, running_terminal k = Ok (t, k) /\ ter_at k c t /\ ed_rep t s.1.
Proof.
  intros [(t & Ht & He) Hcp _ _ _]. exists t. split; [|done]. unfold running_terminal. kcbn.
  rewrite Hcp. by apply get_terminal_at.
Qed.

(** The copy of a local array into the program's page. *)
Lemma copy_to_user k p vid uvid buf sp bs :
  paging_rep (k_pg k) (Some p) vid uvid -> _128_MB <= buf ->
  buf + Z.of_nat (length bs) <= _132_MB ->
  memcpy (vptr1 buf) (ptr_snd (arr_ptr sp)) (Z.of_nat (length bs)) (k, bs) =
    Ok (set_k_mem (put_bytes ((p + 2) * _4_MB + (buf - _128_MB)) bs (k_mem k)) k, bs).
Proof.
  intros R Hb He. pose proof (user_maps _ _ _ _ buf (Z.of_nat (length bs)) R Hb He) as M.
  rewrite (@memcpy_store _ (fun o => k_pg o.1 = k_pg k /\ True) _ _ bs);
    [|apply (fst_region (fun k' => k_pg k' = k_pg k) (fun _ => True)), (vptr_region _ _ _ _ M)
     |apply _|done| |unfold _128_MB, _132_MB in *; lia].
  - unfold vptr1. rewrite store_list_fst. simpl fst.
    rewrite (vptr_store_list k buf _ (Z.of_nat (length bs)) 0 bs M) by lia.
    by rewrite Ok_bind, Z.add_0_r.
  - intros i b Hi. simpl. by apply arr_get_Some.
Qed.

(** What [terminal_read] does from the moment it waits, for a buffer in the
    program's page. *)
Lemma terminal_read_rep k c e t p uvid pre rest irqs junk fd buf nbytes :
  let s' := (ed_keys pre (mods_of (k_kbd k), (Ed (e_line e) (e_hist e) (e_typed e) (e_written e) 0, t))).2 in
  let n := Z.min nbytes 128 in
  kb_here k c (e, t) -> paging_rep (k_pg k) (Some p) VIDEO_PAGE uvid -> 0 <= p ->
  io_in (k_io k) = pre ++ ENTER :: rest -> plain_keys (mods_of (k_kbd k)) pre = true ->
  0 < nbytes -> _128_MB <= buf -> buf + n <= _132_MB ->
  exists k', terminal_read junk (replicate (S (length pre)) KB_handler ++ irqs) fd buf nbytes k =
      Ok ((Z.of_nat (length (e_line s'.1)) + 1, irqs), k') /\
    bytes_at (k_mem k') ((p + 2) * _4_MB + (buf - _128_MB)) (line_for (Z.to_nat n) (e_line s'.1)) /\
    kb_here k' c (Ed [] (e_line s'.1) (replicate 128 0) (Z.of_nat (length (e_line s'.1)) + 1) 1,
                 tty_putc 10 s'.2) /\
    io_in (k_io k') = rest /\ k_pg k' = k_pg k /\ k_proc k' = k_proc k.
Proof.
  intros s' n H R Hp Hin Hpl Hn Hb He. unfold terminal_read. unfold _128_MB, _132_MB in Hb, He.
  rewrite (proj2 (Z.eqb_neq buf NULL)) by (unfold NULL; lia).
  assert ((if BUF_SIZE <? nbytes then BUF_SIZE else nbytes) = n) as ->.
  { unfold BUF_SIZE, n. destruct (Z.ltb_spec 128 nbytes); lia. }
  unfold sti. kcbn. set (k1 := set_k_cpu _ k).
  assert (kb_here k1 c (e, t)) as H1 by by apply kb_rep_cpu.
  pose proof H1 as [(t0 & Ht0 & He0) Hcp _]. rewrite Hcp.
  kstep (upd_terminal_at k1 c t0 (set_buffer_updated 0) Ht0). set (k2 := with_ter k1 c _).
  assert (kb_here k2 c (Ed (e_line e) (e_hist e) (e_typed e) (e_written e) 0, t)) as H2.
  { eapply kb_rep_with_ter; [exact H1|exact Ht0| |done|done]. destruct He0. by split. }
  destruct (wait_typing pre k2 c _ rest irqs H2 Hin Hpl eq_refl)
    as (k3 & E3 & H3 & Hi3 & _ & Hg3 & Hp3 & _). kstep E3.
  change (ed_keys pre _).2 with s' in H3. clearbody s'. destruct s' as [e' t'].
  cbn [ed_enter fst snd] in *.
  destruct (running_terminal_rep k3 c _ H3) as (t3 & E4 & Ht3 & He3). kstep E4. cbn [fst] in He3.
  pose proof He3 as []. cbn [e_typed e_hist e_line e_written] in *. rewrite er_typed.
  rewrite (final_buf_ok _ n (e_line e') junk) by (done || lia). kcbn.
  destruct (clear_buffer_rep k3 c _ _ H3) as (t4 & E5 & Hw & H5). kstep E5.
  set (k5 := with_ter k3 c t4) in *. set (bs := line_for _ _).
  assert (Z.of_nat (length bs) = n) as Hbs.
  { unfold bs, line_for. rewrite !length_app, length_take, length_replicate. simpl. lia. }
  rewrite u32_small, <- Hbs by lia. unfold mbind at 1, K_bind at 1.
  rewrite (copy_to_user k5 p VIDEO_PAGE uvid) by (unfold _128_MB, _132_MB; simpl; rewrite ?Hg3; done || lia).
  rewrite Ok_bind. cbn [fst]. set (m := put_bytes _ _ _).
  cbn [e_line e_hist e_written e_updated] in H5.
  pose proof (fun Hm => kb_rep_mem k5 c _ m Hm H5) as H6. ospecialize (H6 _).
  { intros a Ha. unfold m. apply lookup_put_bytes_out.
    unfold VIDEO_PAGE, _4_MB, _128_MB in *. lia. }
  destruct (running_terminal_rep _ c _ H6) as (t6 & E6 & _ & He6). kstep E6.
  rewrite (Keyboard.er_written _ _ He6). cbn [fst e_written].
  eexists. split; [done|]. split; [apply bytes_at_put|]. split; [exact H6|].
  split; [done|]. split; [exact Hg3|exact Hp3].
Qed.
End ReadClaim.

(** ** Writing *)

(** What [terminal_write] prints: the new prompt for the old one, else every byte
    that is not NUL; and what it returns. *)
Definition written (nbytes : Z) (bs : list Z) : list Z * Z :=
  if bool_decide (take 7 (c_str bs) = prompt) then (BBprompt, 20)
  else (filter (fun b => b <> 0) (take (Z.to_nat nbytes) bs), nbytes).

Section Writing.
Context `{L : Layout}.

(** A literal printed character by character. *)
Lemma put_literal l k vid t :
  Forall is_byte l -> tty_rep k vid t ->
  exists k', kfor 0 (Z.of_nat (length l)) (fun i => c ← lift (arr_get (l ++ [0]) i); putc (u8 c)) k =
      Ok (tt, k') /\ tty_rep k' vid (tty_puts t l) /\ screen_frame vid k k'.
Proof.
  intros Hl H.
  destruct (kfor_inv (fun i k' => tty_rep k' vid (tty_puts t (take (Z.to_nat i) l)) /\ screen_frame vid k k')
    0 (Z.of_nat (length l)) (fun i => c ← lift (arr_get (l ++ [0]) i); putc (u8 c)) k)
    as (k' & E & R & F); [lia|by split| |].
  - intros i k1 Hi [R1 F1].
    destruct (lookup_lt_is_Some_2 l (Z.to_nat i)) as [b Hb]; [lia|].
    rewrite (proj2 (arr_get_lookup (l ++ [0]) i b)) by (split; [lia|by apply lookup_app_l_Some]).
    kcbn. rewrite u8_small by exact (Forall_lookup_1 _ _ _ _ Hl Hb).
    destruct (putc_rep k1 vid _ b R1) as (k2 & E2 & R2 & F2 & _). exists k2. split; [done|].
    split; [|by rewrite F1]. rewrite Z2Nat.inj_add, Nat.add_1_r, (take_S_r _ _ b) by (done || lia).
    unfold tty_puts in *. by rewrite foldl_app.
  - exists k'. split; [done|]. split; [|done]. by rewrite Nat2Z.id, take_ge in R by lia.
Qed.

Lemma write_runs buf n bs k0 vid k t pre :
  (forall k', screen_frame vid k0 k' -> holds (vptr buf) k' (pre ++ bs)) -> Forall is_byte bs ->
  screen_frame vid k0 k -> tty_rep k vid t -> n = Z.of_nat (length (pre ++ bs)) ->
  exists k', runs (write_step buf n) (Z.of_nat (length pre), k) (length bs) (Ok (tt, k')) /\
    tty_rep k' vid (tty_puts t (filter (fun b => b <> 0) bs)) /\ screen_frame vid k0 k'.
Proof.
  revert pre k t. induction bs as [|b bs IH]; intros pre k t Hs Hb F H Hn.
  - exists k. split; [|done]. apply runs_done. unfold write_step.
    rewrite app_nil_r in Hn. by rewrite (proj2 (Z.ltb_ge _ _)) by lia.
  - inversion_clear Hb as [|?? Hb1 Hb2].
    assert (forall k', screen_frame vid k0 k' -> holds (vptr buf) k' ((pre ++ [b]) ++ bs)) as Hs'.
    { intros k' F'. rewrite <- app_assoc. by apply Hs. }
    assert (load (vptr buf) k (Z.of_nat (length pre)) = Ok b) as Hld.
    { apply (Hs k F). by rewrite list_lookup_middle. }
    assert (n = Z.of_nat (length ((pre ++ [b]) ++ bs))) as Hn' by by rewrite <- app_assoc.
    assert (Z.of_nat (length pre) < n) as Hlt by (rewrite Hn, length_app; simpl; lia).
    assert (Z.of_nat (length (pre ++ [b])) = Z.of_nat (length pre) + 1) as Hpre
      by (rewrite length_app; simpl; lia).
    rewrite filter_cons. destruct (Z.eqb_spec b 0) as [->|Hz].
    + rewrite decide_False by naive_solver.
      destruct (IH (pre ++ [0]) k t Hs' Hb2 F H Hn') as (k' & R & H').
      exists k'. split; [|done]. rewrite Hpre in R. eapply runs_step; [|exact R].
      unfold write_step. by rewrite (proj2 (Z.ltb_lt _ _) Hlt), Hld.
    + rewrite decide_True by done. destruct (putc_rep k vid t b H) as (k1 & E1 & R1 & F1 & _).
      destruct (IH (pre ++ [b]) k1 (tty_putc b t) Hs' Hb2) as (k' & R & H'); [by rewrite F|done|done|].
      exists k'. split; [|done]. rewrite Hpre in R. eapply runs_step; [|exact R].
      unfold write_step. rewrite (proj2 (Z.ltb_lt _ _) Hlt), Hld, Ok_bind.
      rewrite (proj2 (Z.eqb_neq b 0) Hz), Ok_bind, u8_small by done. by rewrite E1.
Qed.

(** The program's page does not move under the screen. *)
Lemma user_holds k k' p vid uvid buf bs :
  paging_rep (k_pg k) (Some p) vid uvid -> VIDEO_PAGE <= vid < VIDEO_PAGE + 4 -> 0 <= p ->
  _128_MB <= buf -> buf + Z.of_nat (length bs) <= _132_MB ->
  bytes_at (k_mem k) ((p + 2) * _4_MB + (buf - _128_MB)) bs -> screen_frame vid k k' ->
  holds (vptr buf) k' bs.
Proof.
  intros R Hv Hp Hb He Hat F.
  apply (vptr_holds k' buf ((p + 2) * _4_MB + (buf - _128_MB)) (Z.of_nat (length bs))).
  - rewrite (fr_pg _ _ _ F). by apply (user_maps _ _ vid uvid).
  - lia.
  - intros i b Hi. rewrite (fr_mem _ _ _ F); [by apply Hat|].
    unfold VIDEO_PAGE, _4_MB, _128_MB in *. lia.
Qed.

Lemma terminal_write_rep k t p vid uvid buf nbytes bs fd :
  tty_rep k vid t -> paging_rep (k_pg k) (Some p) vid uvid -> VIDEO_PAGE <= vid < VIDEO_PAGE + 4 ->
  0 <= p -> _128_MB <= buf -> buf + Z.of_nat (length bs) <= _132_MB ->
  bytes_at (k_mem k) ((p + 2) * _4_MB + (buf - _128_MB)) bs -> Forall is_byte bs ->
  0 <= nbytes <= Z.of_nat (length bs) -> covers 7 bs ->
  exists k', terminal_write fd buf nbytes k = Ok ((written nbytes bs).2, k') /\
    tty_rep k' vid (tty_puts t (written nbytes bs).1) /\ screen_frame vid k k'.
Proof.
  intros H R Hv Hp Hb He Hat Hby Hn Hc.
  assert (forall k', screen_frame vid k k' -> holds (vptr buf) k' bs) as Hs.
  { intros k' F. by apply (user_holds k k' p vid uvid). }
  unfold terminal_write. rewrite (proj2 (Z.eqb_neq buf NULL)) by (unfold NULL, _128_MB in *; lia).
  rewrite (strlen_terminated (lit_ptr 0 (prompt ++ [0])) tt prompt);
    [|intros i b Hi; by apply arr_get_Some|by repeat constructor|simpl; lia]. kcbn.
  destruct (strncmp_spec (vptr buf) (lit_ptr 0 (prompt ++ [0])) k bs (prompt ++ [0]) 7)
    as (r & Er & Hr); [by apply Hs|intros i b Hi; by apply arr_get_Some|done|left; simpl; lia|lia|].
  apply strncmp_zero in Hr; [|done|repeat constructor; unfold is_byte; lia].
  change (take (Z.to_nat 7) (c_str (prompt ++ [0]))) with prompt in Hr.
  change (Z.to_nat 7) with 7%nat in Hr. change (Z.of_nat (length prompt)) with 7.
  unfold mbind at 1, K_bind at 1. rewrite Er, Ok_bind. unfold written.
  destruct (Z.eqb_spec r 0) as [Hz|Hz].
  - rewrite bool_decide_true by by apply Hr.
    rewrite (strlen_terminated (lit_ptr 0 (BBprompt ++ [0])) tt BBprompt);
      [|intros i b Hi; by apply arr_get_Some|by repeat constructor|simpl; lia]. kcbn.
    change (s32 (Z.of_nat (length BBprompt))) with (Z.of_nat (length BBprompt)).
    destruct (put_literal BBprompt k vid t) as (k' & E & R' & F);
      [repeat constructor; unfold is_byte; lia|done|]. kstep E. by exists k'.
  - rewrite bool_decide_false by by intros ?%Hr.
    destruct (write_runs buf nbytes (take (Z.to_nat nbytes) bs) k vid k t []) as (k' & E & R' & F).
    + intros k' F i b Hi. apply (Hs k' F). simpl in Hi. by apply lookup_take_Some in Hi as [Hi _].
    + by apply Forall_take.
    + done.
    + done.
    + simpl. rewrite length_take. lia.
    + exists k'. split; [|done]. change (Z.of_nat (length [])) with 0 in E.
      unfold mbind at 1, K_bind at 1. rewrite (loop_runs_Z FUEL _ _ _ _ E); [done|]. rewrite length_take.
      unfold FUEL, _128_MB, _132_MB in *. lia.
Qed.
End Writing.

(** ** The claims *)

Section Claims.
Context `{L : Layout}.

(** (C11) A program that reads its terminal gets the line that was typed.  The program's terminal
    is the one on display, and the keys that arrive while [terminal_read] waits are any but those
    that switch terminals (characters, backspaces, history, modifiers, keys released); for a buffer
    in the program's page and a positive [nbytes], it comes out at the enter key with the editor's
    line, a newline after it and zeros behind, cut to the buffer, in the program's
    memory; it returns the line's length plus one (also when the buffer is
    shorter); the screen shows what the editor shows and the line is consumed. *)
Theorem terminal_read_line k c e t p uvid pre rest irqs junk fd buf nbytes :
  let s' := (ed_keys pre (mods_of (k_kbd k), (Ed (e_line e) (e_hist e) (e_typed e) (e_written e) 0, t))).2 in
  let n := Z.min nbytes 128 in
  kb_here k c (e, t) -> paging_rep (k_pg k) (Some p) VIDEO_PAGE uvid -> 0 <= p ->
  io_in (k_io k) = pre ++ ENTER :: rest -> plain_keys (mods_of (k_kbd k)) pre = true ->
  0 < nbytes -> _128_MB <= buf -> buf + n <= _132_MB ->
  exists k', terminal_read junk (replicate (S (length pre)) KB_handler ++ irqs) fd buf nbytes k =
      Ok ((Z.of_nat (length (e_line s'.1)) + 1, irqs), k') /\
    bytes_at (k_mem k') ((p + 2) * _4_MB + (buf - _128_MB)) (line_for (Z.to_nat n) (e_line s'.1)) /\
    kb_here k' c (Ed [] (e_line s'.1) (replicate 128 0) (Z.of_nat (length (e_line s'.1)) + 1) 1,
                 tty_putc 10 s'.2) /\
    io_in (k_io k') = rest /\ k_pg k' = k_pg k /\ k_proc k' = k_proc k.
Proof. apply terminal_read_rep. Qed.

(** (C33) [terminal_write] of a buffer in the program's page prints those of its first [nbytes]
    bytes that are not NUL and returns [nbytes], the NULs counted; a buffer that starts with the
    shell's prompt "391OS> " prints the BigBrainOS prompt instead and returns 20, whatever
    [nbytes] is.  Nothing but the screen and the cursor changes. *)
Theorem terminal_write_prints k t p vid uvid buf nbytes bs fd :
  tty_rep k vid t -> paging_rep (k_pg k) (Some p) vid uvid -> VIDEO_PAGE <= vid < VIDEO_PAGE + 4 ->
  0 <= p -> _128_MB <= buf -> buf + Z.of_nat (length bs) <= _132_MB ->
  bytes_at (k_mem k) ((p + 2) * _4_MB + (buf - _128_MB)) bs -> Forall is_byte bs ->
  0 <= nbytes <= Z.of_nat (length bs) -> covers 7 bs ->
  exists k', terminal_write fd buf nbytes k = Ok ((written nbytes bs).2, k') /\
    tty_rep k' vid (tty_puts t (written nbytes bs).1) /\ screen_frame vid k k'.
Proof. apply terminal_write_rep. Qed.
End Claims.
