(* ===== verification/TerminalExamples.v ===== *)
(** * The terminal driver on concrete states

    The theorems of Terminal.v applied to a process whose page is mapped and whose
    screen has just been cleared. *)

From stdpp Require Import base gmap list numbers.
From Stdlib Require Import ZArith Lia.
From S2P Require Import Prelude Pointers Ports Pic Paging State Machine VirtMem CString MemFns.
From S2P Require Import Pcb Demo Screen FileSystem FileExamples Keyboard KeyboardExamples Terminal.

(** Process 0 with its page mapped and the keys H, I and enter waiting. *)
Definition demo_user_state : kernel := set_k_pg demo_user_paging demo_state.
Definition demo_typing : kernel :=
  set_k_io {| io_log := []; io_in := [0x23; 0x17; ENTER] |} (exec (clear (L := demo_layout)) demo_user_state).

Lemma demo_typing_rep :
  kb_rep (L := demo_layout) 0 VIDEO_PAGE demo_typing 0 (demo_editor, clear_tty) /\
  exists m, demo_typing =
    set_k_io {| io_log := []; io_in := [0x23; 0x17; ENTER] |} (set_k_mem m demo_user_state).
Proof.
  unfold demo_typing.
  apply (cleared_kb_rep demo_user_state (Some 0) None); [exact demo_user_paging_rep|reflexivity..|discriminate].
Qed.

(** The program reads four bytes: the line and the newline. *)
Lemma terminal_read_line_witness :
  exists k', terminal_read (L := demo_layout) [] (replicate 3 (KB_handler (L := demo_layout))) 0 0x8048000 4
      demo_typing = Ok ((3, []), k') /\
    bytes_at (k_mem k') 0x848000 [104; 105; 10; 0].
Proof.
  generalize demo_typing_rep. generalize demo_typing. intros k (R & m & Hk).
  destruct (terminal_read_line (L := demo_layout) k 0 demo_editor clear_tty 0 None [0x23; 0x17] [] [] []
    0 0x8048000 4) as (k' & E & H & _).
  - exact R.
  - rewrite Hk. exact demo_user_paging_rep.
  - lia.
  - rewrite Hk. reflexivity.
  - rewrite Hk. reflexivity.
  - lia.
  - unfold _128_MB. lia.
  - unfold _132_MB. lia.
  - exists k'. rewrite Hk in E, H. split; [rewrite Hk; exact E|exact H].
Defined.

(** A program prints its prompt. *)
Definition demo_prompt : list Z := prompt ++ [0].
Definition demo_writing : kernel :=
  exec (clear (L := demo_layout))
    (set_k_mem (put_bytes 0x848000 demo_prompt (k_mem demo_state)) demo_user_state).

Lemma cleared_bytes k prog uvid pa bs :
  paging_rep (L := demo_layout) (k_pg k) prog VIDEO_PAGE uvid -> (VIDEO_PAGE + 1) * 4096 <= pa ->
  bytes_at (k_mem k) pa bs ->
  k_pg (exec (clear (L := demo_layout)) k) = k_pg k /\
  bytes_at (k_mem (exec (clear (L := demo_layout)) k)) pa bs.
Proof.
  intros R Hpa Hb. unfold exec.
  destruct (clear_spec (L := demo_layout) k prog VIDEO_PAGE uvid R) as (k' & -> & _ & _ & F).
  split; [apply (fr_pg _ _ _ F)|]. intros i b Hi. rewrite (fr_mem _ _ _ F); [by apply Hb|].
  unfold VIDEO_PAGE in *. lia.
Qed.

Lemma demo_writing_rep :
  tty_rep (L := demo_layout) demo_writing VIDEO_PAGE clear_tty /\
  k_pg demo_writing = demo_user_paging /\ bytes_at (k_mem demo_writing) 0x848000 demo_prompt.
Proof.
  unfold demo_writing. generalize (bytes_at_put 0x848000 demo_prompt (k_mem demo_state)).
  generalize (put_bytes 0x848000 demo_prompt (k_mem demo_state)). intros m Hm. split.
  - apply (cleared_rep (set_k_mem m demo_user_state) (Some 0) VIDEO_PAGE None);
      [exact demo_user_paging_rep|reflexivity|reflexivity|simpl; lia|reflexivity].
  - destruct (cleared_bytes (set_k_mem m demo_user_state) (Some 0) None 0x848000 demo_prompt) as [E H];
      [exact demo_user_paging_rep|discriminate|exact Hm|]. split; [rewrite E; reflexivity|exact H].
Qed.

Lemma terminal_write_prints_witness :
  exists k', terminal_write (L := demo_layout) 1 0x8048000 7 demo_writing = Ok (20, k') /\
    tty_rep (L := demo_layout) k' VIDEO_PAGE (tty_puts clear_tty BBprompt).
Proof.
  generalize demo_writing_rep. generalize demo_writing. intros k (R & Hg & Hb).
  destruct (terminal_write_prints (L := demo_layout) k clear_tty 0 VIDEO_PAGE None 0x8048000 7 demo_prompt 1)
    as (k' & E & H & _).
  - exact R.
  - rewrite Hg. exact demo_user_paging_rep.
  - unfold VIDEO_PAGE. lia.
  - lia.
  - unfold _128_MB. lia.
  - unfold _132_MB. simpl. lia.
  - exact Hb.
  - repeat constructor; unfold is_byte; lia.
  - simpl. lia.
  - left. simpl. lia.
  - exists k'. split; [exact E|exact H].
Defined.
