(* ===== verification/Syscalls.v ===== *)
(** * System calls (system_calls.c, interrupt_wrappers.S)

    The ten system calls and the dispatcher.  [sys_execute] and [sys_halt] do not
    return like functions: the first enters user mode, the second continues the
    [sys_execute] of the parent.  Their results are values of [outcome].

    What the compiled kernel finds on its stack in uninitialised locals, and what
    follows the literal "shell" in its image, is a parameter ([locals]). *)

From stdpp Require Import base gmap list numbers strings.
From Stdlib Require Import ZArith Lia.
From S2P Require Import Prelude Pointers Ports Pic Paging State Machine VirtMem CString MemFns.
From S2P Require Import Pcb Demo Screen Printf FileSystem Rtc Keyboard Terminal.

Definition MAX_CMD_LEN : Z := 32.
Definition MAX_ARG_LEN : Z := 128.
Definition FDT_SIZE : Z := 8.
Definition HALT_STATUS_EXC : Z := 0x04.
Definition HALT_EXC : Z := 256.
Definition PROG_LOAD_ADDR : Z := 0x08048000.
Definition PROG_ENTRY_OFFSET : Z := 24.
Definition FOUR_MB : Z := 0x400000.
Definition USER_ESP : Z := _128_MB + FOUR_MB - 4.
Definition KERNEL_DS : Z := 0x0018.

Definition ELF_MAGIC : list Z := [0x7f; 0x45; 0x4c; 0x46].

(** The memory of a descriptor and of a block after it is cleared. *)
Definition zero_fdt_entry : fdt_entry :=
  {| fot_ptr := None; inode_idx := 0; file_position := 0; enabled := 0; is_data_file := 0 |}.
Definition zero_pcb : pcb :=
  {| pid := 0; par_pid := 0; par_pcb_ptr := 0; fdt := replicate 8 zero_fdt_entry;
     args := replicate 128 0; arg_len := 0; par_esp := 0; par_ebp := 0; esp := 0; ebp := 0;
     prog_freq := 0; count := 0; divisor := 0 |}.

Record locals : Type := {
  j_printf : Z -> list Z;   (* the conversion buffers of [printf] *)
  j_entry : list Z;   (* a local [dir_entry_t] *)
  j_name : list Z;   (* [executable_name], [file_name_buf] *)
  j_args : list Z;   (* [arguments] *)
  j_elf : list Z;   (* [buf_elf] *)
  j_line : list Z;   (* [final_buf] of [terminal_read] *)
  shell_text : list Z;   (* the kernel image from the literal "shell" on *)
}.

(** How a system call ends. *)
Inductive outcome : Type :=
| Returns (v : Z)   (* to its caller *)
| Enters (eip user_esp : Z)   (* [iret] to user mode *)
| Resumes (eax : Z).   (* jump to [ret_to_exec], on the stack of the parent *)

#[global] Instance outcome_eq_dec : EqDecision outcome.
Proof. solve_decision. Defined.

(** A string literal that ends with a newline. *)
Definition literal_ln (s : string) : ptr kernel := lit_ptr 0x400000 (bytes_of_string s ++ [10] ++ [0]).

Section Syscalls.
Context `{L : Layout} (J : locals).

(** ** File operation tables (pcb.c) *)

Definition fot_read (f : fot) (irqs : list (K unit)) (fd buf nbytes : Z) : K (Z * list (K unit)) :=
  match f with
  | rtc_fot => rtc_read irqs fd buf nbytes
  | file_fot => r ← file_read fd buf nbytes; mret (r, irqs)
  | dir_fot => r ← dir_read (j_entry J, j_name J) fd buf nbytes; mret (r, irqs)
  | stdin_fot => terminal_read (j_line J) irqs fd buf nbytes
  | stdout_fot => r ← not_allowed; mret (r, irqs)
  end.

Definition fot_write (f : fot) (fd buf nbytes : Z) : K Z :=
  match f with
  | rtc_fot => rtc_write fd buf nbytes
  | file_fot => file_write fd buf nbytes
  | dir_fot => dir_write fd buf nbytes
  | stdin_fot => not_allowed
  | stdout_fot => terminal_write fd buf nbytes
  end.

Definition fot_open (f : fot) (filename : Z) : K Z :=
  match f with
  | rtc_fot => rtc_open filename
  | file_fot => file_open filename
  | dir_fot => dir_open filename
  | stdin_fot | stdout_fot => terminal_open filename
  end.

Definition fot_close (f : fot) (fd : Z) : K Z :=
  match f with
  | rtc_fot => rtc_close fd
  | file_fot => file_close fd
  | dir_fot => dir_close fd
  | stdin_fot | stdout_fot => terminal_close fd
  end.

(** [entry.fot_ptr->...] *)
Definition the_fot (e : fdt_entry) : K fot :=
  match fot_ptr e with Some f => mret f | None => throw NullCall end.

(** ** Process numbers and descriptors *)

Definition put_used (i v : Z) : K unit := fun k =>
  l ← arr_set (used_pids (k_proc k)) i v; Ok (tt, set_k_proc (set_used_pids l (k_proc k)) k).

Definition init_pid : K unit := kfor 0 MAX_PROCESSES (fun i => put_used i 0).

Fixpoint find_pid (n : nat) (i : Z) : K Z :=
  match n with
  | 0%nat => mret ERROR
  | S n => u ← get_used i; if u =? 0 then mret i else find_pid n (i + 1)
  end.
Definition get_new_pid : K Z := find_pid (Z.to_nat MAX_PROCESSES) 0.

Fixpoint find_fd (n : nat) (i : Z) : K Z :=
  match n with
  | 0%nat => mret ERROR
  | S n =>
      p ← get_curr_pcb; e ← get_fdt p i;
      if enabled e =? 0 then mret i else find_fd n (i + 1)
  end.
Definition get_new_fd : K Z := find_fd (Z.to_nat (FDT_SIZE - 2)) 2.

(** ** Files *)

Definition sys_read (irqs : list (K unit)) (fd buf nbytes : Z) : K (Z * list (K unit)) :=
  if buf =? NULL then mret (ERROR, irqs)
  else if fd <? 0 then mret (ERROR, irqs)
  else
    p ← get_curr_pcb; e ← get_fdt p fd;
    if enabled e =? 0 then mret (ERROR, irqs)
    else
      p ← get_curr_pcb; e ← get_fdt p fd;
      f ← the_fot e; fot_read f irqs fd buf nbytes.

Definition sys_write (fd buf nbytes : Z) : K Z :=
  if fd <? 0 then mret ERROR
  else if buf =? NULL then mret ERROR
  else
    p ← get_curr_pcb; e ← get_fdt p fd;
    if enabled e =? 0 then mret ERROR
    else
      p ← get_curr_pcb; e ← get_fdt p fd;
      f ← the_fot e; fot_write f fd buf nbytes.

(** A descriptor of the standard input or output. *)
Definition std_entry (i : Z) : fdt_entry :=
  {| fot_ptr := Some (if i =? 0 then stdin_fot else stdout_fot); inode_idx := 0;
     file_position := 0; enabled := 1; is_data_file := 0 |}.

(** A 32-bit member of a local structure. *)
Definition local32 (l : list Z) (off : Z) : res Z := load32 (ptr_add (arr_ptr 0)) off l.

(** [!strncmp(filename, "rtc", strlen(filename))] *)
Definition is_rtc (filename : Z) (k : kernel) : res bool :=
  n ← strlen (vptr filename) k;
  c ← strncmp (vptr filename) (lit_ptr 0 [114; 116; 99; 0]) n k;
  Ok (c =? 0).

Definition sys_open (filename : Z) : K Z :=
  sp ← gets (fun k => r_esp (k_cpu k));
  d ← ((fun k =>
    r ← read_dentry_by_name vptr1 (k_fs k) (vptr1 filename) (ptr_snd (arr_ptr sp)) (k, j_entry J);
    Ok ((r.1, r.2.2), r.2.1)) : K (Z * list Z));
  if d.1 =? ERROR then mret ERROR
  else
    fd ← get_new_fd;
    if fd =? ERROR then mret ERROR
    else
      p ← get_curr_pcb;
      upd_fdt p fd (set_enabled 1);;
      isRTC ← (fun k => b ← is_rtc filename k; Ok (b, k)) : K bool;
      kfor 0 2 (fun i => upd_fdt p i (fun _ => std_entry i));;
      inode_num ← lift (local32 d.2 DENTRY_INODE_NUM);
      file_type ← lift (local32 d.2 DENTRY_FILE_TYPE);
      upd_fdt p fd (set_fot_ptr (Some (if (isRTC : bool) then rtc_fot else file_fot)));;
      upd_fdt p fd (set_inode_idx inode_num);;
      upd_fdt p fd (set_file_position 0);;
      upd_fdt p fd (set_enabled 1);;
      upd_fdt p fd (set_is_data_file (if file_type =? 2 then 1 else 0));;
      when (file_type =? 1) (upd_fdt p fd (set_fot_ptr (Some dir_fot)));;
      e ← get_fdt p fd;
      f ← the_fot e;
      r ← fot_open f filename;
      if negb (r =? 0) then mret ERROR else mret fd.

Definition sys_close (fd : Z) : K Z :=
  if fd <? 2 then mret ERROR
  else
    p ← get_curr_pcb; e ← get_fdt p fd;
    if enabled e =? 0 then mret ERROR
    else
      upd_fdt p fd (set_enabled 0);;
      e ← get_fdt p fd;
      f ← the_fot e; fot_close f fd.

(** ** Arguments, video memory, signals *)

Definition sys_getargs (buf nbytes : Z) : K Z :=
  if buf =? NULL then mret ERROR
  else
    p ← get_curr_pcb; b ← get_pcb p;
    let arg_len := arg_len b in
    if arg_len =? ERROR then mret ERROR
    else if nbytes <? arg_len then mret ERROR
    else
      kfor 0 nbytes (fun _ => kstore (buf + arg_len) 0);;
      b ← get_pcb p;
      ((fun k =>
        o ← memcpy (vptr1 buf) (ptr_snd (arr_ptr 0)) (u32 arg_len) (k, args b); Ok (tt, o.1)) : K unit);;
      mret 0.

Definition sys_vidmap (screen_start : Z) : K Z :=
  if screen_start =? NULL then mret ERROR
  else if (s32 screen_start <? _128_MB) || (_132_MB <? s32 screen_start) then mret ERROR
  else
    v ← on k_pg set_k_pg get_vidmem;
    ((fun k => k' ← store_list (vptr screen_start) 0 (le_bytes 4 v) k; Ok (tt, k')) : K unit);;
    mret 0.

Definition sys_set_handler (signum handler_address : Z) : K Z :=
  printf (j_printf J) (literal_ln "Not implemented yet") [];;
  mret ERROR.

Definition sys_sigreturn : K Z :=
  printf (j_printf J) (literal_ln "Not implemented yet") [];;
  mret ERROR.
End Syscalls.
