(* ===== verification/Process.v ===== *)
(** * Processes: [sys_execute], [sys_halt] and the system call dispatcher

    [sys_execute] parses the command, finds and loads the program, fills the
    block of the new process and enters user mode; [sys_halt] gives everything
    back and continues the parent.  [blue_screen] (lib.c) is how an exception
    ends a program. *)

From stdpp Require Import base gmap list numbers strings.
From Stdlib Require Import ZArith Lia.
From S2P Require Import Prelude Pointers Ports Pic Paging State Machine VirtMem CString MemFns.
From S2P Require Import Pcb Demo Screen Printf FileSystem Rtc Keyboard Terminal Syscalls.

Section Process.
Context `{L : Layout} (J : locals).

(** The loop over the program's name: where it stopped, whether arguments
    follow, and [executable_name]. *)
Definition name_step (command : ptr kernel) (k : kernel) (s : Z * list Z) :
    res (Z * list Z + Z * bool * list Z) :=
  let '(i, executable_name) := s in
  if i <? MAX_CMD_LEN then
    c ← load command k i;
    if c =? 32 then Ok (inr (i, true, executable_name))
    else if c =? 10 then Ok (inr (i, false, executable_name))
    else
      n ← arr_set executable_name i c;
      n ← arr_set n (i + 1) 0;
      Ok (inl (i + 1, n))
  else Ok (inr (i, false, executable_name)).

Definition parse_name (command : ptr kernel) (k : kernel) : res (Z * bool * list Z) :=
  loop FUEL (name_step command k) (0, j_name J).

(** The loop over the argument, from index [cmd_name_len] on. *)
Definition args_step (command : ptr kernel) (k : kernel) (cmd_name_len : Z) (s : Z * list Z) :
    res (Z * list Z + list Z) :=
  let '(i, arguments) := s in
  if i <? MAX_ARG_LEN then
    c ← load command k i;
    if (c =? 10) || (c =? 0) || (c =? 32) then Ok (inr arguments)
    else
      a ← arr_set arguments (i - cmd_name_len) c;
      a ← arr_set a (i - cmd_name_len + 1) 0;
      Ok (inl (i + 1, a))
  else Ok (inr arguments).

Definition parse_args (command : ptr kernel) (k : kernel) (i : Z) (have_args : bool) :
    res (list Z) :=
  arguments ← arr_set (j_args J) 0 0;
  if have_args then
    let cmd_name_len := i + 1 in
    loop FUEL (args_step command k cmd_name_len) (cmd_name_len, arguments)
  else Ok arguments.

(** [read_dentry_by_name(executable_name, &exe_dir_entry)] *)
Definition find_program (sp : Z) (executable_name : list Z) : K (Z * list Z) := fun k =>
  r ← read_dentry_by_name (fun a => ptr_fst (vptr a)) (k_fs k)
        (ptr_snd (ptr_fst (arr_ptr sp))) (ptr_snd (ptr_snd (arr_ptr sp)))
        (k, (executable_name, j_entry J));
  Ok ((r.1, r.2.2.2), r.2.1).

(** The first four bytes of the file, in [buf_elf]. *)
Definition read_magic (sp inode_num : Z) : K (Z * list Z) := fun k =>
  r ← read_data vptr1 (k_fs k) inode_num 0 (ptr_snd (arr_ptr sp)) 4 (k, j_elf J);
  Ok ((r.1, r.2.2), r.2.1).

Definition put_tss (pid : Z) : K unit := modify (fun k =>
  set_k_tss (set_esp0 (u32 (_8MB - 4 - pid * _8KB)) (set_ss0 KERNEL_DS (k_tss k))) k).

Definition kenable_program_page (pid : Z) : K unit :=
  on k_pg set_k_pg (fun pg => pg ← enable_program_page pid pg; Ok (tt, pg)).

(** The arguments in the new block. *)
Definition store_args (p : Z) (have_args : bool) (arguments : list Z) : K unit :=
  if have_args then
    n ← lift (strlen (arr_ptr 0) arguments);
    upd_pcb p (set_arg_len (s8 n));;
    b ← get_pcb p;
    a ← lift (o ← strncpy (ptr_fst (arr_ptr p)) (ptr_snd (arr_ptr 0)) (u32 (arg_len b)) (args b, arguments);
              Ok o.1);
    upd_pcb p (set_args a)
  else
    upd_pcb p (set_arg_len (-1));;
    b ← get_pcb p;
    a ← lift (arr_set (args b) 0 0);
    upd_pcb p (set_args a).

(** Filling the block of process [new_pid]. *)
Definition create_pcb (new_pid : Z) (have_args : bool) (arguments : list Z) : K unit :=
  let new_pcb := get_pcb_by_pid new_pid in
  upd_pcb new_pcb (set_pid new_pid);;
  upd_pcb new_pcb (set_prog_freq 0);;
  upd_pcb new_pcb (set_count 0);;
  upd_pcb new_pcb (set_divisor 0);;
  cur ← get_curr_pcb; c ← get_pcb cur;
  upd_pcb new_pcb (set_par_pid (pid c));;
  when (new_pid <? 3) (upd_pcb new_pcb (set_par_pid new_pid));;
  cur ← get_curr_pcb;
  upd_pcb new_pcb (set_par_pcb_ptr cur);;
  store_args new_pcb have_args arguments;;
  cpu ← gets k_cpu;
  upd_pcb new_pcb (fun b => set_par_ebp (r_ebp cpu) (set_par_esp (r_esp cpu) b));;
  kfor 0 FDT_MAX_ENTRIES (fun i =>
    upd_fdt new_pcb i (fun _ => if i <? 2 then std_entry i else zero_fdt_entry)).

(** The running terminal's processes. *)
Definition put_running (curr par : Z) : K unit :=
  cp ← gets (fun k => curr_process (k_ter k));
  upd_terminal cp (set_prog_curr_pid curr);;
  upd_terminal cp (set_prog_par_pid par).

(** From the creation of the block to [iret]. *)
Definition enter_process (new_pid eip : Z) (have_args : bool) (arguments : list Z) : K outcome :=
  create_pcb new_pid have_args arguments;;
  put_tss new_pid;;
  cp ← gets (fun k => curr_process (k_ter k));
  printf (j_printf J) (literal_ln "-- Executing Process #%d (T%d) --")
    [ANum (u32 new_pid); ANum (u32 cp)];;
  put_used new_pid 1;;
  b ← get_pcb (get_pcb_by_pid new_pid);
  put_running new_pid (par_pid b);;
  upd_pcb (get_pcb_by_pid new_pid) (fun b => set_ebp USER_ESP (set_esp USER_ESP b));;
  mret (Enters eip USER_ESP).

(** From [enable_program_page] on. *)
Definition start_process (new_pid inode_num : Z) (have_args : bool) (arguments : list Z) :
    K outcome :=
  kenable_program_page new_pid;;
  r ← (fun k => read_data vptr (k_fs k) inode_num 0 (vptr PROG_LOAD_ADDR) FOUR_MB k) : K Z;
  if r =? ERROR then mret (Returns ERROR)
  else
    eip ← load_word (PROG_LOAD_ADDR + PROG_ENTRY_OFFSET);
    enter_process new_pid eip have_args arguments.

Definition sys_execute (command : ptr kernel) : K outcome :=
  sp ← gets (fun k => r_esp (k_cpu k));
  n ← (fun k => r ← parse_name command k; Ok (r, k)) : K (Z * bool * list Z);
  let '(i, have_args, executable_name) := n in
  arguments ← (fun k => r ← parse_args command k i have_args; Ok (r, k)) : K (list Z);
  d ← find_program sp executable_name;
  if d.1 =? ERROR then mret (Returns ERROR)
  else
    inode_num ← lift (local32 d.2 DENTRY_INODE_NUM);
    m ← read_magic sp inode_num;
    if m.1 =? ERROR then mret (Returns ERROR)
    else
      b ← lift (load_list (arr_ptr sp) 0 4 m.2);
      if negb (bool_decide (b = ELF_MAGIC)) then mret (Returns ERROR)
      else
        new_pid ← get_new_pid;
        if new_pid =? ERROR then
          printf (j_printf J) (literal_ln "-- Max Processes Already Reached (%d) --")
            [ANum MAX_PROCESSES];;
          mret (Returns ERROR)
        else start_process new_pid inode_num have_args arguments.

(** After [ret_to_exec]: what the parent's [sys_execute] returns. *)
Definition exec_result (eax : Z) : Z := if eax =? HALT_STATUS_EXC then HALT_EXC else 0.

(** The literal "shell" in the kernel's image. *)
Definition shell : ptr kernel := lit_ptr 0x400000 (shell_text J).

(** From the update of the terminal to the jump. *)
Definition resume_parent (p status : Z) : K outcome :=
  b ← get_pcb p;
  par ← get_pcb (par_pcb_ptr b);
  put_running (pid par) (par_pid par);;
  b ← get_pcb p;
  upd_pcb p (fun _ => zero_pcb);;
  modify (fun k => set_k_cpu (set_r_ebp (par_ebp b) (set_r_esp (par_esp b) (k_cpu k))) k);;
  mret (Resumes (u8 status)).

Definition close_files (p : Z) : K unit :=
  kfor 0 FDT_MAX_ENTRIES (fun i =>
    e ← get_fdt p i;
    when (negb (enabled e =? 0)) (f ← the_fot e; fot_close f i;; mret tt)).

Definition sys_halt (status : Z) : K outcome :=
  pid_ ← curr_pid;
  let p := get_pcb_by_pid pid_ in
  if p =? NULL then mret (Returns ERROR)
  else
    b ← get_pcb p;
    let pid := pid b in
    put_tss (par_pid b);;
    put_used pid 0;;
    printf (j_printf J) (literal_ln "-- Halting Process #%d --") [ANum (u32 pid)];;
    b ← get_pcb p;
    kenable_program_page (par_pid b);;
    close_files p;;
    if pid <? 3 then
      puts (literal_ln "-- Exited Root Process --");;
      r ← sys_execute shell;
      match r with Returns _ => resume_parent p status | _ => mret r end
    else resume_parent p status.

(** lib.c: the end of a program that raised an exception. *)
Definition blue_screen (str : ptr kernel) : K outcome :=
  printf (j_printf J) (lit_ptr 0x400000 (bytes_of_string "! ERROR " ++ [0xAF] ++
    bytes_of_string " %s !" ++ [10] ++ [0])) [AStr str];;
  sys_halt HALT_STATUS_EXC.

(** ** The dispatcher: [%eax] selects the call, [%ebx], [%ecx], [%edx] are its
    arguments. *)
Definition returns (m : K Z) : K outcome := v ← m; mret (Returns v).

Definition sys_call (irqs : list (K unit)) (n a1 a2 a3 : Z) : K outcome :=
  if n =? 0 then sys_halt (u8 a1)
  else if n =? 1 then sys_execute (vptr a1)
  else if n =? 2 then r ← sys_read J irqs (s32 a1) a2 (s32 a3); mret (Returns r.1)
  else if n =? 3 then returns (sys_write (s32 a1) a2 (s32 a3))
  else if n =? 4 then returns (sys_open J a1)
  else if n =? 5 then returns (sys_close (s32 a1))
  else if n =? 6 then returns (sys_getargs a1 (s32 a2))
  else if n =? 7 then returns (sys_vidmap a1)
  else if n =? 8 then returns (sys_set_handler J (s32 a1) a2)
  else returns (sys_sigreturn J).

(** The flags are pushed on entry and popped on the way back. *)
Definition SYS_handler_wrapper (irqs : list (K unit)) (eax ebx ecx edx : Z) : K outcome :=
  flags ← gets (fun k => eflags (k_cpu k));
  sti;;
  let n := u32 (eax - 1) in
  r ← (if 10 <=? n then mret (Returns (-1)) else sys_call irqs n ebx ecx edx);
  match r with Returns _ => restore_flags flags;; mret r | _ => mret r end.
End Process.
