(* ===== verification/Idt.v ===== *)
(** * Interrupt descriptors and exception handlers (idt.c, x86_desc.h)

    [init_idt] fills the interrupt descriptor table; the processor reads an entry as
    two words.  The exception handlers end the program that raised the exception.

    Where the linker put the handlers is a parameter.  The second loop of [init_idt]
    runs over 16 elements of arrays that have 4: the words behind the arrays on
    the stack are parameters too. *)

From stdpp Require Import base gmap list numbers strings.
From Stdlib Require Import ZArith Lia.
From S2P Require Import Prelude Pointers Ports Pic Paging State Machine VirtMem CString MemFns.
From S2P Require Import Pcb Demo Screen Printf FileSystem Rtc Keyboard Terminal Syscalls Process.

Definition DE_EXC : Z := 0x00.
Definition DB_EXC : Z := 0x01.
Definition NI_EXC : Z := 0x02.
Definition BP_EXC : Z := 0x03.
Definition OF_EXC : Z := 0x04.
Definition BR_EXC : Z := 0x05.
Definition UD_EXC : Z := 0x06.
Definition NM_EXC : Z := 0x07.
Definition DF_EXC : Z := 0x08.
Definition CP_EXC : Z := 0x09.
Definition TS_EXC : Z := 0x0A.
Definition NP_EXC : Z := 0x0B.
Definition SS_EXC : Z := 0x0C.
Definition GP_EXC : Z := 0x0D.
Definition PF_EXC : Z := 0x0E.
Definition MF_EXC : Z := 0x10.
Definition AC_EXC : Z := 0x11.
Definition MC_EXC : Z := 0x12.
Definition XF_EXC : Z := 0x13.
Definition VE_EXC : Z := 0x14.
Definition SX_EXC : Z := 0x1E.
Definition KB_INT : Z := 0x21.
Definition RT_INT : Z := 0x28.
Definition PT_INT : Z := 0x20.
Definition SYS_CALL : Z := 0x80.
Definition NUM_EXCEPTIONS : Z := 20.
Definition NUM_INTERRUPTS : Z := 16.
Definition NUM_VEC : Z := 256.
Definition KERNEL_CS : Z := 0x0010.

(** ** The exception handlers *)

Section Handlers.
Context `{L : Layout} (J : locals).

(** A string constant of the kernel's image. *)
Definition exc_name (s : string) : ptr kernel := lit_ptr 0x400000 (bytes_of_string s ++ [0]).

Definition SYS_handler : K unit :=
  printf (j_printf J) (literal_ln "A system call was made") [];; mret tt.

Definition DE_handler : K outcome := blue_screen J (exc_name "Divide by Zero Error").
Definition DB_handler : K outcome := blue_screen J (exc_name "Debug Exception").
Definition NI_handler : K outcome := blue_screen J (exc_name "Non-Maskable Interrupt").
Definition BP_handler : K outcome := blue_screen J (exc_name "Breakpoint Exception").
Definition OF_handler : K outcome := blue_screen J (exc_name "Overflow").
Definition BR_handler : K outcome := blue_screen J (exc_name "Bound Range Exceeded").
Definition UD_handler : K outcome := blue_screen J (exc_name "Invalid Opcode").
Definition NM_handler : K outcome := blue_screen J (exc_name "Device Not Available").
Definition DF_handler : K outcome := blue_screen J (exc_name "Double Fault").
Definition CP_handler : K outcome := blue_screen J (exc_name "Coprocessor Segment Overrun").
Definition TS_handler : K outcome := blue_screen J (exc_name "Invalid TSS").
Definition NP_handler : K outcome := blue_screen J (exc_name "Segment Not Present").
Definition SS_handler : K outcome := blue_screen J (exc_name "Stack Segment Fault").
Definition GP_handler : K outcome := blue_screen J (exc_name "General Protection Fault").
Definition PF_handler : K outcome := blue_screen J (exc_name "Page Fault").
Definition MF_handler : K outcome := blue_screen J (exc_name "x87 Floating Point Exception").
Definition AC_handler : K outcome := blue_screen J (exc_name "Alignment Check Exception").
Definition MC_handler : K outcome := blue_screen J (exc_name "Machine Check Exception").
Definition XF_handler : K outcome := blue_screen J (exc_name "SIMD Floating Point Exception").
Definition VE_handler : K outcome := blue_screen J (exc_name "Virtualization Exception").
Definition SX_handler : K outcome := blue_screen J (exc_name "Security Exception").
End Handlers.

(** ** The table *)

(** The functions the table refers to. *)
Inductive handler : Type :=
| H_DE | H_DB | H_BP | H_OF | H_BR | H_UD | H_NM | H_DF | H_CP | H_TS
| H_NP | H_SS | H_GP | H_PF | H_MF | H_AC | H_MC | H_XF | H_VE | H_SX
| H_NI | H_KB | H_RT | H_PT | H_SYS.

#[global] Instance handler_eq_dec : EqDecision handler.
Proof. solve_decision. Defined.

Definition exc_vect : list Z :=
  [DE_EXC; DB_EXC; BP_EXC; OF_EXC; BR_EXC; UD_EXC; NM_EXC; DF_EXC; CP_EXC; TS_EXC;
   NP_EXC; SS_EXC; GP_EXC; PF_EXC; MF_EXC; AC_EXC; MC_EXC; XF_EXC; VE_EXC; SX_EXC].
Definition int_vect : list Z := [NI_EXC; KB_INT; RT_INT; PT_INT].
Definition exc_handlers : list handler :=
  [H_DE; H_DB; H_BP; H_OF; H_BR; H_UD; H_NM; H_DF; H_CP; H_TS;
   H_NP; H_SS; H_GP; H_PF; H_MF; H_AC; H_MC; H_XF; H_VE; H_SX].
Definition int_handlers : list handler := [H_NI; H_KB; H_RT; H_PT].

(** x86_desc.h: [idt_desc_t] *)
Record idt_desc : Type := {
  offset_15_00 : Z;
  seg_selector : Z;
  reserved4 : Z;
  reserved3 : Z;
  reserved2 : Z;
  reserved1 : Z;
  gate_size : Z;
  reserved0 : Z;
  dpl : Z;
  gate_present : Z;
  offset_31_16 : Z;
}.

Definition zero_desc : idt_desc :=
  {| offset_15_00 := 0; seg_selector := 0; reserved4 := 0; reserved3 := 0; reserved2 := 0;
     reserved1 := 0; gate_size := 0; reserved0 := 0; dpl := 0; gate_present := 0; offset_31_16 := 0 |}.

Definition SET_IDT_ENTRY (handler : Z) (str : idt_desc) : idt_desc :=
  {| offset_31_16 := Z.shiftr (Z.land (u32 handler) 0xFFFF0000) 16;
     offset_15_00 := Z.land (u32 handler) 0xFFFF;
     seg_selector := seg_selector str; reserved4 := reserved4 str; reserved3 := reserved3 str;
     reserved2 := reserved2 str; reserved1 := reserved1 str; gate_size := gate_size str;
     reserved0 := reserved0 str; dpl := dpl str; gate_present := gate_present str |}.

(** The nine assignments that follow [SET_IDT_ENTRY], with privilege [level]. *)
Definition fill_gate (level : Z) (str : idt_desc) : idt_desc :=
  {| offset_31_16 := offset_31_16 str; offset_15_00 := offset_15_00 str;
     seg_selector := KERNEL_CS; gate_present := 1; dpl := level; gate_size := 1;
     reserved0 := 0; reserved1 := 1; reserved2 := 1; reserved3 := 0; reserved4 := 0 |}.

Definition upd_idt (v : Z) (f : idt_desc -> idt_desc) (idt : list idt_desc) : res (list idt_desc) :=
  d ← arr_get idt v; arr_set idt v (f d).

Section Init.
Context (addr_of : handler -> Z).   (* where the linker put the handlers *)
Context (vects_behind handlers_behind : list Z).   (* the stack behind the two arrays *)

(** The loop over the vectors [vs] and the handlers [hs]. *)
Definition fill_loop (n : Z) (vs hs : list Z) (idt : list idt_desc) : res (list idt_desc) :=
  for_range 0 n (fun i idt =>
    v ← arr_get vs i;
    h ← arr_get hs i;
    upd_idt v (fun d => fill_gate 0 (SET_IDT_ENTRY h d)) idt) idt.

(** The members of the terminals that [init_idt] sets. *)
Definition init_terminals (ter : terms) : res terms :=
  l ← for_range 0 NUM_TERMINALS (fun i l =>
    t ← arr_get l i;
    arr_set l i (set_prog_curr_pid (-1) (set_prog_par_pid (-1) (set_buf_len 0 t)))) (terminals ter);
  Ok (set_curr_ter 0 (set_terminals l ter)).

Definition init_idt (idt : list idt_desc) (ter : terms) : res (list idt_desc * terms) :=
  idt ← fill_loop NUM_EXCEPTIONS exc_vect (addr_of <$> exc_handlers) idt;
  idt ← fill_loop NUM_INTERRUPTS (int_vect ++ vects_behind)
          ((addr_of <$> int_handlers) ++ handlers_behind) idt;
  idt ← upd_idt SYS_CALL (fun d => fill_gate 3 (SET_IDT_ENTRY (addr_of H_SYS) d)) idt;
  ter ← init_terminals ter;
  Ok (idt, ter).
End Init.

(** ** How the processor reads the table *)

(** The two words of an entry. *)
Definition gate_words (d : idt_desc) : Z * Z :=
  (offset_15_00 d + seg_selector d * 2 ^ 16,
   reserved4 d + reserved3 d * 2 ^ 8 + reserved2 d * 2 ^ 9 + reserved1 d * 2 ^ 10 +
   gate_size d * 2 ^ 11 + reserved0 d * 2 ^ 12 + dpl d * 2 ^ 13 + gate_present d * 2 ^ 15 +
   offset_31_16 d * 2 ^ 16).

(** Taking vector [v] at privilege [cpl]: the address at which the kernel
    continues.  [software] is an [int] instruction, which needs the privilege of
    the gate; what is no 32-bit interrupt gate of the kernel's segment is a fault. *)
Definition take_vector (software : bool) (cpl : Z) (idt : list idt_desc) (v : Z) : option Z :=
  match idt !! Z.to_nat v with
  | None => None
  | Some d =>
      let '(lo, hi) := gate_words d in
      if negb ((hi / 2 ^ 15) mod 2 =? 1) then None
      else if negb ((hi / 2 ^ 8) mod 2 ^ 5 =? 0xE) then None
      else if negb (lo / 2 ^ 16 =? KERNEL_CS) then None
      else if software && ((hi / 2 ^ 13) mod 4 <? cpl) then None
      else Some (lo mod 2 ^ 16 + hi / 2 ^ 16 * 2 ^ 16)
  end.

(** The vectors as the processor and the interrupt controllers number them: the exceptions
    of the processor's manual (15, 21 to 29 and 31 are reserved), the timer, the keyboard
    and the clock on lines 0, 1 and 8 of controllers mapped to 0x20 and 0x28, and the
    system call.  Written down independently of the arrays of [init_idt]. *)
Definition vector_table : list (Z * handler) :=
  [(0, H_DE); (1, H_DB); (2, H_NI); (3, H_BP); (4, H_OF); (5, H_BR); (6, H_UD); (7, H_NM);
   (8, H_DF); (9, H_CP); (10, H_TS); (11, H_NP); (12, H_SS); (13, H_GP); (14, H_PF);
   (16, H_MF); (17, H_AC); (18, H_MC); (19, H_XF); (20, H_VE); (30, H_SX);
   (32, H_PT); (33, H_KB); (40, H_RT); (128, H_SYS)].

(** What the arrays and the last assignment of [init_idt] pair up. *)
Definition filled_pairs : list (Z * handler) :=
  zip exc_vect exc_handlers ++ zip int_vect int_handlers ++ [(SYS_CALL, H_SYS)].

Lemma vector_table_pairs v h : (v, h) ∈ vector_table <-> (v, h) ∈ filled_pairs.
Proof.
  enough (vector_table ≡ₚ filled_pairs) as -> by done. apply (bool_decide_unpack _). by vm_compute.
Qed.

(** ** The loops *)

Definition gate (level h : Z) : idt_desc := fill_gate level (SET_IDT_ENTRY h zero_desc).

Definition put_gate (level : Z) (idt : list idt_desc) (e : Z * Z) : list idt_desc :=
  <[Z.to_nat e.1 := gate level e.2]> idt.

Definition vector_ok (v : Z) : Prop := 0 <= v < NUM_VEC.

Lemma upd_idt_ok v level h idt :
  vector_ok v -> length idt = 256%nat ->
  upd_idt v (fun d => fill_gate level (SET_IDT_ENTRY h d)) idt = Ok (put_gate level idt (v, h)).
Proof.
  unfold vector_ok, NUM_VEC. intros Hv Hl. unfold upd_idt. destruct (arr_get_total idt v) as [d ->]; [lia|].
  rewrite Ok_bind, arr_set_ok by lia. done.
Qed.

Lemma put_gates_length level es idt : length (foldl (put_gate level) idt es) = length idt.
Proof. revert idt. induction es as [|e es IH]; intros idt; simpl; [done|]. rewrite IH. apply length_insert. Qed.

Lemma fill_loop_spec vs hs idt (n : nat) :
  length vs = n -> length hs = n -> Forall vector_ok vs -> length idt = 256%nat ->
  fill_loop (Z.of_nat n) vs hs idt = Ok (foldl (put_gate 0) idt (zip vs hs)).
Proof.
  intros Hv Hh Hok Hl. unfold fill_loop.
  destruct (for_range_inv (fun i idt' => idt' = foldl (put_gate 0) idt (take (Z.to_nat i) (zip vs hs)))
    0 (Z.of_nat n) (fun i idt => v ← arr_get vs i; h ← arr_get hs i;
      upd_idt v (fun d => fill_gate 0 (SET_IDT_ENTRY h d)) idt) idt) as (idt' & E & ->); [lia|done| |].
  - intros i idt' Hi ->. destruct (lookup_lt_is_Some_2 vs (Z.to_nat i)) as [v Ev]; [lia|].
    destruct (lookup_lt_is_Some_2 hs (Z.to_nat i)) as [h Eh]; [lia|].
    rewrite (proj2 (arr_get_lookup _ _ _) (conj (proj1 Hi) Ev)), Ok_bind.
    rewrite (proj2 (arr_get_lookup _ _ _) (conj (proj1 Hi) Eh)), Ok_bind.
    eexists. split; [apply upd_idt_ok; [by apply (Forall_lookup_1 _ _ _ _ Hok Ev)|by rewrite put_gates_length]|].
    replace (Z.to_nat (i + 1)) with (S (Z.to_nat i)) by lia.
    rewrite (take_S_r _ _ (v, h)) by (apply lookup_zip_with_Some; eauto). by rewrite foldl_app.
  - rewrite E, Nat2Z.id, take_ge; [done|]. rewrite length_zip_with. lia.
Qed.

Lemma fill_step a n vs hs idt v h :
  0 <= a < n -> vs !! Z.to_nat a = Some v -> hs !! Z.to_nat a = Some h ->
  for_range a n (fun i idt => v ← arr_get vs i; h ← arr_get hs i;
      upd_idt v (fun d => fill_gate 0 (SET_IDT_ENTRY h d)) idt) idt =
    (idt ← upd_idt v (fun d => fill_gate 0 (SET_IDT_ENTRY h d)) idt;
     for_range (a + 1) n (fun i idt => v ← arr_get vs i; h ← arr_get hs i;
      upd_idt v (fun d => fill_gate 0 (SET_IDT_ENTRY h d)) idt) idt).
Proof.
  intros Ha Hv Hh. rewrite for_range_cons by lia.
  rewrite (proj2 (arr_get_lookup _ _ _) (conj (proj1 Ha) Hv)), Ok_bind.
  by rewrite (proj2 (arr_get_lookup _ _ _) (conj (proj1 Ha) Hh)), Ok_bind.
Qed.

(** A vector that no entry of the list has keeps its gate. *)
Lemma put_gates_other level es idt v :
  0 <= v -> Forall vector_ok es.*1 -> v ∉ es.*1 ->
  foldl (put_gate level) idt es !! Z.to_nat v = idt !! Z.to_nat v.
Proof.
  revert idt. induction es as [|[w h] es IH]; intros idt Hv Hok Hn; [done|].
  rewrite fmap_cons in Hok, Hn. apply Forall_cons in Hok as [Hw Hok]. apply not_elem_of_cons in Hn as [Hne Hn].
  cbn [foldl]. rewrite IH by done. apply list_lookup_insert_ne. unfold vector_ok in Hw. simpl in *. lia.
Qed.

Lemma put_gates_at level es idt v h :
  NoDup es.*1 -> Forall vector_ok es.*1 -> (v, h) ∈ es -> length idt = 256%nat ->
  foldl (put_gate level) idt es !! Z.to_nat v = Some (gate level h).
Proof.
  revert idt. induction es as [|[w g] es IH]; intros idt Hd Hok Hin Hl; [set_solver|].
  rewrite fmap_cons in Hd, Hok. apply NoDup_cons in Hd as [Hnin Hd]. apply Forall_cons in Hok as [Hw Hok].
  unfold vector_ok, NUM_VEC in Hw. cbn [foldl]. simpl in Hw, Hnin. apply elem_of_cons in Hin as [[= -> ->]|Hin].
  - rewrite put_gates_other by (done || lia). apply list_lookup_insert_eq. simpl. lia.
  - apply IH; auto. unfold put_gate. by rewrite length_insert.
Qed.

(** Entries a user program cannot use: empty ones and those of level 0. *)
Definition closed (d : idt_desc) : Prop := d = zero_desc \/ exists h, d = gate 0 h.

Lemma put_gates_closed es idt : Forall closed idt -> Forall closed (foldl (put_gate 0) idt es).
Proof.
  revert idt. induction es as [|[v h] es IH]; intros idt H; simpl; [done|]. apply IH.
  apply Forall_insert; [done|]. right. by exists h.
Qed.

Lemma take_gate software cpl idt v level h :
  idt !! Z.to_nat v = Some (gate level h) -> 0 <= h < 2 ^ 32 -> 0 <= level < 4 ->
  (software = true -> cpl <= level) -> take_vector software cpl idt v = Some h.
Proof.
  intros H Hh Hl Hs. unfold take_vector. rewrite H. unfold gate_words, gate, fill_gate, SET_IDT_ENTRY.
  cbn [offset_15_00 offset_31_16 seg_selector reserved4 reserved3 reserved2 reserved1 gate_size reserved0 dpl gate_present].
  rewrite u32_small by lia. change 0xFFFF with (Z.ones 16). rewrite Z.land_ones by lia.
  assert (Z.shiftr (Z.land h 0xFFFF0000) 16 = h / 2 ^ 16) as ->.
  { change 0xFFFF0000 with (Z.shiftl (Z.ones 16) 16). rewrite Z.shiftr_land, Z.shiftr_shiftl_l by lia.
    rewrite Z.sub_diag, Z.shiftl_0_r, Z.land_ones, Z.shiftr_div_pow2 by lia. apply Z.mod_small.
    split; [apply Z.div_pos; lia|apply Z.div_lt_upper_bound; lia]. }
  change (2 ^ 16) with 65536 in *. unfold KERNEL_CS.
  assert (0 <= h mod 65536 < 65536 /\ 0 <= h / 65536 < 65536 /\ h = 65536 * (h / 65536) + h mod 65536) as (Hlo & Hhi & Heq).
  { pose proof (Z.mod_pos_bound h 65536 ltac:(lia)). pose proof (Z.div_mod h 65536 ltac:(lia)). lia. }
  set (lo := h mod 65536) in *. set (hi := h / 65536) in *.
  assert ((lo + 16 * 65536) / 65536 = 16 /\ (lo + 16 * 65536) mod 65536 = lo) as [-> ->]
    by (split; Z.to_euclidean_division_equations; lia).
  match goal with |- context [?w / 2 ^ 15] => set (x := w) end.
  assert ((x / 2 ^ 15) mod 2 = 1 /\ (x / 2 ^ 8) mod 2 ^ 5 = 0xE /\ (x / 2 ^ 13) mod 4 = level /\ x / 65536 = hi)
    as (-> & -> & -> & ->) by (subst x; simpl; Z.to_euclidean_division_equations; lia).
  simpl. destruct software; simpl.
  - rewrite (proj2 (Z.ltb_ge level cpl)) by auto. f_equal. lia.
  - f_equal. lia.
Qed.

Lemma take_closed idt v d :
  idt !! Z.to_nat v = Some d -> closed d -> take_vector true 3 idt v = None.
Proof.
  intros H Hc. unfold take_vector. rewrite H. destruct Hc as [->|[h ->]]; [done|].
  unfold gate_words, gate, fill_gate, SET_IDT_ENTRY. cbn [offset_15_00 offset_31_16 seg_selector reserved4
    reserved3 reserved2 reserved1 gate_size reserved0 dpl gate_present].
  match goal with |- context [?w / 2 ^ 13] => set (x := w) end.
  assert ((x / 2 ^ 13) mod 4 = 0) as -> by (subst x; simpl; Z.to_euclidean_division_equations; lia).
  do 3 (match goal with |- (if ?b then _ else _) = _ => destruct b; [done|] end). done.
Qed.

(** ** The properties of the table *)

Section Table.
Context (addr_of : handler -> Z) (vects_behind handlers_behind : list Z).
Hypothesis Haddr : forall h, 0 <= addr_of h < 2 ^ 32.
Hypothesis Hlen : length vects_behind = 12%nat /\ length handlers_behind = 12%nat.

(** What the two loops and the last entry leave. *)
Definition filled (idt : list idt_desc) : list idt_desc :=
  let idt := foldl (put_gate 0) idt (zip exc_vect (addr_of <$> exc_handlers)) in
  let idt := foldl (put_gate 0) idt (zip int_vect (addr_of <$> int_handlers)) in
  let idt := foldl (put_gate 0) idt (zip vects_behind handlers_behind) in
  put_gate 3 idt (SYS_CALL, addr_of H_SYS).

Lemma vectors_ok : Forall vector_ok (exc_vect ++ int_vect).
Proof. repeat constructor; done. Qed.

Lemma vectors_distinct : NoDup (exc_vect ++ int_vect ++ [SYS_CALL]).
Proof. apply (bool_decide_unpack _). by vm_compute. Qed.

Lemma init_terminals_ok ter :
  length (terminals ter) = 3%nat ->
  init_terminals ter = Ok (set_curr_ter 0 (set_terminals
    ((fun t => set_prog_curr_pid (-1) (set_prog_par_pid (-1) (set_buf_len 0 t))) <$> terminals ter) ter)).
Proof. intros H. unfold init_terminals. by destruct (terminals ter) as [|? [|? [|? [|]]]]. Qed.

Lemma init_idt_spec idt ter :
  length idt = 256%nat -> Forall vector_ok vects_behind -> length (terminals ter) = 3%nat ->
  exists ter', init_terminals ter = Ok ter' /\
    init_idt addr_of vects_behind handlers_behind idt ter = Ok (filled idt, ter').
Proof.
  intros Hi Hv Ht. rewrite (init_terminals_ok ter Ht). eexists. split; [done|]. unfold init_idt.
  pose proof vectors_ok as [H1 H2]%Forall_app.
  change NUM_EXCEPTIONS with (Z.of_nat 20). rewrite fill_loop_spec by done. rewrite Ok_bind.
  change NUM_INTERRUPTS with (Z.of_nat 16).
  rewrite fill_loop_spec; [|rewrite length_app; simpl; lia|rewrite length_app; simpl; lia
    |by apply Forall_app|by rewrite put_gates_length].
  rewrite Ok_bind, upd_idt_ok; [|done|by rewrite !put_gates_length].
  rewrite Ok_bind, (init_terminals_ok ter Ht), Ok_bind. unfold filled. do 3 f_equal.
Qed.

(** The vectors below the system call, with the addresses of their handlers. *)
Definition kernel_gates : list (Z * Z) :=
  (fun e => (e.1, addr_of e.2)) <$> (zip exc_vect exc_handlers ++ zip int_vect int_handlers).

Lemma kernel_gates_vectors : kernel_gates.*1 = exc_vect ++ int_vect.
Proof. done. Qed.

(** The gate of a vector of the table, when the words behind the arrays are
    other vectors. *)
Lemma filled_at idt v h :
  length idt = 256%nat -> Forall vector_ok vects_behind ->
  (v, h) ∈ vector_table -> v ∉ vects_behind ->
  filled idt !! Z.to_nat v = Some (gate (if v =? SYS_CALL then 3 else 0) (addr_of h)).
Proof.
  intros Hi Hv Hin Hn.
  change (filled idt) with (put_gate 3 (foldl (put_gate 0) (foldl (put_gate 0) idt kernel_gates)
    (zip vects_behind handlers_behind)) (SYS_CALL, addr_of H_SYS)).
  pose proof vectors_distinct as Hd. rewrite app_assoc in Hd. apply NoDup_app in Hd as (D1 & D2 & _).
  apply vector_table_pairs in Hin. unfold filled_pairs in Hin. rewrite app_assoc in Hin. apply elem_of_app in Hin as [Hin|Hin].
  - assert (v ∈ exc_vect ++ int_vect) as Hve.
    { rewrite <- kernel_gates_vectors. unfold kernel_gates. rewrite <- list_fmap_compose.
      exact (list_elem_of_fmap_2 (fst ∘ (fun e => (e.1, addr_of e.2))) _ (v, h) Hin). }
    pose proof (proj1 (list.Forall_forall _ _) vectors_ok v Hve) as Hr. unfold vector_ok in Hr.
    assert (v <> SYS_CALL) as Hs by (intros ->; apply (D2 _ Hve); by left).
    rewrite (proj2 (Z.eqb_neq v SYS_CALL)) by done.
    unfold put_gate at 1. rewrite list_lookup_insert_ne by (unfold SYS_CALL in *; simpl; lia).
    rewrite put_gates_other; rewrite ?fst_zip by lia; [|lia|done|done].
    apply put_gates_at; rewrite ?kernel_gates_vectors; auto using vectors_ok.
    exact (list_elem_of_fmap_2 (fun e => (e.1, addr_of e.2)) _ (v, h) Hin).
  - apply list_elem_of_singleton in Hin as [= -> ->]. unfold put_gate at 1.
    apply list_lookup_insert_eq. rewrite !put_gates_length, Hi. apply Nat.ltb_lt. reflexivity.
Qed.

Lemma filled_closed idt v :
  Forall closed idt -> v <> SYS_CALL -> 0 <= v < NUM_VEC -> length idt = 256%nat ->
  exists d, filled idt !! Z.to_nat v = Some d /\ closed d.
Proof.
  intros Hc Hne Hv Hi. unfold filled, NUM_VEC in *. set (I3 := foldl _ _ (zip vects_behind _)).
  assert (Forall closed I3) as H3 by (unfold I3; by repeat apply put_gates_closed).
  destruct (lookup_lt_is_Some_2 I3 (Z.to_nat v)) as [d Hd].
  { unfold I3. rewrite !put_gates_length. lia. }
  exists d. split; [|by apply (Forall_lookup_1 _ _ _ _ H3 Hd)].
  unfold put_gate. rewrite list_lookup_insert_ne; [done|]. unfold SYS_CALL in *. simpl. lia.
Qed.

(** A vector nothing was stored for. *)
Lemma filled_empty idt v :
  Forall vector_ok vects_behind -> 0 <= v < NUM_VEC -> v ∉ vector_table.*1 -> v ∉ vects_behind ->
  filled idt !! Z.to_nat v = idt !! Z.to_nat v.
Proof.
  intros Hok Hv Hn Hb. assert (v ∉ exc_vect ++ int_vect ++ [SYS_CALL]) as Hn'.
  { intros Hin. apply Hn. assert (vector_table.*1 ≡ₚ exc_vect ++ int_vect ++ [SYS_CALL]) as ->; [|done].
    apply (bool_decide_unpack _). by vm_compute. }
  rewrite !elem_of_app, list_elem_of_singleton in Hn'. unfold filled, put_gate at 1.
  rewrite list_lookup_insert_ne by (unfold SYS_CALL in *; simpl; lia).
  pose proof vectors_ok as [V1 V2]%Forall_app.
  rewrite !put_gates_other; rewrite ?fst_zip by (simpl; lia); auto; lia || tauto.
Qed.

(** The processor takes the vectors of the table to their handlers. *)
Lemma filled_takes idt v h cpl :
  length idt = 256%nat -> Forall vector_ok vects_behind -> (v, h) ∈ vector_table -> v ∉ vects_behind ->
  take_vector false cpl (filled idt) v = Some (addr_of h).
Proof.
  intros Hi Hv Hin Hn. eapply take_gate; [by apply filled_at|done| |done]. by destruct (v =? SYS_CALL).
Qed.
End Table.

Section IdtClaims.

(** (C22) [init_idt] on the empty table: when the words it reads behind its arrays
    are vectors, it returns, and the processor takes every exception, the
    non-maskable interrupt, the keyboard, the clock, the timer and the system call,
    numbered as the processor and the interrupt controllers number them, to their
    handlers, at any privilege, unless one of those words is its number; a vector that is
    neither in this list nor among those words leads nowhere.  A user program's [int]
    instruction reaches the kernel through vector 0x80 only, whatever those words were.
    Every terminal starts without a program. *)
Theorem idt_dispatches addr_of vects_behind handlers_behind ter :
  (forall h, 0 <= addr_of h < 2 ^ 32) ->
  length vects_behind = 12%nat -> length handlers_behind = 12%nat ->
  Forall vector_ok vects_behind -> length (terminals ter) = 3%nat ->
  exists idt ter', init_idt addr_of vects_behind handlers_behind (replicate 256 zero_desc) ter = Ok (idt, ter') /\
    (forall v h cpl, (v, h) ∈ vector_table -> v ∉ vects_behind -> take_vector false cpl idt v = Some (addr_of h)) /\
    (forall v cpl, 0 <= v < NUM_VEC -> v ∉ vector_table.*1 -> v ∉ vects_behind -> take_vector false cpl idt v = None) /\
    take_vector true 3 idt SYS_CALL = Some (addr_of H_SYS) /\
    (forall v, 0 <= v < NUM_VEC -> v <> SYS_CALL -> take_vector true 3 idt v = None) /\
    Forall (fun t => prog_curr_pid t = -1 /\ prog_par_pid t = -1 /\ buf_len t = 0) (terminals ter') /\
    curr_ter ter' = 0.
Proof.
  intros Ha Hl1 Hl2 Hv Ht.
  destruct (init_idt_spec addr_of vects_behind handlers_behind (conj Hl1 Hl2) (replicate 256 zero_desc) ter)
    as (ter' & Et & E); [by rewrite length_replicate|done|done|].
  exists (filled addr_of vects_behind handlers_behind (replicate 256 zero_desc)), ter'. split; [done|].
  split; [|split; [|split; [|split]]].
  - intros v h cpl Hin Hn. apply filled_takes; auto.
  - intros v cpl Hr Hn Hb. unfold take_vector.
    rewrite (filled_empty addr_of vects_behind handlers_behind (conj Hl1 Hl2)), lookup_replicate_2 by
      (done || (unfold NUM_VEC in Hr; lia)). done.
  - eapply (take_gate true 3 _ SYS_CALL 3); [|done|lia|done].
    apply list_lookup_insert_eq. rewrite !put_gates_length, length_replicate. apply Nat.ltb_lt. reflexivity.
  - intros v Hr Hne. destruct (filled_closed addr_of vects_behind handlers_behind (conj Hl1 Hl2) (replicate 256 zero_desc) v)
      as (d & Hd & Hc); [apply Forall_replicate; by left|done|done|by rewrite length_replicate|].
    by apply (take_closed _ v d).
  - rewrite (init_terminals_ok ter Ht) in Et. injection Et as <-. split; [|done]. simpl.
    apply Forall_fmap, Forall_true. done.
Qed.

(** A word behind the array that is no vector: the loop stores outside the table. *)
Lemma init_idt_overruns addr_of v vects_behind h handlers_behind ter :
  ~ vector_ok v ->
  init_idt addr_of (v :: vects_behind) (h :: handlers_behind) (replicate 256 zero_desc) ter = Err (OutOfBounds v).
Proof.
  intros Hv. unfold init_idt. pose proof vectors_ok as [H1 H2]%Forall_app.
  change NUM_EXCEPTIONS with (Z.of_nat 20). rewrite fill_loop_spec by (done || by rewrite length_replicate).
  rewrite Ok_bind. set (I1 := foldl _ _ _).
  assert (length I1 = 256%nat) as L1 by (unfold I1; by rewrite put_gates_length, length_replicate).
  clearbody I1. unfold fill_loop.
  do 4 (erewrite fill_step by (done || reflexivity); rewrite upd_idt_ok, Ok_bind by
    (done || (unfold put_gate; by rewrite ?length_insert))).
  erewrite fill_step by (done || reflexivity). unfold upd_idt. rewrite arr_get_oob; [done|].
  unfold put_gate. rewrite !length_insert. unfold vector_ok, NUM_VEC in Hv. lia.
Qed.
End IdtClaims.
