(* ===== verification/Command.v ===== *)
(** * The command line of [sys_execute]

    What the two parsing loops of [sys_execute] make of the bytes of a command:
    the name is what stands before the first space or newline among the first 32
    bytes, the argument is the word behind that space.  The first loop does not look
    for the terminator, so bytes behind it take part. *)

From stdpp Require Import base gmap list numbers.
From Stdlib Require Import ZArith Lia.
From S2P Require Import Prelude Pointers Ports Pic Paging State Machine CString MemFns VirtMem.
From S2P Require Import Pcb FileSystem Syscalls Process.

(** The bytes before the first one that [stop] holds of. *)
Fixpoint until (stop : Z -> bool) (l : list Z) : list Z :=
  match l with
  | [] => []
  | c :: l => if stop c then [] else c :: until stop l
  end.

Definition ends_name (c : Z) : bool := (c =? 32) || (c =? 10).
Definition ends_arg (c : Z) : bool := (c =? 10) || (c =? 0) || (c =? 32).

(** The bytes of the name, whether an argument follows, and the argument. *)
Definition cmd_name (l : list Z) : list Z := until ends_name (take 32 l).
Definition cmd_have_args (l : list Z) : bool :=
  bool_decide (take 32 l !! length (cmd_name l) = Some 32).
Definition cmd_arg (l : list Z) : list Z :=
  if cmd_have_args l
  then until ends_arg (take (127 - length (cmd_name l)) (drop (S (length (cmd_name l))) l))
  else [].

Section Until.
Context (stop : Z -> bool).

Lemma until_length l : (length (until stop l) <= length l)%nat.
Proof. induction l as [|c l IH]; simpl; [lia|]. destruct (stop c); simpl; lia. Qed.

Lemma until_lookup l i c : until stop l !! i = Some c -> l !! i = Some c /\ stop c = false.
Proof.
  revert i. induction l as [|d l IH]; intros i H; simpl in *; [done|].
  destruct (stop d) eqn:E; [done|]. destruct i; simpl in *; [by simplify_eq|auto].
Qed.

Lemma until_end l c : l !! length (until stop l) = Some c -> stop c = true.
Proof.
  induction l as [|d l IH]; simpl; [done|]. destruct (stop d) eqn:E; simpl; [by intros [= <-]|done].
Qed.

Lemma until_Forall l : Forall (fun c => stop c = false) (until stop l).
Proof. apply Forall_lookup. intros i c H. by apply until_lookup in H as []. Qed.

Lemma Forall_until (P : Z -> Prop) l : Forall P l -> Forall P (until stop l).
Proof. induction 1 as [|c l Hc _ IH]; simpl; [done|]. destruct (stop c); by constructor. Qed.
End Until.

(** An array into which the characters [w] were put, each followed by a zero. *)
Definition collected (w arr : list Z) : list Z :=
  match w with [] => arr | _ => w ++ 0 :: drop (S (length w)) arr end.

Lemma collected_length w arr : (length w < length arr)%nat -> length (collected w arr) = length arr.
Proof.
  intros H. destruct w as [|c w]; [done|]. unfold collected. rewrite length_app. cbn [length].
  rewrite length_drop. simpl in *. lia.
Qed.

Lemma collected_snoc w c arr :
  (length w + 1 < length arr)%nat ->
  <[(length w + 1)%nat := 0]> (<[length w := c]> (collected w arr)) = collected (w ++ [c]) arr.
Proof.
  intros H. assert (forall u, length u = length w -> forall d e,
    <[(length w + 1)%nat := 0]> (<[length w := c]> (u ++ d :: e :: drop (S (S (length w))) arr)) =
    u ++ c :: 0 :: drop (S (S (length w))) arr) as G.
  { intros u <- d e. rewrite insert_app_r_alt, Nat.sub_diag by lia. simpl.
    rewrite insert_app_r_alt by lia. by replace (length u + 1 - length u)%nat with 1%nat by lia. }
  destruct (lookup_lt_is_Some_2 arr (length w)) as [x Hx]; [lia|].
  destruct (lookup_lt_is_Some_2 arr (S (length w))) as [y Hy]; [lia|].
  assert (collected (w ++ [c]) arr = w ++ c :: 0 :: drop (S (S (length w))) arr) as ->.
  { unfold collected. destruct w; [done|]. simpl. rewrite length_app, <- app_assoc. simpl.
    by rewrite Nat.add_1_r. }
  destruct w as [|a w].
  - simpl in *. destruct arr as [|? [|? ?]]; simpl in *; lia || done.
  - unfold collected. rewrite (drop_S arr y) by done. by apply (G (a :: w)).
Qed.

(** A loop that collects the characters [w] and ends with [r]. *)
Lemma collect_runs {R} (f : Z * list Z -> res (Z * list Z + R)) (base : Z) (w arr : list Z) r :
  (length w < length arr)%nat ->
  (forall (j : nat) c a, w !! j = Some c -> length a = length arr ->
    f (base + Z.of_nat j, a) =
      Ok (inl (base + Z.of_nat j + 1, <[(j + 1)%nat := 0]> (<[j := c]> a)))) ->
  f (base + Z.of_nat (length w), collected w arr) = Ok (inr r) ->
  runs f (base, arr) (length w) (Ok r).
Proof.
  intros Hl Hstep Hend.
  assert (forall n (j : nat), (j + n = length w)%nat ->
    runs f (base + Z.of_nat j, collected (take j w) arr) n (Ok r)) as G.
  { induction n as [|n IH]; intros j Hj.
    - replace j with (length w) by lia. rewrite take_ge by lia. by constructor.
    - destruct (lookup_lt_is_Some_2 w j) as [c Hc]; [lia|].
      assert (length (take j w) = j) as Ht by (rewrite length_take; lia).
      eapply runs_step; [apply (Hstep j c); [done|apply collected_length; lia]|].
      rewrite <- Ht at 2 3. rewrite collected_snoc by lia. rewrite <- (take_S_r w j c Hc).
      replace (base + Z.of_nat j + 1) with (base + Z.of_nat (S j)) by lia. apply IH. lia. }
  specialize (G (length w) 0%nat ltac:(lia)). simpl in G. by rewrite Z.add_0_r in G.
Qed.

Section Parse.
Context `{L : Layout} (J : locals).
Context (command : ptr kernel) (k : kernel) (l : list Z).
Hypothesis Hh : holds command k l.

(** The part of memory the name loop looks at. *)
Definition name_ends : Prop :=
  (32 <= length l)%nat \/ (length (cmd_name l) < length l)%nat.

Lemma name_byte (j : nat) c : cmd_name l !! j = Some c ->
  (j < 32)%nat /\ load command k (Z.of_nat j) = Ok c /\ c <> 32 /\ c <> 10.
Proof.
  intros H. apply until_lookup in H as [H Hs]. apply lookup_take_Some in H as [H Hj].
  split; [done|]. split; [by apply Hh|]. unfold ends_name in Hs. lia.
Qed.

Lemma cmd_name_length : (length (cmd_name l) <= 32)%nat.
Proof. pose proof (until_length ends_name (take 32 l)) as H. rewrite length_take in H. unfold cmd_name. lia. Qed.

Lemma parse_name_spec :
  name_ends -> length (j_name J) = 33%nat ->
  parse_name J command k =
    Ok (Z.of_nat (length (cmd_name l)), cmd_have_args l, collected (cmd_name l) (j_name J)).
Proof.
  intros He HJ. pose proof cmd_name_length as Hn. unfold parse_name.
  apply (loop_runs_Z _ _ _ (length (cmd_name l))); [|unfold FUEL; lia].
  apply (collect_runs _ 0); [lia| |]; rewrite ?Z.add_0_l.
  - intros j c a Hc Ha. destruct (name_byte j c Hc) as (Hj & E & Hs & Hnl). rewrite Z.add_0_l.
    unfold name_step, MAX_CMD_LEN. rewrite (proj2 (Z.ltb_lt _ _)) by lia. rewrite E, Ok_bind.
    rewrite (proj2 (Z.eqb_neq c 32)), (proj2 (Z.eqb_neq c 10)) by done.
    rewrite arr_set_ok, Ok_bind by lia. rewrite arr_set_ok, Ok_bind by (rewrite length_insert; lia).
    rewrite Nat2Z.id. by replace (Z.to_nat (Z.of_nat j + 1)) with (j + 1)%nat by lia.
  - unfold name_step, MAX_CMD_LEN, cmd_have_args.
    destruct (Z.ltb_spec (Z.of_nat (length (cmd_name l))) 32) as [Hlt|Hge].
    + assert (length (cmd_name l) < length l)%nat as Hll by (destruct He; lia).
      destruct (lookup_lt_is_Some_2 l _ Hll) as [c Hc].
      assert (take 32 l !! length (cmd_name l) = Some c) as Hc' by (rewrite lookup_take_lt by lia; done).
      rewrite (Hh _ _ Hc), Ok_bind, Hc'. pose proof (until_end ends_name _ _ Hc') as Hs.
      unfold ends_name in Hs. destruct (Z.eqb_spec c 32) as [->|Hne].
      * by rewrite bool_decide_eq_true_2.
      * rewrite bool_decide_eq_false_2 by congruence. by rewrite orb_false_l in Hs; rewrite Hs.
    + rewrite bool_decide_eq_false_2; [done|]. rewrite lookup_take_ge by lia. done.
Qed.

(** The part of memory the argument loop looks at. *)
Definition arg_ends : Prop :=
  cmd_have_args l = true -> (128 <= length l)%nat \/
    (S (length (cmd_name l)) + length (cmd_arg l) < length l)%nat.

Lemma cmd_arg_length : (length (cmd_arg l) <= 127)%nat.
Proof.
  unfold cmd_arg. destruct (cmd_have_args l); simpl; [|lia].
  etrans; [apply until_length|]. rewrite length_take. lia.
Qed.

Lemma parse_args_spec :
  arg_ends -> length (j_args J) = 128%nat ->
  parse_args J command k (Z.of_nat (length (cmd_name l))) (cmd_have_args l) =
    Ok (collected (cmd_arg l) (<[0%nat := 0]> (j_args J))).
Proof.
  intros He HJ. pose proof cmd_name_length as Hn. unfold parse_args.
  rewrite arr_set_ok by lia. rewrite Ok_bind. change (Z.to_nat 0) with 0%nat.
  destruct (cmd_have_args l) eqn:Eh; [|by unfold cmd_arg; rewrite Eh].
  set (n := length (cmd_name l)) in *. set (arr := <[0%nat := 0]> (j_args J)).
  assert (length arr = 128%nat) as Ha by (unfold arr; by rewrite length_insert).
  assert (cmd_arg l = until ends_arg (take (127 - n) (drop (S n) l))) as Ew by (unfold cmd_arg; by rewrite Eh).
  assert (length (cmd_arg l) <= 127 - n)%nat as Hw.
  { rewrite Ew. etrans; [apply until_length|]. rewrite length_take. lia. }
  replace (Z.of_nat n + 1) with (Z.of_nat (S n)) by lia.
  apply (loop_runs_Z _ _ _ (length (cmd_arg l))); [|unfold FUEL; lia].
  apply collect_runs; [lia| |].
  - intros j c a Hc Hla. assert (j < length (cmd_arg l))%nat as Hj by by eapply lookup_lt_Some.
    rewrite Ew in Hc. apply until_lookup in Hc as [Hc Hs].
    apply lookup_take_Some in Hc as [Hc _]. rewrite lookup_drop in Hc.
    unfold args_step, MAX_ARG_LEN. rewrite (proj2 (Z.ltb_lt _ _)) by lia.
    rewrite <- Nat2Z.inj_add, (Hh _ _ Hc), Ok_bind. unfold ends_arg in Hs. rewrite Hs.
    replace (Z.of_nat (S n + j) - Z.of_nat (S n)) with (Z.of_nat j) by lia.
    rewrite arr_set_ok, Ok_bind by lia. rewrite arr_set_ok, Ok_bind by (rewrite length_insert; lia).
    rewrite Nat2Z.id. by replace (Z.to_nat (Z.of_nat j + 1)) with (j + 1)%nat by lia.
  - unfold args_step, MAX_ARG_LEN. rewrite <- Nat2Z.inj_add.
    destruct (Z.ltb_spec (Z.of_nat (S n + length (cmd_arg l))) 128) as [Hlt|Hge]; [|done].
    assert (S n + length (cmd_arg l) < length l)%nat as Hll by (destruct (He Eh); lia).
    destruct (lookup_lt_is_Some_2 l _ Hll) as [c Hc]. rewrite (Hh _ _ Hc), Ok_bind.
    assert (ends_arg c = true) as Hs.
    { apply (until_end ends_arg (take (127 - n) (drop (S n) l))). rewrite <- Ew.
      rewrite lookup_take_lt, lookup_drop by lia. done. }
    unfold ends_arg in Hs. by rewrite Hs.
Qed.

(** The name, read as a C string from the array the loop filled. *)
Lemma collected_name :
  cmd_name l <> [] -> length (j_name J) = 33%nat ->
  exists rest, collected (cmd_name l) (j_name J) = c_str (cmd_name l) ++ 0 :: rest.
Proof.
  intros Hne HJ. generalize dependent (cmd_name l). intros w Hne.
  assert (collected w (j_name J) = w ++ 0 :: drop (S (length w)) (j_name J)) as -> by by destruct w.
  generalize (drop (S (length w)) (j_name J)). intros r.
  destruct (c_str_prefix w) as (tl & Et & [->|[t ->]]).
  - exists r. by rewrite app_nil_r in Et; rewrite <- Et.
  - exists (t ++ 0 :: r). change (0 :: t ++ 0 :: r) with ((0 :: t) ++ 0 :: r).
    by rewrite app_assoc, <- Et.
Qed.

(** The argument, likewise; it has no terminator inside. *)
Lemma collected_arg :
  length (j_args J) = 128%nat ->
  exists rest, collected (cmd_arg l) (<[0%nat := 0]> (j_args J)) = cmd_arg l ++ 0 :: rest.
Proof.
  intros HJ. unfold collected. destruct (cmd_arg l) as [|a w]; [|by eauto].
  destruct (j_args J) as [|b r]; [done|]. simpl. eauto.
Qed.

Lemma cmd_arg_nonzero : Forall (fun c => c <> 0) (cmd_arg l).
Proof.
  unfold cmd_arg. destruct (cmd_have_args l); [|done].
  apply Forall_lookup. intros i c Hc. apply until_lookup in Hc as [_ Hs]. unfold ends_arg in Hs. lia.
Qed.

Lemma cmd_name_bytes : Forall is_byte l -> Forall (fun b => is_byte b /\ b <> 0) (c_str (cmd_name l)).
Proof.
  intros Hb. apply Forall_lookup. intros i c H. apply c_str_lookup in H as [H Hz].
  split; [|done]. apply until_lookup in H as [H _]. apply lookup_take_Some in H as [H _].
  by apply (Forall_lookup_1 _ _ _ _ Hb H).
Qed.
End Parse.
