(* ===== verification/Descriptors.v ===== *)
(** * File descriptors

    [sys_open], [sys_close], [sys_read] and [sys_write] over the descriptor table
    of the running process.  The table is the list [fdt] of its block; the
    theorems say which descriptor a call allocates, changes or frees and that the
    others keep their state, and follow a file from its name to its bytes. *)

From stdpp Require Import base gmap list numbers strings.
From Stdlib Require Import ZArith Lia.
From S2P Require Import Prelude Pointers Ports Pic Paging State Machine VirtMem CString MemFns.
From S2P Require Import Pcb Demo Screen Printf FileSystem Rtc Keyboard Terminal Syscalls.

(** The running process is the one whose block [b] is at [p]. *)
Definition running_pcb (k : kernel) (p : Z) (b : pcb) : Prop :=
  Z.land (r_esp (k_cpu k)) PCB_8KB_MASK = p /\ pcbs (k_proc k) !! p = Some b.

(** The kernel with the descriptor table [T] in that block. *)
Definition with_fdt (k : kernel) (p : Z) (b : pcb) (T : list fdt_entry) : kernel :=
  set_k_proc (set_pcbs (<[p := set_fdt T b]> (pcbs (k_proc k))) (k_proc k)) k.

(** The lowest free descriptor from 2 on. *)
Definition free_fd (T : list fdt_entry) : option nat :=
  (fun r => 2 + r.1)%nat <$> list_find (fun e => enabled e = 0) (drop 2 T).

(** Descriptors in use have an operations table. *)
Definition fdt_ok (T : list fdt_entry) : Prop :=
  length T = 8%nat /\ Forall (fun e => enabled e <> 0 -> fot_ptr e <> None) T.

Section Tables.
Context `{L : Layout}.

Lemma running_curr k p b : running_pcb k p b -> get_curr_pcb k = Ok (p, k).
Proof. by intros [<- _]. Qed.

Lemma running_fd k p b fd e :
  running_pcb k p b -> 0 <= fd -> fdt b !! Z.to_nat fd = Some e -> fd_is k p fd b e.
Proof. by intros []. Qed.

Lemma running_with_fdt k p b T :
  running_pcb k p b -> running_pcb (with_fdt k p b T) p (set_fdt T b).
Proof. intros []. split; [done|]. simpl. by rewrite lookup_insert_eq. Qed.

Lemma with_fdt_with k p b T T' :
  with_fdt (with_fdt k p b T) p (set_fdt T b) T' = with_fdt k p b T'.
Proof. unfold with_fdt. simpl. by rewrite insert_insert_eq. Qed.

Lemma with_fdt_id k p b : running_pcb k p b -> with_fdt k p b (fdt b) = k.
Proof.
  intros [_ H]. unfold with_fdt. replace (set_fdt (fdt b) b) with b by by destruct b.
  rewrite insert_id by done. by destruct k as [????????[]].
Qed.

Lemma get_fdt_at k p b fd e :
  running_pcb k p b -> 0 <= fd -> fdt b !! Z.to_nat fd = Some e -> get_fdt p fd k = Ok (e, k).
Proof. intros. by eapply get_fdt_ok, running_fd. Qed.

Lemma upd_fdt_at k p b fd e f :
  running_pcb k p b -> 0 <= fd -> fdt b !! Z.to_nat fd = Some e ->
  upd_fdt p fd f k = Ok (tt, with_fdt k p b (<[Z.to_nat fd := f e]> (fdt b))).
Proof. intros. by rewrite (upd_fdt_ok k p fd b e) by by apply running_fd. Qed.

(** One more update of a table that was already changed. *)
Lemma upd_fdt_again k p b T fd e f :
  running_pcb k p b -> 0 <= fd -> T !! Z.to_nat fd = Some e ->
  upd_fdt p fd f (with_fdt k p b T) = Ok (tt, with_fdt k p b (<[Z.to_nat fd := f e]> T)).
Proof.
  intros H Hfd He. rewrite (upd_fdt_at _ p (set_fdt T b) fd e);
    [|by apply running_with_fdt|done|done]. by rewrite with_fdt_with.
Qed.

(** An update of the entry that was changed last. *)
Lemma upd_fdt_same k p b T (fd : nat) e f :
  running_pcb k p b -> (fd < length T)%nat ->
  upd_fdt p (Z.of_nat fd) f (with_fdt k p b (<[fd := e]> T)) =
    Ok (tt, with_fdt k p b (<[fd := f e]> T)).
Proof.
  intros H Hfd. rewrite (upd_fdt_again k p b _ _ e) by (try rewrite Nat2Z.id;
    (done || lia || by apply list_lookup_insert_eq)).
  by rewrite Nat2Z.id, list_insert_insert_eq.
Qed.

Lemma get_fdt_same k p b T (fd : nat) e :
  running_pcb k p b -> (fd < length T)%nat ->
  get_fdt p (Z.of_nat fd) (with_fdt k p b (<[fd := e]> T)) = Ok (e, with_fdt k p b (<[fd := e]> T)).
Proof.
  intros H Hfd. apply (get_fdt_at _ p (set_fdt (<[fd := e]> T) b));
    [by apply running_with_fdt|lia|]. rewrite Nat2Z.id. by apply list_lookup_insert_eq.
Qed.

Lemma std_loop k p b T :
  running_pcb k p b -> (2 <= length T)%nat ->
  kfor 0 2 (fun i => upd_fdt p i (fun _ => std_entry i)) (with_fdt k p b T) =
    Ok (tt, with_fdt k p b (<[1%nat := std_entry 1]> (<[0%nat := std_entry 0]> T))).
Proof.
  intros H Hl. unfold kfor, for_range. change (Z.to_nat (2 - 0)) with 2%nat. cbn [for_nat].
  destruct (lookup_lt_is_Some_2 T 0) as [e0 He0]; [lia|].
  destruct (lookup_lt_is_Some_2 T 1) as [e1 He1]; [lia|].
  rewrite (upd_fdt_again k p b T 0 e0) by done. rewrite !Ok_bind. cbn [snd].
  rewrite (upd_fdt_again k p b _ 1 e1) by (done || by rewrite list_lookup_insert_ne).
  by rewrite !Ok_bind.
Qed.

Lemma get_fdt_again k p b T fd e :
  running_pcb k p b -> 0 <= fd -> T !! Z.to_nat fd = Some e ->
  get_fdt p fd (with_fdt k p b T) = Ok (e, with_fdt k p b T).
Proof. intros H Hfd He. by apply (get_fdt_at _ p (set_fdt T b)); [by apply running_with_fdt|..]. Qed.

Lemma find_fd_spec (n i : nat) k p b :
  running_pcb k p b -> (i + n = length (fdt b))%nat ->
  find_fd n (Z.of_nat i) k =
    Ok (match list_find (fun e => enabled e = 0) (drop i (fdt b)) with
        | Some (j, _) => Z.of_nat (i + j) | None => ERROR end, k).
Proof.
  intros H. revert i. induction n as [|n IH]; intros i Hl; cbn [find_fd].
  - by rewrite drop_ge by lia.
  - destruct (lookup_lt_is_Some_2 (fdt b) i) as [e He]; [lia|].
    kstep (running_curr k p b H).
    rewrite (K_bind_Ok _ _ _ _ _ (get_fdt_at k p b (Z.of_nat i) e H ltac:(lia)
      ltac:(by rewrite Nat2Z.id))). cbv beta.
    rewrite (drop_S _ _ _ He). cbn [list_find]. destruct (Z.eqb_spec (enabled e) 0).
    + rewrite decide_True by done. by rewrite Nat.add_0_r.
    + rewrite decide_False by done. replace (Z.of_nat i + 1) with (Z.of_nat (S i)) by lia.
      rewrite IH by lia. do 2 f_equal.
      destruct (list_find _ (drop (S i) (fdt b))) as [[j x]|]; simpl; [lia|done].
Qed.

(** [get_new_fd] is the lowest free descriptor. *)
Lemma get_new_fd_spec k p b :
  running_pcb k p b -> length (fdt b) = 8%nat ->
  get_new_fd k = Ok (match free_fd (fdt b) with Some i => Z.of_nat i | None => ERROR end, k).
Proof.
  intros H Hl. unfold get_new_fd, FDT_SIZE. change (Z.to_nat (8 - 2)) with 6%nat.
  change 2 with (Z.of_nat 2) at 1. rewrite (find_fd_spec 6 2 k p b H) by (rewrite Hl; done).
  unfold free_fd. by destruct (list_find _ _) as [[j x]|].
Qed.

Lemma free_fd_Some T i :
  length T = 8%nat -> free_fd T = Some i ->
  (2 <= i < 8)%nat /\ (exists e, T !! i = Some e /\ enabled e = 0) /\
  forall j e, (2 <= j < i)%nat -> T !! j = Some e -> enabled e <> 0.
Proof.
  intros Hl. unfold free_fd. destruct (list_find _ _) as [[j e]|] eqn:E; [|done].
  intros [= <-]. apply list_find_Some in E as (He & Hz & Hlt). rewrite lookup_drop in He.
  pose proof (lookup_lt_Some _ _ _ He). simpl. split; [lia|]. split; [by eauto|].
  intros j' e' Hj' He'. apply (Hlt (j' - 2)%nat e'); [|lia]. rewrite lookup_drop.
  by replace (2 + (j' - 2))%nat with j' by lia.
Qed.
End Tables.

(** ** Opening *)

Definition dentry_type (img : list Z) (i : Z) : Z :=
  from_le (take 4 (drop 32 (img_dentry img i))).
Definition dentry_inode (img : list Z) (i : Z) : Z :=
  from_le (take 4 (drop 36 (img_dentry img i))).

(** "rtc" *)
Definition rtc_name : list Z := [114; 116; 99].

(** The operations of a file of type [ty] opened by the name [l]: every prefix of
    "rtc" selects the clock. *)
Definition kind_of (l : list Z) (ty : Z) : fot :=
  if ty =? 1 then dir_fot
  else if bool_decide (l = take (length l) rtc_name) then rtc_fot else file_fot.

Definition opened_entry (img l : list Z) (i : Z) : fdt_entry :=
  {| fot_ptr := Some (kind_of l (dentry_type img i)); inode_idx := dentry_inode img i;
     file_position := 0; enabled := 1;
     is_data_file := if dentry_type img i =? 2 then 1 else 0 |}.

(** [sys_open] also writes the descriptors of the standard input and output. *)
Definition opened_table (T : list fdt_entry) (fd : nat) (e : fdt_entry) : list fdt_entry :=
  <[fd := e]> (<[1%nat := std_entry 1]> (<[0%nat := std_entry 0]> T)).

Lemma local32_ok (l : list Z) (off : nat) :
  (off + 4 <= length l)%nat -> local32 l (Z.of_nat off) = Ok (from_le (take 4 (drop off l))).
Proof.
  intros Hl. unfold local32, load32.
  assert (length (take 4 (drop off l)) = 4%nat) as H4 by (rewrite length_take, length_drop; lia).
  assert (holds (ptr_add (arr_ptr 0) (Z.of_nat off)) l (take 4 (drop off l))) as Hh.
  { intros i b Hi. simpl. apply lookup_take_Some in Hi as [Hi _]. rewrite lookup_drop in Hi.
    replace (Z.of_nat off + Z.of_nat i) with (Z.of_nat (off + i)) by lia. by apply arr_get_Some. }
  apply holds_load_list in Hh. rewrite H4 in Hh. by rewrite Hh.
Qed.

Section Opening.
Context `{L : Layout} (J : locals).
Context (img : list Z) (start ipa : Z).
Hypothesis W : image_wf img.
Hypothesis Hstart : 0 <= start /\ start + Z.of_nat (length img) < 2 ^ 32.
Hypothesis HJ : length (j_entry J) = 64%nat.

Lemma is_rtc_ok k filename l :
  holds (vptr filename) k (l ++ [0]) -> Forall (fun b => is_byte b /\ b <> 0) l ->
  Z.of_nat (length l) < 2 ^ 31 ->
  is_rtc filename k = Ok (bool_decide (l = take (length l) rtc_name)).
Proof.
  intros Hh Hb Hl. assert (Forall (fun b => b <> 0) l) as Hnz by (eapply Forall_impl; [exact Hb|by intros ? []]).
  assert (Forall is_byte l) as Hby by (eapply Forall_impl; [exact Hb|by intros ? []]).
  unfold is_rtc. rewrite (strlen_terminated _ k l) by (done || lia). rewrite Ok_bind.
  destruct (strncmp_spec (vptr filename) (lit_ptr 0 [114; 116; 99; 0]) k (l ++ [0]) [114; 116; 99; 0]
    (Z.of_nat (length l))) as (r & E & Hr); [done|intros i b Hi; by apply arr_get_Some| | |lia|].
  { left. rewrite length_app. lia. }
  { right. simpl. lia. }
  rewrite E, Ok_bind. apply strncmp_zero in Hr;
    [|by apply Forall_app; split; [|repeat constructor; unfold is_byte; lia]
     |repeat constructor; unfold is_byte; lia].
  rewrite c_str_app_nil, Nat2Z.id, take_ge in Hr by (done || lia).
  change (c_str [114; 116; 99; 0]) with rtc_name in Hr. f_equal.
  destruct (Z.eqb_spec r 0).
  - symmetry. apply bool_decide_eq_true. tauto.
  - symmetry. apply bool_decide_eq_false. tauto.
Qed.

(** The lookup of the name in the directory. *)
Lemma open_lookup k filename l sp :
  mounted img start ipa k -> holds (vptr filename) k (l ++ [0]) ->
  Forall (fun b => is_byte b /\ b <> 0) l -> Z.of_nat (length l) < 2 ^ 31 ->
  exists r d, read_dentry_by_name vptr1 (k_fs k) (vptr1 filename) (ptr_snd (arr_ptr sp)) (k, j_entry J)
      = Ok (r, (k, d)) /\
    ((exists i, r = 0 /\ 0 <= i < img_dentries img /\ dentry_name img i = l /\
        (forall j, 0 <= j < i -> dentry_name img j <> l) /\ d = img_dentry img i) \/
     (r = -1 /\ forall j, 0 <= j < img_dentries img -> dentry_name img j <> l)).
Proof.
  intros M Hh Hb Hl. pose proof (counts img start W Hstart) as (_ & _ & _ & Hnd).
  assert (Region (fun o => k_pg o.1 = k_pg k /\ 64 <= Z.of_nat (length o.2))
    (ptr_snd (S1 := kernel) (arr_ptr sp)) 64) as HR by
    exact (snd_region (fun k' => k_pg k' = k_pg k) _ _ _ (arr_region sp 64)).
  destruct (@read_dentry_by_name_image _ vptr1 vptr1_flat img start W Hstart
    (fun o => k_pg o.1 = k_pg k /\ 64 <= Z.of_nat (length o.2)) (ptr_snd (arr_ptr sp)) HR
    (snd_fst_separate _ _ _ _ _) (vptr1 filename) l (k, j_entry J)) as (r & [k' d] & E & Hr);
    [split; [done|simpl; lia]|intros j b Hj; exact (mounted_image _ _ _ k M j b Hj)
    |intros j b Hj; exact (Hh j b Hj)|done|done|].
  rewrite (mt_fs _ _ _ _ M). rewrite E. destruct Hr as [(i & -> & Hi & Hn & Hno & Es)|(-> & Eo & Hno)].
  - rewrite store_list_snd in Es. cbn [fst snd] in Es.
    pose proof (length_dentry img start W Hstart i ltac:(lia)) as Hdl.
    rewrite arr_store_list in Es by lia. rewrite Ok_bind in Es. injection Es as <- <-.
    eexists 0, _. split; [done|]. left. exists i. split; [done|]. split; [done|]. split; [done|].
    split; [done|]. change (Z.to_nat 0) with 0%nat. simpl. rewrite drop_ge by lia. by rewrite app_nil_r.
  - injection Eo as -> ->. eexists (-1), _. split; [done|]. by right.
Qed.

(** The name still stands in memory when the table has changed. *)
Lemma holds_with_fdt a k p b T bs : holds (vptr a) k bs -> holds (vptr a) (with_fdt k p b T) bs.
Proof. done. Qed.

(** [sys_open] up to the file's own [open]. *)
Lemma sys_open_found k p b filename l i fd :
  running_pcb k p b -> length (fdt b) = 8%nat -> mounted img start ipa k ->
  holds (vptr filename) k (l ++ [0]) -> Forall (fun b => is_byte b /\ b <> 0) l ->
  Z.of_nat (length l) < 2 ^ 31 ->
  0 <= i < img_dentries img -> dentry_name img i = l ->
  (forall j, 0 <= j < i -> dentry_name img j <> l) -> free_fd (fdt b) = Some fd ->
  sys_open J filename k =
    (r ← fot_open (kind_of l (dentry_type img i)) filename;
     if negb (r =? 0) then mret ERROR else mret (Z.of_nat fd))
      (with_fdt k p b (opened_table (fdt b) fd (opened_entry img l i))).
Proof.
  intros H HT M Hh Hb Hl Hi Hn Hno Hfree. unfold sys_open. kcbn.
  destruct (open_lookup k filename l (r_esp (k_cpu k)) M Hh Hb Hl) as (r & d & E & Hr).
  unfold mbind at 1, K_bind at 1. rewrite E, Ok_bind. cbn [fst snd].
  destruct Hr as [(i' & -> & Hi' & Hn' & Hno' & ->)|(_ & Hnone)]; [|by destruct (Hnone i Hi)].
  assert (i' = i) as ->.
  { destruct (Z.lt_trichotomy i i') as [Hlt|[?|Hlt]]; [|done|].
    - destruct (Hno' i); [lia|done].
    - destruct (Hno i'); [lia|done]. }
  change (0 =? ERROR) with false. cbv iota.
  kstep (get_new_fd_spec k p b H HT). rewrite Hfree.
  destruct (free_fd_Some _ _ HT Hfree) as (Hfd & (e0 & He0 & _) & _).
  rewrite (proj2 (Z.eqb_neq (Z.of_nat fd) ERROR)) by (unfold ERROR; lia).
  kstep (running_curr k p b H).
  rewrite (K_bind_Ok _ _ _ _ _ (upd_fdt_at k p b (Z.of_nat fd) e0 (set_enabled 1) H ltac:(lia)
    ltac:(by rewrite Nat2Z.id))). cbv beta. rewrite Nat2Z.id. set (T1 := <[fd := _]> (fdt b)).
  unfold mbind at 1, K_bind at 1. rewrite (is_rtc_ok _ filename l) by by try apply holds_with_fdt.
  rewrite Ok_bind. assert (length T1 = 8%nat) as HT1 by (unfold T1; by rewrite length_insert).
  kstep (std_loop k p b T1 H ltac:(lia)). set (T2 := <[1%nat := _]> _).
  pose proof (length_dentry img start W Hstart i ltac:(pose proof (counts img start W Hstart); lia)) as Hdl.
  change DENTRY_INODE_NUM with (Z.of_nat 36). rewrite (local32_ok _ 36) by lia. kcbn.
  change DENTRY_FILE_TYPE with (Z.of_nat 32). rewrite (local32_ok _ 32) by lia. kcbn.
  fold (dentry_inode img i). fold (dentry_type img i).
  set (Ts := <[1%nat := std_entry 1]> (<[0%nat := std_entry 0]> (fdt b))).
  assert (T2 = <[fd := set_enabled 1 e0]> Ts) as HT2.
  { unfold T2, T1, Ts. rewrite (list_insert_insert_ne _ 0 fd), (list_insert_insert_ne _ 1 fd) by lia. done. }
  rewrite HT2. assert (fd < length Ts)%nat as Hlt by (unfold Ts; rewrite !length_insert; lia).
  do 5 (erewrite K_bind_Ok by apply (upd_fdt_same k p b Ts fd _ _ H Hlt)).
  set (e1 := set_is_data_file _ _).
  assert (when (dentry_type img i =? 1) (upd_fdt p (Z.of_nat fd) (set_fot_ptr (Some dir_fot)))
      (with_fdt k p b (<[fd := e1]> Ts)) =
    Ok (tt, with_fdt k p b (<[fd := opened_entry img l i]> Ts))) as Ew.
  { unfold when, e1, opened_entry, kind_of. destruct (dentry_type img i =? 1); [|done].
    by rewrite (upd_fdt_same k p b Ts fd _ _ H Hlt). }
  kstep Ew. erewrite K_bind_Ok by apply (get_fdt_same k p b Ts fd _ H Hlt). cbv beta.
  unfold the_fot, opened_entry at 1. cbn [fot_ptr]. kcbn. done.
Qed.

(** [sys_open] of a name no entry carries, and with a full table. *)
Lemma sys_open_missing k p b filename l :
  running_pcb k p b -> mounted img start ipa k ->
  holds (vptr filename) k (l ++ [0]) -> Forall (fun b => is_byte b /\ b <> 0) l ->
  Z.of_nat (length l) < 2 ^ 31 -> (forall j, 0 <= j < img_dentries img -> dentry_name img j <> l) ->
  sys_open J filename k = Ok (ERROR, k).
Proof.
  intros H M Hh Hb Hl Hno. unfold sys_open. kcbn.
  destruct (open_lookup k filename l (r_esp (k_cpu k)) M Hh Hb Hl) as (r & d & E & Hr).
  unfold mbind at 1, K_bind at 1. rewrite E, Ok_bind. cbn [fst snd].
  destruct Hr as [(i & _ & Hi & Hn & _)|(-> & _)]; [by destruct (Hno i Hi)|done].
Qed.

Lemma sys_open_full k p b filename l :
  running_pcb k p b -> length (fdt b) = 8%nat -> mounted img start ipa k ->
  holds (vptr filename) k (l ++ [0]) -> Forall (fun b => is_byte b /\ b <> 0) l ->
  Z.of_nat (length l) < 2 ^ 31 -> free_fd (fdt b) = None ->
  sys_open J filename k = Ok (ERROR, k).
Proof.
  intros H HT M Hh Hb Hl Hfree. unfold sys_open. kcbn.
  destruct (open_lookup k filename l (r_esp (k_cpu k)) M Hh Hb Hl) as (r & d & E & _).
  unfold mbind at 1, K_bind at 1. rewrite E, Ok_bind. cbn [fst snd].
  destruct (r =? ERROR); [done|]. kstep (get_new_fd_spec k p b H HT). by rewrite Hfree.
Qed.
End Opening.

(** The first entry of the directory with the name [l]. *)
Definition find_name (img l : list Z) : option Z :=
  snd <$> list_find (fun i => dentry_name img i = l) (seqZ 0 (img_dentries img)).

Lemma find_name_Some img l i :
  find_name img l = Some i ->
  0 <= i < img_dentries img /\ dentry_name img i = l /\ forall j, 0 <= j < i -> dentry_name img j <> l.
Proof.
  unfold find_name. destruct (list_find _ _) as [[n x]|] eqn:E; [|done]. intros [= <-].
  apply list_find_Some in E as (Hx & Hn & Hlt). apply lookup_seqZ in Hx as [-> Hn']. simpl in *.
  split; [lia|]. split; [done|]. intros j Hj. apply (Hlt (Z.to_nat j)); [|lia].
  rewrite lookup_seqZ. lia.
Qed.

Lemma find_name_None img l :
  find_name img l = None -> forall j, 0 <= j < img_dentries img -> dentry_name img j <> l.
Proof.
  unfold find_name. destruct (list_find _ _) as [[n x]|] eqn:E; [done|]. intros _ j Hj.
  apply list_find_None in E. rewrite Forall_forall in E. apply E, elem_of_seqZ. lia.
Qed.

(** ** Closing and reading *)

Section Closing.
Context `{L : Layout} (J : locals).

(** A descriptor that is not open. *)
Lemma sys_close_error k p b fd :
  running_pcb k p b -> (fd < 2 \/ exists e, fdt b !! Z.to_nat fd = Some e /\ enabled e = 0) ->
  sys_close fd k = Ok (ERROR, k).
Proof.
  intros H Hfd. unfold sys_close. destruct (Z.ltb_spec fd 2); [done|].
  destruct Hfd as [?|(e & He & Hz)]; [lia|].
  kstep (running_curr k p b H). kstep (get_fdt_at k p b fd e H ltac:(lia) He). by rewrite Hz.
Qed.

Lemma sys_close_open k p b fd e f :
  running_pcb k p b -> 2 <= fd -> fdt b !! Z.to_nat fd = Some e -> enabled e <> 0 ->
  fot_ptr e = Some f ->
  sys_close fd k = fot_close f fd (with_fdt k p b (<[Z.to_nat fd := set_enabled 0 e]> (fdt b))).
Proof.
  intros H Hfd He Hen Hf. unfold sys_close. rewrite (proj2 (Z.ltb_ge fd 2)) by lia.
  kstep (running_curr k p b H). kstep (get_fdt_at k p b fd e H ltac:(lia) He).
  rewrite (proj2 (Z.eqb_neq _ _) Hen).
  kstep (upd_fdt_at k p b fd e (set_enabled 0) H ltac:(lia) He).
  assert (<[Z.to_nat fd := set_enabled 0 e]> (fdt b) !! Z.to_nat fd = Some (set_enabled 0 e)) as He'.
  { apply list_lookup_insert_eq. by eapply lookup_lt_Some. }
  kstep (get_fdt_again k p b _ fd _ H ltac:(lia) He').
  unfold the_fot. cbn [set_enabled fot_ptr]. rewrite Hf. by kcbn.
Qed.

(** [sys_read] and [sys_write] call the operation of the descriptor. *)
Lemma sys_read_open k p b fd e f irqs buf nbytes :
  running_pcb k p b -> 0 <= fd -> fdt b !! Z.to_nat fd = Some e -> enabled e <> 0 ->
  fot_ptr e = Some f -> buf <> NULL ->
  sys_read J irqs fd buf nbytes k = fot_read J f irqs fd buf nbytes k.
Proof.
  intros H Hfd He Hen Hf Hbuf. unfold sys_read. rewrite (proj2 (Z.eqb_neq _ _) Hbuf).
  rewrite (proj2 (Z.ltb_ge fd 0)) by lia.
  kstep (running_curr k p b H). kstep (get_fdt_at k p b fd e H Hfd He).
  rewrite (proj2 (Z.eqb_neq _ _) Hen).
  kstep (running_curr k p b H). kstep (get_fdt_at k p b fd e H Hfd He).
  unfold the_fot. rewrite Hf. by kcbn.
Qed.

Lemma sys_write_open k p b fd e f buf nbytes :
  running_pcb k p b -> 0 <= fd -> fdt b !! Z.to_nat fd = Some e -> enabled e <> 0 ->
  fot_ptr e = Some f -> buf <> NULL ->
  sys_write fd buf nbytes k = fot_write f fd buf nbytes k.
Proof.
  intros H Hfd He Hen Hf Hbuf. unfold sys_write. rewrite (proj2 (Z.eqb_neq _ _) Hbuf).
  rewrite (proj2 (Z.ltb_ge fd 0)) by lia.
  kstep (running_curr k p b H). kstep (get_fdt_at k p b fd e H Hfd He).
  rewrite (proj2 (Z.eqb_neq _ _) Hen).
  kstep (running_curr k p b H). kstep (get_fdt_at k p b fd e H Hfd He).
  unfold the_fot. rewrite Hf. by kcbn.
Qed.

(** A descriptor outside the table. *)
Lemma get_fdt_oob k p b fd :
  running_pcb k p b -> Z.of_nat (length (fdt b)) <= fd ->
  get_fdt p fd k = Err (OutOfBounds fd).
Proof.
  intros [_ Hb] Hfd. unfold get_fdt. rewrite (get_pcb_ok p k b Hb), Ok_bind. cbn [fst].
  by rewrite arr_get_oob by lia.
Qed.

(** The bytes a program gets from consecutive [sys_read]s of sizes [ns]. *)
Fixpoint sys_chunks (fd buf : Z) (ns : list Z) : K (list Z) :=
  match ns with
  | [] => mret []
  | n :: ns =>
      r ← sys_read J [] fd buf n;
      l ← (fun k => l ← load_list (vptr buf) 0 (Z.to_nat r.1) k; Ok (l, k)) : K (list Z);
      ls ← sys_chunks fd buf ns;
      mret (l ++ ls)
  end.

(** Through an open descriptor of a regular file they are [file_read]s. *)
Lemma sys_chunks_file img start ipa ns k p fd b e buf pa cap :
  image_wf img -> 0 <= start /\ start + Z.of_nat (length img) < 2 ^ 32 ->
  mounted img start ipa k -> buffer img ipa k buf pa cap -> fd_is k p fd b e ->
  enabled e <> 0 -> fot_ptr e = Some file_fot -> buf <> NULL ->
  0 <= inode_idx e < img_inodes img -> 0 <= cap < 2 ^ 31 -> Forall (fun n => 0 <= n <= cap) ns ->
  0 <= file_position e <= inode_len img (inode_idx e) -> inode_len img (inode_idx e) < 1023 * 4096 ->
  sys_chunks fd buf ns k = read_chunks fd buf ns k.
Proof.
  intros W Hs M B F Hen Hf Hbuf Hi Hcap Hns Hpos Hlen. revert k b e M B F Hen Hf Hi Hpos Hlen.
  induction Hns as [|n ns Hn Hns IH]; intros k b e M B F Hen Hf Hi Hpos Hlen; [done|].
  assert (buffer img ipa k buf pa n) as Bn.
  { destruct B. split; [|lia]. intros j Hj. apply bf_maps. lia. }
  pose proof (file_read_spec img start ipa W Hs k p fd b e buf pa n M Bn F Hi ltac:(lia) Hpos Hlen) as E.
  set (data := take (Z.to_nat n) _) in E. cbv zeta in E.
  pose proof (length_file_contents img (inode_idx e) (iw_bytes _ W)) as Hfl.
  assert (Z.of_nat (length data) <= n /\
    file_position e + Z.of_nat (length data) <= inode_len img (inode_idx e)) as Hd.
  { unfold data. rewrite length_take, length_drop. lia. }
  set (e1 := set_file_position _ e) in E. set (k1 := set_k_mem _ k) in E.
  assert (mounted img start ipa k1) as M1
    by (apply (mounted_put img start ipa k pa data n); [done|lia|apply Bn]).
  cbn [sys_chunks read_chunks].
  destruct F as (F1 & F2 & F3 & F4).
  assert (sys_read J [] fd buf n k = Ok ((Z.of_nat (length data), []), fdt_updated k1 p fd b e1)) as Er.
  { rewrite (sys_read_open k p b fd e file_fot [] buf n) by done. cbn [fot_read]. by kstep E. }
  kstep Er. kstep E. cbn [fst].
  assert (load_list (vptr buf) 0 (length data) (fdt_updated k1 p fd b e1) = Ok data) as El.
  { apply holds_load_list. eapply vptr_holds; [apply Bn|lia|apply bytes_at_put]. }
  rewrite Nat2Z.id. erewrite !K_bind_Ok by (cbv beta; rewrite El; reflexivity). cbv beta.
  unfold mbind at 1 3, K_bind at 1 3.
  rewrite (IH (fdt_updated k1 p fd b e1) (set_fdt (<[Z.to_nat fd := e1]> (fdt b)) b) e1);
    [unfold mbind at 1, K_bind at 1; by rewrite El|by destruct M1|by destruct B|by apply fdt_updated_is with (e := e)|done|done|done|simpl; lia|done].
Qed.
End Closing.

(** ** The claims *)

Section Claims.
Context `{L : Layout} (J : locals).
Context (img : list Z) (start ipa : Z).

(** The clock can be programmed by the running process, whose block [b] is at [p]. *)
Definition clock_ready (k : kernel) (p : Z) (b : pcb) : Prop :=
  exists q c cs, rtc_ok k /\ running k q b /\ p = get_pcb_by_pid q /\ io_in (k_io k) = c :: cs.

Lemma clock_ready_fdt k p b T : clock_ready k p b -> clock_ready (with_fdt k p b T) p (set_fdt T b).
Proof.
  intros (q & c & cs & Ro & Hr & -> & Hin). exists q, c, cs. pose proof Hr as []. split; [|split; [|done]].
  - destruct (ro_pcbs _ Ro q rn_range rn_used) as (b' & Hb' & Hs). assert (b' = b) as -> by congruence.
    by apply (served_update k q b).
  - split; auto. simpl. by rewrite lookup_insert_eq.
Qed.

(** (C23) [sys_open], on every path: it fails with -1 and changes nothing when no
    directory entry carries the name or descriptors 2 to 7 are all in use; otherwise it
    returns the lowest free descriptor, which becomes an entry for the first file
    of that name, at position 0, with the operations of its type (directory, clock or
    regular file), and resets descriptors 0 and 1 to the terminal.  For a directory or a
    regular file no other descriptor and no other part of the kernel changes; for the clock
    the process's frequency is reset and the chip is set to the shared frequency, which
    does not change. *)
Theorem sys_open_allocates k p b filename l :
  image_wf img -> 0 <= start /\ start + Z.of_nat (length img) < 2 ^ 32 ->
  length (j_entry J) = 64%nat ->
  running_pcb k p b -> length (fdt b) = 8%nat -> mounted img start ipa k ->
  holds (vptr filename) k (l ++ [0]) -> Forall (fun b => is_byte b /\ b <> 0) l ->
  Z.of_nat (length l) < 2 ^ 31 ->
  (forall i, find_name img l = Some i -> kind_of l (dentry_type img i) = rtc_fot -> clock_ready k p b) ->
  match find_name img l, free_fd (fdt b) with
  | Some i, Some fd =>
      let T := opened_table (fdt b) fd (opened_entry img l i) in
      if bool_decide (kind_of l (dentry_type img i) = rtc_fot) then
        exists io, sys_open J filename k = Ok (Z.of_nat fd, set_k_io io
            (with_pcbs (<[p := set_prog_freq 0 (set_fdt T b)]> (pcbs (k_proc k))) k)) /\
          chip_freq (reg_a (io_log io)) = higher_freq (k_rtc k)
      else sys_open J filename k = Ok (Z.of_nat fd, with_fdt k p b T)
  | _, _ => sys_open J filename k = Ok (ERROR, k)
  end.
Proof.
  intros W Hs HJ H HT M Hh Hb Hl Hk. destruct (find_name img l) as [i|] eqn:Ei; cycle 1.
  { apply (sys_open_missing J img start ipa W Hs HJ k p b filename l); auto. by apply find_name_None. }
  destruct (free_fd (fdt b)) as [fd|] eqn:Ef; cycle 1.
  { by apply (sys_open_full J img start ipa W Hs HJ k p b filename l). }
  destruct (find_name_Some _ _ _ Ei) as (Hi & Hn & Hno). intros T.
  rewrite (sys_open_found J img start ipa W Hs HJ k p b filename l i fd) by done.
  case_bool_decide as Hc; [|by destruct (kind_of l (dentry_type img i))].
  specialize (Hk i eq_refl Hc). rewrite Hc. cbn [fot_open]. fold T.
  destruct (clock_ready_fdt k p b T Hk) as (q & c & cs & Ro & Hr & -> & Hin).
  destruct (rtc_open_spec _ q _ filename c cs Ro Hr Hin) as (log & E & Hch & _).
  exists {| io_log := log; io_in := cs |}. split; [|exact Hch]. kstep E. unfold with_fdt, with_pcbs. simpl. by rewrite insert_insert_eq.
Qed.

(** Freeing a descriptor makes it available. *)
Lemma freed_available T fd e :
  2 <= fd -> T !! Z.to_nat fd = Some e ->
  exists i, free_fd (<[Z.to_nat fd := set_enabled 0 e]> T) = Some i /\ Z.of_nat i <= fd.
Proof.
  intros Hfd He. set (T' := <[_ := _]> T). pose proof (lookup_lt_Some _ _ _ He) as Hlt.
  assert (drop 2 T' !! (Z.to_nat fd - 2)%nat = Some (set_enabled 0 e)) as Hd.
  { rewrite lookup_drop. replace (2 + (Z.to_nat fd - 2))%nat with (Z.to_nat fd) by lia.
    by apply list_lookup_insert_eq. }
  unfold free_fd. destruct (list_find _ (drop 2 T')) as [[j x]|] eqn:E.
  - exists (2 + j)%nat. split; [done|]. apply list_find_Some in E as (_ & _ & Hmin).
    destruct (decide (j <= Z.to_nat fd - 2)%nat); [lia|]. by destruct (Hmin _ _ Hd ltac:(lia)).
  - apply list_find_None in E. by destruct (Forall_lookup_1 _ _ _ _ E Hd).
Qed.

(** The clock after [rtc_close]: at the highest frequency that a process in use of [k] asked for,
    2 Hz when none did; every process is served, and only frequencies and divisors changed. *)
Record reclocked (k k' : kernel) : Prop := {
  rc_same : redivided k k';
  rc_ok : rtc_ok k';
  rc_chip : chip_freq (reg_a (io_log (k_io k'))) = higher_freq (k_rtc k');
  rc_upper j b : 0 <= j < MAX_PROCESSES -> used k j ->
    pcbs (k_proc k) !! get_pcb_by_pid j = Some b -> prog_freq b <= higher_freq (k_rtc k');
  rc_attained : higher_freq (k_rtc k') = RTC_START_FREQ \/ exists j b, 0 <= j < MAX_PROCESSES /\ used k j /\
    pcbs (k_proc k) !! get_pcb_by_pid j = Some b /\ prog_freq b = higher_freq (k_rtc k');
}.

Lemma redivided_running k k' p b : redivided k k' -> running_pcb k p b ->
  exists b', running_pcb k' p b' /\ fdt b' = fdt b.
Proof.
  intros [(io & hf & m & ->) Hb] [He Hp]. specialize (Hb p). rewrite Hp in Hb.
  apply fmap_Some in Hb as (b' & Hb' & E). exists b'. split; [by split|].
  change (fdt b') with (fdt (set_divisor 0 b')). by rewrite <- E.
Qed.

(** (C24) [sys_close] of a number of the table (below 8), on every path: the standard descriptors
    and descriptors that are not in use are refused with -1 and nothing changes; an open
    one is closed, the result is 0, its descriptor is free and can be the next one
    [sys_open] hands out, and every other descriptor keeps its state.  For a file or a directory
    nothing else changes; for the clock the shared frequency becomes the highest one asked for by
    a process in use, the one that closes included. *)
Theorem sys_close_frees k p b fd e :
  running_pcb k p b -> fdt_ok (fdt b) -> fdt b !! Z.to_nat fd = Some e ->
  (fot_ptr e = Some rtc_fot -> clock_ready k p b) ->
  let T := <[Z.to_nat fd := set_enabled 0 e]> (fdt b) in
  if (fd <? 2) || (enabled e =? 0) then sys_close fd k = Ok (ERROR, k)
  else exists k' b', sys_close fd k = Ok (0, k') /\ running_pcb k' p b' /\ fdt b' = T /\ fdt_ok T /\
    (exists i, free_fd T = Some i /\ Z.of_nat i <= fd) /\
    (if bool_decide (fot_ptr e = Some rtc_fot) then reclocked (with_fdt k p b T) k' else k' = with_fdt k p b T).
Proof.
  intros H [HT Hok] He Hc T. destruct (Z.ltb_spec fd 2); cbn [orb].
  { apply (sys_close_error k p b); auto. }
  destruct (Z.eqb_spec (enabled e) 0) as [Hz|Hz].
  { apply (sys_close_error k p b); eauto. }
  pose proof (Forall_lookup_1 _ _ _ _ Hok He Hz) as Hfot.
  assert (fdt_ok T) as HTok.
  { split; [unfold T; by rewrite length_insert|]. apply Forall_insert; [done|]. by simpl. }
  pose proof (freed_available (fdt b) fd e ltac:(lia) He) as Hfree. fold T in Hfree.
  destruct (fot_ptr e) as [f|] eqn:Ef; [|done]. rewrite (sys_close_open k p b fd e f) by done. fold T.
  pose proof (running_with_fdt k p b T H) as H1. case_bool_decide as Hr.
  - injection Hr as ->. destruct (clock_ready_fdt k p b T (Hc eq_refl)) as (q & c & cs & Ro & _ & _ & Hin).
    destruct (rtc_close_spec _ fd c cs Ro Hin) as (k' & E & Ro' & Hch & Hup & Hex & _ & _ & Hrd).
    destruct (redivided_running _ _ p _ Hrd H1) as (b' & Hb' & Hf). exists k', b'. do 5 (split; [done|]). by split.
  - exists (with_fdt k p b T), (set_fdt T b). split; [by destruct f|]. by do 4 (split; [done|]).
Qed.

(** (C12) A file is what its name says: after [sys_open] of a regular file,
    consecutive [sys_read]s of any sizes through the descriptor it returned deliver
    consecutive pieces of the file's contents, from the first byte to the end. *)
Theorem open_read_contents k p b filename l i fd buf pa cap ns :
  image_wf img -> 0 <= start /\ start + Z.of_nat (length img) < 2 ^ 32 ->
  length (j_entry J) = 64%nat ->
  running_pcb k p b -> length (fdt b) = 8%nat -> mounted img start ipa k ->
  holds (vptr filename) k (l ++ [0]) -> Forall (fun b => is_byte b /\ b <> 0) l ->
  Z.of_nat (length l) < 2 ^ 31 ->
  find_name img l = Some i -> kind_of l (dentry_type img i) = file_fot ->
  free_fd (fdt b) = Some fd ->
  0 <= dentry_inode img i < img_inodes img -> inode_len img (dentry_inode img i) < 1023 * 4096 ->
  buffer img ipa k buf pa cap -> 0 <= cap < 2 ^ 31 -> buf <> NULL ->
  Forall (fun n => 0 <= n <= cap) ns ->
  exists k', (fd ← sys_open J filename; sys_chunks J fd buf ns) k =
    Ok (take (Z.to_nat (total ns)) (file_contents img (dentry_inode img i)), k').
Proof.
  intros W Hs HJ H HT M Hh Hb Hl Hi Hk Hf Hino Hlen B Hcap Hbuf Hns.
  destruct (find_name_Some _ _ _ Hi) as (Hir & Hn & Hno).
  assert (sys_open J filename k =
    Ok (Z.of_nat fd, with_fdt k p b (opened_table (fdt b) fd (opened_entry img l i)))) as E.
  { rewrite (sys_open_found J img start ipa W Hs HJ k p b filename l i fd) by done. by rewrite Hk. }
  kstep E. set (T := opened_table _ _ _). set (k1 := with_fdt k p b T).
  destruct (free_fd_Some _ _ HT Hf) as (Hfd & _).
  assert (fd_is k1 p (Z.of_nat fd) (set_fdt T b) (opened_entry img l i)) as F.
  { apply running_fd; [by apply running_with_fdt|lia|]. rewrite Nat2Z.id.
    apply list_lookup_insert_eq. rewrite !length_insert. lia. }
  assert (mounted img start ipa k1) as M1 by by destruct M.
  assert (buffer img ipa k1 buf pa cap) as B1 by by destruct B.
  assert (0 <= inode_len img (dentry_inode img i)) as Hl0 by apply (img_u32_range img _ (iw_bytes _ W)).
  rewrite (sys_chunks_file J img start ipa ns k1 p (Z.of_nat fd) (set_fdt T b) (opened_entry img l i) buf pa cap);
    auto; [|simpl; by rewrite Hk|simpl; lia].
  destruct (read_chunks_spec img start ipa W Hs ns k1 p (Z.of_nat fd) (set_fdt T b) (opened_entry img l i)
    buf pa cap) as (k' & E'); auto; [simpl; lia|]. by exists k'.
Qed.

(** A descriptor from 8 on: the access is behind the table. *)
Lemma fd_overruns k p b irqs fd buf nbytes :
  running_pcb k p b -> length (fdt b) = 8%nat -> 8 <= fd -> buf <> NULL ->
  sys_read J irqs fd buf nbytes k = Err (OutOfBounds fd) /\
  sys_write fd buf nbytes k = Err (OutOfBounds fd) /\ sys_close fd k = Err (OutOfBounds fd).
Proof.
  intros H HT Hfd Hbuf. pose proof (get_fdt_oob k p b fd H ltac:(lia)) as E.
  unfold sys_read, sys_write, sys_close. rewrite (proj2 (Z.eqb_neq _ _) Hbuf).
  rewrite (proj2 (Z.ltb_ge fd 0)), (proj2 (Z.ltb_ge fd 2)) by lia.
  rewrite !(K_bind_Ok _ _ _ _ _ (running_curr k p b H)). unfold mbind, K_bind. by rewrite E.
Qed.

(** Programs have no access to the kernel's 4 MB. *)
Lemma user_kernel_apart pg prog vid uvid a :
  paging_rep pg prog vid uvid -> KERNEL_MEM_START <= a < 2 * _4_MB -> translate true pg a = None.
Proof.
  unfold KERNEL_MEM_START, _4_MB. intros R Ha. rewrite (translate_map _ _ _ _ R) by lia. cbn [memory_map].
  unfold user_map, _128_MB, _132_MB. by rewrite (proj2 (Z.leb_gt 0x8000000 a)), (proj2 (Z.leb_gt 0x8400000 a)) by lia.
Qed.

(** A file read to an address of the kernel. *)
Lemma sys_read_kernel k p b fd e irqs buf n prog vid uvid :
  image_wf img -> 0 <= start /\ start + Z.of_nat (length img) < 2 ^ 32 -> mounted img start ipa k ->
  running_pcb k p b -> 0 <= fd -> fdt b !! Z.to_nat fd = Some e -> enabled e <> 0 -> fot_ptr e = Some file_fot ->
  0 <= inode_idx e < img_inodes img -> 0 <= file_position e <= inode_len img (inode_idx e) ->
  inode_len img (inode_idx e) < 1023 * 4096 -> paging_rep (k_pg k) prog vid uvid ->
  KERNEL_MEM_START <= buf -> 0 <= n -> buf + n <= 2 * _4_MB ->
  buf + n <= ipa \/ ipa + Z.of_nat (length img) <= buf ->
  let data := take (Z.to_nat n) (drop (Z.to_nat (file_position e)) (file_contents img (inode_idx e))) in
  exists k', sys_read J irqs fd buf n k = Ok ((Z.of_nat (length data), irqs), k') /\ bytes_at (k_mem k') buf data.
Proof.
  intros W Hs M Hr Hfd He Hen Hf Hi Hp Hl R Hb Hn He2 Hap data.
  pose proof (kernel_maps _ _ _ _ buf n R Hb He2) as Hm. unfold KERNEL_MEM_START, _4_MB in Hb, He2.
  rewrite (sys_read_open J k p b fd e file_fot irqs buf n Hr Hfd He Hen Hf) by (unfold NULL; lia).
  unfold fot_read. kstep (file_read_spec img start ipa W Hs k p fd b e buf buf n M
    ltac:(by split) (running_fd k p b fd e Hr Hfd He) Hi ltac:(lia) Hp Hl).
  eexists. split; [done|]. apply bytes_at_put.
Qed.

(** (C37) System calls do not check their arguments.  A descriptor from 8 on is not refused: reading,
    writing or closing it accesses memory behind the table.  An address is not refused either: reading
    a file to any address of the kernel's 4 MB stores the file's bytes there, where the program itself
    has no access. *)
Theorem arguments_unchecked k p b :
  running_pcb k p b -> length (fdt b) = 8%nat ->
  (forall irqs fd buf nbytes, 8 <= fd -> buf <> NULL ->
    sys_read J irqs fd buf nbytes k = Err (OutOfBounds fd) /\
    sys_write fd buf nbytes k = Err (OutOfBounds fd) /\ sys_close fd k = Err (OutOfBounds fd)) /\
  (forall fd e irqs buf n prog vid uvid,
    image_wf img -> 0 <= start /\ start + Z.of_nat (length img) < 2 ^ 32 -> mounted img start ipa k ->
    0 <= fd -> fdt b !! Z.to_nat fd = Some e -> enabled e <> 0 -> fot_ptr e = Some file_fot ->
    0 <= inode_idx e < img_inodes img -> 0 <= file_position e <= inode_len img (inode_idx e) ->
    inode_len img (inode_idx e) < 1023 * 4096 -> paging_rep (k_pg k) prog vid uvid ->
    KERNEL_MEM_START <= buf -> 0 <= n -> buf + n <= 2 * _4_MB ->
    buf + n <= ipa \/ ipa + Z.of_nat (length img) <= buf ->
    let data := take (Z.to_nat n) (drop (Z.to_nat (file_position e)) (file_contents img (inode_idx e))) in
    (exists k', sys_read J irqs fd buf n k = Ok ((Z.of_nat (length data), irqs), k') /\ bytes_at (k_mem k') buf data) /\
    forall a, buf <= a < buf + n -> translate true (k_pg k) a = None).
Proof.
  intros H HT. split; [intros; by apply (fd_overruns k p b)|]. intros fd e irqs buf n prog vid uvid. intros.
  split; [by eapply (sys_read_kernel k p b fd e)|]. intros a Ha. eapply user_kernel_apart; [done|lia].
Qed.
End Claims.
