(* ===== verification/DescriptorExamples.v ===== *)
(** * Descriptors of a concrete process

    The theorems of Descriptors.v applied to the process and the file system image
    of FileExamples.v; the name is read from the image's own directory. *)

From stdpp Require Import base gmap list numbers.
From Stdlib Require Import ZArith Lia.
From S2P Require Import Prelude Pointers Ports Pic Paging State Machine VirtMem CString MemFns.
From S2P Require Import Pcb Demo Screen FileSystem FileExamples Rtc Syscalls Descriptors.

Definition demo_locals : locals :=
  {| j_printf := fun _ => replicate 64 0; j_entry := replicate 64 0; j_name := replicate 33 0;
     j_args := replicate 128 0; j_elf := replicate 4 0; j_line := [];
     shell_text := [115; 104; 101; 108; 108; 0] ++ replicate 26 0 |}.

Lemma demo_running : running_pcb demo_fs_kernel 0x7FE000 demo_file_pcb.
Proof. by split. Qed.

Definition demo_filename : Z := demo_start + 64.

Lemma demo_filename_holds :
  holds (vptr (L := demo_layout) demo_filename) demo_fs_kernel (hello ++ [0]).
Proof.
  assert (forall k, holds (vptr (L := demo_layout) demo_start) k demo_img ->
    holds (vptr (L := demo_layout) demo_filename) k (hello ++ [0])) as G.
  { intros k Hk i b Hi. unfold demo_filename. rewrite (flat (mem := vptr (L := demo_layout))).
    replace (64 + Z.of_nat i) with (Z.of_nat (64 + i)) by lia. apply Hk.
    pose proof (lookup_lt_Some _ _ _ Hi) as Hl. change (length (hello ++ [0])) with 6%nat in Hl.
    do 6 (destruct i as [|i]; [exact Hi|]). lia. }
  apply G, (mounted_image (L := demo_layout) demo_img demo_start demo_start), demo_mounted.
Qed.

Lemma hello_bytes : Forall (fun b => is_byte b /\ b <> 0) hello.
Proof. apply Forall_forall. intros b Hb. vm_compute in Hb. unfold is_byte. set_unfold in Hb. lia. Qed.

Lemma demo_find : find_name demo_img hello = Some 0.
Proof.
  unfold find_name. rewrite (proj1 demo_img_counts). change (seqZ 0 1) with [0]. cbn [list_find].
  by rewrite decide_True by apply demo_name.
Qed.

Lemma demo_dentry : dentry_type demo_img 0 = 2 /\ dentry_inode demo_img 0 = 0.
Proof. by split. Qed.

Lemma demo_kind : kind_of hello (dentry_type demo_img 0) = file_fot.
Proof. by rewrite (proj1 demo_dentry). Qed.

Lemma sys_open_allocates_witness :
  exists k', sys_open (L := demo_layout) demo_locals demo_filename demo_fs_kernel = Ok (3, k') /\
    k' = with_fdt demo_fs_kernel 0x7FE000 demo_file_pcb
      (opened_table (fdt demo_file_pcb) 3 (opened_entry demo_img hello 0)).
Proof.
  eexists. split; [|reflexivity].
  pose proof (sys_open_allocates (L := demo_layout) demo_locals demo_img demo_start demo_start
    demo_fs_kernel 0x7FE000 demo_file_pcb demo_filename hello demo_img_wf demo_bounds eq_refl demo_running eq_refl
    demo_mounted demo_filename_holds hello_bytes eq_refl) as H.
  rewrite demo_find in H. change (free_fd (fdt demo_file_pcb)) with (Some 3%nat) in H. cbv beta iota zeta in H.
  rewrite demo_kind in H. apply H. intros i [= <-]. rewrite demo_kind. discriminate.
Defined.

(** Process 1 closes the clock, at 1024 Hz until then, and nobody needs it any more. *)
Definition demo_clock_pcb : pcb :=
  set_fdt (<[2%nat := set_fot_ptr (Some rtc_fot) (std_entry 0)]> (fdt bss_pcb)) bss_pcb.
Definition demo_clock_user : kernel :=
  set_k_cpu (set_r_esp (get_pcb_by_pid 1 + 0x1F00) (k_cpu demo_state)) (demo_rtc_kernel demo_clock_pcb).

Lemma sys_close_frees_witness :
  exists k', sys_close 2 demo_clock_user = Ok (0, k') /\ higher_freq (k_rtc k') = 2.
Proof.
  assert (rtc_ok demo_clock_user) as Ro by (destruct (demo_rtc_ok demo_clock_pcb (or_introl eq_refl)); by split).
  destruct (sys_close_frees demo_clock_user (get_pcb_by_pid 1) demo_clock_pcb 2 (set_fot_ptr (Some rtc_fot) (std_entry 0)))
    as (k' & b' & E & _ & _ & _ & _ & R).
  - split; reflexivity.
  - split; [reflexivity|]. repeat constructor; (discriminate || (intros Hz; by destruct Hz)).
  - reflexivity.
  - intros _. exists 1, 0x26, [0; 0]. split; [exact Ro|]. split; [|split; reflexivity].
    destruct (demo_rtc_running demo_clock_pcb). split; assumption.
  - exists k'. split; [exact E|]. rewrite bool_decide_eq_true_2 in R by reflexivity. destruct R as [_ [Hq _ _ _] _ _ Ha].
    destruct Ha as [Ha|(j & b & Hj & Hu & Hb & Hf)]; [exact Ha|]. exfalso.
    apply (demo_rtc_used demo_clock_pcb j Hj) in Hu as ->. cbn [with_fdt k_proc set_k_proc pcbs set_pcbs] in Hb.
    rewrite lookup_insert_eq in Hb. injection Hb as <-. change (0 = higher_freq (k_rtc k')) in Hf.
    apply freq_range in Hq. lia.
Defined.

Lemma open_read_contents_witness :
  exists k', (fd ← sys_open (L := demo_layout) demo_locals demo_filename;
    sys_chunks (L := demo_layout) demo_locals fd 0x8048000 [2; 2; 4]) demo_fs_kernel = Ok (world, k').
Proof.
  destruct (open_read_contents (L := demo_layout) demo_locals demo_img demo_start demo_start
    demo_fs_kernel 0x7FE000 demo_file_pcb demo_filename hello 0 3 0x8048000 0x848000 128 [2; 2; 4])
    as (k' & E).
  - exact demo_img_wf.
  - exact demo_bounds.
  - reflexivity.
  - exact demo_running.
  - reflexivity.
  - exact demo_mounted.
  - exact demo_filename_holds.
  - exact hello_bytes.
  - reflexivity.
  - exact demo_find.
  - exact demo_kind.
  - reflexivity.
  - rewrite (proj2 demo_dentry), (proj1 (proj2 demo_img_counts)). lia.
  - rewrite (proj2 demo_dentry), (proj1 demo_inode). lia.
  - exact demo_buffer.
  - lia.
  - discriminate.
  - repeat constructor; lia.
  - exists k'. rewrite E, (proj2 demo_dentry), demo_contents. reflexivity.
Defined.

(** Descriptor 8, and five bytes of the file [hello] to the kernel's address 0x600000. *)
Lemma arguments_unchecked_witness :
  sys_close 8 demo_fs_kernel = Err (OutOfBounds 8) /\
  exists k', sys_read (L := demo_layout) demo_locals [] 2 0x600000 5 demo_fs_kernel = Ok ((5, []), k') /\
    bytes_at (k_mem k') 0x600000 world.
Proof.
  destruct (arguments_unchecked (L := demo_layout) demo_locals demo_img demo_start demo_start demo_fs_kernel 0x7FE000
    demo_file_pcb demo_running eq_refl) as [H1 H2]. split.
  - apply (H1 [] 8 1 1); [lia|discriminate].
  - destruct (H2 2 demo_entry [] 0x600000 5 (Some 0) VIDEO_PAGE None) as [(k' & E & B) _].
    + exact demo_img_wf.
    + exact demo_bounds.
    + exact demo_mounted.
    + lia.
    + reflexivity.
    + discriminate.
    + reflexivity.
    + rewrite (proj1 (proj2 demo_img_counts)). simpl. lia.
    + change (inode_idx demo_entry) with 0. rewrite (proj1 demo_inode). simpl. lia.
    + change (inode_idx demo_entry) with 0. rewrite (proj1 demo_inode). lia.
    + exact demo_user_paging_rep.
    + unfold KERNEL_MEM_START. lia.
    + lia.
    + unfold _4_MB. lia.
    + right. rewrite demo_img_length. unfold demo_start. lia.
    + exists k'. change (inode_idx demo_entry) with 0 in E, B. rewrite demo_contents in E, B.
      split; [exact E|exact B].
Defined.
