(* ===== verification/Exec.v ===== *)
(** * [sys_execute] starts the right program

    The functional behaviour of [sys_execute] on every path: the command is split as
    Command.v says, the name is looked up, the file is checked and loaded into the
    page of the lowest free process number, the block of the process is filled
    and the processor enters user mode at the program's entry point. *)

From stdpp Require Import base gmap list numbers strings.
From Stdlib Require Import ZArith Lia.
From S2P Require Import Prelude Pointers Ports Pic Paging State Machine VirtMem CString MemFns.
From S2P Require Import Pcb Demo Screen Printf FileSystem Rtc Keyboard Terminal Syscalls Process Descriptors Command.

(** The sizes of the local variables. *)
Record locals_ok (J : locals) : Prop := {
  lo_entry : length (j_entry J) = 64%nat;
  lo_name : length (j_name J) = 33%nat;
  lo_args : length (j_args J) = 128%nat;
  lo_elf : length (j_elf J) = 4%nat;
  lo_printf i : (64 <= length (j_printf J i))%nat;
}.

(** What [sys_execute] compares with the magic number: the first four bytes of the
    file; when the file is shorter, bytes of the uninitialised buffer fill up. *)
Definition magic_bytes (J : locals) (img : list Z) (inode : Z) : list Z :=
  take 4 (file_contents img inode) ++ drop (length (take 4 (file_contents img inode))) (j_elf J).

(** The program a name stands for: the first entry's file, when its inode exists
    and it starts with the magic number. *)
Definition program (J : locals) (img name : list Z) : option Z :=
  match find_name img name with
  | None => None
  | Some i =>
      let inode := dentry_inode img i in
      if (inode <? img_inodes img) && bool_decide (magic_bytes J img inode = ELF_MAGIC)
      then Some inode else None
  end.

(** The lowest free process number. *)
Definition free_pid (used : list Z) : option nat := fst <$> list_find (fun u => u = 0) used.

Section Lookup.
Context `{L : Layout} (J : locals).
Context (img : list Z) (start ipa : Z).
Hypothesis W : image_wf img.
Hypothesis Hstart : 0 <= start /\ start + Z.of_nat (length img) < 2 ^ 32.
Hypothesis HJ : locals_ok J.
Implicit Types (k : kernel).

Lemma find_pid_spec (n i : nat) k :
  (i + n = length (used_pids (k_proc k)))%nat ->
  find_pid n (Z.of_nat i) k =
    Ok (match list_find (fun u => u = 0) (drop i (used_pids (k_proc k))) with
        | Some (j, _) => Z.of_nat (i + j) | None => ERROR end, k).
Proof.
  revert i. induction n as [|n IH]; intros i Hl; cbn [find_pid].
  - by rewrite drop_ge by lia.
  - destruct (lookup_lt_is_Some_2 (used_pids (k_proc k)) i) as [u Hu]; [lia|].
    rewrite (drop_S _ u i Hu). simpl. unfold get_used at 1.
    erewrite K_bind_Ok by by rewrite (arr_get_Some _ _ _ Hu). cbv beta.
    destruct (Z.eqb_spec u 0) as [->|Hne].
    + rewrite decide_True by done. by rewrite Nat.add_0_r.
    + rewrite decide_False by done. replace (Z.of_nat i + 1) with (Z.of_nat (S i)) by lia.
      rewrite IH by lia. destruct (list_find _ (drop (S i) _)) as [[j x]|]; simpl; [|done].
      by rewrite Nat.add_succ_r.
Qed.

(** [get_new_pid] returns the lowest free number, or -1. *)
Lemma get_new_pid_spec k :
  length (used_pids (k_proc k)) = 6%nat ->
  get_new_pid k =
    Ok (match free_pid (used_pids (k_proc k)) with Some p => Z.of_nat p | None => ERROR end, k).
Proof.
  intros Hl. unfold get_new_pid, MAX_PROCESSES. change (Z.to_nat 6) with 6%nat.
  pose proof (find_pid_spec 6 0 k ltac:(lia)) as E. change (Z.of_nat 0) with 0 in E. rewrite E.
  unfold free_pid. rewrite drop_0.
  by destruct (list_find _ _) as [[]|].
Qed.

Lemma free_pid_Some used p :
  free_pid used = Some p -> used !! p = Some 0 /\ forall j u, (j < p)%nat -> used !! j = Some u -> u <> 0.
Proof.
  unfold free_pid. destruct (list_find _ used) as [[j u]|] eqn:E; [|done]. intros [= <-].
  apply list_find_Some in E as (Hu & -> & Hlt). simpl. split; [done|]. intros i v Hi Hv. eauto.
Qed.

(** The directory entry of the program. *)
Lemma find_program_spec k sp l rest :
  mounted img start ipa k -> Forall (fun b => is_byte b /\ b <> 0) l -> Z.of_nat (length l) < 2 ^ 31 ->
  exists d, find_program J sp (l ++ 0 :: rest) k =
      Ok ((match find_name img l with Some _ => 0 | None => ERROR end, d), k) /\
    forall i, find_name img l = Some i -> d = img_dentry img i.
Proof.
  intros M Hb Hl. pose proof (counts img start W Hstart) as (_ & _ & _ & Hnd).
  pose proof (lo_entry _ HJ) as He.
  set (P := fun o : kernel * (list Z * list Z) => k_pg o.1 = k_pg k /\ (True /\ 64 <= Z.of_nat (length o.2.2))).
  assert (Region P (ptr_snd (ptr_snd (arr_ptr sp))) 64) as HR by
    exact (snd_region (fun k' => k_pg k' = k_pg k) _ _ _ (snd_region (fun _ => True) _ _ _ (arr_region sp 64))).
  destruct (@read_dentry_by_name_image _ (fun a => ptr_fst (vptr a))
    (fun a j o i => vptr_flat a j o.1 i) img start W Hstart P
    (ptr_snd (ptr_snd (arr_ptr sp))) HR (snd_fst_separate _ _ _ _ _)
    (ptr_snd (ptr_fst (arr_ptr sp))) l (k, (l ++ 0 :: rest, j_entry J))) as (r & [k' [n d]] & E & Hr);
    [split; [done|simpl; split; [done|lia]]|intros j b Hj; exact (mounted_image _ _ _ k M j b Hj)
    |intros j b Hj; simpl; apply arr_get_Some|done|done|].
  { change (0 :: rest) with ([0] ++ rest). rewrite app_assoc. by apply lookup_app_l_Some. }
  unfold find_program. rewrite (mt_fs _ _ _ _ M). rewrite E, Ok_bind. cbn [fst snd].
  destruct Hr as [(i & -> & Hi & Hn & Hno & Es)|(-> & Eo & Hno)].
  - rewrite store_list_snd in Es. cbn [fst snd] in Es. rewrite store_list_snd in Es. cbn [fst snd] in Es.
    pose proof (length_dentry img start W Hstart i ltac:(lia)) as Hdl.
    rewrite arr_store_list in Es by lia. rewrite !Ok_bind in Es. injection Es as <- _ <-.
    destruct (find_name img l) as [i'|] eqn:Ef.
    + apply find_name_Some in Ef as (Hi' & Hn' & Hno'). assert (i' = i) as ->.
      { destruct (Z.lt_trichotomy i i') as [H|[H|H]]; [|done|].
        - by destruct (Hno' i); [lia|].
        - by destruct (Hno i'); [lia|]. }
      eexists. split; [done|]. intros ? [= <-]. change (Z.to_nat 0) with 0%nat. simpl.
      rewrite drop_ge by lia. by rewrite app_nil_r.
    + exfalso. by apply (find_name_None img l Ef i).
  - injection Eo as -> _ ->. destruct (find_name img l) as [i|] eqn:Ef.
    + apply find_name_Some in Ef as (Hi & Hn & _). by destruct (Hno i).
    + by eexists.
Qed.
(** The first four bytes of the file. *)
Lemma read_magic_spec k sp inode :
  mounted img start ipa k -> 0 <= inode < img_inodes img ->
  exists n, read_magic J sp inode k = Ok ((n, magic_bytes J img inode), k) /\ n <> ERROR.
Proof.
  intros M Hi. pose proof (lo_elf _ HJ) as He.
  set (P := fun o : kernel * list Z => k_pg o.1 = k_pg k /\ 4 <= Z.of_nat (length o.2)).
  assert (Region P (ptr_snd (S1 := kernel) (arr_ptr sp)) 4) as HR by
    exact (snd_region (fun k' => k_pg k' = k_pg k) _ _ _ (arr_region sp 4)).
  destruct (@read_data_image _ vptr1 vptr1_flat img start W Hstart P (ptr_snd (arr_ptr sp)) inode 4 4 HR
    (snd_fst_separate _ _ _ _ _) Hi ltac:(lia) 0 (k, j_elf J)) as (o' & E & Es & _);
    [split; [done|simpl; lia]|intros j b Hj; exact (mounted_image _ _ _ k M j b Hj)|lia
    |cbv zeta; rewrite length_take; lia|].
  change (Z.to_nat 0) with 0%nat in E, Es. rewrite drop_0 in E, Es.
  change (Z.to_nat 4) with 4%nat in E, Es. unfold read_magic.
  rewrite store_list_snd in Es. cbn [fst snd] in Es. rewrite (mt_fs _ _ _ _ M), E, Ok_bind.
  rewrite arr_store_list in Es by (rewrite ?length_take; lia). rewrite Ok_bind in Es.
  injection Es as <-. eexists. split; [reflexivity|]. unfold ERROR. simpl. lia.
Qed.

Lemma magic_loaded sp inode :
  load_list (arr_ptr sp) 0 4 (magic_bytes J img inode) = Ok (magic_bytes J img inode).
Proof.
  pose proof (lo_elf _ HJ) as He.
  assert (length (magic_bytes J img inode) = 4%nat) as Hl.
  { unfold magic_bytes. rewrite length_app, length_drop, length_take, He. lia. }
  rewrite <- Hl at 1. apply holds_load_list. intros j b Hj. by apply arr_get_Some.
Qed.

Lemma read_magic_error k sp inode :
  mounted img start ipa k -> img_inodes img <= inode ->
  read_magic J sp inode k = Ok ((ERROR, j_elf J), k).
Proof.
  intros M Hi. pose proof (counts img start W Hstart). unfold read_magic, read_data.
  rewrite (mt_fs _ _ _ _ M). change (num_inodes (image_fs img start)) with (img_inodes img).
  rewrite u32_small by lia. by rewrite (proj2 (Z.leb_le _ inode)).
Qed.

Lemma dentry_inode_nonneg i : 0 <= i < 63 -> 0 <= dentry_inode img i < 2 ^ 32.
Proof.
  intros Hi. unfold dentry_inode.
  apply (img_u32_range (drop 36 (img_dentry img i)) 0).
  apply Forall_drop, Forall_take, Forall_drop, (iw_bytes _ W).
Qed.

(** A command that is in memory. *)
Record command_at k (command : ptr kernel) (l : list Z) : Prop := {
  ca_holds : holds command k l;
  ca_bytes : Forall is_byte l;
  ca_name : name_ends l;
  ca_arg : arg_ends l;
  ca_nonempty : cmd_name l <> [];
}.

(** [sys_execute] up to the loading of the program. *)
Lemma execute_checks k command l :
  mounted img start ipa k -> command_at k command l -> length (used_pids (k_proc k)) = 6%nat ->
  sys_execute J command k =
    match program J img (c_str (cmd_name l)) with
    | None => Ok (Returns ERROR, k)
    | Some inode =>
        match free_pid (used_pids (k_proc k)) with
        | None =>
            (printf (j_printf J) (literal_ln "-- Max Processes Already Reached (%d) --")
              [ANum MAX_PROCESSES];; mret (Returns ERROR)) k
        | Some p =>
            start_process J (Z.of_nat p) inode (cmd_have_args l)
              (collected (cmd_arg l) (<[0%nat := 0]> (j_args J))) k
        end
    end.
Proof.
  intros M [] Hu. unfold sys_execute. kcbn.
  erewrite K_bind_Ok by by rewrite (parse_name_spec J command k l ca_holds0 ca_name0 (lo_name _ HJ)).
  cbv beta iota. set (sp := r_esp (k_cpu k)).
  erewrite K_bind_Ok by by rewrite (parse_args_spec J command k l ca_holds0 ca_arg0 (lo_args _ HJ)).
  cbv beta. destruct (collected_name J l ca_nonempty0 (lo_name _ HJ)) as (rest & ->).
  set (name := c_str (cmd_name l)).
  assert (Z.of_nat (length name) < 2 ^ 31) as Hn.
  { unfold name. pose proof (c_str_length (cmd_name l)). pose proof (cmd_name_length l). lia. }
  destruct (find_program_spec k sp name rest M (cmd_name_bytes l ca_bytes0) Hn) as (d & Ed & Hd).
  kstep Ed. cbn [fst snd]. unfold program. destruct (find_name img name) as [i|] eqn:Ef; [|done].
  rewrite (Hd i eq_refl). change (0 =? ERROR) with false. cbv iota.
  pose proof (find_name_Some img name i Ef) as (Hi & _ & _).
  pose proof (counts img start W Hstart) as (_ & _ & _ & Hnd).
  change DENTRY_INODE_NUM with (Z.of_nat 36).
  rewrite (local32_ok (img_dentry img i) 36) by (rewrite (length_dentry img start W Hstart); lia).
  kcbn. fold (dentry_inode img i). pose proof (dentry_inode_nonneg i ltac:(lia)) as Hr.
  destruct (Z.ltb_spec (dentry_inode img i) (img_inodes img)) as [Hin|Hout]; simpl andb.
  - destruct (read_magic_spec k sp (dentry_inode img i) M ltac:(lia)) as (n & Em & Hne).
    kstep Em. cbn [fst snd]. rewrite (proj2 (Z.eqb_neq n ERROR)) by done.
    rewrite (magic_loaded sp). kcbn.
    case_bool_decide; [|done]. change (negb true) with false. cbv iota.
    kstep (get_new_pid_spec k Hu). destruct (free_pid _) as [p|]; [|done].
    by rewrite (proj2 (Z.eqb_neq (Z.of_nat p) ERROR)) by (unfold ERROR; lia).
  - by kstep (read_magic_error k sp _ M Hout).
Qed.
End Lookup.

(** ** Filling the block *)

(** The kernel with the block [b] at [p]. *)
Definition put_block (k : kernel) (p : Z) (b : pcb) : kernel :=
  set_k_proc (set_pcbs (<[p := b]> (pcbs (k_proc k))) (k_proc k)) k.

Section Block.
Implicit Types (k : kernel).

Lemma put_block_id k p b : pcbs (k_proc k) !! p = Some b -> put_block k p b = k.
Proof. intros H. unfold put_block. rewrite insert_id by done. by destruct k as [????????[]]. Qed.

Lemma put_block_again k p b b' : put_block (put_block k p b) p b' = put_block k p b'.
Proof. unfold put_block. simpl. by rewrite insert_insert_eq. Qed.

Lemma lookup_put_block k p b : pcbs (k_proc (put_block k p b)) !! p = Some b.
Proof. simpl. by rewrite lookup_insert_eq. Qed.

Lemma upd_block k p b f : upd_pcb p f (put_block k p b) = Ok (tt, put_block k p (f b)).
Proof. rewrite (upd_pcb_ok p f _ b) by apply lookup_put_block. f_equal. f_equal. apply put_block_again. Qed.

Lemma get_block k p b : get_pcb p (put_block k p b) = Ok (b, put_block k p b).
Proof. apply get_pcb_ok, lookup_put_block. Qed.

(** A loop that sets every entry of the table. *)
Lemma fdt_loop k p b (g : Z -> fdt_entry) (n : nat) :
  (n <= length (fdt b))%nat ->
  kfor 0 (Z.of_nat n) (fun i => upd_fdt p i (fun _ => g i)) (put_block k p b) =
    Ok (tt, put_block k p (set_fdt ((g <$> seqZ 0 (Z.of_nat n)) ++ drop n (fdt b)) b)).
Proof.
  intros Hn. set (T := fun i => (g <$> seqZ 0 i) ++ drop (Z.to_nat i) (fdt b)).
  destruct (kfor_inv (fun i k' => k' = put_block k p (set_fdt (T i) b)) 0 (Z.of_nat n)
    (fun i => upd_fdt p i (fun _ => g i)) (put_block k p b)) as (k' & E & ->); [lia| | |].
  - unfold T. simpl. by destruct b.
  - intros i k' Hi ->. destruct (lookup_lt_is_Some_2 (fdt b) (Z.to_nat i)) as [e He]; [lia|].
    assert (T i !! Z.to_nat i = Some e) as HT.
    { unfold T. rewrite lookup_app_r by (rewrite length_fmap, length_seqZ; lia).
      rewrite length_fmap, length_seqZ, Nat.sub_diag, lookup_drop, Nat.add_0_r. done. }
    unfold upd_fdt. rewrite get_block, Ok_bind. cbn [fst fdt set_fdt].
    rewrite (proj2 (arr_get_lookup _ _ _) (conj (proj1 Hi) HT)), Ok_bind.
    pose proof (lookup_lt_Some _ _ _ HT). rewrite arr_set_ok, Ok_bind by lia.
    eexists. split; [apply upd_block|].
    assert (<[Z.to_nat i := g i]> (T i) = T (i + 1)) as ->; [|done]. unfold T.
    rewrite insert_app_r_alt by (rewrite length_fmap, length_seqZ; lia).
    rewrite length_fmap, length_seqZ, Nat.sub_diag, (drop_S _ e) by done. simpl.
    rewrite (seqZ_app 0 i 1) by lia. rewrite fmap_app, <- app_assoc. simpl.
    replace (Z.to_nat (i + 1)) with (S (Z.to_nat i)) by lia. done.
  - rewrite E. unfold T. by rewrite Nat2Z.id.
Qed.
End Block.

(** The table of a new process. *)
Definition new_fdt : list fdt_entry :=
  [std_entry 0; std_entry 1] ++ replicate 6 zero_fdt_entry.

(** The argument as the block keeps it: its length, and its bytes before what was
    there. *)
Definition stored_args (have_args : bool) (w old : list Z) : Z * list Z :=
  if have_args then (Z.of_nat (length w), w ++ drop (length w) old)
  else (-1, <[0%nat := 0]> old).

Lemma stored_args_length have_args w old :
  length old = 128%nat -> (length w <= 127)%nat -> length (stored_args have_args w old).2 = 128%nat.
Proof. destruct have_args; simpl; rewrite ?length_app, ?length_drop, ?length_insert; lia. Qed.

(** The block of process [p], started by the process whose block is at [par] and
    whose number is [par_pid], with the registers [c]; [old] is what [args] held. *)
Definition child (p par_pid par : Z) (have_args : bool) (w : list Z) (c : cpu) (old : list Z) : pcb :=
  {| pid := p; par_pid := par_pid; par_pcb_ptr := par; fdt := new_fdt;
     args := (stored_args have_args w old).2; arg_len := (stored_args have_args w old).1;
     par_esp := r_esp c; par_ebp := r_ebp c; esp := USER_ESP; ebp := USER_ESP;
     prog_freq := 0; count := 0; divisor := 0 |}.

Section Create.
Context `{L : Layout} (J : locals).
Hypothesis HJ : locals_ok J.
Implicit Types (k : kernel).

Lemma store_args_spec k p b have_args w rest :
  length (args b) = 128%nat -> (length w <= 127)%nat -> Forall (fun c => c <> 0) w ->
  store_args p have_args (w ++ 0 :: rest) (put_block k p b) =
    Ok (tt, put_block k p (set_args (stored_args have_args w (args b)).2
      (set_arg_len (stored_args have_args w (args b)).1 b))).
Proof.
  intros Ha Hw Hz. unfold store_args. destruct have_args.
  - assert (holds (arr_ptr 0) (w ++ 0 :: rest) (w ++ [0])) as Hh.
    { intros i c Hi. simpl. apply arr_get_Some. change (0 :: rest) with ([0] ++ rest).
      rewrite app_assoc. by apply lookup_app_l_Some. }
    rewrite (strlen_terminated (arr_ptr 0) (w ++ 0 :: rest) w) by (done || lia). kcbn.
    rewrite s8_small by lia. kstep (upd_block k p b (set_arg_len (Z.of_nat (length w)))).
    kstep (get_block k p (set_arg_len (Z.of_nat (length w)) b)). cbn [arg_len args set_arg_len].
    rewrite u32_small by lia.
    pose proof (fst_region _ (fun _ : list Z => True) _ _ (arr_region p (Z.of_nat (length w)))) as HR.
    rewrite (strncpy_store _ _ _ (Z.of_nat (length w)) (Z.of_nat (length w) + 1) (w ++ [0]) (HR := HR));
      [|rewrite length_app; simpl; lia|lia|split; [simpl; lia|done]|intros i c Hi; exact (Hh i c Hi)|].
    2: { left. rewrite length_app. simpl. lia. }
    unfold strncpy_bytes. rewrite c_str_app_nil, Nat2Z.id, take_ge by (done || lia). cbv zeta.
    rewrite Nat.sub_diag, app_nil_r. rewrite store_list_fst. cbn [fst snd].
    rewrite arr_store_list by lia. rewrite !Ok_bind. kcbn. cbn [fst]. change (Z.to_nat 0) with 0%nat.
    rewrite take_0, app_nil_l. apply upd_block.
  - kstep (upd_block k p b (set_arg_len (-1))). kstep (get_block k p (set_arg_len (-1) b)).
    cbn [args set_arg_len]. rewrite arr_set_ok by lia. kcbn. apply upd_block.
Qed.

(** The number of the parent: the first three processes are their own parents. *)
Definition parent_pid (new_pid : Z) (c : pcb) : Z := if new_pid <? 3 then new_pid else pid c.

Lemma create_pcb_spec k new_pid have_args w rest b par c :
  pcbs (k_proc k) !! get_pcb_by_pid new_pid = Some b -> running_pcb k par c ->
  (par = get_pcb_by_pid new_pid -> new_pid < 3) ->
  length (args b) = 128%nat -> length (fdt b) = 8%nat ->
  (length w <= 127)%nat -> Forall (fun c => c <> 0) w ->
  exists b', create_pcb new_pid have_args (w ++ 0 :: rest) k =
      Ok (tt, put_block k (get_pcb_by_pid new_pid) b') /\
    set_ebp USER_ESP (set_esp USER_ESP b') =
      child new_pid (parent_pid new_pid c) par have_args w (k_cpu k) (args b).
Proof.
  intros Hb [Hcur Hc] Hsame Ha Hf Hw Hz. unfold create_pcb. set (p := get_pcb_by_pid new_pid) in *.
  set (b1 := set_divisor 0 (set_count 0 (set_prog_freq 0 (set_pid new_pid b)))).
  assert (forall b', get_curr_pcb (put_block k p b') = Ok (par, put_block k p b')) as Hg
    by (intros b'; by rewrite <- Hcur).
  assert (exists c', get_pcb par (put_block k p b1) = Ok (c', put_block k p b1) /\
    (3 <= new_pid -> c' = c)) as (c' & Ec & Hc').
  { destruct (decide (par = p)) as [->|Hne].
    - exists b1. split; [apply get_block|]. intros. specialize (Hsame eq_refl). lia.
    - exists c. split; [|done]. apply get_pcb_ok. simpl. by rewrite lookup_insert_ne. }
  set (b2 := set_par_pid (pid c') b1). set (b3 := set_par_pid (parent_pid new_pid c) b2).
  assert (when (new_pid <? 3) (upd_pcb p (set_par_pid new_pid)) (put_block k p b2) =
    Ok (tt, put_block k p b3)) as Ew.
  { unfold b3, parent_pid. destruct (Z.ltb_spec new_pid 3); [apply upd_block|].
    rewrite <- (Hc' ltac:(lia)). done. }
  set (b4 := set_par_pcb_ptr par b3).
  set (b5 := set_args (stored_args have_args w (args b)).2 (set_arg_len (stored_args have_args w (args b)).1 b4)).
  set (b6 := set_par_ebp (r_ebp (k_cpu k)) (set_par_esp (r_esp (k_cpu k)) b5)).
  pose proof (fdt_loop k p b6 (fun i => if i <? 2 then std_entry i else zero_fdt_entry)
    8 ltac:(change (length (fdt b6)) with (length (fdt b)); lia)) as El.
  change (Z.of_nat 8) with FDT_MAX_ENTRIES in El.
  rewrite drop_ge in El by (change (length (fdt b6)) with (length (fdt b)); lia).
  match type of El with _ = Ok (tt, put_block k p ?x) => exists x end.
  split; [|reflexivity]. rewrite <- (put_block_id k p b Hb) at 1.
  kstep (upd_block k p b (set_pid new_pid)).
  kstep (upd_block k p (set_pid new_pid b) (set_prog_freq 0)).
  kstep (upd_block k p (set_prog_freq 0 (set_pid new_pid b)) (set_count 0)).
  kstep (upd_block k p (set_count 0 (set_prog_freq 0 (set_pid new_pid b))) (set_divisor 0)).
  fold b1. kstep (Hg b1). kstep Ec. kstep (upd_block k p b1 (set_par_pid (pid c'))). fold b2.
  kstep Ew. kstep (Hg b3). kstep (upd_block k p b3 (set_par_pcb_ptr par)). fold b4.
  kstep (store_args_spec k p b4 have_args w rest Ha Hw Hz). fold b5. kcbn.
  change (k_cpu (put_block k p _)) with (k_cpu k).
  kstep (upd_block k p b5 (fun b => set_par_ebp (r_ebp (k_cpu k)) (set_par_esp (r_esp (k_cpu k)) b))).
  fold b6. exact El.
Qed.
End Create.

(** ** The messages *)

Section Messages.
Context `{L : Layout} (J : locals).
Hypothesis HJ : locals_ok J.
Implicit Types (k : kernel).

Abbreviation tty_puts := (foldl (fun t c => tty_putc c t)).

Lemma rendered_text vid k text fmt as_ out :
  forallb (fun c => (0 <? c) && (c <? 256) && negb (c =? 37)) text = true ->
  rendered vid k fmt as_ out -> rendered vid k (text ++ fmt) as_ (text ++ out).
Proof.
  intros H R. induction text as [|c text IH]; [done|]. simpl in *.
  apply andb_prop in H as [Hc H]. constructor; [unfold is_byte; lia|lia|lia|auto].
Qed.

Lemma text_bytes text :
  forallb (fun c => (0 <? c) && (c <? 256)) text = true -> Forall (fun b => is_byte b /\ b <> 0) text.
Proof.
  induction text as [|c text IH]; intros H; simpl in *; [done|].
  apply andb_prop in H as [Hc H]. constructor; [unfold is_byte; lia|auto].
Qed.

Lemma rendered_digit vid k v fmt as_ out :
  0 <= v < 10 -> rendered vid k fmt as_ out ->
  rendered vid k (37 :: 100 :: fmt) (ANum v :: as_) ([48 + v] ++ out).
Proof.
  intros Hv R. apply r_signed; [lia| |done].
  assert (digit_val (48 + v) = v) as Hd by (unfold digit_val; rewrite (proj2 (Z.ltb_lt _ _)); lia).
  split; [unfold parse_num; simpl; lia|]. split; [constructor; [split; lia|constructor]|].
  split; [simpl; lia|]. split; [simpl; lia|by intros ->].
Qed.

Lemma literal_ln_holds s k : holds (literal_ln s) k ((bytes_of_string s ++ [10]) ++ [0]).
Proof. intros i b Hi. apply arr_get_Some. by rewrite <- app_assoc in Hi. Qed.

(** A message with a newline at its end. *)
Lemma message_prints s as_ out k vid t :
  tty_rep k vid t -> rendered vid k (bytes_of_string s ++ [10]) as_ out ->
  Z.of_nat (length (bytes_of_string s)) < 1000 ->
  exists k' n, printf (j_printf J) (literal_ln s) as_ k = Ok (n, k') /\
    tty_rep k' vid (tty_puts t out) /\ screen_frame vid k k'.
Proof.
  intros H R Hl. destruct (printf_rep (j_printf J) (literal_ln s) _ _ _ k vid t (lo_printf _ HJ) H R)
    as (k' & E & H' & F); [rewrite length_app; simpl; lia|intros; apply literal_ln_holds|].
  by exists k', (Z.of_nat (length (bytes_of_string s ++ [10]))).
Qed.

Definition exec_message (p cp : Z) : list Z :=
  bytes_of_string "-- Executing Process #" ++ [48 + p] ++ bytes_of_string " (T" ++ [48 + cp] ++
  bytes_of_string ") --" ++ [10].
Definition max_message : list Z := bytes_of_string "-- Max Processes Already Reached (6) --" ++ [10].
Definition halt_message (p : Z) : list Z :=
  bytes_of_string "-- Halting Process #" ++ [48 + p] ++ bytes_of_string " --" ++ [10].

Lemma exec_rendered vid k p cp :
  0 <= p < 10 -> 0 <= cp < 10 ->
  rendered vid k (bytes_of_string "-- Executing Process #%d (T%d) --" ++ [10]) [ANum p; ANum cp]
    (exec_message p cp).
Proof.
  intros Hp Hc. unfold exec_message.
  apply (rendered_text vid k (bytes_of_string "-- Executing Process #")); [done|].
  apply rendered_digit; [done|]. apply (rendered_text vid k (bytes_of_string " (T")); [done|].
  apply rendered_digit; [done|]. apply (rendered_text vid k (bytes_of_string ") --")); [done|].
  apply (rendered_text vid k [10] [] [] []); [done|constructor].
Qed.

Lemma max_rendered vid k :
  rendered vid k (bytes_of_string "-- Max Processes Already Reached (%d) --" ++ [10]) [ANum MAX_PROCESSES]
    max_message.
Proof.
  apply (rendered_text vid k (bytes_of_string "-- Max Processes Already Reached (")
    _ _ (bytes_of_string "6) --" ++ [10])); [done|].
  apply (rendered_digit vid k 6 _ [] (bytes_of_string ") --" ++ [10])); [lia|].
  apply (rendered_text vid k (bytes_of_string ") --")); [done|].
  apply (rendered_text vid k [10] [] [] []); [done|constructor].
Qed.

Lemma halt_rendered vid k p :
  0 <= p < 10 ->
  rendered vid k (bytes_of_string "-- Halting Process #%d --" ++ [10]) [ANum p] (halt_message p).
Proof.
  intros Hp. apply (rendered_text vid k (bytes_of_string "-- Halting Process #")); [done|].
  apply rendered_digit; [done|]. apply (rendered_text vid k (bytes_of_string " --")); [done|].
  apply (rendered_text vid k [10] [] [] []); [done|constructor].
Qed.
End Messages.

(** ** Loading and starting *)

(** The terminal [t] with the processes [curr] and [par]. *)
Definition run_as (curr par : Z) (t : terminal_state) : terminal_state :=
  set_prog_par_pid par (set_prog_curr_pid curr t).

(** The address of the program in physical memory. *)
Definition load_pa (p : Z) : Z := (p + 2) * _4_MB + 0x48000.
Definition load_cap : Z := _132_MB - PROG_LOAD_ADDR.

Section Start.
Context `{L : Layout} (J : locals).
Hypothesis HJ : locals_ok J.
Implicit Types (k : kernel).

Abbreviation tty_puts := (foldl (fun t c => tty_putc c t)).

Lemma tty_rep_ext k k' vid t :
  tty_rep k vid t -> (exists prog uvid, paging_rep (k_pg k') prog vid uvid) ->
  (forall a, vid * 4096 <= a < vid * 4096 + 4000 -> k_mem k' !! a = k_mem k !! a) ->
  k_scr k' = k_scr k -> curr_process (k_ter k') = curr_process (k_ter k) ->
  length (terminals (k_ter k')) = length (terminals (k_ter k)) -> tty_rep k' vid t.
Proof.
  intros H Hm Ha Hs Hc Hl. destruct (tr_shows _ _ _ H) as (H25 & H80 & Hcells).
  destruct H. split; rewrite ?Hs, ?Hc, ?Hl; auto. split; [done|]. split; [done|].
  intros y x r c a Hr Hx. pose proof (lookup_lt_Some _ _ _ Hr) as Hy.
  pose proof (Forall_lookup_1 _ _ _ _ H80 Hr) as H8. simpl in H8.
  pose proof (lookup_lt_Some _ _ _ Hx). destruct (Hcells y x r c a Hr Hx) as [H1 H2].
  by rewrite !Ha by lia.
Qed.

Lemma kenable_program_page_rep k prog vid uvid p :
  paging_rep (k_pg k) prog vid uvid -> 0 <= p < 500 ->
  exists pg, kenable_program_page p k = Ok (tt, set_k_pg pg k) /\ paging_rep pg (Some p) vid uvid.
Proof.
  intros R Hp. destruct (enable_program_page_rep _ _ _ _ p R Hp) as (s & E & R').
  exists s. split; [|done]. unfold kenable_program_page, on. by rewrite E.
Qed.

Lemma put_running_spec k t a b :
  0 <= curr_process (k_ter k) -> terminals (k_ter k) !! Z.to_nat (curr_process (k_ter k)) = Some t ->
  put_running a b k = Ok (tt, set_k_ter (set_terminals
    (<[Z.to_nat (curr_process (k_ter k)) := run_as a b t]> (terminals (k_ter k))) (k_ter k)) k).
Proof.
  intros Hc Ht. unfold put_running. kcbn. set (cp := curr_process (k_ter k)) in *.
  kstep (upd_terminal_ok cp (set_prog_curr_pid a) k t Hc Ht).
  pose proof (lookup_lt_Some _ _ _ Ht).
  rewrite (upd_terminal_ok cp _ _ (set_prog_curr_pid a t) Hc) by (simpl; by apply list_lookup_insert_eq).
  cbn [k_ter set_k_ter terminals set_terminals]. by rewrite list_insert_insert_eq.
Qed.

Lemma put_used_spec k i v :
  0 <= i < Z.of_nat (length (used_pids (k_proc k))) ->
  put_used i v k =
    Ok (tt, set_k_proc (set_used_pids (<[Z.to_nat i := v]> (used_pids (k_proc k))) (k_proc k)) k).
Proof. intros Hi. unfold put_used. by rewrite arr_set_ok. Qed.

Lemma load_word_spec k a bs :
  holds (vptr a) k bs -> length bs = 4%nat -> load_word a k = Ok (from_le bs, k).
Proof.
  intros H Hl. unfold load_word, load32. apply holds_load_list in H. rewrite Hl in H. by rewrite H.
Qed.

(** The image of the file system is in the kernel's own 4 MB. *)
Context (img : list Z) (start : Z).
Hypothesis W : image_wf img.
Hypothesis Hstart : KERNEL_MEM_START <= start /\ start + Z.of_nat (length img) <= 2 * _4_MB.

Lemma kernel_mounted k k' prog vid uvid :
  mounted img start start k -> paging_rep (k_pg k') prog vid uvid -> k_fs k' = k_fs k ->
  (forall a, KERNEL_MEM_START <= a < 2 * _4_MB -> k_mem k' !! a = k_mem k !! a) ->
  mounted img start start k'.
Proof.
  intros [] R Hf Hm. split.
  - by rewrite Hf.
  - eapply (kernel_maps _ _ _ _ _ _ R); lia.
  - intros i b Hi. pose proof (lookup_lt_Some _ _ _ Hi). rewrite Hm by lia. auto.
Qed.

(** The program in its page. *)
Lemma load_program k p vid uvid inode :
  mounted img start start k -> paging_rep (k_pg k) (Some p) vid uvid -> 0 <= p < 500 ->
  0 <= inode < img_inodes img -> inode_len img inode <= load_cap ->
  read_data vptr (k_fs k) inode 0 (vptr PROG_LOAD_ADDR) FOUR_MB k =
    Ok (inode_len img inode, set_k_mem (put_bytes (load_pa p) (file_contents img inode) (k_mem k)) k).
Proof.
  intros M R Hp Hi Hl. unfold KERNEL_MEM_START, _4_MB in Hstart.
  pose proof (length_file_contents img inode (iw_bytes _ W)) as Hfl.
  pose proof (img_u32_range img (inode_off inode) (iw_bytes _ W)) as Hr. fold (inode_len img inode) in Hr.
  assert (buffer img start k PROG_LOAD_ADDR (load_pa p) load_cap) as B.
  { split.
    - apply (user_maps _ p vid uvid PROG_LOAD_ADDR load_cap R); unfold load_cap, PROG_LOAD_ADDR, _128_MB, _132_MB; lia.
    - unfold load_pa, _4_MB. lia. }
  assert (take (Z.to_nat FOUR_MB) (drop (Z.to_nat 0) (file_contents img inode)) = file_contents img inode) as Et.
  { change (Z.to_nat 0) with 0%nat. rewrite drop_0. apply take_ge.
    unfold FOUR_MB, load_cap, _132_MB, PROG_LOAD_ADDR in *. lia. }
  pose proof (read_data_upto img start start W ltac:(lia) k inode 0 PROG_LOAD_ADDR (load_pa p) FOUR_MB load_cap
    M B Hi ltac:(unfold FOUR_MB; lia) ltac:(lia)) as E. cbv zeta in E. rewrite Et in E.
  rewrite E by lia. do 2 f_equal. lia.
Qed.
End Start.
