(* ===== verification/Launch.v ===== *)
(** * The result of [sys_execute]

    What a process finds when it starts, and the three ways [sys_execute] ends. *)

From stdpp Require Import base gmap list numbers strings.
From Stdlib Require Import ZArith Lia.
From S2P Require Import Prelude Pointers Ports Pic Paging State Machine VirtMem CString MemFns.
From S2P Require Import Pcb Demo Screen Printf FileSystem Rtc Keyboard Terminal Syscalls Process.
From S2P Require Import Descriptors Command Exec.

Abbreviation tty_puts := (foldl (fun t c => tty_putc c t)).

Lemma alter_at {A} (f : A -> A) (l : list A) i x : l !! i = Some x -> alter f i l = <[i := f x]> l.
Proof.
  revert i. induction l as [|y l IH]; intros [|i] H; simplify_eq/=; [done|]. f_equal. by apply IH.
Qed.

Section Launch.
Context `{L : Layout}.

(** Process [p] was started from the kernel state [k], by the process whose block
    [c] is at [par], with the file [inode] as its program and [w] as its argument;
    [vid] and [t] are the page and the contents of the running terminal's screen. *)
Record executed (img : list Z) (inode p : Z) (have_args : bool) (w : list Z)
    (k k' : kernel) (par : Z) (c : pcb) (vid : Z) (uvid : option Z) (t : tty) : Prop := {
  ex_image : bytes_at (k_mem k') (load_pa p) (file_contents img inode);
  ex_mem a : ~ ((p + 2) * _4_MB <= a < (p + 3) * _4_MB) ->
    ~ (vid * 4096 <= a < vid * 4096 + 4000) -> k_mem k' !! a = k_mem k !! a;
  ex_map : paging_rep (k_pg k') (Some p) vid uvid;
  ex_proc : exists old, k_proc k' =
    {| used_pids := <[Z.to_nat p := 1]> (used_pids (k_proc k));
       pcbs := <[get_pcb_by_pid p :=
         child p (parent_pid p c) par have_args w (k_cpu k) old]> (pcbs (k_proc k)) |};
  ex_tss : esp0 (k_tss k') = 0x800000 - 4 - p * 0x2000 /\ ss0 (k_tss k') = KERNEL_DS;
  ex_screen : tty_rep k' vid (tty_puts t (exec_message p (curr_process (k_ter k))));
  ex_ter : strip_cursor <$> terminals (k_ter k') =
    alter (run_as p (parent_pid p c)) (Z.to_nat (curr_process (k_ter k)))
      (strip_cursor <$> terminals (k_ter k));
  ex_other i : i <> Z.to_nat (curr_process (k_ter k)) ->
    terminals (k_ter k') !! i = terminals (k_ter k) !! i;
  ex_ct : curr_ter (k_ter k') = curr_ter (k_ter k);
  ex_cp : curr_process (k_ter k') = curr_process (k_ter k);
  ex_cpu : k_cpu k' = k_cpu k;
  ex_kbd : k_kbd k' = k_kbd k;
  ex_pic : k_pic k' = k_pic k;
  ex_rtc : k_rtc k' = k_rtc k;
  ex_fs : k_fs k' = k_fs k;
  ex_blocks q : 0 <= q < 6 -> exists b, pcbs (k_proc k') !! get_pcb_by_pid q = Some b /\
    length (fdt b) = 8%nat /\ length (args b) = 128%nat;
}.

(** The first instruction of the program: the word at offset 24 of its file. *)
Definition entry_point (img : list Z) (inode : Z) : Z :=
  from_le (take 4 (drop 24 (file_contents img inode))).

Context (J : locals).
Hypothesis HJ : locals_ok J.
Context (img : list Z) (start : Z).
Hypothesis W : image_wf img.
Hypothesis Hstart : KERNEL_MEM_START <= start /\ start + Z.of_nat (length img) <= 2 * _4_MB.

(** The state [sys_execute] and [sys_halt] are called in: a process runs on a
    terminal whose screen shows [t]. *)
Record kernel_ok (k : kernel) (par : Z) (c : pcb) (prog : option Z) (vid : Z) (uvid : option Z) (t : tty) : Prop := {
  ko_running : running_pcb k par c;
  ko_map : paging_rep (k_pg k) prog vid uvid;
  ko_vid : 0 <= vid < 1024;
  ko_tty : tty_rep k vid t;
  ko_used : length (used_pids (k_proc k)) = 6%nat;
  ko_pcbs q : 0 <= q < 6 -> exists b, pcbs (k_proc k) !! get_pcb_by_pid q = Some b /\
    length (fdt b) = 8%nat /\ length (args b) = 128%nat;
}.

(** The program is in its page and its entry point is known. *)
Lemma start_process_loads k prog vid uvid p inode have_args arguments :
  paging_rep (k_pg k) prog vid uvid -> mounted img start start k -> 0 <= p < 6 ->
  0 <= inode < img_inodes img -> 28 <= inode_len img inode <= load_cap ->
  exists pg, paging_rep pg (Some p) vid uvid /\
    start_process J p inode have_args arguments k =
      enter_process J p (entry_point img inode) have_args arguments
        (set_k_mem (put_bytes (load_pa p) (file_contents img inode) (k_mem k)) (set_k_pg pg k)).
Proof.
  intros R M Hp Hi Hlen. unfold start_process.
  destruct (kenable_program_page_rep k prog vid uvid p R) as (pg & E1 & R1); [lia|].
  exists pg. split; [done|]. kstep E1. set (k1 := set_k_pg pg k).
  assert (mounted img start start k1) as M1.
  { apply (kernel_mounted img start Hstart k k1 (Some p) vid uvid); auto. }
  pose proof (load_program img start W Hstart k1 p vid uvid inode M1 R1 ltac:(lia) Hi ltac:(lia)) as E2.
  rewrite (K_bind_Ok (fun k => read_data _ _ _ _ _ _ k) _ k1 _ _ E2). cbv beta.
  rewrite (proj2 (Z.eqb_neq (inode_len img inode) ERROR)) by (unfold ERROR; lia).
  set (k2 := set_k_mem _ k1).
  pose proof (length_file_contents img inode (iw_bytes _ W)) as Hfl.
  erewrite K_bind_Ok; [reflexivity|].
  apply load_word_spec; [|rewrite length_take, length_drop; lia].
  intros i b Hb. apply lookup_take_Some in Hb as [Hb _]. rewrite lookup_drop in Hb.
  pose proof (lookup_lt_Some _ _ _ Hb). simpl. rewrite <- Z.add_assoc.
  apply (vload_maps k2 PROG_LOAD_ADDR (load_pa p) load_cap).
  - apply (user_maps _ p vid uvid PROG_LOAD_ADDR load_cap R1); unfold load_cap, PROG_LOAD_ADDR, _128_MB, _132_MB; lia.
  - unfold PROG_ENTRY_OFFSET, load_cap in *. lia.
  - unfold PROG_ENTRY_OFFSET. replace (load_pa p + (24 + Z.of_nat i)) with (load_pa p + Z.of_nat (24 + i)) by lia.
    by apply bytes_at_put.
Qed.

(** From the creation of the block on. *)
Lemma enter_process_spec k par c prog vid uvid t p eip have_args w rest :
  kernel_ok k par c prog vid uvid t ->
  0 <= p < 6 -> (par = get_pcb_by_pid p -> p < 3) ->
  (length w <= 127)%nat -> Forall (fun b => b <> 0) w ->
  exists k5 old ts, enter_process J p eip have_args (w ++ 0 :: rest) k =
      Ok (Enters eip USER_ESP,
        set_k_proc {| used_pids := <[Z.to_nat p := 1]> (used_pids (k_proc k));
          pcbs := <[get_pcb_by_pid p := child p (parent_pid p c) par have_args w (k_cpu k) old]> (pcbs (k_proc k)) |}
        (set_k_ter (set_terminals (<[Z.to_nat (curr_process (k_ter k)) := run_as p (parent_pid p c) ts]>
          (terminals (k_ter k5))) (k_ter k5)) k5)) /\
    length old = 128%nat /\ terminals (k_ter k5) !! Z.to_nat (curr_process (k_ter k)) = Some ts /\
    tty_rep k5 vid (tty_puts t (exec_message p (curr_process (k_ter k)))) /\
    esp0 (k_tss k5) = 0x800000 - 4 - p * 0x2000 /\ ss0 (k_tss k5) = KERNEL_DS /\
    exists b ts, screen_frame vid (set_k_tss ts (put_block k (get_pcb_by_pid p) b)) k5.
Proof.
  intros [] Hp Hsame Hw Hz. unfold enter_process.
  destruct (ko_pcbs0 p Hp) as (b & Hb & Hbf & Hba).
  destruct (create_pcb_spec k p have_args w rest b par c Hb ko_running0 Hsame Hba Hbf Hw Hz)
    as (b' & E4 & Hb').
  kstep E4. set (k3 := put_block k _ b'). unfold put_tss. kcbn. set (k4 := set_k_tss _ k3).
  set (cp := curr_process (k_ter k)). change (curr_process (k_ter k4)) with cp.
  pose proof (tr_cp _ _ _ ko_tty0) as Hcp. pose proof (tr_len _ _ _ ko_tty0) as Hlt.
  rewrite !u32_small by lia.
  assert (tty_rep k4 vid t) as H4 by (apply (tty_rep_ext k); eauto).
  destruct (message_prints J HJ _ _ _ k4 vid t H4 (exec_rendered vid k4 p cp ltac:(lia) ltac:(lia)))
    as (k5 & n & E5 & H5 & F5); [done|].
  kstep E5. pose proof F5 as [].
  destruct (lookup_lt_is_Some_2 (terminals (k_ter k5)) (Z.to_nat cp)) as [ts Hts].
  { rewrite (tr_len _ _ _ H5). lia. }
  assert (k_proc k5 = set_pcbs (<[get_pcb_by_pid p := b']> (pcbs (k_proc k))) (k_proc k)) as Ep by done.
  kstep (put_used_spec k5 p 1 ltac:(rewrite Ep; simpl; lia)). set (k6 := set_k_proc _ k5).
  kstep (get_pcb_ok (get_pcb_by_pid p) k6 b' ltac:(simpl; rewrite Ep; apply lookup_insert_eq)).
  assert (par_pid b' = parent_pid p c) as Hpar by exact (f_equal par_pid Hb').
  rewrite Hpar. assert (curr_process (k_ter k5) = cp) as Hcp5 by done.
  pose proof (put_running_spec k6 ts p (parent_pid p c) ltac:(simpl; lia) ltac:(simpl; by rewrite Hcp5)) as E7.
  kstep E7. simpl curr_process. rewrite Hcp5.
  kstep (upd_pcb_ok (get_pcb_by_pid p) (fun b => set_ebp USER_ESP (set_esp USER_ESP b))
    (set_k_ter (set_terminals (<[Z.to_nat cp := run_as p (parent_pid p c) ts]> (terminals (k_ter k5))) (k_ter k5)) k6)
    b' ltac:(simpl; rewrite Ep; apply lookup_insert_eq)).
  kcbn. rewrite Hb'. exists k5, (args b), ts.
  split; [|split; [done|split; [done|split; [done|split; [|split; [by rewrite fr_tss|by exists b', (k_tss k4)]]]]]].
  - simpl k_proc. rewrite Ep. cbn [pcbs used_pids set_pcbs set_used_pids].
    by rewrite insert_insert_eq.
  - rewrite fr_tss. change (esp0 _) with (u32 (0x800000 - 4 - p * 0x2000)). apply u32_small. lia.
Qed.
Lemma start_process_spec k par c prog vid uvid t p inode have_args w rest :
  kernel_ok k par c prog vid uvid t -> mounted img start start k ->
  0 <= p < 6 -> (par = get_pcb_by_pid p -> p < 3) ->
  0 <= inode < img_inodes img -> 28 <= inode_len img inode <= load_cap ->
  (length w <= 127)%nat -> Forall (fun b => b <> 0) w ->
  exists k', start_process J p inode have_args (w ++ 0 :: rest) k =
      Ok (Enters (entry_point img inode) USER_ESP, k') /\
    executed img inode p have_args w k k' par c vid uvid t.
Proof.
  intros K M Hp Hsame Hi Hlen Hw Hz. pose proof K as [].
  destruct (start_process_loads k prog vid uvid p inode have_args (w ++ 0 :: rest) ko_map0 M Hp Hi Hlen)
    as (pg & R & ->). set (k2 := set_k_mem _ _).
  pose proof (length_file_contents img inode (iw_bytes _ W)) as Hfl.
  assert (forall a, ~ ((p + 2) * _4_MB <= a < (p + 3) * _4_MB) -> k_mem k2 !! a = k_mem k !! a) as Hmem.
  { intros a Ha. apply lookup_put_bytes_out. unfold load_pa, load_cap, PROG_LOAD_ADDR, _132_MB, _4_MB in *. lia. }
  assert (kernel_ok k2 par c (Some p) vid uvid t) as K2.
  { split; auto. apply (tty_rep_ext k); eauto. intros a Ha. apply Hmem. unfold _4_MB. lia. }
  destruct (enter_process_spec k2 par c (Some p) vid uvid t p (entry_point img inode) have_args w rest
    K2 Hp Hsame Hw Hz) as (k5 & old & ts & -> & Hold & Hts & H5 & He & Hs & b & tss & F).
  eexists. split; [reflexivity|]. destruct F. change (curr_process (k_ter k2)) with (curr_process (k_ter k)) in *.
  split; cbn [k_mem k_pg k_proc k_tss k_ter k_cpu k_kbd k_pic k_rtc k_fs set_k_proc set_k_ter]; auto.
  - intros i x Hx. pose proof (lookup_lt_Some _ _ _ Hx). rewrite fr_mem by (unfold load_pa, _4_MB; lia).
    by apply (bytes_at_put (load_pa p)).
  - intros a H1 H2. rewrite fr_mem by done. by apply Hmem.
  - by rewrite fr_pg.
  - by exists old.
  - apply (tty_rep_ext k5); auto.
    + exists (Some p), uvid. simpl. by rewrite fr_pg.
    + simpl. by rewrite length_insert.
  - simpl terminals. change (terminals (k_ter k)) with
      (terminals (k_ter (set_k_tss tss (put_block k2 (get_pcb_by_pid p) b)))).
    rewrite list_fmap_insert, <- fr_strip.
    by rewrite (alter_at _ _ _ (strip_cursor ts)) by by rewrite list_lookup_fmap, Hts.
  - intros i Hne. simpl. rewrite list_lookup_insert_ne by done. by rewrite fr_other.
  - intros q Hq. simpl. destruct (decide (q = p)) as [->|Hne].
    + rewrite lookup_insert_eq. eexists. split; [done|]. split; [done|]. by apply stored_args_length.
    + rewrite lookup_insert_ne by (intros Heq; apply Hne; symmetry; apply (pcb_by_pid_inj p q); lia || done). auto.
Qed.
End Launch.

(** ** The properties of [sys_execute] *)

Section ExecuteClaims.
Context `{L : Layout} (J : locals) (img : list Z) (start : Z).

Lemma execute_starts k par c prog vid uvid t command l inode p :
  locals_ok J -> image_wf img ->
  KERNEL_MEM_START <= start /\ start + Z.of_nat (length img) <= 2 * _4_MB ->
  kernel_ok k par c prog vid uvid t -> mounted img start start k -> command_at k command l ->
  program J img (c_str (cmd_name l)) = Some inode ->
  free_pid (used_pids (k_proc k)) = Some p ->
  (par = get_pcb_by_pid (Z.of_nat p) -> Z.of_nat p < 3) ->
  28 <= inode_len img inode <= load_cap ->
  exists k', sys_execute J command k = Ok (Enters (entry_point img inode) USER_ESP, k') /\
    executed img inode (Z.of_nat p) (cmd_have_args l) (cmd_arg l) k k' par c vid uvid t.
Proof.
  intros HJ W Hs K M C Hprog Hfree Hsame Hlen. pose proof K as [].
  assert (0 <= start /\ start + Z.of_nat (length img) < 2 ^ 32) as Hs'
    by (unfold KERNEL_MEM_START, _4_MB in Hs; lia).
  rewrite (execute_checks J img start start W Hs' HJ k command l M C ko_used0), Hprog, Hfree.
  destruct (collected_arg J l (lo_args _ HJ)) as (rest & ->).
  pose proof (free_pid_Some _ _ Hfree) as [Hp _]. apply lookup_lt_Some in Hp.
  apply (start_process_spec J HJ img start W Hs k par c prog vid uvid t); auto; [lia| | |].
  - unfold program in Hprog. destruct (find_name img _) as [i|] eqn:Ef; [|done].
    apply find_name_Some in Ef as (Hi & _ & _). pose proof (counts img start W Hs') as (_ & _ & _ & Hnd).
    pose proof (dentry_inode_nonneg img W i ltac:(lia)).
    destruct (Z.ltb_spec (dentry_inode img i) (img_inodes img)); [|done].
    simpl in Hprog. case_bool_decide; simplify_eq. lia.
  - apply cmd_arg_length.
  - apply cmd_arg_nonzero.
Qed.

(** (C10) [sys_execute] of a command whose name is a program of the file system,
    with a process number free: it terminates, and enters user mode at the entry
    point stored in the program's file, on the user stack, as the process with
    the lowest free number.  The file stands at 0x8048000 of that process's page;
    its block has standard input and output, the argument of the command, and
    the way back to the caller; the running terminal belongs to it; the start is
    announced on the screen; all other memory, blocks and devices are as before. *)
Theorem sys_execute_starts k par c prog vid uvid t command l inode p :
  locals_ok J -> image_wf img ->
  KERNEL_MEM_START <= start /\ start + Z.of_nat (length img) <= 2 * _4_MB ->
  kernel_ok k par c prog vid uvid t -> mounted img start start k -> command_at k command l ->
  program J img (c_str (cmd_name l)) = Some inode ->
  free_pid (used_pids (k_proc k)) = Some p ->
  (par = get_pcb_by_pid (Z.of_nat p) -> Z.of_nat p < 3) ->
  28 <= inode_len img inode <= load_cap ->
  exists k', sys_execute J command k = Ok (Enters (entry_point img inode) USER_ESP, k') /\
    executed img inode (Z.of_nat p) (cmd_have_args l) (cmd_arg l) k k' par c vid uvid t.
Proof. apply execute_starts. Qed.

Lemma execute_refused k par c prog vid uvid t command l :
  locals_ok J -> image_wf img ->
  KERNEL_MEM_START <= start /\ start + Z.of_nat (length img) <= 2 * _4_MB ->
  kernel_ok k par c prog vid uvid t -> mounted img start start k -> command_at k command l ->
  (program J img (c_str (cmd_name l)) = None -> sys_execute J command k = Ok (Returns ERROR, k)) /\
  (forall inode, program J img (c_str (cmd_name l)) = Some inode ->
    free_pid (used_pids (k_proc k)) = None ->
    exists k', sys_execute J command k = Ok (Returns ERROR, k') /\
      tty_rep k' vid (tty_puts t max_message) /\ screen_frame vid k k').
Proof.
  intros HJ W Hs K M C. pose proof K as [].
  rewrite (execute_checks J img start start W ltac:(unfold KERNEL_MEM_START, _4_MB in Hs; lia) HJ k command l M C ko_used0).
  split; [by intros ->|]. intros inode -> ->.
  destruct (message_prints J HJ _ _ _ k vid t ko_tty0 (max_rendered vid k)) as (k' & n & E & H & F); [done|].
  exists k'. by kstep E.
Qed.

(** (C27) [sys_execute] that cannot start a program returns -1 and no process is
    created: a name without directory entry, an inode the file system does not
    have, or a file without the magic number leave the kernel exactly as it was;
    with six processes running, only a message on the screen is added. *)
Theorem sys_execute_refuses k par c prog vid uvid t command l :
  locals_ok J -> image_wf img ->
  KERNEL_MEM_START <= start /\ start + Z.of_nat (length img) <= 2 * _4_MB ->
  kernel_ok k par c prog vid uvid t -> mounted img start start k -> command_at k command l ->
  (program J img (c_str (cmd_name l)) = None -> sys_execute J command k = Ok (Returns ERROR, k)) /\
  (forall inode, program J img (c_str (cmd_name l)) = Some inode ->
    free_pid (used_pids (k_proc k)) = None ->
    exists k', sys_execute J command k = Ok (Returns ERROR, k') /\
      tty_rep k' vid (tty_puts t max_message) /\ screen_frame vid k k').
Proof. apply execute_refused. Qed.
End ExecuteClaims.
