(* ===== verification/Halt.v ===== *)
(** * The end of a process

    [sys_halt] of a process that was started by another one: everything the process
    had is given back and the parent continues behind its [sys_execute].
    [sys_execute] followed by [sys_halt] leaves the parent as it was.  The
    theorems are on processes that hold no open descriptor of the clock
    ([closable]). *)

From stdpp Require Import base gmap list numbers strings.
From Stdlib Require Import ZArith Lia.
From S2P Require Import Prelude Pointers Ports Pic Paging State Machine VirtMem CString MemFns.
From S2P Require Import Pcb Demo Screen Printf FileSystem Rtc Keyboard Terminal Syscalls Process.
From S2P Require Import Descriptors Command Exec Launch.

(** No open descriptor is one of the clock, and all of them have operations. *)
Definition closable (T : list fdt_entry) : Prop :=
  length T = 8%nat /\
  Forall (fun e => enabled e <> 0 -> exists f, fot_ptr e = Some f /\ f <> rtc_fot) T.

Lemma closable_new : closable new_fdt.
Proof.
  split; [done|]. constructor; [|constructor].
  - intros _. by exists stdin_fot.
  - intros _. by exists stdout_fot.
  - apply Forall_replicate. intros Hz. by destruct Hz.
Qed.

Section Halt.
Context `{L : Layout} (J : locals).
Hypothesis HJ : locals_ok J.

(** Process [q] ended; [b] was its block and [pb] its parent's. *)
Record halted (q : Z) (b pb : pcb) (k k' : kernel) (vid : Z) (uvid : option Z) (t : tty) : Prop := {
  ha_cpu : k_cpu k' = set_r_ebp (par_ebp b) (set_r_esp (par_esp b) (k_cpu k));
  ha_proc : k_proc k' =
    {| used_pids := <[Z.to_nat q := 0]> (used_pids (k_proc k));
       pcbs := <[get_pcb_by_pid q := zero_pcb]> (pcbs (k_proc k)) |};
  ha_map : paging_rep (k_pg k') (Some (par_pid b)) vid uvid;
  ha_tss : esp0 (k_tss k') = 0x800000 - 4 - par_pid b * 0x2000 /\ ss0 (k_tss k') = KERNEL_DS;
  ha_screen : tty_rep k' vid (tty_puts t (halt_message q));
  ha_ter : strip_cursor <$> terminals (k_ter k') =
    alter (run_as (pid pb) (par_pid pb)) (Z.to_nat (curr_process (k_ter k)))
      (strip_cursor <$> terminals (k_ter k));
  ha_other i : i <> Z.to_nat (curr_process (k_ter k)) ->
    terminals (k_ter k') !! i = terminals (k_ter k) !! i;
  ha_ct : curr_ter (k_ter k') = curr_ter (k_ter k);
  ha_cp : curr_process (k_ter k') = curr_process (k_ter k);
  ha_mem a : ~ (vid * 4096 <= a < vid * 4096 + 4000) -> k_mem k' !! a = k_mem k !! a;
  ha_kbd : k_kbd k' = k_kbd k;
  ha_pic : k_pic k' = k_pic k;
  ha_rtc : k_rtc k' = k_rtc k;
  ha_fs : k_fs k' = k_fs k;
}.

(** Process [q] is about to end. *)
Record halting (q : Z) (b : pcb) (k : kernel) (prog : option Z) (vid : Z) (uvid : option Z) (t : tty) : Prop := {
  hl_tty : tty_rep k vid t;
  hl_map : paging_rep (k_pg k) prog vid uvid;
  hl_used : length (used_pids (k_proc k)) = 6%nat;
  hl_pid : 0 <= q < 6;
  hl_curr : exists s, terminals (k_ter k) !! Z.to_nat (curr_process (k_ter k)) = Some s /\ prog_curr_pid s = q;
  hl_block : pcbs (k_proc k) !! get_pcb_by_pid q = Some b;
  hl_own : pid b = q;
  hl_par : 0 <= par_pid b < 6;
  hl_files : closable (fdt b);
}.

Lemma close_files_spec k p b :
  pcbs (k_proc k) !! p = Some b -> closable (fdt b) -> close_files p k = Ok (tt, k).
Proof.
  intros Hb [Hl Hf]. unfold close_files.
  destruct (kfor_inv (fun _ k' => k' = k) 0 FDT_MAX_ENTRIES (fun i =>
    e ← get_fdt p i;
    when (negb (enabled e =? 0)) (f ← the_fot e; fot_close f i;; mret tt)) k) as (k' & E & ->);
    [unfold FDT_MAX_ENTRIES; lia|done| |done].
  intros i k' Hi ->. unfold FDT_MAX_ENTRIES in Hi.
  destruct (lookup_lt_is_Some_2 (fdt b) (Z.to_nat i)) as [e He]; [lia|].
  exists k. split; [|done].
  assert (get_fdt p i k = Ok (e, k)) as Eg.
  { unfold get_fdt. rewrite (get_pcb_ok p k b Hb), Ok_bind. cbn [fst].
    by rewrite (proj2 (arr_get_lookup _ _ _) (conj (proj1 Hi) He)). }
  kstep Eg. destruct (Z.eqb_spec (enabled e) 0) as [|Hne]; [done|]. cbn [negb]. kcbn.
  destruct (Forall_lookup_1 _ _ _ _ Hf He Hne) as (f & Hfp & Hrtc).
  unfold the_fot. rewrite Hfp. kcbn. by destruct f.
Qed.

Lemma resume_parent_spec k p b pb s status :
  pcbs (k_proc k) !! p = Some b -> pcbs (k_proc k) !! par_pcb_ptr b = Some pb ->
  0 <= curr_process (k_ter k) -> terminals (k_ter k) !! Z.to_nat (curr_process (k_ter k)) = Some s ->
  resume_parent p status k = Ok (Resumes (u8 status),
    set_k_cpu (set_r_ebp (par_ebp b) (set_r_esp (par_esp b) (k_cpu k)))
    (put_block (set_k_ter (set_terminals (<[Z.to_nat (curr_process (k_ter k)) :=
      run_as (pid pb) (par_pid pb) s]> (terminals (k_ter k))) (k_ter k)) k) p zero_pcb)).
Proof.
  intros Hb Hpb Hcp Hs. unfold resume_parent. kstep (get_pcb_ok p k b Hb).
  kstep (get_pcb_ok _ k pb Hpb). kstep (put_running_spec k s (pid pb) (par_pid pb) Hcp Hs).
  set (k1 := set_k_ter _ k). kstep (get_pcb_ok p k1 b Hb). kstep (upd_pcb_ok p (fun _ => zero_pcb) k1 b Hb).
  by kcbn.
Qed.

Lemma frame_pg vid k k' pg : screen_frame vid k k' -> screen_frame vid (set_k_pg pg k) (set_k_pg pg k').
Proof. intros []. by split. Qed.

(** What every halt does first: the number, the page and the kernel stack go back. *)
Definition released (q par : Z) (pg : paging) (k : kernel) : kernel :=
  set_k_pg pg (set_k_proc (set_used_pids (<[Z.to_nat q := 0]> (used_pids (k_proc k))) (k_proc k))
    (set_k_tss (set_esp0 (u32 (_8MB - 4 - par * _8KB)) (set_ss0 KERNEL_DS (k_tss k))) k)).

Lemma sys_halt_releases k q b prog vid uvid t status :
  halting q b k prog vid uvid t ->
  exists k4 pg, paging_rep pg (Some (par_pid b)) vid uvid /\
    screen_frame vid (released q (par_pid b) pg k) k4 /\ tty_rep k4 vid (tty_puts t (halt_message q)) /\
    sys_halt J status k =
      (if q <? 3 then
        puts (literal_ln "-- Exited Root Process --");;
        r ← sys_execute J (shell J);
        match r with Returns _ => resume_parent (get_pcb_by_pid q) status | _ => mret r end
      else resume_parent (get_pcb_by_pid q) status) k4.
Proof.
  intros []. destruct hl_curr0 as (s & Hs & Hq). pose proof (tr_cp _ _ _ hl_tty0) as Hcp.
  set (p := get_pcb_by_pid q) in *. unfold sys_halt, curr_pid. kcbn.
  kstep (get_terminal_ok (curr_process (k_ter k)) k s ltac:(lia) Hs). kcbn. rewrite Hq. fold p.
  rewrite (proj2 (Z.eqb_neq p NULL)) by (apply pcb_not_null; lia).
  kstep (get_pcb_ok p k b hl_block0). rewrite hl_own0. unfold put_tss. kcbn. set (k1 := set_k_tss _ k).
  kstep (put_used_spec k1 q 0 ltac:(simpl; lia)). set (k2 := set_k_proc _ k1). rewrite u32_small by lia.
  assert (tty_rep k2 vid t) as H2 by (apply (tty_rep_ext k); eauto).
  destruct (message_prints J HJ _ _ _ k2 vid t H2 (halt_rendered vid k2 q ltac:(lia)))
    as (k3 & n & E3 & H3 & F3); [done|].
  kstep E3. pose proof F3 as [].
  assert (pcbs (k_proc k3) !! p = Some b) as Hb3 by by rewrite fr_proc.
  kstep (get_pcb_ok p k3 b Hb3).
  destruct (kenable_program_page_rep k3 prog vid uvid (par_pid b)) as (pg & E4 & R4);
    [by rewrite fr_pg|lia|].
  kstep E4. kstep (close_files_spec (set_k_pg pg k3) p b Hb3 hl_files0).
  exists (set_k_pg pg k3), pg. split; [done|]. split; [exact (frame_pg vid k2 k3 pg F3)|].
  split; [|done]. apply (tty_rep_ext k3); eauto.
Qed.

Lemma sys_halt_spec k q b pb prog vid uvid t status :
  halting q b k prog vid uvid t -> 3 <= q -> pcbs (k_proc k) !! par_pcb_ptr b = Some pb ->
  exists k', sys_halt J status k = Ok (Resumes (u8 status), k') /\ halted q b pb k k' vid uvid t.
Proof.
  intros H Hq Hpb. pose proof H as []. destruct (sys_halt_releases k q b prog vid uvid t status H)
    as (k4 & pg & R & F & H4 & ->). rewrite (proj2 (Z.ltb_ge q 3)) by lia.
  pose proof F as []. pose proof (tr_cp _ _ _ hl_tty0) as Hcp.
  destruct (lookup_lt_is_Some_2 (terminals (k_ter k4)) (Z.to_nat (curr_process (k_ter k4)))) as [s4 Hs4].
  { rewrite (tr_len _ _ _ H4). simpl in *. lia. }
  rewrite (resume_parent_spec k4 (get_pcb_by_pid q) b pb s4 status); [|by rewrite fr_proc..|simpl in *; lia|done].
  eexists. split; [reflexivity|]. rewrite fr_cp in *. simpl (curr_process _) in *.
  split; cbn [k_mem k_pg k_proc k_tss k_ter k_cpu k_kbd k_pic k_rtc k_fs set_k_proc set_k_ter set_k_cpu put_block]; auto.
  - by rewrite fr_cpu.
  - by rewrite fr_proc.
  - by rewrite fr_pg.
  - rewrite fr_tss. split; [|done]. change (esp0 _) with (u32 (0x800000 - 4 - par_pid b * 0x2000)).
    apply u32_small. lia.
  - apply (tty_rep_ext k4); auto; simpl; [exists (Some (par_pid b)), uvid; by rewrite fr_pg|].
    by rewrite length_insert.
  - simpl terminals. change (terminals (k_ter k)) with (terminals (k_ter (released q (par_pid b) pg k))).
    rewrite list_fmap_insert, <- fr_strip.
    by rewrite (alter_at _ _ _ (strip_cursor s4)) by by rewrite list_lookup_fmap, Hs4.
  - intros i Hne. simpl. rewrite list_lookup_insert_ne by done. by rewrite fr_other.
Qed.
End Halt.

(** ** The properties of [sys_halt] *)

Lemma free_pid_insert used (q : nat) :
  (q < length used)%nat -> exists p, free_pid (<[q := 0]> used) = Some p /\ (p <= q)%nat.
Proof.
  intros Hq. unfold free_pid.
  destruct (list_find (fun u => u = 0) (<[q := 0]> used)) as [[p u]|] eqn:E.
  - apply list_find_Some in E as (Hu & _ & Hlt). exists p. split; [done|].
    destruct (decide (q < p)%nat) as [Hlt'|]; [|lia].
    exfalso. apply (Hlt q 0); [by apply list_lookup_insert_eq|done|done].
  - apply list_find_None in E. pose proof (Forall_lookup_1 _ _ q 0 E) as H.
    exfalso. by apply H; [apply list_lookup_insert_eq|].
Qed.

Lemma alter_twice {A} (f g : A -> A) (l : list A) i x :
  l !! i = Some x -> f (g x) = x -> alter f i (alter g i l) = l.
Proof.
  intros Hx Hf. rewrite (alter_at g l i x Hx).
  rewrite (alter_at f _ i (g x)) by (apply list_lookup_insert_eq; by eapply lookup_lt_Some).
  rewrite list_insert_insert_eq, Hf. by apply list_insert_id.
Qed.

(** The text of the two messages of a root shell that ends. *)
Definition root_message (q : Z) : list Z :=
  halt_message q ++ bytes_of_string "-- Exited Root Process --" ++ [10].

Section HaltClaims.
Context `{L : Layout} (J : locals) (img : list Z) (start : Z).

Lemma halt_restarts k q b prog vid uvid t inode status :
  locals_ok J -> image_wf img ->
  KERNEL_MEM_START <= start /\ start + Z.of_nat (length img) <= 2 * _4_MB ->
  halting q b k prog vid uvid t -> q < 3 -> kernel_ok k (get_pcb_by_pid q) b prog vid uvid t ->
  mounted img start start k -> (forall k, command_at k (shell J) (shell_text J)) ->
  program J img (c_str (cmd_name (shell_text J))) = Some inode -> 28 <= inode_len img inode <= load_cap ->
  exists k1 k' pg p, sys_halt J status k = Ok (Enters (entry_point img inode) USER_ESP, k') /\
    free_pid (<[Z.to_nat q := 0]> (used_pids (k_proc k))) = Some p /\ Z.of_nat p <= q /\
    screen_frame vid (released q (par_pid b) pg k) k1 /\
    executed img inode (Z.of_nat p) (cmd_have_args (shell_text J)) (cmd_arg (shell_text J))
      k1 k' (get_pcb_by_pid q) b vid uvid (tty_puts t (root_message q)).
Proof.
  intros HJ W Hs H Hq K M C Hprog Hlen. pose proof H as []. pose proof K as [].
  destruct (sys_halt_releases J HJ k q b prog vid uvid t status H) as (k4 & pg & R & F & H4 & ->).
  rewrite (proj2 (Z.ltb_lt q 3)) by lia.
  destruct (puts_rep (literal_ln "-- Exited Root Process --") (bytes_of_string "-- Exited Root Process --" ++ [10])
    k4 vid _ H4) as (k5 & E5 & H5 & F5).
  { intros k' _. apply literal_ln_holds. }
  { by apply text_bytes. }
  { done. }
  kstep E5. rewrite <- foldl_app in H5. fold (root_message q) in H5.
  assert (screen_frame vid (released q (par_pid b) pg k) k5) as F' by (etrans; eauto).
  pose proof F' as [].
  destruct (free_pid_insert (used_pids (k_proc k)) (Z.to_nat q)) as (p & Hp & Hpq); [lia|].
  destruct (execute_starts J img start k5 (get_pcb_by_pid q) b (Some (par_pid b)) vid uvid
    (tty_puts t (root_message q)) (shell J) (shell_text J) inode p) as (k' & E & X); auto.
  - split; [split|..]; rewrite ?fr_cpu, ?fr_proc, ?fr_pg; auto; [by destruct ko_running..|].
    simpl. by rewrite length_insert.
  - apply (kernel_mounted img start Hs k k5 (Some (par_pid b)) vid uvid); auto; [by rewrite fr_pg|].
    intros a Ha. rewrite fr_mem; [done|]. unfold KERNEL_MEM_START, _4_MB in Ha. lia.
  - by rewrite fr_proc.
  - intros. lia.
  - exists k5, k', pg, p. split; [by kstep E|]. split; [done|]. split; [lia|done].
Qed.

(** (C25) The end of a process that another one started, with any status: the
    parent continues behind its [sys_execute], on the stack it left; the
    process number is free, the block cleared, the parent's page and kernel stack
    in force, the terminal runs the parent again, the end is announced on the
    screen, and nothing else changes. *)
Theorem sys_halt_resumes k q b pb prog vid uvid t status :
  locals_ok J -> halting q b k prog vid uvid t -> 3 <= q ->
  pcbs (k_proc k) !! par_pcb_ptr b = Some pb ->
  exists k', sys_halt J status k = Ok (Resumes (u8 status), k') /\ halted q b pb k k' vid uvid t.
Proof. intros HJ. by apply sys_halt_spec. Qed.

(** (C26) A root shell (process 0, 1 or 2) that halts is replaced: after the two
    messages a new shell is started, from the kernel state in which the old one's
    number is free, with the lowest free number. *)
Theorem sys_halt_restarts k q b prog vid uvid t inode status :
  locals_ok J -> image_wf img ->
  KERNEL_MEM_START <= start /\ start + Z.of_nat (length img) <= 2 * _4_MB ->
  halting q b k prog vid uvid t -> q < 3 -> kernel_ok k (get_pcb_by_pid q) b prog vid uvid t ->
  mounted img start start k -> (forall k, command_at k (shell J) (shell_text J)) ->
  program J img (c_str (cmd_name (shell_text J))) = Some inode -> 28 <= inode_len img inode <= load_cap ->
  exists k1 k' pg p, sys_halt J status k = Ok (Enters (entry_point img inode) USER_ESP, k') /\
    free_pid (<[Z.to_nat q := 0]> (used_pids (k_proc k))) = Some p /\ Z.of_nat p <= q /\
    screen_frame vid (released q (par_pid b) pg k) k1 /\
    executed img inode (Z.of_nat p) (cmd_have_args (shell_text J)) (cmd_arg (shell_text J))
      k1 k' (get_pcb_by_pid q) b vid uvid (tty_puts t (root_message q)).
Proof. apply halt_restarts. Qed.

(** From [k1] to [k2] process [p] ran: it may have changed memory, the screen, its
    descriptors and its clock settings, but not the numbers of processes, the
    blocks of others, the way back to its parent, or which process the terminals run. *)
Record child_ran (p : Z) (k1 k2 : kernel) (vid : Z) (uvid : option Z) (t : tty) : Prop := {
  cr_tty : tty_rep k2 vid t;
  cr_map : exists prog, paging_rep (k_pg k2) prog vid uvid;
  cr_used : used_pids (k_proc k2) = used_pids (k_proc k1);
  cr_cp : curr_process (k_ter k2) = curr_process (k_ter k1);
  cr_ter : strip_cursor <$> terminals (k_ter k2) = strip_cursor <$> terminals (k_ter k1);
  cr_block : exists b1 b2, pcbs (k_proc k1) !! get_pcb_by_pid p = Some b1 /\
    pcbs (k_proc k2) = <[get_pcb_by_pid p := b2]> (pcbs (k_proc k1)) /\
    pid b2 = pid b1 /\ par_pid b2 = par_pid b1 /\ par_pcb_ptr b2 = par_pcb_ptr b1 /\
    par_esp b2 = par_esp b1 /\ par_ebp b2 = par_ebp b1 /\ closable (fdt b2);
}.

(** The whole life of a program; the claim below and the system call of the parent use it. *)
Lemma execute_halt_spec k par c prog vid uvid t command l inode p s :
  locals_ok J -> image_wf img ->
  KERNEL_MEM_START <= start /\ start + Z.of_nat (length img) <= 2 * _4_MB ->
  kernel_ok k par c prog vid uvid t -> mounted img start start k -> command_at k command l ->
  program J img (c_str (cmd_name l)) = Some inode ->
  free_pid (used_pids (k_proc k)) = Some p -> (3 <= p)%nat ->
  28 <= inode_len img inode <= load_cap ->
  par <> get_pcb_by_pid (Z.of_nat p) -> 0 <= pid c < 6 ->
  terminals (k_ter k) !! Z.to_nat (curr_process (k_ter k)) = Some s ->
  prog_curr_pid s = pid c -> prog_par_pid s = par_pid c ->
  exists k1, sys_execute J command k = Ok (Enters (entry_point img inode) USER_ESP, k1) /\
    k_cpu k1 = k_cpu k /\ ss0 (k_tss k1) = KERNEL_DS /\ esp0 (k_tss k1) = 0x800000 - 4 - Z.of_nat p * 0x2000 /\
    forall status k2 vid2 uvid2 t2, child_ran (Z.of_nat p) k1 k2 vid2 uvid2 t2 ->
    exists k', sys_halt J status k2 = Ok (Resumes (u8 status), k') /\
      r_esp (k_cpu k') = r_esp (k_cpu k) /\ r_ebp (k_cpu k') = r_ebp (k_cpu k) /\
      k_proc k' = set_pcbs (<[get_pcb_by_pid (Z.of_nat p) := zero_pcb]> (pcbs (k_proc k))) (k_proc k) /\
      strip_cursor <$> terminals (k_ter k') = strip_cursor <$> terminals (k_ter k) /\
      curr_process (k_ter k') = curr_process (k_ter k) /\
      paging_rep (k_pg k') (Some (pid c)) vid2 uvid2 /\
      esp0 (k_tss k') = 0x800000 - 4 - pid c * 0x2000.
Proof.
  intros HJ W Hs K M C Hprog Hfree Hp Hlen Hpar Hc Ht Hcurr Hcpar.
  destruct (execute_starts J img start k par c prog vid uvid t command l inode p) as (k1 & E & X); auto;
    [done|]. exists k1. split; [done|].
  split; [apply X|]. split; [apply X|]. split; [apply X|]. intros status k2 vid2 uvid2 t2 [].
  destruct X, cr_block0 as (b1 & b2 & Hb1 & Hb2 & Hpid & Hppid & Hptr & Hesp & Hebp & Hcl), cr_map0 as (prog2 & R2).
  pose proof (free_pid_Some _ _ Hfree) as [Hfp _]. pose proof (lookup_lt_Some _ _ _ Hfp) as Hpl.
  rewrite (ko_used _ _ _ _ _ _ _ K) in Hpl.
  destruct ex_proc as (old & Ep). rewrite Ep in *. cbn [pcbs used_pids] in *.
  rewrite lookup_insert_eq in Hb1. injection Hb1 as <-.
  assert (parent_pid (Z.of_nat p) c = pid c) as Hpp
    by (unfold parent_pid; by rewrite (proj2 (Z.ltb_ge _ _)) by lia).
  rewrite Hpp in *. set (cp := curr_process (k_ter k)) in *.
  assert ((strip_cursor <$> terminals (k_ter k2)) !! Z.to_nat cp =
    Some (run_as (Z.of_nat p) (pid c) (strip_cursor s))) as Hs2.
  { rewrite cr_ter0, ex_ter, list_lookup_alter_eq, list_lookup_fmap, Ht. done. }
  rewrite list_lookup_fmap in Hs2. apply fmap_Some in Hs2 as (s2 & Hs2 & Es2).
  assert (halting (Z.of_nat p) b2 k2 prog2 vid2 uvid2 t2) as Hh.
  { split; auto.
    - rewrite cr_used0, length_insert. apply (ko_used _ _ _ _ _ _ _ K).
    - lia.
    - exists s2. rewrite cr_cp0, ex_cp. split; [done|]. exact (eq_sym (f_equal prog_curr_pid Es2)).
    - by rewrite Hb2, lookup_insert_eq.
    - rewrite Hppid. done. }
  assert (pcbs (k_proc k2) !! par_pcb_ptr b2 = Some c) as Hpc.
  { rewrite Hptr, Hb2. cbn [par_pcb_ptr child]. rewrite !lookup_insert_ne by done.
    apply (ko_running _ _ _ _ _ _ _ K). }
  destruct (sys_halt_spec J HJ k2 (Z.of_nat p) b2 c prog2 vid2 uvid2 t2 status Hh ltac:(lia) Hpc)
    as (k' & Ek & []). exists k'. split; [done|].
  rewrite ha_cpu0, ha_proc0, ha_ter0, ha_cp0, cr_cp0, ex_cp, cr_used0, cr_ter0, ex_ter, Hb2. fold cp.
  rewrite Hppid in ha_map0, ha_tss0. cbn [par_pid child] in ha_map0, ha_tss0.
  rewrite Nat2Z.id, !insert_insert_eq, !list_insert_insert_eq, list_insert_id by done.
  split; [exact Hesp|]. split; [exact Hebp|]. split; [done|].
  split; [|split; [done|split; [done|apply ha_tss0]]].
  apply (alter_twice _ _ _ _ (strip_cursor s)); [by rewrite list_lookup_fmap, Ht|].
  unfold run_as. rewrite <- Hcurr, <- Hcpar. by destruct s.
Qed.

(** What a process does is over when it ends: after [sys_execute], any run of
    the program, and [sys_halt], the parent continues on the stack it called from,
    in its own page and on its own kernel stack, with the same process numbers in
    use, every block as before (the child's is cleared), and the terminals
    running what they ran. *)
Lemma execute_halt_returns k par c prog vid uvid t command l inode p s status :
  locals_ok J -> image_wf img ->
  KERNEL_MEM_START <= start /\ start + Z.of_nat (length img) <= 2 * _4_MB ->
  kernel_ok k par c prog vid uvid t -> mounted img start start k -> command_at k command l ->
  program J img (c_str (cmd_name l)) = Some inode ->
  free_pid (used_pids (k_proc k)) = Some p -> (3 <= p)%nat ->
  28 <= inode_len img inode <= load_cap ->
  par <> get_pcb_by_pid (Z.of_nat p) -> 0 <= pid c < 6 ->
  terminals (k_ter k) !! Z.to_nat (curr_process (k_ter k)) = Some s ->
  prog_curr_pid s = pid c -> prog_par_pid s = par_pid c ->
  exists k1, sys_execute J command k = Ok (Enters (entry_point img inode) USER_ESP, k1) /\
    forall k2 vid2 uvid2 t2, child_ran (Z.of_nat p) k1 k2 vid2 uvid2 t2 ->
    exists k', sys_halt J status k2 = Ok (Resumes (u8 status), k') /\
      r_esp (k_cpu k') = r_esp (k_cpu k) /\ r_ebp (k_cpu k') = r_ebp (k_cpu k) /\
      k_proc k' = set_pcbs (<[get_pcb_by_pid (Z.of_nat p) := zero_pcb]> (pcbs (k_proc k))) (k_proc k) /\
      strip_cursor <$> terminals (k_ter k') = strip_cursor <$> terminals (k_ter k) /\
      curr_process (k_ter k') = curr_process (k_ter k) /\
      paging_rep (k_pg k') (Some (pid c)) vid2 uvid2 /\
      esp0 (k_tss k') = 0x800000 - 4 - pid c * 0x2000.
Proof.
  intros. edestruct execute_halt_spec as (k1 & E & _ & _ & _ & H'); eauto.
Qed.
End HaltClaims.
