(* ===== verification/Exceptions.v ===== *)
(** * Exceptions end the program that raised them

    Every exception handler prints its message and halts the process with the status
    that makes the parent's [sys_execute] return 256. *)

From stdpp Require Import base gmap list numbers strings.
From Stdlib Require Import ZArith Lia.
From S2P Require Import Prelude Pointers Ports Pic Paging State Machine VirtMem CString MemFns.
From S2P Require Import Pcb Demo Screen Printf FileSystem Rtc Keyboard Terminal Syscalls Process.
From S2P Require Import Descriptors Command Exec Launch Halt Idt.

Section Exceptions.
Context `{L : Layout} (J : locals).

(** The handlers, with the names they print. *)
Definition exception_handlers : list (string * K outcome) :=
  [("Divide by Zero Error"%string, DE_handler J); ("Debug Exception"%string, DB_handler J);
   ("Non-Maskable Interrupt"%string, NI_handler J); ("Breakpoint Exception"%string, BP_handler J);
   ("Overflow"%string, OF_handler J); ("Bound Range Exceeded"%string, BR_handler J);
   ("Invalid Opcode"%string, UD_handler J); ("Device Not Available"%string, NM_handler J);
   ("Double Fault"%string, DF_handler J); ("Coprocessor Segment Overrun"%string, CP_handler J);
   ("Invalid TSS"%string, TS_handler J); ("Segment Not Present"%string, NP_handler J);
   ("Stack Segment Fault"%string, SS_handler J); ("General Protection Fault"%string, GP_handler J);
   ("Page Fault"%string, PF_handler J); ("x87 Floating Point Exception"%string, MF_handler J);
   ("Alignment Check Exception"%string, AC_handler J); ("Machine Check Exception"%string, MC_handler J);
   ("SIMD Floating Point Exception"%string, XF_handler J); ("Virtualization Exception"%string, VE_handler J);
   ("Security Exception"%string, SX_handler J)].

Definition error_message (s : string) : list Z :=
  (bytes_of_string "! ERROR " ++ [0xAF] ++ bytes_of_string " ") ++ bytes_of_string s ++
  (bytes_of_string " !" ++ [10]).

(** A name that can be printed. *)
Definition printable (s : string) : Prop :=
  forallb (fun c => (0 <? c) && (c <? 256)) (bytes_of_string s) = true /\
  Z.of_nat (length (bytes_of_string s)) < 1000.

Lemma handlers_blue s m :
  (s, m) ∈ exception_handlers -> m = blue_screen J (exc_name s) /\ printable s.
Proof.
  intros H. unfold exception_handlers in H.
  repeat (apply elem_of_cons in H as [[= -> ->]|H]; [by repeat split|]). by apply elem_of_nil in H.
Qed.

Hypothesis HJ : locals_ok J.

Lemma halting_frame q b k k' prog vid uvid t t' :
  halting q b k prog vid uvid t -> screen_frame vid k k' -> tty_rep k' vid t' ->
  halting q b k' prog vid uvid t'.
Proof.
  intros [] [] H'. destruct hl_curr as (s & Hs & Hq).
  split; rewrite ?fr_proc, ?fr_pg, ?fr_cp; auto.
  assert ((strip_cursor <$> terminals (k_ter k')) !! Z.to_nat (curr_process (k_ter k)) = Some (strip_cursor s)) as Hl.
  { by rewrite fr_strip, list_lookup_fmap, Hs. }
  rewrite list_lookup_fmap in Hl. apply fmap_Some in Hl as (s' & Hs' & Es). exists s'. split; [done|].
  rewrite <- Hq. exact (eq_sym (f_equal prog_curr_pid Es)).
Qed.

(** The message of [blue_screen]. *)
Lemma blue_screen_prints s k vid t :
  printable s -> tty_rep k vid t ->
  exists k1 n, printf (j_printf J) (lit_ptr 0x400000 (bytes_of_string "! ERROR " ++ [0xAF] ++
      bytes_of_string " %s !" ++ [10] ++ [0])) [AStr (exc_name s)] k = Ok (n, k1) /\
    tty_rep k1 vid (tty_puts t (error_message s)) /\ screen_frame vid k k1.
Proof.
  intros [Hp Hl] H.
  destruct (printf_rep (j_printf J) (lit_ptr 0x400000 (bytes_of_string "! ERROR " ++ [0xAF] ++
    bytes_of_string " %s !" ++ [10] ++ [0])) (bytes_of_string "! ERROR " ++ [0xAF] ++
    bytes_of_string " %s !" ++ [10]) [AStr (exc_name s)] (error_message s) k vid t (lo_printf _ HJ) H)
    as (k1 & E & T & F).
  - apply (rendered_text vid k (bytes_of_string "! ERROR " ++ [0xAF] ++ bytes_of_string " ")
      (37 :: 115 :: bytes_of_string " !" ++ [10])); [done|].
    apply r_str; [|by apply text_bytes|lia|].
    + intros k' _ i b Hi. by apply arr_get_Some.
    + apply (rendered_text vid k (bytes_of_string " !")); [done|].
      apply (rendered_text vid k [10] [] [] []); [done|constructor].
  - done.
  - intros k' _ i b Hi. by apply arr_get_Some.
  - eauto.
Qed.

(** (C21) Every exception a program raises (division by zero, page fault, and the
    nineteen others) ends exactly that program: its message is printed, the
    process halts and the parent continues; the value its [sys_execute] returns
    is 256. *)
Theorem exception_ends_program s m k q b pb prog vid uvid t :
  (s, m) ∈ exception_handlers -> halting q b k prog vid uvid t -> 3 <= q ->
  pcbs (k_proc k) !! par_pcb_ptr b = Some pb ->
  exists k1 k', m k = Ok (Resumes HALT_STATUS_EXC, k') /\ exec_result HALT_STATUS_EXC = 256 /\
    screen_frame vid k k1 /\ tty_rep k1 vid (tty_puts t (error_message s)) /\
    halted q b pb k1 k' vid uvid (tty_puts t (error_message s)).
Proof.
  intros Hin H Hq Hpb. destruct (handlers_blue s m Hin) as [-> Hp]. unfold blue_screen.
  destruct (blue_screen_prints s k vid t Hp (hl_tty _ _ _ _ _ _ _ H)) as (k1 & n & E & T & F).
  kstep E. pose proof (halting_frame q b k k1 prog vid uvid t _ H F T) as H1.
  destruct (sys_halt_spec J HJ k1 q b pb prog vid uvid _ HALT_STATUS_EXC H1 Hq) as (k' & Eh & Hh);
    [by rewrite (fr_proc _ _ _ F)|].
  exists k1, k'. by rewrite Eh.
Qed.
End Exceptions.
