(* ===== verification/UserCalls.v ===== *)
(** * [sys_getargs] and [sys_vidmap]

    A program asks for the argument it was started with, and for the screen. *)

From stdpp Require Import base gmap list numbers strings.
From Stdlib Require Import ZArith Lia.
From S2P Require Import Prelude Pointers Ports Pic Paging State Machine VirtMem CString MemFns.
From S2P Require Import Pcb Demo Screen Printf FileSystem Rtc Keyboard Terminal Syscalls Process.
From S2P Require Import Descriptors Command Exec.

Section Getargs.
Context `{L : Layout}.

(** The loop that stores the same zero [n] times. *)
Lemma zero_loop k a pa cap i n :
  maps (k_pg k) a pa cap -> 0 <= i < cap -> 0 <= n ->
  kfor 0 n (fun _ => kstore (a + i) 0) k =
    Ok (tt, if n =? 0 then k else set_k_mem (<[pa + i := 0]> (k_mem k)) k).
Proof.
  intros Hm Hi Hn.
  destruct (kfor_inv (fun j k' => k' = if j =? 0 then k else set_k_mem (<[pa + i := 0]> (k_mem k)) k)
    0 n (fun _ => kstore (a + i) 0) k) as (k' & E & ->); auto.
  intros j k' Hj ->. rewrite (proj2 (Z.eqb_neq (j + 1) 0)) by lia.
  assert (forall k1, k_pg k1 = k_pg k -> kstore (a + i) 0 k1 = Ok (tt, set_k_mem (<[pa + i := 0]> (k_mem k1)) k1)) as G.
  { intros k1 H1. unfold kstore. by rewrite (vstore_maps k1 a pa cap i 0) by (rewrite ?H1; done). }
  eexists. split; [apply G; by destruct (j =? 0)|]. destruct (j =? 0); [done|].
  simpl. by rewrite insert_insert_eq.
Qed.

Lemma put_bytes_snoc pa w b m :
  put_bytes pa w (<[pa + Z.of_nat (length w) := b]> m) = put_bytes pa (w ++ [b]) m.
Proof.
  apply map_eq. intros a. rewrite !lookup_put_bytes. destruct (Z.leb_spec pa a) as [Ha|Ha].
  - destruct (decide (a = pa + Z.of_nat (length w))) as [->|Hne].
    + replace (Z.to_nat (pa + Z.of_nat (length w) - pa)) with (length w) by lia.
      by rewrite lookup_ge_None_2, lookup_insert_eq, list_lookup_middle by lia.
    + rewrite lookup_insert_ne by done. destruct (decide (Z.to_nat (a - pa) < length w)%nat).
      * by rewrite lookup_app_l by lia.
      * by rewrite !lookup_ge_None_2 by (rewrite ?length_app; simpl; lia).
  - by rewrite lookup_insert_ne by lia.
Qed.

(** [memcpy] from a local array. *)
Lemma memcpy_local k a pa cap (w l : list Z) :
  maps (k_pg k) a pa cap -> Z.of_nat (length w) <= cap -> Z.of_nat (length w) < 2 ^ 31 ->
  memcpy (vptr1 a) (ptr_snd (arr_ptr 0)) (Z.of_nat (length w)) (k, w ++ l) =
    Ok (set_k_mem (put_bytes pa w (k_mem k)) k, w ++ l).
Proof.
  intros Hm Hc Hw.
  assert (maps (k_pg k) a pa (Z.of_nat (length w))) as Hm' by (intros i Hi; apply Hm; lia).
  pose proof (fst_region _ (fun _ : list Z => True) _ _ (vptr_region _ _ _ _ Hm')) as HR.
  rewrite (@memcpy_store _ _ _ _ w HR (fst_snd_separate _ _ _ _ _)); [|done| |lia].
  - rewrite store_list_fst. cbn [fst snd]. rewrite (vptr_store_list k a pa (Z.of_nat (length w))) by (done || lia).
    by rewrite Z.add_0_r.
  - intros i b Hi. simpl. apply arr_get_Some. by apply lookup_app_l_Some.
Qed.

(** (C28) [sys_getargs] gives a program the argument [sys_execute] stored for it,
    on every path: -1 without effect for a null buffer, when the command had no
    argument, or when the buffer is too small; otherwise exactly the argument and
    a terminator are stored (only the argument into a buffer of size 0).  The
    terminator is stored behind the argument even when the size leaves no room. *)
Theorem getargs_returns_argument k p b buf pa cap nbytes have_args w old :
  running_pcb k p b -> (arg_len b, args b) = stored_args have_args w old ->
  length old = 128%nat -> (length w <= 127)%nat ->
  maps (k_pg k) buf pa cap -> Z.of_nat (length w) < cap -> 0 <= nbytes ->
  sys_getargs buf nbytes k =
    if (buf =? NULL) || negb have_args || (nbytes <? Z.of_nat (length w)) then Ok (ERROR, k)
    else Ok (0, set_k_mem (put_bytes pa (w ++ if nbytes =? 0 then [] else [0]) (k_mem k)) k).
Proof.
  intros H Ha Ho Hw Hm Hc Hn. unfold sys_getargs. destruct (buf =? NULL); [done|]. cbn [orb].
  kstep (running_curr k p b H). kstep (get_pcb_ok p k b (proj2 H)).
  destruct have_args; injection Ha as -> Eb; cbn [negb orb]; [|done].
  rewrite (proj2 (Z.eqb_neq (Z.of_nat (length w)) ERROR)) by (unfold ERROR; lia).
  destruct (nbytes <? Z.of_nat (length w)); [done|].
  kstep (zero_loop k buf pa cap (Z.of_nat (length w)) nbytes Hm ltac:(lia) Hn).
  set (k1 := if nbytes =? 0 then k else _).
  assert (k_pg k1 = k_pg k /\ k_proc k1 = k_proc k) as [Hpg Hpr] by (unfold k1; by destruct (nbytes =? 0)).
  kstep (get_pcb_ok p k1 b ltac:(rewrite Hpr; apply H)). rewrite Eb, u32_small by lia.
  erewrite K_bind_Ok; [|rewrite (memcpy_local k1 buf pa cap w) by (rewrite ?Hpg; done || lia); reflexivity].
  cbv beta. cbn [fst]. kcbn. do 2 f_equal. unfold k1. destruct (nbytes =? 0); [by rewrite app_nil_r|].
  simpl. by rewrite put_bytes_snoc.
Qed.
End Getargs.

Section Vidmap.
Context `{L : Layout}.

(** The word goes to the program's page, and what does not fit there to the screen, which
    is mapped behind it by then. *)
Lemma vidmap_stores k p vid screen_start bs :
  paging_rep (k_pg k) (Some p) vid (Some VIDEO_PAGE) -> _128_MB <= screen_start <= _132_MB -> length bs = 4%nat ->
  let n := Z.to_nat (_132_MB - screen_start) in
  store_list (vptr screen_start) 0 bs k = Ok (set_k_mem (put_bytes VIDEO (drop n bs)
    (put_bytes ((p + 2) * _4_MB + (screen_start - _128_MB)) (take n bs) (k_mem k))) k).
Proof.
  intros R Hs Hl n. assert (Z.of_nat n = _132_MB - screen_start) as Hn by (unfold n; lia).
  rewrite <- (take_drop n bs) at 1. rewrite store_list_app, length_take.
  set (m := Z.of_nat (length (take n bs))). assert (m <= _132_MB - screen_start) by (unfold m; rewrite length_take; lia).
  rewrite (vptr_store_list k screen_start ((p + 2) * _4_MB + (screen_start - _128_MB)) m);
    [|apply (user_maps _ p vid (Some VIDEO_PAGE)); [done|lia|lia]|lia|unfold m; lia].
  rewrite Z.add_0_r, Ok_bind. set (k1 := set_k_mem _ k).
  destruct (decide (length bs <= n)%nat) as [Hle|Hgt].
  { rewrite !(drop_ge bs) by lia. done. }
  rewrite (Nat.min_l n) by lia. rewrite <- (Z.add_comm (Z.of_nat n)), vptr_store_shift, Hn.
  replace (screen_start + (_132_MB - screen_start)) with _132_MB by lia.
  rewrite (vptr_store_list k1 _132_MB VIDEO (Z.of_nat (length (drop n bs)))); [by rewrite Z.add_0_r| |lia|lia].
  replace VIDEO with (VIDEO_PAGE * 4096 + (_132_MB - _132_MB)) by done.
  apply (vidmap_maps _ (Some p) vid VIDEO_PAGE); [done|lia|]. rewrite length_drop. lia.
Qed.

(** (C29) [sys_vidmap], for every pointer: one below 128 MB or above 132 MB is refused with -1 and
    nothing changes.  Every other one, 132 MB included, is accepted: the result is 0, the address
    132 MB is stored there, its bytes from 132 MB on (all of them when the pointer is 132 MB) going
    to the first bytes of the display, and user mode reaches the physical display page through that
    address, whatever page the program's own terminal writes to. *)
Theorem vidmap_maps_screen k p vid uvid screen_start :
  paging_rep (k_pg k) (Some p) vid uvid -> 0 <= screen_start < 2 ^ 32 ->
  (~ (_128_MB <= screen_start <= _132_MB) -> sys_vidmap screen_start k = Ok (ERROR, k)) /\
  (_128_MB <= screen_start <= _132_MB ->
    exists pg,
      let inside := Z.to_nat (_132_MB - screen_start) in
      let m := put_bytes ((p + 2) * _4_MB + (screen_start - _128_MB)) (take inside (le_bytes 4 _132_MB)) (k_mem k) in
      sys_vidmap screen_start k =
        Ok (0, set_k_mem (put_bytes VIDEO (drop inside (le_bytes 4 _132_MB)) m) (set_k_pg pg k)) /\
      paging_rep pg (Some p) vid (Some VIDEO_PAGE) /\
      forall off, 0 <= off < 4096 -> translate true pg (_132_MB + off) = Some (VIDEO + off)).
Proof.
  intros R Hs. unfold sys_vidmap. split.
  - intros Hr. destruct (Z.eqb_spec screen_start NULL); [done|].
    assert ((s32 screen_start <? _128_MB) || (_132_MB <? s32 screen_start) = true) as ->; [|done].
    unfold _128_MB, _132_MB in *. destruct (decide (screen_start < 2 ^ 31)).
    + rewrite s32_small by lia. lia.
    + assert (s32 screen_start = screen_start - 2 ^ 32) as ->; [|lia].
      unfold s32, signed. rewrite Z.mod_small by lia. by rewrite (proj2 (Z.ltb_ge _ _)) by lia.
  - intros Hr. pose proof Hr as Hr'. unfold _128_MB, _132_MB in Hr'. unfold NULL.
    rewrite (proj2 (Z.eqb_neq screen_start 0)) by lia. rewrite s32_small by lia.
    rewrite (proj2 (Z.ltb_ge screen_start _)), (proj2 (Z.ltb_ge _ screen_start)) by lia.
    cbn [orb]. destruct (get_vidmem_rep _ _ _ _ R) as (pg & E & R'). exists pg. cbv zeta.
    unfold on at 1. erewrite K_bind_Ok; [|rewrite E; reflexivity]. cbv beta. cbn [fst snd].
    erewrite K_bind_Ok; [|by rewrite (vidmap_stores (set_k_pg pg k) p vid)].
    cbv beta. kcbn. split; [done|]. split; [done|]. intros off Hoff.
    unfold _132_MB. rewrite (translate_map _ _ _ _ R') by lia.
    unfold memory_map, user_map, _128_MB, _132_MB.
    rewrite (proj2 (Z.ltb_ge _ 0x8400000)), andb_false_r by lia.
    rewrite (proj2 (Z.leb_le _ _)), (proj2 (Z.ltb_lt _ _)) by lia. simpl. f_equal. unfold VIDEO, VIDEO_PAGE. lia.
Qed.
End Vidmap.
