(* ===== verification/ProcessExamples.v ===== *)
(** * Processes on a concrete state

    A file system whose only file is a program called [shell], three terminals with
    the processes 0, 1 and 2, and the theorems of Launch.v, Halt.v and UserCalls.v
    applied to them. *)

From stdpp Require Import base gmap list numbers strings.
From Stdlib Require Import ZArith Lia.
From S2P Require Import Prelude Pointers Ports Pic Paging State Machine VirtMem CString MemFns.
From S2P Require Import Pcb Demo Screen Printf FileSystem FileExamples Syscalls Process Descriptors.
From S2P Require Import DescriptorExamples Command Exec Launch Halt UserCalls.

(** The program: magic number, entry point 0x80482E8. *)
Definition demo_prog : list Z := ELF_MAGIC ++ zeros 20 ++ word 0x80482E8 ++ zeros 4.

Definition prog_img : list Z :=
  (word 1 ++ word 1 ++ word 1 ++ zeros 52 ++
   bytes_of_string "shell" ++ zeros 27 ++ word 2 ++ word 0 ++ zeros 24 ++ zeros 3968) ++
  (word 32 ++ word 0 ++ zeros 4088) ++
  (demo_prog ++ zeros 4064).

Lemma prog_img_length : Z.of_nat (length prog_img) = 12288.
Proof. unfold prog_img, demo_prog, zeros. rewrite !length_app, !length_replicate. simpl length. lia. Qed.

Lemma prog_img_counts :
  img_dentries prog_img = 1 /\ img_inodes prog_img = 1 /\ img_blocks prog_img = 1.
Proof. by repeat split. Qed.

Lemma prog_inode : inode_len prog_img 0 = 32 /\ inode_block prog_img 0 0 = 0.
Proof. by repeat split. Qed.

Lemma prog_img_wf : image_wf prog_img.
Proof.
  destruct prog_img_counts as (E1 & E2 & E3), prog_inode as (E4 & E5).
  split; rewrite ?E1, ?E2, ?E3.
  - unfold prog_img, demo_prog. rewrite !Forall_app.
    repeat split; try apply zeros_bytes; unfold is_byte; repeat constructor; done.
  - rewrite prog_img_length. done.
  - done.
  - intros i Hi. replace i with 0 by lia. rewrite E4. lia.
  - intros i j Hi Hj. replace i with 0 by lia. rewrite E4. intros Hlt.
    replace j with 0 by lia. rewrite E5. lia.
Qed.

Lemma prog_contents : file_contents prog_img 0 = demo_prog.
Proof. by vm_compute. Qed.

Lemma prog_name : dentry_name prog_img 0 = bytes_of_string "shell".
Proof. by vm_compute. Qed.

Lemma prog_dentry : dentry_inode prog_img 0 = 0.
Proof. by vm_compute. Qed.

Lemma prog_entry : entry_point prog_img 0 = 0x80482E8.
Proof. unfold entry_point. rewrite prog_contents. reflexivity. Qed.

#[local] Opaque prog_img.

Lemma prog_bounds :
  KERNEL_MEM_START <= demo_start /\ demo_start + Z.of_nat (length prog_img) <= 2 * _4_MB.
Proof. rewrite prog_img_length. unfold demo_start, KERNEL_MEM_START, _4_MB. lia. Qed.

Lemma demo_locals_ok : locals_ok demo_locals.
Proof. split; try reflexivity; intros i; simpl; lia. Qed.

Lemma demo_program name : name = bytes_of_string "shell" -> program demo_locals prog_img name = Some 0.
Proof.
  intros ->. unfold program. assert (find_name prog_img (bytes_of_string "shell") = Some 0) as ->.
  { unfold find_name. rewrite (proj1 prog_img_counts). change (seqZ 0 1) with [0]. cbn [list_find].
    by rewrite decide_True by apply prog_name. }
  rewrite prog_dentry, (proj1 (proj2 prog_img_counts)). unfold magic_bytes. rewrite prog_contents. reflexivity.
Qed.

(** ** The kernel *)

Definition running_terminal_of (p par : Z) : terminal_state := run_as p par bss_terminal.

(** Process [cur] runs on terminal 0 with the stack [sp]; [m] is memory. *)
Definition exec_state (cur par sp : Z) (used : list Z) (bs : gmap Z pcb) (m : gmap Z Z) : kernel :=
  set_k_mem m (set_k_pg demo_user_paging (set_k_fs (image_fs prog_img demo_start)
    (set_k_ter {| terminals := [running_terminal_of cur par; bss_terminal; bss_terminal];
                  curr_ter := 0; curr_process := 0 |}
    (set_k_proc {| used_pids := used; pcbs := bs |}
      (set_k_cpu {| eflags := 0x202; r_esp := sp; r_ebp := sp |} demo_state))))).

Definition start_mem : gmap Z Z := put_bytes demo_start prog_img (k_mem demo_state).

(** The memory after the screen was cleared. *)
Definition cleared_mem : gmap Z Z :=
  k_mem (exec (clear (L := demo_layout)) (exec_state 0 0 0x7FFF00 [] ∅ start_mem)).

Lemma clear_keeps k img a :
  paging_rep (L := demo_layout) (k_pg k) (Some 0) VIDEO_PAGE None ->
  bytes_at (k_mem k) a img -> 0xB9000 <= a ->
  (forall k', k_mem k' = k_mem (exec (clear (L := demo_layout)) k) -> shows k' VIDEO_PAGE (rows clear_tty)) /\
  bytes_at (k_mem (exec (clear (L := demo_layout)) k)) a img.
Proof.
  intros R Hb Ha. unfold exec.
  destruct (clear_spec (L := demo_layout) k (Some 0) VIDEO_PAGE None R) as (k1 & -> & Hk & Hs & F). split.
  - intros k' Hm. unfold shows. by rewrite Hm.
  - intros i b Hi. rewrite (fr_mem _ _ _ F); [auto|]. unfold VIDEO_PAGE. lia.
Qed.

Lemma exec_state_mem cur par sp used bs m : k_mem (exec_state cur par sp used bs m) = m.
Proof. done. Qed.

Lemma start_mem_image cur par sp used bs :
  bytes_at (k_mem (exec_state cur par sp used bs start_mem)) demo_start prog_img.
Proof. rewrite exec_state_mem. unfold start_mem. apply bytes_at_put. Qed.

Lemma exec_state_paging cur par sp used bs m :
  paging_rep (L := demo_layout) (k_pg (exec_state cur par sp used bs m)) (Some 0) VIDEO_PAGE None.
Proof. exact demo_user_paging_rep. Qed.

Lemma cleared_mem_spec :
  (forall k, k_mem k = cleared_mem -> shows k VIDEO_PAGE (rows clear_tty)) /\
  bytes_at cleared_mem demo_start prog_img.
Proof.
  unfold cleared_mem. generalize (exec_state_paging 0 0 0x7FFF00 [] ∅ start_mem) (start_mem_image 0 0 0x7FFF00 [] ∅).
  generalize (exec_state 0 0 0x7FFF00 [] ∅ start_mem). intros k R B.
  apply (clear_keeps k prog_img demo_start R B). unfold demo_start. lia.
Qed.

#[local] Opaque cleared_mem.

Section State.
Context (cur par sp : Z) (used : list Z) (bs : gmap Z pcb).
Let k : kernel := exec_state cur par sp used bs cleared_mem.

Lemma exec_state_tty : tty_rep (L := demo_layout) k VIDEO_PAGE clear_tty.
Proof.
  split; try reflexivity; try (simpl; unfold NUM_COLS, NUM_ROWS; lia).
  - exists (Some 0), None. exact demo_user_paging_rep.
  - by apply (proj1 cleared_mem_spec).
Qed.

Lemma exec_state_mounted : mounted (L := demo_layout) prog_img demo_start demo_start k.
Proof.
  split; [reflexivity| |exact (proj2 cleared_mem_spec)].
  apply (kernel_maps (L := demo_layout) _ _ _ _ _ _ demo_user_paging_rep); apply prog_bounds.
Qed.

Lemma exec_state_ok p b :
  Z.land sp PCB_8KB_MASK = p -> bs !! p = Some b -> length used = 6%nat ->
  (forall q, 0 <= q < 6 -> exists b, bs !! get_pcb_by_pid q = Some b /\
    length (fdt b) = 8%nat /\ length (args b) = 128%nat) ->
  kernel_ok (L := demo_layout) k p b (Some 0) VIDEO_PAGE None clear_tty.
Proof.
  intros Hp Hb Hu Hall. split; auto.
  - by split.
  - exact demo_user_paging_rep.
  - unfold VIDEO_PAGE. lia.
  - exact exec_state_tty.
Qed.
End State.

(** Blocks with the number of their process. *)
Definition numbered (p : Z) : pcb := set_par_pid p (set_pid p bss_pcb).
Definition exec_pcbs : gmap Z pcb := list_to_map ((fun p => (get_pcb_by_pid p, numbered p)) <$> seqZ 0 6).

Lemma exec_pcbs_all q : 0 <= q < 6 -> exec_pcbs !! get_pcb_by_pid q = Some (numbered q).
Proof.
  intros Hq. assert (q ∈ seqZ 0 6) as Hs by (apply elem_of_seqZ; lia). clear Hq. revert q Hs.
  refine (proj1 (list.Forall_forall (fun q => exec_pcbs !! get_pcb_by_pid q = Some (numbered q)) _) _).
  repeat constructor; vm_compute; reflexivity.
Qed.

(** The root shell of terminal 0 runs; the command names the program and gives it
    an argument. *)
Definition demo_exec : kernel := exec_state 0 0 0x7FFF00 [1; 1; 1; 0; 0; 0] exec_pcbs cleared_mem.
Definition demo_text : list Z := bytes_of_string "shell abc" ++ [0].
Definition demo_command : ptr kernel := lit_ptr 0x400000 demo_text.

Lemma demo_exec_ok : kernel_ok (L := demo_layout) demo_exec 0x7FE000 (numbered 0) (Some 0) VIDEO_PAGE None clear_tty.
Proof.
  apply exec_state_ok; [reflexivity|exact (exec_pcbs_all 0 ltac:(lia))|reflexivity|].
  intros q Hq. exists (numbered q). split; [by apply exec_pcbs_all|]. by split.
Qed.

Lemma demo_command_at k : command_at k demo_command demo_text.
Proof.
  split.
  - intros i b Hi. by apply arr_get_Some.
  - repeat constructor; done.
  - right. vm_compute. lia.
  - intros _. right. vm_compute. lia.
  - discriminate.
Qed.

Lemma prog_fits : 28 <= inode_len prog_img 0 <= load_cap.
Proof. rewrite (proj1 prog_inode). unfold load_cap, _132_MB, PROG_LOAD_ADDR. lia. Qed.

Lemma sys_execute_starts_witness :
  exists k', sys_execute (L := demo_layout) demo_locals demo_command demo_exec =
      Ok (Enters 0x80482E8 USER_ESP, k') /\
    bytes_at (k_mem k') 0x1448000 demo_prog /\ used_pids (k_proc k') = [1; 1; 1; 1; 0; 0].
Proof.
  destruct (sys_execute_starts (L := demo_layout) demo_locals prog_img demo_start demo_exec 0x7FE000
    (numbered 0) (Some 0) VIDEO_PAGE None clear_tty demo_command demo_text 0 3) as (k' & E & X).
  - exact demo_locals_ok.
  - exact prog_img_wf.
  - exact prog_bounds.
  - exact demo_exec_ok.
  - exact (exec_state_mounted 0 0 0x7FFF00 [1; 1; 1; 0; 0; 0] exec_pcbs).
  - exact (demo_command_at demo_exec).
  - apply demo_program. reflexivity.
  - reflexivity.
  - discriminate.
  - exact prog_fits.
  - exists k'. rewrite prog_entry in E. split; [exact E|]. destruct X. split.
    + rewrite <- prog_contents. exact ex_image.
    + destruct ex_proc as (old & ->). reflexivity.
Defined.

(** A name the directory does not have; and a seventh process. *)
Definition demo_bad : ptr kernel := lit_ptr 0x400000 (bytes_of_string "ls" ++ [0] ++ zeros 40).
Definition demo_full : kernel := exec_state 0 0 0x7FFF00 [1; 1; 1; 1; 1; 1] exec_pcbs cleared_mem.

Lemma demo_full_ok : kernel_ok (L := demo_layout) demo_full 0x7FE000 (numbered 0) (Some 0) VIDEO_PAGE None clear_tty.
Proof.
  apply exec_state_ok; [reflexivity|exact (exec_pcbs_all 0 ltac:(lia))|reflexivity|].
  intros q Hq. exists (numbered q). split; [by apply exec_pcbs_all|]. by split.
Qed.

Lemma sys_execute_refuses_witness :
  sys_execute (L := demo_layout) demo_locals demo_bad demo_full = Ok (Returns (-1), demo_full) /\
  exists k', sys_execute (L := demo_layout) demo_locals demo_command demo_full = Ok (Returns (-1), k') /\
    tty_rep (L := demo_layout) k' VIDEO_PAGE (tty_puts clear_tty max_message).
Proof.
  split.
  - apply (sys_execute_refuses (L := demo_layout) demo_locals prog_img demo_start demo_full 0x7FE000
      (numbered 0) (Some 0) VIDEO_PAGE None clear_tty demo_bad (bytes_of_string "ls" ++ [0] ++ zeros 40)).
    + exact demo_locals_ok.
    + exact prog_img_wf.
    + exact prog_bounds.
    + exact demo_full_ok.
    + exact (exec_state_mounted 0 0 0x7FFF00 [1; 1; 1; 1; 1; 1] exec_pcbs).
    + split.
      * intros i b Hi. by apply arr_get_Some.
      * repeat constructor; done.
      * left. vm_compute. lia.
      * discriminate.
      * discriminate.
    + change (c_str (cmd_name (bytes_of_string "ls" ++ [0] ++ zeros 40))) with (bytes_of_string "ls").
      unfold program, find_name. rewrite (proj1 prog_img_counts). change (seqZ 0 1) with [0].
      cbn [list_find]. rewrite decide_False; [reflexivity|]. rewrite prog_name. discriminate.
  - destruct (sys_execute_refuses (L := demo_layout) demo_locals prog_img demo_start demo_full 0x7FE000
      (numbered 0) (Some 0) VIDEO_PAGE None clear_tty demo_command demo_text) as (_ & H).
    + exact demo_locals_ok.
    + exact prog_img_wf.
    + exact prog_bounds.
    + exact demo_full_ok.
    + exact (exec_state_mounted 0 0 0x7FFF00 [1; 1; 1; 1; 1; 1] exec_pcbs).
    + exact (demo_command_at demo_full).
    + destruct (H 0) as (k' & E & T & _); [apply demo_program; reflexivity|reflexivity|].
      exists k'. split; [exact E|exact T].
Defined.

Lemma same_state {A S} (r : res (A * S)) a a' s s' : r = Ok (a, s) -> r = Ok (a', s') -> s = s'.
Proof. intros ->. by intros [= _ ->]. Qed.

Lemma execute_halt_returns_witness :
  exists k1 k', sys_execute (L := demo_layout) demo_locals demo_command demo_exec =
      Ok (Enters 0x80482E8 USER_ESP, k1) /\
    sys_halt (L := demo_layout) demo_locals 7 k1 = Ok (Resumes 7, k') /\
    r_esp (k_cpu k') = 0x7FFF00 /\ used_pids (k_proc k') = [1; 1; 1; 0; 0; 0].
Proof.
  pose proof (execute_starts (L := demo_layout) demo_locals prog_img demo_start demo_exec 0x7FE000
    (numbered 0) (Some 0) VIDEO_PAGE None clear_tty demo_command demo_text 0 3
    demo_locals_ok prog_img_wf prog_bounds demo_exec_ok
    (exec_state_mounted 0 0 0x7FFF00 [1; 1; 1; 0; 0; 0] exec_pcbs) (demo_command_at demo_exec)
    (demo_program _ eq_refl) eq_refl ltac:(discriminate) prog_fits) as (k1' & E1 & X).
  destruct (execute_halt_returns (L := demo_layout) demo_locals prog_img demo_start demo_exec 0x7FE000
    (numbered 0) (Some 0) VIDEO_PAGE None clear_tty demo_command demo_text 0 3
    (running_terminal_of 0 0) 7) as (k1 & E & H).
  - exact demo_locals_ok.
  - exact prog_img_wf.
  - exact prog_bounds.
  - exact demo_exec_ok.
  - exact (exec_state_mounted 0 0 0x7FFF00 [1; 1; 1; 0; 0; 0] exec_pcbs).
  - exact (demo_command_at demo_exec).
  - apply demo_program. reflexivity.
  - reflexivity.
  - lia.
  - exact prog_fits.
  - discriminate.
  - simpl. lia.
  - reflexivity.
  - reflexivity.
  - reflexivity.
  - rewrite (same_state _ _ _ _ _ E1 E) in X. destruct X, ex_proc as (old & Ep).
    destruct (H k1 VIDEO_PAGE None (tty_puts clear_tty (exec_message 3 0))) as (k' & Eh & Hesp & _ & Hp & _).
    + split; [exact ex_screen|by exists (Some 3)|reflexivity|reflexivity|reflexivity|].
      rewrite Ep. cbn [pcbs]. eexists _, _. split; [apply lookup_insert_eq|].
      split; [symmetry; apply insert_insert_eq|]. do 5 (split; [reflexivity|]). exact closable_new.
    + exists k1, k'. rewrite prog_entry in E. split; [exact E|]. split; [exact Eh|]. split; [exact Hesp|].
      by rewrite Hp.
Defined.

(** Process 3, started by process 0, runs on terminal 0. *)
Definition demo_child : pcb :=
  child 3 0 0x7FE000 true (bytes_of_string "abc") {| eflags := 0x202; r_esp := 0x7FFF00; r_ebp := 0x7FFF40 |}
    (replicate 128 0).
Definition demo_child_state : kernel :=
  exec_state 3 0 0x7F9F00 [1; 1; 1; 1; 0; 0] (<[get_pcb_by_pid 3 := demo_child]> exec_pcbs) cleared_mem.

Lemma demo_child_halting :
  halting (L := demo_layout) 3 demo_child demo_child_state (Some 0) VIDEO_PAGE None clear_tty.
Proof.
  split.
  - apply exec_state_tty.
  - exact demo_user_paging_rep.
  - reflexivity.
  - lia.
  - exists (running_terminal_of 3 0). by split.
  - apply lookup_insert_eq.
  - reflexivity.
  - simpl. lia.
  - exact closable_new.
Qed.

Lemma sys_halt_resumes_witness :
  exists k', sys_halt (L := demo_layout) demo_locals 5 demo_child_state = Ok (Resumes 5, k') /\
    r_ebp (k_cpu k') = 0x7FFF40 /\ used_pids (k_proc k') = [1; 1; 1; 0; 0; 0].
Proof.
  destruct (sys_halt_resumes (L := demo_layout) demo_locals demo_child_state 3 demo_child (numbered 0)
    (Some 0) VIDEO_PAGE None clear_tty 5) as (k' & E & []).
  - exact demo_locals_ok.
  - exact demo_child_halting.
  - lia.
  - change (par_pcb_ptr demo_child) with (get_pcb_by_pid 0). unfold demo_child_state. cbn [pcbs k_proc exec_state set_k_mem set_k_pg set_k_fs set_k_ter set_k_proc].
    rewrite lookup_insert_ne by discriminate. exact (exec_pcbs_all 0 ltac:(lia)).
  - exists k'. split; [exact E|]. split; [by rewrite ha_cpu|by rewrite ha_proc].
Defined.

Lemma demo_root_halting :
  halting (L := demo_layout) 0 (numbered 0) demo_exec (Some 0) VIDEO_PAGE None clear_tty.
Proof.
  split.
  - apply exec_state_tty.
  - exact demo_user_paging_rep.
  - reflexivity.
  - lia.
  - exists (running_terminal_of 0 0). by split.
  - exact (exec_pcbs_all 0 ltac:(lia)).
  - reflexivity.
  - simpl. lia.
  - split; [reflexivity|]. apply Forall_replicate. intros Hz. by destruct Hz.
Qed.

Lemma shell_command_at k : command_at k (shell demo_locals) (shell_text demo_locals).
Proof.
  split.
  - intros i b Hi. by apply arr_get_Some.
  - repeat constructor; done.
  - left. vm_compute. lia.
  - discriminate.
  - discriminate.
Qed.

Lemma sys_halt_restarts_witness :
  exists k', sys_halt (L := demo_layout) demo_locals 0 demo_exec = Ok (Enters 0x80482E8 USER_ESP, k') /\
    used_pids (k_proc k') = [1; 1; 1; 0; 0; 0].
Proof.
  destruct (sys_halt_restarts (L := demo_layout) demo_locals prog_img demo_start demo_exec 0 (numbered 0)
    (Some 0) VIDEO_PAGE None clear_tty 0 0) as (k1 & k' & pg & p & E & Hp & _ & F & X).
  - exact demo_locals_ok.
  - exact prog_img_wf.
  - exact prog_bounds.
  - exact demo_root_halting.
  - lia.
  - exact demo_exec_ok.
  - exact (exec_state_mounted 0 0 0x7FFF00 [1; 1; 1; 0; 0; 0] exec_pcbs).
  - exact shell_command_at.
  - apply demo_program. reflexivity.
  - exact prog_fits.
  - exists k'. rewrite prog_entry in E. split; [exact E|].
    assert (p = 0%nat) as -> by by injection Hp.
    destruct (ex_proc _ _ _ _ _ _ _ _ _ _ _ _ X) as (old & ->). rewrite (fr_proc _ _ _ F). reflexivity.
Defined.

(** The argument of process 3, in the program's page. *)
Lemma getargs_returns_argument_witness :
  sys_getargs (L := demo_layout) 0x8048000 16 demo_child_state =
    Ok (0, set_k_mem (put_bytes 0x848000 (bytes_of_string "abc" ++ [0]) (k_mem demo_child_state)) demo_child_state).
Proof.
  apply (getargs_returns_argument (L := demo_layout) demo_child_state (get_pcb_by_pid 3) demo_child
    0x8048000 0x848000 128 16 true (bytes_of_string "abc") (replicate 128 0)).
  - split; [reflexivity|apply lookup_insert_eq].
  - reflexivity.
  - reflexivity.
  - simpl. lia.
  - exact (user_maps (L := demo_layout) demo_user_paging 0 VIDEO_PAGE None 0x8048000 128
      demo_user_paging_rep ltac:(done) ltac:(done)).
  - reflexivity.
  - lia.
Defined.

(** A pointer below the program's page, one in it, and 132 MB itself. *)
Lemma vidmap_maps_screen_witness :
  sys_vidmap (L := demo_layout) 0x7FFFFFF demo_exec = Ok (-1, demo_exec) /\
  (exists k', sys_vidmap (L := demo_layout) 0x8048000 demo_exec = Ok (0, k') /\
    translate (L := demo_layout) true (k_pg k') 0x8400000 = Some 0xB8000) /\
  exists k', sys_vidmap (L := demo_layout) 0x8400000 demo_exec = Ok (0, k') /\ k_mem k' !! 0xB8003 = Some 8.
Proof.
  destruct (vidmap_maps_screen (L := demo_layout) demo_exec 0 VIDEO_PAGE None 0x7FFFFFF) as [H _];
    [exact demo_user_paging_rep|lia|].
  destruct (vidmap_maps_screen (L := demo_layout) demo_exec 0 VIDEO_PAGE None 0x8048000) as [_ G];
    [exact demo_user_paging_rep|lia|].
  destruct (vidmap_maps_screen (L := demo_layout) demo_exec 0 VIDEO_PAGE None 0x8400000) as [_ G2];
    [exact demo_user_paging_rep|lia|].
  split; [|split].
  - apply H. unfold _128_MB. lia.
  - destruct G as (pg & E & _ & T); [unfold _128_MB, _132_MB; lia|].
    eexists. split; [exact E|]. exact (T 0 ltac:(lia)).
  - destruct G2 as (pg & E & _ & _); [unfold _128_MB, _132_MB; lia|].
    eexists. split; [exact E|]. cbn [k_mem set_k_mem]. rewrite lookup_put_bytes. reflexivity.
Defined.
