(* ===== verification/Sched.v ===== *)
(** * The scheduler (pit.c)

    Every timer interrupt passes the processor to the next of the three
    terminals: its program page, its video page, its cursor, its kernel stack.  A
    terminal without a program gets a shell.  The stack switch at the end of
    [switch_running_process] makes the function return in another process: the
    registers [r_esp] and [r_ebp] afterwards are those the next process saved. *)

From stdpp Require Import base gmap list numbers strings.
From Stdlib Require Import ZArith Lia.
From S2P Require Import Prelude Pointers Ports Pic Paging State Machine VirtMem CString MemFns.
From S2P Require Import Pcb Demo Screen Printf FileSystem Rtc Keyboard Terminal Syscalls Process Exec.

Definition PT_IRQ_NUM : Z := 0.
Definition PT_MODE_REG : Z := 0x43.
Definition PT_CH0_REG : Z := 0x40.
Definition PT_MODE3_CMD : Z := 0x36.
Definition PT_FREQ : Z := 80.
Definition PT_BASE_FREQ : Z := 1193180.
Definition BYTE : Z := 8.
Definition LOW_B_MASK : Z := 0x00FF.
Definition MAIN_VID : Z := -1.

Section Sched.
Context `{L : Layout} (J : locals).

Definition put_curr_process (v : Z) : K unit := modify (fun k => set_k_ter (set_curr_process v (k_ter k)) k).
Definition put_on_screen (v : Z) : K unit := modify (fun k => set_k_scr (set_on_screen v (k_scr k)) k).

Definition init_pit : K unit :=
  put_curr_process 2;;
  put_on_screen 0;;
  let div := u16 (PT_BASE_FREQ / PT_FREQ) in
  kout PT_MODE3_CMD PT_MODE_REG;;
  kout (Z.land div LOW_B_MASK) PT_CH0_REG;;
  kout (Z.land (Z.shiftr div BYTE) LOW_B_MASK) PT_CH0_REG.

Definition kchange_vidmem (vid_id : Z) : K unit :=
  on k_pg set_k_pg (fun pg => pg ← change_vidmem vid_id pg; Ok (tt, pg)).

(** [movl %esp], [movl %ebp] into the block at [p]. *)
Definition save_stack (p : Z) : K unit :=
  cpu ← gets k_cpu;
  upd_pcb p (fun b => set_ebp (r_ebp cpu) (set_esp (r_esp cpu) b)).

(** The terminal has no program: its first shell. *)
Definition start_shell (next_process vid_id : Z) : K outcome :=
  ksend_eoi PT_IRQ_NUM;;
  kchange_vidmem vid_id;;
  when (negb (next_process =? 0)) (
    cp ← gets (fun k => curr_process (k_ter k));
    save_stack (get_pcb_by_pid cp));;
  put_curr_process next_process;;
  reset_cursor;;
  sys_execute J (shell J).

(** The switch to process [pid] of terminal [next_process]. *)
Definition switch_to (next_process vid_id pid : Z) : K outcome :=
  cp ← gets (fun k => curr_process (k_ter k));
  t ← get_terminal cp;
  if prog_curr_pid t =? -1 then mret (Returns 0)
  else
    save_stack (get_pcb_by_pid (prog_curr_pid t));;
    kenable_program_page pid;;
    kchange_vidmem vid_id;;
    put_tss pid;;
    tn ← get_terminal next_process;
    restore_cursor (screen_x_save tn) (screen_y_save tn);;
    ct ← gets (fun k => curr_ter (k_ter k));
    put_on_screen (if next_process =? ct then 1 else 0);;
    b ← get_pcb (get_pcb_by_pid (prog_curr_pid tn));
    put_curr_process next_process;;
    modify (fun k => set_k_cpu (set_r_ebp (ebp b) (set_r_esp (esp b) (k_cpu k))) k);;
    mret (Returns 0).

(** The keyboard and the screen flag follow the terminal on display; the result is
    the video page to use. *)
Definition follow_display (next_process : Z) : K Z :=
  put_on_screen 0;;
  kdisable_irq KB_IRQ_NUM;;
  ct ← gets (fun k => curr_ter (k_ter k));
  if next_process =? ct then
    put_on_screen 1;; kenable_irq KB_IRQ_NUM;; mret MAIN_VID
  else mret next_process.

Definition switch_running_process : K outcome :=
  cp ← gets (fun k => curr_process (k_ter k));
  let next_process := Z.rem (cp + 1) NUM_TERMINALS in
  t ← get_terminal next_process;
  let pid := prog_curr_pid t in
  vid_id ← follow_display next_process;
  if pid =? -1 then
    r ← start_shell next_process vid_id;
    match r with Returns _ => switch_to next_process vid_id pid | _ => mret r end
  else switch_to next_process vid_id pid.

Definition PT_handler : K outcome :=
  r ← switch_running_process;
  match r with Returns _ => ksend_eoi PT_IRQ_NUM;; mret r | _ => mret r end.
End Sched.

(** ** One tick *)

(** The terminal after [t] in the round. *)
Definition next_ter (t : Z) : Z := (t + 1) mod 3.

(** Every terminal runs a program, the programs are different processes, and
    their blocks exist. *)
Record sched_ok (k : kernel) : Prop := {
  so_len : length (terminals (k_ter k)) = 3%nat;
  so_cp : 0 <= curr_process (k_ter k) < 3;
  so_ct : 0 <= curr_ter (k_ter k) < 3;
  so_pids : Forall (fun t => 0 <= prog_curr_pid t < 6) (terminals (k_ter k));
  so_distinct : NoDup (prog_curr_pid <$> terminals (k_ter k));
  so_pcbs p : 0 <= p < 6 -> is_Some (pcbs (k_proc k) !! get_pcb_by_pid p);
  so_pic : pic_wf (k_pic k);
}.

Section Tick.
Context `{L : Layout} (J : locals).

(** What one tick does, from the terminal [tc] that runs to the terminal [tn]. *)
Record ticked (k k' : kernel) (tc tn : terminal_state) : Prop := {
  tk_ter : k_ter k' = set_curr_process (next_ter (curr_process (k_ter k))) (k_ter k);
  tk_scr : k_scr k' = {| screen_x := screen_x_save tn; screen_y := screen_y_save tn;
    on_screen := if next_ter (curr_process (k_ter k)) =? curr_ter (k_ter k) then 1 else 0 |};
  tk_save : exists b, pcbs (k_proc k) !! get_pcb_by_pid (prog_curr_pid tc) = Some b /\
    k_proc k' = set_pcbs (<[get_pcb_by_pid (prog_curr_pid tc) :=
      set_ebp (r_ebp (k_cpu k)) (set_esp (r_esp (k_cpu k)) b)]> (pcbs (k_proc k))) (k_proc k);
  tk_cpu : exists b, pcbs (k_proc k) !! get_pcb_by_pid (prog_curr_pid tn) = Some b /\
    k_cpu k' = set_r_ebp (ebp b) (set_r_esp (esp b) (k_cpu k));
  tk_tss : esp0 (k_tss k') = 0x800000 - 4 - prog_curr_pid tn * 0x2000 /\ ss0 (k_tss k') = KERNEL_DS;
  tk_irq i : 0 <= i <= MAX_IRQ -> masked (k_pic k') i =
    if i =? KB_IRQ_NUM then negb (next_ter (curr_process (k_ter k)) =? curr_ter (k_ter k))
    else masked (k_pic k) i;
  tk_pic : pic_wf (k_pic k');
  tk_eoi : exists log, io_log (k_io k') = log ++ [Out MASTER_PIC_CMD 0x60];
  tk_mem : k_mem k' = k_mem k;
  tk_kbd : k_kbd k' = k_kbd k;
  tk_rtc : k_rtc k' = k_rtc k;
  tk_fs : k_fs k' = k_fs k;
}.

Lemma next_ter_range t : 0 <= t < 3 -> 0 <= next_ter t < 3 /\ next_ter t <> t.
Proof. unfold next_ter. intros H. assert (t = 0 \/ t = 1 \/ t = 2) as [-> | [-> | ->]] by lia; done. Qed.

Lemma next_ter_thrice t : 0 <= t < 3 -> next_ter (next_ter (next_ter t)) = t.
Proof. unfold next_ter. intros H. assert (t = 0 \/ t = 1 \/ t = 2) as [-> | [-> | ->]] by lia; done. Qed.

Lemma sched_terminal k t :
  sched_ok k -> 0 <= t < 3 ->
  exists x, terminals (k_ter k) !! Z.to_nat t = Some x /\ 0 <= prog_curr_pid x < 6.
Proof.
  intros [] Ht. destruct (lookup_lt_is_Some_2 (terminals (k_ter k)) (Z.to_nat t)) as [x Hx]; [lia|].
  exists x. split; [done|]. exact (Forall_lookup_1 _ _ _ _ so_pids0 Hx).
Qed.

(** Different terminals run different processes. *)
Lemma sched_distinct k a b x y :
  sched_ok k -> 0 <= a < 3 -> 0 <= b < 3 -> a <> b ->
  terminals (k_ter k) !! Z.to_nat a = Some x -> terminals (k_ter k) !! Z.to_nat b = Some y ->
  prog_curr_pid x <> prog_curr_pid y.
Proof.
  intros [] Ha Hb Hne Hx Hy Eq. apply Hne, Z2Nat.inj; [lia..|].
  apply (NoDup_lookup _ _ _ (prog_curr_pid y) so_distinct0); rewrite list_lookup_fmap.
  - rewrite Hx. simpl. by rewrite Eq.
  - by rewrite Hy.
Qed.

(** The part of the handler that sets the keyboard and the screen flag. *)
Lemma keyboard_follows k n :
  pic_wf (k_pic k) ->
  exists pic io os, follow_display n k =
    Ok (if n =? curr_ter (k_ter k) then -1 else n,
        set_k_scr (set_on_screen os (k_scr k)) (set_k_io io (set_k_pic pic k))) /\
    pic_wf pic /\ forall i, 0 <= i <= MAX_IRQ -> masked pic i =
      if i =? KB_IRQ_NUM then negb (n =? curr_ter (k_ter k)) else masked (k_pic k) i.
Proof.
  intros Hwf. unfold follow_display, put_on_screen, kdisable_irq. kcbn.
  cbn [k_pic k_io set_k_scr]. pose proof (disable_irq_wf KB_IRQ_NUM (k_pic k, k_io k) Hwf) as Hwf1.
  assert (forall i, 0 <= i <= MAX_IRQ -> masked (disable_irq KB_IRQ_NUM (k_pic k, k_io k)).1 i =
    if i =? KB_IRQ_NUM then true else masked (k_pic k) i) as Hd.
  { intros i Hi. rewrite disable_irq_masked by (done || unfold KB_IRQ_NUM, MAX_IRQ; lia).
    by rewrite Z.eqb_sym. }
  destruct (disable_irq KB_IRQ_NUM (k_pic k, k_io k)) as [p1 io1]. cbn [fst snd] in *.
  cbn [k_ter set_k_io set_k_pic set_k_scr]. destruct (n =? curr_ter (k_ter k)).
  - unfold kenable_irq. kcbn. cbn [k_pic k_io set_k_scr set_k_io set_k_pic].
    pose proof (enable_irq_wf KB_IRQ_NUM (p1, io1) Hwf1) as Hwf2.
    assert (forall i, 0 <= i <= MAX_IRQ -> masked (enable_irq KB_IRQ_NUM (p1, io1)).1 i =
      if i =? KB_IRQ_NUM then false else masked p1 i) as He.
    { intros i Hi. rewrite enable_irq_masked by (done || unfold KB_IRQ_NUM, MAX_IRQ; lia).
      by rewrite Z.eqb_sym. }
    destruct (enable_irq KB_IRQ_NUM (p1, io1)) as [p2 io2]. cbn [fst snd] in *.
    exists p2, io2, 1. split; [done|]. split; [done|]. intros i Hi. rewrite He, Hd by done.
    by destruct (i =? KB_IRQ_NUM).
  - exists p1, io1, 0. split; [done|by split].
Qed.

(** Paging of the switch. *)
Lemma kchange_vidmem_rep k prog vid uvid q :
  paging_rep (k_pg k) prog vid uvid -> -1 <= q < 1000 ->
  exists pg, kchange_vidmem q k = Ok (tt, set_k_pg pg k) /\
    paging_rep pg prog (VIDEO_PAGE + 1 + q) ((fun _ => VIDEO_PAGE + 1 + q) <$> uvid).
Proof.
  intros R Hq. destruct (change_vidmem_rep _ _ _ _ q R Hq) as (s & E & R').
  exists s. split; [|done]. unfold kchange_vidmem, on. by rewrite E.
Qed.

Lemma page_of_vid ct n :
  VIDEO_PAGE + 1 + (if n =? ct then -1 else n) = page_of ct n.
Proof. unfold page_of. destruct (n =? ct); lia. Qed.

(** The body of the switch between two running terminals. *)
Lemma switch_to_spec k n vid_id tc tn bc bn prog vid uvid :
  0 <= curr_process (k_ter k) < 3 -> 0 <= n < 3 ->
  terminals (k_ter k) !! Z.to_nat (curr_process (k_ter k)) = Some tc ->
  terminals (k_ter k) !! Z.to_nat n = Some tn ->
  0 <= prog_curr_pid tc < 6 -> 0 <= prog_curr_pid tn < 6 -> prog_curr_pid tc <> prog_curr_pid tn ->
  pcbs (k_proc k) !! get_pcb_by_pid (prog_curr_pid tc) = Some bc ->
  pcbs (k_proc k) !! get_pcb_by_pid (prog_curr_pid tn) = Some bn ->
  paging_rep (k_pg k) prog vid uvid -> -1 <= vid_id < 3 ->
  exists pg, switch_to n vid_id (prog_curr_pid tn) k = Ok (Returns 0,
      set_k_cpu (set_r_ebp (ebp bn) (set_r_esp (esp bn) (k_cpu k)))
      (set_k_ter (set_curr_process n (k_ter k))
      (set_k_scr {| screen_x := screen_x_save tn; screen_y := screen_y_save tn;
                    on_screen := if n =? curr_ter (k_ter k) then 1 else 0 |}
      (set_k_tss (set_esp0 (u32 (_8MB - 4 - prog_curr_pid tn * _8KB)) (set_ss0 KERNEL_DS (k_tss k)))
      (set_k_pg pg
      (set_k_proc (set_pcbs (<[get_pcb_by_pid (prog_curr_pid tc) :=
        set_ebp (r_ebp (k_cpu k)) (set_esp (r_esp (k_cpu k)) bc)]> (pcbs (k_proc k))) (k_proc k)) k)))))) /\
    paging_rep pg (Some (prog_curr_pid tn)) (VIDEO_PAGE + 1 + vid_id) ((fun _ => VIDEO_PAGE + 1 + vid_id) <$> uvid).
Proof.
  intros Hcp Hn Htc Htn Hpc Hpn Hne Hbc Hbn R Hv. unfold switch_to. kcbn.
  kstep (get_terminal_ok (curr_process (k_ter k)) k tc ltac:(lia) Htc).
  rewrite (proj2 (Z.eqb_neq (prog_curr_pid tc) (-1))) by lia.
  unfold save_stack. kcbn. kstep (upd_pcb_ok _ (fun b => set_ebp (r_ebp (k_cpu k)) (set_esp (r_esp (k_cpu k)) b)) k bc Hbc).
  set (k1 := set_k_proc _ k).
  destruct (kenable_program_page_rep k1 prog vid uvid (prog_curr_pid tn) R) as (pg1 & E1 & R1); [lia|].
  kstep E1. set (k2 := set_k_pg pg1 k1).
  destruct (kchange_vidmem_rep k2 _ _ _ vid_id R1) as (pg & E2 & R2); [lia|].
  exists pg. split; [|exact R2]. kstep E2. unfold put_tss. kcbn. set (k3 := set_k_tss _ _).
  kstep (get_terminal_ok n k3 tn ltac:(lia) Htn).
  unfold restore_cursor, put_x, put_y, put_on_screen. kcbn. set (k4 := set_k_scr _ _).
  assert (pcbs (k_proc k4) !! get_pcb_by_pid (prog_curr_pid tn) = Some bn) as Hb4.
  { simpl. rewrite lookup_insert_ne; [done|]. intros Eq. apply Hne, pcb_by_pid_inj; lia || done. }
  kstep (get_pcb_ok _ k4 bn Hb4). unfold put_curr_process. kcbn. done.
Qed.

(** The tick, from one running terminal to the next. *)
Lemma PT_handler_ticks k prog vid uvid :
  sched_ok k -> paging_rep (k_pg k) prog vid uvid ->
  exists k' tc tn, PT_handler J k = Ok (Returns 0, k') /\
    terminals (k_ter k) !! Z.to_nat (curr_process (k_ter k)) = Some tc /\
    terminals (k_ter k) !! Z.to_nat (next_ter (curr_process (k_ter k))) = Some tn /\
    ticked k k' tc tn /\
    let page := page_of (curr_ter (k_ter k)) (next_ter (curr_process (k_ter k))) in
    paging_rep (k_pg k') (Some (prog_curr_pid tn)) page ((fun _ => page) <$> uvid).
Proof.
  intros H R. pose proof H as []. set (cp := curr_process (k_ter k)) in *. set (n := next_ter cp).
  destruct (next_ter_range cp so_cp0) as [Hn Hne]. fold n in Hn, Hne.
  destruct (sched_terminal k cp H so_cp0) as (tc & Htc & Hpc).
  destruct (sched_terminal k n H Hn) as (tn & Htn & Hpn).
  assert (prog_curr_pid tc <> prog_curr_pid tn) as Hd
    by (apply (sched_distinct k cp n); done || lia).
  destruct (so_pcbs0 _ Hpc) as [bc Hbc], (so_pcbs0 _ Hpn) as [bn Hbn].
  assert (Z.rem (cp + 1) NUM_TERMINALS = n) as Hrem by (unfold n, next_ter, NUM_TERMINALS; apply Z.rem_mod_nonneg; lia).
  destruct (keyboard_follows k n so_pic0) as (pic & io & os & Ek & Hwf & Hm).
  set (k1 := set_k_scr _ _) in Ek. set (vid_id := if n =? curr_ter (k_ter k) then -1 else n) in Ek.
  assert (-1 <= vid_id < 3) as Hv by (unfold vid_id; destruct (n =? curr_ter (k_ter k)); lia).
  destruct (switch_to_spec k1 n vid_id tc tn bc bn prog vid uvid) as (pg & Es & Rs); auto.
  set (k2 := set_k_cpu _ _) in Es.
  exists (set_k_io (send_eoi PT_IRQ_NUM (k_io k2)) k2), tc, tn.
  split; [|split; [done|split; [done|split; [|by rewrite <- page_of_vid]]]].
  - unfold PT_handler, switch_running_process. kcbn. fold cp. rewrite Hrem.
    kstep (get_terminal_ok n k tn ltac:(lia) Htn). kcbn. kstep Ek.
    rewrite (proj2 (Z.eqb_neq (prog_curr_pid tn) (-1))) by lia. kstep Es. unfold ksend_eoi. by kcbn.
  - split; try done.
    + by exists bc.
    + by exists bn.
    + split; [|done]. change (esp0 _) with (u32 (0x800000 - 4 - prog_curr_pid tn * 0x2000)).
      apply u32_small. lia.
    + eexists. apply io_log_outb.
Qed.

Lemma ticked_ok k k' tc tn : sched_ok k -> ticked k k' tc tn -> sched_ok k'.
Proof.
  intros [] []. destruct tk_save0 as (b & Hb & Ep).
  split; rewrite ?tk_ter0, ?Ep; auto.
  - by apply next_ter_range.
  - intros p Hp. simpl. destruct (decide (get_pcb_by_pid (prog_curr_pid tc) = get_pcb_by_pid p)) as [->|].
    + rewrite lookup_insert_eq. by eexists.
    + rewrite lookup_insert_ne by done. auto.
Qed.

(** The terminals stay what they were; only the running one changes. *)
Lemma ticked_terminals k k' tc tn : ticked k k' tc tn ->
  terminals (k_ter k') = terminals (k_ter k) /\ curr_ter (k_ter k') = curr_ter (k_ter k) /\
  curr_process (k_ter k') = next_ter (curr_process (k_ter k)).
Proof. intros []. by rewrite tk_ter0. Qed.

(** The block of a process other than the one that stops. *)
Lemma ticked_pcb k k' tc tn q :
  ticked k k' tc tn -> 0 <= prog_curr_pid tc < 6 -> 0 <= q < 6 -> q <> prog_curr_pid tc ->
  pcbs (k_proc k') !! get_pcb_by_pid q = pcbs (k_proc k) !! get_pcb_by_pid q.
Proof.
  intros [] Hc Hq Hne. destruct tk_save0 as (b & Hb & ->). simpl. apply lookup_insert_ne.
  intros Eq. apply Hne. symmetry. apply pcb_by_pid_inj; lia || done.
Qed.

(** (C13) A timer interrupt when every terminal runs a program, on every pair of
    terminals: it terminates, saves the stack of the process that stops in its
    block, passes to the next terminal in the round, whose stack, cursor, program
    page, video page (the display when it is the one shown, its own page
    otherwise) and kernel stack in the TSS are installed; the keyboard interrupt is
    enabled exactly when that terminal is the one on display; the interrupt is
    acknowledged; memory, files, clock and the other interrupt lines keep their state. *)
Theorem timer_switches k prog vid uvid :
  sched_ok k -> paging_rep (k_pg k) prog vid uvid ->
  exists k' tc tn, PT_handler J k = Ok (Returns 0, k') /\
    terminals (k_ter k) !! Z.to_nat (curr_process (k_ter k)) = Some tc /\
    terminals (k_ter k) !! Z.to_nat (next_ter (curr_process (k_ter k))) = Some tn /\
    ticked k k' tc tn /\
    let page := page_of (curr_ter (k_ter k)) (next_ter (curr_process (k_ter k))) in
    paging_rep (k_pg k') (Some (prog_curr_pid tn)) page ((fun _ => page) <$> uvid).
Proof. apply PT_handler_ticks. Qed.

(** Round robin: three timer interrupts later the same process runs again,
    with its own registers, cursor, screen flag, program page and video page, as if
    nothing had happened. *)
Lemma three_ticks_resume k tc uvid :
  sched_ok k -> cursor_saved k ->
  terminals (k_ter k) !! Z.to_nat (curr_process (k_ter k)) = Some tc ->
  on_screen (k_scr k) = (if curr_process (k_ter k) =? curr_ter (k_ter k) then 1 else 0) ->
  let page := page_of (curr_ter (k_ter k)) (curr_process (k_ter k)) in
  paging_rep (k_pg k) (Some (prog_curr_pid tc)) page uvid ->
  exists k3, (PT_handler J;; PT_handler J;; PT_handler J) k = Ok (Returns 0, k3) /\
    k_cpu k3 = k_cpu k /\ k_ter k3 = k_ter k /\ k_scr k3 = k_scr k /\ k_mem k3 = k_mem k /\
    esp0 (k_tss k3) = 0x800000 - 4 - prog_curr_pid tc * 0x2000 /\
    paging_rep (k_pg k3) (Some (prog_curr_pid tc)) page ((fun _ => page) <$> uvid).
Proof.
  intros H Hcur Htc Hon page R.
  destruct (PT_handler_ticks k _ _ _ H R) as (k1 & t0 & t1 & E1 & Ht0 & Ht1 & T1 & R1).
  pose proof (ticked_ok _ _ _ _ H T1) as H1.
  destruct (PT_handler_ticks k1 _ _ _ H1 R1) as (k2 & t1' & t2 & E2 & Ht1' & Ht2 & T2 & R2).
  pose proof (ticked_ok _ _ _ _ H1 T2) as H2.
  destruct (PT_handler_ticks k2 _ _ _ H2 R2) as (k3 & t2' & t3 & E3 & Ht2' & Ht3 & T3 & R3).
  destruct (ticked_terminals _ _ _ _ T1) as (A1 & B1 & C1), (ticked_terminals _ _ _ _ T2) as (A2 & B2 & C2).
  destruct (ticked_terminals _ _ _ _ T3) as (A3 & B3 & C3).
  rewrite ?A2, ?A1, ?B2, ?B1, ?C2, ?C1 in *. rewrite next_ter_thrice in * by apply H.
  assert (t0 = tc) as -> by congruence. assert (t3 = tc) as -> by congruence.
  assert (t1' = t1) as -> by congruence. assert (t2' = t2) as -> by congruence.
  exists k3. split; [by kstep E1; kstep E2|].
  pose proof (so_cp _ H) as Hcp. destruct (next_ter_range _ Hcp) as [Hn1 Hne1].
  destruct (next_ter_range _ Hn1) as [Hn2 Hne2].
  assert (next_ter (next_ter (curr_process (k_ter k))) <> curr_process (k_ter k)) as Hne3.
  { intros Eq. rewrite <- Eq in Hne1 at 1. rewrite next_ter_thrice in Hne1 by done. congruence. }
  pose proof (Forall_lookup_1 _ _ _ _ (so_pids _ H) Htc) as P0.
  pose proof (Forall_lookup_1 _ _ _ _ (so_pids _ H) Ht1) as P1. cbv beta in P0, P1.
  pose proof (sched_distinct k _ _ _ _ H Hcp Hn1 ltac:(done) Htc Ht1) as D1.
  pose proof (sched_distinct k _ _ _ _ H Hcp Hn2 ltac:(done) Htc Ht2) as D2.
  split; [|split; [|split; [|split; [|split]]]].
  - destruct (tk_cpu _ _ _ _ T3) as (b & Hb & ->), (tk_cpu _ _ _ _ T2) as (b1 & _ & ->),
      (tk_cpu _ _ _ _ T1) as (b2 & _ & ->).
    rewrite (ticked_pcb _ _ _ _ _ T2) in Hb by (done || lia).
    destruct (tk_save _ _ _ _ T1) as (b0 & _ & Ep). rewrite Ep in Hb. simpl in Hb.
    rewrite lookup_insert_eq in Hb. injection Hb as <-. simpl. by destruct (k_cpu k).
  - rewrite (tk_ter _ _ _ _ T3), C2, next_ter_thrice, (tk_ter _ _ _ _ T2), (tk_ter _ _ _ _ T1) by done.
    by destruct (k_ter k).
  - rewrite (tk_scr _ _ _ _ T3), C2, next_ter_thrice, B2, <- Hon by done.
    destruct Hcur as (t & Ht & Hx & Hy). assert (t = tc) as -> by congruence.
    rewrite Hx, Hy. by destruct (k_scr k).
  - by rewrite (tk_mem _ _ _ _ T3), (tk_mem _ _ _ _ T2), (tk_mem _ _ _ _ T1).
  - apply (tk_tss _ _ _ _ T3).
  - cbv zeta in R3. by destruct uvid.
Qed.
End Tick.
