(* ===== verification/Frame.v ===== *)
(** * What kernel code never changes

    Properties of every function of the kernel that need nothing of the state it runs
    in: the arrays of the C program keep their lengths, no process control block
    appears or disappears, and only the end of a process and the scheduler change the
    stack registers.  They are relations between the states before and after, proved
    from the primitives up by the rules of [preserves]; the hint database [frame] holds
    what is known of each function. *)

From stdpp Require Import base gmap list numbers strings relations.
From Stdlib Require Import ZArith Lia.
From S2P Require Import Prelude Pointers Ports Pic Paging State Machine VirtMem CString MemFns.
From S2P Require Import Pcb Demo Screen Printf FileSystem Rtc Keyboard Terminal Syscalls Process Idt Sched.

(** [m], whenever it ends, takes a state to one related to it. *)
Definition preserves {A} (R : relation kernel) (m : K A) : Prop :=
  forall k a k', m k = Ok (a, k') -> R k k'.

(** [m], whenever it ends, has a result in [Q]. *)
Definition yields {A} (Q : A -> Prop) (m : K A) : Prop := forall k a k', m k = Ok (a, k') -> Q a.

(** Every store through [p] does. *)
Definition stores {St} (R : relation St) (p : ptr St) : Prop :=
  forall o i b o', store p o i b = Ok o' -> R o o'.

Create HintDb frame discriminated.
#[export] Hint Constants Opaque : frame.

(** The branches of a computation that ended. *)
Ltac inv_step := repeat (progress (inv_binds; simplify_eq/=; repeat case_match; simplify_eq/=)).

(** ** Loops *)

Lemma loop_rule {S T} (I : S -> Prop) (Q : T -> Prop) fuel (f : S -> res (S + T)) s r :
  loop fuel f s = Ok r -> I s ->
  (forall s s', I s -> f s = Ok (inl s') -> I s') ->
  (forall s v, I s -> f s = Ok (inr v) -> Q v) -> Q r.
Proof.
  unfold loop. rewrite iter_pos_nat. intros E HI Hl Hr.
  revert s E HI. induction (Pos.to_nat fuel) as [|n IH]; intros s E HI; [done|].
  simpl in E. destruct (f s) as [[s'|v]|e] eqn:Ef; [|injection E as <-; eauto|done].
  apply (IH s'); [exact E|eauto].
Qed.

Lemma for_range_rule {S} (R : relation S) `{!PreOrder R} a b (body : Z -> S -> res S) s s' :
  for_range a b body s = Ok s' -> (forall i s s', body i s = Ok s' -> R s s') -> R s s'.
Proof.
  unfold for_range. generalize (Z.to_nat (b - a)) as n. intros n E Hb. revert a s E.
  induction n as [|n IH]; intros a s E; simpl in E; inv_binds; [done|].
  etrans; eauto.
Qed.

(** ** Stores *)

Section Stores.
Context {St : Type} (R : relation St) `{!PreOrder R}.
Implicit Types (p dest src : ptr St) (o : St).

Lemma stores_add p n : stores R p -> stores R (ptr_add p n).
Proof. intros H o i b o' E. eapply H, E. Qed.

Lemma stores_lit a l : stores R (lit_ptr a l).
Proof. intros o i b o' E. discriminate E. Qed.

Lemma store_list_rule p i l o o' : stores R p -> store_list p i l o = Ok o' -> R o o'.
Proof.
  intros H. revert i o. induction l as [|b l IH]; intros i o E; simpl in E; inv_binds; [done|].
  etrans; eauto.
Qed.

Lemma memcpy_rule dest src n o o' : stores R dest -> memcpy dest src n o = Ok o' -> R o o'.
Proof.
  intros H. unfold memcpy. intros E. apply bind_Ok in E as ([[k ecx] o1] & El & E). trans o1.
  - clear E. refine (loop_rule (fun s => R o s.2) (fun s => R o s.2) _ _ _ _ El _ _ _); [done| |];
      intros [[k' e'] o2] v HI Ef; cbn in HI; inv_step; [etrans; eauto|done|done].
  - destruct (ecx =? 0); [by injection E as <-|]. apply bind_Ok in E as (o2 & E1 & E2). trans o2.
    + apply (for_range_rule R _ _ _ _ _ E1). intros i s s' Eb. inv_binds. by eapply store_list_rule.
    + apply (for_range_rule R _ _ _ _ _ E2). intros i s s' Eb. inv_binds. eauto.
Qed.

Lemma strncpy_rule dest src n o o' : stores R dest -> strncpy dest src n o = Ok o' -> R o o'.
Proof.
  intros H. unfold strncpy. intros E. apply bind_Ok in E as ([i1 o1] & El & E). trans o1.
  - refine (loop_rule (fun s => R o s.2) (fun s => R o s.2) _ _ _ _ El _ _ _); [done| |];
      intros [i o2] v HI Ef; cbn in HI; inv_step; [etrans; eauto|done].
  - refine (loop_rule (fun s => R o1 s.2) (fun o => R o1 o) _ _ _ _ E _ _ _); [done| |];
      intros [i o2] v HI Ef; cbn in HI; inv_step; [etrans; eauto|done].
Qed.

Lemma read_dentry_by_index_rule mem fs i dest o r :
  stores R dest -> read_dentry_by_index mem fs i dest o = Ok r -> R o r.2.
Proof.
  unfold read_dentry_by_index. intros H E. destruct (_ <? _); inv_binds; [done|]. cbn. by eapply memcpy_rule.
Qed.

Lemma read_dentry_by_name_rule mem fs fname dest o r :
  stores R dest -> read_dentry_by_name mem fs fname dest o = Ok r -> R o r.2.
Proof.
  unfold read_dentry_by_name. intros H E. inv_binds. destruct (_ <? s32 _); inv_binds; [done|].
  destruct (_ =? _); inv_binds; [done|]. cbn. by eapply memcpy_rule.
Qed.

Lemma read_step_rule mem fs node buf n s o r :
  stores R buf -> read_step mem fs node buf n (s, o) = Ok r -> R o (match r with inl s' => s'.2 | inr s' => s'.2 end).
Proof.
  intros H. destruct s as [[[[a b] c] d] e]. unfold read_step. intros E. inv_step; first [done|eauto].
Qed.

Lemma read_data_rule mem fs inode off buf n o r :
  stores R buf -> read_data mem fs inode off buf n o = Ok r -> R o r.2.
Proof.
  unfold read_data. intros H E. destruct (_ <=? _); [by injection E as <-|].
  apply bind_Ok in E as (a & _ & E). apply bind_Ok in E as (s & El & E). injection E as <-.
  refine (loop_rule (fun s => R o s.2) (fun s => R o s.2) _ _ _ _ El _ _ _); [done| |];
    clear El; intros [s1 o2] v HI Ef; exact (transitivity HI (read_step_rule _ _ _ _ _ _ _ _ H Ef)).
Qed.
End Stores.

(** A state with a local beside it. *)
Definition on_fst {S T} (R : relation S) : relation (S * T) := fun o o' => R o.1 o'.1.
#[export] Instance on_fst_preorder {S T} (R : relation S) `{!PreOrder R} : PreOrder (@on_fst S T R).
Proof. split; [intros o|intros o1 o2 o3 H1 H2]; unfold on_fst in *; [done|by etrans]. Qed.

Lemma stores_fst {S T} (R : relation S) p : stores R p -> stores (@on_fst S T R) (ptr_fst p).
Proof. intros H o i b o' E. cbn in E. inv_binds. unfold on_fst. cbn. eauto. Qed.
Lemma stores_snd {S T} (R : relation S) `{!PreOrder R} (p : ptr T) : stores (on_fst R) (ptr_snd p).
Proof. intros o i b o' E. cbn in E. inv_binds. by unfold on_fst. Qed.

(** ** The rules of [preserves] *)

Section Rules.
Context (R : relation kernel) `{!PreOrder R}.

Lemma preserves_mret {A} (a : A) : preserves R (mret a).
Proof. intros k b k' [= <- <-]. done. Qed.
Lemma preserves_throw {A} e : preserves R (throw e : K A).
Proof. intros k b k' E. discriminate E. Qed.
Lemma preserves_gets {A} (g : kernel -> A) : preserves R (gets g).
Proof. intros k b k' [= <- <-]. done. Qed.
Lemma preserves_lift {A} (r : res A) : preserves R (lift r).
Proof. intros k b k' E. unfold lift in E. by inv_binds. Qed.
Lemma preserves_read {A} (g : kernel -> res A) : preserves R (fun k => a ← g k; Ok (a, k)).
Proof. intros k b k' E. by inv_binds. Qed.
Lemma preserves_modify f : (forall k, R k (f k)) -> preserves R (modify f).
Proof. intros H k b k' [= <- <-]. done. Qed.

Lemma preserves_bind {A B} (m : K A) (f : A -> K B) :
  preserves R m -> (forall a, preserves R (f a)) -> preserves R (m ≫= f).
Proof. intros Hm Hf k b k' (a & k1 & E1 & E2)%K_bind_inv. etrans; [by eapply Hm|by eapply Hf]. Qed.

(** The same, when the result of the first part matters. *)
Lemma preserves_bind_post {A B} (Q : A -> Prop) (m : K A) (f : A -> K B) :
  preserves R m -> (forall k a k', m k = Ok (a, k') -> Q a) -> (forall a, Q a -> preserves R (f a)) ->
  preserves R (m ≫= f).
Proof.
  intros Hm HQ Hf k b k' (a & k1 & E1 & E2)%K_bind_inv. etrans; [by eapply Hm|]. by eapply (Hf a (HQ _ _ _ E1)).
Qed.

Lemma preserves_when b m : preserves R m -> preserves R (when b m).
Proof. intros H. destruct b; [done|apply preserves_mret]. Qed.

Lemma preserves_kfor a b body : (forall i, preserves R (body i)) -> preserves R (kfor a b body).
Proof.
  intros H k u k' E. unfold kfor in E. apply bind_Ok in E as (k1 & E & [= <- <-]).
  apply (for_range_rule R _ _ _ _ _ E). intros i s s' Eb. apply bind_Ok in Eb as ([[] s1] & Eb & [= <-]).
  by eapply H.
Qed.

Lemma preserves_wait cond irqs : Forall (preserves R) irqs -> preserves R (wait_until cond irqs).
Proof.
  induction 1 as [|m irqs Hm _ IH]; intros k a k' E; simpl in E; apply bind_Ok in E as ([] & _ & E);
    [by injection E as <- <-|done|by injection E as <- <-|].
  apply bind_Ok in E as ([[] k1] & E1 & E). etrans; [by eapply Hm|by eapply IH].
Qed.

(** The interrupts a wait leaves over. *)
Lemma wait_rest (P : K unit -> Prop) cond irqs k irqs' k' :
  Forall P irqs -> wait_until cond irqs k = Ok (irqs', k') -> Forall P irqs'.
Proof.
  intros H. revert k. induction H as [|m irqs Hm H IH]; intros k E; simpl in E;
    apply bind_Ok in E as ([] & _ & E); [by injection E as <- <-|done|injection E as <- <-; by constructor|].
  apply bind_Ok in E as ([[] k1] & E1 & E). by eapply IH.
Qed.

Lemma preserves_bind_wait {B} cond irqs (f : list (K unit) -> K B) :
  Forall (preserves R) irqs -> (forall irqs', Forall (preserves R) irqs' -> preserves R (f irqs')) ->
  preserves R (wait_until cond irqs ≫= f).
Proof.
  intros H Hf. apply (preserves_bind_post (Forall (preserves R))); [by apply preserves_wait| |done].
  intros k irqs' k' E. by eapply wait_rest.
Qed.

(** A component's own computation. *)
Lemma preserves_on {S A} (get : kernel -> S) set (m : S -> res (A * S)) (RS : relation S) :
  (forall s r, m s = Ok r -> RS s r.2) -> (forall k s, RS (get k) s -> R k (set s k)) -> preserves R (on get set m).
Proof. intros H Hs k a k' E. unfold on in E. inv_binds. eauto. Qed.

(** A computation that stores through pointers. *)
Lemma preserves_stores {A} (f : kernel -> res kernel) (a : A) :
  (forall k k', f k = Ok k' -> R k k') -> preserves R (fun k => k' ← f k; Ok (a, k')).
Proof. intros H k b k' E. inv_binds. eauto. Qed.
End Rules.

Lemma yields_mret {A} (Q : A -> Prop) a : Q a -> yields Q (mret a).
Proof. by intros H k b k' [= <- _]. Qed.
Lemma yields_bind {A B} (Q : B -> Prop) (m : K A) f : (forall a, yields Q (f a)) -> yields Q (m ≫= f).
Proof. intros H k b k' (a & k1 & _ & E)%K_bind_inv. by eapply H. Qed.

Lemma preserves_mono {A} (R R' : relation kernel) (m : K A) :
  preserves R m -> (forall k k', R k k' -> R' k k') -> preserves R' m.
Proof. intros H HR k a k' E. eauto. Qed.

#[export] Hint Resolve preserves_mret preserves_throw preserves_gets preserves_lift preserves_read
  preserves_bind preserves_when preserves_kfor preserves_wait : frame.

(** Follows the structure of a computation; what [frame] knows ends a branch. *)
Ltac frame_step :=
  match goal with
  | |- forall _, _ => intros ?
  | |- preserves _ (if ?b then _ else _) => destruct b
  | |- preserves _ (match ?x with _ => _ end) => destruct x
  | |- preserves _ (wait_until _ _ ≫= _) => apply preserves_bind_wait; [apply _|assumption|]
  | |- preserves _ (_ ≫= _) => apply preserves_bind; [apply _| |]
  | |- preserves _ (when _ _) => apply preserves_when; [apply _|]
  | |- preserves _ (kfor _ _ _) => apply preserves_kfor; [apply _|]
  | |- preserves _ (let _ := _ in _) => cbv zeta
  | |- _ => solve [eauto with frame typeclass_instances]
  end.
Ltac frame := repeat frame_step.

(** ** The relations *)

Definition ter_shaped (t : terminal_state) : Prop :=
  length (typing t) = 128%nat /\ length (typed t) = 128%nat /\ length (history t) = 128%nat.
Definition pcb_shaped (b : pcb) : Prop := length (fdt b) = 8%nat /\ length (args b) = 128%nat.

(** The arrays have the lengths they are declared with. *)
Record shaped (k : kernel) : Prop := {
  sh_pd : length (page_directory (k_pg k)) = 1024%nat;
  sh_pt : length (page_table (k_pg k)) = 1024%nat;
  sh_vpt : length (vidmem_page_table (k_pg k)) = 1024%nat;
  sh_ters : length (terminals (k_ter k)) = 3%nat;
  sh_ter : Forall ter_shaped (terminals (k_ter k));
  sh_flags : length (rtc_interrupt_flags (k_rtc k)) = 3%nat;
  sh_used : length (used_pids (k_proc k)) = 6%nat;
  sh_pcb : map_Forall (fun _ => pcb_shaped) (pcbs (k_proc k));
}.

(** What every kernel function leaves: paging stays on with the same directory, the
    mounted file system is the same, blocks and written memory stay, arrays keep their
    lengths. *)
Record safe (k k' : kernel) : Prop := {
  sf_pg : (cr0_pg (k_pg k'), cr4_pse (k_pg k'), cr3 (k_pg k')) = (cr0_pg (k_pg k), cr4_pse (k_pg k), cr3 (k_pg k));
  sf_fs : k_fs k' = k_fs k;
  sf_pcbs : dom (pcbs (k_proc k')) = dom (pcbs (k_proc k));
  sf_mem : dom (k_mem k) ⊆ dom (k_mem k');
  sf_shaped : shaped k -> shaped k';
}.

(** The same, with the stack registers. *)
Record kept (k k' : kernel) : Prop := {
  kp_esp : r_esp (k_cpu k') = r_esp (k_cpu k);
  kp_ebp : r_ebp (k_cpu k') = r_ebp (k_cpu k);
  kp_safe : safe k k';
}.

#[export] Instance safe_preorder : PreOrder safe.
Proof.
  split.
  - intros k. by split.
  - intros k1 k2 k3 [] []. split; [congruence..|by etrans|auto].
Qed.
#[export] Instance kept_preorder : PreOrder kept.
Proof.
  split.
  - intros k. by split.
  - intros k1 k2 k3 [] []. split; [congruence..|by etrans].
Qed.

Lemma safe_kept {A} (m : K A) : preserves kept m -> preserves safe m.
Proof. intros H. eapply preserves_mono; [exact H|by intros ?? []]. Qed.

(** Updates of the parts. *)
Section Parts.
Implicit Types k : kernel.

Ltac part := split; [done..|]; split; [done..|by intros []].

Lemma kept_scr k f : kept k (set_k_scr f k).
Proof. part. Qed.
Lemma kept_kbd k f : kept k (set_k_kbd f k).
Proof. part. Qed.
Lemma kept_io k f : kept k (set_k_io f k).
Proof. part. Qed.
Lemma kept_pic_io k f g : kept k (set_k_io f (set_k_pic g k)).
Proof. part. Qed.
Lemma kept_tss k f : kept k (set_k_tss f k).
Proof. part. Qed.
Lemma kept_flags k f : kept k (set_k_cpu (set_eflags f (k_cpu k)) k).
Proof. part. Qed.
Lemma safe_cpu k c : safe k (set_k_cpu c k).
Proof. split; [done..|by intros []]. Qed.
Lemma kept_curr_ter k v : kept k (set_k_ter (set_curr_ter v (k_ter k)) k).
Proof. part. Qed.
Lemma kept_curr_process k v : kept k (set_k_ter (set_curr_process v (k_ter k)) k).
Proof. part. Qed.
Lemma kept_higher_freq k v : kept k (set_k_rtc (set_higher_freq v (k_rtc k)) k).
Proof. part. Qed.
End Parts.

(** ** The primitives *)

Section Primitives.
Context `{L : Layout}.

Lemma keep_kout d p : preserves kept (kout d p).
Proof. apply preserves_modify. intros k. apply kept_io. Qed.
Lemma keep_kin p : preserves kept (kin p).
Proof. intros k a k' E. unfold kin, on in E. inv_binds. apply kept_io. Qed.
Lemma keep_enable_irq i : preserves kept (kenable_irq i).
Proof. apply preserves_modify. intros k. apply kept_pic_io. Qed.
Lemma keep_disable_irq i : preserves kept (kdisable_irq i).
Proof. apply preserves_modify. intros k. apply kept_pic_io. Qed.
Lemma keep_send_eoi i : preserves kept (ksend_eoi i).
Proof. apply preserves_modify. intros k. apply kept_io. Qed.
Lemma keep_cli_and_save : preserves kept cli_and_save.
Proof. intros k a k' [= <- <-]. apply kept_flags. Qed.
Lemma keep_sti : preserves kept sti.
Proof. apply preserves_modify. intros k. apply kept_flags. Qed.
Lemma keep_restore_flags f : preserves kept (restore_flags f).
Proof. apply preserves_modify. intros k. apply kept_flags. Qed.

Lemma keep_get_terminal i : preserves kept (get_terminal i).
Proof. apply preserves_read, _. Qed.

Lemma keep_upd_terminal i f :
  (forall t, ter_shaped t -> ter_shaped (f t)) -> preserves kept (upd_terminal i f).
Proof.
  intros Hf k a k' E. unfold upd_terminal in E.
  apply bind_Ok in E as (t & [_ Ht]%arr_get_lookup & E). apply bind_Ok in E as (l & [_ ->]%arr_set_inv & [= <- <-]).
  split; [done..|]. split; [done..|]. intros []. split; try done; cbn.
  - by rewrite length_insert.
  - apply Forall_insert; [done|]. by eapply Hf, Forall_lookup_1.
Qed.

Lemma keep_get_pcb p : preserves kept (get_pcb p).
Proof. intros k a k' E. unfold get_pcb in E. destruct (_ !! _); inv_binds. done. Qed.

Lemma keep_upd_pcb p f : (forall b, pcb_shaped b -> pcb_shaped (f b)) -> preserves kept (upd_pcb p f).
Proof.
  intros Hf k a k' E. unfold upd_pcb in E. destruct (_ !! _) as [b|] eqn:Hb; [|done]. injection E as <- <-.
  split; [done..|]. split; [done|done| |done|]; cbn.
  - by apply dom_insert_lookup_L.
  - intros []. split; try done; cbn. apply map_Forall_insert_2; [|done]. by eapply Hf, (map_Forall_lookup_1 _ _ _ _ sh_pcb0).
Qed.

Lemma keep_get_used i : preserves kept (get_used i).
Proof. apply preserves_read, _. Qed.

Lemma keep_put_used i v : preserves kept (put_used i v).
Proof.
  intros k a k' E. unfold put_used in E. apply bind_Ok in E as (l & El%arr_set_length & [= <- <-]).
  split; [done..|]. split; [done..|]. intros []. split; try done; cbn. congruence.
Qed.

Lemma keep_put_flag i v : preserves kept (put_flag i v).
Proof.
  intros k a k' E. unfold put_flag in E. apply bind_Ok in E as (l & El%arr_set_length & [= <- <-]).
  split; [done..|]. split; [done..|]. intros []. split; try done; cbn. congruence.
Qed.

Lemma keep_vptr a : stores kept (vptr a).
Proof.
  intros k i b k' E. cbn in E. unfold vstore in E. destruct (translate _ _ _); inv_binds.
  split; [done..|]. split; [done..| |by intros []]. cbn. rewrite dom_insert. apply union_subseteq_r.
Qed.

Lemma keep_kload a : preserves kept (kload a).
Proof. apply preserves_read, _. Qed.
Lemma keep_kstore a b : preserves kept (kstore a b).
Proof.
  apply (preserves_stores kept (fun k => vstore k a b)). intros k k' E. apply (keep_vptr 0 k a b). cbn.
  by rewrite Z.add_0_l.
Qed.
Lemma keep_load_word a : preserves kept (load_word a).
Proof. apply preserves_read, _. Qed.
End Primitives.

(** Page tables. *)
Definition pg_kept (s s' : paging) : Prop :=
  (cr0_pg s', cr4_pse s', cr3 s') = (cr0_pg s, cr4_pse s, cr3 s) /\
  length (page_directory s') = length (page_directory s) /\ length (page_table s') = length (page_table s) /\
  length (vidmem_page_table s') = length (vidmem_page_table s).

Lemma keep_on_pg {A} (m : paging -> res (A * paging)) :
  (forall s r, m s = Ok r -> pg_kept s r.2) -> preserves kept (on k_pg set_k_pg m).
Proof.
  intros H. apply (preserves_on kept _ _ _ pg_kept H). intros k s (Hr & H1 & H2 & H3).
  split; [done..|]. split; [done..|]. intros []. split; try done; cbn; congruence.
Qed.

Section Pages.
Context `{L : Layout}.

Lemma upd_pd_kept i f s s' : upd_pd i f s = Ok s' -> pg_kept s s'.
Proof. unfold upd_pd. intros E. inv_binds. repeat split; try done. by eapply arr_set_length. Qed.
Lemma upd_pt_kept i f s s' : upd_pt i f s = Ok s' -> pg_kept s s'.
Proof. unfold upd_pt. intros E. inv_binds. repeat split; try done. by eapply arr_set_length. Qed.
Lemma upd_vpt_kept i f s s' : upd_vpt i f s = Ok s' -> pg_kept s s'.
Proof. unfold upd_vpt. intros E. inv_binds. repeat split; try done. by eapply arr_set_length. Qed.

Lemma pg_kept_trans s1 s2 s3 : pg_kept s1 s2 -> pg_kept s2 s3 -> pg_kept s1 s3.
Proof. intros (?&?&?&?) (?&?&?&?). repeat split; congruence. Qed.

Lemma keep_change_vidmem n :
  preserves kept (on k_pg set_k_pg (fun pg => pg ← change_vidmem n pg; Ok (tt, pg))).
Proof.
  apply keep_on_pg. intros s r E. unfold change_vidmem in E. inv_binds.
  eapply pg_kept_trans; [by eapply upd_pt_kept|by eapply upd_vpt_kept].
Qed.
Lemma keep_enable_program_page n : preserves kept (kenable_program_page n).
Proof.
  apply keep_on_pg. intros s r E. unfold enable_program_page in E. inv_binds. by eapply upd_pd_kept.
Qed.
Lemma keep_get_vidmem : preserves kept (on k_pg set_k_pg get_vidmem).
Proof.
  apply keep_on_pg. intros s r E. unfold get_vidmem in E. inv_binds.
  eapply pg_kept_trans; [by eapply upd_vpt_kept|by eapply upd_pd_kept].
Qed.
End Pages.

#[export] Hint Resolve keep_kout keep_kin keep_enable_irq keep_disable_irq keep_send_eoi keep_cli_and_save
  keep_sti keep_restore_flags keep_get_terminal keep_get_pcb keep_get_used keep_put_used keep_put_flag
  keep_kload keep_kstore keep_load_word keep_change_vidmem keep_enable_program_page keep_get_vidmem keep_vptr
  kept_scr kept_kbd kept_tss kept_curr_ter kept_curr_process kept_higher_freq : frame.

Ltac keep_step :=
  match goal with
  | |- preserves _ (upd_terminal _ _) => apply keep_upd_terminal; [try (intros; done)]
  | |- preserves _ (upd_pcb _ _) => apply keep_upd_pcb; [try (intros; done)]
  | |- preserves _ (modify _) => apply preserves_modify; intros ?; solve [auto with frame]
  | |- _ => frame_step
  end.
Ltac keep := repeat keep_step.

(** ** The screen and formatted output *)

Section Output.
Context `{L : Layout}.

Lemma keep_clear : preserves kept clear.
Proof. unfold clear. keep. Qed.
Lemma keep_update_cursor x y : preserves kept (update_cursor x y).
Proof. unfold update_cursor. keep. Qed.
#[local] Hint Resolve keep_update_cursor : frame.
Lemma keep_set_cursor : preserves kept set_cursor.
Proof. unfold set_cursor, get_x, get_y. keep. Qed.
Lemma keep_restore_cursor x y : preserves kept (restore_cursor x y).
Proof. unfold restore_cursor, put_x, put_y. keep. Qed.
Lemma keep_reset_cursor : preserves kept reset_cursor.
Proof. unfold reset_cursor, put_x, put_y. keep. Qed.
Lemma keep_scroll_up : preserves kept scroll_up.
Proof. unfold scroll_up. keep. Qed.
#[local] Hint Resolve keep_set_cursor keep_scroll_up : frame.
Lemma keep_next_row : preserves kept next_row.
Proof. unfold next_row, get_y, put_y, put_x. keep. Qed.
Lemma keep_put_cell c : preserves kept (put_cell c).
Proof. unfold put_cell, get_x, get_y. keep. Qed.
#[local] Hint Resolve keep_next_row keep_put_cell : frame.
Lemma keep_putc c : preserves kept (putc c).
Proof. unfold putc, get_x, put_x. keep. Qed.
Lemma keep_screen_backspace : preserves kept screen_backspace.
Proof. unfold screen_backspace, get_x, get_y, put_x, put_y. keep. Qed.
#[local] Hint Resolve keep_putc : frame.

Lemma keep_puts s : preserves kept (puts s).
Proof.
  intros k a k'. unfold puts. intros E.
  refine (loop_rule (fun s => kept k s.2) (fun s => kept k s.2) _ _ _ _ E _ _ _); [done| |];
    clear E; intros [i k1] v HI Ef; cbn in HI; inv_step; [|done].
  etrans; [exact HI|]. destruct x0. by eapply keep_putc.
Qed.

Lemma keep_swap_vid_mem o n : preserves kept (swap_vid_mem o n).
Proof.
  intros k a k'. unfold swap_vid_mem. intros E.
  apply bind_Ok in E as (k1 & E1 & E). apply bind_Ok in E as (k2 & E2 & [= <- <-]).
  etrans; [exact (memcpy_rule kept _ _ _ _ _ (keep_vptr _) E1)|exact (memcpy_rule kept _ _ _ _ _ (keep_vptr _) E2)].
Qed.
#[local] Hint Resolve keep_puts : frame.

Lemma keep_puts_local sp l i : preserves kept (puts_local sp l i).
Proof. unfold puts_local. keep. Qed.

Lemma keep_conversion sp buf alt c args : preserves kept (conversion sp buf alt c args).
Proof.
  unfold conversion. keep; intros k u k'.
  - unfold print_hex. intros E. apply bind_Ok in E as (l & _ & E). by eapply keep_puts_local.
  - unfold print_hex_alternate. intros E. inv_binds. by eapply keep_puts_local.
  - unfold print_unsigned. intros E. apply bind_Ok in E as (l & _ & E). by eapply keep_puts_local.
  - unfold print_signed. intros E. destruct (_ <? _); inv_binds; by eapply keep_puts_local.
Qed.

Lemma keep_printf_step sp junk format s k r :
  printf_step sp junk format (s, k) = Ok r -> kept k (match r with inl s' => s'.2 | inr s' => s'.2 end).
Proof.
  destruct s as [i args]. unfold printf_step. intros E. apply bind_Ok in E as (c & _ & E).
  destruct (c =? 0); [by injection E as <-|]. destruct (c =? 37).
  - apply bind_Ok in E as ([[j alt] c'] & _ & E). apply bind_Ok in E as ([args' k1] & E1 & [= <-]).
    by eapply keep_conversion.
  - apply bind_Ok in E as ([u k1] & E1 & [= <-]). by eapply keep_putc.
Qed.

Lemma keep_printf junk format args : preserves kept (printf junk format args).
Proof.
  intros k a k'. unfold printf. intros E.
  refine (loop_rule (fun s => kept k s.2) (fun s => kept k s.2) _ _ _ _ E _ _ _); [done| |];
    clear E; intros [s k1] v HI Ef; exact (transitivity HI (keep_printf_step _ _ _ _ _ _ Ef)).
Qed.
End Output.

#[export] Hint Resolve keep_clear keep_update_cursor keep_set_cursor keep_restore_cursor keep_reset_cursor
  keep_putc keep_screen_backspace keep_puts keep_swap_vid_mem keep_printf : frame.
