(* ===== verification/FrameCalls.v ===== *)
(** * What system calls and handlers never change

    The rules of Frame.v followed through the drivers, the system calls and the
    interrupt handlers.  The theorems hold for every state, every call number and every
    argument: however a system call or a handler ends, the arrays of the kernel have
    their lengths, its blocks exist and paging is on; and a system call that returns has
    the stack pointers it was called with. *)

From stdpp Require Import base gmap list numbers strings relations.
From Stdlib Require Import ZArith Lia.
From S2P Require Import Prelude Pointers Ports Pic Paging State Machine VirtMem CString MemFns.
From S2P Require Import Pcb Demo Screen Printf FileSystem Rtc Keyboard Terminal Syscalls Process Idt Exceptions Sched Frame.

(** ** Files *)

Section Files.
Context `{L : Layout}.

Lemma keep_get_fdt p fd : preserves kept (get_fdt p fd).
Proof.
  intros k a k'. unfold get_fdt. intros E. apply bind_Ok in E as ([b k1] & _ & E).
  by apply bind_Ok in E as (e & _ & [= <- <-]).
Qed.

Lemma keep_upd_fdt p fd f : preserves kept (upd_fdt p fd f).
Proof.
  intros k a k'. unfold upd_fdt. intros E. apply bind_Ok in E as ([b k1] & Eb & E).
  apply bind_Ok in E as (e & _ & E). apply bind_Ok in E as (l & El%arr_set_length & E).
  unfold get_pcb in Eb. unfold upd_pcb in E. destruct (pcbs (k_proc k) !! p) as [b'|] eqn:Hb; [|done].
  injection Eb as <- <-. injection E as <- <-. split; [done..|]. split; [done|done| |done|]; cbn.
  - by apply dom_insert_lookup_L.
  - intros []. split; try done; cbn. apply map_Forall_insert_2; [|done].
    destruct (map_Forall_lookup_1 _ _ _ _ sh_pcb Hb). split; [cbn in *; congruence|done].
Qed.

Lemma keep_get_curr_pcb : preserves kept get_curr_pcb.
Proof. apply preserves_gets, _. Qed.
#[local] Hint Resolve keep_get_fdt keep_upd_fdt keep_get_curr_pcb : frame.

(** A function of the file system that fills a buffer in memory. *)
Lemma keep_read_data inode off buf n :
  preserves kept (fun k => read_data vptr (k_fs k) inode off (vptr buf) n k).
Proof. intros k a k' E. exact (read_data_rule kept _ _ _ _ _ _ _ _ (keep_vptr buf) E). Qed.
#[local] Hint Resolve keep_read_data : frame.

Lemma keep_file_read fd buf n : preserves kept (file_read fd buf n).
Proof. unfold file_read. keep. Qed.

(** A store into memory, with a local array beside it. *)
Lemma keep_with_local {A} (l : list Z) (f : kernel * list Z -> res (kernel * list Z)) (a : A) :
  (forall o o', f o = Ok o' -> on_fst kept o o') ->
  preserves kept (fun k => o ← f (k, l); Ok (a, o.1)).
Proof. intros H k b k' E. apply bind_Ok in E as (o & Eo & [= <- <-]). exact (H _ _ Eo). Qed.

(** A function that fills a local and leaves memory alone. *)
Lemma keep_local_result {A T U} (j : T) (f : kernel -> kernel * T -> res (A * (kernel * T))) (g : T -> U) :
  (forall k o r, f k o = Ok r -> on_fst kept o r.2) ->
  preserves kept (fun k => r ← f k (k, j); Ok ((r.1, g r.2.2), r.2.1)).
Proof. intros H k b k' E. apply bind_Ok in E as (r & Er & [= <- <-]). exact (H _ _ _ Er). Qed.

Lemma keep_dir_read junk fd buf n : preserves kept (dir_read junk fd buf n).
Proof.
  unfold dir_read. keep.
  - apply (keep_local_result junk.1 (fun k o => read_dentry_by_index vptr1 (k_fs k) _ _ o) id).
    intros k o r E. exact (read_dentry_by_index_rule _ _ _ _ _ _ _ (stores_snd kept _) E).
  - apply (keep_with_local _ (strncpy _ _ _)). intros o o' E.
    exact (strncpy_rule _ _ _ _ _ _ (stores_fst kept _ (keep_vptr _)) E).
Qed.
End Files.

#[export] Hint Resolve keep_get_fdt keep_upd_fdt keep_get_curr_pcb keep_read_data keep_file_read keep_dir_read : frame.

(** ** The clock *)

Section Clock.
Context `{L : Layout}.

Lemma keep_rtc_set_frequency f : preserves kept (rtc_set_frequency f).
Proof. unfold rtc_set_frequency. keep. Qed.
Lemma keep_curr_pid : preserves kept curr_pid.
Proof. unfold curr_pid. keep. Qed.
#[local] Hint Resolve keep_rtc_set_frequency keep_curr_pid : frame.
Lemma keep_RT_handler : preserves kept RT_handler.
Proof. unfold RT_handler. keep. Qed.
Lemma keep_rtc_open f : preserves kept (rtc_open f).
Proof. unfold rtc_open, get_higher_freq. keep. Qed.
Lemma keep_update_divisors : preserves kept update_divisors.
Proof. unfold update_divisors, get_higher_freq. keep. Qed.
Lemma keep_max_freq n i m : preserves kept (max_freq n i m).
Proof. revert i m. induction n as [|n IH]; intros i m; cbn [max_freq]; keep. Qed.
#[local] Hint Resolve keep_update_divisors keep_max_freq : frame.
Lemma keep_rtc_close fd : preserves kept (rtc_close fd).
Proof. unfold rtc_close, put_higher_freq, get_higher_freq. keep. Qed.
Lemma keep_rtc_write fd buf n : preserves kept (rtc_write fd buf n).
Proof. unfold rtc_write, put_higher_freq, get_higher_freq. keep. Qed.
End Clock.

#[export] Hint Resolve keep_rtc_set_frequency keep_curr_pid keep_RT_handler keep_rtc_open keep_rtc_close
  keep_rtc_write : frame.

(** ** The keyboard and the terminals *)

Section Keys.
Context `{L : Layout}.

Lemma keep_get_buf_len : preserves kept get_buf_len.
Proof. unfold get_buf_len, get_curr_ter. keep. Qed.
Lemma keep_put_buf_len v : preserves kept (put_buf_len v).
Proof. unfold put_buf_len, get_curr_ter. keep. Qed.
Lemma keep_ter_get get i : preserves kept (ter_get get i).
Proof. unfold ter_get, get_curr_ter. keep. Qed.

(** Storing into an array of the displayed terminal. *)
Lemma keep_ter_set get set i v :
  (forall t l, ter_shaped t -> length l = length (get t) -> ter_shaped (set l t)) ->
  preserves kept (ter_set get set i v).
Proof.
  intros H k a k'. unfold ter_set. intros (ct & k1 & [= <- <-] & E)%K_bind_inv.
  apply K_bind_inv in E as (t & k2 & Et & E). unfold get_terminal in Et.
  apply bind_Ok in Et as (t' & Ht & [= <- <-]).
  apply K_bind_inv in E as (l & k3 & El & E). unfold lift in El.
  apply bind_Ok in El as (l' & Hl%arr_set_length & [= <- <-]).
  unfold upd_terminal in E. rewrite Ht, Ok_bind in E. apply bind_Ok in E as (ts & [_ ->]%arr_set_inv & [= <- <-]).
  apply arr_get_lookup in Ht as [_ Ht]. split; [done..|]. split; [done..|]. intros []. split; try done; cbn.
  - by rewrite length_insert.
  - apply Forall_insert; [done|]. apply H; [by eapply Forall_lookup_1|done].
Qed.

Lemma keep_typing i v : preserves kept (ter_set typing set_typing i v).
Proof. apply keep_ter_set. intros t l (?&?&?) ?. repeat split; cbn; congruence. Qed.
Lemma keep_typed i v : preserves kept (ter_set typed set_typed i v).
Proof. apply keep_ter_set. intros t l (?&?&?) ?. repeat split; cbn; congruence. Qed.
Lemma keep_history i v : preserves kept (ter_set history set_history i v).
Proof. apply keep_ter_set. intros t l (?&?&?) ?. repeat split; cbn; congruence. Qed.
#[local] Hint Resolve keep_get_buf_len keep_put_buf_len keep_ter_get keep_typing keep_typed keep_history : frame.

Lemma keep_retype_buffer : preserves kept retype_buffer.
Proof.
  intros k a k'. unfold retype_buffer. intros E.
  refine (loop_rule (fun s => kept k s.2) (fun s => kept k s.2) _ _ _ _ E _ _ _); [done| |];
    clear E; intros [i k1] v HI Ef; cbn [snd] in HI; apply bind_Ok in Ef as ([n k2] & En & Ef);
    cbn [fst] in Ef; destruct (i <? n).
  - apply bind_Ok in Ef as ([c k3] & Ec & Ef). apply bind_Ok in Ef as ([u k4] & Ep & [= <-]).
    etrans; [exact HI|]. etrans; [by eapply keep_ter_get|by eapply keep_putc].
  - discriminate Ef.
  - by apply bind_Ok in Ef as (c & _ & (r & _ & Ef)%bind_Ok).
  - by injection Ef as <-.
Qed.
#[local] Hint Resolve keep_retype_buffer : frame.

Lemma keep_print_char c : preserves kept (print_char c).
Proof. unfold print_char. keep. Qed.
Lemma keep_control_l : preserves kept control_l.
Proof. unfold control_l. keep. Qed.
Lemma keep_backspace : preserves kept backspace.
Proof. unfold backspace. keep. Qed.
Lemma keep_enter_key : preserves kept enter_key.
Proof. unfold enter_key, get_curr_ter. keep. Qed.
Lemma keep_clear_buffer : preserves kept clear_buffer.
Proof. unfold clear_buffer. keep. Qed.
Lemma keep_wait_slightly : preserves kept wait_slightly.
Proof. unfold wait_slightly. keep. Qed.
#[local] Hint Resolve keep_print_char keep_control_l keep_backspace keep_enter_key keep_clear_buffer
  keep_wait_slightly : frame.
Lemma keep_switch_ter o n : preserves kept (switch_ter o n).
Proof. unfold switch_ter. keep. Qed.
Lemma keep_up_arrow : preserves kept up_arrow.
Proof. unfold up_arrow, get_curr_ter. keep. Qed.
#[local] Hint Resolve keep_switch_ter keep_up_arrow : frame.
Lemma keep_key_down s : preserves kept (key_down s).
Proof.
  unfold key_down, switch_terminal_or_return, character_key, get_character_code, get_curr_ter. keep.
Qed.
#[local] Hint Resolve keep_key_down : frame.
Lemma keep_KB_handler : preserves kept KB_handler.
Proof. unfold KB_handler, put_kbd. keep. Qed.

Lemma keep_write_step buf n s r :
  write_step buf n s = Ok r -> kept s.2 (match r with inl s' => s'.2 | inr s' => s'.2 end).
Proof.
  destruct s as [i k]. unfold write_step. intros E. destruct (i <? n); [|by injection E as <-].
  apply bind_Ok in E as (c & _ & E). destruct (c =? 0); [by injection E as <-|].
  apply bind_Ok in E as (c' & _ & E). apply bind_Ok in E as ([u k1] & Ep & [= <-]). by eapply keep_putc.
Qed.

Lemma keep_terminal_write fd buf n : preserves kept (terminal_write fd buf n).
Proof.
  unfold terminal_write. keep.
  intros k u k' E.
  refine (loop_rule (fun s => kept k s.2) (fun s => kept k s.2) _ _ _ _ E _ _ _); [done| |];
    clear E; intros s v HI Ef; exact (transitivity HI (keep_write_step _ _ _ _ Ef)).
Qed.
End Keys.

#[export] Hint Resolve keep_clear_buffer keep_KB_handler keep_terminal_write : frame.

(** ** Waiting

    What happens while a function waits may change more than the function does: the
    rules are for every relation [R] that holds of whatever keeps the state. *)

Section Waiting.
Context `{L : Layout} (J : locals) (R : relation kernel) `{!PreOrder R} (HR : forall k k', kept k k' -> R k k').

Lemma weaken {A} (m : K A) : preserves kept m -> preserves R m.
Proof. intros H. by apply (preserves_mono kept). Qed.

Ltac waits := repeat first [frame_step | apply weaken; solve [keep]].

Lemma waits_rtc_wait n p irqs : Forall (preserves R) irqs -> preserves R (rtc_wait n p irqs).
Proof. revert irqs. induction n as [|n IH]; intros irqs H; cbn [rtc_wait]; waits. Qed.

Lemma waits_rtc_read irqs fd buf n : Forall (preserves R) irqs -> preserves R (rtc_read irqs fd buf n).
Proof. intros H. pose proof waits_rtc_wait. unfold rtc_read. waits. Qed.

Lemma waits_terminal_read junk irqs fd buf n :
  Forall (preserves R) irqs -> preserves R (terminal_read junk irqs fd buf n).
Proof.
  intros H. unfold terminal_read, running_terminal. waits.
  apply weaken, (keep_with_local _ (memcpy _ _ _)). intros o o' E.
  exact (memcpy_rule _ _ _ _ _ _ (stores_fst kept _ (keep_vptr _)) E).
Qed.

Lemma waits_fot_read f irqs fd buf n : Forall (preserves R) irqs -> preserves R (fot_read J f irqs fd buf n).
Proof.
  intros H. destruct f; unfold fot_read, not_allowed; waits; [by apply waits_rtc_read|by apply waits_terminal_read].
Qed.

Lemma waits_sys_read irqs fd buf n : Forall (preserves R) irqs -> preserves R (sys_read J irqs fd buf n).
Proof. intros H. pose proof waits_fot_read. unfold sys_read, the_fot. waits. Qed.
End Waiting.

(** ** System calls *)

Section Calls.
Context `{L : Layout} (J : locals).

Lemma keep_the_fot e : preserves kept (the_fot e).
Proof. unfold the_fot. keep. Qed.
Lemma keep_fot_write f fd buf n : preserves kept (fot_write f fd buf n).
Proof. destruct f; unfold fot_write, file_write, dir_write, not_allowed; keep. Qed.
Lemma keep_fot_open f name : preserves kept (fot_open f name).
Proof. destruct f; unfold fot_open, file_open, dir_open, terminal_open; keep. Qed.
Lemma keep_fot_close f fd : preserves kept (fot_close f fd).
Proof. destruct f; unfold fot_close, file_close, dir_close, terminal_close; keep. Qed.
#[local] Hint Resolve keep_the_fot keep_fot_write keep_fot_open keep_fot_close : frame.

Lemma keep_find_pid n i : preserves kept (find_pid n i).
Proof. revert i. induction n as [|n IH]; intros i; cbn [find_pid]; keep. Qed.
Lemma keep_get_new_pid : preserves kept get_new_pid.
Proof. apply keep_find_pid. Qed.
Lemma keep_find_fd n i : preserves kept (find_fd n i).
Proof. revert i. induction n as [|n IH]; intros i; cbn [find_fd]; keep. Qed.
Lemma keep_get_new_fd : preserves kept get_new_fd.
Proof. apply keep_find_fd. Qed.
#[local] Hint Resolve keep_get_new_pid keep_get_new_fd : frame.

Lemma keep_sys_write fd buf n : preserves kept (sys_write fd buf n).
Proof. unfold sys_write. keep. Qed.
Lemma keep_sys_close fd : preserves kept (sys_close fd).
Proof. unfold sys_close. keep. Qed.
Lemma keep_sys_open name : preserves kept (sys_open J name).
Proof.
  unfold sys_open. keep.
  apply (keep_local_result (j_entry J) (fun k o => read_dentry_by_name vptr1 (k_fs k) _ _ o) id).
  intros k o r E. exact (read_dentry_by_name_rule _ _ _ _ _ _ _ (stores_snd kept _) E).
Qed.
Lemma keep_sys_getargs buf n : preserves kept (sys_getargs buf n).
Proof.
  unfold sys_getargs. keep. apply (keep_with_local _ (memcpy _ _ _)). intros o o' E.
  exact (memcpy_rule _ _ _ _ _ _ (stores_fst kept _ (keep_vptr _)) E).
Qed.
Lemma keep_sys_vidmap a : preserves kept (sys_vidmap a).
Proof.
  unfold sys_vidmap. keep. apply (preserves_stores kept (store_list _ _ _)). intros k k' E.
  exact (store_list_rule kept _ _ _ _ _ (keep_vptr _) E).
Qed.
Lemma keep_sys_set_handler s a : preserves kept (sys_set_handler J s a).
Proof. unfold sys_set_handler. keep. Qed.
Lemma keep_sys_sigreturn : preserves kept (sys_sigreturn J).
Proof. unfold sys_sigreturn. keep. Qed.

(** [sys_execute] keeps the stack pointers too: the new program starts by [iret]. *)
Lemma keep_find_program sp name : preserves kept (find_program J sp name).
Proof.
  apply (keep_local_result (name, j_entry J) (fun k o => read_dentry_by_name _ (k_fs k) _ _ o) snd).
  intros k o r E. exact (read_dentry_by_name_rule _ _ _ _ _ _ _ (stores_snd kept _) E).
Qed.
Lemma keep_read_magic sp i : preserves kept (read_magic J sp i).
Proof.
  apply (keep_local_result (j_elf J) (fun k o => read_data vptr1 (k_fs k) _ _ _ _ o) id).
  intros k o r E. exact (read_data_rule _ _ _ _ _ _ _ _ _ (stores_snd kept _) E).
Qed.
Lemma keep_put_tss p : preserves kept (put_tss p).
Proof. unfold put_tss. keep. Qed.
Lemma keep_put_running c p : preserves kept (put_running c p).
Proof. unfold put_running. keep. Qed.
#[local] Hint Resolve keep_find_program keep_read_magic keep_put_tss keep_put_running : frame.

(** An array of the block at [p] replaced by one of the same length. *)
Lemma keep_set_args p (f : pcb -> res (list Z)) :
  (forall b a, f b = Ok a -> length a = length (args b)) ->
  preserves kept (b ← get_pcb p; a ← lift (f b); upd_pcb p (set_args a)).
Proof.
  intros H k u k' E. apply K_bind_inv in E as (b & k1 & Eb & E). apply K_bind_inv in E as (a & k2 & Ea & E).
  unfold lift in Ea. apply bind_Ok in Ea as (a' & Hl%H & [= <- <-]).
  unfold get_pcb in Eb. destruct (_ !! _) as [b'|] eqn:Hb; [|done]. injection Eb as <- <-.
  unfold upd_pcb in E. rewrite Hb in E. injection E as <- <-. split; [done..|]. split; [done|done| |done|]; cbn.
  - by apply dom_insert_lookup_L.
  - intros []. split; try done; cbn. apply map_Forall_insert_2; [|done].
    destruct (map_Forall_lookup_1 _ _ _ _ sh_pcb Hb). split; [done|cbn in *; congruence].
Qed.

#[local] Instance same_length_preorder : PreOrder (fun l l' : list Z => length l' = length l).
Proof. split; [done|]. intros a b c. congruence. Qed.
Lemma stores_arr a : stores (fun l l' : list Z => length l' = length l) (arr_ptr a).
Proof. intros l i b l' E. exact (arr_set_length _ _ _ _ E). Qed.

Lemma keep_store_args p h a : preserves kept (store_args p h a).
Proof.
  unfold store_args. destruct h; repeat (apply preserves_bind; [apply _|by keep|intros ?];
    try (apply keep_set_args; intros b a' E)).
  - apply bind_Ok in E as (o & Eo & [= <-]).
    exact (strncpy_rule (on_fst _) _ _ _ _ _ (stores_fst _ _ (stores_arr p)) Eo).
  - by eapply arr_set_length.
Qed.
#[local] Hint Resolve keep_store_args : frame.

Lemma keep_create_pcb n h a : preserves kept (create_pcb n h a).
Proof. unfold create_pcb. keep. Qed.
#[local] Hint Resolve keep_create_pcb : frame.
Lemma keep_enter_process n e h a : preserves kept (enter_process J n e h a).
Proof. unfold enter_process. keep. Qed.
#[local] Hint Resolve keep_enter_process : frame.
Lemma keep_start_process n i h a : preserves kept (start_process J n i h a).
Proof. unfold start_process. keep. Qed.
#[local] Hint Resolve keep_start_process : frame.
Lemma keep_sys_execute c : preserves kept (sys_execute J c).
Proof. unfold sys_execute. keep. Qed.
Lemma keep_close_files p : preserves kept (close_files p).
Proof. unfold close_files. keep. Qed.

(** The end of a process: the stack pointers become those of the parent. *)
Lemma pcb_shaped_zero : pcb_shaped zero_pcb.
Proof. by split. Qed.
#[local] Hint Resolve keep_sys_write keep_sys_open keep_sys_close keep_sys_getargs keep_sys_vidmap
  keep_sys_set_handler keep_sys_sigreturn keep_sys_execute keep_close_files safe_kept : frame.

Lemma safe_resume_parent p s : preserves safe (resume_parent p s).
Proof.
  unfold resume_parent. keep.
  - by apply safe_kept, keep_upd_pcb.
  - apply preserves_modify. intros k. apply safe_cpu.
Qed.
#[local] Hint Resolve safe_resume_parent : frame.

Lemma safe_sys_halt s : preserves safe (sys_halt J s).
Proof. unfold sys_halt. keep. Qed.
Lemma safe_blue_screen s : preserves safe (blue_screen J s).
Proof. pose proof safe_sys_halt. unfold blue_screen. keep. Qed.

(** [sys_halt] comes back to its caller only when the terminal runs no process. *)
Lemma halt_returns s k v k' : sys_halt J s k = Ok (Returns v, k') -> kept k k'.
Proof.
  unfold sys_halt. intros (p & k1 & E1 & E)%K_bind_inv. apply keep_curr_pid in E1.
  cbv zeta in E. destruct (_ =? NULL); [by injection E as _ <-|]. exfalso. revert E.
  assert (forall p, yields (fun o => forall v, o <> Returns v) (resume_parent p s)) as Hr
    by (intros q; unfold resume_parent; repeat (apply yields_bind; intros ?); by apply yields_mret).
  match goal with |- ?m k1 = _ -> _ => assert (yields (fun o => forall v, o <> Returns v) m) as H end.
  { repeat (apply yields_bind; intros ?). cbv zeta. repeat (apply yields_bind; intros ?).
    destruct (_ <? _); [|apply Hr]. apply yields_bind; intros _. apply yields_bind; intros r.
    destruct r; [apply Hr|by apply yields_mret..]. }
  intros E. by apply (H _ _ _ E v).
Qed.

(** ** The interrupt handlers *)

Lemma safe_switch_to n v p : preserves safe (switch_to n v p).
Proof.
  unfold switch_to, save_stack, put_on_screen, put_curr_process, kchange_vidmem. keep;
    try (apply safe_kept; keep; fail).
  apply preserves_modify. intros k. apply safe_cpu.
Qed.

Lemma keep_follow_display n : preserves kept (follow_display n).
Proof. unfold follow_display, put_on_screen. keep. Qed.
Lemma keep_start_shell n v : preserves kept (start_shell J n v).
Proof. unfold start_shell, save_stack, put_curr_process, kchange_vidmem. keep. Qed.
#[local] Hint Resolve safe_switch_to keep_follow_display keep_start_shell : frame.

Lemma safe_PT_handler : preserves safe (PT_handler J).
Proof. unfold PT_handler, switch_running_process. keep. Qed.

(** ** The dispatcher *)

(** All calls but [sys_halt], in terms of what may happen while they wait. *)
Lemma call_preserves (R : relation kernel) `{!PreOrder R} irqs n a1 a2 a3 :
  (forall k k', kept k k' -> R k k') -> Forall (preserves R) irqs -> n <> 0 ->
  preserves R (sys_call J irqs n a1 a2 a3).
Proof.
  intros HR H Hn. unfold sys_call, returns. destruct (Z.eqb_spec n 0); [done|].
  pose proof (waits_sys_read J R HR). repeat first [frame_step | apply (weaken R HR); solve [keep]].
Qed.

Lemma safe_sys_call irqs n a1 a2 a3 :
  Forall (preserves safe) irqs -> preserves safe (sys_call J irqs n a1 a2 a3).
Proof.
  intros H. destruct (Z.eq_dec n 0) as [->|Hn]; [apply safe_sys_halt|].
  apply call_preserves; [apply _|by intros ?? []|done|done].
Qed.

(** A call that returns has its stack pointers, when what happened while it waited
    had. *)
Lemma returns_kept irqs n a1 a2 a3 k v k' :
  Forall (preserves kept) irqs -> sys_call J irqs n a1 a2 a3 k = Ok (Returns v, k') -> kept k k'.
Proof.
  intros H E. destruct (Z.eq_dec n 0) as [->|Hn]; [exact (halt_returns _ _ _ _ E)|].
  exact (call_preserves kept irqs n a1 a2 a3 (fun _ _ Hk => Hk) H Hn _ _ _ E).
Qed.
End Calls.

(** ** Everything the kernel can do *)

(** Programs run, with whatever they do to their registers and to memory, system calls
    with any arguments, exceptions and the interrupts of the three devices, in any
    order; while a system call waits, anything of this may happen. *)
Inductive reaches `{L : Layout} (J : locals) : kernel -> kernel -> Prop :=
| reaches_refl k : reaches J k k
| reaches_trans k1 k2 k3 : reaches J k1 k2 -> reaches J k2 k3 -> reaches J k1 k3
| reaches_program k c m : dom (k_mem k) ⊆ dom m -> reaches J k (set_k_cpu c (set_k_mem m k))
| reaches_call irqs eax ebx ecx edx k o k' :
    (forall irq, irq ∈ irqs -> forall k1 u k2, irq k1 = Ok (u, k2) -> reaches J k1 k2) ->
    SYS_handler_wrapper J irqs eax ebx ecx edx k = Ok (o, k') -> reaches J k k'
| reaches_exception s m k o k' : (s, m) ∈ exception_handlers J -> m k = Ok (o, k') -> reaches J k k'
| reaches_timer k o k' : PT_handler J k = Ok (o, k') -> reaches J k k'
| reaches_key k u k' : KB_handler k = Ok (u, k') -> reaches J k k'
| reaches_clock k u k' : RT_handler k = Ok (u, k') -> reaches J k k'.

Section Reach.
Context `{L : Layout} (J : locals).

Lemma safe_wrapper irqs eax ebx ecx edx :
  Forall (preserves safe) irqs -> preserves safe (SYS_handler_wrapper J irqs eax ebx ecx edx).
Proof.
  intros H. pose proof (safe_sys_call J irqs). pose proof @safe_kept. unfold SYS_handler_wrapper. keep.
Qed.

Lemma reaches_safe k k' : reaches J k k' -> safe k k'.
Proof.
  induction 1 as [k|k1 k2 k3 _ IH1 _ IH2|k c m Hm|irqs eax ebx ecx edx k o k' _ IH E|s m k o k' Hm E|k o k' E
    |k u k' E|k u k' E].
  - done.
  - by etrans.
  - split; [done..|by intros []].
  - refine (safe_wrapper irqs _ _ _ _ _ _ _ _ E). apply Forall_forall. intros irq Hi k1 u k2. by apply IH.
  - destruct (handlers_blue J s m Hm) as [-> _]. by eapply safe_blue_screen.
  - by eapply safe_PT_handler.
  - by eapply kp_safe, keep_KB_handler.
  - by eapply kp_safe, keep_RT_handler.
Qed.
End Reach.

Section FrameClaims.
Context `{L : Layout} (J : locals).

(** The kernel's data keep their types.  From a state in which every array has the
    length it is declared with, no sequence of system calls (with any numbers and any
    arguments), exceptions, device interrupts and program steps, in any order and also
    while a system call waits, leads to a state where one has not; no process control
    block appears or disappears, paging stays on with the same directory, and memory that
    has been written stays written. *)
Lemma kernel_stays_typed k k' :
  shaped k -> reaches J k k' ->
  shaped k' /\ dom (pcbs (k_proc k')) = dom (pcbs (k_proc k)) /\
  (cr0_pg (k_pg k'), cr3 (k_pg k')) = (cr0_pg (k_pg k), cr3 (k_pg k)) /\ dom (k_mem k) ⊆ dom (k_mem k').
Proof.
  intros H [Hpg ????]%reaches_safe. injection Hpg as Hp _ Hc. rewrite Hp, Hc.
  split; [auto|]. by repeat split.
Qed.
End FrameClaims.
