(* ===== verification/SchedStart.v ===== *)
(** * The timer starts the shells

    The other branch of [switch_running_process]: a terminal whose turn it is and that
    has no program gets a shell, on its own screen. *)

From stdpp Require Import base gmap list numbers strings.
From Stdlib Require Import ZArith Lia.
From S2P Require Import Prelude Pointers Ports Pic Paging State Machine VirtMem CString MemFns.
From S2P Require Import Pcb Demo Screen Printf FileSystem Rtc Keyboard Terminal Syscalls Process.
From S2P Require Import Descriptors Command Exec Launch Sched.

(** The processes after the stack of the terminal that stops was saved; the first
    terminal's shell saves nothing. *)
Definition saved_procs (k : kernel) (next : Z) (b : pcb) : procs :=
  if next =? 0 then k_proc k
  else set_pcbs (<[get_pcb_by_pid (curr_process (k_ter k)) :=
    set_ebp (r_ebp (k_cpu k)) (set_esp (r_esp (k_cpu k)) b)]> (pcbs (k_proc k))) (k_proc k).

(** The state in which [sys_execute] of the shell is called. *)
Definition shell_state (k : kernel) (next : Z) (t : terminal_state) (b : pcb) (pg : paging) : kernel :=
  set_k_scr {| screen_x := 0; screen_y := 0; on_screen := on_screen (k_scr k) |}
    (set_k_ter (set_terminals (<[Z.to_nat next := set_screen_y_save 0 (set_screen_x_save 0 t)]>
        (terminals (k_ter k))) (set_curr_process next (k_ter k)))
    (set_k_proc (saved_procs k next b)
    (set_k_pg pg
    (set_k_io (send_eoi PT_IRQ_NUM (k_io k)) k)))).

Section Start.
Context `{L : Layout} (J : locals).
Implicit Types (k : kernel).

Lemma start_shell_steps k next vid_id t b prog vid uvid :
  0 <= next < 3 -> terminals (k_ter k) !! Z.to_nat next = Some t ->
  pcbs (k_proc k) !! get_pcb_by_pid (curr_process (k_ter k)) = Some b ->
  paging_rep (k_pg k) prog vid uvid -> -1 <= vid_id < 3 ->
  exists pg, start_shell J next vid_id k = sys_execute J (shell J) (shell_state k next t b pg) /\
    paging_rep pg prog (VIDEO_PAGE + 1 + vid_id) ((fun _ => VIDEO_PAGE + 1 + vid_id) <$> uvid).
Proof.
  intros Hn Ht Hb R Hv. unfold start_shell, ksend_eoi. kcbn. set (k1 := set_k_io _ k).
  destruct (kchange_vidmem_rep k1 prog vid uvid vid_id R) as (pg & E & R'); [lia|].
  exists pg. split; [|done]. kstep E. set (k2 := set_k_pg pg k1).
  set (k3 := set_k_proc (saved_procs k next b) k2).
  assert (when (negb (next =? 0)) (cp ← gets (fun k => curr_process (k_ter k));
    save_stack (get_pcb_by_pid cp)) k2 = Ok (tt, k3)) as E3.
  { unfold k3, saved_procs. destruct (Z.eqb_spec next 0) as [_|_]; cbn [negb when].
    - unfold k2, k1. by destruct k.
    - unfold save_stack. kcbn. by rewrite (upd_pcb_ok _ _ k2 b Hb). }
  kstep E3. unfold put_curr_process, reset_cursor, put_x, put_y. kcbn.
  match goal with |- context [set_k_scr ?s ?x] => set (k4 := set_k_scr s x) end.
  change (curr_process (k_ter k4)) with next.
  kstep (upd_terminal_ok next (set_screen_x_save 0) k4 t (proj1 Hn) Ht).
  pose proof (lookup_lt_Some _ _ _ Ht).
  match goal with |- context [set_k_ter ?s ?x] => set (k5 := set_k_ter s x) end.
  assert (terminals (k_ter k5) !! Z.to_nat next = Some (set_screen_x_save 0 t)) as Ht5
    by (apply list_lookup_insert_eq; done).
  kstep (upd_terminal_ok next (set_screen_y_save 0) k5 _ (proj1 Hn) Ht5).
  unfold shell_state. cbn [k5 k4 k3 k_ter set_k_ter set_k_scr terminals set_terminals set_curr_process].
  by rewrite list_insert_insert_eq.
Qed.

(** The state before a timer interrupt that finds the next terminal without a
    program: [rs] is what that terminal's screen page shows. *)
Record shell_due (k : kernel) (tn : terminal_state) (par : Z) (c : pcb) (prog : option Z) (vid : Z)
    (uvid : option Z) (rs : list (list (Z * Z))) : Prop := {
  sd_len : length (terminals (k_ter k)) = 3%nat;
  sd_cp : 0 <= curr_process (k_ter k) < 3;
  sd_ct : 0 <= curr_ter (k_ter k) < 3;
  sd_pic : pic_wf (k_pic k);
  sd_next : terminals (k_ter k) !! Z.to_nat (next_ter (curr_process (k_ter k))) = Some tn;
  sd_none : prog_curr_pid tn = -1;
  sd_map : paging_rep (k_pg k) prog vid uvid;
  sd_shows : shows k (page_of (curr_ter (k_ter k)) (next_ter (curr_process (k_ter k)))) rs;
  sd_running : running_pcb k par c;
  sd_used : length (used_pids (k_proc k)) = 6%nat;
  sd_pcbs q : 0 <= q < 6 -> exists b, pcbs (k_proc k) !! get_pcb_by_pid q = Some b /\
    length (fdt b) = 8%nat /\ length (args b) = 128%nat;
}.

(** The state [sys_execute] is called in is as it expects. *)
Lemma shell_state_ok k tn par c prog vid uvid rs b pic io os pg :
  shell_due k tn par c prog vid uvid rs ->
  let n := next_ter (curr_process (k_ter k)) in
  let page := page_of (curr_ter (k_ter k)) n in
  pcbs (k_proc k) !! get_pcb_by_pid (curr_process (k_ter k)) = Some b ->
  paging_rep pg prog page ((fun _ => page) <$> uvid) ->
  let k0 := set_k_scr (set_on_screen os (k_scr k)) (set_k_io io (set_k_pic pic k)) in
  exists c1, kernel_ok (shell_state k0 n tn b pg) par c1 prog page ((fun _ => page) <$> uvid) (Tty rs 0 0).
Proof.
  intros [] n page Hb R k0. assert (0 <= curr_process (k_ter k) < 6) as H6 by lia.
  destruct (sd_pcbs0 _ H6) as (b' & Hb' & Hf & Ha).
  assert (b' = b) as -> by congruence. destruct (next_ter_range _ sd_cp0) as [Hn _]. fold n in Hn.
  set (b1 := set_ebp (r_ebp (k_cpu k)) (set_esp (r_esp (k_cpu k)) b)).
  assert (forall q x, pcbs (k_proc k) !! q = Some x -> exists y, pcbs (saved_procs k0 n b) !! q = Some y /\
    (y = x \/ (x = b /\ y = b1))) as Hsave.
  { intros q x Hx. unfold saved_procs. destruct (n =? 0); [by exists x; auto|]. cbn [pcbs set_pcbs].
    destruct (decide (q = get_pcb_by_pid (curr_process (k_ter k)))) as [->|Hne].
    - exists b1. split; [apply lookup_insert_eq|]. right. split; [congruence|done].
    - exists x. split; [by rewrite lookup_insert_ne|by left]. }
  destruct sd_running0 as [Hpar Hc]. destruct (Hsave par c Hc) as (c1 & Hc1 & _).
  exists c1. split; auto.
  - by split.
  - unfold page, page_of, VIDEO_PAGE. destruct (n =? curr_ter (k_ter k)); lia.
  - split; simpl; auto; try (unfold NUM_COLS, NUM_ROWS; lia).
    + by eauto.
    + by rewrite length_insert.
  - simpl. unfold saved_procs. by destruct (n =? 0).
  - intros q Hq. destruct (sd_pcbs0 q Hq) as (x & Hx & Hxf & Hxa).
    destruct (Hsave _ _ Hx) as (y & Hy & [->|[-> ->]]); by eexists.
Qed.
End Start.

Section StartClaims.
Context `{L : Layout} (J : locals) (img : list Z) (start : Z).

(** The handler up to the start of the shell: [k1] is the state [sys_execute] runs in. *)
Lemma shell_tick_enters k tn par c prog vid uvid rs :
  KERNEL_MEM_START <= start /\ start + Z.of_nat (length img) <= 2 * _4_MB ->
  shell_due k tn par c prog vid uvid rs -> mounted img start start k ->
  let n := next_ter (curr_process (k_ter k)) in
  let page := page_of (curr_ter (k_ter k)) n in
  exists k1 c1 b vid_id,
    switch_running_process J k =
      (r ← sys_execute J (shell J);
       match r with Returns _ => switch_to n vid_id (-1) | _ => mret r end) k1 /\
    kernel_ok k1 par c1 prog page ((fun _ => page) <$> uvid) (Tty rs 0 0) /\ mounted img start start k1 /\
    pcbs (k_proc k) !! get_pcb_by_pid (curr_process (k_ter k)) = Some b /\ k_proc k1 = saved_procs k n b /\
    k_ter k1 = set_terminals (<[Z.to_nat n := set_screen_y_save 0 (set_screen_x_save 0 tn)]>
      (terminals (k_ter k))) (set_curr_process n (k_ter k)) /\
    pic_wf (k_pic k1) /\
    (forall i, 0 <= i <= MAX_IRQ -> masked (k_pic k1) i =
      if i =? KB_IRQ_NUM then negb (n =? curr_ter (k_ter k)) else masked (k_pic k) i) /\
    (exists log, io_log (k_io k1) = log ++ [Out MASTER_PIC_CMD 0x60]) /\
    k_mem k1 = k_mem k /\ k_cpu k1 = k_cpu k.
Proof.
  intros Hs D M n page. pose proof D as [].
  assert (0 <= curr_process (k_ter k) < 6) as H6 by lia. destruct (sd_pcbs0 _ H6) as (b & Hb & _).
  destruct (next_ter_range _ sd_cp0) as [Hn _]. fold n in Hn.
  destruct (keyboard_follows k n sd_pic0) as (pic & io & os & Ek & Hwf & Hm). set (k0 := set_k_scr _ _) in Ek.
  set (vid_id := if n =? curr_ter (k_ter k) then -1 else n) in Ek.
  assert (-1 <= vid_id < 3) as Hv by (unfold vid_id; destruct (n =? curr_ter (k_ter k)); lia).
  destruct (start_shell_steps J k0 n vid_id tn b prog vid uvid Hn sd_next0 Hb sd_map0 Hv) as (pg & E & R).
  unfold vid_id in R. rewrite (page_of_vid (curr_ter (k_ter k)) n) in R. fold page in R.
  destruct (shell_state_ok k tn par c prog vid uvid rs b pic io os pg D Hb R) as (c1 & K1). fold n page k0 in K1.
  set (k1 := shell_state k0 n tn b pg) in *. exists k1, c1, b, vid_id.
  split; [|split; [done|split; [|split; [done|]]]].
  - assert (Z.rem (curr_process (k_ter k) + 1) NUM_TERMINALS = n) as Hrem
      by (unfold n, next_ter, NUM_TERMINALS; apply Z.rem_mod_nonneg; lia).
    unfold switch_running_process. kcbn. rewrite Hrem.
    kstep (get_terminal_ok n k tn (proj1 Hn) sd_next0). kcbn. kstep Ek. rewrite sd_none0.
    change (-1 =? -1) with true. cbv iota. unfold mbind, K_bind. by rewrite E.
  - by apply (kernel_mounted img start Hs k k1 prog page ((fun _ => page) <$> uvid)).
  - do 4 (split; [done|]). split; [|done]. eexists. apply io_log_outb.
Qed.

(** A timer interrupt whose turn is a terminal without a program starts a
    shell there: the interrupt is acknowledged, the stack of the terminal that stops
    is saved in the block with its number (the first terminal saves nothing), the
    next terminal becomes the running one with its cursor at the top left of its
    own screen page, the keyboard is on exactly when it is on display, and the
    shell is started as [sys_execute] starts a program, with the lowest free
    process number. *)
Lemma shell_tick k tn par c prog vid uvid rs inode p :
  locals_ok J -> image_wf img ->
  KERNEL_MEM_START <= start /\ start + Z.of_nat (length img) <= 2 * _4_MB ->
  shell_due k tn par c prog vid uvid rs -> mounted img start start k ->
  (forall k, command_at k (shell J) (shell_text J)) ->
  program J img (c_str (cmd_name (shell_text J))) = Some inode -> 28 <= inode_len img inode <= load_cap ->
  free_pid (used_pids (k_proc k)) = Some p -> (par = get_pcb_by_pid (Z.of_nat p) -> Z.of_nat p < 3) ->
  let n := next_ter (curr_process (k_ter k)) in
  let page := page_of (curr_ter (k_ter k)) n in
  exists k1 k' c1 b, PT_handler J k = Ok (Enters (entry_point img inode) USER_ESP, k') /\
    executed img inode (Z.of_nat p) (cmd_have_args (shell_text J)) (cmd_arg (shell_text J))
      k1 k' par c1 page ((fun _ => page) <$> uvid) (Tty rs 0 0) /\
    pcbs (k_proc k) !! get_pcb_by_pid (curr_process (k_ter k)) = Some b /\ k_proc k1 = saved_procs k n b /\
    k_ter k1 = set_terminals (<[Z.to_nat n := set_screen_y_save 0 (set_screen_x_save 0 tn)]>
      (terminals (k_ter k))) (set_curr_process n (k_ter k)) /\
    (forall i, 0 <= i <= MAX_IRQ -> masked (k_pic k1) i =
      if i =? KB_IRQ_NUM then negb (n =? curr_ter (k_ter k)) else masked (k_pic k) i) /\
    (exists log, io_log (k_io k1) = log ++ [Out MASTER_PIC_CMD 0x60]) /\
    k_mem k1 = k_mem k /\ k_cpu k1 = k_cpu k.
Proof.
  intros HJ W Hs D M C Hprog Hlen Hfree Hsame n page.
  destruct (shell_tick_enters k tn par c prog vid uvid rs Hs D M)
    as (k1 & c1 & b & vid_id & E & K1 & M1 & Hb & Hp & Ht & Hwf & Hm & Hlog & Hmem & Hcpu). fold n page in K1, E, Hp, Ht, Hm.
  destruct (execute_starts J img start k1 par c1 prog page ((fun _ => page) <$> uvid) (Tty rs 0 0)
    (shell J) (shell_text J) inode p) as (k' & Ex & X); auto.
  - rewrite Hp. unfold saved_procs. by destruct (n =? 0).
  - exists k1, k', c1, b. split; [|by auto 10].
    unfold PT_handler. erewrite K_bind_Ok; [|rewrite E; by kstep Ex]. done.
Qed.

(** [j] timer interrupts, one after the other. *)
Fixpoint timer_interrupts (j : nat) : K unit :=
  match j with 0%nat => mret tt | S j => PT_handler J;; timer_interrupts j end.

(** The terminal whose turn it is has no program, the next one has. *)
Record stalled (k : kernel) (n : Z) : Prop := {
  st_cp : curr_process (k_ter k) = n;
  st_range : 0 <= n < 3;
  st_pic : pic_wf (k_pic k);
  st_none : exists t, terminals (k_ter k) !! Z.to_nat n = Some t /\ prog_curr_pid t = -1;
  st_other : exists t, terminals (k_ter k) !! Z.to_nat (next_ter n) = Some t /\ prog_curr_pid t <> -1;
}.

(** Without a program there is no stack to save, and [switch_to] does nothing. *)
Lemma switch_to_none k n vid_id p t :
  0 <= curr_process (k_ter k) -> terminals (k_ter k) !! Z.to_nat (curr_process (k_ter k)) = Some t ->
  prog_curr_pid t = -1 -> switch_to n vid_id p k = Ok (Returns 0, k).
Proof. intros H0 Ht Hp. unfold switch_to. kcbn. kstep (get_terminal_ok _ k t H0 Ht). by rewrite Hp. Qed.

Lemma stalled_tick k n :
  stalled k n -> exists k', PT_handler J k = Ok (Returns 0, k') /\ stalled k' n /\
    k_cpu k' = k_cpu k /\ k_ter k' = k_ter k /\ k_proc k' = k_proc k /\ k_pg k' = k_pg k /\ k_mem k' = k_mem k.
Proof.
  intros [<- Hr Hwf (t & Ht & Hp) (t' & Ht' & Hp')]. set (n := curr_process (k_ter k)) in *.
  destruct (next_ter_range n Hr) as [Hn _].
  destruct (keyboard_follows k (next_ter n) Hwf) as (pic & io & os & Ek & Hwf' & _). set (k0 := set_k_scr _ _) in Ek.
  assert (Z.rem (n + 1) NUM_TERMINALS = next_ter n) as Hrem
    by (unfold next_ter, NUM_TERMINALS; apply Z.rem_mod_nonneg; lia).
  assert (switch_running_process J k = Ok (Returns 0, k0)) as E.
  { unfold switch_running_process. kcbn. fold n. rewrite Hrem.
    kstep (get_terminal_ok _ k t' (proj1 Hn) Ht'). kcbn. kstep Ek. rewrite (proj2 (Z.eqb_neq _ _) Hp').
    exact (switch_to_none k0 _ _ _ t (proj1 Hr) Ht Hp). }
  unfold PT_handler. kstep E. eexists. split; [reflexivity|]. split; [|done]. split; eauto.
Qed.

Lemma stalled_ticks j k n :
  stalled k n -> exists k', timer_interrupts j k = Ok (tt, k') /\ stalled k' n /\
    k_cpu k' = k_cpu k /\ k_ter k' = k_ter k /\ k_proc k' = k_proc k /\ k_pg k' = k_pg k /\ k_mem k' = k_mem k.
Proof.
  revert k. induction j as [|j IH]; intros k H; cbn [timer_interrupts]; [by exists k|].
  destruct (stalled_tick k n H) as (k1 & E1 & H1 & C1 & T1 & P1 & G1 & M1).
  destruct (IH k1 H1) as (k' & E & H' & C & T & P & G & M). exists k'. kstep E1.
  split; [done|]. split; [done|]. by rewrite C, T, P, G, M.
Qed.

(** Printing does not change what the terminals run. *)
Lemma frame_pids vid k k' :
  screen_frame vid k k' -> prog_curr_pid <$> terminals (k_ter k') = prog_curr_pid <$> terminals (k_ter k).
Proof.
  intros F. transitivity (prog_curr_pid <$> (strip_cursor <$> terminals (k_ter k'))); [by rewrite <- list_fmap_compose|].
  by rewrite (fr_strip _ _ _ F), <- list_fmap_compose.
Qed.

Lemma same_pid (l l' : list terminal_state) :
  prog_curr_pid <$> l' = prog_curr_pid <$> l ->
  forall i x, l !! i = Some x -> exists y, l' !! i = Some y /\ prog_curr_pid y = prog_curr_pid x.
Proof.
  intros H i x Hi. apply (f_equal (fun l => l !! i)) in H. rewrite !list_lookup_fmap, Hi in H.
  destruct (l' !! i) as [y|]; [|done]. injection H as Hy. by exists y.
Qed.

(** (C20) A shell that cannot be started stops the scheduler.  When the terminal whose turn it is has no
    program and all six process numbers are in use, the timer interrupt makes that terminal the running
    one before it tries to start the shell, prints a message on its screen and comes back to the program
    it interrupted; this program then keeps the processor through every later timer interrupt, although
    the terminal after it has a program that waits for its turn. *)
Theorem failed_shell_stalls j k tn to par c prog vid uvid rs inode :
  locals_ok J -> image_wf img ->
  KERNEL_MEM_START <= start /\ start + Z.of_nat (length img) <= 2 * _4_MB ->
  shell_due k tn par c prog vid uvid rs -> mounted img start start k ->
  (forall k, command_at k (shell J) (shell_text J)) ->
  program J img (c_str (cmd_name (shell_text J))) = Some inode -> free_pid (used_pids (k_proc k)) = None ->
  let n := next_ter (curr_process (k_ter k)) in
  let page := page_of (curr_ter (k_ter k)) n in
  terminals (k_ter k) !! Z.to_nat (next_ter n) = Some to -> prog_curr_pid to <> -1 ->
  exists k', timer_interrupts (S j) k = Ok (tt, k') /\ k_cpu k' = k_cpu k /\ curr_process (k_ter k') = n /\
    prog_curr_pid <$> terminals (k_ter k') = prog_curr_pid <$> terminals (k_ter k) /\
    paging_rep (k_pg k') prog page ((fun _ => page) <$> uvid) /\
    shows k' page (rows (tty_puts (Tty rs 0 0) max_message)).
Proof.
  intros HJ W Hs D M C Hprog Hfree n page Hto Hne. pose proof D as []. destruct (next_ter_range _ sd_cp0) as [Hn Hnn].
  fold n in Hn, Hnn, sd_next0.
  destruct (shell_tick_enters k tn par c prog vid uvid rs Hs D M)
    as (k1 & c1 & b & vid_id & E & K1 & M1 & _ & Hp & Ht & Hwf & _ & _ & Hmem & Hcpu). fold n page in K1, E, Hp, Ht.
  destruct (execute_refused J img start k1 par c1 prog page ((fun _ => page) <$> uvid) (Tty rs 0 0)
    (shell J) (shell_text J)) as [_ Hx]; auto.
  destruct (Hx inode) as (k2 & Ex & T2 & F); [done|rewrite Hp; unfold saved_procs; by destruct (n =? 0)|].
  assert (curr_process (k_ter k2) = n) as Hcp by (by rewrite (fr_cp _ _ _ F), Ht).
  assert (prog_curr_pid <$> terminals (k_ter k2) = prog_curr_pid <$> terminals (k_ter k)) as Hpids.
  { rewrite (frame_pids _ _ _ F), Ht. cbn [terminals set_terminals].
    rewrite list_fmap_insert. apply list_insert_id. by rewrite list_lookup_fmap, sd_next0. }
  pose proof (same_pid _ _ Hpids) as Hpid.
  destruct (Hpid _ _ sd_next0) as (tn2 & Htn2 & Hn2). destruct (Hpid _ _ Hto) as (to2 & Hto2 & Ho2).
  assert (PT_handler J k = Ok (Returns 0, set_k_io (send_eoi PT_IRQ_NUM (k_io k2)) k2)) as E1.
  { unfold PT_handler. erewrite K_bind_Ok; [|rewrite E; kstep Ex;
      apply (switch_to_none k2 _ _ _ tn2); [lia|by rewrite Hcp|congruence]]. done. }
  set (k3 := set_k_io _ k2) in E1.
  assert (stalled k3 n) as S3.
  { split; [done|done|by rewrite (fr_pic _ _ _ F : k_pic k3 = _)|exists tn2; split; [done|congruence]|].
    exists to2. split; [done|congruence]. }
  destruct (stalled_ticks j k3 n S3) as (k' & E' & _ & Hc & Htt & _ & Hg & Hm').
  exists k'. cbn [timer_interrupts]. kstep E1. split; [done|]. rewrite Hc, Htt, Hg.
  split; [by rewrite <- Hcpu, <- (fr_cpu _ _ _ F)|]. split; [done|]. split; [done|].
  split; [change (k_pg k3) with (k_pg k2); rewrite (fr_pg _ _ _ F); apply K1|].
  unfold shows. rewrite Hm'. apply (tr_shows _ _ _ T2).
Qed.
End StartClaims.
