(* ===== verification/SchedExamples.v ===== *)
(** * Timer interrupts on a concrete state

    The theorems of Sched.v and FrameCalls.v applied to three terminals that run the processes 0, 1
    and 2, the first of them on display. *)

From stdpp Require Import base gmap list numbers.
From Stdlib Require Import ZArith Lia.
From S2P Require Import Prelude Pointers Ports Pic Paging State Machine VirtMem CString MemFns.
From S2P Require Import Pcb Demo Screen FileSystem FileExamples Syscalls Descriptors DescriptorExamples Process Sched Frame FrameCalls.

Definition demo_running_terminal (p : Z) : terminal_state := set_prog_curr_pid p bss_terminal.

Definition demo_sched : kernel :=
  set_k_pg demo_user_paging (set_k_ter
    {| terminals := demo_running_terminal <$> [0; 1; 2]; curr_ter := 0; curr_process := 0 |} demo_state).

Lemma demo_pcbs_all p : 0 <= p < 6 -> is_Some (demo_pcbs !! get_pcb_by_pid p).
Proof.
  intros Hp. assert (p ∈ seqZ 0 6) as Hs by (apply elem_of_seqZ; lia). clear Hp. revert p Hs.
  refine (proj1 (list.Forall_forall (fun p => is_Some (demo_pcbs !! get_pcb_by_pid p)) _) _).
  repeat constructor; eexists; vm_compute; reflexivity.
Qed.

Lemma demo_sched_ok : sched_ok demo_sched.
Proof.
  split.
  - reflexivity.
  - split; reflexivity || discriminate.
  - split; reflexivity || discriminate.
  - repeat constructor; simpl; lia.
  - apply (bool_decide_unpack _). reflexivity.
  - exact demo_pcbs_all.
  - by split.
Qed.

Lemma timer_switches_witness :
  exists k' tc tn, PT_handler (L := demo_layout) demo_locals demo_sched = Ok (Returns 0, k') /\
    curr_process (k_ter k') = 1 /\ masked (k_pic k') 1 = true /\
    ticked demo_sched k' tc tn /\ prog_curr_pid tn = 1 /\
    paging_rep (L := demo_layout) (k_pg k') (Some 1) (VIDEO_PAGE + 2) None.
Proof.
  destruct (timer_switches (L := demo_layout) demo_locals demo_sched (Some 0) VIDEO_PAGE None)
    as (k' & tc & tn & E & Hc & Hn & T & R).
  - exact demo_sched_ok.
  - exact demo_user_paging_rep.
  - injection Hn as <-. injection Hc as <-. exists k', (demo_running_terminal 0), (demo_running_terminal 1).
    split; [exact E|]. split; [by rewrite (tk_ter _ _ _ _ T)|].
    split; [by rewrite (tk_irq _ _ _ _ T) by (unfold Pic.MAX_IRQ; lia)|].
    split; [exact T|]. split; [reflexivity|exact R].
Defined.

Lemma three_ticks_resume_witness :
  exists k3, (PT_handler (L := demo_layout) demo_locals;; PT_handler (L := demo_layout) demo_locals;;
      PT_handler (L := demo_layout) demo_locals) demo_sched = Ok (Returns 0, k3) /\
    k_cpu k3 = k_cpu demo_sched /\ k_ter k3 = k_ter demo_sched.
Proof.
  destruct (three_ticks_resume (L := demo_layout) demo_locals demo_sched (demo_running_terminal 0) None)
    as (k3 & E & Hcpu & Hter & _).
  - exact demo_sched_ok.
  - by exists (demo_running_terminal 0).
  - reflexivity.
  - reflexivity.
  - exact demo_user_paging_rep.
  - exists k3. split; [exact E|]. split; [exact Hcpu|exact Hter].
Defined.

Lemma demo_sched_shaped : shaped demo_sched.
Proof.
  split.
  - exact (rep_pd_len (L := demo_layout) _ _ _ _ demo_user_paging_rep).
  - exact (rep_pt_len (L := demo_layout) _ _ _ _ demo_user_paging_rep).
  - exact (rep_vpt_len (L := demo_layout) _ _ _ _ demo_user_paging_rep).
  - reflexivity.
  - repeat constructor.
  - reflexivity.
  - reflexivity.
  - intros a b H. apply elem_of_list_to_map_2, list_elem_of_fmap in H as (p & [= _ ->] & _). by split.
Qed.

Lemma demo_bad_call k :
  exists k', SYS_handler_wrapper (L := demo_layout) demo_locals [] 11 0 0 0 k = Ok (Returns (-1), k').
Proof. destruct k as [??????????? []]. eexists. vm_compute. reflexivity. Qed.

(** A timer interrupt, then a system call with a number that does not exist. *)
Lemma kernel_stays_typed_witness :
  exists k1 k2, PT_handler (L := demo_layout) demo_locals demo_sched = Ok (Returns 0, k1) /\
    SYS_handler_wrapper (L := demo_layout) demo_locals [] 11 0 0 0 k1 = Ok (Returns (-1), k2) /\ shaped k2.
Proof.
  destruct (PT_handler_ticks (L := demo_layout) demo_locals demo_sched (Some 0) VIDEO_PAGE None demo_sched_ok
    demo_user_paging_rep) as (k1 & tc & tn & E & _).
  destruct (demo_bad_call k1) as (k2 & E2). exists k1, k2. split; [exact E|]. split; [exact E2|].
  apply (kernel_stays_typed (L := demo_layout) demo_locals demo_sched).
  - exact demo_sched_shaped.
  - eapply reaches_trans; [eapply reaches_timer; exact E|].
    eapply (reaches_call demo_locals [] 11 0 0 0); [|exact E2]. intros irq H. destruct (not_elem_of_nil _ H).
Defined.
