(* ===== verification/StartExamples.v ===== *)
(** * Interrupts on concrete states

    The theorems of Idt.v, Exceptions.v and SchedStart.v applied to the kernel of
    ProcessExamples.v. *)

From stdpp Require Import base gmap list numbers strings.
From Stdlib Require Import ZArith Lia.
From S2P Require Import Prelude Pointers Ports Pic Paging State Machine VirtMem CString MemFns.
From S2P Require Import Pcb Demo Screen Printf FileSystem FileExamples Syscalls Process Descriptors.
From S2P Require Import DescriptorExamples Command Exec Launch Halt Idt Exceptions ProcessExamples.
From S2P Require Import Sched SchedStart.

#[local] Opaque prog_img cleared_mem.

(** Handlers one after the other from 0x401000 on; the words behind the arrays are
    the unused vector 0x40. *)
Definition demo_addr (h : handler) : Z :=
  match h with H_SYS => 0x401000 | H_PF => 0x402000 | H_KB => 0x403000 | _ => 0x404000 end.

Lemma idt_dispatches_witness :
  exists idt ter', init_idt demo_addr (replicate 12 0x40) (replicate 12 0) (replicate 256 zero_desc) (k_ter demo_state) =
      Ok (idt, ter') /\
    take_vector false 3 idt PF_EXC = Some 0x402000 /\ take_vector false 0 idt KB_INT = Some 0x403000 /\
    take_vector true 3 idt SYS_CALL = Some 0x401000 /\ take_vector true 3 idt KB_INT = None /\
    take_vector false 0 idt 15 = None.
Proof.
  destruct (idt_dispatches demo_addr (replicate 12 0x40) (replicate 12 0) (k_ter demo_state))
    as (idt & ter' & E & H1 & H0 & H2 & H3 & _).
  - intros []; simpl; lia.
  - reflexivity.
  - reflexivity.
  - apply Forall_replicate. unfold vector_ok, NUM_VEC. lia.
  - reflexivity.
  - exists idt, ter'. split; [exact E|]. split; [|split; [|split; [|split]]].
    + apply (H1 PF_EXC H_PF 3); refine (bool_decide_unpack _ _); reflexivity.
    + apply (H1 KB_INT H_KB 0); refine (bool_decide_unpack _ _); reflexivity.
    + exact H2.
    + apply H3; unfold KB_INT, NUM_VEC, SYS_CALL; lia.
    + apply H0; [unfold NUM_VEC; lia|refine (bool_decide_unpack _ _); reflexivity..].
Defined.

(** Process 3 takes a page fault. *)
Lemma exception_ends_program_witness :
  exists k', PF_handler (L := demo_layout) demo_locals demo_child_state = Ok (Resumes 4, k') /\
    r_ebp (k_cpu k') = 0x7FFF40 /\ used_pids (k_proc k') = [1; 1; 1; 0; 0; 0].
Proof.
  destruct (exception_ends_program (L := demo_layout) demo_locals demo_locals_ok "Page Fault"
    (PF_handler (L := demo_layout) demo_locals) demo_child_state 3 demo_child (numbered 0) (Some 0) VIDEO_PAGE
    None clear_tty) as (k1 & k' & E & _ & F & _ & H).
  - unfold exception_handlers. do 14 right. left.
  - exact demo_child_halting.
  - lia.
  - change (par_pcb_ptr demo_child) with (get_pcb_by_pid 0). unfold demo_child_state.
    cbn [pcbs k_proc exec_state set_k_mem set_k_pg set_k_fs set_k_ter set_k_proc].
    rewrite lookup_insert_ne by discriminate. exact (exec_pcbs_all 0 ltac:(lia)).
  - exists k'. split; [exact E|]. destruct H.
    split; [by rewrite ha_cpu|]. by rewrite ha_proc, (fr_proc _ _ _ F).
Defined.

(** The first terminal runs its shell in the background; the second one, on display,
    has no program yet. *)
Definition due_state (used : list Z) (last : terminal_state) : kernel :=
  set_k_ter {| terminals := [running_terminal_of 0 0; run_as (-1) (-1) bss_terminal; last];
               curr_ter := 1; curr_process := 0 |}
    (exec_state 0 0 0x7FFF00 used exec_pcbs cleared_mem).
Definition demo_due : kernel := due_state [1; 0; 0; 0; 0; 0] (run_as (-1) (-1) bss_terminal).

Lemma due_state_ok used last :
  length used = 6%nat ->
  shell_due (L := demo_layout) (due_state used last) (run_as (-1) (-1) bss_terminal) 0x7FE000 (numbered 0) (Some 0)
    VIDEO_PAGE None (rows clear_tty).
Proof.
  intros Hu. split; try reflexivity; try (simpl; lia).
  - by split.
  - exact demo_user_paging_rep.
  - by apply (proj1 cleared_mem_spec).
  - split; [reflexivity|exact (exec_pcbs_all 0 ltac:(lia))].
  - intros q Hq. exists (numbered q). split; [by apply exec_pcbs_all|]. by split.
Qed.

Lemma due_state_mounted used last :
  mounted (L := demo_layout) prog_img demo_start demo_start (due_state used last).
Proof.
  split; [reflexivity| |exact (proj2 cleared_mem_spec)].
  apply (kernel_maps (L := demo_layout) _ _ _ _ _ _ demo_user_paging_rep); apply prog_bounds.
Qed.

Lemma shell_tick_demo :
  exists k', PT_handler (L := demo_layout) demo_locals demo_due = Ok (Enters 0x80482E8 USER_ESP, k') /\
    used_pids (k_proc k') = [1; 1; 0; 0; 0; 0] /\ bytes_at (k_mem k') 0xC48000 demo_prog.
Proof.
  destruct (shell_tick (L := demo_layout) demo_locals prog_img demo_start demo_due
    (run_as (-1) (-1) bss_terminal) 0x7FE000 (numbered 0) (Some 0) VIDEO_PAGE None (rows clear_tty) 0 1)
    as (k1 & k' & c1 & b & E & X & _ & Hp & _).
  - exact demo_locals_ok.
  - exact prog_img_wf.
  - exact prog_bounds.
  - by apply due_state_ok.
  - apply due_state_mounted.
  - exact shell_command_at.
  - apply demo_program. reflexivity.
  - exact prog_fits.
  - reflexivity.
  - discriminate.
  - exists k'. rewrite prog_entry in E. split; [exact E|]. destruct X. split.
    + destruct ex_proc as (old & ->). rewrite Hp. reflexivity.
    + rewrite <- prog_contents. exact ex_image.
Defined.

(** Six processes, and the second terminal without one: it stays the running terminal. *)
Lemma failed_shell_stalls_witness :
  exists k', timer_interrupts (L := demo_layout) demo_locals 5
      (due_state [1; 1; 1; 1; 1; 1] (running_terminal_of 2 2)) = Ok (tt, k') /\
    r_esp (k_cpu k') = 0x7FFF00 /\ curr_process (k_ter k') = 1.
Proof.
  destruct (failed_shell_stalls (L := demo_layout) demo_locals prog_img demo_start 4
    (due_state [1; 1; 1; 1; 1; 1] (running_terminal_of 2 2)) (run_as (-1) (-1) bss_terminal) (running_terminal_of 2 2)
    0x7FE000 (numbered 0) (Some 0) VIDEO_PAGE None (rows clear_tty) 0) as (k' & E & Hc & Hcp & _).
  - exact demo_locals_ok.
  - exact prog_img_wf.
  - exact prog_bounds.
  - by apply due_state_ok.
  - apply due_state_mounted.
  - exact shell_command_at.
  - apply demo_program. reflexivity.
  - reflexivity.
  - reflexivity.
  - discriminate.
  - exists k'. split; [exact E|]. split; [by rewrite Hc|exact Hcp].
Defined.
