(* ===== verification/System.v ===== *)
(** * Interleavings: three terminals under interrupts

    The timer, the keyboard and the clock interrupt the running program in any order.
    The abstract system has a line editor and a screen for each of the three terminals,
    the terminal on display and the terminal whose turn it is; the handlers, run one
    after the other on the kernel's state, are shown to do to it what the abstract
    system does, whatever the order of events.

    One restriction is needed: a terminal is switched only while the terminal on
    display is the one that runs.  Between a switch and the next tick the kernel maps
    the page of the terminal that was left, and a second switch would swap the wrong
    pages. *)

From stdpp Require Import base gmap list numbers strings.
From Stdlib Require Import ZArith Lia.
From S2P Require Import Prelude Pointers Ports Pic Paging State Machine VirtMem CString MemFns.
From S2P Require Import Pcb Demo Screen Printf FileSystem Rtc Keyboard Terminal Syscalls Process Sched.

(** ** The abstract system *)

Record world : Type := World {
  w_ct : Z;            (* on display *)
  w_cp : Z;            (* its process runs *)
  w_kb : bool;         (* the keyboard's line is on *)
  w_ed : Z -> ed;
  w_tty : Z -> tty;
  w_mods : mods;
}.

Inductive sys_event : Type :=
| Tick
| Key (sc : Z)
| Clock (b : Z)        (* what register C of the clock reads *)
| Put (c : Z).         (* the running program prints a character *)

Definition upd {A} (f : Z -> A) (i : Z) (x : A) : Z -> A := fun j => if j =? i then x else f j.

(** The terminal a switching key names. *)
Definition switch_target (sc : Z) : Z :=
  if sc =? F1_KEY_DOWN then 0 else if sc =? F2_KEY_DOWN then 1 else 2.

Definition wstep (e : sys_event) (w : world) : world :=
  match e with
  | Tick =>
      let n := next_ter (w_cp w) in
      World (w_ct w) n (n =? w_ct w) (w_ed w) (w_tty w) (w_mods w)
  | Key sc =>
      if is_switch (w_mods w) sc then
        World (switch_target sc) (w_cp w) (w_kb w) (w_ed w) (w_tty w) (w_mods w)
      else
        let s := ed_key sc (w_mods w) (w_ed w (w_ct w), w_tty w (w_cp w)) in
        World (w_ct w) (w_cp w) (w_kb w) (upd (w_ed w) (w_ct w) s.1) (upd (w_tty w) (w_cp w) s.2)
          (mods_key sc (w_mods w))
  | Clock _ => w
  | Put c => World (w_ct w) (w_cp w) (w_kb w) (w_ed w) (upd (w_tty w) (w_cp w) (tty_putc c (w_tty w (w_cp w)))) (w_mods w)
  end.

(** When an event can happen. *)
Definition can (e : sys_event) (w : world) : Prop :=
  match e with
  | Key sc => w_kb w = true /\ 0 <= sc < 256 /\ (is_switch (w_mods w) sc = true -> w_cp w = w_ct w)
  | _ => True
  end.

Fixpoint can_all (es : list sys_event) (w : world) : Prop :=
  match es with [] => True | e :: es => can e w /\ can_all es (wstep e w) end.

Definition wrun (es : list sys_event) (w : world) : world := foldl (fun w e => wstep e w) w es.

(** ** The kernel *)

Section System.
Context `{L : Layout} (J : locals).
Implicit Types (k : kernel) (w : world).

(** The byte a device holds. *)
Definition feed (b : Z) : K unit :=
  modify (fun k => set_k_io {| io_log := io_log (k_io k); io_in := [b] |} k).

Definition happens (e : sys_event) : K unit :=
  match e with
  | Tick => PT_handler J;; mret tt
  | Key sc => feed sc;; KB_handler
  | Clock b => feed b;; RT_handler
  | Put c => putc c
  end.

Fixpoint run_events (es : list sys_event) : K unit :=
  match es with [] => mret tt | e :: es => happens e;; run_events es end.

(** The bytes of the three screens exist. *)
Definition pages_defined k (ct : Z) : Prop :=
  forall t i, 0 <= t < 3 -> 0 <= i < 4096 -> is_Some (k_mem k !! (page_of ct t * 4096 + i)).

(** Terminal [tm] is the editor [e], and its saved cursor is that of the screen [t]. *)
Record ter_rep (tm : terminal_state) (e : ed) (t : tty) : Prop := {
  tp_ed : ed_rep tm e;
  tp_x : screen_x_save tm = cx t;
  tp_y : screen_y_save tm = cy t;
}.

Record sys_rep k w : Prop := {
  sr_sched : sched_ok k;
  sr_ct : curr_ter (k_ter k) = w_ct w;
  sr_cp : curr_process (k_ter k) = w_cp w;
  sr_ter t tm : 0 <= t < 3 -> terminals (k_ter k) !! Z.to_nat t = Some tm -> ter_rep tm (w_ed w t) (w_tty w t);
  sr_range t : 0 <= t < 3 -> 0 <= cx (w_tty w t) <= NUM_COLS /\ 0 <= cy (w_tty w t) < NUM_ROWS;
  sr_x : screen_x (k_scr k) = cx (w_tty w (w_cp w));
  sr_y : screen_y (k_scr k) = cy (w_tty w (w_cp w));
  sr_shows t : 0 <= t < 3 -> shows k (page_of (w_ct w) t) (rows (w_tty w t));
  sr_pages : pages_defined k (w_ct w);
  sr_map : exists prog uvid, paging_rep (k_pg k) prog (page_of (w_ct w) (w_cp w)) uvid;
  sr_kb : masked (k_pic k) KB_IRQ_NUM = negb (w_kb w);
  sr_on : w_kb w = true -> on_screen (k_scr k) <> 0;
  sr_mods : mods_of (k_kbd k) = w_mods w;
  sr_flags : length (rtc_interrupt_flags (k_rtc k)) = 3%nat;
}.

(** What every handler but the timer's leaves alone: the stack registers, the process
    control blocks, the TSS and which process a terminal runs. *)
Record quiet_for k k' : Prop := {
  qf_cpu : k_cpu k' = k_cpu k;
  qf_proc : k_proc k' = k_proc k;
  qf_tss : k_tss k' = k_tss k;
  qf_pids : prog_curr_pid <$> terminals (k_ter k') = prog_curr_pid <$> terminals (k_ter k);
}.

Lemma sys_terminal k w t : sys_rep k w -> 0 <= t < 3 ->
  exists tm, terminals (k_ter k) !! Z.to_nat t = Some tm /\ ter_rep tm (w_ed w t) (w_tty w t).
Proof.
  intros H Ht. destruct (sched_terminal k t (sr_sched _ _ H) Ht) as (tm & Htm & _).
  exists tm. split; [done|]. by apply (sr_ter _ _ H).
Qed.

Lemma sys_cp k w : sys_rep k w -> 0 <= w_cp w < 3.
Proof. intros H. rewrite <- (sr_cp _ _ H). apply (sr_sched _ _ H). Qed.
Lemma sys_ct k w : sys_rep k w -> 0 <= w_ct w < 3.
Proof. intros H. rewrite <- (sr_ct _ _ H). apply (sr_sched _ _ H). Qed.

(** The running terminal's screen. *)
Lemma sys_tty k w : sys_rep k w -> tty_rep k (page_of (w_ct w) (w_cp w)) (w_tty w (w_cp w)).
Proof.
  intros H. pose proof (sys_cp k w H) as Hc. pose proof H as []. split; auto.
  - by apply sr_range0.
  - by apply sr_range0.
  - by rewrite sr_cp0.
  - apply sr_sched0.
Qed.

Lemma sys_saved k w : sys_rep k w -> cursor_saved k.
Proof.
  intros H. pose proof (sys_cp k w H) as Hc. destruct (sys_terminal k w _ H Hc) as (tm & Htm & []).
  exists tm. rewrite (sr_cp _ _ H). split; [done|]. rewrite tp_x0, tp_y0, (sr_x _ _ H), (sr_y _ _ H). done.
Qed.

(** *** Memory *)

Lemma page_of_range ct t : 0 <= t < 3 -> VIDEO_PAGE <= page_of ct t < VIDEO_PAGE + 4.
Proof. intros Ht. unfold page_of. destruct (t =? ct); lia. Qed.

Lemma page_of_inj ct t t' : 0 <= t < 3 -> 0 <= t' < 3 -> t <> t' -> page_of ct t <> page_of ct t'.
Proof. intros Ht Ht' Hne. unfold page_of. destruct (Z.eqb_spec t ct), (Z.eqb_spec t' ct); lia. Qed.

(** What a page shows depends on its 4000 bytes only. *)
Lemma shows_same k k' p p' rs :
  (forall i, 0 <= i < 4000 -> k_mem k' !! (p' * 4096 + i) = k_mem k !! (p * 4096 + i)) ->
  shows k p rs -> shows k' p' rs.
Proof.
  intros Hm (H1 & H2 & H3). split; [done|]. split; [done|]. intros y x r c a Hy Hx.
  pose proof (lookup_lt_Some _ _ _ Hy) as Ly. pose proof (lookup_lt_Some _ _ _ Hx) as Lx.
  pose proof (Forall_lookup_1 _ _ _ _ H2 Hy) as Er. cbv beta in Er. rewrite Er in Lx. rewrite H1 in Ly.
  destruct (H3 _ _ _ _ _ Hy Hx) as [E1 E2]. split; [rewrite Hm by lia; exact E1|].
  rewrite <- Z.add_assoc in E2 |- *. rewrite Hm by lia. exact E2.
Qed.

Lemma shows_defined k p rs i : shows k p rs -> 0 <= i < 4000 -> is_Some (k_mem k !! (p * 4096 + i)).
Proof.
  intros (H1 & H2 & H3) Hi.
  destruct (lookup_lt_is_Some_2 rs (Z.to_nat (i / 160))) as [r Hr];
    [rewrite H1; apply Nat2Z.inj_lt; rewrite Z2Nat.id; Z.to_euclidean_division_equations; lia|].
  destruct (lookup_lt_is_Some_2 r (Z.to_nat ((i mod 160) / 2))) as [[c a] Hc];
    [rewrite (Forall_lookup_1 _ _ _ _ H2 Hr); apply Nat2Z.inj_lt; rewrite Z2Nat.id; Z.to_euclidean_division_equations; lia|].
  destruct (H3 _ _ _ _ _ Hr Hc) as [E1 E2].
  rewrite !Z2Nat.id in E1, E2 by (Z.to_euclidean_division_equations; lia).
  assert (i mod 2 = 0 \/ i mod 2 = 1) as [Hp|Hp] by (Z.to_euclidean_division_equations; lia).
  - exists c. rewrite <- E1. f_equal. Z.to_euclidean_division_equations; lia.
  - exists a. rewrite <- E2. f_equal. Z.to_euclidean_division_equations; lia.
Qed.

(** The three screens as blocks of bytes. *)
Definition screen_bytes k (ct t : Z) : list Z :=
  (fun i => default 0 (k_mem k !! (page_of ct t * 4096 + i))) <$> seqZ 0 4096.

Lemma pages_screens k ct : pages_defined k ct -> screens k ct (screen_bytes k ct).
Proof.
  intros H t Ht. unfold screen_bytes. split; [by rewrite length_fmap, length_seqZ|].
  intros i b Hi. apply list_lookup_fmap_Some in Hi as (j & -> & Hj). apply lookup_seqZ in Hj as [-> Hj].
  destruct (H t (0 + Z.of_nat i) Ht) as [x Hx]; [lia|]. rewrite Z.add_0_l in *. by rewrite Hx.
Qed.

Lemma screens_byte k ct S t i : screens k ct S -> 0 <= t < 3 -> 0 <= i < 4096 ->
  k_mem k !! (page_of ct t * 4096 + i) = S t !! Z.to_nat i.
Proof.
  intros H Ht Hi. destruct (H t Ht) as [Hl Hb]. destruct (lookup_lt_is_Some_2 (S t) (Z.to_nat i)) as [b E]; [lia|].
  rewrite E, <- (Hb _ _ E). f_equal. lia.
Qed.

Lemma screens_defined k ct S : screens k ct S -> pages_defined k ct.
Proof.
  intros H t i Ht Hi. rewrite (screens_byte k ct S t i H Ht Hi). apply lookup_lt_is_Some_2.
  destruct (H t Ht) as [-> _]. lia.
Qed.

(** *** Keys and characters *)

Lemma sched_ok_same k k' :
  sched_ok k -> prog_curr_pid <$> terminals (k_ter k') = prog_curr_pid <$> terminals (k_ter k) ->
  curr_ter (k_ter k') = curr_ter (k_ter k) -> curr_process (k_ter k') = curr_process (k_ter k) ->
  k_proc k' = k_proc k -> k_pic k' = k_pic k -> sched_ok k'.
Proof.
  intros [] Hp Hct Hcp Hpr Hpic. split; rewrite ?Hct, ?Hcp, ?Hpr, ?Hpic, ?Hp; auto.
  - apply (f_equal length) in Hp. rewrite !length_fmap in Hp. lia.
  - apply (Forall_fmap prog_curr_pid (fun p => 0 <= p < 6)). rewrite Hp. by apply Forall_fmap.
Qed.

(** A change of the line on display and of the running terminal's screen. *)
Section Edited.
Context (k k' : kernel) (w : world) (e : ed) (t : tty) (tm : terminal_state).
Let P := page_of (w_ct w) (w_cp w).
Hypothesis H : sys_rep k w.
Hypothesis F : ed_frame (w_cp w) P (w_ct w) (set_k_kbd (k_kbd k') (set_k_io (k_io k') k)) k'.
Hypothesis Htm : terminals (k_ter k') !! Z.to_nat (w_ct w) = Some tm.
Hypothesis He : ed_rep tm e.
Hypothesis T : tty_rep k' P t.
Hypothesis S : cursor_saved k'.

Lemma edited_other j : 0 <= j < 3 -> j <> w_ct w ->
  exists x y, terminals (k_ter k) !! Z.to_nat j = Some x /\ terminals (k_ter k') !! Z.to_nat j = Some y /\
    strip_cursor y = strip_cursor x.
Proof.
  intros Hj Hne. pose proof (sys_ct k w H). destruct (sys_terminal k w j H Hj) as (x & Hx & _). exists x.
  pose proof (ef_strip _ _ _ _ _ F (Z.to_nat j)) as Es. cbn [k_ter set_k_kbd set_k_io] in Es. rewrite Hx in Es.
  simpl in Es. apply fmap_Some in Es as (y & Hy & Es); [|lia]. by exists y.
Qed.

Lemma edited_kept : exists tm0, terminals (k_ter k) !! Z.to_nat (w_ct w) = Some tm0 /\
  kept (w_cp w) (w_ct w) tm0 tm /\ ter_rep tm0 (w_ed w (w_ct w)) (w_tty w (w_ct w)).
Proof.
  destruct (sys_terminal k w _ H (sys_ct k w H)) as (tm0 & Htm0 & R0). exists tm0. split; [done|].
  destruct (ef_keep _ _ _ _ _ F tm0 Htm0) as (tm' & Htm' & Hk). by assert (tm' = tm) as <- by congruence.
Qed.

Lemma edited_pids : prog_curr_pid <$> terminals (k_ter k') = prog_curr_pid <$> terminals (k_ter k).
Proof.
  apply list_eq. intros i. rewrite !list_lookup_fmap. destruct (decide (i < 3)%nat) as [Hi|Hi].
  - destruct (decide (i = Z.to_nat (w_ct w))) as [->|Hne].
    + destruct edited_kept as (tm0 & Htm0 & [Hp _] & _). rewrite Htm, Htm0. simpl. by rewrite Hp.
    + pose proof (sys_ct k w H). destruct (edited_other (Z.of_nat i)) as (x & y & Ex & Ey & Es); [lia|lia|].
      rewrite Nat2Z.id in Ex, Ey. rewrite Ex, Ey. simpl. f_equal.
      change (prog_curr_pid (strip_cursor y) = prog_curr_pid (strip_cursor x)). by rewrite Es.
  - rewrite !lookup_ge_None_2; [done|rewrite (so_len _ (sr_sched _ _ H)); lia|]. pose proof (tr_len _ _ _ T). lia.
Qed.

(** The saved cursor of the running terminal. *)
Lemma edited_cursor x : terminals (k_ter k') !! Z.to_nat (w_cp w) = Some x ->
  screen_x_save x = cx t /\ screen_y_save x = cy t.
Proof.
  intros Hx. destruct S as (tc & Htc & Ex & Ey).
  rewrite (ef_cp _ _ _ _ _ F) in Htc. cbn [k_ter set_k_kbd set_k_io] in Htc. rewrite (sr_cp _ _ H) in Htc.
  assert (x = tc) as -> by congruence. by rewrite Ex, Ey, (tr_x _ _ _ T), (tr_y _ _ _ T).
Qed.

Lemma edited_ter j x : 0 <= j < 3 -> terminals (k_ter k') !! Z.to_nat j = Some x ->
  ter_rep x (upd (w_ed w) (w_ct w) e j) (upd (w_tty w) (w_cp w) t j).
Proof.
  intros Hj Hx. pose proof (sys_cp k w H). pose proof (sys_ct k w H). unfold upd.
  destruct (Z.eqb_spec j (w_ct w)) as [->|Hne].
  - assert (x = tm) as -> by congruence. destruct (Z.eqb_spec (w_ct w) (w_cp w)) as [E|E].
    + destruct (edited_cursor tm) as [Ex Ey]; [by rewrite <- E|by split].
    + destruct edited_kept as (tm0 & _ & [_ Hc] & R0). destruct Hc as [Ex Ey]; [lia|].
      split; [done|rewrite Ex|rewrite Ey]; apply R0.
  - destruct (edited_other j Hj Hne) as (y & y' & Ey & Ey' & Es). assert (y' = x) as -> by congruence.
    pose proof (sr_ter _ _ H j y Hj Ey) as [R1 R2 R3]. pose proof (ed_rep_strip _ _ _ Es R1) as R.
    destruct (Z.eqb_spec j (w_cp w)) as [->|E].
    + destruct (edited_cursor x Hx) as [Ex Ey2]. by split.
    + rewrite (ef_other _ _ _ _ _ F) in Ey' by lia. cbn [k_ter set_k_kbd set_k_io] in Ey'.
      by assert (x = y) as -> by congruence.
Qed.

Lemma sys_edited m : mods_of (k_kbd k') = m ->
  sys_rep k' (World (w_ct w) (w_cp w) (w_kb w) (upd (w_ed w) (w_ct w) e) (upd (w_tty w) (w_cp w) t) m).
Proof.
  intros Hm. pose proof (sys_cp k w H) as Hcp. pose proof edited_pids as Hp. pose proof H as []. pose proof T as [].
  pose proof F as []. cbn [k_mem k_pg k_scr k_ter k_kbd k_pic k_rtc k_proc k_io set_k_kbd set_k_io] in *.
  split; cbn [w_ct w_cp w_kb w_ed w_tty w_mods]; auto; rewrite ?ef_pg, ?ef_pic, ?ef_rtc, ?ef_on; auto.
  - by apply (sched_ok_same k).
  - by rewrite ef_ct.
  - by rewrite ef_cp.
  - exact edited_ter.
  - intros j Hj. unfold upd. destruct (j =? w_cp w); auto.
  - unfold upd. by rewrite Z.eqb_refl.
  - unfold upd. by rewrite Z.eqb_refl.
  - intros j Hj. unfold upd. destruct (Z.eqb_spec j (w_cp w)) as [->|E]; [done|].
    apply (shows_same k _ (page_of (w_ct w) j)); [|auto]. intros i Hi. apply ef_mem.
    pose proof (page_of_inj (w_ct w) j (w_cp w) Hj Hcp E). unfold P. lia.
  - intros j i Hj Hi. destruct (decide (j = w_cp w /\ i < 4000)) as [[-> Hlt]|Hn].
    + eapply shows_defined; [exact tr_shows|lia].
    + rewrite ef_mem; [by apply sr_pages0|]. unfold P.
      destruct (Z.eq_dec j (w_cp w)) as [->|E]; [lia|]. pose proof (page_of_inj (w_ct w) j (w_cp w) Hj Hcp E). lia.
Qed.
End Edited.

Lemma sys_ext k w ed' :
  (forall t, ed' t = w_ed w t) -> sys_rep k (World (w_ct w) (w_cp w) (w_kb w) ed' (w_tty w) (w_mods w)) -> sys_rep k w.
Proof.
  intros He []. cbn [w_ct w_cp w_kb w_ed w_tty w_mods] in *. split; auto.
  intros t tm Ht Htm. rewrite <- He. auto.
Qed.

Lemma sys_ter_at k w : sys_rep k w ->
  exists tm, ter_at k (w_ct w) tm /\ ed_rep tm (w_ed w (w_ct w)).
Proof.
  intros H. pose proof (sys_ct k w H) as Hct. destruct (sys_terminal k w _ H Hct) as (tm & Htm & R).
  exists tm. split; [|apply R]. split; [done|apply H|done].
Qed.

Lemma put_step c k w : sys_rep k w ->
  exists k', putc c k = Ok (tt, k') /\ sys_rep k' (wstep (Put c) w) /\ quiet_for k k' /\ k_rtc k' = k_rtc k.
Proof.
  intros H. destruct (putc_rep k _ _ c (sys_tty k w H)) as (k' & E & T & F & Hs & _).
  exists k'. split; [done|]. split; [|split; [split; [apply F..|]|apply F]].
  2:{ pose proof (f_equal (fmap prog_curr_pid) (fr_strip _ _ _ F)) as Hp. by rewrite <- !list_fmap_compose in Hp. }
  destruct (sys_ter_at k w H) as (tm & Ht & He).
  destruct (ter_at_frame _ _ _ _ _ Ht F) as (tm' & [_ _ Ht'] & Es).
  apply (sys_ext _ _ (upd (w_ed w) (w_ct w) (w_ed w (w_ct w)))).
  { intros j. unfold upd. by destruct (Z.eqb_spec j (w_ct w)) as [->|]. }
  apply (sys_edited k k' w _ _ tm'); auto.
  - pose proof (frame_ed _ _ k k' (w_ct w) (sr_cp _ _ H) F) as []. by split.
  - by eapply ed_rep_strip.
  - rewrite (fr_kbd _ _ _ F). apply H.
Qed.

Lemma sys_io k w io : sys_rep k w -> sys_rep (set_k_io io k) w.
Proof. intros []. by destruct sr_sched0; split; [split|..]. Qed.

Lemma sys_cpu k w c : sys_rep k w -> sys_rep (set_k_cpu c k) w.
Proof. intros []. by destruct sr_sched0; split; [split|..]. Qed.

Lemma key_step sc k w : sys_rep k w -> w_kb w = true -> 0 <= sc < 256 -> is_switch (w_mods w) sc = false ->
  exists k', (feed sc;; KB_handler) k = Ok (tt, k') /\ sys_rep k' (wstep (Key sc) w) /\ quiet_for k k' /\ k_rtc k' = k_rtc k.
Proof.
  intros H0 Hkb Hsc Hsw. unfold feed. kcbn. set (k1 := set_k_io _ k).
  assert (sys_rep k1 w) as H by by apply sys_io.
  assert (kb_rep (w_cp w) (page_of (w_ct w) (w_cp w)) k1 (w_ct w) (w_ed w (w_ct w), w_tty w (w_cp w))) as R.
  { split; [by apply sys_ter_at|apply H|by apply sys_tty|by eapply sys_saved|by apply H]. }
  rewrite <- (sr_mods _ _ H) in Hsw.
  destruct (KB_handler_rep _ _ k1 _ _ sc [] R eq_refl Hsc Hsw) as (k' & E & R' & Hm & _ & _ & F).
  exists k'. split; [done|]. rewrite (sr_mods _ _ H) in *. cbn [wstep]. rewrite Hsw.
  destruct R' as [(tm & [_ _ Ht] & He) _ T Hs _]. split; [by apply (sys_edited k1 k' w _ _ tm)|].
  pose proof F as []. split; [|done]. split; auto. by eapply (edited_pids k1 k' w).
Qed.

(** *** Switching the display *)

(** Comparisons of known scancodes. *)
Ltac eval_scancodes :=
  repeat match goal with |- context [Z.eqb ?a ?b] =>
    lazymatch eval vm_compute in (Z.eqb a b) with
    | true => change (Z.eqb a b) with true
    | false => change (Z.eqb a b) with false
    end end.

Lemma KB_handler_switch k sc rest :
  io_in (k_io k) = sc :: rest -> 0 <= sc < 256 -> is_switch (mods_of (k_kbd k)) sc = true ->
  KB_handler k = (switch_terminal_or_return (switch_target sc);; ksend_eoi KB_IRQ_NUM)
    (set_k_io {| io_log := io_log (k_io k) ++ [In KB_DATA sc]; io_in := rest |} k).
Proof.
  intros Hin Hsc Hs. rewrite (KB_handler_unfold k sc rest Hin Hsc). set (k1 := set_k_io _ k).
  unfold is_switch in Hs. apply andb_true_iff in Hs as [Ha Hs].
  cbn [m_alt mods_of] in Ha. change (k_kbd k) with (k_kbd k1) in Ha.
  apply orb_true_iff in Hs as [[->%Z.eqb_eq| ->%Z.eqb_eq]%orb_true_iff| ->%Z.eqb_eq];
    unfold kb_body, key_down; eval_scancodes; cbn [orb]; kcbn; rewrite ?andb_false_r, Ha; reflexivity.
Qed.

Lemma switch_target_range sc : 0 <= switch_target sc < 3.
Proof. unfold switch_target. destruct (sc =? F1_KEY_DOWN), (sc =? F2_KEY_DOWN); lia. Qed.

(** The state after a switch. *)
Lemma sys_switched k w n m pg io uvid prog :
  let k' := set_k_io io (set_k_ter (set_curr_ter n (k_ter k)) (set_k_pg pg (set_k_mem m k))) in
  sys_rep k w -> 0 <= n < 3 -> screens (set_k_mem m k) n (screen_bytes k (w_ct w)) ->
  paging_rep pg prog (page_of n (w_cp w)) uvid ->
  sys_rep k' (World n (w_cp w) (w_kb w) (w_ed w) (w_tty w) (w_mods w)).
Proof.
  intros k' H Hn Hs R. pose proof (pages_screens k _ (sr_pages _ _ H)) as Hs0.
  pose proof H as []. split; cbn [w_ct w_cp w_kb w_ed w_tty w_mods]; auto.
  - destruct sr_sched0. by split.
  - intros t Ht. apply (shows_same k _ (page_of (w_ct w) t)); [|auto]. intros i Hi.
    rewrite (screens_byte k _ _ t i Hs0 Ht) by lia.
    by rewrite <- (screens_byte (set_k_mem m k) n _ t i Hs Ht) by lia.
  - exact (screens_defined (set_k_mem m k) n _ Hs).
  - by exists prog, uvid.
Qed.

Lemma switch_step sc k w :
  sys_rep k w -> 0 <= sc < 256 -> is_switch (w_mods w) sc = true -> w_cp w = w_ct w ->
  exists k', (feed sc;; KB_handler) k = Ok (tt, k') /\ sys_rep k' (wstep (Key sc) w) /\ quiet_for k k' /\ k_rtc k' = k_rtc k.
Proof.
  intros H Hsc Hsw Heq. unfold feed. kcbn. set (k1 := set_k_io _ k). cbn [wstep]. rewrite Hsw.
  rewrite (KB_handler_switch k1 sc []); [|done|done|by rewrite <- (sr_mods _ _ H) in Hsw].
  set (k2 := set_k_io _ k1). assert (sys_rep k2 w) as H2 by by do 2 apply sys_io.
  set (n := switch_target sc). pose proof (switch_target_range sc) as Hn. fold n in Hn.
  unfold switch_terminal_or_return, get_curr_ter, ksend_eoi. kcbn. rewrite (sr_ct _ _ H2).
  destruct (Z.eqb_spec (w_ct w) n) as [E|E]; cbn [negb]; kcbn.
  - eexists. split; [reflexivity|]. split; [|done]. rewrite <- E. apply sys_io. by destruct w.
  - destruct (sr_map _ _ H2) as (prog & uvid & R). unfold page_of in R. rewrite Heq, Z.eqb_refl in R.
    destruct (sys_terminal k2 w n H2 Hn) as (tn & Htn & _).
    destruct (switch_ter_rep k2 prog uvid (w_ct w) n _ tn R (sys_ct _ _ H2) Hn E (pages_screens _ _ (sr_pages _ _ H2)) Htn)
      as (m & pg & io & Es & Hs & _ & (uvid' & R') & _). kstep Es. kcbn. eexists. split; [reflexivity|]. split; [|done].
    apply sys_io. rewrite <- Heq in R'. by apply (sys_switched k2 w n m pg io uvid' prog).
Qed.

(** *** The timer and the clock *)

Lemma tick_step k w : sys_rep k w ->
  exists k', (PT_handler J;; mret tt) k = Ok (tt, k') /\ sys_rep k' (wstep Tick w) /\ k_rtc k' = k_rtc k /\
    terminals (k_ter k') = terminals (k_ter k) /\
    forall a, count <$> pcbs (k_proc k') !! a = count <$> pcbs (k_proc k) !! a.
Proof.
  intros H. pose proof (sys_cp k w H) as Hcp. pose proof H as [].
  destruct sr_map0 as (prog & uvid & R).
  destruct (PT_handler_ticks J k prog _ uvid sr_sched0 R) as (k' & tc & tn & E & _ & Htn & T & R').
  exists k'. split; [by kstep E|]. pose proof (ticked_ok k k' tc tn sr_sched0 T) as S'.
  cbv zeta in R'. rewrite sr_cp0, sr_ct0 in R'. rewrite sr_cp0 in Htn. set (n := next_ter (w_cp w)) in *.
  assert (0 <= n < 3) as Hn by by apply next_ter_range.
  destruct (sr_ter0 n tn Hn Htn) as [_ Hx Hy]. destruct T.
  rewrite sr_cp0 in tk_ter, tk_scr. rewrite sr_ct0 in tk_scr. fold n in tk_ter, tk_scr.
  split; [|split; [done|split; [by rewrite tk_ter|]]]; cycle 1.
  { destruct tk_save as (b & Hb & ->). intros a. simpl. destruct (decide (a = get_pcb_by_pid (prog_curr_pid tc))) as [->|Hne].
    - by rewrite lookup_insert_eq, Hb.
    - by rewrite lookup_insert_ne. }
  split; cbn [wstep w_ct w_cp w_kb w_ed w_tty w_mods]; fold n; rewrite ?tk_ter, ?tk_scr, ?tk_kbd, ?tk_rtc; auto.
  - intros t Ht. apply (shows_same k _ (page_of (w_ct w) t)); [by rewrite tk_mem|auto].
  - intros t i. rewrite tk_mem. auto.
  - eauto.
  - rewrite tk_irq, sr_cp0, sr_ct0 by done. done.
  - simpl. by intros ->.
Qed.

Lemma clock_step b k w : sys_rep k w ->
  exists k', (feed b;; RT_handler) k = Ok (tt, k') /\ sys_rep k' w /\ quiet_for k k' /\
    rtc_interrupt_flags (k_rtc k') = [1; 1; 1].
Proof.
  intros H. unfold feed. kcbn. set (k1 := set_k_io _ k).
  destruct (RT_handler_spec k1 b [] eq_refl (sr_flags _ _ H)) as (log & E). rewrite E.
  eexists. split; [reflexivity|]. split; [|by split]. apply sys_io. pose proof (sys_io k w (k_io k1) H) as [].
  split; auto. by destruct sr_sched0; split.
Qed.

(** A key of either kind. *)
Lemma key_event sc k w : sys_rep k w -> can (Key sc) w ->
  exists k', (feed sc;; KB_handler) k = Ok (tt, k') /\ sys_rep k' (wstep (Key sc) w) /\ quiet_for k k' /\ k_rtc k' = k_rtc k.
Proof.
  intros H (Hkb & Hsc & Hs). destruct (is_switch (w_mods w) sc) eqn:E; [apply switch_step|apply key_step]; auto.
Qed.

(** What a program that waits for the clock sees of an event: the flags, which a clock interrupt
    sets, and its counter, which stays. *)
Definition is_clock (e : sys_event) : bool := match e with Clock _ => true | _ => false end.

Record seen (ticked : bool) k k' : Prop := {
  sn_flags : rtc_interrupt_flags (k_rtc k') = if ticked then [1; 1; 1] else rtc_interrupt_flags (k_rtc k);
  sn_count a : count <$> pcbs (k_proc k') !! a = count <$> pcbs (k_proc k) !! a;
}.

Lemma quiet_seen k k' : quiet_for k k' -> k_rtc k' = k_rtc k -> seen false k k'.
Proof. intros [] Hr. split; [by rewrite Hr|by rewrite qf_proc0]. Qed.

Lemma event_step e k w : sys_rep k w -> can e w ->
  exists k', happens e k = Ok (tt, k') /\ sys_rep k' (wstep e w) /\ seen (is_clock e) k k'.
Proof.
  intros H C. destruct e as [|sc|b|c]; cbn [happens can is_clock] in *.
  - destruct (tick_step k w H) as (k' & E & H' & Hr & _ & Hc). exists k'. split; [done|]. split; [done|].
    split; [by rewrite Hr|done].
  - destruct (key_event sc k w H C) as (k' & E & H' & Q & Hr). exists k'. eauto using quiet_seen.
  - destruct (clock_step b k w H) as (k' & E & H' & [] & Hf). exists k'. split; [done|]. split; [done|].
    split; [done|by rewrite qf_proc0].
  - destruct (put_step c k w H) as (k' & E & H' & Q & Hr). exists k'. eauto using quiet_seen.
Qed.

Lemma run_events_rep es k w : sys_rep k w -> can_all es w ->
  exists k', run_events es k = Ok (tt, k') /\ sys_rep k' (wrun es w).
Proof.
  revert k w. induction es as [|e es IH]; intros k w H C; [by exists k|].
  destruct C as [Ce C]. destruct (event_step e k w H Ce) as (k1 & E1 & H1 & _).
  destruct (IH k1 _ H1 C) as (k' & E & H'). exists k'. split; [cbn [run_events]; by kstep E1|done].
Qed.
End System.

(** ** The theorems *)

Section SystemClaims.
Context `{L : Layout} (J : locals).

(** (C9) The kernel refines the abstract system under every interleaving of timer interrupts, keys
    (while the keyboard's line is on), clock interrupts and output of the running program: no
    handler faults, and afterwards every terminal's line, history, handed-over line, screen and
    cursor, the display, the turn, the modifiers and the keyboard's mask are those of the abstract
    system, each screen on its own page. *)
Theorem interrupts_refine es k w :
  sys_rep k w -> can_all es w ->
  exists k', run_events J es k = Ok (tt, k') /\ sys_rep k' (wrun es w).
Proof. apply run_events_rep. Qed.
End SystemClaims.
