(* ===== verification/SystemExamples.v ===== *)
(** * An interleaving on a concrete state

    The theorem of System.v applied to the three running terminals of SchedExamples.v. *)

From stdpp Require Import base gmap list numbers strings.
From Stdlib Require Import ZArith Lia.
From S2P Require Import Prelude Pointers Ports Pic Paging State Machine VirtMem CString MemFns.
From S2P Require Import Pcb Demo Screen FileSystem FileExamples Rtc Keyboard KeyboardExamples Syscalls.
From S2P Require Import Descriptors DescriptorExamples Sched SchedExamples System.

Definition zero_tty : tty := Tty (replicate 25 (replicate 80 (0, 0))) 0 0.

Definition demo_world : world :=
  World 0 0 true (fun _ => demo_editor) (fun _ => zero_tty) (Mods false false false false).

Lemma demo_sched_byte a : VIDEO_PAGE * 4096 <= a < (VIDEO_PAGE + 4) * 4096 -> k_mem demo_sched !! a = Some 0.
Proof.
  intros Ha. change (k_mem demo_sched) with (k_mem demo_state). unfold demo_state, k_mem. rewrite lookup_put_bytes.
  unfold VIDEO_PAGE in *. rewrite (proj2 (Z.leb_le _ _)) by lia. by rewrite (lookup_replicate_2 _ 0) by lia.
Qed.

Lemma demo_sys_rep : sys_rep (L := demo_layout) demo_sched demo_world.
Proof.
  split; try reflexivity; try discriminate.
  - exact demo_sched_ok.
  - intros t tm Ht Htm. assert (exists p, tm = demo_running_terminal p) as [p ->].
    { apply list_lookup_fmap_Some in Htm as (p & -> & _). by exists p. }
    split; [|done|done]. destruct bss_ed_rep. by split.
  - intros t Ht. simpl. unfold NUM_COLS, NUM_ROWS. lia.
  - intros t Ht. pose proof (page_of_range 0 t Ht) as Hp. split; [done|]. split; [by apply Forall_replicate|].
    intros y x r c a [-> Hy]%lookup_replicate [[= -> ->] Hx]%lookup_replicate.
    rewrite !demo_sched_byte by (simpl; lia). done.
  - intros t i Ht Hi. pose proof (page_of_range 0 t Ht) as Hp. rewrite demo_sched_byte by (simpl; lia). by eexists.
  - exists (Some 0), None. exact demo_user_paging_rep.
Qed.

(** The key A, output, Alt, a switch to the second terminal, a tick, the clock, A again. *)
Definition demo_events : list sys_event :=
  [Key 0x1E; Put 98; Key L_ALT_DOWN; Key F2_KEY_DOWN; Key 0x1E; Tick; Clock 0; Key 0x1E].

Lemma interrupts_refine_witness :
  exists k', run_events (L := demo_layout) demo_locals demo_events demo_sched = Ok (tt, k') /\
    curr_ter (k_ter k') = 1 /\ curr_process (k_ter k') = 1 /\
    sys_rep (L := demo_layout) k' (wrun demo_events demo_world).
Proof.
  destruct (interrupts_refine (L := demo_layout) demo_locals demo_events demo_sched demo_world) as (k' & E & H).
  - exact demo_sys_rep.
  - repeat split; try discriminate.
  - exists k'. split; [exact E|]. split; [exact (sr_ct _ _ H)|]. split; [exact (sr_cp _ _ H)|exact H].
Defined.
