(* ===== verification/Waiting.v ===== *)
(** * Waiting under preemption

    [rtc_read] waits in a loop with interrupts on.  Between two looks at its flag anything
    may happen: interrupts while the program runs, or a tick that takes the processor away,
    and everything the other two terminals do until it comes back.  The events of System.v are
    cut into these rounds, and [rtc_read] is shown to return after exactly the right number
    of rounds in which the clock interrupted. *)

From stdpp Require Import base gmap list numbers strings.
From Stdlib Require Import ZArith Lia.
From S2P Require Import Prelude Pointers Ports Pic Paging State Machine VirtMem CString MemFns.
From S2P Require Import Pcb Demo Screen Printf FileSystem Rtc Keyboard Terminal Syscalls Process Sched System.

(** ** Rounds *)

(** The events between two moments at which the program of terminal [cp] runs; [acc] are those since
    the last one.  Events after which it does not run again are no round. *)
Fixpoint rounds (cp : Z) (acc es : list sys_event) (w : world) : list (list sys_event) :=
  match es with
  | [] => []
  | e :: es =>
      let w' := wstep e w in
      if w_cp w' =? cp then (acc ++ [e]) :: rounds cp [] es w' else rounds cp (acc ++ [e]) es w'
  end.

(** Each round is possible, and ends with the turn of [cp]. *)
Fixpoint turns (cp : Z) (rs : list (list sys_event)) (w : world) : Prop :=
  match rs with
  | [] => True
  | r :: rs => can_all r w /\ w_cp (wrun r w) = cp /\ turns cp rs (wrun r w)
  end.

Lemma can_all_app es1 es2 w : can_all (es1 ++ es2) w <-> can_all es1 w /\ can_all es2 (wrun es1 w).
Proof. revert w. induction es1 as [|e es1 IH]; intros w; simpl; [tauto|]. rewrite IH. unfold wrun. simpl. tauto. Qed.

Lemma wrun_app es1 es2 w : wrun (es1 ++ es2) w = wrun es2 (wrun es1 w).
Proof. apply foldl_app. Qed.

Lemma rounds_turns cp acc es w0 w :
  can_all acc w0 -> wrun acc w0 = w -> can_all es w -> turns cp (rounds cp acc es w) w0.
Proof.
  revert acc w0 w. induction es as [|e es IH]; intros acc w0 w Ha Hw Hc; [done|]. destruct Hc as [He Hc].
  assert (can_all (acc ++ [e]) w0) as Ha' by (apply can_all_app; by rewrite Hw).
  assert (wrun (acc ++ [e]) w0 = wstep e w) as Hw' by (rewrite wrun_app, Hw; done).
  cbn [rounds]. destruct (Z.eqb_spec (w_cp (wstep e w)) cp); [|by apply IH].
  cbn [turns]. rewrite Hw'. split; [done|]. split; [done|]. by apply IH.
Qed.

Definition has_clock (r : list sys_event) : bool := existsb is_clock r.

(** The rounds up to the [d]-th in which the clock interrupted, and those behind it. *)
Fixpoint until_clocks (d : nat) (rs : list (list sys_event)) : option (list (list sys_event) * list (list sys_event)) :=
  match d, rs with
  | 0%nat, _ => Some ([], rs)
  | S _, [] => None
  | S d', r :: rs => '(pre, rest) ← until_clocks (if has_clock r then d' else d) rs; Some (r :: pre, rest)
  end.

Lemma until_clocks_0 rs : until_clocks 0 rs = Some ([], rs).
Proof. by destruct rs. Qed.

Lemma until_clocks_first d rs :
  until_clocks (S d) rs =
    '(pre, rest) ← until_clocks 1 rs; '(pre', rest') ← until_clocks d rest; Some (pre ++ pre', rest').
Proof.
  induction rs as [|r rs IH]; [done|]. cbn [until_clocks]. destruct (has_clock r).
  - rewrite until_clocks_0. simpl. by destruct (until_clocks d rs) as [[]|].
  - rewrite IH. destruct (until_clocks 1 rs) as [[pre rest]|]; [|done]. simpl. by destruct (until_clocks d rest) as [[]|].
Qed.

Lemma until_clocks_split d rs pre rest :
  until_clocks d rs = Some (pre, rest) -> rs = pre ++ rest /\ ((0 < d)%nat -> (0 < length pre)%nat).
Proof.
  revert d pre. induction rs as [|r rs IH]; intros [|d] pre; simpl; try done; try (by intros [= <- <-]).
  destruct (until_clocks (if has_clock r then d else S d) rs) as [[pre' rest']|] eqn:E; [|done].
  intros [= <- <-]. apply IH in E as [-> _]. split; [done|]. simpl. lia.
Qed.

(** How many of the rounds the clock interrupted in. *)
Definition clocks (rs : list (list sys_event)) : nat := length (List.filter has_clock rs).

Lemma until_clocks_spec d rs :
  match until_clocks (S d) rs with
  | Some (pre, rest) => exists pre0 r, rs = pre0 ++ r :: rest /\ pre = pre0 ++ [r] /\ has_clock r = true /\ clocks pre0 = d
  | None => (clocks rs <= d)%nat
  end.
Proof.
  revert d. induction rs as [|r rs IH]; intros d; [cbn; lia|]. cbn [until_clocks]. unfold clocks in *. simpl.
  destruct (has_clock r) eqn:Er; [destruct d as [|d]; [rewrite until_clocks_0; simpl; by exists [], r|]|];
    specialize (IH d); destruct (until_clocks (S d) rs) as [[pre rest]|]; simpl; try lia;
    destruct IH as (pre0 & r0 & -> & -> & Hr & Hc); exists (r :: pre0), r0; simpl; rewrite Er; simpl; by rewrite Hc.
Qed.

Lemma turns_app cp pre rest w : turns cp (pre ++ rest) w -> turns cp rest (wrun (concat pre) w).
Proof.
  revert w. induction pre as [|r pre IH]; intros w; simpl; [done|]. intros (_ & _ & H). rewrite wrun_app. by apply IH.
Qed.

(** ** The program that waits *)

Section Waiting.
Context `{L : Layout} (J : locals).
Implicit Types (k : kernel) (w : world).

Lemma seen_trans a b k k1 k2 : seen a k k1 -> seen b k1 k2 -> seen (a || b) k k2.
Proof.
  intros [F1 C1] [F2 C2]. split; [|intros x; by rewrite C2].
  rewrite F2. destruct b; [by rewrite orb_true_r|]. by rewrite orb_false_r.
Qed.

Lemma run_events_seen r k w : sys_rep k w -> can_all r w ->
  exists k', run_events J r k = Ok (tt, k') /\ sys_rep k' (wrun r w) /\ seen (has_clock r) k k'.
Proof.
  revert k w. induction r as [|e r IH]; intros k w H C; [by exists k|].
  destruct C as [Ce C]. destruct (event_step J e k w H Ce) as (k1 & E1 & H1 & S1).
  destruct (IH k1 _ H1 C) as (k' & E & H' & S'). exists k'. split; [cbn [run_events]; by kstep E1|].
  split; [done|]. by apply (seen_trans _ _ _ k1).
Qed.

(** Process [p] waits in terminal [cp], with [n] interrupts to go. *)
Record waits (p cp n : Z) k w : Prop := {
  ws_sys : sys_rep k w;
  ws_cp : w_cp w = cp;
  ws_count : count <$> pcbs (k_proc k) !! get_pcb_by_pid p = Some n;
}.

Definition flag_is (cp v : Z) k : Prop := rtc_interrupt_flags (k_rtc k) !! Z.to_nat cp = Some v.

Lemma sys_flag k w i v : sys_rep k w ->
  sys_rep (set_k_rtc (set_rtc_interrupt_flags (<[i := v]> (rtc_interrupt_flags (k_rtc k))) (k_rtc k)) k) w.
Proof. intros []. destruct sr_sched; split; [split|..]; auto. simpl. by rewrite length_insert. Qed.

Lemma sys_pcb k w a b : sys_rep k w -> sys_rep (set_k_proc (set_pcbs (<[a := b]> (pcbs (k_proc k))) (k_proc k)) k) w.
Proof.
  intros []. destruct sr_sched; split; [split|..]; auto. intros q Hq. simpl.
  destruct (decide (a = get_pcb_by_pid q)) as [->|Hne]; [by rewrite lookup_insert_eq|].
  rewrite lookup_insert_ne by done. auto.
Qed.

Lemma flag_set_is p cp n v k w : waits p cp n k w -> flag_is cp v k -> flag_set k = Ok (v =? 1).
Proof.
  intros [] Hf. unfold flag_set. pose proof (sys_cp _ _ ws_sys0) as Hr. rewrite (sr_cp _ _ ws_sys0), ws_cp0 in *.
  by rewrite (proj2 (arr_get_lookup _ _ _) (conj (proj1 Hr) Hf)).
Qed.

Lemma waits_round r p cp n k w :
  waits p cp n k w -> can_all r w -> w_cp (wrun r w) = cp ->
  exists k', run_events J r k = Ok (tt, k') /\ waits p cp n k' (wrun r w) /\
    forall v, flag_is cp v k -> flag_is cp (if has_clock r then 1 else v) k'.
Proof.
  intros [] C Hcp. pose proof (sys_cp _ _ ws_sys0) as Hr. rewrite ws_cp0 in Hr.
  destruct (run_events_seen r k w ws_sys0 C) as (k' & E & H' & [Hf Hc]).
  exists k'. split; [done|]. split; [split; [done|done|by rewrite Hc]|].
  intros v Hv. unfold flag_is in *. rewrite Hf. destruct (has_clock r); [|done].
  assert (cp = 0 \/ cp = 1 \/ cp = 2) as [-> | [-> | ->]] by lia; done.
Qed.

(** The inner loop comes out after the first round with a clock interrupt. *)
Lemma wait_first p cp n rs k w :
  waits p cp n k w -> flag_is cp 0 k -> turns cp rs w ->
  match until_clocks 1 rs with
  | Some (pre, rest) => exists k', wait_until flag_set (run_events J <$> rs) k = Ok (run_events J <$> rest, k') /\
      waits p cp n k' (wrun (concat pre) w)
  | None => wait_until flag_set (run_events J <$> rs) k = Err Blocked
  end.
Proof.
  revert k w. induction rs as [|r rs IH]; intros k w Hw Hf Ht;
    cbn [until_clocks fmap list_fmap wait_until]; rewrite (flag_set_is p cp n 0 k w Hw Hf), Ok_bind; [done|].
  destruct Ht as (Hc & Hcp & Ht). destruct (waits_round r p cp n k w Hw Hc Hcp) as (k1 & E1 & Hw1 & Hf1).
  specialize (Hf1 0 Hf). change (0 =? 1) with false. cbv iota. rewrite E1, Ok_bind. cbn [snd].
  destruct (has_clock r).
  - assert (wait_until flag_set (run_events J <$> rs) k1 = Ok (run_events J <$> rs, k1)) as ->.
    { destruct rs; simpl; by rewrite (flag_set_is p cp n 1 k1 _ Hw1 Hf1), Ok_bind. }
    rewrite until_clocks_0. simpl. exists k1. by rewrite app_nil_r.
  - specialize (IH k1 _ Hw1 Hf1 Ht). destruct (until_clocks 1 rs) as [[pre rest]|]; [|done]. simpl.
    destruct IH as (k' & E & H'). exists k'. split; [done|]. by rewrite wrun_app.
Qed.

(** What the program itself changes: its flag, its counter. *)
Lemma waits_flag p cp n v k w :
  waits p cp n k w ->
  exists k', put_flag cp v k = Ok (tt, k') /\ waits p cp n k' w /\ flag_is cp v k'.
Proof.
  intros [H Hcp Hc]. pose proof (sys_cp _ _ H) as Hr. rewrite Hcp in Hr. pose proof (sr_flags _ _ H) as Hl.
  eexists. split; [apply put_flag_ok; lia|]. split.
  - split; [by apply sys_flag|done|done].
  - unfold flag_is. simpl. apply list_lookup_insert_eq. lia.
Qed.

Lemma waits_pcb p cp n m k w f :
  waits p cp n k w -> (forall b, count b = n -> count (f b) = m) ->
  exists k' b, upd_pcb (get_pcb_by_pid p) f k = Ok (tt, k') /\ waits p cp m k' w /\
    pcbs (k_proc k') !! get_pcb_by_pid p = Some (f b) /\ count b = n.
Proof.
  intros [H Hcp Hc] Hm. apply fmap_Some in Hc as (b & Hb & ->). eexists _, b.
  split; [by rewrite (upd_pcb_ok _ f k b Hb)|]. split; [|by split; [apply lookup_insert_eq|]].
  split; [|done|simpl; by rewrite lookup_insert_eq; simpl; rewrite Hm].
  by apply sys_pcb.
Qed.

(** The outer loop: one such round per unit of [count]. *)
Lemma rtc_wait_rounds d p cp fuel rs k w :
  waits p cp (Z.of_nat (S d)) k w -> Z.of_nat (S d) < 2 ^ 32 -> turns cp rs w -> (length rs < fuel)%nat ->
  match until_clocks (S d) rs with
  | Some (pre, rest) => exists k', rtc_wait fuel (get_pcb_by_pid p) (run_events J <$> rs) k = Ok (run_events J <$> rest, k') /\
      waits p cp 0 k' (wrun (concat pre) w)
  | None => rtc_wait fuel (get_pcb_by_pid p) (run_events J <$> rs) k = Err Blocked
  end.
Proof.
  revert fuel rs k w. induction d as [|d IH]; intros fuel rs k w Hw Hd Ht Hfuel;
    (destruct fuel as [|fuel]; [lia|]); rewrite until_clocks_first; cbn [rtc_wait]; kcbn;
    rewrite (sr_cp _ _ (ws_sys _ _ _ _ _ Hw)), (ws_cp _ _ _ _ _ Hw);
    destruct (waits_flag p cp _ 0 k w Hw) as (k1 & E1 & Hw1 & Hf1); kstep E1;
    pose proof (wait_first p cp _ rs k1 w Hw1 Hf1 Ht) as Hwait;
    (destruct (until_clocks 1 rs) as [[pre rest]|] eqn:Eu; [|by simpl; unfold mbind, K_bind; rewrite Hwait]);
    destruct Hwait as (k2 & E2 & Hw2); kstep E2; simpl mbind;
    destruct (until_clocks_split _ _ _ _ Eu) as [-> Hlen]; specialize (Hlen ltac:(lia)); rewrite length_app in Hfuel.
  - destruct (waits_pcb p cp _ 0 k2 _ (fun b => set_count (u32 (count b - 1)) b) Hw2) as (k3 & b & E3 & Hw3 & Hb & Hn).
    { intros b Hb. simpl. by rewrite Hb. }
    kstep E3. kstep (get_pcb_ok _ _ _ Hb). cbn [count set_count]. rewrite Hn.
    rewrite until_clocks_0. simpl. exists k3. by rewrite app_nil_r.
  - destruct (waits_pcb p cp _ (Z.of_nat (S d)) k2 _ (fun b => set_count (u32 (count b - 1)) b) Hw2)
      as (k3 & b & E3 & Hw3 & Hb & Hn).
    { intros b Hb. simpl. rewrite Hb, u32_small by lia. lia. }
    kstep E3. kstep (get_pcb_ok _ _ _ Hb). cbn [count set_count]. rewrite Hn, u32_small by lia.
    rewrite (proj2 (Z.ltb_lt 0 _)) by lia. apply turns_app in Ht.
    specialize (IH fuel rest k3 _ Hw3 ltac:(lia) Ht ltac:(lia)).
    destruct (until_clocks (S d) rest) as [[pre' rest']|]; [|exact IH].
    destruct IH as (k' & E & H'). exists k'. split; [exact E|]. by rewrite concat_app, wrun_app.
Qed.

(** (C31) [rtc_read] waits for exactly [divisor] clock interrupts that the loop sees.  Whatever sequence of
    timer, keyboard and clock interrupts and of output by other programs happens while it waits, in
    whatever order, the ticks that take the processor away and give it back included: cut the sequence
    into the rounds from one moment the waiting program runs to the next.  With fewer than [divisor]
    rounds in which the clock interrupted the call still waits; otherwise it returns 0 right after the
    [divisor]-th of them (several interrupts of one absence count once), and the terminals, lines and
    screens are what the events of these rounds make them.  Interrupts come while the inner loop waits:
    one between its end and the next reset of the flag would be lost. *)
Theorem rtc_read_waits es k w p b fd buf nbytes :
  sys_rep k w -> running k p b -> prog_freq b <> 0 -> 0 < divisor b < 2 ^ 32 -> can_all es w ->
  let rs := rounds (w_cp w) [] es w in
  if Z.of_nat (clocks rs) <? divisor b then rtc_read (run_events J <$> rs) fd buf nbytes k = Err Blocked
  else exists pre r rest k', rs = pre ++ r :: rest /\ has_clock r = true /\ Z.of_nat (clocks pre) = divisor b - 1 /\
    rtc_read (run_events J <$> rs) fd buf nbytes k = Ok ((0, run_events J <$> rest), k') /\
    sys_rep k' (wrun (concat (pre ++ [r])) w).
Proof.
  intros H Hrun Hfr Hd Hc rs. pose proof Hrun as []. unfold rtc_read.
  kstep (curr_pid_ok k p b Hrun). rewrite (proj2 (Z.eqb_neq p (-1))) by lia.
  kstep (get_pcb_ok _ _ _ rn_pcb). rewrite (proj2 (Z.eqb_neq _ 0) Hfr).
  kstep (upd_pcb_ok _ (fun b => set_count (divisor b) b) _ _ rn_pcb). unfold sti. kcbn. set (k1 := set_k_cpu _ _).
  set (d := Z.to_nat (divisor b - 1)). assert (divisor b = Z.of_nat (S d)) as Hdd by lia.
  assert (waits p (w_cp w) (Z.of_nat (S d)) k1 w) as Hw.
  { split; [by apply sys_cpu, sys_pcb|done|simpl; rewrite lookup_insert_eq; simpl; f_equal; lia]. }
  rewrite length_fmap. pose proof (rtc_wait_rounds _ p (w_cp w) (S (length rs)) rs k1 w Hw ltac:(lia)
    (rounds_turns _ [] es w w I eq_refl Hc) ltac:(lia)) as HW.
  pose proof (until_clocks_spec d rs) as HS. destruct (until_clocks (S d) rs) as [[pre rest]|] eqn:Eu.
  - destruct HS as (pre0 & r & Ers & -> & Hr & Hn), HW as (k' & E & [H' _ _]). rewrite (proj2 (Z.ltb_ge _ _)).
    + exists pre0, r, rest, k'. split; [done|]. split; [done|]. split; [lia|]. split; [by kstep E|done].
    + rewrite Ers. unfold clocks in *. rewrite List.filter_app, length_app. simpl. rewrite Hr. simpl. lia.
  - rewrite (proj2 (Z.ltb_lt _ _)) by lia. unfold mbind, K_bind. by rewrite HW.
Qed.
End Waiting.
