(* ===== verification/WaitingExamples.v ===== *)
(** * A program that waits, on a concrete state

    The theorem of Waiting.v applied to the three running terminals of SchedExamples.v: the first
    one waits for two of the clock's interrupts while a key is pressed, the others run, and one of them
    prints. *)

From stdpp Require Import base gmap list numbers strings.
From Stdlib Require Import ZArith Lia.
From S2P Require Import Prelude Pointers Ports Pic Paging State Machine VirtMem CString MemFns.
From S2P Require Import Pcb Demo Screen FileSystem FileExamples Rtc Keyboard KeyboardExamples Syscalls.
From S2P Require Import Descriptors DescriptorExamples Sched SchedExamples System SystemExamples Waiting.

Definition waiting_pcb : pcb := set_divisor 2 (set_prog_freq 512 bss_pcb).

Definition demo_waiting_block : kernel :=
  set_k_proc (set_pcbs (<[get_pcb_by_pid 0 := waiting_pcb]> (pcbs (k_proc demo_sched))) (k_proc demo_sched)) demo_sched.

Definition demo_waiting : kernel :=
  set_k_proc (set_used_pids [1; 1; 1; 0; 0; 0] (k_proc demo_waiting_block)) demo_waiting_block.

Lemma sys_used `{L : Layout} k w u : sys_rep k w -> sys_rep (set_k_proc (set_used_pids u (k_proc k)) k) w.
Proof. intros []. destruct sr_sched. by split; [split|..]. Qed.

Lemma demo_waiting_rep : sys_rep (L := demo_layout) demo_waiting demo_world.
Proof. apply (sys_used (L := demo_layout)), (sys_pcb (L := demo_layout)), demo_sys_rep. Qed.

(** A key, two ticks with the clock in between, output of the third terminal, a tick back, the clock. *)
Definition waiting_events : list sys_event :=
  [Key 0x1E; Tick; Clock 0; Clock 0; Tick; Put 98; Tick; Put 99; Clock 0; Tick].

Definition waiting_rounds : list (list sys_event) :=
  [[Key 0x1E]; [Tick; Clock 0; Clock 0; Tick; Put 98; Tick]; [Put 99]; [Clock 0]].

Lemma waiting_rounds_split pre r rest :
  waiting_rounds = pre ++ r :: rest -> has_clock r = true -> Z.of_nat (clocks pre) = 1 ->
  pre = take 3 waiting_rounds /\ r = [Clock 0] /\ rest = [].
Proof.
  unfold waiting_rounds. destruct pre as [|? [|? [|? [|? pre]]]]; intros [=]; subst; try discriminate; [done|].
  by destruct pre.
Qed.

Lemma rtc_read_waits_witness :
  exists k', rtc_read (run_events (L := demo_layout) demo_locals <$> waiting_rounds) 3 0 0 demo_waiting = Ok ((0, []), k') /\
    sys_rep (L := demo_layout) k' (wrun (concat waiting_rounds) demo_world).
Proof.
  destruct (rtc_read_waits (L := demo_layout) demo_locals waiting_events demo_waiting demo_world 0 waiting_pcb 3 0 0)
    as (pre & r & rest & k' & Ers & Hr & Hn & E & H).
  - exact demo_waiting_rep.
  - split; [done|by eexists|done|by exists 1|reflexivity].
  - discriminate.
  - done.
  - repeat split; try discriminate.
  - change (rounds (w_cp demo_world) [] waiting_events demo_world) with waiting_rounds in *.
    destruct (waiting_rounds_split pre r rest Ers Hr Hn) as (-> & -> & ->).
    exists k'. split; [exact E|exact H].
Defined.
