(* ===== verification/Asm.v ===== *)
(** * The processor under the assembly files

    The instructions that interrupt_wrappers.S is written with, as an inductive type,
    and what the processor does on each: the general registers, the stack as a map
    from addresses to 32-bit words, EFLAGS with the arithmetic flags, the entry
    through an interrupt gate and [iret].  The stack pointer, the frame pointer and
    EFLAGS are the fields [r_esp], [r_ebp] and [eflags] of the kernel's state, so that
    the C functions of the other files run on the same registers.  Of the data segment
    registers DS is modelled, which [sys_execute] loads before its [iret]; the processor's
    clearing of a register that [iret] would leave with too much privilege is left out.

    A call of a C function runs its model on the kernel's state.  What the compiled
    code leaves in the other registers, in the arithmetic flags and in the part of the
    stack it used is not determined by the source: it is the parameter [residue]. *)

From stdpp Require Import base gmap list numbers.
From Stdlib Require Import ZArith Lia.
From S2P Require Import Prelude Pointers Ports Pic Paging State Machine Pcb Syscalls Process Idt.

(** ** Registers *)

Inductive reg : Type := EAX | ECX | EDX | EBX | ESP | EBP | ESI | EDI.

Record mach : Type := Mach {
  m_eax : Z;
  m_ecx : Z;
  m_edx : Z;
  m_ebx : Z;
  m_esi : Z;
  m_edi : Z;
  m_eip : Z;   (* where the interrupted program continues *)
  m_cs : Z;
  m_ss : Z;
  m_ds : Z;
  m_stack : gmap Z Z;   (* the words of the kernel's stacks *)
  m_k : kernel;
}.

Definition m_esp (m : mach) : Z := r_esp (k_cpu (m_k m)).
Definition m_ebp (m : mach) : Z := r_ebp (k_cpu (m_k m)).
Definition m_flags (m : mach) : Z := eflags (k_cpu (m_k m)).

Definition get (r : reg) (m : mach) : Z :=
  match r with
  | EAX => m_eax m | ECX => m_ecx m | EDX => m_edx m | EBX => m_ebx m
  | ESP => m_esp m | EBP => m_ebp m | ESI => m_esi m | EDI => m_edi m
  end.

(** The machine with another kernel state. *)
Definition set_m_k (k : kernel) (m : mach) : mach :=
  {| m_eax := m_eax m; m_ecx := m_ecx m; m_edx := m_edx m; m_ebx := m_ebx m;
     m_esi := m_esi m; m_edi := m_edi m; m_eip := m_eip m; m_cs := m_cs m; m_ss := m_ss m; m_ds := m_ds m;
     m_stack := m_stack m; m_k := k |}.
Definition set_m_cpu (c : cpu) (m : mach) : mach := set_m_k (set_k_cpu c (m_k m)) m.
Definition set_m_stack (s : gmap Z Z) (m : mach) : mach :=
  {| m_eax := m_eax m; m_ecx := m_ecx m; m_edx := m_edx m; m_ebx := m_ebx m;
     m_esi := m_esi m; m_edi := m_edi m; m_eip := m_eip m; m_cs := m_cs m; m_ss := m_ss m; m_ds := m_ds m;
     m_stack := s; m_k := m_k m |}.
Definition set_m_flow (eip cs ss : Z) (m : mach) : mach :=
  {| m_eax := m_eax m; m_ecx := m_ecx m; m_edx := m_edx m; m_ebx := m_ebx m;
     m_esi := m_esi m; m_edi := m_edi m; m_eip := eip; m_cs := cs; m_ss := ss; m_ds := m_ds m;
     m_stack := m_stack m; m_k := m_k m |}.
Definition set_m_ds (ds : Z) (m : mach) : mach :=
  {| m_eax := m_eax m; m_ecx := m_ecx m; m_edx := m_edx m; m_ebx := m_ebx m;
     m_esi := m_esi m; m_edi := m_edi m; m_eip := m_eip m; m_cs := m_cs m; m_ss := m_ss m; m_ds := ds;
     m_stack := m_stack m; m_k := m_k m |}.
(** The six general registers other than the stack's. *)
Definition set_m_gprs (eax ecx edx ebx esi edi : Z) (m : mach) : mach :=
  {| m_eax := eax; m_ecx := ecx; m_edx := edx; m_ebx := ebx; m_esi := esi; m_edi := edi;
     m_eip := m_eip m; m_cs := m_cs m; m_ss := m_ss m; m_ds := m_ds m; m_stack := m_stack m; m_k := m_k m |}.

Definition put_esp (v : Z) (m : mach) : mach := set_m_cpu (set_r_esp v (k_cpu (m_k m))) m.
Definition put_ebp (v : Z) (m : mach) : mach := set_m_cpu (set_r_ebp v (k_cpu (m_k m))) m.
Definition put_flags (v : Z) (m : mach) : mach := set_m_cpu (set_eflags v (k_cpu (m_k m))) m.

Definition put (r : reg) (v : Z) (m : mach) : mach :=
  match r with
  | EAX => set_m_gprs v (m_ecx m) (m_edx m) (m_ebx m) (m_esi m) (m_edi m) m
  | ECX => set_m_gprs (m_eax m) v (m_edx m) (m_ebx m) (m_esi m) (m_edi m) m
  | EDX => set_m_gprs (m_eax m) (m_ecx m) v (m_ebx m) (m_esi m) (m_edi m) m
  | EBX => set_m_gprs (m_eax m) (m_ecx m) (m_edx m) v (m_esi m) (m_edi m) m
  | ESI => set_m_gprs (m_eax m) (m_ecx m) (m_edx m) (m_ebx m) v (m_edi m) m
  | EDI => set_m_gprs (m_eax m) (m_ecx m) (m_edx m) (m_ebx m) (m_esi m) v m
  | ESP => put_esp v m
  | EBP => put_ebp v m
  end.

(** The privilege level the processor runs at. *)
Definition cpl (m : mach) : Z := Z.land (m_cs m) 3.

(** ** The stack *)

Definition push (w : Z) (m : mach) : mach :=
  let a := u32 (m_esp m - 4) in
  put_esp a (set_m_stack (<[a := w]> (m_stack m)) m).

Definition push_all (ws : list Z) (m : mach) : mach := foldl (fun m w => push w m) m ws.

Definition pop (m : mach) : res (Z * mach) :=
  match m_stack m !! m_esp m with
  | Some w => Ok (w, put_esp (u32 (m_esp m + 4)) m)
  | None => Err (Unwritten (m_esp m))
  end.

(** The words at [a], in the order of their addresses. *)
Definition words_at (st : gmap Z Z) (a : Z) (ws : list Z) : Prop :=
  forall i w, ws !! i = Some w -> st !! (a + 4 * Z.of_nat i) = Some w.

Fixpoint load_words (st : gmap Z Z) (n : nat) (a : Z) : res (list Z) :=
  match n with
  | 0%nat => Ok []
  | S n =>
      match st !! a with
      | Some w => ws ← load_words st n (u32 (a + 4)); Ok (w :: ws)
      | None => Err (Unwritten a)
      end
  end.

(** ** Flags *)

Definition CF : Z := 0.
Definition PF : Z := 2.
Definition AF : Z := 4.
Definition ZF : Z := 6.
Definition SF : Z := 7.
Definition OF : Z := 11.

Definition put_flag_bit (i : Z) (b : bool) (f : Z) : Z := if b then Z.setbit f i else Z.clearbit f i.

(** The parity of the low byte. *)
Definition even_parity (r : Z) : bool :=
  negb (foldr xorb false ((fun i => Z.testbit r (Z.of_nat i)) <$> seq 0 8)).

(** What [a - b] sets. *)
Definition sub_flags (a b f : Z) : Z :=
  let r := u32 (a - b) in
  put_flag_bit CF (a <? b)
    (put_flag_bit PF (even_parity r)
    (put_flag_bit AF (Z.land a 15 <? Z.land b 15)
    (put_flag_bit ZF (r =? 0)
    (put_flag_bit SF (Z.testbit r 31)
    (put_flag_bit OF (negb (s32 a - s32 b =? s32 r)) f))))).

(** What [a + b] sets. *)
Definition add_flags (a b f : Z) : Z :=
  let r := u32 (a + b) in
  put_flag_bit CF (2 ^ 32 <=? a + b)
    (put_flag_bit PF (even_parity r)
    (put_flag_bit AF (16 <=? Z.land a 15 + Z.land b 15)
    (put_flag_bit ZF (r =? 0)
    (put_flag_bit SF (Z.testbit r 31)
    (put_flag_bit OF (negb (s32 a + s32 b =? s32 r)) f))))).

(** The arithmetic flags. *)
Definition ARITH : Z := 0x8D5.

(** ** Interrupt gates and [iret] *)

Definition USER_CS : Z := 0x0023.
Definition USER_DS : Z := 0x002B.

(** Entry through an interrupt gate: from user mode the stack is the one the TSS
    names; IF, TF, NT, RF and VM are cleared. *)
Definition int_enter (m : mach) : mach :=
  let m1 :=
    if cpl m =? 0 then m
    else
      let k := m_k m in
      push_all [m_ss m; m_esp m] (put_esp (esp0 (k_tss k)) (set_m_flow (m_eip m) (m_cs m) (ss0 (k_tss k)) m)) in
  let m2 := push_all [m_flags m; m_cs m; m_eip m] m1 in
  put_flags (Z.ldiff (m_flags m) 0x34300) (set_m_flow (m_eip m2) KERNEL_CS (m_ss m2) m2).

Definition do_iret (m : mach) : res mach :=
  '(eip, m) ← pop m;
  '(cs, m) ← pop m;
  '(fl, m) ← pop m;
  if Z.land cs 3 =? cpl m then Ok (put_flags fl (set_m_flow eip cs (m_ss m) m))
  else
    '(sp, m) ← pop m;
    '(ss, m) ← pop m;
    Ok (put_esp sp (put_flags fl (set_m_flow eip cs ss m))).

(** ** C functions *)

(** What a call leaves behind. *)
Record residue : Type := {
  c_eax : Z;
  c_ecx : Z;
  c_edx : Z;
  c_ebx : Z;
  c_esi : Z;
  c_edi : Z;
  c_flags : Z;
  c_stack : gmap Z Z;
}.

(** The part of its 8 KB block that code running with the stack pointer [sp] and [n]
    argument words uses: everything below the words that belong to the caller. *)
Definition block_start (sp : Z) : Z := sp / 0x2000 * 0x2000.
Definition scratch (sp n a : Z) : bool := (block_start sp <=? a) && (a <? sp + 4 * n).

(** The stack after a call made at [sp] that came back at [sp']. *)
Definition stack_after (c : residue) (n sp sp' : Z) (st : gmap Z Z) : gmap Z Z :=
  let used a := scratch sp n a || scratch sp' n a in
  filter (fun e => used e.1 = false) st ∪ filter (fun e => used e.1 = true) (c_stack c).

Definition flags_after (c : residue) (f : Z) : Z :=
  Z.lor (Z.ldiff f ARITH) (Z.land (c_flags c) ARITH).

(** The machine after a call that left the kernel in state [k]. *)
Definition after_call (c : residue) (n : Z) (k : kernel) (m : mach) : mach :=
  {| m_eax := c_eax c; m_ecx := c_ecx c; m_edx := c_edx c; m_ebx := c_ebx c;
     m_esi := c_esi c; m_edi := c_edi c; m_eip := m_eip m; m_cs := m_cs m; m_ss := m_ss m; m_ds := m_ds m;
     m_stack := stack_after c n (m_esp m) (r_esp (k_cpu k)) (m_stack m);
     m_k := set_k_cpu (set_eflags (flags_after c (eflags (k_cpu k))) (k_cpu k)) k |}.

(** Where a call ends: behind the call instruction, or in user mode, with the segment of user
    data in DS (which [sys_execute] loads before its [iret]). *)
Definition finish_call (r : outcome) (m : mach) : mach + mach :=
  match r with
  | Returns v => inl (put EAX (u32 v) m)
  | Resumes eax => inl (put EAX (exec_result eax) m)
  | Enters eip sp => inr (put_esp sp (set_m_ds USER_DS (set_m_flow eip USER_CS USER_DS m)))
  end.

(** The functions the assembly calls; [F_table] is an index into [sys_jump_table]. *)
Inductive cfun : Type := F_KB | F_RT | F_PT | F_table (n : Z).

Definition nargs (f : cfun) : nat := match f with F_table _ => 3 | _ => 0 end.
Definition is_void (f : cfun) : bool := match f with F_table _ => false | _ => true end.

(** ** Instructions *)

Inductive instr : Type :=
| pushfl
| pushal
| popal
| popfl
| cli_
| sti_
| pushl (r : reg)
| popl (r : reg)
| subl (n : Z) (r : reg)
| addl (n : Z) (r : reg)
| cmpl (n : Z) (r : reg)
| movl (n : Z) (r : reg)
| call (f : cfun)
| call_table (r : reg)   (* call *sys_jump_table(, r, 4) *)
| jae (l : nat)
| jne (l : nat)
| jmp (l : nat)
| iret.

Section Code.
Context (c_fun : cfun -> list Z -> K outcome) (after : mach -> residue).

Definition call_c (f : cfun) (m : mach) : res (mach + mach) :=
  ws ← load_words (m_stack m) (nargs f) (m_esp m);
  r ← c_fun f ws (m_k m);
  let c := after m in
  let m' := after_call c (Z.of_nat (nargs f)) r.2 m in
  Ok (match r.1 with
      | Returns _ => if is_void f then inl m' else finish_call r.1 m'
      | _ => finish_call r.1 m'
      end).

(** The instructions that fall through. *)
Definition exec_instr (i : instr) (m : mach) : res mach :=
  match i with
  | pushfl => Ok (push (m_flags m) m)
  | pushal =>
      Ok (push_all [m_eax m; m_ecx m; m_edx m; m_ebx m; m_esp m; m_ebp m; m_esi m; m_edi m] m)
  | popal =>
      '(edi, m) ← pop m;
      '(esi, m) ← pop m;
      '(ebp, m) ← pop m;
      '(_, m) ← pop m;
      '(ebx, m) ← pop m;
      '(edx, m) ← pop m;
      '(ecx, m) ← pop m;
      '(eax, m) ← pop m;
      Ok (set_m_gprs eax ecx edx ebx esi edi (put_ebp ebp m))
  | popfl => '(f, m) ← pop m; Ok (put_flags f m)
  | cli_ => Ok (put_flags (Z.clearbit (m_flags m) IF_BIT) m)
  | sti_ => Ok (put_flags (Z.setbit (m_flags m) IF_BIT) m)
  | pushl r => Ok (push (get r m) m)
  | popl r => '(w, m) ← pop m; Ok (put r w m)
  | subl n r =>
      Ok (put r (u32 (get r m - u32 n)) (put_flags (sub_flags (get r m) (u32 n) (m_flags m)) m))
  | addl n r =>
      Ok (put r (u32 (get r m + u32 n)) (put_flags (add_flags (get r m) (u32 n) (m_flags m)) m))
  | cmpl n r => Ok (put_flags (sub_flags (get r m) (u32 n) (m_flags m)) m)
  | movl n r => Ok (put r (u32 n) m)
  | _ => Ok m
  end.

(** One instruction of [code]: the next position, or the machine after the last. *)
Definition step (code : list instr) (s : nat * mach) : res (nat * mach + mach) :=
  let '(pc, m) := s in
  match code !! pc with
  | None => Err (OutOfBounds (Z.of_nat pc))
  | Some iret => m ← do_iret m; Ok (inr m)
  | Some (jmp l) => Ok (inl (l, m))
  | Some (jae l) => Ok (inl (if Z.testbit (m_flags m) CF then S pc else l, m))
  | Some (jne l) => Ok (inl (if Z.testbit (m_flags m) ZF then S pc else l, m))
  | Some (call f) =>
      r ← call_c f m; Ok (match r with inl m => inl (S pc, m) | inr m => inr m end)
  | Some (call_table r) =>
      r ← call_c (F_table (get r m)) m; Ok (match r with inl m => inl (S pc, m) | inr m => inr m end)
  | Some i => m ← exec_instr i m; Ok (inl (S pc, m))
  end.

(** The code runs from its first instruction to [iret] or into user mode. *)
Definition run (code : list instr) (m : mach) : res mach := loop (Pos.of_nat 64) (step code) (0%nat, m).

Lemma run_step code pc m n s r :
  step code (pc, m) = Ok (inl s) -> runs (step code) s n r -> runs (step code) (pc, m) (S n) r.
Proof. apply runs_step. Qed.

Lemma run_runs code m n r : runs (step code) (0%nat, m) n r -> (n < 64)%nat -> run code m = r.
Proof. intros H Hn. unfold run. eapply loop_runs; [exact H|]. by rewrite Nat2Pos.id. Qed.
End Code.

(** ** Laws of the flags *)

Lemma put_flag_bit_spec i b f j : 0 <= i -> 0 <= j ->
  Z.testbit (put_flag_bit i b f) j = if i =? j then b else Z.testbit f j.
Proof.
  intros Hi Hj. unfold put_flag_bit. destruct b, (Z.eqb_spec i j) as [->|Hne].
  - by apply Z.setbit_eq.
  - apply Z.setbit_neq; lia.
  - apply Z.clearbit_eq.
  - by apply Z.clearbit_neq.
Qed.

(** [cmpl] sets CF when the comparison is below, ZF when it is equal, and not IF. *)
Lemma sub_flags_spec a b f :
  Z.testbit (sub_flags a b f) CF = (a <? b) /\
  Z.testbit (sub_flags a b f) ZF = (u32 (a - b) =? 0) /\
  Z.testbit (sub_flags a b f) IF_BIT = Z.testbit f IF_BIT.
Proof. unfold sub_flags. split; [|split]; by rewrite !put_flag_bit_spec. Qed.

(** The interrupt flag is not an arithmetic flag. *)
Lemma flags_after_IF c f : Z.testbit (flags_after c f) IF_BIT = Z.testbit f IF_BIT.
Proof.
  unfold flags_after. rewrite Z.lor_spec, Z.ldiff_spec, Z.land_spec.
  change (Z.testbit ARITH IF_BIT) with false. by rewrite andb_false_r, orb_false_r, andb_true_r.
Qed.

(** ** Laws of the stack *)

Lemma block_start_le a : block_start a <= a < block_start a + 0x2000.
Proof. unfold block_start. pose proof (Z.mod_pos_bound a 0x2000). pose proof (Z.div_mod a 0x2000). lia. Qed.

Lemma block_start_in sp a : block_start sp <= a < block_start sp + 0x2000 -> block_start a = block_start sp.
Proof.
  unfold block_start. intros H. f_equal. symmetry. apply (Z.div_unique _ _ _ (a - sp / 0x2000 * 0x2000)); lia.
Qed.

(** A call does not touch the words of its caller, nor other blocks. *)
Lemma scratch_above sp n a : sp + 4 * n <= a -> scratch sp n a = false.
Proof. intros H. unfold scratch. apply andb_false_iff. right. apply Z.ltb_ge. lia. Qed.

Lemma scratch_other sp n a : 0 <= n -> block_start a <> block_start sp ->
  sp + 4 * n <= block_start sp + 0x2000 -> scratch sp n a = false.
Proof.
  intros Hn Hne Hb. unfold scratch. apply andb_false_iff. destruct (Z.leb_spec (block_start sp) a); [right|by left].
  apply Z.ltb_ge. destruct (Z.le_gt_cases (sp + 4 * n) a); [done|]. destruct Hne. apply block_start_in. lia.
Qed.

Section Stack.
Implicit Types (m : mach) (st : gmap Z Z).

Lemma words_at_cons st a w ws :
  words_at st a (w :: ws) <-> st !! a = Some w /\ words_at st (a + 4) ws.
Proof.
  split.
  - intros H. split; [by rewrite <- (H 0%nat w eq_refl); f_equal; lia|].
    intros i x Hx. rewrite <- (H (S i) x Hx). f_equal. lia.
  - intros [H0 H] [|i] x Hx; simpl in Hx.
    + injection Hx as <-. rewrite <- H0. f_equal. lia.
    + rewrite <- (H i x Hx). f_equal. lia.
Qed.

Lemma words_at_app st a l1 l2 :
  words_at st a (l1 ++ l2) <-> words_at st a l1 /\ words_at st (a + 4 * Z.of_nat (length l1)) l2.
Proof.
  revert a. induction l1 as [|w l1 IH]; intros a; simpl.
  - replace (a + 4 * Z.of_nat 0) with a by lia. split; [|tauto]. intros H. by split.
  - rewrite !words_at_cons, IH.
    replace (a + 4 + 4 * Z.of_nat (length l1)) with (a + 4 * Z.of_nat (S (length l1))) by lia. tauto.
Qed.

(** Words outside a change are still there. *)
Lemma words_at_frame st st' a ws :
  words_at st a ws ->
  (forall b, a <= b < a + 4 * Z.of_nat (length ws) -> st' !! b = st !! b) -> words_at st' a ws.
Proof.
  intros H F i w Hi. rewrite F; [by apply H|]. apply lookup_lt_Some in Hi. lia.
Qed.

Lemma push_all_app l1 l2 m : push_all (l1 ++ l2) m = push_all l2 (push_all l1 m).
Proof. apply foldl_app. Qed.

(** Pushing touches the stack and its pointer only. *)
Lemma push_all_shape ws m : exists sp st, push_all ws m = put_esp sp (set_m_stack st m).
Proof.
  induction ws as [|w ws IH] using rev_ind.
  - exists (m_esp m), (m_stack m). by destruct m as [??????????? k]; destruct k as [??????????? []].
  - destruct IH as (sp & st & E). rewrite push_all_app, E. simpl. by eexists _, _.
Qed.

Lemma push_all_flow ws fl eip cs ss m :
  push_all ws (put_flags fl (set_m_flow eip cs ss m)) = put_flags fl (set_m_flow eip cs ss (push_all ws m)).
Proof. revert m. induction ws as [|w ws IH]; intros m; [done|]. apply (IH (push w m)). Qed.

Lemma push_flow l w fl eip cs ss m :
  push w (put_flags fl (set_m_flow eip cs ss (push_all l m))) =
    put_flags fl (set_m_flow eip cs ss (push_all (l ++ [w]) m)).
Proof. rewrite push_all_app. apply (push_all_flow [w]). Qed.

Lemma push_all_get ws r m : r <> ESP -> get r (push_all ws m) = get r m.
Proof. intros Hr. destruct (push_all_shape ws m) as (sp & st & ->). by destruct r. Qed.

Lemma push_all_spec ws m :
  4 * Z.of_nat (length ws) <= m_esp m < 2 ^ 32 ->
  let sp := m_esp m - 4 * Z.of_nat (length ws) in
  exists st, push_all ws m = put_esp sp (set_m_stack st m) /\ words_at st sp (rev ws) /\
    forall a, ~ (sp <= a < m_esp m) -> st !! a = m_stack m !! a.
Proof.
  induction ws as [|w ws IH] using rev_ind; intros H sp.
  - exists (m_stack m). split; [|done]. unfold sp. simpl. rewrite Z.sub_0_r.
    by destruct m as [??????????? k]; destruct k as [??????????? []].
  - set (sp1 := m_esp m - 4 * Z.of_nat (length ws)) in *.
    assert (sp = sp1 - 4) as Hs by (unfold sp, sp1; rewrite length_app; simpl length; lia). clearbody sp.
    rewrite length_app in H. simpl length in H. destruct IH as (st & E & Hw & Hf); [lia|]. fold sp1 in E, Hw, Hf.
    assert (0 <= sp1 - 4 < 2 ^ 32) as Hr by (unfold sp1; lia). assert (sp1 <= m_esp m) by (unfold sp1; lia).
    exists (<[sp := w]> st). split; [|split].
    + rewrite push_all_app, E. simpl. unfold push. change (m_esp (put_esp sp1 (set_m_stack st m))) with sp1.
      by rewrite (u32_small (sp1 - 4)), Hs by done.
    + rewrite rev_app_distr. simpl. apply words_at_cons. split; [apply lookup_insert_eq|].
      replace (sp + 4) with sp1 by lia. eapply words_at_frame; [exact Hw|].
      intros b Hb. apply lookup_insert_ne. lia.
    + intros a Ha. rewrite lookup_insert_ne by lia. apply Hf. lia.
Qed.

Lemma put_esp_id m : put_esp (m_esp m) m = m.
Proof. by destruct m as [??????????? k]; destruct k as [??????????? []]. Qed.

Lemma pop_ok m a w ws :
  words_at (m_stack m) a (w :: ws) -> 0 <= a < 2 ^ 32 - 4 ->
  pop (put_esp a m) = Ok (w, put_esp (a + 4) m) /\ words_at (m_stack m) (a + 4) ws.
Proof.
  intros [H0 H]%words_at_cons Hr. split; [|done]. unfold pop.
  change (m_stack (put_esp a m) !! m_esp (put_esp a m)) with (m_stack m !! a). rewrite H0.
  change (m_esp (put_esp a m)) with a. by rewrite u32_small by lia.
Qed.

Lemma load_words_ok st n a ws :
  words_at st a ws -> length ws = n -> 0 <= a -> a + 4 * Z.of_nat n < 2 ^ 32 ->
  load_words st n a = Ok ws.
Proof.
  intros H <-. revert a H. induction ws as [|w ws IH]; intros a H Ha Hb; simpl; [done|].
  apply words_at_cons in H as [H0 H]. simpl in Hb. rewrite H0, u32_small by lia. rewrite IH; [done|done|lia|lia].
Qed.

(** What a call does not touch. *)
Lemma stack_after_lookup c n sp sp' st a :
  scratch sp n a = false -> scratch sp' n a = false -> stack_after c n sp sp' st !! a = st !! a.
Proof.
  intros H H'. unfold stack_after. rewrite lookup_union.
  rewrite (map_lookup_filter_None_2 _ (c_stack c)).
  2:{ right. intros x _. simpl. by rewrite H, H'. }
  rewrite right_id by apply _. rewrite map_lookup_filter. destruct (st !! a); simpl; [|done].
  rewrite H, H'. done.
Qed.
End Stack.

(** Popping the words that [H] says are at the stack pointer. *)
Ltac pop_next H :=
  let E := fresh "E" in let H' := fresh "H" in
  match goal with |- context [pop (put_esp ?b ?m)] =>
  match type of H with words_at _ ?a (?w :: ?ws) =>
    destruct (pop_ok m a w ws H) as [E H']; [lia|]; rewrite E; clear E; cbn [mbind res_bind];
    clear H; rename H' into H
  end end.

Lemma popal_ok m a edi esi ebp x ebx edx ecx eax ws :
  words_at (m_stack m) a (edi :: esi :: ebp :: x :: ebx :: edx :: ecx :: eax :: ws) ->
  0 <= a < 2 ^ 32 - 32 ->
  exec_instr popal (put_esp a m) =
    Ok (put_esp (a + 32) (set_m_gprs eax ecx edx ebx esi edi (put_ebp ebp m))) /\
  words_at (m_stack m) (a + 32) ws.
Proof.
  intros H Hr. cbn [exec_instr]. do 8 pop_next H.
  assert (a + 4 + 4 + 4 + 4 + 4 + 4 + 4 + 4 = a + 32) as E by lia. rewrite E in H |- *. done.
Qed.

Lemma popl_ok m a r w ws :
  words_at (m_stack m) a (w :: ws) -> 0 <= a < 2 ^ 32 - 4 -> r <> ESP ->
  exec_instr (popl r) (put_esp a m) = Ok (put_esp (a + 4) (put r w m)) /\
  words_at (m_stack (put r w m)) (a + 4) ws.
Proof. intros H Hr Hne. cbn [exec_instr]. pop_next H. by destruct r. Qed.

Lemma popfl_ok m a f ws :
  words_at (m_stack m) a (f :: ws) -> 0 <= a < 2 ^ 32 - 4 ->
  exec_instr popfl (put_esp a m) = Ok (put_esp (a + 4) (put_flags f m)) /\
  words_at (m_stack (put_flags f m)) (a + 4) ws.
Proof. intros H Hr. cbn [exec_instr]. by pop_next H. Qed.

(** [iret] to the same level, and to user mode. *)
Lemma iret_ok m a eip cs fl ws :
  words_at (m_stack m) a (eip :: cs :: fl :: ws) -> 0 <= a < 2 ^ 32 - 20 ->
  (Z.land cs 3 = cpl m ->
    do_iret (put_esp a m) = Ok (put_flags fl (put_esp (a + 12) (set_m_flow eip cs (m_ss m) m)))) /\
  (forall sp ss, Z.land cs 3 <> cpl m -> ws = [sp; ss] ->
    do_iret (put_esp a m) = Ok (put_flags fl (put_esp sp (set_m_flow eip cs ss m)))).
Proof.
  intros H Hr. split; intros.
  - unfold do_iret. do 3 pop_next H. change (cpl (put_esp _ m)) with (cpl m). rewrite H0, Z.eqb_refl.
    by replace (a + 4 + 4 + 4) with (a + 12) by lia.
  - subst ws. unfold do_iret. do 3 pop_next H. change (cpl (put_esp _ m)) with (cpl m).
    rewrite (proj2 (Z.eqb_neq _ _)) by done. do 2 pop_next H. done.
Qed.
