(* ===== verification/Wrappers.v ===== *)
(** * The interrupt wrappers (interrupt_wrappers.S)

    The four entry points of the kernel, instruction by instruction, on the processor
    of Asm.v.  A program that is interrupted is a [context]: the registers it
    continues with.  The wrappers of the devices leave a context as a frame on the
    kernel's stack and restore the context from the frame the stack pointer is at
    when the handler comes back, which need not be the same one. *)

From stdpp Require Import base gmap list numbers strings.
From Stdlib Require Import ZArith Lia.
From S2P Require Import Prelude Pointers Ports Pic Paging State Machine VirtMem CString MemFns.
From S2P Require Import Pcb Demo Screen Printf FileSystem Rtc Keyboard Terminal Syscalls Process Idt Sched Asm.

(** ** The code *)

Definition KB_handler_wrapper : list instr := [pushfl; pushal; cli_; call F_KB; popal; popfl; iret].
Definition RT_handler_wrapper : list instr := [pushfl; pushal; cli_; call F_RT; popal; popfl; iret].
Definition PT_handler_wrapper : list instr := [pushfl; pushal; cli_; call F_PT; popal; popfl; iret].

Definition SYS_handler_wrapper_code : list instr :=
  [pushfl;
   pushl EBX;
   pushl EDI;
   pushl ESI;
   sti_;
   subl 1 EAX;
   cmpl 10 EAX;
   jae 16;   (* sys_call_ae_ten *)
   pushl EDX;
   pushl ECX;
   pushl EBX;
   call_table EAX;
   cmpl (-1) EAX;
   jne 14;   (* did_not_fail *)
   (* did_not_fail, 14: *)
   addl 12 ESP;
   jmp 17;   (* sys_call_return *)
   (* sys_call_ae_ten, 16: *)
   movl (-1) EAX;
   (* sys_call_return, 17: *)
   popl ESI;
   popl EDI;
   popl EBX;
   popfl;
   iret].

(** The functions the wrappers call. *)
Definition kernel_fun `{L : Layout} (J : locals) (irqs : list (K unit)) (f : cfun) (ws : list Z) : K outcome :=
  match f with
  | F_KB => KB_handler;; mret (Returns 0)
  | F_RT => RT_handler;; mret (Returns 0)
  | F_PT => PT_handler J
  | F_table n =>
      match ws with
      | [a1; a2; a3] => sys_call J irqs n a1 a2 a3
      | _ => throw NullCall
      end
  end.

(** ** Contexts *)

(** What a program continues with after an interrupt. *)
Record context : Type := Ctx {
  x_eax : Z;
  x_ecx : Z;
  x_edx : Z;
  x_ebx : Z;
  x_esi : Z;
  x_edi : Z;
  x_ebp : Z;
  x_esp : Z;
  x_flags : Z;
  x_eip : Z;
  x_cs : Z;
  x_ss : Z;
}.

#[global] Instance context_eq_dec : EqDecision context.
Proof. solve_decision. Defined.

Definition context_of (m : mach) : context :=
  Ctx (m_eax m) (m_ecx m) (m_edx m) (m_ebx m) (m_esi m) (m_edi m) (m_ebp m) (m_esp m)
    (m_flags m) (m_eip m) (m_cs m) (m_ss m).

(** The machine in the context [c]. *)
Definition with_context (c : context) (m : mach) : mach :=
  {| m_eax := x_eax c; m_ecx := x_ecx c; m_edx := x_edx c; m_ebx := x_ebx c; m_esi := x_esi c;
     m_edi := x_edi c; m_eip := x_eip c; m_cs := x_cs c; m_ss := x_ss c; m_ds := m_ds m; m_stack := m_stack m;
     m_k := set_k_cpu {| eflags := x_flags c; r_esp := x_esp c; r_ebp := x_ebp c |} (m_k m) |}.

Lemma context_of_with c m : context_of (with_context c m) = c.
Proof. by destruct c. Qed.

Definition user_context (c : context) : Prop := x_cs c = USER_CS /\ x_ss c = USER_DS.
Definition kernel_context (c : context) : Prop := x_cs c = KERNEL_CS /\ x_ss c = KERNEL_DS.

Definition in_user (c : context) : bool := Z.land (x_cs c) 3 =? 3.

(** The words of the frame, from the stack pointer on; [sp] is the stack pointer
    [pushal] stored and [fl] the flags [pushfl] stored, which nobody reads back. *)
Definition frame_words (c : context) (sp fl : Z) : list Z :=
  [x_edi c; x_esi c; x_ebp c; sp; x_ebx c; x_edx c; x_ecx c; x_eax c; fl; x_eip c; x_cs c; x_flags c] ++
  (if in_user c then [x_esp c; x_ss c] else []).

Definition frame_len (c : context) : Z := if in_user c then 14 else 12.

(** The frame of [c] is at [a]. *)
Definition frame_at (st : gmap Z Z) (a : Z) (c : context) : Prop :=
  exists sp fl, words_at st a (frame_words c sp fl).

(** Where the frame of an interrupted program ends: on the stack of the TSS, or on the
    stack it was using. *)
Definition frame_top (k : kernel) (c : context) : Z := if in_user c then esp0 (k_tss k) else x_esp c.

Lemma kernel_not_user c : kernel_context c -> in_user c = false.
Proof. intros [H _]. unfold in_user. by rewrite H. Qed.
Lemma user_in_user c : user_context c -> in_user c = true.
Proof. intros [H _]. unfold in_user. by rewrite H. Qed.

Lemma kernel_frame_top k c : kernel_context c -> frame_top k c = x_esp c.
Proof. intros H. unfold frame_top. by rewrite kernel_not_user. Qed.
Lemma user_frame_top k c : user_context c -> frame_top k c = esp0 (k_tss k).
Proof. intros H. unfold frame_top. by rewrite user_in_user. Qed.

Lemma frame_words_length c sp fl : Z.of_nat (length (frame_words c sp fl)) = frame_len c.
Proof. unfold frame_words, frame_len. by destruct (in_user c). Qed.

Section Wrappers.
Context (c_fun : cfun -> list Z -> K outcome) (after : mach -> residue).
Abbreviation step := (step c_fun after).
Abbreviation run := (run c_fun after).

(** The shape of the wrappers of the devices. *)
Definition device_code (f : cfun) : list instr := [pushfl; pushal; cli_; call f; popal; popfl; iret].

(** The machine at the call, with the stack [st] and the stack pointer [sp]. *)
Definition at_call (st : gmap Z Z) (sp : Z) (m : mach) : mach :=
  put_flags (Z.clearbit (Z.ldiff (m_flags m) 0x34300) IF_BIT)
    (put_esp sp (set_m_stack st (set_m_flow (m_eip m) KERNEL_CS KERNEL_DS m))).

(** What the processor pushes. *)
Lemma int_enter_frame m :
  let c := context_of m in
  user_context c \/ kernel_context c -> ss0 (k_tss (m_k m)) = KERNEL_DS ->
  int_enter m = put_flags (Z.ldiff (m_flags m) 0x34300) (set_m_flow (m_eip m) KERNEL_CS KERNEL_DS
    (push_all ((if in_user c then [m_ss m; m_esp m] else []) ++ [m_flags m; m_cs m; m_eip m])
      (put_esp (frame_top (m_k m) c) (set_m_flow (m_eip m) (m_cs m) KERNEL_DS m)))).
Proof.
  intros c Hc Hss. set (m0 := put_esp _ _). set (l := [m_flags m; m_cs m; m_eip m]).
  set (pre := if in_user c then _ else _).
  assert (int_enter m = let m2 := push_all (pre ++ l) m0 in
    put_flags (Z.ldiff (m_flags m) 0x34300) (set_m_flow (m_eip m2) KERNEL_CS (m_ss m2) m2)) as ->.
  { unfold int_enter, cpl, pre, m0, l, frame_top, in_user. cbn [x_cs c context_of].
    destruct Hc as [[Hcs Hs]|[Hcs Hs]]; cbn [x_cs x_ss c context_of] in Hcs, Hs; rewrite Hcs.
    - change (Z.land USER_CS 3 =? 0) with false. change (Z.land USER_CS 3 =? 3) with true. cbv iota.
      by rewrite Hss, push_all_app.
    - change (Z.land KERNEL_CS 3 =? 0) with true. change (Z.land KERNEL_CS 3 =? 3) with false. cbv iota.
      rewrite <- Hs, <- Hcs. cbn [app]. by destruct m as [??????????? k]; destruct k as [??????????? []]. }
  destruct (push_all_shape (pre ++ l) m0) as (sp & st & E). cbv zeta. by rewrite E.
Qed.

(** The context is saved. *)
Lemma device_saves f m :
  let c := context_of m in
  user_context c \/ kernel_context c -> ss0 (k_tss (m_k m)) = KERNEL_DS ->
  64 <= frame_top (m_k m) c < 2 ^ 32 ->
  let sp := frame_top (m_k m) c - 4 * frame_len c in
  exists st, (forall n r, runs (step (device_code f)) (3%nat, at_call st sp m) n r ->
      runs (step (device_code f)) (0%nat, int_enter m) (S (S (S n))) r) /\
    frame_at st sp c /\ forall a, ~ (sp <= a < frame_top (m_k m) c) -> st !! a = m_stack m !! a.
Proof.
  intros c Hc Hss Htop sp.
  set (fl := Z.ldiff (m_flags m) 0x34300).
  set (m0 := put_esp (frame_top (m_k m) c) (set_m_flow (m_eip m) (m_cs m) KERNEL_DS m)).
  set (pre := if in_user c then [m_ss m; m_esp m] else []).
  set (m9 := push_all (pre ++ [m_flags m; m_cs m; m_eip m; fl]) m0).
  set (ws := pre ++ [m_flags m; m_cs m; m_eip m; fl] ++
    [m_eax m; m_ecx m; m_edx m; m_ebx m; m_esp m9; m_ebp m; m_esi m; m_edi m]).
  assert (Z.of_nat (length ws) = frame_len c) as Hlen by (unfold ws, pre, frame_len; by destruct (in_user c)).
  destruct (push_all_spec ws m0) as (st & E & Hw & Hf).
  { change (m_esp m0) with (frame_top (m_k m) c). rewrite Hlen. unfold frame_len in *. destruct (in_user c); lia. }
  change (m_esp m0) with (frame_top (m_k m) c) in *. rewrite Hlen in *. fold sp in E, Hw, Hf.
  exists st. split; [|split; [|exact Hf]].
  - intros n r H.
    assert (exec_instr pushfl (int_enter m) = Ok (put_flags fl (set_m_flow (m_eip m) KERNEL_CS KERNEL_DS m9))) as E1.
    { cbn [exec_instr]. rewrite (int_enter_frame m Hc Hss). fold c m0 pre.
      apply (f_equal Ok). etrans; [apply (push_all_flow [fl])|]. unfold m9.
      apply (f_equal (fun x => put_flags fl (set_m_flow (m_eip m) KERNEL_CS KERNEL_DS x))).
      by rewrite <- push_all_app, <- app_assoc. }
    eapply runs_step; [cbn [Asm.step device_code lookup list_lookup]; rewrite E1; done|].
    destruct (push_all_shape (pre ++ [m_flags m; m_cs m; m_eip m; fl]) m0) as (s9 & st9 & E9). fold m9 in E9.
    assert (push_all [m_eax m; m_ecx m; m_edx m; m_ebx m; m_esp m9; m_ebp m; m_esi m; m_edi m] m9 =
      put_esp sp (set_m_stack st m0)) as E2 by (unfold m9 at 2; by rewrite <- push_all_app, <- app_assoc).
    set (A := put_flags fl (set_m_flow (m_eip m) KERNEL_CS KERNEL_DS m9)).
    assert (exec_instr pushal A = Ok (put_flags fl (set_m_flow (m_eip m) KERNEL_CS KERNEL_DS
      (put_esp sp (set_m_stack st m0))))) as EA.
    { cbn [exec_instr]. rewrite <- E2, <- push_all_flow. fold A.
      apply (f_equal (fun l => Ok (push_all l A))). unfold A. clear E1 E2 A. clearbody m9. by rewrite E9. }
    eapply runs_step; [cbn [Asm.step device_code lookup list_lookup]; rewrite EA; done|].
    eapply runs_step; [done|]. exact H.
  - eexists (m_esp m9), fl. unfold ws, frame_words, pre in *. rewrite rev_app_distr in Hw. by destruct (in_user c).
Qed.

(** The context whose frame the stack pointer is at is restored. *)
Lemma device_resumes f m c :
  frame_at (m_stack m) (m_esp m) c ->
  user_context c \/ (kernel_context c /\ x_esp c = m_esp m + 48) ->
  0 <= m_esp m < 2 ^ 32 - 64 -> m_cs m = KERNEL_CS -> m_ss m = KERNEL_DS ->
  runs (step (device_code f)) (4%nat, m) 2 (Ok (with_context c m)).
Proof.
  intros (sp & fl & H) Hc Hr Hcs Hss. unfold frame_words in H. cbn [app] in H.
  rewrite <- (put_esp_id m). set (a := m_esp m) in *.
  destruct (popal_ok m a _ _ _ _ _ _ _ _ _ H) as [E H1]; [lia|]. clear H.
  eapply runs_step; [cbn [Asm.step device_code lookup list_lookup]; rewrite E; done|].
  set (m2 := set_m_gprs _ _ _ _ _ _ _). destruct (popfl_ok m2 _ _ _ H1) as [E2 H2]; [lia|]. clear H1.
  eapply runs_step; [cbn [Asm.step device_code lookup list_lookup]; rewrite E2; done|].
  apply runs_done. cbn [Asm.step device_code lookup list_lookup].
  destruct (iret_ok (put_flags fl m2) (a + 32 + 4) _ _ _ _ H2) as [Ek Eu]; [lia|].
  change (cpl (put_flags fl m2)) with (cpl m) in *. unfold cpl in Ek, Eu. rewrite Hcs in Ek, Eu.
  destruct Hc as [[Hc Hs]|[[Hc Hs] Hsp]].
  - rewrite (Eu (x_esp c) (x_ss c)); [by destruct c| by rewrite Hc|]. unfold in_user. by rewrite Hc.
  - rewrite Ek by by rewrite Hc. replace (a + 32 + 4 + 12) with (x_esp c) by lia.
    change (m_ss (put_flags fl m2)) with (m_ss m). rewrite Hss, <- Hs. done.
Qed.

(** The code a gate leads to, by the function it calls. *)
Definition wrapper_of (f : cfun) : list instr :=
  match f with
  | F_KB => KB_handler_wrapper
  | F_RT => RT_handler_wrapper
  | F_PT => PT_handler_wrapper
  | F_table _ => SYS_handler_wrapper_code
  end.

(** The wrappers of the devices have one shape. *)
Lemma wrapper_device f : is_void f = true -> wrapper_of f = device_code f.
Proof. by destruct f. Qed.

(** A device interrupts the program. *)
Definition interrupt (f : cfun) (m : mach) : res mach := run (wrapper_of f) (int_enter m).

(** The stack pointer at the call, and the kernel's state there. *)
Definition call_esp (m : mach) : Z :=
  frame_top (m_k m) (context_of m) - 4 * frame_len (context_of m).
Definition call_kernel (m : mach) : kernel :=
  set_k_cpu {| eflags := Z.clearbit (Z.ldiff (m_flags m) 0x34300) IF_BIT;
               r_esp := call_esp m; r_ebp := m_ebp m |} (m_k m).

(** A program the processor can interrupt. *)
Record interruptible (m : mach) : Prop := {
  it_ctx : user_context (context_of m) \/ kernel_context (context_of m);
  it_seg : ss0 (k_tss (m_k m)) = KERNEL_DS;
  it_top : 64 <= frame_top (m_k m) (context_of m) < 2 ^ 32 - 64;
  it_block : frame_top (m_k m) (context_of m) <= block_start (call_esp m) + 0x2000;
}.

(** The program in context [c] is suspended at [sp] in the stacks [st]. *)
Record suspended_at (st : gmap Z Z) (sp : Z) (c : context) : Prop := {
  sa_frame : frame_at st sp c;
  sa_ctx : user_context c \/ (kernel_context c /\ x_esp c = sp + 48);
  sa_range : 0 <= sp < 2 ^ 32 - 64;
  sa_block : sp + 4 * frame_len c <= block_start sp + 0x2000;
}.

Lemma frame_at_frame st st' sp c :
  frame_at st sp c -> (forall a, sp <= a < sp + 4 * frame_len c -> st' !! a = st !! a) -> frame_at st' sp c.
Proof.
  intros (s & fl & H) Hf. exists s, fl. eapply words_at_frame; [exact H|]. by rewrite frame_words_length.
Qed.

(** A frame in a block that did not change. *)
Lemma suspended_frame st st' sp c :
  suspended_at st sp c ->
  (forall a, sp <= a < block_start sp + 0x2000 -> st' !! a = st !! a) -> suspended_at st' sp c.
Proof. intros [] Hf. split; auto. apply (frame_at_frame st); [done|]. intros a Ha. apply Hf. lia. Qed.

Lemma frame_len_pos c : 12 <= frame_len c <= 14.
Proof. unfold frame_len. destruct (in_user c); lia. Qed.

Lemma call_esp_range m : interruptible m ->
  0 <= call_esp m < 2 ^ 32 - 64 /\ call_esp m + 4 * frame_len (context_of m) = frame_top (m_k m) (context_of m).
Proof. intros []. pose proof (frame_len_pos (context_of m)). unfold call_esp. lia. Qed.

(** At the call of the handler: the interrupted program is suspended, and stays so
    whatever the call does below its frame and on another stack. *)
Lemma device_calls f m :
  interruptible m ->
  let sp := call_esp m in
  exists m1, m_k m1 = call_kernel m /\ m_esp m1 = sp /\ m_cs m1 = KERNEL_CS /\ m_ss m1 = KERNEL_DS /\ m_ds m1 = m_ds m /\
    (forall n r, runs (step (device_code f)) (3%nat, m1) n r ->
      runs (step (device_code f)) (0%nat, int_enter m) (S (S (S n))) r) /\
    suspended_at (m_stack m1) sp (context_of m) /\
    (forall a, block_start a <> block_start sp -> m_stack m1 !! a = m_stack m !! a) /\
    forall c sp', sp' = sp \/ block_start sp' <> block_start sp ->
      let st := stack_after c 0 sp sp' (m_stack m1) in
      suspended_at st sp (context_of m) /\
      (forall a, block_start a <> block_start sp -> block_start a <> block_start sp' -> st !! a = m_stack m !! a) /\
      forall a, block_start a <> block_start sp -> sp' <= a -> st !! a = m_stack m !! a.
Proof.
  intros I sp. set (c := context_of m) in *. pose proof I as [Hctx Hss Hrange Hblock].
  destruct (call_esp_range m I) as [Hsp Htop]. fold sp c in Hsp, Htop, Hblock, Hrange.
  destruct (device_saves f m Hctx Hss) as (st0 & Hrun & Hfr & Hst0); [fold c; lia|].
  fold c in Hrun, Hfr, Hst0. change (frame_top (m_k m) c - 4 * frame_len c) with sp in Hrun, Hfr, Hst0.
  assert (suspended_at st0 sp c) as S0.
  { split; [done| |lia|lia]. destruct Hctx as [Hu|Hk]; [by left|right]. split; [done|].
    rewrite <- (kernel_frame_top (m_k m) c Hk). unfold frame_len in Htop. rewrite (kernel_not_user c Hk) in Htop. lia. }
  assert (forall a, block_start a <> block_start sp -> st0 !! a = m_stack m !! a) as Hoth.
  { intros a Ha. apply Hst0. intros Hin. apply Ha. apply block_start_in. pose proof (block_start_le sp). lia. }
  exists (at_call st0 sp m). do 5 (split; [done|]). split; [exact Hrun|]. split; [exact S0|]. split; [exact Hoth|].
  intros cr sp' Hsp' st. change (m_stack (at_call st0 sp m)) with st0 in st.
  assert (forall a, block_start a <> block_start sp -> scratch sp 0 a = false) as Hsc.
  { intros a Ha. apply scratch_other; [done|done|]. pose proof (block_start_le sp). lia. }
  split; [|split].
  - apply (suspended_frame st0); [done|]. intros a Ha. apply stack_after_lookup; [apply scratch_above; lia|].
    destruct Hsp' as [->|Hne]; [apply scratch_above; lia|]. apply scratch_other; [done| |].
    + rewrite (block_start_in sp a) by (pose proof (block_start_le sp); lia). done.
    + pose proof (block_start_le sp'). lia.
  - intros a Ha Ha'. rewrite <- Hoth by done. apply stack_after_lookup; [by apply Hsc|].
    apply scratch_other; [done|done|]. pose proof (block_start_le sp'). lia.
  - intros a Ha Ha'. rewrite <- Hoth by done. apply stack_after_lookup; [by apply Hsc|]. apply scratch_above. lia.
Qed.

(** The call of the handler. *)
Lemma device_call f m1 r k' :
  nargs f = 0%nat -> is_void f = true -> c_fun f [] (m_k m1) = Ok (r, k') ->
  Asm.step c_fun after (device_code f) (3%nat, m1) =
    Ok (match r with
        | Returns _ => inl (4%nat, after_call (after m1) 0 k' m1)
        | _ => match finish_call r (after_call (after m1) 0 k' m1) with inl m => inl (4%nat, m) | inr m => inr m end
        end).
Proof.
  intros Hn Hv Hf. cbn [Asm.step device_code lookup list_lookup]. unfold call_c. rewrite Hn.
  cbn [load_words mbind res_bind]. rewrite Hf. cbn [mbind res_bind fst snd]. rewrite Hv.
  change (Z.of_nat 0) with 0. by destruct r.
Qed.

(** A device's interrupt with a handler that comes back at a stack pointer where the
    program [c'] is suspended: the interrupted program itself, or one of another stack.
    [c'] runs, and the interrupted program is suspended in turn. *)
Lemma interrupt_spec f m v k' c' :
  interruptible m -> nargs f = 0%nat -> is_void f = true ->
  c_fun f [] (call_kernel m) = Ok (Returns v, k') ->
  let sp := call_esp m in let sp' := r_esp (k_cpu k') in
  (c' = context_of m /\ sp' = sp) \/ (suspended_at (m_stack m) sp' c' /\ block_start sp' <> block_start sp) ->
  exists st, interrupt f m = Ok (with_context c' (set_m_stack st (set_m_k k' m))) /\
    suspended_at st sp (context_of m) /\
    forall a, block_start a <> block_start sp -> block_start a <> block_start sp' -> st !! a = m_stack m !! a.
Proof.
  intros I Hn Hv Hf sp sp' Hc'. set (c := context_of m) in *.
  destruct (device_calls f m I) as (m1 & Ek & Esp & Ecs & Ess & Eds & Hrun & _ & _ & Hafter). fold sp c in Esp, Hafter.
  destruct (Hafter (after m1) sp') as (Sc & Hoth & Habove); [destruct Hc' as [[_ ->]|[_ ?]]; auto|].
  set (st := stack_after (after m1) 0 sp sp' (m_stack m1)) in *.
  assert (suspended_at st sp' c') as S'.
  { destruct Hc' as [[-> ->]|[Hs Hne]]; [done|]. apply (suspended_frame (m_stack m)); [done|]. intros a Ha.
    apply Habove; [|lia]. rewrite (block_start_in sp' a) by (pose proof (block_start_le sp'); lia). done. }
  exists st. split; [|by split]. rewrite <- Ek in Hf.
  set (m4 := after_call (after m1) 0 k' m1). assert (m_stack m4 = st) as E4 by (unfold m4; simpl; by rewrite Esp).
  unfold interrupt. rewrite (wrapper_device f Hv). apply (run_runs _ _ _ _ 6); [|lia]. apply Hrun.
  eapply runs_step; [by rewrite (device_call f m1 _ k' Hn Hv Hf)|].
  assert (forall x, with_context x (set_m_stack st (set_m_k k' m)) = with_context x m4) as -> by (intros; unfold with_context; simpl; by rewrite Eds, <- E4).
  rewrite <- E4 in S'. exact (device_resumes f m4 c' (sa_frame _ _ _ S') (sa_ctx _ _ _ S') (sa_range _ _ _ S') Ecs Ess).
Qed.

(** A handler that enters a new program instead of coming back: the interrupted program is
    suspended, the new one runs with the interrupt flag the handler ran with. *)
Lemma interrupt_enters f m eip usp k' :
  interruptible m -> nargs f = 0%nat -> is_void f = true ->
  c_fun f [] (call_kernel m) = Ok (Enters eip usp, k') -> r_esp (k_cpu k') = call_esp m ->
  exists M, interrupt f m = Ok M /\ m_eip M = eip /\ m_esp M = usp /\ user_context (context_of M) /\ m_ds M = USER_DS /\
    Z.testbit (m_flags M) IF_BIT = Z.testbit (eflags (k_cpu k')) IF_BIT /\
    m_k M = set_k_cpu (k_cpu (m_k M)) k' /\ suspended_at (m_stack M) (call_esp m) (context_of m) /\
    forall a, block_start a <> block_start (call_esp m) -> m_stack M !! a = m_stack m !! a.
Proof.
  intros I Hn Hv Hf Hsp.
  destruct (device_calls f m I) as (m1 & Ek & Esp & Ecs & Ess & Eds & Hrun & _ & _ & Hafter).
  destruct (Hafter (after m1) (r_esp (k_cpu k'))) as (Sc & Hoth & _); [by left|]. rewrite <- Ek in Hf.
  exists (put_esp usp (set_m_ds USER_DS (set_m_flow eip USER_CS USER_DS (after_call (after m1) 0 k' m1)))). split.
  { unfold interrupt. rewrite (wrapper_device f Hv). apply (run_runs _ _ _ _ 3); [|lia]. apply Hrun, runs_done. by rewrite (device_call f m1 _ k' Hn Hv Hf). }
  do 4 (split; [done|]). split; [apply flags_after_IF|]. split; [done|]. simpl. rewrite Esp.
  split; [done|]. intros a Ha. apply Hoth; [done|]. by rewrite Hsp.
Qed.
End Wrappers.
