(* ===== verification/Preempt.v ===== *)
(** * Preemption: three programs and their registers

    System.v treats the handlers as functions of the kernel's state.  Here they run as
    the processor runs them: an interrupt stops the program of the terminal whose turn
    it is between two of its instructions, the wrapper saves its registers on the
    kernel stack of its process, and [iret] at the end of the wrapper continues whatever
    program the stack pointer has come to belong to.  In between the program may do
    with its registers what it likes.

    The abstract system is that of System.v with, for every terminal, the context of
    its program; no interrupt changes a context. *)

From stdpp Require Import base gmap list numbers strings.
From Stdlib Require Import ZArith Lia.
From S2P Require Import Prelude Pointers Ports Pic Paging State Machine VirtMem CString MemFns.
From S2P Require Import Pcb Demo Screen Printf FileSystem Rtc Keyboard Terminal Syscalls Process Sched System Idt.
From S2P Require Import Asm Wrappers.

(** ** Kernel stacks *)

(** The 8 KB block of process [p], with its control block at the low end. *)
Definition stack_base (p : Z) : Z := 0x800000 - (p + 1) * 0x2000.
Definition stack_top (p : Z) : Z := 0x800000 - 4 - p * 0x2000.

Lemma block_start_stack p a : 0 <= p < 6 -> stack_base p <= a <= stack_top p -> block_start a = stack_base p.
Proof.
  intros Hp Ha. unfold stack_base, stack_top in *.
  assert (block_start (0x800000 - (p + 1) * 0x2000) = 0x800000 - (p + 1) * 0x2000) as E.
  { unfold block_start. replace (0x800000 - (p + 1) * 0x2000) with ((1023 - p) * 0x2000) by lia. by rewrite Z.div_mul. }
  rewrite (block_start_in (0x800000 - (p + 1) * 0x2000)); rewrite E; lia.
Qed.

Lemma block_above sp a : sp <= a < block_start sp + 0x2000 -> block_start a = block_start sp.
Proof. intros H. apply block_start_in. pose proof (block_start_le sp). lia. Qed.

Lemma stack_base_inj p q : stack_base p = stack_base q -> p = q.
Proof. unfold stack_base. lia. Qed.

(** A context process [p] can have: in user mode, or in a system call on its own stack. *)
Definition proc_context (p : Z) (c : context) : Prop :=
  user_context c \/ (kernel_context c /\ stack_base p + 64 <= x_esp c <= stack_top p).

(** ** The abstract system *)

Record mworld : Type := MWorld {
  mw_sys : world;
  mw_pid : Z -> Z;          (* the process of a terminal *)
  mw_ctx : Z -> context;    (* what it continues with *)
}.

Inductive mevent : Type :=
| Irq (e : sys_event)
| Runs (c : context).   (* the running program executes instructions of its own *)

Definition mwstep (e : mevent) (W : mworld) : mworld :=
  match e with
  | Irq e => MWorld (wstep e (mw_sys W)) (mw_pid W) (mw_ctx W)
  | Runs c => MWorld (mw_sys W) (mw_pid W) (upd (mw_ctx W) (w_cp (mw_sys W)) c)
  end.

Definition mcan (e : mevent) (W : mworld) : Prop :=
  match e with
  | Irq e => can e (mw_sys W)
  | Runs c => proc_context (mw_pid W (w_cp (mw_sys W))) c
  end.

Fixpoint mcan_all (es : list mevent) (W : mworld) : Prop :=
  match es with [] => True | e :: es => mcan e W /\ mcan_all es (mwstep e W) end.

Definition mwrun (es : list mevent) (W : mworld) : mworld := foldl (fun W e => mwstep e W) W es.

(** ** The machine *)

Section Preempt.
Context `{L : Layout} (J : locals) (after : mach -> residue).
Implicit Types (m : mach) (W : mworld).

Definition on_kernel (f : K unit) m : res mach := r ← f (m_k m); Ok (set_m_k r.2 m).

Definition irq (f : cfun) m : res mach := interrupt (kernel_fun J []) after f m.

Definition mhappens (e : mevent) m : res mach :=
  match e with
  | Irq Tick => irq F_PT m
  | Irq (Key sc) => m ← on_kernel (feed sc) m; irq F_KB m
  | Irq (Clock b) => m ← on_kernel (feed b) m; irq F_RT m
  | Irq (Put c) => on_kernel (putc c) m
  | Runs c => Ok (with_context c m)
  end.

Fixpoint mrun (es : list mevent) m : res mach :=
  match es with [] => Ok m | e :: es => m ← mhappens e m; mrun es m end.

Record mach_rep m W : Prop := {
  mr_sys : sys_rep (m_k m) (mw_sys W);
  mr_pids : prog_curr_pid <$> terminals (k_ter (m_k m)) = mw_pid W <$> [0; 1; 2];
  mr_ctx : context_of m = mw_ctx W (w_cp (mw_sys W));
  mr_ok t : 0 <= t < 3 -> proc_context (mw_pid W t) (mw_ctx W t);
  mr_ss0 : ss0 (k_tss (m_k m)) = KERNEL_DS;
  mr_esp0 : esp0 (k_tss (m_k m)) = stack_top (mw_pid W (w_cp (mw_sys W)));
  mr_susp t : 0 <= t < 3 -> t <> w_cp (mw_sys W) -> exists b,
    pcbs (k_proc (m_k m)) !! get_pcb_by_pid (mw_pid W t) = Some b /\
    suspended_at (m_stack m) (esp b) (mw_ctx W t) /\ block_start (esp b) = stack_base (mw_pid W t);
}.

Lemma mr_cp m W : mach_rep m W -> 0 <= w_cp (mw_sys W) < 3.
Proof. intros H. exact (sys_cp _ _ (mr_sys _ _ H)). Qed.

(** The process of terminal [t]. *)
Lemma mr_pid m W t : mach_rep m W -> 0 <= t < 3 ->
  exists tm, terminals (k_ter (m_k m)) !! Z.to_nat t = Some tm /\ prog_curr_pid tm = mw_pid W t /\
    0 <= mw_pid W t < 6.
Proof.
  intros H Ht. destruct (sched_terminal _ t (sr_sched _ _ (mr_sys _ _ H)) Ht) as (tm & Htm & Hp).
  exists tm. split; [done|]. pose proof (f_equal (fun l => l !! Z.to_nat t) (mr_pids _ _ H)) as E.
  cbv beta in E. rewrite !list_lookup_fmap, Htm in E.
  assert (t = 0 \/ t = 1 \/ t = 2) as [-> | [-> | ->]] by lia; simpl in E; injection E as E; rewrite <- E; done.
Qed.

Lemma mr_distinct m W t u : mach_rep m W -> 0 <= t < 3 -> 0 <= u < 3 -> t <> u -> mw_pid W t <> mw_pid W u.
Proof.
  intros H Ht Hu Hne. destruct (mr_pid m W t H Ht) as (x & Hx & <- & _), (mr_pid m W u H Hu) as (y & Hy & <- & _).
  exact (sched_distinct _ t u x y (sr_sched _ _ (mr_sys _ _ H)) Ht Hu Hne Hx Hy).
Qed.

Lemma stacks_distinct m W t u : mach_rep m W -> 0 <= t < 3 -> 0 <= u < 3 -> t <> u ->
  stack_base (mw_pid W t) <> stack_base (mw_pid W u).
Proof. intros H Ht Hu Hne E%stack_base_inj. revert E. by apply (mr_distinct m W). Qed.

(** The running program can be interrupted, on the stack of its process. *)
Lemma mr_interruptible m W : mach_rep m W ->
  interruptible m /\ block_start (call_esp m) = stack_base (mw_pid W (w_cp (mw_sys W))).
Proof.
  intros H. pose proof (mr_cp m W H) as Hcp. set (cp := w_cp (mw_sys W)) in *.
  destruct (mr_pid m W cp H Hcp) as (_ & _ & _ & Hp).
  pose proof (mr_ok _ _ H cp Hcp) as Hok. pose proof (mr_ctx _ _ H) as Ec. fold cp in Ec. rewrite <- Ec in Hok.
  assert (stack_base (mw_pid W cp) + 64 <= frame_top (m_k m) (context_of m) <= stack_top (mw_pid W cp)) as Ht.
  { destruct Hok as [Hu|[Hk He]].
    - rewrite user_frame_top, (mr_esp0 _ _ H) by done. fold cp. unfold stack_base, stack_top. lia.
    - by rewrite kernel_frame_top. }
  pose proof (frame_len_pos (context_of m)) as Hl.
  assert (block_start (call_esp m) = stack_base (mw_pid W cp)) as Eb.
  { apply block_start_stack; [done|]. unfold call_esp. lia. }
  split; [|done]. split.
  - destruct Hok as [Hu|[Hk _]]; [by left|by right].
  - apply H.
  - unfold stack_base, stack_top in Ht. lia.
  - rewrite Eb. unfold stack_base, stack_top in *. lia.
Qed.

(** An interrupt whose handler leaves the processes alone: the program continues with
    the registers it had. *)
Lemma quiet_irq m W f k' w' :
  mach_rep m W -> nargs f = 0%nat -> is_void f = true ->
  kernel_fun J [] f [] (call_kernel m) = Ok (Returns 0, k') -> quiet_for (call_kernel m) k' ->
  sys_rep k' w' -> w_cp w' = w_cp (mw_sys W) ->
  exists m', irq f m = Ok m' /\ mach_rep m' (MWorld w' (mw_pid W) (mw_ctx W)).
Proof.
  intros H Hn Hv Hf Q R Hcp. destruct (mr_interruptible m W H) as [I Hb]. destruct Q.
  destruct (interrupt_spec (kernel_fun J []) after f m 0 k' (context_of m) I Hn Hv Hf) as (st & E & _ & Hst).
  { left. by rewrite qf_cpu. }
  rewrite qf_cpu in Hst. change (r_esp (k_cpu (call_kernel m))) with (call_esp m) in Hst.
  eexists. split; [exact E|]. pose proof H as []. split; cbn [mw_sys mw_pid mw_ctx].
  - exact (sys_cpu k' w' _ R).
  - etrans; [exact qf_pids|done].
  - rewrite context_of_with, Hcp. done.
  - done.
  - simpl. by rewrite qf_tss.
  - simpl. by rewrite qf_tss, Hcp.
  - intros t Ht Hne. rewrite Hcp in Hne. destruct (mr_susp0 t Ht Hne) as (b & Hp & S & Bs). exists b.
    split; [simpl; by rewrite qf_proc|]. split; [|done].
    apply (suspended_frame (m_stack m)); [done|]. intros a Ha.
    assert (block_start a <> block_start (call_esp m)); [|by apply Hst].
    rewrite (block_above (esp b)), Bs, Hb by done. apply (stacks_distinct m W); auto. by apply (mr_cp m W).
Qed.

(** The timer: the running program is suspended, the next one continues with the
    registers it was suspended with. *)
Lemma tick_irq m W :
  mach_rep m W -> exists m', irq F_PT m = Ok m' /\ mach_rep m' (mwstep (Irq Tick) W).
Proof.
  intros H. destruct (mr_interruptible m W H) as [I Hb]. pose proof (mr_cp m W H) as Hcp.
  pose proof (mr_sys _ _ H) as R0. set (k := call_kernel m). assert (sys_rep k (mw_sys W)) as R by exact (sys_cpu _ _ _ R0).
  destruct (sr_map _ _ R) as (prog & uvid & Rp).
  destruct (PT_handler_ticks J k prog _ uvid (sr_sched _ _ R) Rp) as (k' & tc & tn & E & Htc & Htn & T & _).
  destruct (tick_step J k _ R) as (k2 & E2 & R2 & _).
  assert (k2 = k') as ->. { rewrite (K_bind_Ok _ _ _ _ _ E) in E2. by injection E2. } clear E2.
  rewrite (sr_cp _ _ R) in Htc, Htn. set (cp := w_cp (mw_sys W)) in *. set (n := next_ter cp) in *.
  destruct (next_ter_range cp Hcp) as [Hn Hne]. fold n in Hn, Hne.
  destruct (mr_pid m W cp H Hcp) as (tc' & Htc' & Pc & Bc). assert (tc' = tc) as -> by (change (k_ter k) with (k_ter (m_k m)) in Htc; congruence).
  destruct (mr_pid m W n H Hn) as (tn' & Htn' & Pn & Bn). assert (tn' = tn) as -> by (change (k_ter k) with (k_ter (m_k m)) in Htn; congruence).
  destruct (mr_susp _ _ H n Hn Hne) as (bn & Hbn & Sn & Sb).
  destruct (tk_cpu _ _ _ _ T) as (bn' & Hbn' & Ecpu). rewrite Pn in Hbn'.
  assert (bn' = bn) as -> by (change (k_proc k) with (k_proc (m_k m)) in Hbn'; congruence).
  assert (r_esp (k_cpu k') = esp bn) as Esp by by rewrite Ecpu.
  destruct (interrupt_spec (kernel_fun J []) after F_PT m 0 k' (mw_ctx W n) I eq_refl eq_refl E) as (st & Ei & Sc & Hst).
  { right. rewrite Esp. split; [done|]. rewrite Sb, Hb. apply (stacks_distinct m W); auto. }
  eexists. split; [exact Ei|]. rewrite Esp in Hst.
  destruct (ticked_terminals _ _ _ _ T) as (At & _ & _).
  split; cbn [mwstep mw_sys mw_pid mw_ctx wstep w_cp]; fold cp n.
  - exact (sys_cpu _ _ _ R2).
  - etrans; [exact (f_equal (fmap prog_curr_pid) At)|]. apply H.
  - by rewrite context_of_with.
  - apply H.
  - exact (proj2 (tk_tss _ _ _ _ T)).
  - simpl. rewrite (proj1 (tk_tss _ _ _ _ T)), Pn. done.
  - intros t Ht Htn2. destruct (decide (t = cp)) as [->|Htc2].
    + destruct (tk_save _ _ _ _ T) as (bc & _ & Ep). rewrite Pc in Ep. eexists. split; [simpl; rewrite Ep; apply lookup_insert_eq|].
      split; [|exact Hb]. rewrite (mr_ctx _ _ H) in Sc. exact Sc.
    + destruct (mr_susp _ _ H t Ht Htc2) as (b & Hp & S & Bs). destruct (mr_pid m W t H Ht) as (_ & _ & _ & Bt). exists b. split.
      { simpl. rewrite (ticked_pcb _ _ _ _ _ T); [done|by rewrite Pc|done|]. rewrite Pc. by apply (mr_distinct m W). }
      split; [|done]. apply (suspended_frame (m_stack m)); [done|]. intros a Ha.
      apply Hst; rewrite (block_above (esp b)), Bs, ?Hb, ?Sb by done; by apply (stacks_distinct m W).
Qed.

(** A byte arrives at a device, which interrupts. *)
Lemma fed_irq m W f b (h : K unit) e :
  mach_rep m W -> nargs f = 0%nat -> is_void f = true ->
  (forall k ws, kernel_fun J [] f ws k = (h;; mret (Returns 0)) k) ->
  (exists k', (feed b;; h) (call_kernel m) = Ok (tt, k') /\ sys_rep k' (wstep e (mw_sys W)) /\
    quiet_for (call_kernel m) k') ->
  w_cp (wstep e (mw_sys W)) = w_cp (mw_sys W) ->
  exists m', (m ← on_kernel (feed b) m; irq f m) = Ok m' /\ mach_rep m' (mwstep (Irq e) W).
Proof.
  intros H Hn Hv Hf (k' & E & R & Q) Hcp. set (io := {| io_log := io_log (k_io (m_k m)); io_in := [b] |}).
  set (m0 := set_m_k (set_k_io io (m_k m)) m).
  assert (mach_rep m0 W) as H0 by (pose proof H as []; split; auto; by apply sys_io).
  destruct (quiet_irq m0 W f k' (wstep e (mw_sys W)) H0 Hn Hv) as (m' & Em & R'); auto.
  - rewrite Hf. change ((feed b;; h) (call_kernel m)) with (h (call_kernel m0)) in E. by rewrite (K_bind_Ok _ _ _ _ _ E).
  - destruct Q. by split.
  - by exists m'.
Qed.

Lemma mevent_step e m W : mach_rep m W -> mcan e W ->
  exists m', mhappens e m = Ok m' /\ mach_rep m' (mwstep e W).
Proof.
  intros H C. assert (sys_rep (call_kernel m) (mw_sys W)) as R by exact (sys_cpu _ _ _ (mr_sys _ _ H)).
  destruct e as [[|sc|b|c]|c]; cbn [mhappens mcan] in *.
  - by apply tick_irq.
  - destruct (key_event sc _ _ R C) as (k' & E & R' & Q & _).
    apply (fed_irq m W F_KB sc KB_handler (Key sc)); eauto. simpl. by destruct (is_switch _ _).
  - destruct (clock_step b _ _ R) as (k' & E & R' & Q & _). apply (fed_irq m W F_RT b RT_handler (Clock b)); eauto.
  - destruct (put_step c (m_k m) _ (mr_sys _ _ H)) as (k' & E & R' & [] & _). exists (set_m_k k' m).
    split; [unfold on_kernel; by rewrite E|]. pose proof H as [].
    assert (context_of (set_m_k k' m) = context_of m) as Ec
      by (unfold context_of, m_ebp, m_esp, m_flags; simpl; by rewrite qf_cpu).
    split; cbn [mwstep mw_sys mw_pid mw_ctx wstep w_cp]; auto; simpl; rewrite ?qf_tss, ?qf_proc; auto.
    + etrans; [exact qf_pids|done].
    + by rewrite Ec.
  - exists (with_context c m). split; [done|]. pose proof H as []. split; auto; cbn [mwstep mw_sys mw_pid mw_ctx].
    + exact (sys_cpu _ _ _ mr_sys0).
    + rewrite context_of_with. unfold upd. by rewrite Z.eqb_refl.
    + intros t Ht. unfold upd. destruct (Z.eqb_spec t (w_cp (mw_sys W))) as [->|]; auto.
    + intros t Ht Hne. unfold upd. rewrite (proj2 (Z.eqb_neq _ _) Hne). auto.
Qed.

Lemma mrun_rep es m W : mach_rep m W -> mcan_all es W ->
  exists m', mrun es m = Ok m' /\ mach_rep m' (mwrun es W).
Proof.
  revert m W. induction es as [|e es IH]; intros m W H C; [by exists m|]. destruct C as [Ce C].
  destruct (mevent_step e m W H Ce) as (m1 & E1 & H1). destruct (IH m1 _ H1 C) as (m' & E & H').
  exists m'. split; [simpl; by rewrite E1|done].
Qed.
End Preempt.

Section PreemptClaims.
Context `{L : Layout} (J : locals) (after : mach -> residue).

(** (C4) Programs are preempted without noticing: under every interleaving of timer, keyboard and
    clock interrupts (each through its wrapper, from [int] to [iret]), output, and instructions of the
    running programs, the machine refines the abstract system in which every terminal has a context
    that only its own program changes.  Whatever the compiled handlers leave in registers, flags and
    on the stack, the program of the terminal whose turn it is runs with exactly the registers, flags,
    stack and instruction pointer it had, in user mode or inside a system call, and the others are
    suspended in frames on their own kernel stacks. *)
Theorem preemption_refines es m W :
  mach_rep m W -> mcan_all es W ->
  exists m', mrun J after es m = Ok m' /\ mach_rep m' (mwrun es W) /\
    context_of m' = mw_ctx (mwrun es W) (w_cp (mw_sys (mwrun es W))).
Proof.
  intros H C. destruct (mrun_rep J after es m W H C) as (m' & E & R). exists m'.
  split; [done|]. split; [done|apply R].
Qed.
End PreemptClaims.
