(* ===== verification/PreemptExamples.v ===== *)
(** * Preemption on a concrete machine

    The theorem of Preempt.v applied to the three terminals of SchedExamples.v, each
    running a program in user mode. *)

From stdpp Require Import base gmap list numbers strings.
From Stdlib Require Import ZArith Lia.
From S2P Require Import Prelude Pointers Ports Pic Paging State Machine VirtMem CString MemFns.
From S2P Require Import Pcb Demo Screen FileSystem FileExamples Rtc Keyboard KeyboardExamples Syscalls.
From S2P Require Import Descriptors DescriptorExamples Sched SchedExamples System SystemExamples Idt Asm Wrappers Preempt.

(** The program of process [p], with registers that tell the processes apart. *)
Definition demo_context (p : Z) : context :=
  Ctx (100 + p) (110 + p) (120 + p) (130 + p) (140 + p) (150 + p) (160 + p) (0x8400000 - 64)
    0x202 (0x8048100 + p) USER_CS USER_DS.

(** Where its frame is while it is suspended. *)
Definition demo_frame_esp (p : Z) : Z := stack_top p - 56.
Definition demo_frame (p : Z) : gmap Z Z :=
  list_to_map (imap (fun i w => (demo_frame_esp p + 4 * Z.of_nat i, w)) (frame_words (demo_context p) 0 0)).

Definition demo_block (p : Z) : pcb := set_esp (demo_frame_esp p) zero_pcb.

Definition demo_preempt_pcbs : gmap Z pcb :=
  <[get_pcb_by_pid 1 := demo_block 1]> (<[get_pcb_by_pid 2 := demo_block 2]> demo_pcbs).

Definition demo_preempt_kernel : kernel :=
  set_k_cpu {| eflags := 0x202; r_esp := 0x8400000 - 64; r_ebp := 160 |}
    (set_k_tss {| ss0 := KERNEL_DS; esp0 := stack_top 0; ldt_segment_selector := 0 |}
    (set_k_proc (set_pcbs demo_preempt_pcbs (k_proc demo_sched)) demo_sched)).

Definition demo_mach : mach :=
  with_context (demo_context 0) {| m_eax := 0; m_ecx := 0; m_edx := 0; m_ebx := 0; m_esi := 0; m_edi := 0;
    m_eip := 0; m_cs := 0; m_ss := 0; m_ds := USER_DS; m_stack := demo_frame 1 ∪ demo_frame 2; m_k := demo_preempt_kernel |}.

(** A compiled kernel that leaves sevens everywhere. *)
Definition demo_residue (m : mach) : residue :=
  {| c_eax := 7; c_ecx := 7; c_edx := 7; c_ebx := 7; c_esi := 7; c_edi := 7; c_flags := 7;
     c_stack := {[ m_esp m - 4 := 7; m_esp m - 8 := 7 ]} |}.

Definition demo_mworld : mworld := MWorld demo_world (fun t => t) demo_context.

Lemma demo_preempt_sched : sched_ok demo_preempt_kernel.
Proof.
  pose proof demo_sched_ok as [].
  split; auto. intros p Hp. cbn. unfold demo_preempt_pcbs.
  rewrite !lookup_insert_is_Some'. right. right. by apply demo_pcbs_all.
Qed.

Lemma demo_suspended p : p = 1 \/ p = 2 ->
  suspended_at (m_stack demo_mach) (demo_frame_esp p) (demo_context p) /\
  block_start (demo_frame_esp p) = stack_base p.
Proof.
  intros Hp. split; [|by destruct Hp as [->| ->]]. split.
  - exists 0, 0. intros i w Hw. pose proof (lookup_lt_Some _ _ _ Hw) as Hi. simpl in Hi.
    destruct Hp as [->| ->]; do 14 (destruct i as [|i]; [vm_compute in Hw |- *; exact Hw|]); lia.
  - by left.
  - destruct Hp as [->| ->]; split; done.
  - by destruct Hp as [->| ->].
Qed.

Lemma demo_mach_rep : mach_rep (L := demo_layout) demo_mach demo_mworld.
Proof.
  split.
  - apply sys_cpu. pose proof demo_sys_rep as []. split; auto. exact demo_preempt_sched.
  - reflexivity.
  - reflexivity.
  - by left.
  - reflexivity.
  - reflexivity.
  - intros t Ht Hne. assert (t = 1 \/ t = 2) as Ht2 by (simpl in Hne; lia).
    exists (demo_block t). split; [by destruct Ht2 as [->| ->]; vm_compute|]. exact (demo_suspended t Ht2).
Qed.

(** A key, a tick, the second program changes its registers, the clock, two ticks: the
    first program again. *)
Definition demo_mevents : list mevent :=
  [Irq (Key 0x1E); Irq Tick; Runs (demo_context 5); Irq (Clock 0); Irq Tick; Irq Tick].

Lemma preemption_refines_witness :
  exists m', mrun (L := demo_layout) demo_locals demo_residue demo_mevents demo_mach = Ok m' /\
    context_of m' = demo_context 0 /\ mw_ctx (mwrun demo_mevents demo_mworld) 1 = demo_context 5.
Proof.
  destruct (preemption_refines (L := demo_layout) demo_locals demo_residue demo_mevents demo_mach demo_mworld)
    as (m' & E & _ & Hc).
  - exact demo_mach_rep.
  - repeat split; try discriminate. by left.
  - exists m'. split; [exact E|]. split; [exact Hc|reflexivity].
Defined.
