(* ===== verification/Traps.v ===== *)
(** * System calls, instruction by instruction

    [SYS_handler_wrapper_code] between [int $0x80] and [iret]: which registers the
    program finds changed, how the number selects the function, and how the parent of
    a program that ended returns from its own [int $0x80]. *)

From stdpp Require Import base gmap list numbers strings.
From Stdlib Require Import ZArith Lia.
From S2P Require Import Prelude Pointers Ports Pic Paging State Machine VirtMem CString MemFns.
From S2P Require Import Pcb Demo Screen Printf FileSystem Rtc Keyboard Terminal Syscalls Process Idt Sched Asm Wrappers.
From S2P Require Import Descriptors Command Exec Launch Halt Frame FrameCalls SchedStart.

(** The context of a program after its system call returned [eax]: the compiled kernel
    leaves something in ECX and EDX. *)
Definition sys_context (c : context) (eax ecx edx : Z) : context :=
  Ctx eax ecx edx (x_ebx c) (x_esi c) (x_edi c) (x_ebp c) (x_esp c) (x_flags c) (x_eip c) (x_cs c) (x_ss c).

(** The words the wrapper and the processor pushed, above the three arguments. *)
Definition sys_words (c : context) (fl : Z) : list Z :=
  [x_esi c; x_edi c; x_ebx c; fl; x_eip c; x_cs c; x_flags c; x_esp c; x_ss c].

(** A system call of the program [c] waits at [sp]. *)
Record calling_at (st : gmap Z Z) (sp : Z) (c : context) : Prop := {
  ca_frame : exists fl, words_at st (sp + 12) (sys_words c fl);
  ca_ctx : user_context c;
  ca_range : 0 <= sp < 2 ^ 32 - 128;
  ca_block : sp + 48 <= block_start sp + 0x2000;
}.

Section Traps.
Context (c_fun : cfun -> list Z -> K outcome) (after : mach -> residue).
Abbreviation step := (step c_fun after).
Abbreviation code := SYS_handler_wrapper_code.

(** [int $0x80] *)
Definition trap (m : mach) : res mach := run c_fun after code (int_enter m).

Lemma trap_runs m n r : runs (step code) (0%nat, int_enter m) n r -> (n < 64)%nat -> trap m = r.
Proof. apply run_runs. Qed.

Ltac one_step := eapply runs_step; [reflexivity|].

(** From [sys_call_return] to [iret]. *)
Lemma sys_pops m a c fl :
  words_at (m_stack m) a (sys_words c fl) -> user_context c -> 0 <= a < 2 ^ 32 - 64 -> m_cs m = KERNEL_CS ->
  m_ebp m = x_ebp c ->
  runs (step code) (17%nat, put_esp a m) 4 (Ok (with_context (sys_context c (m_eax m) (m_ecx m) (m_edx m)) m)).
Proof.
  intros H [Hcs Hss] Hr Hk Hbp. unfold sys_words in H.
  destruct (popl_ok m _ ESI _ _ H) as [E1 H1]; [lia|done|].
  destruct (popl_ok _ _ EDI _ _ H1) as [E2 H2]; [lia|done|].
  destruct (popl_ok _ _ EBX _ _ H2) as [E3 H3]; [lia|done|].
  destruct (popfl_ok _ _ _ _ H3) as [E4 H4]; [lia|]. clear H H1 H2 H3.
  eapply runs_step; [cbn [Asm.step SYS_handler_wrapper_code lookup list_lookup]; rewrite E1; done|].
  eapply runs_step; [cbn [Asm.step SYS_handler_wrapper_code lookup list_lookup]; rewrite E2; done|].
  eapply runs_step; [cbn [Asm.step SYS_handler_wrapper_code lookup list_lookup]; rewrite E3; done|].
  eapply runs_step; [cbn [Asm.step SYS_handler_wrapper_code lookup list_lookup]; rewrite E4; done|].
  clear E1 E2 E3 E4. apply runs_done. cbn [Asm.step SYS_handler_wrapper_code lookup list_lookup].
  destruct (iret_ok _ _ _ _ _ _ H4) as [_ E]; [lia|]. rewrite (E (x_esp c) (x_ss c)); [|by rewrite Hcs; unfold cpl; simpl; rewrite Hk|done].
  unfold with_context, sys_context. simpl. rewrite <- Hbp. done.
Qed.

(** From the return of the function to [iret]. *)
Lemma sys_returns m c :
  calling_at (m_stack m) (m_esp m) c -> m_cs m = KERNEL_CS -> m_ebp m = x_ebp c ->
  runs (step code) (12%nat, m) 8 (Ok (with_context (sys_context c (m_eax m) (m_ecx m) (m_edx m)) m)).
Proof.
  intros [(fl & Hw) Hu Hr Hb] Hk Hbp. one_step.
  eapply runs_step.
  { cbn [Asm.step SYS_handler_wrapper_code lookup list_lookup].
    instantiate (1 := (14%nat, _)). by destruct (Z.testbit _ _). }
  eapply runs_step; [cbn [Asm.step SYS_handler_wrapper_code lookup list_lookup exec_instr]; reflexivity|].
  one_step. match goal with |- runs _ (_, put ESP _ ?x) _ _ => set (m2 := x) end.
  change (get ESP _) with (m_esp m). change (u32 12) with 12. rewrite (u32_small (m_esp m + 12)) by lia.
  exact (sys_pops m2 (m_esp m + 12) c fl Hw Hu ltac:(lia) Hk Hbp).
Qed.

(** A user program that can make a system call. *)
Record can_trap (m : mach) : Prop := {
  ct_ctx : user_context (context_of m);
  ct_seg : ss0 (k_tss (m_k m)) = KERNEL_DS;
  ct_top : 256 <= esp0 (k_tss (m_k m)) < 2 ^ 32 - 128;
  ct_block : esp0 (k_tss (m_k m)) <= block_start (esp0 (k_tss (m_k m)) - 48) + 0x2000;
}.

(** The machine at the jump, with the number [n] in EAX. *)
Definition at_jump (st : gmap Z Z) (sp f n : Z) (m : mach) : mach :=
  put_flags f (put_esp sp (set_m_stack st (put EAX n (set_m_flow (m_eip m) KERNEL_CS KERNEL_DS m)))).

(** The flags there. *)
Definition trap_flags (m : mach) : Z :=
  sub_flags (u32 (m_eax m - 1)) 10
    (sub_flags (m_eax m) 1 (Z.setbit (Z.ldiff (m_flags m) 0x34300) IF_BIT)).

Lemma trap_flags_IF m : Z.testbit (trap_flags m) IF_BIT = true.
Proof. unfold trap_flags. by rewrite !(proj2 (proj2 (sub_flags_spec _ _ _))), Z.setbit_eq. Qed.

(** From [int $0x80] to the jump. *)
Lemma sys_enters m :
  can_trap m ->
  let top := esp0 (k_tss (m_k m)) in let n := u32 (m_eax m - 1) in
  exists st fl, words_at st (top - 36) (sys_words (context_of m) fl) /\
    (forall a, ~ (top - 36 <= a < top) -> st !! a = m_stack m !! a) /\
    forall k r, runs (step code) (if n <? 10 then 8%nat else 16%nat, at_jump st (top - 36) (trap_flags m) n m) k r ->
      runs (step code) (0%nat, int_enter m) (8 + k) r.
Proof.
  intros [Hu Hss Htop Hb] top n. set (fl := Z.ldiff (m_flags m) 0x34300).
  set (m0 := put_esp top (set_m_flow (m_eip m) (m_cs m) KERNEL_DS m)).
  set (pre := [m_ss m; m_esp m; m_flags m; m_cs m; m_eip m]).
  set (st_of := fun l => put_flags fl (set_m_flow (m_eip m) KERNEL_CS KERNEL_DS (push_all l m0))).
  assert (int_enter m = st_of pre) as E0.
  { rewrite (int_enter_frame m (or_introl Hu) Hss). rewrite user_in_user, user_frame_top by done. done. }
  destruct (push_all_spec (pre ++ [fl; m_ebx m; m_edi m; m_esi m]) m0) as (st & E & Hw & Hf).
  { change (m_esp m0) with top. simpl length. lia. }
  change (m_esp m0 - _) with (top - 36) in E, Hw, Hf. change (m_esp m0) with top in Hf.
  exists st, fl. split; [exact Hw|]. split; [exact Hf|].
  intros k r H. rewrite E0.
  assert (forall l w, push w (st_of l) = st_of (l ++ [w])) as Hpush by (intros; apply push_flow).
  assert (forall l r, r <> ESP -> get r (st_of l) = get r m) as Hget.
  { intros l q Hq. trans (get q (push_all l m0)); [by destruct q|]. rewrite push_all_get by done. by destruct q. }
  eapply runs_step; [cbn [Asm.step SYS_handler_wrapper_code lookup list_lookup exec_instr]; by rewrite Hpush|].
  do 3 (eapply runs_step; [cbn [Asm.step SYS_handler_wrapper_code lookup list_lookup exec_instr];
    rewrite Hget, Hpush by done; reflexivity|]).
  change (m_flags (st_of pre)) with fl. rewrite <- !app_assoc. cbn [app].
  change (pre ++ [fl; get EBX m; get EDI m; get ESI m]) with (pre ++ [fl; m_ebx m; m_edi m; m_esi m]).
  unfold st_of. rewrite E. clear E E0 Hpush Hget st_of. do 3 one_step.
  match goal with |- runs _ (_, ?x) _ _ => assert (x = at_jump st (top - 36) (trap_flags m) n m) as -> by reflexivity end.
  eapply runs_step; [|exact H]. cbn [Asm.step SYS_handler_wrapper_code lookup list_lookup].
  change (m_flags (at_jump st (top - 36) (trap_flags m) n m)) with (trap_flags m).
  unfold trap_flags. by rewrite (proj1 (sub_flags_spec _ _ _)).
Qed.

(** The kernel's state when the function of the number in EAX is called. *)
Definition trap_esp (m : mach) : Z := esp0 (k_tss (m_k m)) - 48.
Definition trap_kernel (m : mach) : kernel :=
  set_k_cpu {| eflags := trap_flags m; r_esp := trap_esp m; r_ebp := m_ebp m |} (m_k m).

(** The stack of a program that waits in its system call. *)
Lemma calling_frame st st' sp c :
  calling_at st sp c -> (forall a, sp + 12 <= a < block_start sp + 0x2000 -> st' !! a = st !! a) ->
  calling_at st' sp c.
Proof.
  intros [(fl & H) ???] Hf. split; auto. exists fl. eapply words_at_frame; [exact H|].
  intros a Ha. apply Hf. simpl in Ha. lia.
Qed.

(** A number outside 1..10: EAX is -1, nothing else changed. *)
Lemma trap_invalid m :
  can_trap m -> 10 <= u32 (m_eax m - 1) ->
  exists st, trap m = Ok (with_context (sys_context (context_of m) (u32 (-1)) (m_ecx m) (m_edx m))
      (set_m_stack st m)) /\
    forall a, block_start a <> block_start (trap_esp m) -> st !! a = m_stack m !! a.
Proof.
  intros C Hn. pose proof C as [Hu Hss Htop Hb]. destruct (sys_enters m C) as (st & fl & Hw & Hf & Hr).
  rewrite (proj2 (Z.ltb_ge _ _)) in Hr by done. set (top := esp0 (k_tss (m_k m))) in *.
  exists st. split.
  - eapply (trap_runs m 13); [|lia]. apply (Hr 5%nat). one_step.
    exact (sys_pops (put EAX (u32 (-1)) (at_jump st (top - 36) (trap_flags m) (u32 (m_eax m - 1)) m)) (top - 36)
      (context_of m) fl Hw Hu ltac:(lia) eq_refl eq_refl).
  - intros a Ha. apply Hf. intros Hin. apply Ha, block_start_in. unfold trap_esp. fold top.
    pose proof (block_start_le (top - 48)). lia.
Qed.

(** The machine at the call of the function, with its arguments pushed. *)
Lemma sys_calls m :
  can_trap m -> u32 (m_eax m - 1) < 10 ->
  exists st1 m1, m_stack m1 = st1 /\ m_k m1 = trap_kernel m /\ m_eax m1 = u32 (m_eax m - 1) /\
    m_cs m1 = KERNEL_CS /\ m_ds m1 = m_ds m /\
    words_at st1 (trap_esp m) [m_ebx m; m_ecx m; m_edx m] /\ calling_at st1 (trap_esp m) (context_of m) /\
    (forall a, block_start a <> block_start (trap_esp m) -> st1 !! a = m_stack m !! a) /\
    forall k r, runs (step code) (11%nat, m1) k r -> runs (step code) (0%nat, int_enter m) (11 + k) r.
Proof.
  intros C Hn. pose proof C as [Hu Hss Htop Hb]. destruct (sys_enters m C) as (st & fl & Hw & Hf & Hr).
  rewrite (proj2 (Z.ltb_lt _ _)) in Hr by done. unfold trap_esp in *. set (top := esp0 (k_tss (m_k m))) in *.
  set (A := at_jump _ _ _ _ _) in Hr.
  destruct (push_all_spec [m_edx m; m_ecx m; m_ebx m] A) as (st2 & E & Hw2 & Hf2).
  { change (m_esp A) with (top - 36). simpl length. lia. }
  change (m_esp A) with (top - 36) in *. change (4 * Z.of_nat _) with 12 in *.
  replace (top - 36 - 12) with (top - 48) in * by lia. change (m_stack A) with st in Hf2.
  exists st2, (put_esp (top - 48) (set_m_stack st2 A)). do 5 (split; [done|]). split; [exact Hw2|]. split; [|split].
  - split; [|done|lia|lia]. exists fl. replace (top - 48 + 12) with (top - 36) by lia.
    eapply words_at_frame; [exact Hw|]. intros b Hbb. apply Hf2. lia.
  - intros a Ha. rewrite Hf2, Hf; [done| |]; intros Hin; apply Ha, block_start_in;
      pose proof (block_start_le (top - 48)); lia.
  - intros k r H. apply (Hr (3 + k)%nat). do 2 one_step. eapply runs_step; [reflexivity|].
    change (runs (step code) (11%nat, push_all [m_edx m; m_ecx m; m_ebx m] A) k r). by rewrite E.
Qed.

(** A valid number: the function runs with the three registers as its arguments, and
    where its result goes. *)
Lemma trap_spec m o k' :
  can_trap m -> u32 (m_eax m - 1) < 10 ->
  c_fun (F_table (u32 (m_eax m - 1))) [m_ebx m; m_ecx m; m_edx m] (trap_kernel m) = Ok (o, k') ->
  let sp := trap_esp m in let sp' := r_esp (k_cpu k') in
  sp' = sp \/ (block_start sp' <> block_start sp /\ sp' + 12 <= block_start sp' + 0x2000) ->
  exists st ecx edx, calling_at st sp (context_of m) /\
    (forall a, block_start a <> block_start sp -> block_start a <> block_start sp' \/ sp' + 12 <= a ->
      st !! a = m_stack m !! a) /\
    let back eax := forall c, calling_at st sp' c -> r_ebp (k_cpu k') = x_ebp c ->
      trap m = Ok (with_context (sys_context c eax ecx edx) (set_m_stack st (set_m_k k' m))) in
    match o with
    | Returns v => back (u32 v)
    | Resumes v => back (exec_result v)
    | Enters eip usp => exists M, trap m = Ok M /\ m_stack M = st /\ m_eip M = eip /\ m_esp M = usp /\
        user_context (context_of M) /\ m_ds M = USER_DS /\ Z.testbit (m_flags M) IF_BIT = Z.testbit (eflags (k_cpu k')) IF_BIT /\
        m_k M = set_k_cpu (k_cpu (m_k M)) k'
    end.
Proof.
  intros C Hn Hfun sp sp' Hsp. destruct (sys_calls m C Hn) as (st1 & m1 & E1 & Ek & Ea & Ecs & Eds & Hw & Hc & Hf & Hr).
  pose proof Hc as [_ _ Hrange Hblock]. fold sp in Hw, Hc, Hf, Hrange, Hblock.
  set (cr := after m1). set (M := after_call cr 3 k' m1). set (st := stack_after cr 3 sp sp' st1).
  assert (m_esp m1 = sp) as Esp by (unfold m_esp; by rewrite Ek).
  assert (m_stack M = st) as EM by (unfold M; simpl; by rewrite Esp, E1).
  assert (call_c c_fun after (F_table (m_eax m1)) m1 = Ok (finish_call o M)) as Ecall.
  { unfold call_c. cbn [nargs]. rewrite E1, Esp, (load_words_ok _ _ _ _ Hw) by (done || simpl; lia).
    cbn [mbind res_bind]. rewrite Ek, Ea, Hfun. cbn [mbind res_bind fst snd is_void]. by destruct o. }
  exists st, (c_ecx cr), (c_edx cr). split; [|split].
  - apply (calling_frame st1); [done|]. intros a Ha. apply stack_after_lookup; [apply scratch_above; lia|].
    destruct Hsp as [->|[Hne Hb]]; [apply scratch_above; lia|]. apply scratch_other; [lia| |lia].
    rewrite (block_start_in sp a) by (pose proof (block_start_le sp); lia). done.
  - intros a Ha Ha'. rewrite <- Hf by done. apply stack_after_lookup; [apply scratch_other; (done || lia)|].
    destruct Ha' as [Ha'|Ha']; [|apply scratch_above; lia]. apply scratch_other; [lia|done|].
    destruct Hsp as [->|[_ Hb]]; lia.
  - intros back.
    assert (forall eax, finish_call o M = inl (put EAX eax M) -> back eax) as Hback.
    { intros eax Ho c Hca Hbp. eapply (trap_runs m 20); [|lia]. apply (Hr 9%nat). eapply runs_step.
      { cbn [Asm.step SYS_handler_wrapper_code lookup list_lookup get]. rewrite Ecall, Ho. reflexivity. }
      rewrite <- EM in Hca. assert (forall X, with_context X (set_m_stack st (set_m_k k' m)) =
        with_context X (put EAX eax M)) as -> by (intros; unfold with_context; simpl; by rewrite Eds, <- EM).
      exact (sys_returns (put EAX eax M) c Hca Ecs Hbp). }
    destruct o as [v|eip usp|v]; [by apply Hback| |by apply Hback].
    exists (put_esp usp (set_m_ds USER_DS (set_m_flow eip USER_CS USER_DS M))). split.
    { eapply (trap_runs m 11); [|lia]. apply (Hr 0%nat), runs_done.
      cbn [Asm.step SYS_handler_wrapper_code lookup list_lookup get]. by rewrite Ecall. }
    do 5 (split; [done|]). split; [apply flags_after_IF|done].
Qed.
End Traps.

(** ** The theorems *)

Section TrapClaims.
Context `{L : Layout} (J : locals) (after : mach -> residue).

(** (C6) A system call returns to the instruction behind [int $0x80].  With a number
    outside 1..10 EAX is -1, every other register and the kernel's state are as before.
    With a number in range the function of the jump table gets EBX, ECX and EDX as
    arguments, with interrupts enabled; when it returns, whatever the number, the
    arguments and the state, EAX is its result, and EBX, ESI, EDI, EBP, ESP, EFLAGS and
    the privilege level are the program's own, whatever the compiled function left in
    registers and on its stack.  (What happens while the call waits leaves the stack
    pointers alone, as the keyboard's and the clock's handlers do.) *)
Theorem syscall_returns irqs m :
  can_trap m -> Forall (preserves kept) irqs ->
  let n := u32 (m_eax m - 1) in
  let c := context_of m in
  (10 <= n -> exists st, trap (kernel_fun J irqs) after m =
    Ok (with_context (sys_context c (u32 (-1)) (x_ecx c) (x_edx c)) (set_m_stack st m))) /\
  (n < 10 -> Z.testbit (eflags (k_cpu (trap_kernel m))) IF_BIT = true /\
    forall v k', sys_call J irqs n (m_ebx m) (m_ecx m) (m_edx m) (trap_kernel m) = Ok (Returns v, k') ->
    exists st ecx edx, trap (kernel_fun J irqs) after m =
      Ok (with_context (sys_context c (u32 v) ecx edx) (set_m_stack st (set_m_k k' m))) /\
      forall a, block_start a <> block_start (trap_esp m) -> st !! a = m_stack m !! a).
Proof.
  intros C Hirqs n c. split.
  - intros Hn. destruct (trap_invalid (kernel_fun J irqs) after m C Hn) as (st & E & _). by exists st.
  - intros Hn. split; [apply trap_flags_IF|]. intros v k' E.
    destruct (returns_kept J irqs _ _ _ _ _ _ _ Hirqs E) as [Hsp Hbp _]. cbn in Hsp, Hbp.
    destruct (trap_spec (kernel_fun J irqs) after m (Returns v) k' C Hn E (or_introl Hsp))
      as (st & ecx & edx & Hc & Hst & Hback). exists st, ecx, edx.
    cbv zeta beta in Hback. rewrite Hsp in Hback, Hst.
    split; [by apply Hback|]. intros a Ha. apply Hst; [done|by left].
Qed.

Context (img : list Z) (start : Z).


(** The timer interrupt that starts a terminal's shell, from [int] to user mode. *)
Lemma timer_shell_enters m tn par c prog vid uvid rs inode p :
  interruptible m -> locals_ok J -> image_wf img ->
  KERNEL_MEM_START <= start /\ start + Z.of_nat (length img) <= 2 * _4_MB ->
  let k := call_kernel m in
  shell_due k tn par c prog vid uvid rs -> mounted img start start k ->
  (forall k, command_at k (shell J) (shell_text J)) ->
  program J img (c_str (cmd_name (shell_text J))) = Some inode -> 28 <= inode_len img inode <= load_cap ->
  free_pid (used_pids (k_proc k)) = Some p -> (par = get_pcb_by_pid (Z.of_nat p) -> Z.of_nat p < 3) ->
  let n := next_ter (curr_process (k_ter k)) in
  let page := page_of (curr_ter (k_ter k)) n in
  exists M k1 k' c1 b, interrupt (kernel_fun J []) after F_PT m = Ok M /\
    m_eip M = entry_point img inode /\ m_esp M = USER_ESP /\ user_context (context_of M) /\ m_ds M = USER_DS /\
    Z.testbit (m_flags M) IF_BIT = false /\ suspended_at (m_stack M) (call_esp m) (context_of m) /\
    m_k M = set_k_cpu (k_cpu (m_k M)) k' /\
    executed img inode (Z.of_nat p) (cmd_have_args (shell_text J)) (cmd_arg (shell_text J))
      k1 k' par c1 page ((fun _ => page) <$> uvid) (Tty rs 0 0) /\
    k_proc k1 = saved_procs k n b /\
    k_ter k1 = set_terminals (<[Z.to_nat n := set_screen_y_save 0 (set_screen_x_save 0 tn)]>
      (terminals (k_ter k))) (set_curr_process n (k_ter k)).
Proof.
  intros I HJ Wf Hs k D Mt Cm Hprog Hlen Hfree Hsame n page.
  destruct (shell_tick J img start k tn par c prog vid uvid rs inode p HJ Wf Hs D Mt Cm Hprog Hlen Hfree Hsame)
    as (k1 & k' & c1 & b & E & X & Hb & Hp1 & Ht1 & _ & _ & _ & Hcpu).
  pose proof (ex_cpu _ _ _ _ _ _ _ _ _ _ _ _ X) as Hcpu'. rewrite Hcpu in Hcpu'.
  destruct (interrupt_enters (kernel_fun J []) after F_PT m _ _ k' I eq_refl eq_refl E) as
    (M & EM & Hip & Hsp & Hu & Hds & Hif & HMk & Sc & _); [by rewrite Hcpu'|].
  exists M, k1, k', c1, b. do 5 (split; [done|]). split; [rewrite Hif, Hcpu'; apply Z.clearbit_eq|].
  do 2 (split; [done|]). split; [exact X|]. by split.
Qed.

(** (C19) The timer interrupt that starts a terminal's shell, from [int] to the shell's first
    instruction: the program it interrupted is suspended in a frame on its own kernel stack at the
    address saved in the block with the number of its terminal (the first terminal's shell saves
    nothing), and the shell starts in user mode with the interrupt flag clear: it cannot be preempted
    before its first system call. *)
Theorem timer_shell_runs m tn par c prog vid uvid rs inode p :
  interruptible m -> locals_ok J -> image_wf img ->
  KERNEL_MEM_START <= start /\ start + Z.of_nat (length img) <= 2 * _4_MB ->
  let k := call_kernel m in
  shell_due k tn par c prog vid uvid rs -> mounted img start start k ->
  (forall k, command_at k (shell J) (shell_text J)) ->
  program J img (c_str (cmd_name (shell_text J))) = Some inode -> 28 <= inode_len img inode <= load_cap ->
  free_pid (used_pids (k_proc k)) = Some p -> (par = get_pcb_by_pid (Z.of_nat p) -> Z.of_nat p < 3) ->
  get_pcb_by_pid (curr_process (k_ter k)) <> get_pcb_by_pid (Z.of_nat p) ->
  exists M, interrupt (kernel_fun J []) after F_PT m = Ok M /\
    m_eip M = entry_point img inode /\ m_esp M = USER_ESP /\ user_context (context_of M) /\ m_ds M = USER_DS /\
    Z.testbit (m_flags M) IF_BIT = false /\
    suspended_at (m_stack M) (call_esp m) (context_of m) /\
    (next_ter (curr_process (k_ter k)) <> 0 -> exists b,
      pcbs (k_proc (m_k M)) !! get_pcb_by_pid (curr_process (k_ter k)) = Some b /\ esp b = call_esp m) /\
    curr_process (k_ter (m_k M)) = next_ter (curr_process (k_ter k)) /\
    esp0 (k_tss (m_k M)) = 0x800000 - 4 - Z.of_nat p * 0x2000.
Proof.
  intros I HJ Wf Hs k D Mt Cm Hprog Hlen Hfree Hsame Hne.
  destruct (timer_shell_enters m tn par c prog vid uvid rs inode p I HJ Wf Hs D Mt Cm Hprog Hlen Hfree Hsame)
    as (M & k1 & k' & c1 & b & EM & Hip & Hsp & Hu & Hds & Hif & Sc & HMk & X & Hp1 & Ht1). fold k in Hp1, Ht1.
  exists M. do 7 (split; [done|]). rewrite HMk. split; [|split].
  - intros Hn. simpl. destruct (ex_proc _ _ _ _ _ _ _ _ _ _ _ _ X) as (old & ->). cbn [pcbs].
    rewrite lookup_insert_ne by done. rewrite Hp1. unfold saved_procs.
    rewrite (proj2 (Z.eqb_neq _ _) Hn). cbn [pcbs set_pcbs]. rewrite lookup_insert_eq. by eexists.
  - simpl. by rewrite (ex_cp _ _ _ _ _ _ _ _ _ _ _ _ X), Ht1.
  - apply X.
Qed.
End TrapClaims.
