(* ===== verification/TrapExamples.v ===== *)
(** * System calls on a concrete machine

    The theorems of Traps.v applied to the process of ProcessExamples.v that starts the
    program "shell", now as a machine in user mode. *)

From stdpp Require Import base gmap list numbers strings.
From Stdlib Require Import ZArith Lia.
From S2P Require Import Prelude Pointers Ports Pic Paging State Machine VirtMem CString MemFns.
From S2P Require Import Pcb Demo Screen Printf FileSystem FileExamples Syscalls Process Descriptors.
From S2P Require Import DescriptorExamples Command Exec Launch Halt ProcessExamples.
From S2P Require Import Idt Sched SchedStart StartExamples Asm Wrappers System Preempt Traps.

#[local] Opaque prog_img cleared_mem.

Definition call_context (eax ebx : Z) : context :=
  Ctx eax 0 0 ebx 140 150 160 0x83FFF00 0x202 0x8048200 USER_CS USER_DS.

(** Process 0 in user mode, with the call's number and first argument. *)
Definition trap_mach (eax ebx : Z) (esp0_ : Z) (st : gmap Z Z) (k : kernel) : mach :=
  with_context (call_context eax ebx) {| m_eax := 0; m_ecx := 0; m_edx := 0; m_ebx := 0; m_esi := 0; m_edi := 0;
    m_eip := 0; m_cs := 0; m_ss := 0; m_ds := USER_DS; m_stack := st;
    m_k := set_k_tss {| ss0 := KERNEL_DS; esp0 := esp0_; ldt_segment_selector := 0 |} k |}.

Definition trap_residue (m : mach) : residue :=
  {| c_eax := 7; c_ecx := 8; c_edx := 9; c_ebx := 7; c_esi := 7; c_edi := 7; c_flags := 7; c_stack := ∅ |}.

Lemma trap_mach_can eax ebx q st k : 0 <= q < 6 -> can_trap (trap_mach eax ebx (stack_top q) st k).
Proof.
  intros Hq. split; try done; cbn [trap_mach with_context m_k k_tss set_k_tss set_k_cpu esp0].
  - unfold stack_top. lia.
  - rewrite (block_start_stack q) by (done || unfold stack_base, stack_top; lia). unfold stack_base, stack_top. lia.
Qed.

(** Number 11 is refused; closing descriptor 1 (number 6) is an error of the call. *)
Lemma syscall_returns_witness :
  (exists st, trap (kernel_fun (L := demo_layout) demo_locals []) trap_residue (trap_mach 11 1 (stack_top 0) ∅ demo_exec) =
    Ok (with_context (call_context (u32 (-1)) 1) (set_m_stack st (trap_mach 11 1 (stack_top 0) ∅ demo_exec)))) /\
  exists M, trap (kernel_fun (L := demo_layout) demo_locals []) trap_residue (trap_mach 6 1 (stack_top 0) ∅ demo_exec) = Ok M /\
    m_eax M = u32 (-1) /\ m_ebx M = 1 /\ m_eip M = 0x8048200.
Proof.
  split.
  - apply (proj1 (syscall_returns (L := demo_layout) demo_locals trap_residue []
      (trap_mach 11 1 (stack_top 0) ∅ demo_exec) (trap_mach_can 11 1 0 ∅ demo_exec ltac:(lia)) (Forall_nil_2 _))).
    discriminate.
  - destruct (proj2 (syscall_returns (L := demo_layout) demo_locals trap_residue []
      (trap_mach 6 1 (stack_top 0) ∅ demo_exec) (trap_mach_can 6 1 0 ∅ demo_exec ltac:(lia)) (Forall_nil_2 _))) as [_ H]; [reflexivity|].
    destruct (H (-1) (trap_kernel (trap_mach 6 1 (stack_top 0) ∅ demo_exec))) as (st & ecx & edx & E & _); [reflexivity|].
    eexists. split; [exact E|]. split; [reflexivity|]. split; reflexivity.
Defined.

(** The name of the only file, in the image. *)
Definition trap_text : list Z := take 32 (drop 64 prog_img).

#[local] Transparent prog_img.
Lemma trap_text_is : trap_text = bytes_of_string "shell" ++ zeros 27.
Proof. by vm_compute. Qed.
#[local] Opaque prog_img.

Lemma mounted_trap eax ebx e st k :
  mounted (L := demo_layout) prog_img demo_start demo_start k ->
  mounted (L := demo_layout) prog_img demo_start demo_start (trap_kernel (trap_mach eax ebx e st k)).
Proof. intros []. by split. Qed.

Lemma trap_command k :
  mounted (L := demo_layout) prog_img demo_start demo_start k -> command_at k (vptr (L := demo_layout) (demo_start + 64)) trap_text.
Proof.
  intros M. split.
  - exact (holds_image (vptr (L := demo_layout)) prog_img demo_start k 64 32 (mounted_image _ _ _ _ M) ltac:(lia)).
  - rewrite trap_text_is. repeat constructor; done.
  - rewrite trap_text_is. left. vm_compute. lia.
  - rewrite trap_text_is. discriminate.
  - rewrite trap_text_is. discriminate.
Qed.

Lemma kernel_ok_trap eax ebx q st k p b prog vid uvid t :
  kernel_ok (L := demo_layout) k p b prog vid uvid t -> Z.land (stack_top q - 48) PCB_8KB_MASK = p ->
  kernel_ok (L := demo_layout) (trap_kernel (trap_mach eax ebx (stack_top q) st k)) p b prog vid uvid t.
Proof. intros [[_ Hb] H2 H3 H4 H5 H6] Hp. split; auto; [by split|]. by destruct H4; split. Qed.

Definition trap_parent : mach := trap_mach 2 (demo_start + 64) (stack_top 0) ∅ demo_exec.

Lemma trap_parent_ok :
  kernel_ok (L := demo_layout) (trap_kernel trap_parent) 0x7FE000 (numbered 0) (Some 0) VIDEO_PAGE None clear_tty.
Proof. apply (kernel_ok_trap 2 (demo_start + 64) 0); [exact demo_exec_ok|reflexivity]. Qed.

(** The child, which did nothing but set its registers. *)
Definition trap_child (M : mach) : mach := trap_mach 1 7 (stack_top 3) (m_stack M) (m_k M).


(** Process 0 spins inside a system call when the timer finds the second terminal empty. *)
Definition idle_context : context :=
  Ctx 1 2 3 4 5 6 0x7FFF80 0x7FFF30 0x202 0x401000 KERNEL_CS KERNEL_DS.
Definition idle_mach (k : kernel) : mach :=
  with_context idle_context {| m_eax := 0; m_ecx := 0; m_edx := 0; m_ebx := 0; m_esi := 0; m_edi := 0;
    m_eip := 0; m_cs := 0; m_ss := 0; m_ds := USER_DS; m_stack := ∅;
    m_k := set_k_tss {| ss0 := KERNEL_DS; esp0 := stack_top 0; ldt_segment_selector := 0 |} k |}.

Lemma idle_interruptible k : interruptible (idle_mach k).
Proof. split; [by right|reflexivity|split; [discriminate|reflexivity]|discriminate]. Qed.

Lemma idle_due k tn par c prog vid uvid rs :
  shell_due (L := demo_layout) k tn par c prog vid uvid rs -> Z.land 0x7FFF00 PCB_8KB_MASK = par ->
  shell_due (L := demo_layout) (call_kernel (idle_mach k)) tn par c prog vid uvid rs.
Proof. intros D Hp. destruct (sd_running _ _ _ _ _ _ _ _ D) as [_ Hb]. destruct D. split; auto. by split. Qed.

Lemma idle_mounted k :
  mounted (L := demo_layout) prog_img demo_start demo_start k ->
  mounted (L := demo_layout) prog_img demo_start demo_start (call_kernel (idle_mach k)).
Proof. intros []. by split. Qed.

Lemma timer_shell_runs_witness :
  exists M, interrupt (kernel_fun (L := demo_layout) demo_locals []) trap_residue F_PT (idle_mach demo_due) = Ok M /\
    m_eip M = 0x80482E8 /\ m_ds M = USER_DS /\ Z.testbit (m_flags M) IF_BIT = false /\ curr_process (k_ter (m_k M)) = 1.
Proof.
  destruct (timer_shell_runs (L := demo_layout) demo_locals trap_residue prog_img demo_start (idle_mach demo_due)
    (run_as (-1) (-1) bss_terminal) 0x7FE000 (numbered 0) (Some 0) VIDEO_PAGE None (rows clear_tty) 0 1)
    as (M & E & Hip & _ & _ & Hds & Hif & _ & _ & Hcp & _).
  - apply idle_interruptible.
  - exact demo_locals_ok.
  - exact prog_img_wf.
  - exact prog_bounds.
  - apply idle_due; [by apply due_state_ok|reflexivity].
  - apply idle_mounted, due_state_mounted.
  - exact shell_command_at.
  - apply demo_program. reflexivity.
  - exact prog_fits.
  - reflexivity.
  - discriminate.
  - discriminate.
  - exists M. split; [exact E|]. split; [rewrite Hip; exact prog_entry|]. split; [exact Hds|]. split; [exact Hif|exact Hcp].
Defined.
