(* ===== verification/Nested.v ===== *)
(** * Programs that start programs

    A program starts another one with [int $0x80] and waits until it ends; the other one does the
    same, and so on.  Here whole runs of such calls are followed, on the machine of Asm.v, through
    SYS_handler_wrapper, [sys_execute] and [sys_halt]: they refine a stack of waiting programs, each
    with the registers and the memory it left. *)

From stdpp Require Import base gmap list numbers strings.
From Stdlib Require Import ZArith Lia.
From S2P Require Import Prelude Pointers Ports Pic Paging State Machine VirtMem CString MemFns.
From S2P Require Import Pcb Demo Screen Printf FileSystem Rtc Keyboard Terminal Syscalls Process.
From S2P Require Import Descriptors Command Exec Launch Halt Sched System Asm Wrappers Preempt Traps.

(** ** The abstract system *)

(** A program that waits for the one it started: its process number, its registers and the physical
    memory when it made the call. *)
Record waiting : Type := Waits { w_pid : Z; w_ctx : context; w_mem : gmap Z Z }.

Record nest : Type := Nest {
  s_pid : Z;             (* the program that runs *)
  s_used : list Z;       (* the process numbers in use *)
  s_mem : gmap Z Z;      (* memory; what matters is the page of the program that runs *)
  s_waiting : list waiting;
}.

(** What the program that runs does next: it stores bytes into its page, comes to the registers [c],
    and makes [int $0x80] to start the program of the command [l], or to end. *)
Inductive act : Type :=
| Exec (c : context) (stores : gmap Z Z) (l : list Z)
| Halt (c : context) (stores : gmap Z Z).

(** The 4 MB of physical memory of process [q]. *)
Definition frame_of (q a : Z) : Prop := (q + 2) * _4_MB <= a < (q + 3) * _4_MB.

Definition act_ctx (a : act) : context := match a with Exec c _ _ | Halt c _ => c end.
Definition act_stores (a : act) : gmap Z Z := match a with Exec _ s _ | Halt _ s => s end.

(** The registers at the first instruction of a program. *)
Definition at_start (img : list Z) (inode : Z) (c : context) : Prop :=
  x_eip c = entry_point img inode /\ x_esp c = USER_ESP /\ user_context c.

Section Nest.
Context (J : locals) (img : list Z).

(** [nests s a c s']: in [s] the program that runs does [a]; then the program of [s'] runs, with the
    registers [c]. *)
Inductive nests : nest -> act -> context -> nest -> Prop :=
| N_starts q used mem ws c stores l inode p c' mem' :
    program J img (c_str (cmd_name l)) = Some inode -> free_pid used = Some p ->
    at_start img inode c' -> bytes_at mem' (load_pa (Z.of_nat p)) (file_contents img inode) ->
    nests (Nest q used mem ws) (Exec c stores l) c'
      (Nest (Z.of_nat p) (<[p := 1]> used) mem' (Waits q c (stores ∪ mem) :: ws))
| N_refused q used mem ws c stores l ecx edx :
    program J img (c_str (cmd_name l)) = None \/ free_pid used = None ->
    nests (Nest q used mem ws) (Exec c stores l) (sys_context c (u32 (-1)) ecx edx)
      (Nest q used (stores ∪ mem) ws)
| N_ends q used mem q' c' mem' ws c stores ecx edx :
    nests (Nest q used mem (Waits q' c' mem' :: ws)) (Halt c stores)
      (sys_context c' (if u8 (x_ebx c) =? HALT_STATUS_EXC then 256 else 0) ecx edx)
      (Nest q' (<[Z.to_nat q := 0]> used) mem' ws)
| N_again q used mem c stores inode c' mem' :
    program J img (c_str (cmd_name (shell_text J))) = Some inode ->
    at_start img inode c' -> bytes_at mem' (load_pa q) (file_contents img inode) ->
    nests (Nest q used mem []) (Halt c stores) c' (Nest q used mem' []).

(** The numbers: the three shells' are in use, the stack has no number twice, and only its last
    program is a shell. *)
Record nest_wf (s : nest) : Prop := {
  nw_used : length (s_used s) = 6%nat;
  nw_shells i : 0 <= i < 3 -> s_used s !! Z.to_nat i = Some 1;
  nw_live q : q ∈ s_pid s :: (w_pid <$> s_waiting s) -> 0 <= q < 6 /\ s_used s !! Z.to_nat q = Some 1;
  nw_once : NoDup (s_pid s :: (w_pid <$> s_waiting s));
}.

(** The command stands in the program's page. *)
Record command_in (q : Z) (mem : gmap Z Z) (a : Z) (l : list Z) : Prop := {
  ci_page : _128_MB <= a /\ a + Z.of_nat (length l) <= _132_MB;
  ci_at : bytes_at mem ((q + 2) * _4_MB + (a - _128_MB)) l;
  ci_bytes : Forall is_byte l;
  ci_name : name_ends l;
  ci_arg : arg_ends l;
  ci_nonempty : cmd_name l <> [];
}.

(** What a program can do: it stores into its own page only, and runs in user mode. *)
Definition allowed (s : nest) (a : act) : Prop :=
  (forall x, is_Some (act_stores a !! x) -> frame_of (s_pid s) x) /\ user_context (act_ctx a) /\
  match a with
  | Exec c stores l => x_eax c = 2 /\ command_in (s_pid s) (stores ∪ s_mem s) (x_ebx c) l /\
      forall inode, program J img (c_str (cmd_name l)) = Some inode -> 28 <= inode_len img inode <= load_cap
  | Halt c _ => x_eax c = 1
  end.

Lemma free_not_live s p q :
  nest_wf s -> free_pid (s_used s) = Some p -> q ∈ s_pid s :: (w_pid <$> s_waiting s) -> q <> Z.of_nat p.
Proof.
  intros H [Hp _]%free_pid_Some Hq ->. destruct (nw_live s H _ Hq) as [_ Hu]. rewrite Nat2Z.id in Hu. congruence.
Qed.

Lemma free_no_shell s p : nest_wf s -> free_pid (s_used s) = Some p -> 3 <= Z.of_nat p < 6.
Proof.
  intros H [Hp _]%free_pid_Some. pose proof (lookup_lt_Some _ _ _ Hp) as Hl. rewrite (nw_used s H) in Hl.
  destruct (decide (Z.of_nat p < 3)) as [Hlt|]; [|lia].
  pose proof (nw_shells s H (Z.of_nat p) ltac:(lia)) as Hs. rewrite Nat2Z.id in Hs. congruence.
Qed.
End Nest.

(** ** The machine *)

(** The way back from process [q] through the programs [ws] that wait: its block names its parent, and
    the parent's stack holds the frame of its call. *)
Fixpoint way_back (bs : gmap Z pcb) (st : gmap Z Z) (q : Z) (ws : list waiting) : Prop :=
  exists b, bs !! get_pcb_by_pid q = Some b /\ pid b = q /\ closable (fdt b) /\
    match ws with
    | [] => q < 3 /\ par_pid b = q
    | w :: ws => 3 <= q /\ par_pid b = w_pid w /\ par_pcb_ptr b = get_pcb_by_pid (w_pid w) /\
        par_esp b = stack_top (w_pid w) - 48 /\ par_ebp b = x_ebp (w_ctx w) /\
        calling_at st (stack_top (w_pid w) - 48) (w_ctx w) /\ way_back bs st (w_pid w) ws
    end.

Lemma way_back_frame bs bs' st st' q ws :
  way_back bs st q ws ->
  (forall x, x ∈ q :: (w_pid <$> ws) -> bs' !! get_pcb_by_pid x = bs !! get_pcb_by_pid x) ->
  (forall x c, x ∈ w_pid <$> ws -> calling_at st (stack_top x - 48) c -> calling_at st' (stack_top x - 48) c) ->
  way_back bs' st' q ws.
Proof.
  revert q. induction ws as [|w ws IH]; intros q (b & Hb & Hp & Hf & H) Hbs Hst; exists b;
    (split; [rewrite Hbs; [done|by left]|]); [done|].
  destruct H as (H3 & Hpar & Hptr & Hesp & Hebp & Hc & Hw). do 7 (split; [done|]). split; [by apply Hst; [left|]|].
  apply IH; [done|..]; intros; [apply Hbs|apply Hst]; by try right.
Qed.

Lemma call_block q : 0 <= q < 6 -> block_start (stack_top q - 48) = stack_base q.
Proof. intros Hq. apply block_start_stack; [done|]. unfold stack_base, stack_top. lia. Qed.

(** A frame stays when its block is left alone. *)
Lemma calling_other st st' x c :
  0 <= x < 6 -> calling_at st (stack_top x - 48) c ->
  (forall a, block_start a = stack_base x -> stack_top x - 36 <= a -> st' !! a = st !! a) ->
  calling_at st' (stack_top x - 48) c.
Proof.
  intros Hx H Hst. apply (calling_frame st); [done|]. intros a Ha. apply Hst; [|lia].
  rewrite <- (call_block x Hx). apply block_start_in. pose proof (block_start_le (stack_top x - 48)). lia.
Qed.

Section Machine.
Context `{L : Layout} (J : locals) (after : mach -> residue) (irqs : list (K unit)).
Context (img : list Z) (start vid : Z) (uvid : option Z).

(** The program runs, up to [int $0x80]. *)
Definition user_runs (a : act) (m : mach) : mach :=
  with_context (act_ctx a) (set_m_k (set_k_mem (act_stores a ∪ k_mem (m_k m)) (m_k m)) m).

Definition do_act (a : act) (m : mach) : res mach := trap (kernel_fun J irqs) after (user_runs a m).

(** The machine [m] is in the abstract state [s]: page tables, kernel stack, process table and
    terminal are those of the program that runs, and every program that waits has its memory. *)
Record nest_rep (m : mach) (s : nest) : Prop := {
  nr_wf : nest_wf s;
  nr_map : paging_rep (k_pg (m_k m)) (Some (s_pid s)) vid uvid;
  nr_screen : exists t, tty_rep (m_k m) vid t;
  nr_used : used_pids (k_proc (m_k m)) = s_used s;
  nr_blocks q : 0 <= q < 6 -> exists b, pcbs (k_proc (m_k m)) !! get_pcb_by_pid q = Some b /\
    length (fdt b) = 8%nat /\ length (args b) = 128%nat;
  nr_ter : exists t, terminals (k_ter (m_k m)) !! Z.to_nat (curr_process (k_ter (m_k m))) = Some t /\
    prog_curr_pid t = s_pid s;
  nr_fs : mounted img start start (m_k m);
  nr_tss : esp0 (k_tss (m_k m)) = stack_top (s_pid s) /\ ss0 (k_tss (m_k m)) = KERNEL_DS;
  nr_back : way_back (pcbs (k_proc (m_k m))) (m_stack m) (s_pid s) (s_waiting s);
  nr_mem : forall x, frame_of (s_pid s) x -> k_mem (m_k m) !! x = s_mem s !! x;
  nr_kept : Forall (fun w => forall x, frame_of (w_pid w) x -> k_mem (m_k m) !! x = w_mem w !! x) (s_waiting s);
}.

Hypothesis HJ : locals_ok J.
Hypothesis W : image_wf img.
Hypothesis Hstart : KERNEL_MEM_START <= start /\ start + Z.of_nat (length img) <= 2 * _4_MB.
Hypothesis Hvid : 0 <= vid < 1024.

Lemma frame_of_user q x : 0 <= q -> frame_of q x -> 2 * _4_MB <= x.
Proof. unfold frame_of, _4_MB. lia. Qed.

Lemma frame_of_other q q' x : frame_of q x -> frame_of q' x -> q = q'.
Proof. unfold frame_of, _4_MB. lia. Qed.

Lemma stores_outside s a x q :
  allowed J img s a -> frame_of q x \/ x < 2 * _4_MB -> q <> s_pid s -> 0 <= s_pid s -> act_stores a !! x = None.
Proof.
  intros [H _] Hx Hq Hp. apply eq_None_not_Some. intros Hs. apply H in Hs.
  destruct Hx as [Hx|Hx]; [by apply Hq, (frame_of_other q _ x)|]. apply frame_of_user in Hs; lia.
Qed.

(** The program's own run keeps the relation. *)
Lemma user_runs_rep a m s :
  nest_rep m s -> allowed J img s a ->
  nest_rep (user_runs a m) (Nest (s_pid s) (s_used s) (act_stores a ∪ s_mem s) (s_waiting s)).
Proof.
  intros [] A. pose proof (nw_live s nr_wf0 (s_pid s) ltac:(by left)) as [Hp _].
  assert (forall x q, frame_of q x \/ x < 2 * _4_MB -> q <> s_pid s ->
    (act_stores a ∪ k_mem (m_k m)) !! x = k_mem (m_k m) !! x) as Hout.
  { intros x q Hx Hq. apply lookup_union_r. apply (stores_outside s a x q); [done..|lia]. }
  split; try done.
  - by destruct nr_wf0.
  - destruct nr_screen0 as (t & Ht). exists t. apply (tty_rep_ext (m_k m)); try done; [by eexists _, _|].
    intros x Hx. apply (Hout x (s_pid s + 1)); [right; unfold _4_MB|]; lia.
  - apply (kernel_mounted img start Hstart (m_k m) (m_k (user_runs a m)) _ _ _ nr_fs0 nr_map0); [done|].
    intros x Hx. apply (Hout x (s_pid s + 1)); [right|]; lia.
  - intros x Hx. simpl. by rewrite !lookup_union, nr_mem0.
  - simpl. pose proof (nw_once s nr_wf0) as Hn. apply NoDup_cons in Hn as [Hn _].
    apply Forall_forall. intros w Hw x Hx. rewrite (Hout x (w_pid w)); [|by left|].
    + by apply (proj1 (Forall_forall _ _) nr_kept0).
    + intros E. apply Hn. rewrite <- E. by apply list_elem_of_fmap_2.
Qed.

(** At the trap. *)
Lemma trap_ready m s :
  nest_rep m s -> user_context (context_of m) ->
  can_trap m /\ trap_esp m = stack_top (s_pid s) - 48 /\ 0 <= s_pid s < 6 /\ mounted img start start (trap_kernel m) /\
  exists b t, pcbs (k_proc (m_k m)) !! get_pcb_by_pid (s_pid s) = Some b /\ pid b = s_pid s /\ closable (fdt b) /\
    kernel_ok (trap_kernel m) (get_pcb_by_pid (s_pid s)) b (Some (s_pid s)) vid uvid t.
Proof.
  intros [] Hu. pose proof (nw_live s nr_wf0 (s_pid s) ltac:(by left)) as [Hp _]. destruct nr_tss0 as [He Hs].
  assert (trap_esp m = stack_top (s_pid s) - 48) as Ht by (unfold trap_esp; by rewrite He).
  pose proof (call_block _ Hp) as Hb. split; [|split; [done|split; [done|split; [by destruct nr_fs0|]]]].
  - split; [done|done|..]; rewrite He; [unfold stack_top; lia|]. rewrite Hb. unfold stack_top, stack_base. lia.
  - destruct nr_screen0 as (t & Htt). assert (exists b, pcbs (k_proc (m_k m)) !! get_pcb_by_pid (s_pid s) = Some b /\
      pid b = s_pid s /\ closable (fdt b)) as (b & E & Ep & Ec).
    { destruct (s_waiting s), nr_back0 as (b & E & Ep & Ec & _); by exists b. }
    exists b, t. do 3 (split; [done|]). split; [split; [|exact E]|exact nr_map0|exact Hvid| | |exact nr_blocks0].
    + simpl. rewrite Ht. pose proof (curr_pcb_addr (s_pid s) (trap_kernel m) ltac:(lia)) as Hc.
      cbn [trap_kernel k_cpu set_k_cpu r_esp] in Hc. rewrite Ht in Hc.
      unfold get_curr_pcb in Hc. assert (on_stack_of (s_pid s) (stack_top (s_pid s) - 48)) as Ho
        by (unfold on_stack_of, stack_top, _8MB, _8KB; lia). specialize (Hc Ho).
      injection Hc as Hc. cbn in Hc. by rewrite Ht in Hc.
    + apply (tty_rep_ext (m_k m)); try done. by eexists _, _.
    + simpl. rewrite nr_used0. apply nr_wf0.
Qed.

Lemma nest_wf_starts s p mem c mem0 :
  nest_wf s -> free_pid (s_used s) = Some p ->
  nest_wf (Nest (Z.of_nat p) (<[p := 1]> (s_used s)) mem (Waits (s_pid s) c mem0 :: s_waiting s)).
Proof.
  intros H Hf. pose proof (free_no_shell s p H Hf) as Hp. pose proof (nw_used s H) as Hl.
  split; simpl.
  - by rewrite length_insert.
  - intros i Hi. rewrite list_lookup_insert_ne by lia. by apply H.
  - intros q [->|Hq]%elem_of_cons; [rewrite Nat2Z.id; split; [lia|apply list_lookup_insert_eq; lia]|].
    pose proof (free_not_live s p q H Hf Hq) as Hne. destruct (nw_live s H q Hq) as [Hr Hu]. split; [done|].
    rewrite list_lookup_insert_ne by lia. done.
  - apply NoDup_cons. split; [|by apply H]. intros Hq. by apply (free_not_live s p _ H Hf Hq).
Qed.

Lemma run_as_strip k k' p q ts i :
  strip_cursor <$> terminals (k_ter k') = alter (run_as p q) i (strip_cursor <$> terminals (k_ter k)) ->
  Z.to_nat (curr_process (k_ter k')) = i -> terminals (k_ter k) !! i = Some ts ->
  exists t, terminals (k_ter k') !! Z.to_nat (curr_process (k_ter k')) = Some t /\ prog_curr_pid t = p.
Proof.
  intros H <- Hts. apply (f_equal (lookup (Z.to_nat (curr_process (k_ter k'))))) in H.
  rewrite list_lookup_alter_eq, !list_lookup_fmap, Hts in H. apply fmap_Some in H as (t & Ht & E).
  exists t. split; [done|]. exact (eq_sym (f_equal prog_curr_pid E)).
Qed.

Lemma live_waiting s x : x ∈ w_pid <$> s_waiting s -> nest_wf s -> 0 <= x < 6 /\ x <> s_pid s.
Proof.
  intros Hx H. split; [by apply (nw_live s H); right|]. pose proof (nw_once s H) as Hn.
  apply NoDup_cons in Hn as [Hn _]. by intros ->.
Qed.

(** [sys_execute] in the way of the program that runs. *)
Lemma exec_starts m s l inode p :
  nest_rep m s -> user_context (context_of m) -> m_eax m = 2 -> command_at (trap_kernel m) (vptr (m_ebx m)) l ->
  program J img (c_str (cmd_name l)) = Some inode -> 28 <= inode_len img inode <= load_cap ->
  free_pid (s_used s) = Some p ->
  exists m' mem', trap (kernel_fun J irqs) after m = Ok m' /\ at_start img inode (context_of m') /\
    bytes_at mem' (load_pa (Z.of_nat p)) (file_contents img inode) /\
    nest_rep m' (Nest (Z.of_nat p) (<[p := 1]> (s_used s)) mem' (Waits (s_pid s) (context_of m) (s_mem s) :: s_waiting s)).
Proof.
  intros R Hu Ha Hc Hprog Hlen Hfree. destruct (trap_ready m s R Hu) as (C & Hsp & Hq & Mt & b & t & Hb & Hpb & Hcl & K).
  pose proof (free_no_shell s p (nr_wf _ _ R) Hfree) as Hp.
  pose proof (free_not_live s p (s_pid s) (nr_wf _ _ R) Hfree ltac:(by left)) as Hne.
  destruct (execute_starts J img start (trap_kernel m) (get_pcb_by_pid (s_pid s)) b (Some (s_pid s)) vid uvid t (vptr (m_ebx m)) l inode p)
    as (k1 & E & X); auto.
  { simpl. by rewrite (nr_used _ _ R). }
  { intros Heq%pcb_by_pid_inj; lia. }
  assert (sys_call J irqs (u32 (m_eax m - 1)) (m_ebx m) (m_ecx m) (m_edx m) (trap_kernel m) =
    Ok (Enters (entry_point img inode) USER_ESP, k1)) as Ecall by by rewrite Ha.
  pose proof (ex_cpu _ _ _ _ _ _ _ _ _ _ _ _ X) as Hcpu.
  destruct (trap_spec (kernel_fun J irqs) after m _ k1 C ltac:(by rewrite Ha) Ecall)
    as (st & _ & _ & Hcall & Hst & M & EM & HMs & Hip & Husp & HuM & _ & _ & HMk); [left; by rewrite Hcpu|].
  rewrite Hcpu in Hst. cbn [r_esp k_cpu trap_kernel set_k_cpu] in Hst. rewrite Hsp in Hcall, Hst.
  rewrite (call_block _ Hq) in Hst. destruct X, ex_proc as (old & Epr).
  exists M, (k_mem k1). split; [done|]. split; [by split|]. split; [done|].
  destruct R. split; try rewrite HMk; cbn [m_k k_pg k_mem k_proc k_ter k_tss k_fs set_k_cpu s_pid s_used s_waiting s_mem]; auto.
  - by apply nest_wf_starts.
  - eexists. eapply tty_rep_ext; [exact ex_screen|..]; try done. by eexists _, _.
  - rewrite Epr. cbn [used_pids]. by rewrite Nat2Z.id; simpl; rewrite nr_used0.
  - destruct nr_ter0 as (ts & Hts & _). eapply run_as_strip; [exact ex_ter|by rewrite ex_cp|exact Hts].
  - apply (kernel_mounted img start Hstart (m_k m) (set_k_cpu _ k1) _ _ _ nr_fs0 ex_map); [done|].
    intros x Hx. cbn [k_mem set_k_cpu]. rewrite ex_mem; [done|unfold _4_MB in *; lia|].
    unfold KERNEL_MEM_START, _4_MB in *. lia.
  - rewrite Epr. cbn [pcbs]. exists (child (Z.of_nat p) (parent_pid (Z.of_nat p) b) (get_pcb_by_pid (s_pid s))
      (cmd_have_args l) (cmd_arg l) (k_cpu (trap_kernel m)) old).
    split; [apply lookup_insert_eq|]. split; [done|]. split; [exact closable_new|].
    split; [lia|]. split; [simpl; unfold parent_pid; by rewrite (proj2 (Z.ltb_ge _ _)) by lia|].
    split; [done|]. split; [exact Hsp|]. split; [done|]. rewrite HMs. split; [exact Hcall|].
    eapply way_back_frame; [exact nr_back0|..].
    + intros x Hx. apply lookup_insert_ne. intros Heq%pcb_by_pid_inj; [|lia|by apply nr_wf0 in Hx; lia].
      by apply (free_not_live s p x nr_wf0 Hfree Hx).
    + intros x c' Hx Hcx. destruct (live_waiting s x Hx nr_wf0) as [Hr Hxs].
      apply (calling_other (m_stack m)); [done|done|]. intros a Hab _.
      apply Hst; rewrite ?Hab; [|left]; intros ?%stack_base_inj; done.
  - assert (forall x q, 0 <= q -> q <> Z.of_nat p -> frame_of q x -> k_mem k1 !! x = k_mem (m_k m) !! x) as Hk.
    { intros x q Hq0 Hqp Hx. apply ex_mem; [|unfold frame_of, _4_MB in *; lia].
      intros Hin. by apply Hqp, (frame_of_other _ _ x). }
    constructor; [intros x Hx; rewrite (Hk x (s_pid s)) by (done || lia); by apply nr_mem0|].
    apply Forall_forall. intros w Hw x Hx. pose proof (list_elem_of_fmap_2 w_pid _ _ Hw) as Hwp.
    rewrite (Hk x (w_pid w)).
    + by apply (proj1 (Forall_forall _ _) nr_kept0).
    + by apply (live_waiting s).
    + apply (free_not_live s p); [done|done|by right].
    + done.
Qed.

(** Output and the stack of the program that runs do not matter. *)
Lemma nest_rep_screen m s k' t st c :
  nest_rep m s -> screen_frame vid (trap_kernel m) k' -> tty_rep k' vid t ->
  (forall a, block_start a <> stack_base (s_pid s) -> st !! a = m_stack m !! a) ->
  nest_rep (with_context c (set_m_stack st (set_m_k k' m))) s.
Proof.
  intros [] [] Ht Hst. pose proof (nw_live s nr_wf0 (s_pid s) ltac:(by left)) as [Hp _].
  cbn [k_mem k_pg k_proc k_tss k_fs k_ter trap_kernel set_k_cpu] in *.
  assert (forall x q, 0 <= q -> frame_of q x -> k_mem k' !! x = k_mem (m_k m) !! x) as Hk.
  { intros x q Hq Hx. apply fr_mem. unfold frame_of, _4_MB in Hx. lia. }
  split; cbn [m_k m_stack with_context set_m_stack set_m_k k_mem k_pg k_proc k_tss k_fs k_ter set_k_cpu];
    rewrite ?fr_pg, ?fr_proc, ?fr_tss, ?fr_cp; auto.
  - exists t. apply (tty_rep_ext k'); try done. eexists _, _. simpl. rewrite fr_pg. exact nr_map0.
  - destruct nr_ter0 as (ts & Hts & Hc). apply (f_equal (lookup (Z.to_nat (curr_process (k_ter (m_k m)))))) in fr_strip.
    rewrite !list_lookup_fmap, Hts in fr_strip. apply fmap_Some in fr_strip as (ts' & Hts' & E).
    exists ts'. split; [done|]. rewrite <- Hc. exact (eq_sym (f_equal prog_curr_pid E)).
  - apply (kernel_mounted img start Hstart (m_k m) (set_k_cpu _ k') (Some (s_pid s)) vid uvid nr_fs0); simpl; [by rewrite fr_pg|done|].
    intros x Hx. apply fr_mem. unfold KERNEL_MEM_START in Hx. lia.
  - eapply way_back_frame; [exact nr_back0|done|]. intros x c' Hx Hcx.
    destruct (live_waiting s x Hx nr_wf0) as [Hr Hxs]. apply (calling_other (m_stack m)); [done|done|].
    intros a Hab _. apply Hst. rewrite Hab. by intros ?%stack_base_inj.
  - intros x Hx. by rewrite (Hk x (s_pid s)) by (done || lia); apply nr_mem0.
  - apply Forall_forall. intros w Hw x Hx. pose proof (list_elem_of_fmap_2 w_pid _ _ Hw) as Hwp.
    rewrite (Hk x (w_pid w)); [by apply (proj1 (Forall_forall _ _) nr_kept0)|by apply (live_waiting s)|done].
Qed.

Lemma exec_refused m s l :
  nest_rep m s -> user_context (context_of m) -> m_eax m = 2 -> command_at (trap_kernel m) (vptr (m_ebx m)) l ->
  program J img (c_str (cmd_name l)) = None \/ free_pid (s_used s) = None ->
  exists m' ecx edx, trap (kernel_fun J irqs) after m = Ok m' /\
    context_of m' = sys_context (context_of m) (u32 (-1)) ecx edx /\ nest_rep m' s.
Proof.
  intros R Hu Ha Hc Hno. destruct (trap_ready m s R Hu) as (C & Hsp & Hq & Mt & b & t & _ & _ & _ & K).
  destruct (execute_refused J img start _ _ b (Some (s_pid s)) vid uvid t (vptr (m_ebx m)) l HJ W Hstart K Mt Hc) as [E1 E2].
  assert (exists k' t', sys_execute J (vptr (m_ebx m)) (trap_kernel m) = Ok (Returns ERROR, k') /\
    tty_rep k' vid t' /\ screen_frame vid (trap_kernel m) k') as (k' & t' & E & Ht & F).
  { destruct (program J img (c_str (cmd_name l))) as [inode|].
    - destruct Hno as [|Hno]; [done|]. rewrite <- (nr_used _ _ R) in Hno.
      destruct (E2 inode eq_refl Hno) as (k' & E & Ht & F). by eexists k', _.
    - exists (trap_kernel m), t. split; [by apply E1|]. split; [apply K|done]. }
  assert (sys_call J irqs (u32 (m_eax m - 1)) (m_ebx m) (m_ecx m) (m_edx m) (trap_kernel m) = Ok (Returns ERROR, k'))
    as Ecall by by rewrite Ha.
  pose proof (fr_cpu _ _ _ F) as Hcpu.
  destruct (trap_spec (kernel_fun J irqs) after m _ k' C ltac:(by rewrite Ha) Ecall)
    as (st & ecx & edx & Hcall & Hst & Hback); [left; by rewrite Hcpu|].
  rewrite Hcpu in Hst, Hback. cbn [r_esp r_ebp k_cpu trap_kernel set_k_cpu] in Hst, Hback.
  rewrite Hsp in Hst. rewrite (call_block _ Hq) in Hst.
  eexists _, ecx, edx. split; [exact (Hback _ Hcall eq_refl)|]. rewrite context_of_with. split; [done|].
  apply (nest_rep_screen _ _ _ t'); [done|done|done|]. intros a Hx. apply Hst; [done|by left].
Qed.

Lemma nest_wf_ends q used mem w ws mem' :
  nest_wf (Nest q used mem (w :: ws)) -> 3 <= q -> nest_wf (Nest (w_pid w) (<[Z.to_nat q := 0]> used) mem' ws).
Proof.
  intros [Hl Hs Hv Hn] Hq. simpl in *. apply NoDup_cons in Hn as [Hnq Hn]. split; simpl; [by rewrite length_insert| |..|done].
  - intros i Hi. rewrite list_lookup_insert_ne by lia. auto.
  - intros x Hx. assert (x <> q) as Hne by by intros ->. destruct (Hv x) as [Hr Hu]; [by right|]. split; [done|].
    destruct (Hv q) as [Hq6 _]; [by left|]. rewrite list_lookup_insert_ne by lia. done.
Qed.

(** After the end of the process the abstract state is the parent's. *)
Lemma halted_rep m q used mem w ws b pb k' t st c :
  nest_rep m (Nest q used mem (w :: ws)) -> 3 <= q -> par_pid b = w_pid w -> pid pb = w_pid w ->
  way_back (pcbs (k_proc (m_k m))) (m_stack m) (w_pid w) ws -> halted q b pb (trap_kernel m) k' vid uvid t ->
  (forall x c, 0 <= x < 6 -> x <> q -> calling_at (m_stack m) (stack_top x - 48) c -> calling_at st (stack_top x - 48) c) ->
  nest_rep (with_context c (set_m_stack st (set_m_k k' m))) (Nest (w_pid w) (<[Z.to_nat q := 0]> used) (w_mem w) ws).
Proof.
  intros [] H3 Hpar Hpp Hw [] Hc. pose proof (nw_live _ nr_wf0 q ltac:(by left)) as [Hq _].
  assert (forall x, x ∈ w_pid w :: (w_pid <$> ws) -> 0 <= x < 6 /\ x <> q) as Hlive
    by (intros x Hx; by apply (live_waiting (Nest q used mem (w :: ws)))).
  assert (forall x y, 0 <= y -> frame_of y x -> k_mem k' !! x = k_mem (m_k m) !! x) as Hk.
  { intros x y Hy Hx. apply ha_mem. unfold frame_of, _4_MB in Hx. lia. }
  rewrite Hpar in ha_map, ha_tss. apply Forall_cons in nr_kept0 as [Hk0 Hks].
  assert (forall x, x <> q -> 0 <= x < 6 -> pcbs (k_proc k') !! get_pcb_by_pid x = pcbs (k_proc (m_k m)) !! get_pcb_by_pid x) as Hbs.
  { intros x Hx Hr. rewrite ha_proc. apply lookup_insert_ne. intros Heq%pcb_by_pid_inj; lia. }
  cbn [s_pid s_used s_waiting s_mem] in *.
  split; cbn [m_k m_stack with_context set_m_stack set_m_k k_mem k_pg k_proc k_tss k_fs k_ter set_k_cpu s_pid s_used
    s_waiting s_mem]; auto.
  - by eapply nest_wf_ends.
  - eexists. eapply tty_rep_ext; [exact ha_screen|..]; try done. by eexists _, _.
  - rewrite ha_proc. simpl. by rewrite nr_used0.
  - intros x Hx. destruct (decide (x = q)) as [->|Hne]; [|rewrite Hbs; auto].
    rewrite ha_proc. eexists. split; [apply lookup_insert_eq|done].
  - destruct nr_ter0 as (ts & Hts & _). rewrite <- Hpp. eapply run_as_strip; [exact ha_ter|by rewrite ha_cp|exact Hts].
  - apply (kernel_mounted img start Hstart (m_k m) (set_k_cpu _ k') _ _ _ nr_fs0 ha_map); [done|].
    intros x Hx. apply ha_mem. unfold KERNEL_MEM_START in Hx. lia.
  - eapply way_back_frame; [exact Hw|..].
    + intros x Hx. destruct (Hlive x Hx). by apply Hbs.
    + intros x c' Hx. destruct (Hlive x); [by right|]. by apply Hc.
  - intros x Hx. rewrite (Hk x (w_pid w)); [by apply Hk0|apply Hlive; by left|done].
  - apply Forall_forall. intros w' Hw' x Hx. pose proof (list_elem_of_fmap_2 w_pid _ _ Hw') as Hwp.
    rewrite (Hk x (w_pid w')); [by apply (proj1 (Forall_forall _ _) Hks)|apply Hlive; by right|done].
Qed.

(** [sys_halt] of a program that another one waits for. *)
Lemma halt_ends m q used mem w ws :
  nest_rep m (Nest q used mem (w :: ws)) -> user_context (context_of m) -> m_eax m = 1 ->
  exists m' ecx edx, trap (kernel_fun J irqs) after m = Ok m' /\
    context_of m' = sys_context (w_ctx w) (if u8 (m_ebx m) =? HALT_STATUS_EXC then 256 else 0) ecx edx /\
    nest_rep m' (Nest (w_pid w) (<[Z.to_nat q := 0]> used) (w_mem w) ws).
Proof.
  intros R Hu Ha. destruct (trap_ready m _ R Hu) as (C & Hsp & Hq & _ & b & t & Hb & Hpb & Hcl & K).
  pose proof R as []. cbn [s_pid s_used s_waiting s_mem] in *.
  destruct nr_back0 as (b0 & Hb0 & _ & _ & H3 & Hpar & Hptr & Hesp & Hebp & Hcall & Hw).
  rewrite Hb in Hb0. injection Hb0 as <-.
  destruct (live_waiting (Nest q used mem (w :: ws)) (w_pid w) ltac:(by left) nr_wf0) as [Hwr Hwq]. cbn [s_pid] in Hwq.
  assert (exists pb, pcbs (k_proc (m_k m)) !! get_pcb_by_pid (w_pid w) = Some pb /\ pid pb = w_pid w) as (pb & Epb & Hpp).
  { destruct ws, Hw as (pb & E & Ep & _); by exists pb. }
  assert (halting q b (trap_kernel m) (Some q) vid uvid t) as Hh.
  { split; try done; [apply K|apply K|by rewrite Hpar]. }
  destruct (sys_halt_spec J HJ (trap_kernel m) q b pb (Some q) vid uvid t (u8 (m_ebx m)) Hh H3 ltac:(by rewrite Hptr))
    as (k' & E & Hd). pose proof (ha_cpu _ _ _ _ _ _ _ _ Hd) as Hcpu.
  assert (sys_call J irqs (u32 (m_eax m - 1)) (m_ebx m) (m_ecx m) (m_edx m) (trap_kernel m) =
    Ok (Resumes (u8 (u8 (m_ebx m))), k')) as Ecall by by rewrite Ha.
  assert (r_esp (k_cpu k') = stack_top (w_pid w) - 48) as Esp by (rewrite Hcpu; exact Hesp).
  pose proof (call_block _ Hwr) as Hbw. pose proof (call_block _ Hq) as Hbq.
  destruct (trap_spec (kernel_fun J irqs) after m _ k' C ltac:(by rewrite Ha) Ecall)
    as (st & ecx & edx & _ & Hst & Hback).
  { right. rewrite Esp, Hsp, Hbw, Hbq. split; [by intros ?%stack_base_inj|]. unfold stack_top, stack_base. lia. }
  cbv zeta beta in Hback. rewrite Esp in Hst, Hback. rewrite Hsp, Hbq, Hbw in Hst.
  assert (forall x c, 0 <= x < 6 -> x <> q -> calling_at (m_stack m) (stack_top x - 48) c ->
    calling_at st (stack_top x - 48) c) as Hc.
  { intros x c Hx Hxq Hcx. apply (calling_other (m_stack m)); [done|done|]. intros a Hab Hlow.
    apply Hst; rewrite Hab; [by intros ?%stack_base_inj|].
    destruct (decide (x = w_pid w)) as [->|]; [right; lia|left; by intros ?%stack_base_inj]. }
  eexists _, ecx, edx. split; [apply Hback; [by apply Hc|by rewrite Hcpu]|]. rewrite context_of_with.
  split; [unfold exec_result; by rewrite (u8_small (u8 (m_ebx m))) by apply u8_range|].
  by apply (halted_rep m q used mem w ws b pb k' t).
Qed.

Context (shell_inode : Z).
Hypothesis Hshell : forall k, command_at k (shell J) (shell_text J).
Hypothesis Hprogram : program J img (c_str (cmd_name (shell_text J))) = Some shell_inode.
Hypothesis Hfits : 28 <= inode_len img shell_inode <= load_cap.

(** The number a shell gives back is the one the next shell gets. *)
Lemma shell_number q used mem p :
  nest_wf (Nest q used mem []) -> q < 3 -> free_pid (<[Z.to_nat q := 0]> used) = Some p -> Z.of_nat p <= q -> Z.of_nat p = q.
Proof.
  intros H Hq [Hp _]%free_pid_Some Hle. destruct (decide (Z.of_nat p = q)) as [|Hne]; [done|].
  rewrite list_lookup_insert_ne in Hp by lia. pose proof (nw_shells _ H (Z.of_nat p) ltac:(lia)) as Hs.
  cbn [s_used] in Hs. rewrite Nat2Z.id in Hs. congruence.
Qed.

Lemma halt_again m q used mem :
  nest_rep m (Nest q used mem []) -> user_context (context_of m) -> m_eax m = 1 ->
  exists m' mem', trap (kernel_fun J irqs) after m = Ok m' /\ at_start img shell_inode (context_of m') /\
    bytes_at mem' (load_pa q) (file_contents img shell_inode) /\ nest_rep m' (Nest q used mem' []).
Proof.
  intros R Hu Ha. destruct (trap_ready m _ R Hu) as (C & Hsp & Hq & Mt & b & t & Hb & Hpb & Hcl & K).
  pose proof R as []. cbn [s_pid s_used s_waiting s_mem] in *.
  destruct nr_back0 as (b0 & Hb0 & _ & _ & H3 & Hpar). rewrite Hb in Hb0. injection Hb0 as <-.
  assert (halting q b (trap_kernel m) (Some q) vid uvid t) as Hh by (split; try done; [apply K|apply K|by rewrite Hpar]).
  destruct (halt_restarts J img start (trap_kernel m) q b (Some q) vid uvid t shell_inode (u8 (m_ebx m)))
    as (k1 & k' & pg & p & E & Hp & Hpq & F & X); auto.
  cbn [k_proc trap_kernel set_k_cpu] in Hp. rewrite nr_used0 in Hp.
  pose proof (shell_number q used mem p nr_wf0 H3 Hp Hpq) as Ep. rewrite Ep in X.
  assert (sys_call J irqs (u32 (m_eax m - 1)) (m_ebx m) (m_ecx m) (m_edx m) (trap_kernel m) =
    Ok (Enters (entry_point img shell_inode) USER_ESP, k')) as Ecall by by rewrite Ha.
  destruct X, F, ex_proc as (old & Epr). rewrite fr_proc, fr_cpu in *.
  destruct (trap_spec (kernel_fun J irqs) after m _ k' C ltac:(by rewrite Ha) Ecall)
    as (st & _ & _ & _ & _ & M & EM & HMs & Hip & Husp & HuM & _ & _ & HMk); [left; by rewrite ex_cpu|].
  exists M, (k_mem k'). split; [done|]. split; [by split|]. split; [done|].
  split; try rewrite HMk; cbn [m_k k_pg k_mem k_proc k_ter k_tss k_fs set_k_cpu s_pid s_used s_waiting s_mem]; auto.
  - by destruct nr_wf0.
  - eexists. eapply tty_rep_ext; [exact ex_screen|..]; try done. by eexists _, _.
  - rewrite Epr. simpl. rewrite nr_used0, list_insert_insert_eq. apply list_insert_id.
    by apply (nw_live _ nr_wf0 q ltac:(by left)).
  - destruct nr_ter0 as (ts & Hts & _). assert (exists ts1, terminals (k_ter k1) !! Z.to_nat (curr_process (k_ter k1)) = Some ts1)
      as (ts1 & Hts1).
    { apply lookup_lt_is_Some. apply (f_equal length) in fr_strip. rewrite !length_fmap in fr_strip. rewrite fr_strip, fr_cp.
      by eapply lookup_lt_Some. }
    eapply run_as_strip; [exact ex_ter|by rewrite ex_cp|exact Hts1].
  - apply (kernel_mounted img start Hstart (m_k m) (set_k_cpu _ k') _ _ _ nr_fs0 ex_map); [simpl; by rewrite ex_fs, fr_fs|].
    intros x Hx. cbn [k_mem set_k_cpu]. unfold KERNEL_MEM_START, _4_MB in *. rewrite ex_mem, fr_mem; [done|lia..].
  - rewrite Epr. eexists. split; [apply lookup_insert_eq|]. split; [done|]. split; [exact closable_new|].
    split; [done|]. simpl. unfold parent_pid. by rewrite (proj2 (Z.ltb_lt _ _)) by lia.
Qed.

(** The command of the program is where [sys_execute] reads it. *)
Lemma command_there m s a l :
  nest_rep m s -> command_in (s_pid s) (s_mem s) a l -> command_at (trap_kernel m) (vptr a) l.
Proof.
  intros [] [[Ha Hl] Hat ????]. split; try done.
  eapply (vptr_holds (trap_kernel m)); [apply (user_maps _ _ _ _ a (Z.of_nat (length l)) nr_map0 Ha Hl)|lia|].
  intros i x Hi. cbn [k_mem trap_kernel set_k_cpu]. pose proof (lookup_lt_Some _ _ _ Hi).
  rewrite nr_mem0; [by apply Hat|]. unfold frame_of, _4_MB, _128_MB, _132_MB in *. lia.
Qed.

Lemma act_step a m s :
  nest_rep m s -> allowed J img s a ->
  exists m' s', do_act a m = Ok m' /\ nests J img s a (context_of m') s' /\ nest_rep m' s'.
Proof.
  intros R A. pose proof (user_runs_rep a m s R A) as R1. destruct A as (_ & Hu & A).
  assert (context_of (user_runs a m) = act_ctx a) as Ec by apply context_of_with.
  rewrite <- Ec in Hu. unfold do_act. destruct s as [q used mem ws], a as [c stores l|c stores]; cbn [act_ctx] in Ec.
  - destruct A as (Ha & Hc & Hlen). apply (command_there _ _ _ _ R1) in Hc. cbn [s_pid s_used s_mem s_waiting] in *.
    change (x_ebx c) with (m_ebx (user_runs (Exec c stores l) m)) in Hc.
    destruct (program J img (c_str (cmd_name l))) as [inode|] eqn:Ep; [destruct (free_pid used) as [p|] eqn:Ef|].
    + destruct (exec_starts _ _ l inode p R1 Hu Ha Hc Ep (Hlen _ eq_refl) Ef) as (m' & mem' & E & Hs & Hb & R').
      rewrite Ec in R'. eexists m', _. split; [done|]. split; [by eapply N_starts|done].
    + destruct (exec_refused _ _ l R1 Hu Ha Hc (or_intror Ef)) as (m' & ecx & edx & E & Hx & R'). rewrite Ec in Hx.
      eexists m', _. split; [done|]. split; [rewrite Hx; by apply N_refused; right|done].
    + destruct (exec_refused _ _ l R1 Hu Ha Hc (or_introl Ep)) as (m' & ecx & edx & E & Hx & R'). rewrite Ec in Hx.
      eexists m', _. split; [done|]. split; [rewrite Hx; by apply N_refused; left|done].
  - cbn [s_pid s_used s_mem s_waiting] in *. destruct ws as [|[q' c' mem'] ws].
    + destruct (halt_again _ _ _ _ R1 Hu A) as (m' & mem' & E & Hs & Hb & R').
      eexists m', _. split; [done|]. split; [by eapply N_again|done].
    + destruct (halt_ends _ _ _ _ _ _ R1 Hu A) as (m' & ecx & edx & E & Hx & R').
      eexists m', _. split; [done|]. split; [rewrite Hx; by apply N_ends|done].
Qed.
End Machine.

(** ** Runs *)

Fixpoint do_acts `{L : Layout} (J : locals) (after : mach -> residue) (irqs : list (K unit))
    (acts : list act) (m : mach) : res (list context * mach) :=
  match acts with
  | [] => Ok ([], m)
  | a :: acts =>
      m1 ← do_act J after irqs a m;
      '(cs, m') ← do_acts J after irqs acts m1;
      Ok (context_of m1 :: cs, m')
  end.

Inductive nests_all (J : locals) (img : list Z) : nest -> list act -> list context -> nest -> Prop :=
| NA_nil s : nests_all J img s [] [] s
| NA_cons s a c s1 acts cs s' :
    nests J img s a c s1 -> nests_all J img s1 acts cs s' -> nests_all J img s (a :: acts) (c :: cs) s'.

(** Everything the programs do is possible, whatever the kernel left them with. *)
Fixpoint allowed_all (J : locals) (img : list Z) (s : nest) (acts : list act) : Prop :=
  match acts with
  | [] => True
  | a :: acts => allowed J img s a /\ forall c s', nests J img s a c s' -> allowed_all J img s' acts
  end.

Section NestClaims.
Context `{L : Layout} (J : locals) (after : mach -> residue) (irqs : list (K unit)).
Context (img : list Z) (start vid : Z) (uvid : option Z) (shell_inode : Z).

(** (C5) Programs nest. A program in user mode stores what it likes into its page, loads its
    registers as it likes, and starts another program or ends with [int $0x80]; so does the
    program that runs then, and so on, to any depth and any number of times. The machine does
    what a stack of programs does: a new program starts at its entry point, with its file in the
    page of the lowest free process; a command that names no program, or a seventh process,
    gives -1; the end of a program gives its number back and continues the one that waits for
    it, behind its own [int $0x80], with its own registers, its page byte for byte as it left
    it, and 256 (for the status of an exception) or 0 in EAX; a shell that ends starts again
    under its number. All the time the page tables, the kernel stack of the TSS, the process
    table and the terminal are those of the program that runs, and every block leads back
    through the stack. The programs make no other system calls and no interrupt comes in
    between. *)
Theorem programs_nest acts m s :
  locals_ok J -> image_wf img -> KERNEL_MEM_START <= start /\ start + Z.of_nat (length img) <= 2 * _4_MB ->
  0 <= vid < 1024 -> (forall k, command_at k (shell J) (shell_text J)) ->
  program J img (c_str (cmd_name (shell_text J))) = Some shell_inode -> 28 <= inode_len img shell_inode <= load_cap ->
  nest_rep img start vid uvid m s -> allowed_all J img s acts ->
  exists cs m' s', do_acts J after irqs acts m = Ok (cs, m') /\ nests_all J img s acts cs s' /\
    nest_rep img start vid uvid m' s'.
Proof.
  intros HJ W Hstart Hvid Hsh Hprog Hfits. revert m s. induction acts as [|a acts IH]; intros m s R A.
  - exists [], m, s. split; [done|]. split; [constructor|done].
  - destruct A as [A A'].
    destruct (act_step J after irqs img start vid uvid HJ W Hstart Hvid shell_inode Hsh Hprog Hfits a m s R A)
      as (m1 & s1 & E1 & N1 & R1).
    destruct (IH m1 s1 R1 (A' _ _ N1)) as (cs & m' & s' & E & N & R').
    exists (context_of m1 :: cs), m', s'. cbn [do_acts]. rewrite E1, Ok_bind, E, Ok_bind.
    split; [done|]. split; [by econstructor|done].
Qed.
End NestClaims.
