(* ===== verification/NestedExamples.v ===== *)
(** * Nested programs on a concrete machine

    The theorem of Nested.v applied to the shell of ProcessExamples.v: it starts a program, which starts
    another one; the three end one after the other, and the shell comes again. *)

From stdpp Require Import base gmap list numbers strings.
From Stdlib Require Import ZArith Lia.
From S2P Require Import Prelude Pointers Ports Pic Paging State Machine VirtMem CString MemFns.
From S2P Require Import Pcb Demo Screen Printf FileSystem FileExamples Syscalls Process Descriptors.
From S2P Require Import DescriptorExamples Command Exec Launch Halt ProcessExamples.
From S2P Require Import Idt Sched SchedStart StartExamples Asm Wrappers System Preempt Traps TrapExamples Nested.

#[local] Opaque prog_img cleared_mem.

(** The text "shell abc" at 0x8001000 of the page of process [q]. *)
Definition nested_text (q : Z) : gmap Z Z := put_bytes ((q + 2) * _4_MB + 0x1000) demo_text ∅.

Definition nested_exec (q : Z) : act := Exec (call_context 2 0x8001000) (nested_text q) demo_text.
Definition nested_halt (status : Z) : act := Nested.Halt (call_context 1 status) ∅.

Definition nested_acts : list act := [nested_exec 0; nested_exec 3; nested_halt 4; nested_halt 7; nested_halt 0].

Definition nested_start : nest := Nest 0 [1; 1; 1; 0; 0; 0] cleared_mem [].
Definition nested_mach : mach := trap_mach 0 0 (stack_top 0) ∅ demo_exec.

(** A kernel in whose first terminal the shell runs, process 0. *)
Lemma shell_rep k p b vid uvid t ts img start :
  kernel_ok (L := demo_layout) k p b (Some 0) vid uvid t -> mounted (L := demo_layout) img start start k ->
  used_pids (k_proc k) = [1; 1; 1; 0; 0; 0] ->
  terminals (k_ter k) !! Z.to_nat (curr_process (k_ter k)) = Some ts -> prog_curr_pid ts = 0 ->
  pcbs (k_proc k) !! get_pcb_by_pid 0 = Some (numbered 0) ->
  nest_rep (L := demo_layout) img start vid uvid (trap_mach 0 0 (stack_top 0) ∅ k) (Nest 0 [1; 1; 1; 0; 0; 0] (k_mem k) []).
Proof.
  intros [_ Hm _ Ht _ Hb] [] Hu Hts Hc Hp. split.
  - split; [done| | |].
    + intros i Hi. assert (i = 0 \/ i = 1 \/ i = 2) as [-> | [-> | ->]] by lia; done.
    + intros q ->%list_elem_of_singleton. done.
    + apply NoDup_singleton.
  - exact Hm.
  - exists t. by destruct Ht; split.
  - exact Hu.
  - exact Hb.
  - by exists ts.
  - by split.
  - by split.
  - exists (numbered 0). split; [exact Hp|]. split; [done|]. split; [|done].
    split; [done|]. apply Forall_replicate. by intros [].
  - done.
  - constructor.
Qed.

Lemma nested_rep : nest_rep (L := demo_layout) prog_img demo_start VIDEO_PAGE None nested_mach nested_start.
Proof.
  apply (shell_rep demo_exec 0x7FE000 (numbered 0) _ _ clear_tty (running_terminal_of 0 0)).
  - exact demo_exec_ok.
  - exact (exec_state_mounted 0 0 0x7FFF00 [1; 1; 1; 0; 0; 0] exec_pcbs).
  - reflexivity.
  - reflexivity.
  - reflexivity.
  - exact (exec_pcbs_all 0 ltac:(lia)).
Qed.

Lemma starts_inv J img q used mem ws c stores l c' s' inode p :
  nests J img (Nest q used mem ws) (Exec c stores l) c' s' ->
  program J img (c_str (cmd_name l)) = Some inode -> free_pid used = Some p ->
  exists mem', s' = Nest (Z.of_nat p) (<[p := 1]> used) mem' (Waits q c (stores ∪ mem) :: ws).
Proof.
  intros H Hp Hf. inversion H as [? ? ? ? ? ? ? i p' ? mem' Hi Hp'|? ? ? ? ? ? ? ? ? Hno| |]; subst.
  - rewrite Hf in Hp'. injection Hp' as <-. by exists mem'.
  - destruct Hno; congruence.
Qed.

Lemma ends_inv J img q used mem w ws c stores c' s' :
  nests J img (Nest q used mem (w :: ws)) (Nested.Halt c stores) c' s' ->
  s' = Nest (w_pid w) (<[Z.to_nat q := 0]> used) (w_mem w) ws /\
  x_eax c' = (if u8 (x_ebx c) =? HALT_STATUS_EXC then 256 else 0) /\ x_esi c' = x_esi (w_ctx w).
Proof. intros H. inversion H; simplify_eq. done. Qed.

Lemma again_inv J img q used mem c stores c' s' :
  nests J img (Nest q used mem []) (Nested.Halt c stores) c' s' -> exists mem', s' = Nest q used mem' [].
Proof. intros H. inversion H; simplify_eq. by eexists. Qed.

Lemma nested_program : program demo_locals prog_img (c_str (cmd_name demo_text)) = Some 0.
Proof. apply demo_program. reflexivity. Qed.

Lemma nested_exec_allowed q used mem ws : 0 <= q -> allowed demo_locals prog_img (Nest q used mem ws) (nested_exec q).
Proof.
  intros Hq. assert (length demo_text = 10%nat) as Hl by done. split; [|split; [done|split; [done|split]]].
  - intros x [b Hx]. cbn [act_stores nested_exec s_pid] in *. unfold nested_text in Hx. rewrite lookup_put_bytes in Hx.
    destruct (_ <=? x) eqn:E; [|done]. apply Z.leb_le in E. pose proof (mk_is_Some _ _ Hx) as Hlt.
    unfold frame_of, _4_MB in *.
    destruct (demo_text !! Z.to_nat (x - ((q + 2) * 0x400000 + 0x1000))) eqn:E'; [|done].
    apply lookup_lt_Some in E'. lia.
  - split; [unfold _128_MB, _132_MB; simpl; lia| |repeat constructor; done|right; vm_compute; lia|intros _; right; vm_compute; lia|done].
    intros i b Hi. apply lookup_union_Some_l. cbn [s_pid]. change (x_ebx _ - _128_MB) with 0x1000.
    by apply (bytes_at_put _ demo_text ∅).
  - intros inode Hi. rewrite nested_program in Hi. injection Hi as <-. exact prog_fits.
Qed.

Lemma nested_halt_allowed s status : allowed demo_locals prog_img s (nested_halt status).
Proof. split; [|done]. intros x [b Hx]. done. Qed.

Lemma nested_allowed : allowed_all demo_locals prog_img nested_start nested_acts.
Proof.
  split; [by apply nested_exec_allowed|]. intros c1 s1 H1.
  destruct (starts_inv _ _ _ _ _ _ _ _ _ _ _ _ 3 H1 nested_program eq_refl) as (mem1 & ->).
  split; [by apply nested_exec_allowed|]. intros c2 s2 H2.
  destruct (starts_inv _ _ _ _ _ _ _ _ _ _ _ _ 4 H2 nested_program eq_refl) as (mem2 & ->).
  do 3 (split; [apply nested_halt_allowed|]; intros). done.
Qed.

Lemma programs_nest_witness :
  exists cs m', do_acts (L := demo_layout) demo_locals trap_residue [] nested_acts nested_mach = Ok (cs, m') /\
    (x_eax <$> take 2 (drop 2 cs)) = [256; 0] /\ used_pids (k_proc (m_k m')) = [1; 1; 1; 0; 0; 0] /\
    esp0 (k_tss (m_k m')) = stack_top 0.
Proof.
  destruct (programs_nest (L := demo_layout) demo_locals trap_residue [] prog_img demo_start VIDEO_PAGE None 0
    nested_acts nested_mach nested_start) as (cs & m' & s' & E & N & R).
  - exact demo_locals_ok.
  - exact prog_img_wf.
  - exact prog_bounds.
  - done.
  - exact shell_command_at.
  - apply demo_program. reflexivity.
  - exact prog_fits.
  - exact nested_rep.
  - exact nested_allowed.
  - exists cs, m'. split; [exact E|]. unfold nested_acts, nested_start in N.
    inversion N as [|? ? c1 s1 ? cs1 ? H1 N1]; subst.
    destruct (starts_inv _ _ _ _ _ _ _ _ _ _ _ _ 3 H1 nested_program eq_refl) as (mem1 & ->).
    inversion N1 as [|? ? c2 s2 ? cs2 ? H2 N2]; subst.
    destruct (starts_inv _ _ _ _ _ _ _ _ _ _ _ _ 4 H2 nested_program eq_refl) as (mem2 & ->).
    inversion N2 as [|? ? c3 s3 ? cs3 ? H3 N3]; subst. apply ends_inv in H3 as (-> & E3 & _).
    inversion N3 as [|? ? c4 s4 ? cs4 ? H4 N4]; subst. apply ends_inv in H4 as (-> & E4 & _).
    inversion N4 as [|? ? c5 s5 ? cs5 ? H5 N5]; subst. apply again_inv in H5 as (mem5 & ->).
    inversion N5; subst. split; [cbn; by rewrite E3, E4|]. split; [exact (nr_used _ _ _ _ _ _ R)|exact (proj1 (nr_tss _ _ _ _ _ _ R))].
Defined.
