(* ===== verification/Boot.v ===== *)
(** * From the boot loader to the first shell (kernel.c, x86_desc.h)

    [entry] of kernel.c: it clears the screen, reads what the boot loader left (the
    Multiboot information), describes the TSS and the LDT in the GDT and calls the
    [init] function of every component.  The lemmas say that on what a Multiboot
    loader leaves [entry] reaches its idle loop with every component set up; the theorem,
    that its loops over what the loader describes end.  BootCode.v completes the boot. *)

From stdpp Require Import base gmap list numbers strings.
From Stdlib Require Import ZArith Lia.
From S2P Require Import Prelude Pointers Ports Pic Paging State Machine VirtMem CString MemFns.
From S2P Require Import Pcb Demo Screen Printf FileSystem Rtc Keyboard Terminal Syscalls Process.
From S2P Require Import Idt Command Descriptors Exec Launch Sched Frame SchedStart.

Definition MULTIBOOT_BOOTLOADER_MAGIC : Z := 0x2BADB002.
Definition KERNEL_TSS : Z := 0x0030.
Definition KERNEL_LDT : Z := 0x0038.
Definition TSS_SIZE : Z := 104.

(** ** Segment descriptors *)

(** x86_desc.h: [seg_desc_t] *)
Record seg_desc : Type := {
  seg_lim_15_00 : Z;
  base_15_00 : Z;
  base_23_16 : Z;
  seg_type : Z;
  seg_sys : Z;
  seg_dpl : Z;
  seg_present : Z;
  seg_lim_19_16 : Z;
  seg_avail : Z;
  seg_reserved : Z;
  opsize : Z;
  granularity : Z;
  base_31_24 : Z;
}.

Definition SET_LDT_PARAMS (addr lim : Z) (str : seg_desc) : seg_desc :=
  {| base_31_24 := Z.shiftr (Z.land (u32 addr) 0xFF000000) 24;
     base_23_16 := Z.shiftr (Z.land (u32 addr) 0x00FF0000) 16;
     base_15_00 := Z.land (u32 addr) 0x0000FFFF;
     seg_lim_19_16 := Z.shiftr (Z.land lim 0x000F0000) 16;
     seg_lim_15_00 := Z.land lim 0x0000FFFF;
     seg_type := seg_type str; seg_sys := seg_sys str; seg_dpl := seg_dpl str;
     seg_present := seg_present str; seg_avail := seg_avail str;
     seg_reserved := seg_reserved str; opsize := opsize str; granularity := granularity str |}.

Definition SET_TSS_PARAMS (addr lim : Z) (str : seg_desc) : seg_desc :=
  {| base_31_24 := Z.shiftr (Z.land (u32 addr) 0xFF000000) 24;
     base_23_16 := Z.shiftr (Z.land (u32 addr) 0x00FF0000) 16;
     base_15_00 := Z.land (u32 addr) 0x0000FFFF;
     seg_lim_19_16 := Z.shiftr (Z.land lim 0x000F0000) 16;
     seg_lim_15_00 := Z.land lim 0x0000FFFF;
     seg_type := seg_type str; seg_sys := seg_sys str; seg_dpl := seg_dpl str;
     seg_present := seg_present str; seg_avail := seg_avail str;
     seg_reserved := seg_reserved str; opsize := opsize str; granularity := granularity str |}.

(** x86_desc.S: the last byte of the TSS and of the LDT. *)
Definition tss_size : Z := 104 - 1.
Definition ldt_size : Z := 4 * 8 - 1.

(** [the_ldt_desc] and [the_tss_desc]; [str] is what the local held before. *)
Definition ldt_entry (ldt : Z) (str : seg_desc) : seg_desc :=
  SET_LDT_PARAMS ldt ldt_size
    {| granularity := 0; opsize := 1; seg_reserved := 0; seg_avail := 0; seg_present := 1;
       seg_dpl := 0; seg_sys := 0; seg_type := 2;
       base_31_24 := base_31_24 str; base_23_16 := base_23_16 str; base_15_00 := base_15_00 str;
       seg_lim_19_16 := seg_lim_19_16 str; seg_lim_15_00 := seg_lim_15_00 str |}.

Definition tss_entry (tss : Z) (str : seg_desc) : seg_desc :=
  SET_TSS_PARAMS tss tss_size
    {| granularity := 0; opsize := 0; seg_reserved := 0; seg_avail := 0;
       seg_lim_19_16 := Z.land TSS_SIZE 0x000F0000 mod 2 ^ 4; seg_present := 1;
       seg_dpl := 0; seg_sys := 0; seg_type := 9; seg_lim_15_00 := Z.land TSS_SIZE 0x0000FFFF;
       base_31_24 := base_31_24 str; base_23_16 := base_23_16 str; base_15_00 := base_15_00 str |}.

(** ** What the boot loader left *)

(** multiboot.h: members of [multiboot_info_t]; the size of [module_t]. *)
Definition MBI_FLAGS : Z := 0.
Definition MBI_MODS_COUNT : Z := 20.
Definition MBI_MODS_ADDR : Z := 24.
Definition MBI_MMAP_LENGTH : Z := 44.
Definition MBI_MMAP_ADDR : Z := 48.
Definition MODULE_SIZE : Z := 16.

Definition CHECK_FLAG (flags bit : Z) : Z := Z.land flags (Z.shiftl 1 bit).

Section Entry.
Context `{L : Layout}.
Implicit Types (k : kernel).

(** A word of the structure at [mbi]. *)
Definition mbi_word (mbi member : Z) k : res Z := load32 vptr (u32 (mbi + member)) k.

(** [CHECK_FLAG(mbi->flags, bit)] as a condition. *)
Definition mbi_flag (mbi bit : Z) k : res bool :=
  f ← mbi_word mbi MBI_FLAGS k; Ok (negb (CHECK_FLAG f bit =? 0)).

(** The loop over the modules. *)
Definition count_modules (mbi mod_addr : Z) k : res Z :=
  loop FUEL (fun '(mod_count, md) =>
    n ← mbi_word mbi MBI_MODS_COUNT k;
    if u32 mod_count <? n then Ok (inl (s32 (mod_count + 1), u32 (md + MODULE_SIZE)))
    else Ok (inr md)) (0, mod_addr).

(** The statements that set [file_system_addr]: each condition guards the next, since
    what stood between them is commented out.  [uninit] is what the variable held
    before. *)
Definition module_address (uninit mbi : Z) k : res Z :=
  c ← mbi_flag mbi 0 k;
  if (c : bool) then
    c ← mbi_flag mbi 1 k;
    if (c : bool) then
      c ← mbi_flag mbi 3 k;
      if (c : bool) then
        md ← mbi_word mbi MBI_MODS_ADDR k;
        file_system_addr ← load32 vptr md k;
        _ ← count_modules mbi md k;
        Ok file_system_addr
      else Ok uninit
    else Ok uninit
  else Ok uninit.

(** The loop over the memory map. *)
Definition walk_mmap (mbi : Z) k : res Z :=
  mmap ← mbi_word mbi MBI_MMAP_ADDR k;
  loop FUEL (fun mmap =>
    a ← mbi_word mbi MBI_MMAP_ADDR k;
    n ← mbi_word mbi MBI_MMAP_LENGTH k;
    if mmap <? u32 (a + n) then
      size ← load32 vptr mmap k; Ok (inl (u32 (mmap + size + 4)))
    else Ok (inr mmap)) mmap.

(** ** The kernel's entry point *)

(** The kernel with the tables that only [entry] touches. *)
Record boot_state : Type := {
  b_k : kernel;
  b_idt : list idt_desc;
  ldt_desc_ptr : seg_desc;
  tss_desc_ptr : seg_desc;
  ldtr : Z;
  tr : Z;
}.

(** x86_desc.h: [lldt] and [ltr].  The processor takes only a present descriptor of the
    right kind (an LDT; an available 32-bit TSS), and [ltr] marks the TSS busy in the
    table.  The last two entries of the GDT are the only system descriptors. *)
Definition system_desc (s : boot_state) (sel : Z) : res seg_desc :=
  if Z.shiftr sel 3 =? 6 then Ok (tss_desc_ptr s)
  else if Z.shiftr sel 3 =? 7 then Ok (ldt_desc_ptr s)
  else Err (BadSelector sel).

Definition system_ok (type : Z) (d : seg_desc) : bool :=
  (seg_sys d =? 0) && (seg_type d =? type) && (seg_present d =? 1).

Definition lldt (desc : Z) (s : boot_state) : res boot_state :=
  d ← system_desc s desc;
  if system_ok 2 d then
    Ok {| b_k := b_k s; b_idt := b_idt s; ldt_desc_ptr := ldt_desc_ptr s; tss_desc_ptr := tss_desc_ptr s;
          ldtr := u16 desc; tr := tr s |}
  else Err (BadSelector desc).

Definition busy (d : seg_desc) : seg_desc :=
  {| seg_lim_15_00 := seg_lim_15_00 d; base_15_00 := base_15_00 d; base_23_16 := base_23_16 d;
     seg_type := Z.lor (seg_type d) 2; seg_sys := seg_sys d; seg_dpl := seg_dpl d; seg_present := seg_present d;
     seg_lim_19_16 := seg_lim_19_16 d; seg_avail := seg_avail d; seg_reserved := seg_reserved d;
     opsize := opsize d; granularity := granularity d; base_31_24 := base_31_24 d |}.

Definition ltr (desc : Z) (s : boot_state) : res boot_state :=
  d ← system_desc s desc;
  if system_ok 9 d then
    Ok {| b_k := b_k s; b_idt := b_idt s; ldt_desc_ptr := ldt_desc_ptr s; tss_desc_ptr := busy (tss_desc_ptr s);
          ldtr := ldtr s; tr := u16 desc |}
  else Err (BadSelector desc).

(** [entry] returns to boot.S, or idles with interrupts on. *)
Inductive entry_end : Type := Returned | Idles.

Definition step {A} (m : K A) k : res kernel := r ← m k; Ok r.2.

(** What the linker, the compiler and the stack determine: the addresses of the
    handlers, of [ldt] and of [tss], and what is found in uninitialised
    locals and behind the arrays of [init_idt]. *)
Record linkage : Type := {
  l_handler : handler -> Z;
  l_ldt : Z;
  l_tss : Z;
  l_vects : list Z;
  l_handlers : list Z;
  l_fs_addr : Z;
  l_desc : seg_desc;
}.

Context (N : linkage).

(** The calls of the [init] functions, to the end. *)
Definition init_components (file_system_addr : Z) (idt : list idt_desc) k : res (list idt_desc * kernel) :=
  r ← init_idt (l_handler N) (l_vects N) (l_handlers N) idt (k_ter k);
  let '(idt, ter) := r in
  let k := set_k_ter ter k in
  let p := i8259_init (k_pic k, k_io k) in
  let k := set_k_io p.2 (set_k_pic p.1 k) in
  k ← step init_rtc k;
  k ← step init_pit k;
  k ← step (kenable_irq RTC_IRQ_NUM) k;
  k ← step (kenable_irq KB_IRQ_NUM) k;
  k ← step (kenable_irq PT_IRQ_NUM) k;
  pg ← init_paging (k_pg k);
  let k := set_k_pg pg k in
  k ← step init_pid k;
  k ← step (file_system_init file_system_addr) k;
  k ← step sti k;
  Ok (idt, k).

Definition entry (magic addr : Z) (s : boot_state) : res (entry_end * boot_state) :=
  let put k := {| b_k := k; b_idt := b_idt s; ldt_desc_ptr := ldt_desc_ptr s;
                  tss_desc_ptr := tss_desc_ptr s; ldtr := ldtr s; tr := tr s |} in
  k ← step clear (b_k s);
  if negb (magic =? MULTIBOOT_BOOTLOADER_MAGIC) then Ok (Returned, put k)
  else
    let mbi := addr in
    file_system_addr ← module_address (l_fs_addr N) mbi k;
    c4 ← mbi_flag mbi 4 k;
    c5 ← mbi_flag mbi 5 k;
    if (c4 : bool) && (c5 : bool) then Ok (Returned, put k)
    else
      c6 ← mbi_flag mbi 6 k;
      _ ← (if (c6 : bool) then walk_mmap mbi k else Ok 0);
      s ← lldt KERNEL_LDT {| b_k := k; b_idt := b_idt s; ldt_desc_ptr := ldt_entry (l_ldt N) (l_desc N);
                            tss_desc_ptr := tss_desc_ptr s; ldtr := ldtr s; tr := tr s |};
      let k := set_k_tss (set_esp0 0x800000 (set_ss0 KERNEL_DS
                 (set_ldt_segment_selector KERNEL_LDT (k_tss k)))) k in
      s ← ltr KERNEL_TSS {| b_k := k; b_idt := b_idt s; ldt_desc_ptr := ldt_desc_ptr s;
                           tss_desc_ptr := tss_entry (l_tss N) (l_desc N); ldtr := ldtr s; tr := tr s |};
      r ← init_components file_system_addr (b_idt s) (b_k s);
      Ok (Idles, {| b_k := r.2; b_idt := r.1; ldt_desc_ptr := ldt_desc_ptr s; tss_desc_ptr := tss_desc_ptr s;
                    ldtr := ldtr s; tr := tr s |}).
End Entry.

(** The processor takes both descriptors [entry] makes. *)
Lemma lldt_kernel k idt ldt str d l r :
  lldt KERNEL_LDT {| b_k := k; b_idt := idt; ldt_desc_ptr := ldt_entry ldt str; tss_desc_ptr := d; ldtr := l; tr := r |} =
  Ok {| b_k := k; b_idt := idt; ldt_desc_ptr := ldt_entry ldt str; tss_desc_ptr := d; ldtr := KERNEL_LDT; tr := r |}.
Proof. done. Qed.

Lemma ltr_kernel k idt tss str d l r :
  ltr KERNEL_TSS {| b_k := k; b_idt := idt; ldt_desc_ptr := d; tss_desc_ptr := tss_entry tss str; ldtr := l; tr := r |} =
  Ok {| b_k := k; b_idt := idt; ldt_desc_ptr := d; tss_desc_ptr := busy (tss_entry tss str); ldtr := l; tr := KERNEL_TSS |}.
Proof. done. Qed.

(** ** Reading the information *)

Lemma u32_s32 z : u32 (s32 z) = u32 z.
Proof.
  unfold u32, s32, signed. cbv zeta. destruct (_ <? _).
  - by rewrite Z.mod_mod by lia.
  - rewrite Zminus_mod, Z.mod_same, Z.sub_0_r by lia. by rewrite !Z.mod_mod by lia.
Qed.

Lemma s32_succ z : s32 (s32 z + 1) = s32 (z + 1).
Proof.
  assert (u32 (s32 z + 1) = u32 (z + 1)) as E.
  { unfold u32 in *. rewrite Zplus_mod. fold (u32 (s32 z)). rewrite u32_s32. unfold u32. by rewrite <- Zplus_mod. }
  unfold s32 at 1 3, signed. unfold u32 in E. by rewrite E.
Qed.

Lemma check_flag f bit : 0 <= bit -> negb (CHECK_FLAG f bit =? 0) = Z.testbit f bit.
Proof.
  intros Hb. unfold CHECK_FLAG. rewrite Z.shiftl_1_l.
  destruct (Z.testbit f bit) eqn:E.
  - rewrite (proj2 (Z.eqb_neq _ _)); [done|]. intros H.
    pose proof (f_equal (fun z => Z.testbit z bit) H) as G. simpl in G.
    by rewrite Z.land_spec, E, testbit_pow2, Z.eqb_refl, Z.bits_0 in G.
  - rewrite (proj2 (Z.eqb_eq _ _)); [done|]. apply Z.bits_inj'. intros i Hi.
    rewrite Z.land_spec, Z.bits_0, testbit_pow2 by done.
    destruct (Z.eqb_spec i bit) as [->|_]; [by rewrite E|by rewrite andb_false_r].
Qed.

(** The word [v] is in memory at [a], outside the screen. *)
Record word_at (m : gmap Z Z) (a v : Z) : Prop := {
  wa_range : 0 <= a /\ a + 4 <= 2 ^ 32;
  wa_apart : a + 4 <= VIDEO \/ VIDEO + 4096 <= a;
  wa_bytes : exists bs, bytes_at m a bs /\ length bs = 4%nat /\ Forall is_byte bs /\ from_le bs = v;
}.

(** A memory map: [sizes] are the size members of its entries. *)
Fixpoint mmap_at (m : gmap Z Z) (a : Z) (sizes : list Z) : Prop :=
  match sizes with
  | [] => True
  | s :: sizes => word_at m a s /\ mmap_at m (a + s + 4) sizes
  end.

Definition mmap_bytes (sizes : list Z) : Z := foldr (fun s n => s + 4 + n) 0 sizes.

(** What a Multiboot loader leaves at [mbi] when it loaded the file system at [start]. *)
Record boot_info (m : gmap Z Z) (mbi start : Z) : Prop := {
  bi_flags : exists flags, word_at m (mbi + MBI_FLAGS) flags /\
    Z.testbit flags 0 = true /\ Z.testbit flags 1 = true /\ Z.testbit flags 3 = true /\
    Z.testbit flags 4 && Z.testbit flags 5 = false;
  bi_mods : exists n md, word_at m (mbi + MBI_MODS_COUNT) n /\ word_at m (mbi + MBI_MODS_ADDR) md /\
    word_at m md start;
  bi_mmap : exists a sizes, word_at m (mbi + MBI_MMAP_ADDR) a /\
    word_at m (mbi + MBI_MMAP_LENGTH) (mmap_bytes sizes) /\ a + mmap_bytes sizes < 2 ^ 32 /\ mmap_at m a sizes;
}.

Lemma word_at_range m a v : word_at m a v -> 0 <= v < 2 ^ 32.
Proof.
  intros [_ _ (bs & _ & Hl & Hb & <-)]. pose proof (from_le_range bs Hb) as H. rewrite Hl in H. lia.
Qed.

Section Info.
Context (m m' : gmap Z Z).
Hypothesis same : forall a, ~ (VIDEO <= a < VIDEO + 4096) -> m' !! a = m !! a.

Lemma word_at_same a v : word_at m a v -> word_at m' a v.
Proof.
  intros [H1 H2 (bs & Hb & Hl & Hf & Hv)]. split; [done..|]. exists bs. split; [|done].
  intros i b Hi. pose proof (lookup_lt_Some _ _ _ Hi). rewrite same by lia. auto.
Qed.

Lemma mmap_at_same sizes a : mmap_at m a sizes -> mmap_at m' a sizes.
Proof. revert a. induction sizes as [|s l IH]; intros a; [done|]. intros [H1 H2]. split; auto using word_at_same. Qed.

Lemma boot_info_same mbi start : boot_info m mbi start -> boot_info m' mbi start.
Proof.
  intros [(f & ? & ?) (n & md & ? & ? & ?) (a & l & ? & ? & ? & ?)].
  split; [exists f|exists n, md|exists a, l]; auto using word_at_same, mmap_at_same.
Qed.
End Info.

Section Reading.
Context `{L : Layout}.
Implicit Types (k : kernel).

Lemma off_maps k a n : cr0_pg (k_pg k) = false -> 0 <= a -> a + n <= 2 ^ 32 -> maps (k_pg k) a a n.
Proof. intros H Ha Hn i Hi. rewrite u32_small by lia. unfold translate. by rewrite H. Qed.

Lemma load32_off k a v :
  cr0_pg (k_pg k) = false -> word_at (k_mem k) a v -> load32 vptr (u32 a) k = Ok v.
Proof.
  intros H [[H1 H2] _ (bs & Hb & Hl & _ & <-)]. rewrite u32_small by lia. unfold load32.
  assert (holds (vptr a) k bs) as Hh by (eapply vptr_holds; [apply (off_maps k a 4); done|lia|done]).
  apply holds_load_list in Hh. rewrite Hl in Hh. by rewrite Hh.
Qed.

Lemma mbi_flag_spec k mbi flags bit :
  cr0_pg (k_pg k) = false -> word_at (k_mem k) (mbi + MBI_FLAGS) flags -> 0 <= bit ->
  mbi_flag mbi bit k = Ok (Z.testbit flags bit).
Proof.
  intros H W Hb. unfold mbi_flag, mbi_word. rewrite (load32_off k _ flags H W), Ok_bind. by rewrite check_flag.
Qed.

(** The loop over the modules ends, whatever their number, behind the last one. *)
Lemma count_modules_ends k mbi md n :
  cr0_pg (k_pg k) = false -> word_at (k_mem k) (mbi + MBI_MODS_COUNT) n ->
  count_modules mbi (u32 md) k = Ok (u32 (md + MODULE_SIZE * n)).
Proof.
  intros H W. pose proof (word_at_range _ _ _ W) as Hn. unfold count_modules, mbi_word.
  match goal with |- context [loop FUEL ?g] => set (f := g) end.
  assert (forall (j : nat) i, 0 <= i -> i + Z.of_nat j = n ->
    runs f (s32 i, u32 (md + MODULE_SIZE * i)) j (Ok (u32 (md + MODULE_SIZE * n)))) as G.
  { induction j as [|j IH]; intros i Hi Hj.
    - apply runs_done. unfold f. rewrite (load32_off k _ n H W), Ok_bind, u32_s32, (u32_small i) by lia.
      rewrite (proj2 (Z.ltb_ge _ _)) by lia. do 5 f_equal. lia.
    - apply runs_step with (s32 (i + 1), u32 (md + MODULE_SIZE * (i + 1))); [|apply IH; lia]. unfold f.
      rewrite (load32_off k _ n H W), Ok_bind, u32_s32, (u32_small i) by lia.
      rewrite (proj2 (Z.ltb_lt _ _)), s32_succ by lia. do 3 f_equal.
      unfold u32. rewrite Zplus_mod_idemp_l. f_equal. lia. }
  apply loop_runs_Z with (Z.to_nat n); [|unfold FUEL; lia].
  replace (u32 md) with (u32 (md + MODULE_SIZE * 0)) by (f_equal; lia). apply (G (Z.to_nat n) 0); lia.
Qed.

Lemma mmap_bytes_length m a sizes : mmap_at m a sizes -> 4 * Z.of_nat (length sizes) <= mmap_bytes sizes.
Proof.
  revert a. induction sizes as [|s l IH]; intros a; simpl; [lia|]. intros [W H].
  pose proof (word_at_range _ _ _ W). apply IH in H. unfold mmap_bytes in *. lia.
Qed.

(** The loop over a memory map ends behind its last entry. *)
Lemma walk_mmap_runs k mbi a sizes :
  cr0_pg (k_pg k) = false -> word_at (k_mem k) (mbi + MBI_MMAP_ADDR) a ->
  word_at (k_mem k) (mbi + MBI_MMAP_LENGTH) (mmap_bytes sizes) -> a + mmap_bytes sizes < 2 ^ 32 ->
  mmap_at (k_mem k) a sizes -> walk_mmap mbi k = Ok (a + mmap_bytes sizes).
Proof.
  intros H Wa Wn He Hm. pose proof (word_at_range _ _ _ Wa) as Ha. pose proof (mmap_bytes_length _ _ _ Hm) as Hl.
  unfold walk_mmap, mbi_word. rewrite (load32_off k _ a H Wa), Ok_bind.
  match goal with |- context [loop FUEL ?g] => set (f := g) end.
  assert (forall l b, 0 <= b -> b + mmap_bytes l = a + mmap_bytes sizes -> mmap_at (k_mem k) b l ->
    runs f b (length l) (Ok (a + mmap_bytes sizes))) as G.
  { induction l as [|s l IH]; intros b Hb Hs Hat.
    - change (mmap_bytes []) with 0 in Hs. rewrite Z.add_0_r in Hs. subst b. apply runs_done. unfold f.
      rewrite Ok_bind, (load32_off k _ _ H Wn), Ok_bind, u32_small by lia.
      by rewrite (proj2 (Z.ltb_ge _ _)) by lia.
    - destruct Hat as [Ws Hat]. pose proof (word_at_range _ _ _ Ws).
      pose proof (mmap_bytes_length _ _ _ Hat). simpl in Hs. fold (mmap_bytes l) in Hs.
      apply runs_step with (b + s + 4); [|apply IH; [lia|unfold mmap_bytes in *; simpl in *; lia|done]].
      unfold f. rewrite Ok_bind, (load32_off k _ _ H Wn), Ok_bind, u32_small by lia.
      rewrite (proj2 (Z.ltb_lt _ _)) by (unfold mmap_bytes in *; simpl in *; lia).
      rewrite <- (u32_small b) at 1 by (unfold mmap_bytes in *; simpl in *; lia).
      rewrite (load32_off k _ _ H Ws), Ok_bind. rewrite u32_small; [done|]. unfold mmap_bytes in *; simpl in *; lia. }
  apply loop_runs_Z with (length sizes); [apply G; [lia|done|done]|]. unfold FUEL. lia.
Qed.

Lemma module_address_spec k uninit mbi start :
  cr0_pg (k_pg k) = false -> boot_info (k_mem k) mbi start -> module_address uninit mbi k = Ok start.
Proof.
  intros H [(flags & Wf & H0 & H1 & H3 & _) (n & md & Wn & Wm & Ws) _]. unfold module_address.
  rewrite (mbi_flag_spec k mbi flags 0 H Wf), Ok_bind, H0 by lia. cbv iota.
  rewrite (mbi_flag_spec k mbi flags 1 H Wf), Ok_bind, H1 by lia. cbv iota.
  rewrite (mbi_flag_spec k mbi flags 3 H Wf), Ok_bind, H3 by lia. cbv iota.
  unfold mbi_word. rewrite (load32_off k _ md H Wm), Ok_bind.
  pose proof (load32_off k md start H Ws) as E. rewrite u32_small in E by (eapply word_at_range; exact Wm).
  rewrite E, Ok_bind, <- (u32_small md) by (eapply word_at_range; exact Wm).
  by rewrite (count_modules_ends k mbi md n H Wn).
Qed.
End Reading.

(** ** How the processor reads a segment descriptor *)

Definition seg_base (d : seg_desc) : Z := base_15_00 d + base_23_16 d * 2 ^ 16 + base_31_24 d * 2 ^ 24.
Definition seg_limit (d : seg_desc) : Z := seg_lim_15_00 d + seg_lim_19_16 d * 2 ^ 16.

Lemma field_of a n w :
  0 <= n -> 0 <= w -> Z.shiftr (Z.land a (Z.shiftl (Z.ones w) n)) n = (a / 2 ^ n) mod 2 ^ w.
Proof.
  intros Hn Hw. rewrite Z.shiftr_land, Z.shiftr_shiftl_l, Z.sub_diag, Z.shiftl_0_r by lia.
  by rewrite Z.land_ones, Z.shiftr_div_pow2 by lia.
Qed.

Lemma params_base a lim str :
  0 <= a < 2 ^ 32 -> 0 <= lim < 2 ^ 20 ->
  (seg_base (SET_LDT_PARAMS a lim str) = a /\ seg_limit (SET_LDT_PARAMS a lim str) = lim) /\
  (seg_base (SET_TSS_PARAMS a lim str) = a /\ seg_limit (SET_TSS_PARAMS a lim str) = lim).
Proof.
  intros Ha Hl.
  assert (seg_base (SET_LDT_PARAMS a lim str) = a /\ seg_limit (SET_LDT_PARAMS a lim str) = lim) as G;
    [|exact (conj G G)].
  unfold seg_base, seg_limit, SET_LDT_PARAMS.
  cbn [base_15_00 base_23_16 base_31_24 seg_lim_15_00 seg_lim_19_16]. rewrite u32_small by lia.
  change 0xFF000000 with (Z.shiftl (Z.ones 8) 24). change 0x00FF0000 with (Z.shiftl (Z.ones 8) 16).
  change 0x000F0000 with (Z.shiftl (Z.ones 4) 16). change 0x0000FFFF with (Z.ones 16).
  rewrite !field_of, !Z.land_ones by lia. split; Z.to_euclidean_division_equations; lia.
Qed.

Lemma ldt_entry_ok a str : 0 <= a < 2 ^ 32 -> seg_base (ldt_entry a str) = a /\ seg_limit (ldt_entry a str) = ldt_size.
Proof. intros Ha. apply params_base; [done|unfold ldt_size; lia]. Qed.

Lemma tss_entry_ok a str : 0 <= a < 2 ^ 32 -> seg_base (tss_entry a str) = a /\ seg_limit (tss_entry a str) = tss_size.
Proof. intros Ha. apply params_base; [done|unfold tss_size; lia]. Qed.

(** ** The [init] functions *)

Lemma reg_a_other log port data :
  u16 port <> RTC_CMD -> u16 port <> RTC_DATA -> reg_a (log ++ [Out (u16 port) data]) = reg_a log.
Proof.
  intros H1 H2. unfold reg_a. rewrite foldl_app. cbn [foldl]. destruct (foldl _ _ log) as [s a]. simpl.
  by rewrite (proj2 (Z.eqb_neq _ _) H1), (proj2 (Z.eqb_neq _ _) H2).
Qed.

Section Inits.
Context `{L : Layout}.
Implicit Types (k : kernel).

Lemma init_rtc_spec k b c cs :
  length (rtc_interrupt_flags (k_rtc k)) = 3%nat -> io_in (k_io k) = b :: c :: cs ->
  exists log, step init_rtc k = Ok (set_k_io {| io_log := log; io_in := cs |}
      (set_k_rtc (set_rtc_interrupt_flags [0; 0; 0] (k_rtc k)) k)) /\
    chip_freq (reg_a log) = RTC_START_FREQ.
Proof.
  intros Hl Hin. unfold step, init_rtc, kout. kcbn. erewrite run_kin by exact Hin. kcbn.
  erewrite K_bind_Ok by (by apply all_flags). cbv beta.
  match goal with |- context [(rtc_set_frequency ?f;; _) ?x] =>
    destruct (rtc_set_frequency_spec f x c cs) as (log & E & Hc); [by exists 1|done|] end.
  kstep E. exists log. split; [|done]. unfold restore_flags, set_flags. kcbn.
  by destruct k as [??????? [] ??? []].
Qed.

Lemma init_pit_spec k :
  exists log, step init_pit k = Ok (set_k_io {| io_log := log; io_in := io_in (k_io k) |}
      (set_k_scr (set_on_screen 0 (k_scr k)) (set_k_ter (set_curr_process 2 (k_ter k)) k))) /\
    reg_a log = reg_a (io_log (k_io k)).
Proof.
  unfold step, init_pit, put_curr_process, put_on_screen, kout. kcbn. eexists. split; [reflexivity|].
  cbn [io_log outb k_io set_k_io set_k_scr set_k_ter]. by rewrite !reg_a_other.
Qed.

Lemma init_pid_spec k :
  length (used_pids (k_proc k)) = 6%nat ->
  step init_pid k = Ok (set_k_proc (set_used_pids (replicate 6 0) (k_proc k)) k).
Proof.
  intros Hl. destruct k as [m pg sc ter kb pc io rt [u bs] ts fs cp]. simpl in Hl.
  by destruct u as [|? [|? [|? [|? [|? [|? [|]]]]]]].
Qed.

(** The clock, the keyboard and the timer are let through, beside the line that connects the
    second controller. *)
Lemma enable_devices {A} k (f : kernel -> res A) :
  k_pic k = {| master_mask := MASTER_INIT_MASK; slave_mask := SLAVE_INIT_MASK |} ->
  exists log, (k ← step (kenable_irq RTC_IRQ_NUM) k; k ← step (kenable_irq KB_IRQ_NUM) k;
      k ← step (kenable_irq PT_IRQ_NUM) k; f k) =
    f (set_k_io {| io_log := log; io_in := io_in (k_io k) |}
      (set_k_pic {| master_mask := 0xF8; slave_mask := 0xFE |} k)) /\
    reg_a log = reg_a (io_log (k_io k)).
Proof.
  destruct k as [m pg sc ter kb pc io rt pr ts fs cp]. intros Hp. cbn [k_pic] in Hp. subst pc.
  exists (((io_log io ++ [Out (u16 SLAVE_PIC_DATA) 0xFE]) ++ [Out (u16 MASTER_PIC_DATA) 0xF9]) ++
    [Out (u16 MASTER_PIC_DATA) 0xF8]).
  split; [reflexivity|]. cbn [io_log k_io]. by rewrite !reg_a_other.
Qed.
End Inits.

Lemma boot_masks i :
  0 <= i <= MAX_IRQ -> masked {| master_mask := 0xF8; slave_mask := 0xFE |} i =
    negb ((i =? PT_IRQ_NUM) || (i =? KB_IRQ_NUM) || (i =? 2) || (i =? RTC_IRQ_NUM)).
Proof.
  unfold MAX_IRQ. intros Hi. assert (i ∈ seqZ 0 16) as Hs by (apply elem_of_seqZ; lia). clear Hi. revert i Hs.
  apply list.Forall_forall. repeat constructor.
Qed.

(** ** The booted kernel *)

Section Boot.
Context `{L : Layout} (N : linkage) (img : list Z) (start : Z).
Implicit Types (k : kernel) (s : boot_state).

(** The state in which boot.S calls [entry]: zeroed tables, paging off, the globals as they are
    initialised, the image in the kernel's 4 MB. *)
Record loaded s : Prop := {
  ld_pg : k_pg (b_k s) = bss_paging;
  ld_idt : b_idt s = replicate 256 zero_desc;
  ld_ter : length (terminals (k_ter (b_k s))) = 3%nat;
  ld_flags : length (rtc_interrupt_flags (k_rtc (b_k s))) = 3%nat;
  ld_freq : higher_freq (k_rtc (b_k s)) = RTC_START_FREQ;
  ld_used : length (used_pids (k_proc (b_k s))) = 6%nat;
  ld_image : bytes_at (k_mem (b_k s)) start img;
  ld_vects : length (l_vects N) = 12%nat /\ length (l_handlers N) = 12%nat /\ Forall vector_ok (l_vects N);
  ld_addrs : 0 <= l_ldt N < 2 ^ 32 /\ 0 <= l_tss N < 2 ^ 32;
}.

Record booted s s' : Prop := {
  bo_screen : shows (b_k s') VIDEO_PAGE blank_screen;
  bo_map : paging_rep (k_pg (b_k s')) None VIDEO_PAGE None;
  bo_fs : mounted img start start (b_k s');
  bo_idt : exists ter, init_idt (l_handler N) (l_vects N) (l_handlers N) (b_idt s) (k_ter (b_k s)) =
    Ok (b_idt s', ter) /\ k_ter (b_k s') = set_curr_process 2 ter;
  bo_irq : k_pic (b_k s') = {| master_mask := 0xF8; slave_mask := 0xFE |};
  bo_rtc : rtc_ok (b_k s');
  bo_chip : chip_freq (reg_a (io_log (k_io (b_k s')))) = RTC_START_FREQ;
  bo_proc : k_proc (b_k s') = set_used_pids (replicate 6 0) (k_proc (b_k s));
  bo_tss : k_tss (b_k s') = {| ss0 := KERNEL_DS; esp0 := 0x800000; ldt_segment_selector := KERNEL_LDT |};
  bo_cpu : k_cpu (b_k s') = set_eflags (Z.setbit (eflags (k_cpu (b_k s))) IF_BIT) (k_cpu (b_k s));
  bo_gdt : seg_base (tss_desc_ptr s') = l_tss N /\ seg_limit (tss_desc_ptr s') = tss_size /\
    seg_base (ldt_desc_ptr s') = l_ldt N /\ seg_limit (ldt_desc_ptr s') = ldt_size;
  bo_regs : tr s' = KERNEL_TSS /\ ldtr s' = KERNEL_LDT;
  bo_entries : tss_desc_ptr s' = busy (tss_entry (l_tss N) (l_desc N)) /\ ldt_desc_ptr s' = ldt_entry (l_ldt N) (l_desc N);
}.

Hypothesis W : image_wf img.
Hypothesis Hstart : KERNEL_MEM_START <= start /\ start + Z.of_nat (length img) <= 2 * _4_MB.

Lemma file_system_init_spec k prog vid uvid :
  paging_rep (k_pg k) prog vid uvid -> bytes_at (k_mem k) start img ->
  step (file_system_init start) k = Ok (set_k_fs (image_fs img start) k).
Proof.
  intros R Hb. pose proof Hstart as [H1 H2]. unfold KERNEL_MEM_START, _4_MB in H1, H2.
  unfold step, file_system_init.
  rewrite (init_fs_image vptr img start W); [done|lia|].
  eapply vptr_holds; [apply (kernel_maps _ _ _ _ start (Z.of_nat (length img)) R); apply Hstart|lia|done].
Qed.

(** The kernel the [init] functions leave. *)
Lemma init_components_spec idt k b c cs :
  k_pg k = bss_paging -> length idt = 256%nat -> length (terminals (k_ter k)) = 3%nat ->
  length (rtc_interrupt_flags (k_rtc k)) = 3%nat -> length (used_pids (k_proc k)) = 6%nat ->
  length (l_vects N) = 12%nat /\ length (l_handlers N) = 12%nat /\ Forall vector_ok (l_vects N) ->
  bytes_at (k_mem k) start img -> io_in (k_io k) = b :: c :: cs ->
  exists idt' ter pg log, init_idt (l_handler N) (l_vects N) (l_handlers N) idt (k_ter k) = Ok (idt', ter) /\
    paging_rep pg None VIDEO_PAGE None /\ chip_freq (reg_a log) = RTC_START_FREQ /\
    init_components N start idt k = Ok (idt',
      set_k_cpu (set_eflags (Z.setbit (eflags (k_cpu k)) IF_BIT) (k_cpu k))
      (set_k_fs (image_fs img start) (set_k_proc (set_used_pids (replicate 6 0) (k_proc k))
      (set_k_pg pg (set_k_pic {| master_mask := 0xF8; slave_mask := 0xFE |}
      (set_k_scr (set_on_screen 0 (k_scr k)) (set_k_ter (set_curr_process 2 ter)
      (set_k_rtc (set_rtc_interrupt_flags [0; 0; 0] (k_rtc k))
      (set_k_io {| io_log := log; io_in := cs |} k))))))))).
Proof.
  intros Hpg Hidt Hter Hfl Hu (Hl1 & Hl2 & Hv) Him Hin.
  destruct (init_idt_spec (l_handler N) (l_vects N) (l_handlers N) (conj Hl1 Hl2) idt (k_ter k) Hidt Hv Hter)
    as (ter & _ & Ei). destruct init_bss as (pg & Ep & R).
  unfold init_components. rewrite Ei, Ok_bind. cbv zeta. set (k1 := set_k_io _ _).
  destruct (init_rtc_spec k1 b c cs Hfl Hin) as (log1 & -> & Hc). rewrite Ok_bind. set (k2 := set_k_io _ _).
  destruct (init_pit_spec k2) as (log2 & -> & Hc2). rewrite Ok_bind. set (k3 := set_k_io _ _).
  match goal with |- context [step (kenable_irq RTC_IRQ_NUM) k3 ≫= ?g] =>
    destruct (enable_devices k3 (fun k => pg ← init_paging (k_pg k); k ← step init_pid (set_k_pg pg k);
      k ← step (file_system_init start) k; k ← step sti k;
      Ok (filled (l_handler N) (l_vects N) (l_handlers N) idt, k)) eq_refl) as (log3 & E & Hc3) end.
  rewrite E. clear E. set (k4 := set_k_io _ _). change (k_pg k4) with (k_pg k). rewrite Hpg, Ep, Ok_bind.
  set (k5 := set_k_pg pg k4). rewrite (init_pid_spec k5 Hu), Ok_bind. set (k6 := set_k_proc _ k5).
  rewrite (file_system_init_spec k6 None VIDEO_PAGE None R Him), Ok_bind.
  exists (filled (l_handler N) (l_vects N) (l_handlers N) idt), ter, pg, log3.
  split; [done|]. split; [done|]. split; [by rewrite Hc3; unfold k3, set_k_io, k_io, io_log; rewrite Hc2|]. done.
Qed.

(** [entry] on what the loader left. *)
Lemma entry_spec s mbi b c cs :
  loaded s -> boot_info (k_mem (b_k s)) mbi start -> io_in (k_io (b_k s)) = b :: c :: cs ->
  exists s', entry N MULTIBOOT_BOOTLOADER_MAGIC mbi s = Ok (Idles, s') /\ booted s s'.
Proof.
  intros [] B Hin. unfold entry.
  destruct (clear_maps (b_k s) VIDEO_PAGE) as (k1 & E1 & Hk1 & Hs & F);
    [apply (off_maps (b_k s) VIDEO 4096); [by rewrite ld_pg0|done|done]|].
  unfold step at 1. rewrite E1, !Ok_bind. cbn [snd]. change (negb (_ =? _)) with false. cbv iota.
  assert (k_pg k1 = bss_paging) as Hpg by by rewrite (fr_pg _ _ _ F).
  assert (cr0_pg (k_pg k1) = false) as Hoff by by rewrite Hpg.
  assert (forall a, ~ (VIDEO <= a < VIDEO + 4096) -> k_mem k1 !! a = k_mem (b_k s) !! a) as Hm.
  { intros a Ha. apply (fr_mem _ _ _ F). unfold VIDEO, VIDEO_PAGE in *. lia. }
  pose proof (boot_info_same _ _ Hm _ _ B) as B1. rewrite (module_address_spec k1 _ mbi start Hoff B1), Ok_bind.
  destruct B1 as [(flags & Wf & _ & _ & _ & H45) _ (a & sizes & Wa & Wn & He & Hat)].
  rewrite !(mbi_flag_spec k1 mbi flags _ Hoff Wf), !Ok_bind, H45 by lia. cbv iota.
  assert (exists x, (if Z.testbit flags 6 then walk_mmap mbi k1 else Ok 0) = Ok x) as (x & ->).
  { destruct (Z.testbit flags 6); [|by eexists]. eexists. by eapply walk_mmap_runs. }
  rewrite Ok_bind, lldt_kernel, Ok_bind. cbv zeta. cbn [b_idt ldt_desc_ptr ldtr tr].
  rewrite ltr_kernel, Ok_bind. cbn [b_k b_idt ldt_desc_ptr tss_desc_ptr ldtr tr]. set (k2 := set_k_tss _ k1).
  destruct (init_components_spec (b_idt s) k2 b c cs) as (idt & ter & pg & log & Ei & R & Hc & ->);
    cbn [k2 k_pg k_ter k_rtc k_proc k_mem k_io set_k_tss]; rewrite ?(fr_rtc _ _ _ F), ?(fr_proc _ _ _ F), ?(fr_in _ _ _ F); auto.
  - by rewrite ld_idt0, length_replicate.
  - by rewrite Hk1.
  - intros i x' Hi. rewrite Hm; [by apply ld_image0|]. destruct Hstart as [Hs1 _]. unfold KERNEL_MEM_START, VIDEO in *. lia.
  - rewrite Ok_bind. eexists. split; [reflexivity|]. cbn [k2 k_ter set_k_tss] in Ei. rewrite Hk1 in Ei. cbn [k_ter set_k_mem] in Ei.
    destruct ld_addrs0 as [Hl Ht]. split; unfold k2; cbn [b_k b_idt tss_desc_ptr ldt_desc_ptr tr ldtr]; auto.
    + split; [done|apply (kernel_maps _ _ _ _ _ _ R); apply Hstart|].
      intros i x' Hi. simpl. rewrite Hm; [by apply ld_image0|]. destruct Hstart as [Hs1 _]. unfold KERNEL_MEM_START, VIDEO in *. lia.
    + exists ter. by split.
    + split; simpl.
      * rewrite ld_freq0. by exists 1.
      * done.
      * done.
      * intros q Hq (u & Hu & Hne). change (replicate 6 0 !! Z.to_nat q = Some u) in Hu.
        by apply lookup_replicate in Hu as [-> _].
    + simpl. by rewrite ?(fr_cpu _ _ _ F).
    + destruct (tss_entry_ok (l_tss N) (l_desc N) Ht) as [T1 T2], (ldt_entry_ok (l_ldt N) (l_desc N) Hl) as [L1 L2].
      split; [exact T1|]. split; [exact T2|]. by split.
Qed.

(** The terminals after the boot. *)
Lemma booted_terminals s s' :
  loaded s -> booted s s' -> k_ter (b_k s') = set_curr_process 2 (set_curr_ter 0 (set_terminals
    ((fun t => set_prog_curr_pid (-1) (set_prog_par_pid (-1) (set_buf_len 0 t))) <$> terminals (k_ter (b_k s)))
    (k_ter (b_k s)))).
Proof.
  intros [] []. destruct bo_idt0 as (ter & Ei & ->).
  destruct (init_idt_spec (l_handler N) (l_vects N) (l_handlers N) (conj (proj1 ld_vects0) (proj1 (proj2 ld_vects0)))
    (b_idt s) (k_ter (b_k s))) as (ter' & E1 & E2); [by rewrite ld_idt0, length_replicate|apply ld_vects0|done|].
  rewrite E2 in Ei. injection Ei as _ <-. rewrite (init_terminals_ok _ ld_ter0) in E1. by injection E1 as <-.
Qed.

(** The booted kernel has the types that FrameCalls.v carries through every later step. *)
Lemma booted_shaped s s' :
  loaded s -> booted s s' -> Forall ter_shaped (terminals (k_ter (b_k s))) ->
  map_Forall (fun _ => pcb_shaped) (pcbs (k_proc (b_k s))) -> shaped (b_k s').
Proof.
  intros Hl Hb Ht Hp. pose proof (booted_terminals s s' Hl Hb) as Et. destruct Hl, Hb.
  split; rewrite ?Et; try apply bo_map0; try apply bo_rtc0; cbn.
  - by rewrite length_fmap.
  - apply Forall_fmap. eapply Forall_impl; [exact Ht|done].
  - by rewrite bo_proc0.
Qed.

(** The state [entry] leaves is one in which the first terminal's shell is due. *)
Lemma booted_due s s' par c :
  loaded s -> booted s s' -> running_pcb (b_k s) par c ->
  (forall q, 0 <= q < 6 -> exists b, pcbs (k_proc (b_k s)) !! get_pcb_by_pid q = Some b /\
    length (fdt b) = 8%nat /\ length (args b) = 128%nat) ->
  curr_process (k_ter (b_k s')) = 2 /\ curr_ter (k_ter (b_k s')) = 0 /\
  exists tn, shell_due (b_k s') tn par c None VIDEO_PAGE None blank_screen.
Proof.
  intros Hl Hb [Hpar Hc] Hq. pose proof (booted_terminals s s' Hl Hb) as Et. destruct Hl, Hb.
  destruct (terminals (k_ter (b_k s))) as [|t0 [|t1 [|t2 [|]]]] eqn:El; try done.
  split; [by rewrite Et|]. split; [by rewrite Et|]. eexists.
  split; rewrite ?Et, ?bo_irq0, ?bo_proc0; try done; cbn [terminals set_curr_process set_curr_ter set_terminals curr_process curr_ter];
    try lia.
  split; rewrite ?bo_cpu0, ?bo_proc0; done.
Qed.
End Boot.

Section BootClaims.
Context `{L : Layout} (N : linkage) (img : list Z) (start : Z).

(** With another magic number [entry] returns with nothing but the screen touched. *)
Lemma entry_refuses s magic mbi :
  loaded N img start s -> magic <> MULTIBOOT_BOOTLOADER_MAGIC ->
  exists s', entry N magic mbi s = Ok (Returned, s') /\ screen_frame VIDEO_PAGE (b_k s) (b_k s') /\
    b_idt s' = b_idt s /\ tr s' = tr s.
Proof.
  intros H Hm. unfold entry.
  destruct (clear_maps (b_k s) VIDEO_PAGE) as (k1 & E1 & _ & _ & F);
    [apply (off_maps (b_k s) VIDEO 4096); [by rewrite (ld_pg _ _ _ _ H)|done|done]|].
  unfold step at 1. rewrite E1, !Ok_bind, (proj2 (Z.eqb_neq _ _) Hm). eexists. by split.
Qed.

(** (C36) The two loops of [entry] over what the boot loader left end: the one over the modules after
    as many rounds as there are modules, whatever their number, and the one over the memory map behind
    its last entry, for a map of any length that does not reach the end of the address space. *)
Theorem boot_loops_end k mbi md n a sizes :
  cr0_pg (k_pg k) = false -> word_at (k_mem k) (mbi + MBI_MODS_COUNT) n ->
  word_at (k_mem k) (mbi + MBI_MMAP_ADDR) a -> word_at (k_mem k) (mbi + MBI_MMAP_LENGTH) (mmap_bytes sizes) ->
  a + mmap_bytes sizes < 2 ^ 32 -> mmap_at (k_mem k) a sizes ->
  count_modules mbi (u32 md) k = Ok (u32 (md + MODULE_SIZE * n)) /\
  walk_mmap mbi k = Ok (a + mmap_bytes sizes).
Proof. intros H Wn Wa Wl He Hm. split; [by apply count_modules_ends|by apply walk_mmap_runs]. Qed.
End BootClaims.
