(* ===== verification/BootExamples.v ===== *)
(** * A boot on a concrete state

    What the boot loader leaves with the file system of ProcessExamples.v, and the
    theorems of Boot.v applied to it. *)

From stdpp Require Import base gmap list numbers strings.
From Stdlib Require Import ZArith Lia.
From S2P Require Import Prelude Pointers Ports Pic Paging State Machine VirtMem CString MemFns.
From S2P Require Import Pcb Demo Screen Printf FileSystem FileExamples Rtc Syscalls Process Descriptors.
From S2P Require Import DescriptorExamples Idt Command Exec Launch ProcessExamples Sched SchedStart.
From S2P Require Import StartExamples Boot.

#[local] Opaque prog_img start_mem.

(** The information: flags 0x4B, one module, a memory map of two entries behind it. *)
Definition demo_info : list Z :=
  word 0x4B ++ zeros 16 ++ word 1 ++ word 0x10034 ++ zeros 16 ++ word 48 ++ word 0x10044 ++
  (word demo_start ++ zeros 12) ++ (word 20 ++ zeros 20) ++ (word 20 ++ zeros 20).

Definition zero_seg : seg_desc :=
  {| seg_lim_15_00 := 0; base_15_00 := 0; base_23_16 := 0; seg_type := 0; seg_sys := 0; seg_dpl := 0;
     seg_present := 0; seg_lim_19_16 := 0; seg_avail := 0; seg_reserved := 0; opsize := 0; granularity := 0;
     base_31_24 := 0 |}.

Definition demo_boot : boot_state :=
  {| b_k := set_k_mem (put_bytes 0x10000 demo_info start_mem)
       (set_k_pg bss_paging
       (set_k_io {| io_log := []; io_in := [2; 0x26] |}
       (set_k_rtc {| higher_freq := 2; rtc_interrupt_flags := replicate 3 0 |}
       (set_k_proc {| used_pids := replicate 6 0; pcbs := exec_pcbs |}
       (set_k_cpu {| eflags := 2; r_esp := 0x7FFF00; r_ebp := 0x7FFF00 |} demo_state)))));
     b_idt := replicate 256 zero_desc;
     ldt_desc_ptr := zero_seg; tss_desc_ptr := zero_seg;
     ldtr := 0; tr := 0 |}.

Definition demo_linkage : linkage :=
  {| l_handler := demo_addr; l_ldt := 0x410000; l_tss := 0x411000; l_vects := replicate 12 0x40;
     l_handlers := replicate 12 0; l_fs_addr := 0; l_desc := zero_seg |}.

(** The word at offset [i] of the information. *)
Lemma info_word i v :
  (i + 4 <= length demo_info)%nat -> from_le (take 4 (drop i demo_info)) = v ->
  word_at (k_mem (b_k demo_boot)) (0x10000 + Z.of_nat i) v.
Proof.
  intros Hi <-. assert (length demo_info = 116%nat) as Hl by reflexivity.
  split; [lia|unfold VIDEO; lia|]. exists (take 4 (drop i demo_info)). split; [|split; [|split]].
  - intros j b Hj. apply lookup_take_Some in Hj as [Hj _]. rewrite lookup_drop in Hj.
    change (k_mem (b_k demo_boot)) with (put_bytes 0x10000 demo_info start_mem).
    rewrite <- Z.add_assoc, <- Nat2Z.inj_add. by apply bytes_at_put.
  - rewrite length_take, length_drop. lia.
  - apply Forall_take, Forall_drop. unfold is_byte. repeat constructor; done.
  - done.
Qed.

Lemma demo_boot_info : boot_info (k_mem (b_k demo_boot)) 0x10000 demo_start.
Proof.
  split.
  - exists 0x4B. split; [apply (info_word 0); [vm_compute; lia|reflexivity]|]. by repeat split.
  - exists 1, 0x10034. split; [apply (info_word 20); [vm_compute; lia|reflexivity]|].
    split; [apply (info_word 24); [vm_compute; lia|reflexivity]|].
    apply (info_word 52); [vm_compute; lia|reflexivity].
  - exists 0x10044, [20; 20]. split; [apply (info_word 48); [vm_compute; lia|reflexivity]|].
    split; [apply (info_word 44); [vm_compute; lia|reflexivity]|].
    split; [unfold mmap_bytes; simpl; lia|]. split; [apply (info_word 68); [vm_compute; lia|reflexivity]|].
    split; [apply (info_word 92); [vm_compute; lia|reflexivity]|done].
Qed.

Lemma demo_loaded : loaded demo_linkage prog_img demo_start demo_boot.
Proof.
  split; try reflexivity.
  - change (k_mem (b_k demo_boot)) with (put_bytes 0x10000 demo_info start_mem).
    pose proof (start_mem_image 0 0 0x7FFF00 [] ∅) as H. rewrite exec_state_mem in H.
    apply bytes_at_put_other; [left; vm_compute; discriminate|exact H].
  - split; [reflexivity|]. split; [reflexivity|]. apply Forall_replicate. unfold vector_ok, NUM_VEC. lia.
  - simpl. lia.
Qed.

Lemma boot_loops_end_witness :
  count_modules (L := demo_layout) 0x10000 (u32 0x10034) (b_k demo_boot) = Ok 0x10044 /\
  walk_mmap (L := demo_layout) 0x10000 (b_k demo_boot) = Ok 0x10074.
Proof.
  destruct (boot_loops_end (L := demo_layout) (b_k demo_boot) 0x10000 0x10034 1 0x10044 [20; 20]) as [H1 H2].
  - reflexivity.
  - apply (info_word 20); [vm_compute; lia|reflexivity].
  - apply (info_word 48); [vm_compute; lia|reflexivity].
  - apply (info_word 44); [vm_compute; lia|reflexivity].
  - unfold mmap_bytes. simpl. lia.
  - split; [apply (info_word 68); [vm_compute; lia|reflexivity]|].
    split; [apply (info_word 92); [vm_compute; lia|reflexivity]|done].
  - split; [exact H1|exact H2].
Defined.
