(* ===== verification/Structs.v ===== *)
(** * Packed structures (file_system.h, x86_desc.h, multiboot.h)

    On this machine a packed C structure is its members' bits one after the other,
    from the lowest: bit fields, integers, arrays and nested structures alike.  A
    [codec] describes such a layout; the combinators [uint], [pair], [array] and [iso]
    build the codecs of the program's structures, and carry their laws: every value
    has one byte string of the structure's size, and every byte string of that size is
    one value (the unions with [val] in the headers). *)

From stdpp Require Import base gmap list numbers.
From Stdlib Require Import ZArith Lia.
From S2P Require Import Prelude Pointers Ports Pic Paging State Machine VirtMem CString MemFns.
From S2P Require Import Pcb Demo FileSystem Screen Printf Rtc Keyboard Terminal Syscalls Process Idt Descriptors Boot.

Record codec (A : Type) : Type := Codec {
  width : Z;              (* bits *)
  cenc : A -> Z;
  cdec : Z -> A;
  cwf : A -> Prop;        (* the members are in range *)
}.
Arguments Codec {A}.
Arguments width {A}.
Arguments cenc {A}.
Arguments cdec {A}.
Arguments cwf {A}.

Class Lawful {A} (C : codec A) : Prop := {
  width_nonneg : 0 <= width C;
  enc_range a : cwf C a -> 0 <= cenc C a < 2 ^ width C;
  dec_enc a : cwf C a -> cdec C (cenc C a) = a;
  dec_wf z : 0 <= z < 2 ^ width C -> cwf C (cdec C z);
  enc_dec z : 0 <= z < 2 ^ width C -> cenc C (cdec C z) = z;
}.

(** ** Combinators *)

(** An unsigned integer or bit field of [w] bits. *)
Definition uint (w : Z) : codec Z :=
  {| width := w; cenc := fun z => z; cdec := fun z => z; cwf := fun z => 0 <= z < 2 ^ w |}.

Definition pair {A B} (C : codec A) (D : codec B) : codec (A * B) :=
  {| width := width C + width D;
     cenc := fun p => cenc C p.1 + 2 ^ width C * cenc D p.2;
     cdec := fun z => (cdec C (z mod 2 ^ width C), cdec D (z / 2 ^ width C));
     cwf := fun p => cwf C p.1 /\ cwf D p.2 |}.

Fixpoint array_enc {A} (C : codec A) (l : list A) : Z :=
  match l with [] => 0 | a :: l => cenc C a + 2 ^ width C * array_enc C l end.
Fixpoint array_dec {A} (C : codec A) (n : nat) (z : Z) : list A :=
  match n with
  | 0%nat => []
  | S n => cdec C (z mod 2 ^ width C) :: array_dec C n (z / 2 ^ width C)
  end.

Definition array {A} (n : nat) (C : codec A) : codec (list A) :=
  {| width := Z.of_nat n * width C;
     cenc := array_enc C;
     cdec := array_dec C n;
     cwf := fun l => length l = n /\ Forall (cwf C) l |}.

(** The same bits, read as a record. *)
Definition iso {A B} (f : A -> B) (g : B -> A) (C : codec A) : codec B :=
  {| width := width C; cenc := fun b => cenc C (g b); cdec := fun z => f (cdec C z);
     cwf := fun b => cwf C (g b) |}.

Declare Scope struct_scope.
Delimit Scope struct_scope with struct.
Notation "C ⊗ D" := (pair C D) (at level 38, right associativity) : struct_scope.

#[export] Instance uint_lawful w : 0 <= w -> Lawful (uint w).
Proof. intros Hw. by split. Qed.

Lemma pair_split a b w : 0 <= a < 2 ^ w -> 0 <= w -> (a + 2 ^ w * b) mod 2 ^ w = a /\ (a + 2 ^ w * b) / 2 ^ w = b.
Proof.
  intros Ha Hw. assert (0 < 2 ^ w) by lia. rewrite (Z.mul_comm (2 ^ w)). split.
  - rewrite Z.mod_add by lia. by apply Z.mod_small.
  - rewrite Z.div_add, Z.div_small by lia. lia.
Qed.

Lemma split_range z v w : 0 <= z < 2 ^ (v + w) -> 0 <= v -> 0 <= w ->
  0 <= z mod 2 ^ v < 2 ^ v /\ 0 <= z / 2 ^ v < 2 ^ w /\ z mod 2 ^ v + 2 ^ v * (z / 2 ^ v) = z.
Proof.
  intros Hz Hv Hw. rewrite Z.pow_add_r in Hz by lia. assert (0 < 2 ^ v) by lia.
  split; [by apply Z.mod_pos_bound|]. split.
  - split; [apply Z.div_pos; lia|]. apply Z.div_lt_upper_bound; lia.
  - pose proof (Z.div_mod z (2 ^ v)). lia.
Qed.

Lemma join_range a b v w : 0 <= a < 2 ^ v -> 0 <= b < 2 ^ w -> 0 <= v -> 0 <= w ->
  0 <= a + 2 ^ v * b < 2 ^ (v + w).
Proof. intros Ha Hb Hv Hw. rewrite Z.pow_add_r by lia. nia. Qed.

#[export] Instance pair_lawful {A B} (C : codec A) (D : codec B) :
  Lawful C -> Lawful D -> Lawful (pair C D).
Proof.
  intros LC LD. pose proof (width_nonneg (C := C)). pose proof (width_nonneg (C := D)). split; simpl.
  - lia.
  - intros [a b] [Ha Hb]. apply join_range; auto; by apply enc_range.
  - intros [a b] [Ha Hb]. simpl in *. destruct (pair_split (cenc C a) (cenc D b) (width C)) as [-> ->]; auto.
    + by apply enc_range.
    + by rewrite !dec_enc.
  - intros z Hz. destruct (split_range z (width C) (width D)) as (H1 & H2 & _); auto. by split; apply dec_wf.
  - intros z Hz. destruct (split_range z (width C) (width D)) as (H1 & H2 & H3); auto. by rewrite !enc_dec.
Qed.

#[export] Instance array_lawful {A} n (C : codec A) : Lawful C -> Lawful (array n C).
Proof.
  intros LC. pose proof (width_nonneg (C := C)) as Hw.
  assert (forall n z, 0 <= z < 2 ^ (Z.of_nat (S n) * width C) ->
    0 <= z mod 2 ^ width C < 2 ^ width C /\ 0 <= z / 2 ^ width C < 2 ^ (Z.of_nat n * width C) /\
    z mod 2 ^ width C + 2 ^ width C * (z / 2 ^ width C) = z) as Hs.
  { intros n' z Hz. apply split_range; [|done|lia]. by replace (width C + Z.of_nat n' * width C)
      with (Z.of_nat (S n') * width C) by lia. }
  split; simpl.
  - lia.
  - intros l [<- Hl]. induction Hl as [|a l Ha Hl IH]; simpl; [done|].
    replace (Z.of_nat (S (length l)) * width C) with (width C + Z.of_nat (length l) * width C) by lia.
    apply join_range; [by apply enc_range|done|done|lia].
  - intros l [<- Hl]. induction Hl as [|a l Ha Hl IH]; simpl; [done|].
    destruct (pair_split (cenc C a) (array_enc C l) (width C)) as [-> ->]; [by apply enc_range|done|].
    by rewrite dec_enc, IH.
  - induction n as [|n IH]; intros z Hz; simpl; [done|]. destruct (Hs n z Hz) as (H1 & H2 & _).
    destruct (IH _ H2) as [Hl Hf]. split; [by rewrite Hl|]. constructor; [by apply dec_wf|done].
  - induction n as [|n IH]; intros z Hz; simpl.
    + change (2 ^ (Z.of_nat 0 * width C)) with 1 in Hz. lia.
    + destruct (Hs n z Hz) as (H1 & H2 & H3). by rewrite enc_dec, IH.
Qed.

Lemma iso_lawful {A B} (f : A -> B) (g : B -> A) (C : codec A) :
  Lawful C -> (forall a, g (f a) = a) -> (forall b, f (g b) = b) -> Lawful (iso f g C).
Proof.
  intros LC Hgf Hfg. split; simpl.
  - apply width_nonneg.
  - intros b. apply enc_range.
  - intros b Hb. by rewrite dec_enc.
  - intros z Hz. rewrite Hgf. by apply dec_wf.
  - intros z Hz. rewrite Hgf. by apply enc_dec.
Qed.

(** ** Bytes *)

Definition sizeof {A} (C : codec A) : Z := width C / 8.
Definition to_bytes {A} (C : codec A) (a : A) : list Z := le_bytes (Z.to_nat (sizeof C)) (cenc C a).
Definition of_bytes {A} (C : codec A) (bs : list Z) : A := cdec C (from_le bs).

Lemma le_bytes_length n v : length (le_bytes n v) = n.
Proof. revert v. induction n as [|n IH]; intros v; simpl; [done|]. by rewrite IH. Qed.

Lemma le_bytes_bytes n v : Forall is_byte (le_bytes n v).
Proof. revert v. induction n as [|n IH]; intros v; simpl; constructor; [apply u8_range|apply IH]. Qed.

Lemma from_le_bytes n v : 0 <= v < 2 ^ (8 * Z.of_nat n) -> from_le (le_bytes n v) = v.
Proof.
  revert v. induction n as [|n IH]; intros v Hv; simpl; [simpl in Hv; lia|].
  replace (8 * Z.of_nat (S n)) with (8 + 8 * Z.of_nat n) in Hv by lia.
  destruct (split_range v 8 (8 * Z.of_nat n) Hv) as (H1 & H2 & H3); [lia..|].
  rewrite Z.shiftr_div_pow2, IH by (done || lia). exact H3.
Qed.

Lemma le_bytes_from bs : Forall is_byte bs -> le_bytes (length bs) (from_le bs) = bs.
Proof.
  induction 1 as [|b bs Hb _ IH]; simpl; [done|]. change 256 with (2 ^ 8). unfold u8.
  destruct (pair_split b (from_le bs) 8 Hb ltac:(lia)) as [-> E]. rewrite Z.shiftr_div_pow2, E by lia. by rewrite IH.
Qed.

(** A structure in memory. *)
Lemma struct_roundtrip {A} (C : codec A) n :
  Lawful C -> width C = 8 * Z.of_nat n ->
  (forall a, cwf C a -> length (to_bytes C a) = n /\ Forall is_byte (to_bytes C a) /\ of_bytes C (to_bytes C a) = a) /\
  (forall bs, length bs = n -> Forall is_byte bs -> cwf C (of_bytes C bs) /\ to_bytes C (of_bytes C bs) = bs).
Proof.
  intros LC Hw. assert (Z.to_nat (sizeof C) = n) as Hs.
  { unfold sizeof. rewrite Hw, Z.mul_comm, Z.div_mul by done. lia. }
  unfold to_bytes, of_bytes. rewrite Hs. split.
  - intros a Ha. split; [apply le_bytes_length|]. split; [apply le_bytes_bytes|].
    rewrite from_le_bytes; [by apply dec_enc|]. rewrite <- Hw. by apply enc_range.
  - intros bs <- Hb. pose proof (from_le_range bs Hb) as Hr. change 256 with (2 ^ 8) in Hr.
    rewrite <- Z.pow_mul_r, <- Hw in Hr by lia. split; [by apply dec_wf|].
    rewrite enc_dec by done. by apply le_bytes_from.
Qed.

(** ** The structures *)

(** The laws of a structure follow from those of its members. *)
Ltac struct_laws :=
  apply iso_lawful;
    [repeat (apply pair_lawful || apply array_lawful || (apply uint_lawful; lia) || apply _)
    |intros x; repeat match goal with p : (_ * _)%type |- _ => destruct p end; reflexivity
    |intros []; reflexivity].

(** file_system.h *)
Record dir_entry_t : Type := {
  de_file_name : list Z;
  de_file_type : Z;
  de_inode_num : Z;
  de_reserved : list Z;
}.

Definition dir_entry_t_codec : codec dir_entry_t :=
  iso
    (fun '(v0, (v1, (v2, v3))) => {| de_file_name := v0; de_file_type := v1; de_inode_num :=
    v2; de_reserved := v3 |})
    (fun r => (de_file_name r, (de_file_type r, (de_inode_num r, de_reserved r))))
    (array 32 (uint 8) ⊗ uint 32 ⊗ uint 32 ⊗ array 24 (uint 8))%struct.

#[export] Instance dir_entry_t_lawful : Lawful dir_entry_t_codec.
Proof. struct_laws. Qed.

(** file_system.h *)
Record inode_t : Type := {
  in_length_in_bytes : Z;
  in_data_block_indices : list Z;
}.

Definition inode_t_codec : codec inode_t :=
  iso
    (fun '(v0, v1) => {| in_length_in_bytes := v0; in_data_block_indices := v1 |})
    (fun r => (in_length_in_bytes r, in_data_block_indices r))
    (uint 32 ⊗ array 1023 (uint 32))%struct.

#[export] Instance inode_t_lawful : Lawful inode_t_codec.
Proof. struct_laws. Qed.

(** file_system.h *)
Definition data_block_t_codec : codec (list Z) := array 4096 (uint 8).

(** file_system.h *)
Record boot_block_t : Type := {
  bb_num_dir_entries : Z;
  bb_num_inodes : Z;
  bb_num_data_blocks : Z;
  bb_reserved : list Z;
  bb_dir_entries : list dir_entry_t;
}.

Definition boot_block_t_codec : codec boot_block_t :=
  iso
    (fun '(v0, (v1, (v2, (v3, v4)))) => {| bb_num_dir_entries := v0; bb_num_inodes := v1;
    bb_num_data_blocks := v2; bb_reserved := v3; bb_dir_entries := v4 |})
    (fun r => (bb_num_dir_entries r, (bb_num_inodes r, (bb_num_data_blocks r, (bb_reserved r,
    bb_dir_entries r)))))
    (uint 32 ⊗ uint 32 ⊗ uint 32 ⊗ array 52 (uint 8) ⊗ array 63 dir_entry_t_codec)%struct.

#[export] Instance boot_block_t_lawful : Lawful boot_block_t_codec.
Proof. struct_laws. Qed.

(** x86_desc.h *)
Record x86_desc_t : Type := {
  xd_padding : Z;
  xd_size : Z;
  xd_addr : Z;
}.

Definition x86_desc_t_codec : codec x86_desc_t :=
  iso
    (fun '(v0, (v1, v2)) => {| xd_padding := v0; xd_size := v1; xd_addr := v2 |})
    (fun r => (xd_padding r, (xd_size r, xd_addr r)))
    (uint 16 ⊗ uint 16 ⊗ uint 32)%struct.

#[export] Instance x86_desc_t_lawful : Lawful x86_desc_t_codec.
Proof. struct_laws. Qed.

(** x86_desc.h: [seg_desc_t] *)
Definition seg_desc_t_codec : codec seg_desc :=
  iso
    (fun '(v0, (v1, (v2, (v3, (v4, (v5, (v6, (v7, (v8, (v9, (v10, (v11, v12)))))))))))) => {|
    seg_lim_15_00 := v0; base_15_00 := v1; base_23_16 := v2; seg_type := v3; seg_sys := v4;
    seg_dpl := v5; seg_present := v6; seg_lim_19_16 := v7; seg_avail := v8; seg_reserved := v9;
    opsize := v10; granularity := v11; base_31_24 := v12 |})
    (fun r => (seg_lim_15_00 r, (base_15_00 r, (base_23_16 r, (seg_type r, (seg_sys r, (seg_dpl
    r, (seg_present r, (seg_lim_19_16 r, (seg_avail r, (seg_reserved r, (opsize r, (granularity
    r, base_31_24 r)))))))))))))
    (uint 16 ⊗ uint 16 ⊗ uint 8 ⊗ uint 4 ⊗ uint 1 ⊗ uint 2 ⊗ uint 1 ⊗ uint 4 ⊗ uint 1 ⊗ uint 1
    ⊗ uint 1 ⊗ uint 1 ⊗ uint 8)%struct.

#[export] Instance seg_desc_lawful : Lawful seg_desc_t_codec.
Proof. struct_laws. Qed.

(** x86_desc.h: [idt_desc_t] *)
Definition idt_desc_t_codec : codec idt_desc :=
  iso
    (fun '(v0, (v1, (v2, (v3, (v4, (v5, (v6, (v7, (v8, (v9, v10)))))))))) => {| offset_15_00 :=
    v0; seg_selector := v1; reserved4 := v2; reserved3 := v3; reserved2 := v4; reserved1 := v5;
    gate_size := v6; reserved0 := v7; dpl := v8; gate_present := v9; offset_31_16 := v10 |})
    (fun r => (offset_15_00 r, (seg_selector r, (reserved4 r, (reserved3 r, (reserved2 r,
    (reserved1 r, (gate_size r, (reserved0 r, (dpl r, (gate_present r, offset_31_16
    r)))))))))))
    (uint 16 ⊗ uint 16 ⊗ uint 8 ⊗ uint 1 ⊗ uint 1 ⊗ uint 1 ⊗ uint 1 ⊗ uint 1 ⊗ uint 2 ⊗ uint 1
    ⊗ uint 16)%struct.

#[export] Instance idt_desc_lawful : Lawful idt_desc_t_codec.
Proof. struct_laws. Qed.

(** x86_desc.h *)
Record tss_t : Type := {
  t_prev_task_link : Z;
  t_prev_task_link_pad : Z;
  t_esp0 : Z;
  t_ss0 : Z;
  t_ss0_pad : Z;
  t_esp1 : Z;
  t_ss1 : Z;
  t_ss1_pad : Z;
  t_esp2 : Z;
  t_ss2 : Z;
  t_ss2_pad : Z;
  t_cr3 : Z;
  t_eip : Z;
  t_eflags : Z;
  t_eax : Z;
  t_ecx : Z;
  t_edx : Z;
  t_ebx : Z;
  t_esp : Z;
  t_ebp : Z;
  t_esi : Z;
  t_edi : Z;
  t_es : Z;
  t_es_pad : Z;
  t_cs : Z;
  t_cs_pad : Z;
  t_ss : Z;
  t_ss_pad : Z;
  t_ds : Z;
  t_ds_pad : Z;
  t_fs : Z;
  t_fs_pad : Z;
  t_gs : Z;
  t_gs_pad : Z;
  t_ldt_segment_selector : Z;
  t_ldt_pad : Z;
  t_debug_trap : Z;
  t_io_pad : Z;
  t_io_base_addr : Z;
}.

Definition tss_t_codec : codec tss_t :=
  iso
    (fun '(v0, (v1, (v2, (v3, (v4, (v5, (v6, (v7, (v8, (v9, (v10, (v11, (v12, (v13, (v14, (v15,
    (v16, (v17, (v18, (v19, (v20, (v21, (v22, (v23, (v24, (v25, (v26, (v27, (v28, (v29, (v30,
    (v31, (v32, (v33, (v34, (v35, (v36, (v37, v38)))))))))))))))))))))))))))))))))))))) => {|
    t_prev_task_link := v0; t_prev_task_link_pad := v1; t_esp0 := v2; t_ss0 := v3; t_ss0_pad :=
    v4; t_esp1 := v5; t_ss1 := v6; t_ss1_pad := v7; t_esp2 := v8; t_ss2 := v9; t_ss2_pad :=
    v10; t_cr3 := v11; t_eip := v12; t_eflags := v13; t_eax := v14; t_ecx := v15; t_edx := v16;
    t_ebx := v17; t_esp := v18; t_ebp := v19; t_esi := v20; t_edi := v21; t_es := v22; t_es_pad
    := v23; t_cs := v24; t_cs_pad := v25; t_ss := v26; t_ss_pad := v27; t_ds := v28; t_ds_pad
    := v29; t_fs := v30; t_fs_pad := v31; t_gs := v32; t_gs_pad := v33; t_ldt_segment_selector
    := v34; t_ldt_pad := v35; t_debug_trap := v36; t_io_pad := v37; t_io_base_addr := v38 |})
    (fun r => (t_prev_task_link r, (t_prev_task_link_pad r, (t_esp0 r, (t_ss0 r, (t_ss0_pad r,
    (t_esp1 r, (t_ss1 r, (t_ss1_pad r, (t_esp2 r, (t_ss2 r, (t_ss2_pad r, (t_cr3 r, (t_eip r,
    (t_eflags r, (t_eax r, (t_ecx r, (t_edx r, (t_ebx r, (t_esp r, (t_ebp r, (t_esi r, (t_edi
    r, (t_es r, (t_es_pad r, (t_cs r, (t_cs_pad r, (t_ss r, (t_ss_pad r, (t_ds r, (t_ds_pad r,
    (t_fs r, (t_fs_pad r, (t_gs r, (t_gs_pad r, (t_ldt_segment_selector r, (t_ldt_pad r,
    (t_debug_trap r, (t_io_pad r, t_io_base_addr r)))))))))))))))))))))))))))))))))))))))
    (uint 16 ⊗ uint 16 ⊗ uint 32 ⊗ uint 16 ⊗ uint 16 ⊗ uint 32 ⊗ uint 16 ⊗ uint 16 ⊗ uint 32 ⊗
    uint 16 ⊗ uint 16 ⊗ uint 32 ⊗ uint 32 ⊗ uint 32 ⊗ uint 32 ⊗ uint 32 ⊗ uint 32 ⊗ uint 32 ⊗
    uint 32 ⊗ uint 32 ⊗ uint 32 ⊗ uint 32 ⊗ uint 16 ⊗ uint 16 ⊗ uint 16 ⊗ uint 16 ⊗ uint 16 ⊗
    uint 16 ⊗ uint 16 ⊗ uint 16 ⊗ uint 16 ⊗ uint 16 ⊗ uint 16 ⊗ uint 16 ⊗ uint 16 ⊗ uint 16 ⊗
    uint 1 ⊗ uint 15 ⊗ uint 16)%struct.

#[export] Instance tss_t_lawful : Lawful tss_t_codec.
Proof. struct_laws. Qed.

(** multiboot.h *)
Record multiboot_header_t : Type := {
  mh_magic : Z;
  mh_flags : Z;
  mh_checksum : Z;
  mh_header_addr : Z;
  mh_load_addr : Z;
  mh_load_end_addr : Z;
  mh_bss_end_addr : Z;
  mh_entry_addr : Z;
}.

Definition multiboot_header_t_codec : codec multiboot_header_t :=
  iso
    (fun '(v0, (v1, (v2, (v3, (v4, (v5, (v6, v7))))))) => {| mh_magic := v0; mh_flags := v1;
    mh_checksum := v2; mh_header_addr := v3; mh_load_addr := v4; mh_load_end_addr := v5;
    mh_bss_end_addr := v6; mh_entry_addr := v7 |})
    (fun r => (mh_magic r, (mh_flags r, (mh_checksum r, (mh_header_addr r, (mh_load_addr r,
    (mh_load_end_addr r, (mh_bss_end_addr r, mh_entry_addr r))))))))
    (uint 32 ⊗ uint 32 ⊗ uint 32 ⊗ uint 32 ⊗ uint 32 ⊗ uint 32 ⊗ uint 32 ⊗ uint 32)%struct.

#[export] Instance multiboot_header_t_lawful : Lawful multiboot_header_t_codec.
Proof. struct_laws. Qed.

(** multiboot.h *)
Record elf_section_header_table_t : Type := {
  es_num : Z;
  es_size : Z;
  es_addr : Z;
  es_shndx : Z;
}.

Definition elf_section_header_table_t_codec : codec elf_section_header_table_t :=
  iso
    (fun '(v0, (v1, (v2, v3))) => {| es_num := v0; es_size := v1; es_addr := v2; es_shndx := v3
    |})
    (fun r => (es_num r, (es_size r, (es_addr r, es_shndx r))))
    (uint 32 ⊗ uint 32 ⊗ uint 32 ⊗ uint 32)%struct.

#[export] Instance elf_section_header_table_t_lawful : Lawful elf_section_header_table_t_codec.
Proof. struct_laws. Qed.

(** multiboot.h *)
Record multiboot_info_t : Type := {
  mi_flags : Z;
  mi_mem_lower : Z;
  mi_mem_upper : Z;
  mi_boot_device : Z;
  mi_cmdline : Z;
  mi_mods_count : Z;
  mi_mods_addr : Z;
  mi_elf_sec : elf_section_header_table_t;
  mi_mmap_length : Z;
  mi_mmap_addr : Z;
}.

Definition multiboot_info_t_codec : codec multiboot_info_t :=
  iso
    (fun '(v0, (v1, (v2, (v3, (v4, (v5, (v6, (v7, (v8, v9))))))))) => {| mi_flags := v0;
    mi_mem_lower := v1; mi_mem_upper := v2; mi_boot_device := v3; mi_cmdline := v4;
    mi_mods_count := v5; mi_mods_addr := v6; mi_elf_sec := v7; mi_mmap_length := v8;
    mi_mmap_addr := v9 |})
    (fun r => (mi_flags r, (mi_mem_lower r, (mi_mem_upper r, (mi_boot_device r, (mi_cmdline r,
    (mi_mods_count r, (mi_mods_addr r, (mi_elf_sec r, (mi_mmap_length r, mi_mmap_addr
    r))))))))))
    (uint 32 ⊗ uint 32 ⊗ uint 32 ⊗ uint 32 ⊗ uint 32 ⊗ uint 32 ⊗ uint 32 ⊗
    elf_section_header_table_t_codec ⊗ uint 32 ⊗ uint 32)%struct.

#[export] Instance multiboot_info_t_lawful : Lawful multiboot_info_t_codec.
Proof. struct_laws. Qed.

(** multiboot.h *)
Record module_t : Type := {
  md_mod_start : Z;
  md_mod_end : Z;
  md_string : Z;
  md_reserved : Z;
}.

Definition module_t_codec : codec module_t :=
  iso
    (fun '(v0, (v1, (v2, v3))) => {| md_mod_start := v0; md_mod_end := v1; md_string := v2;
    md_reserved := v3 |})
    (fun r => (md_mod_start r, (md_mod_end r, (md_string r, md_reserved r))))
    (uint 32 ⊗ uint 32 ⊗ uint 32 ⊗ uint 32)%struct.

#[export] Instance module_t_lawful : Lawful module_t_codec.
Proof. struct_laws. Qed.

(** multiboot.h *)
Record memory_map_t : Type := {
  mm_size : Z;
  mm_base_addr_low : Z;
  mm_base_addr_high : Z;
  mm_length_low : Z;
  mm_length_high : Z;
  mm_type : Z;
}.

Definition memory_map_t_codec : codec memory_map_t :=
  iso
    (fun '(v0, (v1, (v2, (v3, (v4, v5))))) => {| mm_size := v0; mm_base_addr_low := v1;
    mm_base_addr_high := v2; mm_length_low := v3; mm_length_high := v4; mm_type := v5 |})
    (fun r => (mm_size r, (mm_base_addr_low r, (mm_base_addr_high r, (mm_length_low r,
    (mm_length_high r, mm_type r))))))
    (uint 32 ⊗ uint 32 ⊗ uint 32 ⊗ uint 32 ⊗ uint 32 ⊗ uint 32)%struct.

#[export] Instance memory_map_t_lawful : Lawful memory_map_t_codec.
Proof. struct_laws. Qed.

(** ** Members at their offsets *)

Lemma from_le_drop bs k : Forall is_byte bs -> from_le (drop k bs) = from_le bs / 2 ^ (8 * Z.of_nat k).
Proof.
  revert k. induction bs as [|b bs IH]; intros k H; [by destruct k|].
  destruct k as [|k]; [by rewrite Z.div_1_r|]. inversion H as [|? ? Hb Hbs]; subst. simpl drop. rewrite IH by done.
  replace (8 * Z.of_nat (S k)) with (8 + 8 * Z.of_nat k) by lia. rewrite Z.pow_add_r, <- Z.div_div by lia.
  f_equal. simpl. change 256 with (2 ^ 8). by destruct (pair_split b (from_le bs) 8 Hb).
Qed.

Lemma from_le_take bs n : Forall is_byte bs -> from_le (take n bs) = from_le bs mod 2 ^ (8 * Z.of_nat n).
Proof.
  revert n. induction bs as [|b bs IH]; intros n H; [by destruct n|].
  destruct n as [|n]; [by rewrite Z.mod_1_r|]. inversion H as [|? ? Hb Hbs]; subst. cbn [take from_le]. rewrite IH by done.
  replace (8 * Z.of_nat (S n)) with (8 + 8 * Z.of_nat n) by lia. change 256 with (2 ^ 8).
  rewrite Z.pow_add_r, Z.rem_mul_r by lia.
  by destruct (pair_split b (from_le bs) 8 Hb ltac:(lia)) as [-> ->].
Qed.

(** Bytes [k] to [k + n] of a structure. *)
Lemma from_le_slice bs k n : Forall is_byte bs ->
  from_le (take n (drop k bs)) = (from_le bs / 2 ^ (8 * Z.of_nat k)) mod 2 ^ (8 * Z.of_nat n).
Proof. intros H. rewrite from_le_take, from_le_drop; [done|done|by apply Forall_drop]. Qed.

Lemma array_dec_lookup {A} (C : codec A) n z i :
  0 <= width C -> (i < n)%nat ->
  array_dec C n z !! i = Some (cdec C ((z / 2 ^ (width C * Z.of_nat i)) mod 2 ^ width C)).
Proof.
  intros Hw. revert z i. induction n as [|n IH]; intros z i Hi; [lia|]. destruct i as [|i]; simpl.
  - by rewrite Z.mul_0_r, Z.div_1_r.
  - rewrite IH by lia. f_equal. f_equal. f_equal.
    replace (width C * Z.of_nat (S i)) with (width C + width C * Z.of_nat i) by lia.
    rewrite Z.pow_add_r, Z.div_div by lia. done.
Qed.

Lemma array_bytes n z : array_dec (uint 8) n z = le_bytes n z.
Proof. revert z. induction n as [|n IH]; intros z; simpl; [done|]. rewrite IH, Z.shiftr_div_pow2 by lia. done. Qed.

Lemma le_bytes_mod n z : le_bytes n (z mod 2 ^ (8 * Z.of_nat n)) = le_bytes n z.
Proof.
  revert z. induction n as [|n IH]; intros z; [done|]. cbn [le_bytes]. unfold u8.
  replace (8 * Z.of_nat (S n)) with (8 + 8 * Z.of_nat n) by lia. rewrite Z.pow_add_r, Z.rem_mul_r by lia.
  pose proof (Z.mod_pos_bound z (2 ^ 8) ltac:(lia)) as Hm.
  destruct (pair_split (z mod 2 ^ 8) ((z / 2 ^ 8) mod 2 ^ (8 * Z.of_nat n)) 8 Hm ltac:(lia)) as [E1 E2].
  rewrite E1, !Z.shiftr_div_pow2, E2, IH by lia. done.
Qed.

Lemma le_bytes_prefix n bs : Forall is_byte bs -> (n <= length bs)%nat -> le_bytes n (from_le bs) = take n bs.
Proof.
  intros Hb Hn. rewrite <- le_bytes_mod, <- from_le_take by done.
  pose proof (le_bytes_from (take n bs) ltac:(by apply Forall_take)) as E.
  by rewrite length_take, Nat.min_l in E by done.
Qed.

(** ** The theorems *)

(** The structure of codec [C] takes [n] bytes, its values and those byte strings are
    in bijection. *)
Definition laid_out {A} (C : codec A) (n : nat) : Prop :=
  width C = 8 * Z.of_nat n /\
  (forall a, cwf C a -> length (to_bytes C a) = n /\ Forall is_byte (to_bytes C a) /\ of_bytes C (to_bytes C a) = a) /\
  (forall bs, length bs = n -> Forall is_byte bs -> cwf C (of_bytes C bs) /\ to_bytes C (of_bytes C bs) = bs).

Lemma lawful_laid_out {A} (C : codec A) n : Lawful C -> width C = 8 * Z.of_nat n -> laid_out C n.
Proof. intros LC Hw. split; [done|]. by apply struct_roundtrip. Qed.

(** The types of the program's binary structures: each takes exactly the bytes the hardware,
    the boot loader and the file system's format prescribe (a directory entry 64, an inode, the boot
    block and a data block 4096, the TSS 104 = [TSS_SIZE], segment and gate descriptors 8, the Multiboot
    structures), and for each of them writing a value and reading it back, and reading any bytes of that
    size and writing them back, are the identity. *)
Lemma structures_laid_out :
  laid_out dir_entry_t_codec 64 /\ laid_out inode_t_codec 4096 /\ laid_out data_block_t_codec 4096 /\
  laid_out boot_block_t_codec 4096 /\ laid_out seg_desc_t_codec 8 /\ laid_out idt_desc_t_codec 8 /\
  laid_out x86_desc_t_codec 8 /\ laid_out tss_t_codec (Z.to_nat TSS_SIZE) /\
  laid_out multiboot_header_t_codec 32 /\ laid_out elf_section_header_table_t_codec 16 /\
  laid_out multiboot_info_t_codec 52 /\ laid_out module_t_codec (Z.to_nat MODULE_SIZE) /\
  laid_out memory_map_t_codec 24.
Proof.
  assert (Lawful data_block_t_codec) by (apply array_lawful, uint_lawful; lia).
  repeat split_and; apply lawful_laid_out; (apply _ || done).
Qed.

(** The structures of an image. *)
Definition img_boot_block (img : list Z) : boot_block_t := of_bytes boot_block_t_codec (take 4096 img).
Definition img_inode (img : list Z) (i : Z) : inode_t :=
  of_bytes inode_t_codec (take 4096 (drop (Z.to_nat (inode_off i)) img)).

Lemma slice_slice {A} (l : list A) a n k m :
  (k + m <= n)%nat -> take m (drop k (take n (drop a l))) = take m (drop (a + k) l).
Proof.
  intros H. rewrite take_drop_commute, take_take, Nat.min_l, <- take_drop_commute by lia.
  by rewrite drop_drop.
Qed.

(** A word of a structure that is in the image at [a]. *)
Lemma img_word img a n k :
  Forall is_byte img -> (k + 4 <= n)%nat -> 0 <= a ->
  img_u32 img (a + Z.of_nat k) =
    (from_le (take n (drop (Z.to_nat a) img)) / 2 ^ (8 * Z.of_nat k)) mod 2 ^ 32.
Proof.
  intros Hb Hk Ha. unfold img_u32. replace (Z.to_nat (a + Z.of_nat k)) with (Z.to_nat a + k)%nat by lia.
  rewrite <- (slice_slice img (Z.to_nat a) n k 4) by done.
  rewrite from_le_slice; [done|]. by apply Forall_take, Forall_drop.
Qed.

(** Successive divisions by powers of two. *)
Lemma div_pow z a b : 0 <= a -> 0 <= b -> z / 2 ^ a / 2 ^ b = z / 2 ^ (a + b).
Proof. intros Ha Hb. rewrite Z.pow_add_r by lia. apply Z.div_div; lia. Qed.

Lemma boot_block_members img :
  Forall is_byte img ->
  bb_num_dir_entries (img_boot_block img) = img_dentries img /\
  bb_num_inodes (img_boot_block img) = img_inodes img /\
  bb_num_data_blocks (img_boot_block img) = img_blocks img.
Proof.
  intros Hb. pose proof (img_word img 0 4096) as H. rewrite drop_0 in H.
  unfold img_dentries, img_inodes, img_blocks, img_boot_block, boot_block_t_codec, of_bytes.
  split; [|split].
  - etrans; [|symmetry; apply (H 0%nat Hb); lia]. by rewrite Z.div_1_r.
  - etrans; [|symmetry; apply (H 4%nat Hb); lia]. done.
  - etrans; [|symmetry; apply (H 8%nat Hb); lia]. cbn. by rewrite div_pow.
Qed.

Lemma dir_entry_of_boot_block img (i : nat) :
  Forall is_byte img -> (i < 63)%nat ->
  bb_dir_entries (img_boot_block img) !! i = Some (of_bytes dir_entry_t_codec (img_dentry img (Z.of_nat i))).
Proof.
  intros Hb Hi. unfold img_boot_block. set (z := from_le (take 4096 img)).
  assert (bb_dir_entries (of_bytes boot_block_t_codec (take 4096 img)) =
    array_dec dir_entry_t_codec 63 (z / 2 ^ 512)) as ->.
  { unfold of_bytes. fold z. unfold boot_block_t_codec. cbn [cdec iso pair snd uint array width].
    by rewrite !div_pow by done. }
  rewrite array_dec_lookup by done. f_equal. unfold of_bytes. f_equal.
  change (width dir_entry_t_codec) with 512. rewrite div_pow by lia. unfold img_dentry, BOOT_DIR_ENTRIES.
  pose proof (slice_slice img 0 4096 (Z.to_nat (64 + 64 * Z.of_nat i)) 64 ltac:(lia)) as Hs.
  rewrite drop_0, Nat.add_0_l in Hs. rewrite <- Hs, from_le_slice by by apply Forall_take. fold z. f_equal. f_equal. f_equal. lia.
Qed.

Lemma dir_entry_members d :
  Forall is_byte d -> length d = 64%nat ->
  let e := of_bytes dir_entry_t_codec d in
  de_file_name e = take 32 d /\ de_file_type e = from_le (take 4 (drop 32 d)) /\
  de_inode_num e = from_le (take 4 (drop 36 d)) /\ to_bytes dir_entry_t_codec e = d.
Proof.
  intros Hb Hl e. rewrite !from_le_slice by done. unfold e, of_bytes. set (z := from_le d).
  split; [|split; [|split]].
  - change (de_file_name _) with (array_dec (uint 8) 32 (z mod 2 ^ 256)).
    rewrite array_bytes, le_bytes_mod. apply le_bytes_prefix; [done|lia].
  - done.
  - unfold dir_entry_t_codec. cbn [cdec iso pair snd uint array width de_inode_num]. by rewrite div_pow by done.
  - by apply (struct_roundtrip dir_entry_t_codec 64 _ eq_refl).
Qed.

Lemma inode_members img i (j : nat) :
  Forall is_byte img -> 0 <= i -> (j < 1023)%nat ->
  in_length_in_bytes (img_inode img i) = inode_len img i /\
  in_data_block_indices (img_inode img i) !! j = Some (inode_block img i (Z.of_nat j)).
Proof.
  intros Hb Hi Hj. pose proof (img_word img (inode_off i) 4096) as H.
  assert (0 <= inode_off i) as Ho by (unfold inode_off; lia).
  unfold img_inode, inode_len, inode_block, of_bytes. set (z := from_le _) in *. split.
  - rewrite <- (Z.add_0_r (inode_off i)). etrans; [|symmetry; apply (H 0%nat Hb); lia]. by rewrite Z.div_1_r.
  - change (in_data_block_indices _) with (array_dec (uint 32) 1023 (z / 2 ^ 32)).
    rewrite array_dec_lookup by done. f_equal. cbn [cdec uint width]. rewrite div_pow by lia.
    replace (inode_off i + 4 + 4 * Z.of_nat j) with (inode_off i + Z.of_nat (4 + 4 * j)) by lia.
    rewrite (H _ Hb) by lia. f_equal. f_equal. f_equal. lia.
Qed.

(** The offsets at which FileSystem.v reads the image are those of the structures of file_system.h: in every image,
    the counts, the directory entries with their names, types and inode numbers, and the lengths and
    block numbers of the inodes are the members of the boot block and of the inodes read as structures. *)
Lemma image_is_structures img :
  image_wf img ->
  let bb := img_boot_block img in
  bb_num_dir_entries bb = img_dentries img /\ bb_num_inodes bb = img_inodes img /\
  bb_num_data_blocks bb = img_blocks img /\
  (forall i, 0 <= i < img_dentries img -> exists e, bb_dir_entries bb !! Z.to_nat i = Some e /\
    c_str (de_file_name e) = dentry_name img i /\ de_file_type e = dentry_type img i /\
    de_inode_num e = dentry_inode img i /\ to_bytes dir_entry_t_codec e = img_dentry img i) /\
  (forall i, 0 <= i < img_inodes img ->
    in_length_in_bytes (img_inode img i) = inode_len img i /\
    forall j, 0 <= j < 1023 -> in_data_block_indices (img_inode img i) !! Z.to_nat j = Some (inode_block img i j)).
Proof.
  intros W bb. pose proof (iw_bytes _ W) as Hb. pose proof (iw_dentries _ W) as Hd.
  destruct (boot_block_members img Hb) as (E1 & E2 & E3). do 3 (split; [done|]). split.
  - intros i Hi. eexists. split.
    { unfold bb. rewrite dir_entry_of_boot_block by (done || lia). by rewrite Z2Nat.id by lia. }
    assert (length (img_dentry img i) = 64%nat) as Hl.
    { unfold img_dentry, BOOT_DIR_ENTRIES. rewrite length_take, length_drop. pose proof (iw_size _ W).
      pose proof (img_u32_range img BOOT_NUM_INODES Hb). pose proof (img_u32_range img BOOT_NUM_DATA_BLOCKS Hb).
      unfold img_inodes, img_blocks in *. lia. }
    destruct (dir_entry_members (img_dentry img i)) as (N & T & I & R); [by apply Forall_take, Forall_drop|done|].
    unfold dentry_name. by rewrite N, T, I, R.
  - intros i Hi. split; [by apply (inode_members img i 0); [done|lia|lia]|]. intros j Hj.
    rewrite <- (Z2Nat.id j) at 2 by lia. apply inode_members; [done|lia|lia].
Qed.
