(* ===== verification/BootCode.v ===== *)
(** * The first instructions (boot.S, x86_desc.S)

    The tables that x86_desc.S assembles, how the processor checks a selector against
    them, and boot.S instruction by instruction: from the boot loader's jump to [start]
    to the call of [entry].  The theorems carry the boot to the idle loop of [entry],
    and on through the first timer interrupt to the first instruction of the shell. *)

From stdpp Require Import base gmap list numbers strings.
From Stdlib Require Import ZArith Lia.
From S2P Require Import Prelude Pointers Ports Pic Paging State Machine VirtMem CString MemFns.
From S2P Require Import Pcb Demo Screen Printf FileSystem Rtc Keyboard Terminal Syscalls Process.
From S2P Require Import Idt Command Descriptors Exec Launch Sched SchedStart Boot Structs.
From S2P Require Import Asm Wrappers Traps.

(** ** The Multiboot header *)

Definition MULTIBOOT_HEADER_FLAGS : Z := 0x00000003.
Definition MULTIBOOT_HEADER_MAGIC : Z := 0x1BADB002.

(** The three words at the start of the text. *)
Definition multiboot_header : list Z :=
  [MULTIBOOT_HEADER_MAGIC; MULTIBOOT_HEADER_FLAGS; u32 (- (MULTIBOOT_HEADER_MAGIC + MULTIBOOT_HEADER_FLAGS))].

(** ** The descriptor tables of x86_desc.S *)

(** The entries that do not change: two unused ones, the kernel's and the programs'
    code and data segments. *)
Definition gdt_quads : list Z :=
  [0; 0; 0x00CF9A000000FFFF; 0x00CF92000000FFFF; 0x00CFFA000000FFFF; 0x00CFF2000000FFFF].

(** The table: the last two entries are [tss_desc_ptr] and [ldt_desc_ptr]. *)
Definition gdt (s : boot_state) : list seg_desc :=
  (cdec seg_desc_t_codec <$> gdt_quads) ++ [tss_desc_ptr s; ldt_desc_ptr s].

(** A table register: the limit and the address. *)
Record table_reg : Type := { tr_limit : Z; tr_addr : Z }.

(** [gdt_desc] and [idt_desc_ptr], where the tables are at [a]. *)
Definition gdt_desc (a : Z) : table_reg := {| tr_limit := 8 * (Z.of_nat (length gdt_quads) + 2) - 1; tr_addr := a |}.
Definition idt_desc_ptr (a : Z) : table_reg := {| tr_limit := 8 * NUM_VEC - 1; tr_addr := a |}.

(** ** How the processor checks selectors *)

Definition rpl (sel : Z) : Z := Z.land sel 3.

(** The descriptor a selector names, in a table of limit [lim]. *)
Definition select (lim : Z) (t : list seg_desc) (sel : Z) : option seg_desc :=
  let i := Z.shiftr sel 3 in
  if (Z.land sel 4 =? 0) && negb (i =? 0) && (8 * i + 7 <=? lim) then t !! Z.to_nat i else None.

(** A code segment, a writable data segment. *)
Definition is_code (d : seg_desc) : bool := (seg_sys d =? 1) && Z.testbit (seg_type d) 3.
Definition is_data_rw (d : seg_desc) : bool :=
  (seg_sys d =? 1) && negb (Z.testbit (seg_type d) 3) && Z.testbit (seg_type d) 1.
Definition is_readable (d : seg_desc) : bool :=
  (seg_sys d =? 1) && (negb (Z.testbit (seg_type d) 3) || Z.testbit (seg_type d) 1).
Definition conforming (d : seg_desc) : bool := Z.testbit (seg_type d) 3 && Z.testbit (seg_type d) 2.

(** A far jump to [sel] at privilege level [l]. *)
Definition code_ok (l sel : Z) (d : seg_desc) : bool :=
  is_code d && (seg_present d =? 1) &&
  (if conforming d then seg_dpl d <=? l else (rpl sel <=? l) && (seg_dpl d =? l)).
(** [sel] in SS, and in the other segment registers. *)
Definition stack_ok (l sel : Z) (d : seg_desc) : bool :=
  is_data_rw d && (seg_present d =? 1) && (rpl sel =? l) && (seg_dpl d =? l).
Definition data_ok (l sel : Z) (d : seg_desc) : bool :=
  is_readable d && (seg_present d =? 1) &&
  (conforming d || ((l <=? seg_dpl d) && (rpl sel <=? seg_dpl d))).

(** The bytes a segment covers. *)
Definition seg_bytes (d : seg_desc) : Z :=
  (seg_limit d + 1) * (if granularity d =? 1 then 4096 else 1).
(** A segment that is the whole address space: its offsets are the linear addresses. *)
Definition flat (d : seg_desc) : Prop := seg_base d = 0 /\ seg_bytes d = 2 ^ 32 /\ opsize d = 1.

(** ** boot.S *)

Inductive segreg : Type := SS | DS | ES | FS | GS.

Inductive binstr : Type :=
| plain (i : instr)
| bjmp (l : nat)
| lgdt
| lidt
| ljmp (sel : Z) (l : nat)
| movw_cx (n : Z)        (* movw $n, %cx *)
| movw_seg (r : segreg)  (* movw %cx, r *)
| call_entry
| hlt.

Definition boot_code : list binstr :=
  [plain cli_;
   bjmp 2;
   lgdt;   (* continue *)
   lidt;
   ljmp KERNEL_CS 5;
   plain (movl 0x800000 ESP);   (* keep_going *)
   movw_cx KERNEL_DS;
   movw_seg SS;
   movw_seg DS;
   movw_seg ES;
   movw_seg FS;
   movw_seg GS;
   plain (pushl EBX);
   plain (pushl EAX);
   call_entry;
   hlt;   (* halt *)
   bjmp 15].

(** The processor with its other segment registers and its table registers, and the
    tables only [entry] touches (the kernel's state is the one of [bm]). *)
Record bmach : Type := {
  bm : mach;
  bm_es : Z;
  bm_fs : Z;
  bm_gs : Z;
  bm_gdtr : table_reg;
  bm_idtr : table_reg;
  bm_tables : boot_state;
}.

Definition with_kernel (k : kernel) (s : boot_state) : boot_state :=
  {| b_k := k; b_idt := b_idt s; ldt_desc_ptr := ldt_desc_ptr s; tss_desc_ptr := tss_desc_ptr s;
     ldtr := ldtr s; tr := tr s |}.

Definition set_bm (m : mach) (b : bmach) : bmach :=
  {| bm := m; bm_es := bm_es b; bm_fs := bm_fs b; bm_gs := bm_gs b;
     bm_gdtr := bm_gdtr b; bm_idtr := bm_idtr b; bm_tables := bm_tables b |}.
Definition set_bm_tables (s : boot_state) (b : bmach) : bmach :=
  {| bm := bm b; bm_es := bm_es b; bm_fs := bm_fs b; bm_gs := bm_gs b;
     bm_gdtr := bm_gdtr b; bm_idtr := bm_idtr b; bm_tables := s |}.
Definition set_bm_gdtr (t : table_reg) (b : bmach) : bmach :=
  {| bm := bm b; bm_es := bm_es b; bm_fs := bm_fs b; bm_gs := bm_gs b;
     bm_gdtr := t; bm_idtr := bm_idtr b; bm_tables := bm_tables b |}.
Definition set_bm_idtr (t : table_reg) (b : bmach) : bmach :=
  {| bm := bm b; bm_es := bm_es b; bm_fs := bm_fs b; bm_gs := bm_gs b;
     bm_gdtr := bm_gdtr b; bm_idtr := t; bm_tables := bm_tables b |}.
Definition put_seg (r : segreg) (v : Z) (b : bmach) : bmach :=
  match r with
  | SS => set_bm (set_m_flow (m_eip (bm b)) (m_cs (bm b)) v (bm b)) b
  | DS => set_bm (set_m_ds v (bm b)) b
  | ES => {| bm := bm b; bm_es := v; bm_fs := bm_fs b; bm_gs := bm_gs b;
             bm_gdtr := bm_gdtr b; bm_idtr := bm_idtr b; bm_tables := bm_tables b |}
  | FS => {| bm := bm b; bm_es := bm_es b; bm_fs := v; bm_gs := bm_gs b;
             bm_gdtr := bm_gdtr b; bm_idtr := bm_idtr b; bm_tables := bm_tables b |}
  | GS => {| bm := bm b; bm_es := bm_es b; bm_fs := bm_fs b; bm_gs := v;
             bm_gdtr := bm_gdtr b; bm_idtr := bm_idtr b; bm_tables := bm_tables b |}
  end.

(** Where the machine ends up: in the idle loop of [entry]; stopped by [hlt] with
    interrupts off, for good; or waiting in boot.S for an interrupt. *)
Inductive boot_end : Type := Idling (b : bmach) | Stopped (b : bmach) | Waiting (b : bmach).

(** The addresses of [gdt] and [idt], and of the idle loop; the bytes that [entry]'s
    frame takes on the stack. *)
Record placement : Type := {
  pl_gdt : Z;
  pl_idt : Z;
  pl_idle : Z;
  pl_frame : Z;
}.

Section BootCode.
Context `{L : Layout} (N : linkage) (P : placement) (after : mach -> residue).

(** The segments of the loaded table; the processor faults when the check fails. *)
Definition seg_check (ok : Z -> Z -> seg_desc -> bool) (sel : Z) (b : bmach) : res unit :=
  match select (tr_limit (bm_gdtr b)) (gdt (bm_tables b)) sel with
  | Some d => if ok (cpl (bm b)) sel d then Ok tt else Err (OutOfBounds sel)
  | None => Err (OutOfBounds sel)
  end.

(** The call: [entry] finds its arguments at the stack pointer. *)
Definition do_call_entry (b : bmach) : res (bmach + boot_end) :=
  let m := bm b in
  ws ← load_words (m_stack m) 2 (m_esp m);
  match ws with
  | [magic; addr] =>
      r ← entry N magic addr (with_kernel (m_k m) (bm_tables b));
      let m1 := after_call (after m) 2 (b_k r.2) m in
      let b1 m1 := set_bm_tables r.2 (set_bm m1 b) in
      match r.1 with
      | Returned => Ok (inl (b1 m1))
      | Idles => Ok (inr (Idling (b1 (put_esp (u32 (m_esp m - pl_frame P))
                   (set_m_flow (pl_idle P) (m_cs m) (m_ss m) m1)))))
      end
  | _ => Err NullCall
  end.

Definition boot_step (s : nat * bmach) : res (nat * bmach + boot_end) :=
  let '(pc, b) := s in
  match boot_code !! pc with
  | None => Err (OutOfBounds (Z.of_nat pc))
  | Some (plain i) => m ← exec_instr i (bm b); Ok (inl (S pc, set_bm m b))
  | Some (bjmp l) => Ok (inl (l, b))
  | Some lgdt => Ok (inl (S pc, set_bm_gdtr (gdt_desc (pl_gdt P)) b))
  | Some lidt => Ok (inl (S pc, set_bm_idtr (idt_desc_ptr (pl_idt P)) b))
  | Some (ljmp sel l) =>
      _ ← seg_check code_ok sel b;
      let m := bm b in
      Ok (inl (l, set_bm (set_m_flow (m_eip m) (Z.lor (Z.ldiff sel 3) (cpl m)) (m_ss m) m) b))
  | Some (movw_cx n) =>
      Ok (inl (S pc, set_bm (put ECX (Z.lor (Z.ldiff (get ECX (bm b)) 0xFFFF) (u16 n)) (bm b)) b))
  | Some (movw_seg r) =>
      let sel := Z.land (get ECX (bm b)) 0xFFFF in
      _ ← (match r with
           | SS => seg_check stack_ok sel b
           | _ => if Z.land sel 0xFFFC =? 0 then Ok tt else seg_check data_ok sel b
           end);
      Ok (inl (S pc, put_seg r sel b))
  | Some call_entry =>
      r ← do_call_entry b;
      Ok (match r with inl b => inl (S pc, b) | inr e => inr e end)
  | Some hlt => Ok (inr (if Z.testbit (m_flags (bm b)) IF_BIT then Waiting b else Stopped b))
  end.

(** From [start] to the end. *)
Definition run_boot (b : bmach) : res boot_end := loop (Pos.of_nat 64) boot_step (0%nat, b).
End BootCode.

(** ** The segments *)

(** What each selector of x86_desc.h names, whatever the TSS and LDT entries hold. *)
Lemma fixed_segments s :
  let sel x := select (tr_limit (gdt_desc 0)) (gdt s) x in
  (exists d, sel KERNEL_CS = Some d /\ flat d /\ code_ok 0 KERNEL_CS d = true) /\
  (exists d, sel KERNEL_DS = Some d /\ flat d /\ stack_ok 0 KERNEL_DS d = true /\ data_ok 0 KERNEL_DS d = true /\
     data_ok 3 KERNEL_DS d = false) /\
  (exists d, sel USER_CS = Some d /\ flat d /\ code_ok 3 USER_CS d = true) /\
  (exists d, sel USER_DS = Some d /\ flat d /\ stack_ok 3 USER_DS d = true /\ data_ok 3 USER_DS d = true) /\
  sel KERNEL_TSS = Some (tss_desc_ptr s) /\ sel KERNEL_LDT = Some (ldt_desc_ptr s) /\ sel 0 = None /\ sel 0x40 = None.
Proof.
  split; [eexists; split; [reflexivity|by repeat split]|].
  split; [eexists; split; [reflexivity|by repeat split]|].
  split; [eexists; split; [reflexivity|by repeat split]|].
  split; [eexists; split; [reflexivity|by repeat split]|].
  by repeat split.
Qed.

Section BootRun.
Context `{L : Layout} (N : linkage) (P : placement) (after : mach -> residue).
Implicit Types (b : bmach).

(** The machine when boot.S calls [entry]. *)
Definition entry_kernel (k : kernel) : kernel :=
  set_k_cpu {| eflags := Z.clearbit (eflags (k_cpu k)) IF_BIT; r_esp := 0x7FFFF8; r_ebp := r_ebp (k_cpu k) |} k.

Definition at_entry b : bmach :=
  let m := bm b in
  {| bm := {| m_eax := m_eax m; m_ecx := Z.lor (Z.ldiff (m_ecx m) 0xFFFF) KERNEL_DS; m_edx := m_edx m;
              m_ebx := m_ebx m; m_esi := m_esi m; m_edi := m_edi m; m_eip := m_eip m;
              m_cs := KERNEL_CS; m_ss := KERNEL_DS; m_ds := KERNEL_DS;
              m_stack := <[0x7FFFF8 := m_eax m]> (<[0x7FFFFC := m_ebx m]> (m_stack m));
              m_k := entry_kernel (m_k m) |};
     bm_es := KERNEL_DS; bm_fs := KERNEL_DS; bm_gs := KERNEL_DS;
     bm_gdtr := gdt_desc (pl_gdt P); bm_idtr := idt_desc_ptr (pl_idt P); bm_tables := bm_tables b |}.

Lemma cx_written z n : 0 <= n < 2 ^ 16 -> Z.land (Z.lor (Z.ldiff z 0xFFFF) n) 0xFFFF = n.
Proof.
  intros Hn. change 0xFFFF with (Z.ones 16). apply Z.bits_inj'. intros i Hi.
  rewrite Z.land_spec, Z.lor_spec, Z.ldiff_spec. rewrite Z.testbit_ones_nonneg by lia.
  destruct (Z.ltb_spec i 16); simpl.
  - by rewrite andb_false_r, orb_false_l, andb_true_r.
  - rewrite andb_false_r. symmetry. rewrite <- (Z.mod_small n (2 ^ 16)) by done. by apply Z.mod_pow2_bits_high.
Qed.

(** The checks the code relies on, with the table loaded. *)
Lemma check_code b :
  bm_gdtr b = gdt_desc (pl_gdt P) -> cpl (bm b) = 0 -> seg_check code_ok KERNEL_CS b = Ok tt.
Proof. intros Hg Hc. unfold seg_check. by rewrite Hg, Hc. Qed.

Lemma check_data r b :
  bm_gdtr b = gdt_desc (pl_gdt P) -> m_cs (bm b) = KERNEL_CS -> Z.land (m_ecx (bm b)) 0xFFFF = KERNEL_DS ->
  forall pc, boot_code !! pc = Some (movw_seg r) ->
  boot_step N P after (pc, b) = Ok (inl (S pc, put_seg r KERNEL_DS b)).
Proof.
  intros Hg Hcs Hcx pc Hpc. unfold boot_step. rewrite Hpc. cbn [get]. rewrite Hcx. unfold seg_check, cpl.
  rewrite Hg, Hcs. by destruct r.
Qed.

(** boot.S reaches the call of [entry], whatever the boot loader left in the registers. *)
Lemma boot_reaches_entry b n r :
  cpl (bm b) = 0 -> runs (boot_step N P after) (14%nat, at_entry b) n r ->
  runs (boot_step N P after) (0%nat, b) (14 + n) r.
Proof.
  intros Hc H. do 4 (eapply runs_step; [reflexivity|]).
  eapply runs_step.
  { cbn [boot_step]. change (boot_code !! 4%nat) with (Some (ljmp KERNEL_CS 5)). cbv iota beta.
    rewrite check_code by done. cbn [mbind res_bind bm set_bm set_bm_gdtr set_bm_idtr].
    change (cpl (put_flags _ (bm b))) with (cpl (bm b)). rewrite Hc. reflexivity. }
  do 2 (eapply runs_step; [reflexivity|]).
  do 5 (eapply runs_step; [apply check_data; [reflexivity|reflexivity|by apply cx_written|reflexivity]|]).
  do 2 (eapply runs_step; [reflexivity|]).
  exact H.
Qed.

(** The state [entry] is called in is as the loader left it. *)
Lemma loaded_entry img start k s :
  loaded N img start (with_kernel k s) -> loaded N img start (with_kernel (entry_kernel k) s).
Proof. intros []. by split. Qed.

(** Every segment register names a flat segment of the kernel, and the table registers
    the tables of x86_desc.S. *)
Record kernel_segments b : Prop := {
  ks_cs : m_cs (bm b) = KERNEL_CS;
  ks_ss : m_ss (bm b) = KERNEL_DS;
  ks_data : m_ds (bm b) = KERNEL_DS /\ bm_es b = KERNEL_DS /\ bm_fs b = KERNEL_DS /\ bm_gs b = KERNEL_DS;
  ks_gdt : bm_gdtr b = gdt_desc (pl_gdt P);
  ks_idt : bm_idtr b = idt_desc_ptr (pl_idt P);
}.

(** The call reads its arguments where boot.S pushed them. *)
Lemma entry_arguments b : load_words (m_stack (bm (at_entry b))) 2 0x7FFFF8 = Ok [m_eax (bm b); m_ebx (bm b)].
Proof.
  apply load_words_ok; [|done|lia|lia]. intros [|[|[|]]] w Hw; simplify_eq/=.
  - apply lookup_insert_eq.
  - rewrite lookup_insert_ne by done. apply lookup_insert_eq.
Qed.

(** The machine in the idle loop. *)
Definition idle b s' : bmach :=
  let m := bm (at_entry b) in
  set_bm_tables s' (set_bm (put_esp (u32 (0x7FFFF8 - pl_frame P))
    (set_m_flow (pl_idle P) KERNEL_CS KERNEL_DS (after_call (after m) 2 (b_k s') m))) (at_entry b)).

Lemma start_idles b s' :
  cpl (bm b) = 0 ->
  entry N (m_eax (bm b)) (m_ebx (bm b)) (with_kernel (entry_kernel (m_k (bm b))) (bm_tables b)) = Ok (Idles, s') ->
  run_boot N P after b = Ok (Idling (idle b s')).
Proof.
  intros Hc E. apply (loop_runs _ _ _ (14 + 0)); [|simpl; lia]. apply boot_reaches_entry; [done|].
  apply runs_done. cbn [boot_step]. change (boot_code !! 14%nat) with (Some call_entry). cbv iota beta.
  unfold do_call_entry. change (m_esp (bm (at_entry b))) with 0x7FFFF8. rewrite entry_arguments, Ok_bind.
  change (m_k (bm (at_entry b))) with (entry_kernel (m_k (bm b))). change (bm_tables (at_entry b)) with (bm_tables b).
  by rewrite E.
Qed.

Lemma start_stops b s' :
  cpl (bm b) = 0 ->
  entry N (m_eax (bm b)) (m_ebx (bm b)) (with_kernel (entry_kernel (m_k (bm b))) (bm_tables b)) = Ok (Returned, s') ->
  Z.testbit (eflags (k_cpu (b_k s'))) IF_BIT = false ->
  run_boot N P after b = Ok (Stopped (set_bm_tables s'
    (set_bm (after_call (after (bm (at_entry b))) 2 (b_k s') (bm (at_entry b))) (at_entry b)))).
Proof.
  intros Hc E Hif. apply (loop_runs _ _ _ (14 + 1)); [|simpl; lia]. apply boot_reaches_entry; [done|].
  eapply runs_step.
  { cbn [boot_step]. change (boot_code !! 14%nat) with (Some call_entry). cbv iota beta.
    unfold do_call_entry. change (m_esp (bm (at_entry b))) with 0x7FFFF8. rewrite entry_arguments, Ok_bind.
    change (m_k (bm (at_entry b))) with (entry_kernel (m_k (bm b))). change (bm_tables (at_entry b)) with (bm_tables b).
    rewrite E. reflexivity. }
  apply runs_done. cbn [boot_step]. change (boot_code !! 15%nat) with (Some hlt). cbv iota beta.
  change (m_flags _) with (flags_after (after (bm (at_entry b))) (eflags (k_cpu (b_k s')))).
  by rewrite flags_after_IF, Hif.
Qed.
End BootRun.

Section BootCodeClaims.
Context `{L : Layout} (N : linkage) (P : placement) (after : mach -> residue).
Context (img : list Z) (start : Z).
Implicit Types (b : bmach).

(** The machine at [start], as a Multiboot loader leaves it: in protected mode at the
    highest privilege, the information's address in EBX, the kernel and the file system
    in memory. *)
Record multiboot_machine b mbi : Prop := {
  mb_level : cpl (bm b) = 0;
  mb_ebx : m_ebx (bm b) = mbi;
  mb_loaded : loaded N img start (with_kernel (m_k (bm b)) (bm_tables b));
  mb_info : boot_info (k_mem (m_k (bm b))) mbi start;
  mb_clock : exists x y l, io_in (k_io (m_k (bm b))) = x :: y :: l;
}.

(** [entry] on the state boot.S calls it in. *)
Lemma multiboot_entry b mbi :
  image_wf img -> KERNEL_MEM_START <= start /\ start + Z.of_nat (length img) <= 2 * _4_MB ->
  multiboot_machine b mbi ->
  let s := with_kernel (entry_kernel (m_k (bm b))) (bm_tables b) in
  exists s', entry N MULTIBOOT_BOOTLOADER_MAGIC mbi s = Ok (Idles, s') /\ booted N img start s s'.
Proof.
  intros W Hs [Hl Hb Hld Hi (x & y & l & Hin)] s.
  apply (entry_spec N img start W Hs s mbi x y l); [by apply loaded_entry|done|done].
Qed.

(** (C18) From the boot loader's jump to [start]: boot.S loads the descriptor tables of x86_desc.S, every
    segment register with a flat segment of the kernel that the processor's checks admit, and the stack at
    8 MB, and calls [entry] with the magic number and the information.  With the Multiboot magic number the
    machine reaches the idle loop with interrupts on and the components set up, and the GDT then holds what
    the kernel needs: a TSS (marked busy by [ltr]) and an LDT at their addresses, and for programs flat code and data
    segments of level 3 that admit user mode but not the kernel's data.  With any other number the machine
    stops for good, with interrupts off and nothing but the screen touched. *)
Theorem start_boots b mbi :
  image_wf img -> KERNEL_MEM_START <= start /\ start + Z.of_nat (length img) <= 2 * _4_MB ->
  multiboot_machine b mbi ->
  (m_eax (bm b) = MULTIBOOT_BOOTLOADER_MAGIC -> exists b', run_boot N P after b = Ok (Idling b') /\
    kernel_segments P b' /\ Z.testbit (m_flags (bm b')) IF_BIT = true /\
    booted N img start (with_kernel (entry_kernel (m_k (bm b))) (bm_tables b)) (bm_tables b') /\
    (let sel x := select (tr_limit (bm_gdtr b')) (gdt (bm_tables b')) x in
     (exists d, sel KERNEL_CS = Some d /\ flat d) /\
     (exists d, sel KERNEL_DS = Some d /\ flat d /\ data_ok 3 KERNEL_DS d = false) /\
     (exists d, sel USER_CS = Some d /\ flat d /\ code_ok 3 USER_CS d = true) /\
     (exists d, sel USER_DS = Some d /\ flat d /\ stack_ok 3 USER_DS d = true /\ data_ok 3 USER_DS d = true) /\
     (exists d, sel KERNEL_TSS = Some d /\ seg_base d = l_tss N /\ seg_bytes d = TSS_SIZE /\
        seg_type d = 11 /\ seg_sys d = 0 /\ seg_present d = 1) /\
     exists d, sel KERNEL_LDT = Some d /\ seg_base d = l_ldt N /\ seg_bytes d = 32 /\
        seg_type d = 2 /\ seg_sys d = 0 /\ seg_present d = 1)) /\
  (m_eax (bm b) <> MULTIBOOT_BOOTLOADER_MAGIC -> exists b', run_boot N P after b = Ok (Stopped b') /\
    Z.testbit (m_flags (bm b')) IF_BIT = false /\
    screen_frame VIDEO_PAGE (entry_kernel (m_k (bm b))) (b_k (bm_tables b'))).
Proof.
  intros W Hs M. pose proof M as [Hl Hb Hld _ _]. split; intros Hm.
  - destruct (multiboot_entry b mbi W Hs M) as (s' & E & Bo). exists (idle P after b s').
    split; [apply start_idles; [done|by rewrite Hm, Hb]|]. split; [by split|]. split.
    { change (m_flags _) with (flags_after (after (bm (at_entry P b))) (eflags (k_cpu (b_k s')))).
      rewrite flags_after_IF, (bo_cpu _ _ _ _ _ Bo). by apply Z.setbit_eq. }
    split; [exact Bo|]. change (bm_gdtr _) with (gdt_desc (pl_gdt P)). change (bm_tables (idle P after b s')) with s'.
    change (tr_limit (gdt_desc (pl_gdt P))) with (tr_limit (gdt_desc 0)).
    destruct (fixed_segments s') as ((d1 & ? & ? & ?) & (d2 & ? & ? & ? & ? & ?) & (d3 & ? & ? & ?) & (d4 & ? & ? & ?) & Ht & Hld' & _).
    destruct (bo_entries _ _ _ _ _ Bo) as [Et El]. do 4 (split; [by eexists|]).
    destruct (bo_gdt _ _ _ _ _ Bo) as (B1 & B2 & B3 & B4).
    split; eexists; (split; [done|]); (split; [done|]); unfold seg_bytes; rewrite ?B2, ?B4, ?Et, ?El; done.
  - destruct (entry_refuses N img start _ (m_eax (bm b)) (m_ebx (bm b)) (loaded_entry N img start _ _ Hld) Hm)
      as (s' & E & F & _).
    assert (Z.testbit (eflags (k_cpu (b_k s'))) IF_BIT = false) as Hif
      by (rewrite (fr_cpu _ _ _ F); apply Z.clearbit_eq).
    eexists. split; [by apply start_stops|]. split; [|exact F]. etrans; [apply flags_after_IF|exact Hif].
Qed.

(** A shell that is due is due whatever the stack pointer, as long as the stack is the
    same process's. *)
Lemma shell_due_cpu k tn par c prog vid uvid rs cpu :
  shell_due k tn par c prog vid uvid rs -> Z.land (r_esp cpu) PCB_8KB_MASK = par ->
  shell_due (set_k_cpu cpu k) tn par c prog vid uvid rs.
Proof. intros [] Hp. split; auto. destruct sd_running. by split. Qed.

(** The stack of the idle loop is in the block of process 0. *)
Lemma idle_block f : 0 <= f <= 0x1F80 ->
  Z.land (0x7FFFF8 - f) PCB_8KB_MASK = get_pcb_by_pid 0 /\ block_start (0x7FFFF8 - f) = 0x7FE000.
Proof.
  intros Hf. assert ((0x7FFFF8 - f) / 0x2000 = 0x3FF) as E
    by (symmetry; apply (Z.div_unique _ _ _ (0x1FF8 - f)); lia).
  split; [|unfold block_start; by rewrite E]. rewrite mask_8KB by (unfold _8MB; lia). unfold _8KB. by rewrite E.
Qed.

Lemma idle_esp b s' : 0 <= pl_frame P <= 0x1F00 ->
  m_esp (bm (idle P after b s')) = 0x7FFFF8 - pl_frame P /\
  call_esp (bm (idle P after b s')) = 0x7FFFF8 - (pl_frame P + 48).
Proof.
  intros Hf. assert (m_esp (bm (idle P after b s')) = 0x7FFFF8 - pl_frame P) as E by (by apply u32_small; lia).
  split; [done|]. unfold call_esp. rewrite kernel_frame_top by done. unfold frame_len.
  rewrite kernel_not_user by done. change (x_esp (context_of ?m)) with (m_esp m). rewrite E. lia.
Qed.

Lemma idle_interrupted b s' :
  0 <= pl_frame P <= 0x1F00 -> ss0 (k_tss (b_k s')) = KERNEL_DS -> interruptible (bm (idle P after b s')).
Proof.
  intros Hf Hss. destruct (idle_esp b s' Hf) as [E1 E2]. destruct (idle_block (pl_frame P + 48) ltac:(lia)) as [_ Hb].
  split; [by right|done|..]; rewrite kernel_frame_top by done; change (x_esp (context_of ?m)) with (m_esp m);
    rewrite E1; [lia|]. rewrite E2, Hb. lia.
Qed.

(** (C8) From the boot loader to the first program.  After [start] has reached the idle loop, the
    processor takes the first timer interrupt to the timer's wrapper, and the wrapper ends in user mode at
    the entry point of the shell in the file system, with the shell's file in the first program page, the
    idle loop suspended on the kernel stack, process 0 the only process and the shell's message on the
    otherwise blank screen. *)
Theorem power_on_runs_shell (J : locals) b mbi inode :
  image_wf img -> KERNEL_MEM_START <= start /\ start + Z.of_nat (length img) <= 2 * _4_MB ->
  multiboot_machine b mbi -> m_eax (bm b) = MULTIBOOT_BOOTLOADER_MAGIC -> 0 <= pl_frame P <= 0x1F00 ->
  (forall h, 0 <= l_handler N h < 2 ^ 32) -> 0x20 ∉ l_vects N ->
  locals_ok J -> (forall k, command_at k (shell J) (shell_text J)) ->
  program J img (c_str (cmd_name (shell_text J))) = Some inode -> 28 <= inode_len img inode <= load_cap ->
  (forall q, 0 <= q < 6 -> exists c, pcbs (k_proc (m_k (bm b))) !! get_pcb_by_pid q = Some c /\
    length (fdt c) = 8%nat /\ length (args c) = 128%nat) ->
  exists b' M, run_boot N P after b = Ok (Idling b') /\
    take_vector false 0 (b_idt (bm_tables b')) 0x20 = Some (l_handler N H_PT) /\
    interrupt (kernel_fun J []) after F_PT (bm b') = Ok M /\
    m_eip M = entry_point img inode /\ m_esp M = USER_ESP /\ user_context (context_of M) /\ m_ds M = USER_DS /\
    suspended_at (m_stack M) (call_esp (bm b')) (context_of (bm b')) /\
    bytes_at (k_mem (m_k M)) (load_pa 0) (file_contents img inode) /\
    paging_rep (k_pg (m_k M)) (Some 0) VIDEO_PAGE None /\
    used_pids (k_proc (m_k M)) = [1; 0; 0; 0; 0; 0] /\ curr_process (k_ter (m_k M)) = 0 /\
    tty_rep (m_k M) VIDEO_PAGE (tty_puts (Tty blank_screen 0 0) (exec_message 0 0)).
Proof.
  intros W Hs Mb Hm Hf Ha Hv HJ C Hp Hl Hq. pose proof Mb as [Hc Hb Hld _ _].
  apply loaded_entry in Hld. destruct (multiboot_entry b mbi W Hs Mb) as (s' & E & Bo).
  set (s := with_kernel (entry_kernel _) _) in *.
  destruct (Hq 0 ltac:(lia)) as (c & Hpc & _). destruct (idle_esp b s' Hf) as [_ Hsp].
  destruct (booted_due N img start s s' (get_pcb_by_pid 0) c) as (Hcp & Hct & tn & D); auto; [by split|].
  exists (idle P after b s').
  destruct (timer_shell_enters J after img start (bm (idle P after b s')) tn (get_pcb_by_pid 0) c None VIDEO_PAGE
    None blank_screen inode 0) as (M & k1 & k' & c1 & bb & EM & Hip & Husp & Hu & Hds & _ & Sc & HMk & X & Hp1 & Ht1); auto.
  - apply idle_interrupted; [done|]. by rewrite (bo_tss _ _ _ _ _ Bo).
  - apply (shell_due_cpu (b_k s')); [exact D|]. cbn [r_esp]. rewrite Hsp. apply idle_block. lia.
  - destruct (bo_fs _ _ _ _ _ Bo). by split.
  - change (used_pids _) with (used_pids (k_proc (b_k s'))). by rewrite (bo_proc _ _ _ _ _ Bo).
  - done.
  - change (curr_process (k_ter (call_kernel _))) with (curr_process (k_ter (b_k s'))) in *.
    change (curr_ter (k_ter (call_kernel _))) with (curr_ter (k_ter (b_k s'))) in *.
    rewrite Hcp in *. rewrite Hct in *. exists M. split; [apply start_idles; [done|by rewrite Hm, Hb]|]. split.
    { destruct Hld as [_ Hidt Hter _ _ _ _ (Hl1 & Hl2 & Hvs) _]. destruct (bo_idt _ _ _ _ _ Bo) as (ter & Ei & _).
      destruct (init_idt_spec (l_handler N) (l_vects N) (l_handlers N) (conj Hl1 Hl2) (b_idt s) (k_ter (b_k s)))
        as (ter' & _ & E2); [by rewrite Hidt, length_replicate|done|done|].
      rewrite E2 in Ei. injection Ei as Ei _. change (bm_tables (idle P after b s')) with s'. rewrite <- Ei.
      assert (length (b_idt s) = 256%nat) by by rewrite Hidt, length_replicate.
      apply filled_takes; auto. apply (bool_decide_unpack _). by vm_compute. }
    do 6 (split; [done|]). rewrite HMk. destruct X. split; [exact ex_image|]. split; [exact ex_map|].
    destruct ex_proc as (old & Hpr). split; [|split].
    + simpl. rewrite Hpr. cbn [used_pids]. rewrite Hp1. unfold saved_procs. change (next_ter 2 =? 0) with true.
      cbv iota. change (k_proc (call_kernel _)) with (k_proc (b_k s')). by rewrite (bo_proc _ _ _ _ _ Bo).
    + simpl. by rewrite ex_cp, Ht1.
    + rewrite Ht1 in ex_screen. destruct ex_screen. by split.
Qed.
End BootCodeClaims.
