(* ===== verification/BootCodeExamples.v ===== *)
(** * The boot code on a concrete machine

    The theorems of Structs.v and BootCode.v applied to the file system of
    ProcessExamples.v and the memory of BootExamples.v, with arbitrary values in the
    registers the boot loader does not determine. *)

From stdpp Require Import base gmap list numbers strings.
From Stdlib Require Import ZArith Lia.
From S2P Require Import Prelude Pointers Ports Pic Paging State Machine VirtMem CString MemFns.
From S2P Require Import Pcb Demo Screen Printf FileSystem FileExamples Rtc Syscalls Process Descriptors.
From S2P Require Import DescriptorExamples Idt Command Exec Launch ProcessExamples Sched SchedStart.
From S2P Require Import StartExamples Boot BootExamples Structs Asm Wrappers Traps TrapExamples BootCode.

#[local] Opaque prog_img start_mem.

Lemma image_is_structures_witness :
  bb_num_dir_entries (img_boot_block prog_img) = 1 /\
  exists e, bb_dir_entries (img_boot_block prog_img) !! 0%nat = Some e /\
    c_str (de_file_name e) = bytes_of_string "shell" /\ de_file_type e = 2.
Proof.
  assert (img_dentries prog_img = 1) as D by by vm_compute.
  destruct (image_is_structures prog_img prog_img_wf) as (E & _ & _ & H & _). rewrite D in *. split.
  - exact E.
  - specialize (H 0 ltac:(lia)). destruct H as (e & He & Hn & Ht & _). exists e. split; [exact He|].
    split; [rewrite Hn|rewrite Ht]; by vm_compute.
Defined.

Definition demo_place : placement := {| pl_gdt := 0x412000; pl_idt := 0x413000; pl_idle := 0x401234; pl_frame := 0x80 |}.

(** The boot loader's own segments, interrupts on. *)
Definition loader_mach (eax : Z) : bmach :=
  {| bm := {| m_eax := eax; m_ecx := 0x12345678; m_edx := 3; m_ebx := 0x10000; m_esi := 5; m_edi := 6; m_eip := 0;
              m_cs := 8; m_ss := 0x20; m_ds := 0x20; m_stack := ∅; m_k := b_k demo_boot |};
     bm_es := 0x20; bm_fs := 0x20; bm_gs := 0x20;
     bm_gdtr := {| tr_limit := 0x27; tr_addr := 0x9000 |}; bm_idtr := {| tr_limit := 0; tr_addr := 0 |};
     bm_tables := demo_boot |}.

Lemma loader_multiboot eax : multiboot_machine demo_linkage prog_img demo_start (loader_mach eax) 0x10000.
Proof.
  split; [reflexivity|reflexivity|exact demo_loaded|exact demo_boot_info|]. eexists _, _, _. reflexivity.
Qed.

Lemma start_boots_witness :
  (exists b', run_boot (L := demo_layout) demo_linkage demo_place trap_residue (loader_mach 0x2BADB002) = Ok (Idling b') /\
    bm_gs b' = 0x18 /\ tr (bm_tables b') = 0x30) /\
  exists b', run_boot (L := demo_layout) demo_linkage demo_place trap_residue (loader_mach 0x36d76289) = Ok (Stopped b') /\
    Z.testbit (m_flags (bm b')) IF_BIT = false.
Proof.
  split.
  - destruct (start_boots (L := demo_layout) demo_linkage demo_place trap_residue prog_img demo_start
      (loader_mach 0x2BADB002) 0x10000 prog_img_wf prog_bounds (loader_multiboot _)) as [H _].
    destruct (H eq_refl) as (b' & E & K & _ & Bo & _). exists b'. split; [exact E|]. split; [apply K|apply Bo].
  - destruct (start_boots (L := demo_layout) demo_linkage demo_place trap_residue prog_img demo_start
      (loader_mach 0x36d76289) 0x10000 prog_img_wf prog_bounds (loader_multiboot _)) as [_ H].
    destruct H as (b' & E & Hf & _); [discriminate|]. exists b'. split; [exact E|exact Hf].
Defined.

Lemma power_on_runs_shell_witness :
  exists b' M, run_boot (L := demo_layout) demo_linkage demo_place trap_residue (loader_mach 0x2BADB002) = Ok (Idling b') /\
    interrupt (kernel_fun (L := demo_layout) demo_locals []) trap_residue F_PT (bm b') = Ok M /\
    m_eip M = 0x80482E8 /\ m_cs M = USER_CS /\ bytes_at (k_mem (m_k M)) 0x848000 demo_prog.
Proof.
  destruct (power_on_runs_shell (L := demo_layout) demo_linkage demo_place trap_residue prog_img demo_start demo_locals
    (loader_mach 0x2BADB002) 0x10000 0) as (b' & M & E & _ & EM & Hip & _ & Hu & _ & _ & Hb & _).
  - exact prog_img_wf.
  - exact prog_bounds.
  - apply loader_multiboot.
  - reflexivity.
  - simpl. lia.
  - intros []; simpl; lia.
  - apply (bool_decide_unpack _). by vm_compute.
  - exact demo_locals_ok.
  - exact shell_command_at.
  - apply demo_program. reflexivity.
  - exact prog_fits.
  - intros q Hq. exists (numbered q). split; [by apply exec_pcbs_all|]. by split.
  - exists b', M. split; [exact E|]. split; [exact EM|]. split; [rewrite Hip; exact prog_entry|].
    split; [apply Hu|]. rewrite <- prog_contents. exact Hb.
Defined.
