(* ===== verification/Tests.v ===== *)
(** * The checkpoint tests (tests.c)

    Every function of tests.c, on the models of what it calls.  A test ends with a
    result, or in the handler of an [int] instruction, or in an exception the
    processor raises.  The theorems say what the tests report on a kernel that has
    booted: which of them pass, and which end in the exception they provoke. *)

From stdpp Require Import base gmap list numbers strings.
From Stdlib Require Import ZArith Lia.
From S2P Require Import Prelude Pointers Ports Pic Paging State Machine VirtMem CString Padding MemFns.
From S2P Require Import Pcb Demo Screen Printf FileSystem Rtc Keyboard Terminal Syscalls Process.
From S2P Require Import Idt Command Descriptors Exec Launch Sched SchedStart Boot Structs.

Definition PASS : Z := 1.
Definition FAIL : Z := 0.
Definition RIGHT_ADDRESS : Z := 0x400000.
Definition WRONG_ADDRESS : Z := 0x1000000.
Definition VIDEO_ADDRESS : Z := 0xB8000.

(** How a test ends. *)
Inductive test_end : Type :=
| Result (r : Z)
| Handler (h : Z)   (* an [int] instruction that continues at [h] *)
| Exception (v : Z).   (* the processor raises the exception with vector [v] *)

(** What the locals of the tests hold on entry, and where those are that other
    functions get by address. *)
Record test_locals : Type := {
  tl_curr_dir : list Z;
  tl_file_name : list Z;
  tl_s_file_name : list Z;
  tl_s_file_size : list Z;
  tl_s_index : list Z;
  tl_index_buf : list Z;
  tl_file_size_buf : list Z;
  tl_buf : Z;   (* the address of [buf] *)
}.

Section Tests.
Context `{L : Layout} (J : locals) (T : test_locals).

(** [int $v] in the kernel: an entry that is a gate but not present is the exception
    for that, anything else that cannot be taken a general protection exception. *)
Definition int_instr (idt : list idt_desc) (v : Z) : test_end :=
  match take_vector true 0 idt v with
  | Some h => Handler h
  | None =>
      match idt !! Z.to_nat v with
      | Some d =>
          let hi := (gate_words d).2 in
          if ((hi / 2 ^ 8) mod 2 ^ 5 =? 0xE) && ((hi / 2 ^ 15) mod 2 =? 0) then Exception NP_EXC
          else Exception GP_EXC
      | None => Exception GP_EXC
      end
  end.

Definition assertion_failure (idt : list idt_desc) : test_end := int_instr idt 15.

Definition TEST_HEADER (function : string) (line : Z) : K Z :=
  printf (j_printf J) (literal_ln "[TEST %s] Running %s at %s:%d")
    [AStr (literal function); AStr (literal function); AStr (literal "tests.c"); ANum line].

Definition TEST_OUTPUT (name : string) (result : Z) : K Z :=
  printf (j_printf J) (literal_ln "[TEST %s] Result = %s")
    [AStr (literal name); AStr (if negb (result =? 0) then literal "PASS" else literal "FAIL")].

(** ** Checkpoint 1 *)

(** The entry has no handler. *)
Definition no_handler (d : idt_desc) : bool := (offset_15_00 d =? NULL) && (offset_31_16 d =? NULL).

(** One check of the table; the rest runs when it holds. *)
Definition check_entry (idt : list idt_desc) (i : Z) (rest : res test_end) : res test_end :=
  d ← arr_get idt i;
  if no_handler d then Ok (assertion_failure idt) else rest.

(** The loop over the exceptions, without number 15. *)
Fixpoint check_exceptions (n : nat) (i : Z) (idt : list idt_desc) (rest : res test_end) : res test_end :=
  match n with
  | 0%nat => rest
  | S n =>
      if i =? 15 then check_exceptions n (i + 1) idt rest
      else check_entry idt i (check_exceptions n (i + 1) idt rest)
  end.

Definition idt_test (idt : list idt_desc) : K test_end :=
  TEST_HEADER "idt_test" 48;;
  lift (check_exceptions 21 0 idt
    (check_entry idt 30 (check_entry idt 33 (check_entry idt 40 (check_entry idt 128
      (Ok (Result PASS))))))).

(** [b / a] on [int]s. *)
Definition int_div (b a : Z) : option Z := if a =? 0 then None else Some (s32 (Z.quot b a)).

Definition test_division_by_zero : test_end :=
  let a := 0 in
  let b := 3 in
  match int_div b a with Some _ => Result FAIL | None => Exception DE_EXC end.

(** A load through a pointer that is not mapped raises a page fault. *)
Definition test_deref_null : K Z :=
  b ← load_word NULL;
  putc (u8 b);;
  mret FAIL.

Definition test_deref_address (addr : Z) : K Z :=
  b ← load_word addr;
  b' ← load_word addr;
  mret (if negb (b =? b') then FAIL else PASS).

Definition test_gen_protection (idt : list idt_desc) : test_end := int_instr idt 15.

Definition test_sys_call (idt : list idt_desc) : test_end := int_instr idt SYS_CALL.

(** ** Checkpoint 2 *)

(** The locals of [test_ls]. *)
Record ls_locals : Type := {
  curr_dir : list Z;
  file_name : list Z;
  s_file_name : list Z;
  s_file_size : list Z;
  s_index : list Z;
  index_buf : list Z;
  file_size_buf : list Z;
}.

(** [left_pad] between two locals; [sp] stands for their addresses. *)
Definition pad_local (sp : Z) (inp out : list Z) (len : Z) : res (list Z) :=
  o ← left_pad (ptr_fst (arr_ptr sp)) (ptr_snd (arr_ptr sp)) len (inp, out); Ok o.2.

(** One entry of the listing. *)
Definition ls_entry (sp i : Z) (l : ls_locals) (k : kernel) : res (Z * kernel + ls_locals * kernel) :=
  r ← read_dentry_by_index vptr1 (k_fs k) (u32 i) (ptr_snd (arr_ptr sp)) (k, curr_dir l);
  if r.1 =? -1 then Ok (inl (FAIL, k))
  else
    let dir := r.2.2 in
    inode_num ← local32 dir DENTRY_INODE_NUM;
    file_size ← get_file_size vptr (k_fs k) inode_num k;
    file_type ← local32 dir DENTRY_FILE_TYPE;
    o ← strncpy (ptr_fst (arr_ptr sp)) (ptr_snd (arr_ptr sp)) 32 (file_name l, dir);
    name ← arr_set o.1 32 0;
    index ← itoa (u32 i) (arr_ptr sp) 10 (index_buf l);
    size ← itoa (u32 file_size) (arr_ptr sp) 10 (file_size_buf l);
    sindex ← pad_local sp index (s_index l) 2;
    ssize ← pad_local sp size (s_file_size l) 9;
    sname ← pad_local sp name (s_file_name l) 32;
    p ← printf (j_printf J) (literal_ln "    %s   %s      %d   %s")
      [AStr (lit_ptr sp sindex); AStr (lit_ptr sp sname); ANum (u32 file_type); AStr (lit_ptr sp ssize)] k;
    Ok (inr ({| curr_dir := dir; file_name := name; s_file_name := sname; s_file_size := ssize;
                s_index := sindex; index_buf := index; file_size_buf := size |}, p.2)).

Definition test_ls : K Z :=
  sp ← gets (fun k => r_esp (k_cpu k));
  num_dir ← gets (fun k => s32 (get_num_dir_entries (k_fs k)));
  puts (literal_ln " Index |                        File Name | Type |      Size ");;
  ((fun k =>
    loop FUEL (fun '(i, l, k) =>
      if i <? num_dir then
        r ← ls_entry sp i l k;
        match r with inl e => Ok (inr e) | inr (l, k) => Ok (inl (i + 1, l, k)) end
      else Ok (inr (PASS, k)))
      (0, {| curr_dir := tl_curr_dir T; file_name := tl_file_name T; s_file_name := tl_s_file_name T;
             s_file_size := tl_s_file_size T; s_index := tl_s_index T; index_buf := tl_index_buf T;
             file_size_buf := tl_file_size_buf T |}, k)) : K Z).

Definition test_dir_read : K Z :=
  num_dir ← gets (fun k => s32 (get_num_dir_entries (k_fs k)));
  ((fun k =>
    loop FUEL (fun '(i, k) =>
      if i <? num_dir then
        r ← dir_read (j_entry J, j_name J) 0 (tl_buf T) 600 k;
        if r.1 =? -1 then Ok (inr (FAIL, r.2))
        else
          k ← vstore r.2 (u32 (tl_buf T + 32)) 0;
          p ← printf (j_printf J) (literal_ln "%d. %s") [ANum (u32 i); AStr (vptr (tl_buf T))] k;
          Ok (inl (i + 1, p.2))
      else Ok (inr (PASS, k))) (0, k)) : K Z).

(** [filename] is not looked at. *)
Definition test_rtc_open : K unit := rtc_open 0x400000;; mret tt.

Fixpoint rtc_reads (n : nat) (i : Z) (irqs : list (K unit)) : K unit :=
  match n with
  | 0%nat => mret tt
  | S n =>
      r ← rtc_read irqs 0 NULL 0;
      puts (literal "rtc occured ");;
      printf (j_printf J) (literal_ln "--%d--") [ANum i];;
      rtc_reads n (i + 1) r.2
  end.

Definition test_rtc_read (irqs : list (K unit)) : K Z :=
  puts (literal_ln "Testing RTC read");;
  rtc_reads 16 0 irqs;;
  mret PASS.

Definition test_rtc_write (f bytes : Z) : K Z :=
  ((fun k => k ← store_list (vptr (tl_buf T)) 0 (le_bytes 4 (u32 f)) k; Ok (tt, k)) : K unit);;
  r ← rtc_write 0 (tl_buf T) bytes;
  mret (if r =? -1 then FAIL else PASS).

Definition test_terminal_read_and_write (irqs : list (K unit)) (readSize : Z) : K Z :=
  puts (literal_ln "*** RUNNING test_terminal_read_and_write ***");;
  puts (literal "Enter your name:");;
  r ← terminal_read (j_line J) irqs 0 (tl_buf T) readSize;
  if r.1 =? -1 then mret FAIL
  else
    kstore (u32 (tl_buf T + 128)) 0;;
    puts (literal "Hello, ");;
    n ← ((fun k => n ← strlen (vptr (tl_buf T)) k; Ok (n, k)) : K Z);
    terminal_write 1 (tl_buf T) (s32 n);;
    mret PASS.

(** ** Checkpoint 3 *)

(** The call's number is also in %edx; %ebx and %ecx are as the compiler left them. *)
Definition test_system_call (irqs : list (K unit)) (ebx ecx n : Z) : K outcome :=
  printf (j_printf J) (literal "Calling system call %d for testing ") [ANum (u32 n)];;
  r ← SYS_handler_wrapper J irqs (u32 n) ebx ecx (u32 n);
  match r with
  | Returns ret => mret (Returns (if ret =? -1 then FAIL else PASS))
  | _ => mret r
  end.

Definition test_sys_open (filename : Z) : K Z :=
  fd ← sys_open J filename;
  mret (if 1 <? fd then PASS else FAIL).

Definition test_sys_close (fd : Z) : K Z :=
  r ← sys_close fd;
  mret (if r =? -1 then FAIL else PASS).

Definition test_sys_read_write (irqs : list (K unit)) (fd : Z) : K Z :=
  r ← sys_read J irqs fd (tl_buf T) 200;
  if r.1 =? -1 then mret FAIL
  else
    kstore (u32 (tl_buf T + 199)) 0;;
    n ← ((fun k => n ← strlen (vptr (tl_buf T)) k; Ok (n, k)) : K Z);
    sys_write 1 (tl_buf T) (s32 n);;
    mret PASS.

(** The suite: the other tests are commented out.  [sys_execute] comes back when the
    shell cannot be started, or has halted. *)
Definition launch_tests : K outcome := sys_execute J (shell J).
End Tests.

(** ** What the tests report *)

Section TestFacts.
Context `{L : Layout} (J : locals) (T : test_locals).
Implicit Types (k : kernel).

(** A gate with a handler passes a check. *)
Lemma gate_has_handler level h : 0 < h < 2 ^ 32 -> no_handler (gate level h) = false.
Proof.
  intros Hh. unfold no_handler, gate, fill_gate, SET_IDT_ENTRY, NULL. cbn [offset_15_00 offset_31_16].
  rewrite u32_small by lia. change 0xFFFF0000 with (Z.shiftl (Z.ones 16) 16). change 0xFFFF with (Z.ones 16).
  rewrite field_of, Z.land_ones by lia.
  destruct (Z.eqb_spec (h mod 2 ^ 16) 0); [|done]. destruct (Z.eqb_spec ((h / 2 ^ 16) mod 2 ^ 16) 0); [|done].
  exfalso. Z.to_euclidean_division_equations. lia.
Qed.

Section Table.
Context (addr_of : handler -> Z) (vects_behind handlers_behind : list Z).
Hypothesis Haddr : forall h, 0 < addr_of h < 2 ^ 32.
Hypothesis Hlen : length vects_behind = 12%nat /\ length handlers_behind = 12%nat.
Hypothesis Hok : Forall vector_ok vects_behind.
Hypothesis Hapart : forall v, v ∈ vects_behind -> 0x40 <= v /\ v <> SYS_CALL.

Let idt : list idt_desc := filled addr_of vects_behind handlers_behind (replicate 256 zero_desc).

Lemma check_passes v rest :
  bool_decide (v ∈ vector_table.*1) = true -> v < 0x40 \/ v = SYS_CALL -> 0 <= v -> check_entry idt v rest = rest.
Proof.
  intros Hin%bool_decide_eq_true Hv H0. apply list_elem_of_fmap in Hin as ((v' & h) & -> & Hin). cbn [fst] in *.
  unfold check_entry, idt. assert (v' ∉ vects_behind) as Hn by (intros Hb; apply Hapart in Hb; lia).
  pose proof (filled_at addr_of vects_behind handlers_behind Hlen (replicate 256 zero_desc) v' h
    (length_replicate _ _) Hok Hin Hn) as E.
  apply arr_get_Some in E. rewrite Z2Nat.id in E by done. rewrite E, Ok_bind. by rewrite gate_has_handler.
Qed.

Lemma exceptions_pass n i rest :
  (forall j r, i <= j < i + Z.of_nat n -> j <> 15 -> check_entry idt j r = r) -> check_exceptions n i idt rest = rest.
Proof.
  revert i. induction n as [|n IH]; intros i H; [done|]. cbn [check_exceptions].
  destruct (Z.eqb_spec i 15); [|rewrite H by lia]; apply IH; intros j r Hj; apply H; lia.
Qed.

Lemma idt_checks :
  check_exceptions 21 0 idt (check_entry idt 30 (check_entry idt 33 (check_entry idt 40 (check_entry idt 128
    (Ok (Result PASS)))))) = Ok (Result PASS).
Proof.
  rewrite exceptions_pass; [by rewrite !check_passes by (reflexivity || (unfold SYS_CALL; lia))|].
  intros j r Hj Hne. apply check_passes; [|lia|lia].
  assert (Forall (fun j => j = 15 \/ bool_decide (j ∈ vector_table.*1) = true) (seqZ 0 21)) as F
    by (repeat (constructor; [by (left; reflexivity) || (right; reflexivity)|]); constructor).
  destruct (proj1 (list.Forall_forall _ _) F j) as [|]; [apply elem_of_seqZ; lia|done|done].
Qed.

(** Vector 15 has no gate. *)
Lemma vector_15_empty : idt !! 15%nat = Some zero_desc.
Proof.
  assert (15 ∉ vects_behind) as Hn by (intros Hb; apply Hapart in Hb; lia).
  unfold idt, filled. pose proof vectors_ok as [V1 V2]%Forall_app. change 15%nat with (Z.to_nat 15).
  unfold put_gate at 1. rewrite list_lookup_insert_ne by (unfold SYS_CALL; simpl; lia).
  rewrite !put_gates_other; rewrite ?fst_zip by (simpl; lia); try done.
  - refine (bool_decide_unpack _ _). by vm_compute.
  - refine (bool_decide_unpack _ _). by vm_compute.
Qed.
End Table.

(** A literal as the argument of [%s]. *)
Lemma rendered_literal vid k (s : string) fmt args out :
  forallb (fun c => (0 <? c) && (c <? 256)) (bytes_of_string s) = true ->
  Z.of_nat (length (bytes_of_string s)) < 2 ^ 31 -> rendered vid k fmt args out ->
  rendered vid k (37 :: 115 :: fmt) (AStr (literal s) :: args) (bytes_of_string s ++ out).
Proof. intros Ht Hl R. apply r_str; [intros k' _; apply literal_holds|by apply text_bytes|done|done]. Qed.

(** The line a test starts with. *)
Definition header_line : list Z := bytes_of_string "[TEST idt_test] Running idt_test at tests.c:48" ++ [10].

Lemma header_rendered vid k :
  rendered vid k (bytes_of_string "[TEST %s] Running %s at %s:%d" ++ [10])
    [AStr (literal "idt_test"); AStr (literal "idt_test"); AStr (literal "tests.c"); ANum 48] header_line.
Proof.
  apply (rendered_text vid k (bytes_of_string "[TEST ")); [done|]. apply (rendered_literal vid k "idt_test"); [done..|].
  apply (rendered_text vid k (bytes_of_string "] Running ")); [done|]. apply (rendered_literal vid k "idt_test"); [done..|].
  apply (rendered_text vid k (bytes_of_string " at ")); [done|]. apply (rendered_literal vid k "tests.c"); [done..|].
  apply (rendered_text vid k (bytes_of_string ":")); [done|].
  apply (r_signed vid k 48 [52; 56] [10] [] [10]); [lia| |].
  - split; [done|]. split; [by repeat constructor|]. repeat split; simpl; lia || discriminate.
  - apply (rendered_text vid k [10] [] [] []); [done|constructor].
Qed.

Lemma header_prints k vid t :
  locals_ok J -> tty_rep k vid t ->
  exists k' n, TEST_HEADER J "idt_test" 48 k = Ok (n, k') /\ tty_rep k' vid (tty_puts t header_line) /\
    screen_frame vid k k'.
Proof.
  intros HJ H.
  destruct (printf_rep (j_printf J) (literal_ln "[TEST %s] Running %s at %s:%d")
    (bytes_of_string "[TEST %s] Running %s at %s:%d" ++ [10])
    [AStr (literal "idt_test"); AStr (literal "idt_test"); AStr (literal "tests.c"); ANum 48] header_line k vid t
    (lo_printf _ HJ) H (header_rendered vid k)) as (k' & E & R & F).
  - done.
  - intros k' _ i b Hi. by apply arr_get_Some.
  - eauto.
Qed.

Lemma K_bind_Err {A B} (m : K A) (f : A -> K B) k e : m k = Err e -> (m ≫= f) k = Err e.
Proof. intros H. unfold mbind, K_bind. by rewrite H. Qed.

(** A word at an address that is not mapped, and at one that is. *)
Lemma deref_fault k prog vid uvid a :
  paging_rep (k_pg k) prog vid uvid -> 0 <= a < 2 ^ 32 -> memory_map false prog vid uvid a = None ->
  load_word a k = Err (PageFault a).
Proof.
  intros R Ha Hm. unfold load_word, load32. cbn [load_list load vptr]. unfold vload.
  rewrite Z.add_0_r, (u32_small a), (translate_map _ _ _ _ R _ a) by lia. by rewrite Hm.
Qed.

Lemma deref_passes k a pa bs :
  maps (k_pg k) a pa 4 -> length bs = 4%nat -> bytes_at (k_mem k) pa bs -> test_deref_address a k = Ok (PASS, k).
Proof.
  intros Hm Hl Hb. assert (load_word a k = Ok (from_le bs, k)) as E
    by (unfold load_word; by rewrite (load32_block k a pa bs Hm Hl Hb)).
  unfold test_deref_address. kstep E. kstep E. by rewrite Z.eqb_refl.
Qed.

(** The first word of the screen is there. *)
Lemma screen_word k vid t : tty_rep k vid t -> test_deref_address VIDEO_ADDRESS k = Ok (PASS, k).
Proof.
  intros [(prog & uvid & R) Hs _ _ _ _ _ _].
  destruct (shows_bytes k vid _ 0 Hs ltac:(lia)) as [b0 B0]. destruct (shows_bytes k vid _ 1 Hs ltac:(lia)) as [b1 B1].
  destruct (shows_bytes k vid _ 2 Hs ltac:(lia)) as [b2 B2]. destruct (shows_bytes k vid _ 3 Hs ltac:(lia)) as [b3 B3].
  apply (deref_passes k _ (vid * 4096) [b0; b1; b2; b3]); [|done|].
  - intros i Hi. apply (video_translate _ _ _ _ i R). lia.
  - intros [|[|[|[|]]]] b Hb; simplify_eq/=; done.
Qed.
End TestFacts.

Section TestClaims.
Context `{L : Layout} (J : locals) (T : test_locals).

(** The tests of the first checkpoint, on the table [init_idt] builds and with paging on: [idt_test]
    prints its header and passes; the interrupt without an entry raises a general protection exception, the
    system call reaches its handler and the division by zero raises its exception; reading through a null
    pointer or at 16 MB raises a page fault, and reading the screen and the kernel's own memory passes. *)
Lemma checkpoint_1_tests addr_of vects_behind handlers_behind ter idt ter' k vid t :
  locals_ok J -> tty_rep k vid t -> (forall h, 0 < addr_of h < 2 ^ 32) ->
  length vects_behind = 12%nat -> length handlers_behind = 12%nat -> Forall vector_ok vects_behind ->
  (forall v, v ∈ vects_behind -> 0x40 <= v /\ v <> SYS_CALL) -> length (terminals ter) = 3%nat ->
  init_idt addr_of vects_behind handlers_behind (replicate 256 zero_desc) ter = Ok (idt, ter') ->
  (exists k', idt_test J idt k = Ok (Result PASS, k') /\ tty_rep k' vid (tty_puts t header_line) /\
    screen_frame vid k k') /\
  test_gen_protection idt = Exception GP_EXC /\ test_sys_call idt = Handler (addr_of H_SYS) /\
  test_division_by_zero = Exception DE_EXC /\
  test_deref_null k = Err (PageFault NULL) /\ test_deref_address WRONG_ADDRESS k = Err (PageFault WRONG_ADDRESS) /\
  test_deref_address VIDEO_ADDRESS k = Ok (PASS, k) /\
  (forall bs, length bs = 4%nat -> bytes_at (k_mem k) RIGHT_ADDRESS bs ->
    test_deref_address RIGHT_ADDRESS k = Ok (PASS, k)).
Proof.
  intros HJ H Ha Hl1 Hl2 Hv Hap Ht Ei. pose proof H as [(prog & uvid & R) _ _ _ _ _ _ _].
  assert (forall h, 0 <= addr_of h < 2 ^ 32) as Ha' by (intros h; specialize (Ha h); lia).
  destruct (init_idt_spec addr_of vects_behind handlers_behind (conj Hl1 Hl2) (replicate 256 zero_desc) ter)
    as (ter1 & _ & E); [apply length_replicate|done|done|].
  assert (idt = filled addr_of vects_behind handlers_behind (replicate 256 zero_desc)) as -> by congruence.
  split; [|split; [|split; [|split; [|split; [|split; [|split]]]]]].
  - destruct (header_prints J k vid t HJ H) as (k' & n & Ep & Hr & F). exists k'. split; [|by split].
    unfold idt_test. kstep Ep. unfold lift. by rewrite (idt_checks addr_of vects_behind handlers_behind).
  - unfold test_gen_protection, int_instr, take_vector. change (Z.to_nat 15) with 15%nat.
    by rewrite (vector_15_empty addr_of vects_behind handlers_behind).
  - unfold test_sys_call, int_instr.
    assert (SYS_CALL ∉ vects_behind) as Hs by (intros Hb; by apply Hap in Hb as [_ ?]).
    rewrite (take_gate true 0 _ SYS_CALL 3 (addr_of H_SYS)); [done| |done|lia|done].
    apply (filled_at addr_of vects_behind handlers_behind (conj Hl1 Hl2) _ SYS_CALL H_SYS);
      [apply length_replicate|done|refine (bool_decide_unpack _ _); by vm_compute|done].
  - done.
  - apply K_bind_Err. by apply (deref_fault k prog vid uvid).
  - apply K_bind_Err. by apply (deref_fault k prog vid uvid).
  - by apply (screen_word k vid t).
  - intros bs Hl Hb. apply (deref_passes k _ RIGHT_ADDRESS bs); [|done|done].
    apply (kernel_maps _ _ _ _ _ _ R); done.
Qed.

(** The kernel with [f] in the test's array. *)
Definition with_buf (f : Z) (k : kernel) : kernel :=
  set_k_mem (put_bytes (tl_buf T) (le_bytes 4 (u32 f)) (k_mem k)) k.

Lemma buf_stored k prog vid uvid f :
  paging_rep (k_pg k) prog vid uvid -> KERNEL_MEM_START <= tl_buf T -> tl_buf T + 16 <= 2 * _4_MB ->
  store_list (vptr (tl_buf T)) 0 (le_bytes 4 (u32 f)) k = Ok (with_buf f k) /\
  load32 vptr (tl_buf T) (with_buf f k) = Ok (u32 f).
Proof.
  intros R Hb He. pose proof (kernel_maps _ _ _ _ (tl_buf T) 4 R Hb ltac:(lia)) as Hm.
  split.
  - rewrite (vptr_store_list k (tl_buf T) (tl_buf T) 4 0) by (done || (rewrite le_bytes_length; lia)).
    by rewrite Z.add_0_r.
  - rewrite (load32_block (with_buf f k) (tl_buf T) (tl_buf T) (le_bytes 4 (u32 f)) Hm);
      [|apply le_bytes_length|apply bytes_at_put].
    rewrite from_le_bytes; [done|]. apply u32_range.
Qed.

Lemma s32_u32 z : - 2 ^ 31 <= z < 2 ^ 31 -> s32 (u32 z) = z.
Proof. intros Hz. rewrite <- (s32_small z Hz) at 2. unfold s32, u32, signed. cbv zeta. by rewrite Z.mod_mod by lia. Qed.

(** [test_rtc_write] passes exactly for the clock's frequencies, the powers of two from 2 to 1024, in four
    bytes: the process then has the frequency and every process is still served.  Every other number and
    every other size fail, and change nothing but the test's own array. *)
Lemma test_rtc_write_reports k p b prog vid uvid f bytes c cs :
  rtc_ok k -> running k p b -> paging_rep (k_pg k) prog vid uvid ->
  KERNEL_MEM_START <= tl_buf T -> tl_buf T + 16 <= 2 * _4_MB ->
  io_in (k_io k) = c :: cs -> - 2 ^ 31 <= f < 2 ^ 31 ->
  (is_freq f -> bytes = 4 -> exists k' b', test_rtc_write T f bytes k = Ok (PASS, k') /\ rtc_ok k' /\
    running k' p b' /\ prog_freq b' = f) /\
  (~ (is_freq f /\ bytes = 4) -> test_rtc_write T f bytes k = Ok (FAIL, with_buf f k)).
Proof.
  intros Ro Hr R Hb He Hin Hf. destruct (buf_stored k prog vid uvid f R Hb He) as [E1 E2].
  assert (tl_buf T <> NULL) as Hne by (unfold KERNEL_MEM_START, NULL in *; lia).
  unfold test_rtc_write. split.
  - intros Hq ->. pose proof (freq_range f Hq) as Hfr. rewrite u32_small in E1, E2 by lia.
    destruct (rtc_write_spec (with_buf f k) p b (tl_buf T) 0 f c cs) as (k' & b' & E & Ro' & Hr' & Hp & _);
      [by destruct Ro|by destruct Hr|done|done|done|done|].
    exists k', b'. split; [|done]. rewrite u32_small by lia.
    rewrite (K_bind_Ok _ _ k tt (with_buf f k)) by by rewrite E1. cbv beta. by kstep E.
  - intros Hnot. rewrite (K_bind_Ok _ _ k tt (with_buf f k)) by by rewrite E1. cbv beta.
    rewrite (K_bind_Ok _ _ (with_buf f k) ERROR (with_buf f k)); [done|].
    apply (rtc_write_rejects _ _ _ _ (u32 f)). intros _ ->. split; [done|]. intros Hq. apply Hnot. split; [|done].
    by rewrite s32_u32 in Hq.
Qed.

(** A number that is no system call. *)
Lemma test_system_call_refused k vid t irqs ebx ecx n out :
  locals_ok J -> tty_rep k vid t -> - 2 ^ 31 <= n < 2 ^ 31 -> ~ (1 <= n <= 10) ->
  rendered vid k (bytes_of_string "Calling system call %d for testing ") [ANum (u32 n)] out ->
  exists k', test_system_call J irqs ebx ecx n k = Ok (Returns FAIL, k') /\ tty_rep k' vid (tty_puts t out) /\
    screen_frame vid k k'.
Proof.
  intros HJ H Hn Hr Ho.
  destruct (printf_rep (j_printf J) (literal "Calling system call %d for testing ") _ _ _ k vid t (lo_printf _ HJ) H Ho)
    as (k' & E & R & F); [done|intros k' _; apply literal_holds|].
  exists k'. split; [|done]. unfold test_system_call. kstep E.
  assert (10 <= u32 (u32 n - 1)) as Hw by (unfold u32; Z.to_euclidean_division_equations; lia).
  rewrite (K_bind_Ok _ _ k' (Returns (-1)) k'); [done|]. unfold SYS_handler_wrapper.
  rewrite (proj2 (Z.leb_le _ _) Hw). by destruct k' as [??????????? []].
Qed.

(** [test_sys_close] fails for a descriptor that is not open, and passes for an open
    one, which is then closed: a second close of it fails. *)
Lemma test_sys_close_reports k par blk fd e fo :
  running_pcb k par blk -> 2 <= fd -> fdt blk !! Z.to_nat fd = Some e -> fot_ptr e = Some fo -> fo <> rtc_fot ->
  (enabled e = 0 -> test_sys_close fd k = Ok (FAIL, k)) /\
  (enabled e <> 0 -> exists k', test_sys_close fd k = Ok (PASS, k') /\ test_sys_close fd k' = Ok (FAIL, k')).
Proof.
  intros H Hfd He Hf Hne. unfold test_sys_close. split.
  - intros Hz. by kstep (sys_close_error k par blk fd H (or_intror (ex_intro _ e (conj He Hz)))).
  - intros Hen. set (T' := <[Z.to_nat fd := set_enabled 0 e]> (fdt blk)).
    pose proof (sys_close_open k par blk fd e fo H Hfd He Hen Hf) as E. fold T' in E.
    exists (with_fdt k par blk T'). split.
    + rewrite (K_bind_Ok _ _ k 0 (with_fdt k par blk T')); [done|]. rewrite E. by destruct fo.
    + assert (T' !! Z.to_nat fd = Some (set_enabled 0 e)) as Ht
        by (apply list_lookup_insert_eq; by eapply lookup_lt_Some).
      by kstep (sys_close_error _ par _ fd (running_with_fdt k par blk T' H)
        (or_intror (ex_intro _ (set_enabled 0 e) (conj Ht eq_refl)))).
Qed.
End TestClaims.
