(* ===== verification/TestExamples.v ===== *)
(** * The tests on a concrete kernel

    The theorems of Tests.v applied to the kernels of Screen.v and Rtc.v. *)

From stdpp Require Import base gmap list numbers strings.
From Stdlib Require Import ZArith Lia.
From S2P Require Import Prelude Pointers Ports Pic Paging State Machine VirtMem CString MemFns.
From S2P Require Import Pcb Demo Screen Printf FileSystem Rtc Syscalls Process Idt Command Descriptors.
From S2P Require Import DescriptorExamples ProcessExamples StartExamples Tests.

Definition demo_tests : test_locals :=
  {| tl_curr_dir := replicate 64 0; tl_file_name := replicate 33 0; tl_s_file_name := replicate 33 0;
     tl_s_file_size := replicate 10 0; tl_s_index := replicate 3 0; tl_index_buf := replicate 2 0;
     tl_file_size_buf := replicate 9 0; tl_buf := 0x7FFE00 |}.

Lemma checkpoint_1_tests_witness :
  exists idt ter', init_idt demo_addr (replicate 12 0x40) (replicate 12 0) (replicate 256 zero_desc) (k_ter demo_state) =
      Ok (idt, ter') /\
    (exists k', idt_test (L := demo_layout) demo_locals idt demo_kernel = Ok (Result PASS, k')) /\
    test_gen_protection idt = Exception GP_EXC /\
    test_deref_address (L := demo_layout) WRONG_ADDRESS demo_kernel = Err (PageFault 0x1000000).
Proof.
  assert (Forall vector_ok (replicate 12 0x40)) as Hv by (apply Forall_replicate; unfold vector_ok, NUM_VEC; lia).
  destruct (init_idt_spec demo_addr (replicate 12 0x40) (replicate 12 0) (conj eq_refl eq_refl)
    (replicate 256 zero_desc) (k_ter demo_state)) as (ter' & _ & E); [apply length_replicate|exact Hv|reflexivity|].
  exists (filled demo_addr (replicate 12 0x40) (replicate 12 0) (replicate 256 zero_desc)), ter'. split; [exact E|].
  destruct (checkpoint_1_tests (L := demo_layout) demo_locals demo_addr (replicate 12 0x40) (replicate 12 0)
    (k_ter demo_state) (filled demo_addr (replicate 12 0x40) (replicate 12 0) (replicate 256 zero_desc)) ter'
    demo_kernel VIDEO_PAGE clear_tty) as ((k' & Ek & _) & Hg & _ & _ & _ & Hw & _).
  - exact demo_locals_ok.
  - exact demo_kernel_rep.
  - intros []; simpl; lia.
  - reflexivity.
  - reflexivity.
  - exact Hv.
  - intros v Hin. apply elem_of_replicate in Hin as [-> _]. split; [lia|discriminate].
  - reflexivity.
  - exact E.
  - split; [exists k'; exact Ek|]. split; [exact Hg|exact Hw].
Defined.

(** 64 Hz is a frequency of the clock, 11 is none, and five bytes are refused. *)
Lemma test_rtc_write_reports_witness :
  (exists k', test_rtc_write (L := demo_layout) demo_tests 64 4 (demo_rtc_kernel bss_pcb) = Ok (PASS, k')) /\
  (exists k', test_rtc_write (L := demo_layout) demo_tests 11 4 (demo_rtc_kernel bss_pcb) = Ok (FAIL, k')) /\
  exists k', test_rtc_write (L := demo_layout) demo_tests 16 5 (demo_rtc_kernel bss_pcb) = Ok (FAIL, k').
Proof.
  assert (forall f bytes, - 2 ^ 31 <= f < 2 ^ 31 -> _) as H
    by (intros f bytes Hf; exact (test_rtc_write_reports (L := demo_layout) demo_tests (demo_rtc_kernel bss_pcb) 1 bss_pcb
      None VIDEO_PAGE None f bytes 0x26 [0; 0] (demo_rtc_ok bss_pcb (or_introl eq_refl)) (demo_rtc_running bss_pcb)
      demo_paging_rep ltac:(discriminate) ltac:(discriminate) eq_refl Hf)).
  split; [|split].
  - destruct (proj1 (H 64 4 ltac:(lia))) as (k' & b' & E & _); [exists 6; split; [lia|reflexivity]|reflexivity|].
    exists k'. exact E.
  - eexists. apply (proj2 (H 11 4 ltac:(lia))). intros [(m & Hm & E) _].
    assert (Forall (fun m => 11 <> 2 ^ m) (seqZ 1 10)) as F by (repeat constructor; discriminate).
    apply (proj1 (list.Forall_forall _ _) F m); [apply elem_of_seqZ; lia|exact E].
  - eexists. apply (proj2 (H 16 5 ltac:(lia))). intros [_ E]. discriminate.
Defined.
